(* ===== verification/_CoqProject ===== *)
-Q . S2P
Prelude.v
Machine.v
Lib.v
Paging.v
Devices.v
State.v
Console.v
Printf.v
Terminal.v
Filesystem.v
SysCall.v
Keyboard.v
Process.v
Scheduler.v
Idt.v
User.v
Programs.v
Pingpong.v
Isolation.v
Lifetime.v
Faults.v
Counter.v
Syserr.v
Boot.v
Startup.v
Session.v
