(* ===== verification/Prelude.v ===== *)
(** * A verified model of the student-distrib kernel

    ** The program

    src/student-distrib is a small 32-bit x86 kernel: three text terminals, a read-only file
    system in a boot module, six process slots with one 4 MB user page each, a round-robin
    scheduler driven by the timer, and ten system calls.  [entry] (kernel.c) starts the
    components and waits; from then on everything happens in interrupt routines (idt.c,
    linkage.S): the timer runs [scheduler_next], the keyboard [check_input], INT 0x80 the
    system call named by EAX.

    ** The files

    - [Prelude]: machine integers as [Z] with their wrap-around, lists indexed by [Z],
      counted and unbounded loops, record updates, the monad [prog] of the stateful code.
    - [Machine]: byte-addressed memory as an interface ([AddrSpace], [AddrSpaceLaws]) that
      the memory routines and the file system are written against.
    - [Lib]: the string and memory routines and [itoa] of lib.c.
    - [Paging]: paging.c and the page walk of the processor, with the tables in force being
      those of the last CR3 reload.
    - [Devices]: i8259.c, rtc.c, pit.c and the cursor ports; the port writes are a log, and
      [pic_state], [cmos] and [vga_cursor] say what a device makes of it.
    - [State]: [kernel], all the state of the kernel, an instance of [AddrSpace].
    - [Console], [Printf]: putc, puts, printf, clear, scrolling and the cursor (lib.c).
    - [Terminal]: terminal.c, and the line buffers and [switch_terminals] of scheduler.c.
    - [Filesystem]: filesystem.c and pcb.c.
    - [SysCall], [Process]: sys_call.c with the context switches of linkage.S; [execute] and
      [halt] are in [Process].
    - [Keyboard]: keyboard.c, and the abstract line editor it implements.
    - [Scheduler]: the rest of scheduler.c.
    - [Idt]: idt.c, the gates as the processor reads them, the system call dispatch.
    - [User]: the programs' side: the stubs, [_start] and the support functions of
      src/syscalls, on the memory and through the INT 0x80 of the kernel; [in_program] and
      [left] say what a running program relies on and what a call leaves.
    - [Programs], [Pingpong], [Counter], [Syserr]: the programs of src/syscalls and what
      they do; [Pingpong] has the read of the clock with the tick it waits for.
    - [Isolation]: the requests a program can make, and what they leave of the system.
    - [Lifetime]: a program from the [execute] that starts it to the [halt] that ends it,
      and a whole command of the shell.
    - [Faults]: programs that a page fault ends, sigtest among them.
    - [Boot]: [entry] of kernel.c.
    - [Startup]: the shells that the first ticks after the boot start, and start again.
    - [Session]: theorems about the keyboard, the terminals and the scheduler at once.

    A definition has the name of the function it translates.  A part of a function that has
    a definition of its own (the body of a loop, a case of a switch) has a name that says
    so; the manifest gives the lines.

    ** How the code is modelled

    Pure functions are functions; the others are functions on [kernel] (or on the part of it
    they touch), in the monad [prog] when they can wait for an interrupt ([Wait], with the
    state they wait in), loop forever ([Spin]) or leave the array they index ([Ub]).  A loop
    without a bound of its own runs [loop_bound] = 2^32 rounds before it counts as endless;
    a loop that has not ended by then has been through every value of its 32-bit counter.
    The theorems that a routine returns exhibit the number of rounds it takes.

    A program runs on the same [kernel]: its loads and stores go through its page, its
    system calls through [trap], which changes to the kernel stack that the TSS names, runs
    the call and comes back when the stack is that of the caller.  [execute] comes back
    [In_user], on the stack of the new program; [run_program] follows it to its [halt].  A
    loop of a program is [prog_while], whose rounds are in [prog].  The addresses of its
    local arrays are arguments and [lit] gives those of its string literals.  A program that
    reads the keyboard has its line already or is left waiting.

    An interrupt routine runs as one step between two steps of the interrupted code, at the
    points where that code waits or has returned to user mode; the scheduler's theorems and
    [Session.typing_keeps_turns] say what such a step leaves alone.

    C objects that are reached by name and field are records ([terminal_t], [pcb],
    [file_desc]); memory that is reached through addresses (user pages, the screen, the
    image, local arrays whose address escapes) is the byte memory.  Control blocks are a
    map from their addresses.  What an uninitialised local holds is an argument ([d0],
    [temp0]), as is the address of a local array passed on ([locals]) and the linker's
    addresses.

    ** What the theorems show

    - Isolation: the page of each process is its own frame, and no paging call loses the
      kernel's mapping ([Paging]).  However a program chooses its system calls and stores,
      as long as the buffers it passes are in its page and it does not send the clock into
      an endless search, each is answered or waits for a device, and nothing but its page,
      descriptors, screen with the cursor and line, the rate of the shared clock and the
      scratch variables of filesystem.c changes ([Isolation], by [User.left]).
    - The file system delivers exactly the bytes of a file, in one read or many, and the
      directory in order; names are looked up as written ([Filesystem]).
    - The screen is a scrolling 80 by 25 text screen; printf prints what its format
      denotes; switching terminals loses no byte ([Console], [Printf], [Terminal]).
    - The keyboard routine is a line editor with modifiers; what is typed on a terminal is
      what a read on descriptor 0 returns ([Keyboard], [Session]).
    - Descriptors are dispatched to the right operations; [execute] starts the program its
      command line names and [halt] returns to the parent ([SysCall], [Process]).
    - Three ticks come back to the interrupted terminal with its registers ([Scheduler]).
    - Each vector leads where it should, and what a program can do with INT ([Idt]); the
      kernel boots into the state those theorems start from ([Boot]), and from there the
      first three ticks start a shell on each terminal; a shell that ends is started again
      in its slot ([Startup]).
    - The memory and string routines against byte-wise references ([Lib]).
    - cat prints its file, ls the directory, counter its numbers, pingpong a frame for every
      tick, and the system call tests of syserr pass, all from the system calls up
      ([Programs], [Pingpong], [Counter], [Syserr]); a command of the shell runs its program
      and comes back to the prompt with the shell's memory, registers and screen as they
      should be ([Lifetime]), also when the program faults ([Faults]).

    Where a theorem says something a reader of the C would not expect (the exit status is
    lost, 0xFF overruns the key table, masking a slave line masks eight), the manifest
    lists it as a finding.

    ** Not modelled

    - Faults of the kernel itself: an unmapped address resolves to a location of its own
      above the 32-bit space.  User/supervisor and write-protection bits are not checked.
    - The general registers around an interrupt, the caches, and time.
    - The return point after [restoreparent] beyond the registers it loads: it is the end of
      the routine that saved them.
    - boot.S and x86_desc.S, which run before [entry] or are data; debug.h; tests.c.
    - Functions nothing calls (writetovideomem, getpositionx, getpositiony) and fields
      nothing reads.
    - fish, a demonstration on a library of its own, and the Linux emulations. *)
(** ** Prelude: shared definitions, notation and automation *)
From stdpp Require Export base list numbers strings gmap.
From Stdlib Require Export ZArith Lia.
#[export] Set Default Goal Selector "!".
#[global] Open Scope Z_scope.
Declare Scope kernel_scope.
Delimit Scope kernel_scope with kernel.
#[global] Open Scope kernel_scope.

(** ** Machine integers: a w-bit value is a [Z]; conversions wrap. *)
Definition u8 (x : Z) : Z := x mod 256.
Definition u16 (x : Z) : Z := x mod 65536.
Definition u32 (x : Z) : Z := x mod 4294967296.
Definition s8 (x : Z) : Z := (x + 128) mod 256 - 128.
Definition s32 (x : Z) : Z := (x + 2147483648) mod 4294967296 - 2147483648.

(** The largest values. *)
Definition UINT32_MAX : Z := 4294967295.

Ltac words := unfold u8, u16, u32, s8, s32, UINT32_MAX in *; Z.div_mod_to_equations; lia.

Lemma u8_range x : 0 <= u8 x < 256.
Proof. words. Qed.
Lemma u32_range x : 0 <= u32 x < 4294967296.
Proof. words. Qed.
Lemma s32_range x : -2147483648 <= s32 x < 2147483648.
Proof. words. Qed.
Lemma s8_range x : -128 <= s8 x < 128.
Proof. words. Qed.
Lemma u8_id x : 0 <= x < 256 -> u8 x = x.
Proof. intros; words. Qed.
Lemma u32_id x : 0 <= x < 4294967296 -> u32 x = x.
Proof. intros; words. Qed.
Lemma s32_id x : -2147483648 <= x < 2147483648 -> s32 x = x.
Proof. intros; words. Qed.
Lemma s8_id x : -128 <= x < 128 -> s8 x = x.
Proof. intros; words. Qed.
Lemma s8_inj x y : 0 <= x < 256 -> 0 <= y < 256 -> s8 x = s8 y -> x = y.
Proof. intros; words. Qed.
Lemma u32_u32 x : u32 (u32 x) = u32 x.
Proof. words. Qed.
Lemma u8_u8 x : u8 (u8 x) = u8 x.
Proof. words. Qed.
Lemma s32_u32 x : s32 (u32 x) = s32 x.
Proof. words. Qed.
Lemma u32_s32 x : u32 (s32 x) = u32 x.
Proof. words. Qed.
Lemma u32_add_l x y : u32 (u32 x + y) = u32 (x + y).
Proof. words. Qed.
Lemma u32_add_r x y : u32 (x + u32 y) = u32 (x + y).
Proof. words. Qed.

(** ** Bits *)

(** A value below [2^k] has no bit from [k] on. *)
Lemma testbit_high y k i : 0 <= k -> 0 <= y < 2 ^ k -> k <= i -> Z.testbit y i = false.
Proof.
  intros Hk Hy Hi. rewrite <- (Z.mod_small y (2 ^ k)) by done.
  apply Z.mod_pow2_bits_high. lia.
Qed.
(** Or-ing flag bits into an aligned address adds them. *)
Lemma lor_low x y k : 0 <= k -> 0 <= y < 2 ^ k -> Z.lor (x * 2 ^ k) y = x * 2 ^ k + y.
Proof.
  intros Hk Hy. rewrite <- Z.add_nocarry_lor; [done|].
  apply Z.bits_inj'. intros i Hi. rewrite Z.land_spec, Z.bits_0.
  destruct (decide (i < k)).
  - by rewrite Z.mul_pow2_bits_low by lia.
  - rewrite (testbit_high y k) by lia. apply andb_false_r.
Qed.
Lemma lor_shiftl x y k : 0 <= k -> 0 <= y < 2 ^ k -> Z.lor (Z.shiftl x k) y = x * 2 ^ k + y.
Proof. intros. rewrite Z.shiftl_mul_pow2 by done. by apply lor_low. Qed.
Lemma entry_low x y k i :
  0 <= y < 2 ^ k -> 0 <= i < k -> Z.testbit (Z.lor (x * 2 ^ k) y) i = Z.testbit y i.
Proof. intros Hy Hi. by rewrite Z.lor_spec, Z.mul_pow2_bits_low by lia. Qed.
Lemma entry_frame x y k : 0 <= k -> 0 <= y < 2 ^ k -> Z.lor (x * 2 ^ k) y / 2 ^ k = x.
Proof.
  intros Hk Hy. rewrite lor_low by done. rewrite Z.div_add_l by lia.
  rewrite Z.div_small by done. lia.
Qed.
(** Masking with [n] ones keeps the low [n] bits. *)
Lemma land_mask x n : 0 <= n -> Z.land x (2 ^ n - 1) = x mod 2 ^ n.
Proof. intros. rewrite <- Z.land_ones by done. by rewrite Z.ones_equiv. Qed.

(** Automation databases: [word] rewrites wrapped values that are known to be
    in range; [kern] holds the frame and invariant facts of the kernel state. *)
Create HintDb word.
Create HintDb kern.
Create Rewrite HintDb word.
#[export] Hint Rewrite u32_u32 u8_u8 s32_u32 u32_s32 u32_add_l u32_add_r : word.
#[export] Hint Resolve u8_range u32_range s32_range s8_range : word.

(** ** Record updates: [r <| f := v |>]. *)
Class Setter {R F : Type} (f : R -> F) := upd : (F -> F) -> R -> R.
Arguments upd {R F} f {_} _ _.
#[warnings="-postfix-notation-not-level-1"]
Notation "r <| f := v |>" := (upd f (λ _, v) r)
  (at level 12, f at level 9, left associativity, format "r  <| f  :=  v |>")
  : kernel_scope.
#[warnings="-postfix-notation-not-level-1"]
Notation "r <| f ::= g |>" := (upd f g r)
  (at level 12, f at level 9, left associativity, format "r  <| f  ::=  g |>")
  : kernel_scope.

(** ** Lists indexed by [Z], as the C arrays are. *)
Definition zlen {A} (l : list A) : Z := Z.of_nat (length l).
(** [a[i]]: reading outside of the array gives the inhabitant; the code that may
    do so tests [in_bounds] first in its model. *)
Definition zget {A} `{Inhabited A} (l : list A) (i : Z) : A := l !!! Z.to_nat i.
Definition zset {A} (i : Z) (x : A) (l : list A) : list A := <[Z.to_nat i := x]> l.
Definition in_bounds {A} (i : Z) (l : list A) : bool := (0 <=? i) && (i <? zlen l).

Section Arrays.
Context {A : Type} `{Inhabited A}.
Implicit Types (l : list A) (i j : Z) (x : A).

Lemma zlen_nonneg l : 0 <= zlen l.
Proof. unfold zlen; lia. Qed.
Lemma zlen_zset i x l : zlen (zset i x l) = zlen l.
Proof. unfold zlen, zset. by rewrite length_insert. Qed.
Lemma length_zset i x l : length (zset i x l) = length l.
Proof. unfold zset. apply length_insert. Qed.
Lemma zget_zset_eq i x l : 0 <= i < zlen l -> zget (zset i x l) i = x.
Proof.
  unfold zget, zset, zlen. intros.
  apply list_lookup_total_insert_eq. lia.
Qed.
Lemma zget_zset_ne i j x l : 0 <= i -> 0 <= j -> i <> j -> zget (zset i x l) j = zget l j.
Proof.
  unfold zget, zset. intros.
  apply list_lookup_total_insert_ne. lia.
Qed.
Lemma zget_out i l : zlen l <= i -> zget l i = inhabitant.
Proof.
  unfold zget, zlen. intros. rewrite list_lookup_total_alt, lookup_ge_None_2 by lia. done.
Qed.
Lemma zset_zset i x y l : zset i x (zset i y l) = zset i x l.
Proof. apply list_insert_insert_eq. Qed.
Lemma zset_comm i j x y l : 0 <= i -> 0 <= j -> i <> j ->
  zset i x (zset j y l) = zset j y (zset i x l).
Proof. intros. apply list_insert_insert_ne. lia. Qed.
Lemma zset_id i l : 0 <= i < zlen l -> zset i (zget l i) l = l.
Proof.
  unfold zset, zget, zlen. intros. apply list_insert_id.
  apply list_lookup_lookup_total_lt. lia.
Qed.
Lemma in_bounds_spec i l : in_bounds i l = true <-> 0 <= i < zlen l.
Proof. unfold in_bounds. lia. Qed.
Lemma zget_app_l l l' i : 0 <= i < zlen l -> zget (l ++ l') i = zget l i.
Proof. unfold zget, zlen. intros. apply lookup_total_app_l. lia. Qed.
Lemma zget_app_r l l' i : zlen l <= i -> zget (l ++ l') i = zget l' (i - zlen l).
Proof.
  unfold zget, zlen. intros. rewrite lookup_total_app_r by lia. f_equal. lia.
Qed.
Lemma zlen_app l l' : zlen (l ++ l') = zlen l + zlen l'.
Proof. unfold zlen. rewrite length_app. lia. Qed.
Lemma zlen_cons x l : zlen (x :: l) = zlen l + 1.
Proof. unfold zlen. simpl. lia. Qed.
Lemma zget_cons_0 x l : zget (x :: l) 0 = x.
Proof. done. Qed.
Lemma zget_cons_S x l i : 0 < i -> zget (x :: l) i = zget l (i - 1).
Proof.
  unfold zget. intros. replace (Z.to_nat i) with (S (Z.to_nat (i - 1))) by lia. done.
Qed.
Lemma zget_replicate n x i : 0 <= i < Z.of_nat n -> zget (replicate n x) i = x.
Proof. unfold zget. intros. apply lookup_total_replicate_2. lia. Qed.
Lemma zlen_replicate n x : zlen (replicate n x) = Z.of_nat n.
Proof. unfold zlen. by rewrite length_replicate. Qed.
Lemma zlen_reverse l : zlen (reverse l) = zlen l.
Proof. unfold zlen. by rewrite length_reverse. Qed.
Lemma zget_reverse l i : 0 <= i < zlen l -> zget (reverse l) i = zget l (zlen l - 1 - i).
Proof.
  unfold zget, zlen. intros Hi. rewrite !list_lookup_total_alt, reverse_lookup by lia.
  do 2 f_equal. lia.
Qed.
Lemma zget_ext l l' :
  zlen l = zlen l' -> (forall i, 0 <= i < zlen l -> zget l i = zget l' i) -> l = l'.
Proof.
  unfold zlen, zget. intros Hl Hg. apply list_eq_same_length with (length l); [lia|done|].
  intros i x y Hi Hx Hy. specialize (Hg (Z.of_nat i) ltac:(lia)).
  rewrite Nat2Z.id in Hg. by rewrite (list_lookup_total_correct _ _ _ Hx),
    (list_lookup_total_correct _ _ _ Hy) in Hg.
Qed.
Lemma zlen_take i l : 0 <= i <= zlen l -> zlen (take (Z.to_nat i) l) = i.
Proof. unfold zlen. intros. rewrite length_take. lia. Qed.
Lemma zlen_drop i l : 0 <= i <= zlen l -> zlen (drop (Z.to_nat i) l) = zlen l - i.
Proof. unfold zlen. intros. rewrite length_drop. lia. Qed.
Lemma zget_take i j l : 0 <= j < i -> zget (take (Z.to_nat i) l) j = zget l j.
Proof.
  intros Hj. unfold zget. rewrite !list_lookup_total_alt. f_equal. apply lookup_take_lt. lia.
Qed.
Lemma zget_drop i j l : 0 <= i -> 0 <= j -> zget (drop (Z.to_nat i) l) j = zget l (i + j).
Proof. intros. unfold zget. rewrite lookup_total_drop. f_equal. lia. Qed.
Lemma take_snoc i l : 0 <= i < zlen l -> take (Z.to_nat (i + 1)) l = take (Z.to_nat i) l ++ [zget l i].
Proof.
  intros Hi. replace (Z.to_nat (i + 1)) with (S (Z.to_nat i)) by lia.
  apply take_S_r, list_lookup_lookup_total_lt. unfold zlen in Hi. lia.
Qed.
End Arrays.

(** The characters of a literal. *)
Definition text (s : string) : list Z :=
  (λ a, Z.of_N (Ascii.N_of_ascii a)) <$> String.list_ascii_of_string s.

(** The list [f 0; f 1; ...; f (n-1)]. *)
Definition tabulate {A} (n : nat) (f : Z -> A) : list A := (λ i, f (Z.of_nat i)) <$> seq 0 n.

Lemma length_tabulate {A} n (f : Z -> A) : length (tabulate n f) = n.
Proof. unfold tabulate. by rewrite length_fmap, length_seq. Qed.
Lemma zlen_tabulate {A} n (f : Z -> A) : zlen (tabulate n f) = Z.of_nat n.
Proof. unfold zlen. by rewrite length_tabulate. Qed.
Lemma lookup_tabulate {A} n (f : Z -> A) i :
  (i < n)%nat -> tabulate n f !! i = Some (f (Z.of_nat i)).
Proof.
  intros. unfold tabulate. rewrite list_lookup_fmap, lookup_seq_lt by done. done.
Qed.
Lemma zget_tabulate {A} `{Inhabited A} n (f : Z -> A) i :
  0 <= i < Z.of_nat n -> zget (tabulate n f) i = f i.
Proof.
  intros. unfold zget. erewrite list_lookup_total_correct.
  2: { apply lookup_tabulate. lia. }
  by rewrite Z2Nat.id by lia.
Qed.
Lemma zlen_fmap {A B} (f : A -> B) (l : list A) : zlen (f <$> l) = zlen l.
Proof. unfold zlen. by rewrite length_fmap. Qed.
Lemma zget_fmap {A B} `{Inhabited A, Inhabited B} (f : A -> B) (l : list A) i :
  0 <= i < zlen l -> zget (f <$> l) i = f (zget l i).
Proof. unfold zget, zlen. intros. apply list_lookup_total_fmap. lia. Qed.
Lemma tabulate_ext {A} n (f g : Z -> A) :
  (forall i, 0 <= i < Z.of_nat n -> f i = g i) -> tabulate n f = tabulate n g.
Proof.
  intros Hfg. apply list_fmap_ext. intros i x Hx%lookup_seq. apply Hfg. lia.
Qed.
Lemma tabulate_S {A} n (f : Z -> A) : tabulate (S n) f = f 0 :: tabulate n (λ i, f (i + 1)).
Proof.
  unfold tabulate. simpl. f_equal. rewrite <- fmap_S_seq, <- list_fmap_compose.
  apply list_fmap_ext. intros i x _. simpl. f_equal. lia.
Qed.
Lemma tabulate_app {A} n m (f : Z -> A) :
  tabulate (n + m) f = tabulate n f ++ tabulate m (λ i, f (Z.of_nat n + i)).
Proof.
  revert f. induction n as [|n IH]; intros f; [done|].
  rewrite Nat.add_succ_l, !tabulate_S, IH. simpl. do 2 f_equal.
  apply tabulate_ext. intros. f_equal. lia.
Qed.

(** A decidable property of a small range is checked by evaluation. *)
Lemma check_below n (p : Z -> bool) :
  forallb p (tabulate n id) = true -> forall i, 0 <= i < Z.of_nat n -> p i = true.
Proof.
  intros Hall i Hi. apply (proj1 (forallb_forall _ _) Hall).
  apply list_elem_of_In, list_elem_of_lookup. exists (Z.to_nat i).
  rewrite lookup_tabulate by lia. unfold id. f_equal. lia.
Qed.
Lemma check_below_eq n (f g : Z -> bool) :
  forallb (λ i, eqb (f i) (g i)) (tabulate n id) = true ->
  forall i, 0 <= i < Z.of_nat n -> f i = g i.
Proof. intros Hall i Hi. by apply eqb_prop, (check_below _ _ Hall). Qed.

(** ** Loops.

    A C loop is a body that either asks for another round ([inl]) or leaves the
    loop ([inr]).  [while body a] runs it for at most 2^32 rounds, which is the
    number of values of a 32-bit counter; [None] says that it did not leave the
    loop in that many rounds.  The bound is binary, so a loop that leaves early
    evaluates in the time it takes. *)
Definition loop_bound : positive := 4294967296.
Lemma loop_bound_nat : Z.of_nat (Pos.to_nat loop_bound) = 4294967296.
Proof. apply positive_nat_Z. Qed.
#[global] Opaque loop_bound.

Section Loops.
Context {A B : Type} (body : A -> A + B).

Fixpoint rounds (p : positive) (a : A) : A + B :=
  match p with
  | xH => body a
  | xO q => match rounds q a with inl a' => rounds q a' | inr b => inr b end
  | xI q =>
      match body a with
      | inl a' => match rounds q a' with inl a'' => rounds q a'' | inr b => inr b end
      | inr b => inr b
      end
  end.

Definition while (a : A) : option B :=
  match rounds loop_bound a with inl _ => None | inr b => Some b end.

(** The same with a unary number of rounds, for the proofs. *)
Fixpoint iterate (n : nat) (a : A) : A + B :=
  match n with
  | O => inl a
  | S n => match body a with inl a' => iterate n a' | inr b => inr b end
  end.

(** [runs n a b]: the loop started in [a] leaves with [b] in round [n]. *)
Inductive runs : nat -> A -> B -> Prop :=
| runs_leave a b : body a = inr b -> runs 1 a b
| runs_again n a a' b : body a = inl a' -> runs n a' b -> runs (S n) a b.

Lemma iterate_add n m a :
  iterate (n + m) a = match iterate n a with inl a' => iterate m a' | inr b => inr b end.
Proof.
  revert a. induction n as [|n IH]; intros a; simpl; [done|].
  destruct (body a); [apply IH | done].
Qed.

Lemma rounds_iterate p a : rounds p a = iterate (Pos.to_nat p) a.
Proof.
  revert a. induction p as [p IH|p IH|]; intros a.
  - rewrite Pos2Nat.inj_xI. simpl. destruct (body a) as [a'|b]; [|done].
    replace (Pos.to_nat p + (Pos.to_nat p + 0))%nat
      with (Pos.to_nat p + Pos.to_nat p)%nat by lia.
    rewrite iterate_add, IH. by destruct (iterate (Pos.to_nat p) a').
  - rewrite Pos2Nat.inj_xO.
    replace (2 * Pos.to_nat p)%nat with (Pos.to_nat p + Pos.to_nat p)%nat by lia.
    simpl. rewrite iterate_add, IH. by destruct (iterate (Pos.to_nat p) a).
  - simpl. by destruct (body a).
Qed.

Lemma runs_iterate n a b m : runs n a b -> (n <= m)%nat -> iterate m a = inr b.
Proof.
  intros Hr. revert m. induction Hr as [a b Hb|n a a' b Hb Hr IH]; intros m Hm;
    (destruct m as [|m]; [lia|]); simpl; rewrite Hb; [done|].
  apply IH. lia.
Qed.

Lemma while_runs n a b : runs n a b -> Z.of_nat n <= 4294967296 -> while a = Some b.
Proof.
  intros Hr Hn. unfold while. rewrite rounds_iterate.
  assert (n <= Pos.to_nat loop_bound)%nat as Hle by (pose proof loop_bound_nat; lia).
  revert Hle. generalize (Pos.to_nat loop_bound). intros m Hle.
  by rewrite (runs_iterate _ _ _ _ Hr Hle).
Qed.

Lemma iterate_runs n a b : iterate n a = inr b -> exists m, (m <= n)%nat /\ runs m a b.
Proof.
  revert a. induction n as [|n IH]; intros a; simpl; [done|].
  destruct (body a) as [a'|b'] eqn:Hb; intros Hi.
  - destruct (IH _ Hi) as (m & Hm & Hr). exists (S m). split; [lia|by econstructor].
  - simplify_eq. exists 1%nat. split; [lia|by constructor].
Qed.

Lemma while_Some a b : while a = Some b -> exists n, runs n a b.
Proof.
  unfold while. rewrite rounds_iterate. generalize (Pos.to_nat loop_bound). intros k.
  destruct (iterate _ a) eqn:Hi; intros; simplify_eq.
  destruct (iterate_runs _ _ _ Hi) as (m & _ & Hr). by exists m.
Qed.

Lemma runs_invariant (I : A -> Prop) n a b :
  runs n a b -> I a -> (forall a a', I a -> body a = inl a' -> I a') ->
  exists a', I a' /\ body a' = inr b.
Proof. intros Hr Ha Hstep. induction Hr; [by eexists|]. by eauto. Qed.

Lemma while_invariant (I : A -> Prop) a b :
  while a = Some b -> I a -> (forall a a', I a -> body a = inl a' -> I a') ->
  exists a', I a' /\ body a' = inr b.
Proof. intros [n Hr]%while_Some. by apply runs_invariant with n. Qed.

(** A loop that never leaves from the states of an invariant does not return. *)
Lemma while_never (I : A -> Prop) a :
  (forall a, I a -> exists a', body a = inl a' /\ I a') -> I a ->
  (forall n, exists a', iterate n a = inl a') /\ while a = None.
Proof.
  intros Hstep Ha.
  assert (Hall : forall n a, I a -> exists a', iterate n a = inl a').
  { intros n. induction n as [|n IH]; intros a0 Ha0; simpl; [by eexists|].
    destruct (Hstep _ Ha0) as (a' & -> & Ha'). by apply IH. }
  split; [intros n; by apply Hall|].
  unfold while. rewrite rounds_iterate. generalize (Pos.to_nat loop_bound). intros m.
  by destruct (Hall m a Ha) as [? ->].
Qed.

(** The counting rule: rounds [0..n-1] go on from [f i] to [f (i+1)], and
    round [n] leaves. *)
Lemma runs_count (f : Z -> A) (n : nat) b :
  (forall i, 0 <= i < Z.of_nat n -> body (f i) = inl (f (i + 1))) ->
  body (f (Z.of_nat n)) = inr b ->
  runs (S n) (f 0) b.
Proof.
  revert f. induction n as [|n IH]; intros f Hgo Hend.
  - by apply runs_leave.
  - apply runs_again with (f 1); [apply (Hgo 0); lia|].
    apply (IH (λ i, f (1 + i))); simpl.
    + intros i Hi. rewrite (Hgo (1 + i)) by lia. do 2 f_equal. lia.
    + rewrite <- Hend. do 2 f_equal. lia.
Qed.
End Loops.

Lemma while_count {A B} (body : A -> A + B) (f : Z -> A) (n : Z) b a :
  0 <= n < 4294967296 -> a = f 0 ->
  (forall i, 0 <= i < n -> body (f i) = inl (f (i + 1))) ->
  body (f n) = inr b ->
  while body a = Some b.
Proof.
  intros Hn -> Hgo Hend. apply while_runs with (S (Z.to_nat n)); [|lia].
  apply runs_count.
  - intros i Hi. apply Hgo. lia.
  - by rewrite Z2Nat.id by lia.
Qed.

(** A counting loop that always ends: [for (j = i; j < i + n; j++) s = f j s]. *)
Fixpoint for_up {S} (n : nat) (i : Z) (f : Z -> S -> S) (s : S) : S :=
  match n with
  | O => s
  | Datatypes.S n => for_up n (i + 1) f (f i s)
  end.

Lemma for_up_add {S} n m i (f : Z -> S -> S) s :
  for_up (n + m) i f s = for_up m (i + Z.of_nat n) f (for_up n i f s).
Proof.
  revert i s. induction n as [|n IH]; intros i s.
  - simpl. f_equal. lia.
  - cbn [for_up Nat.add]. rewrite IH. f_equal. lia.
Qed.
Lemma for_up_ind {S} (P : Z -> S -> Prop) n i (f : Z -> S -> S) s :
  P i s -> (forall j s, i <= j < i + Z.of_nat n -> P j s -> P (j + 1) (f j s)) ->
  P (i + Z.of_nat n) (for_up n i f s).
Proof.
  revert i s. induction n as [|n IH]; intros i s Hi Hstep; cbn [for_up].
  - by rewrite Z.add_0_r.
  - replace (i + Z.of_nat (Datatypes.S n)) with (i + 1 + Z.of_nat n) by lia.
    apply IH; [apply Hstep; [lia|done]|]. intros. apply Hstep; [lia|done].
Qed.
Lemma for_up_ext {S} n i (f g : Z -> S -> S) s :
  (forall j s, i <= j < i + Z.of_nat n -> f j s = g j s) -> for_up n i f s = for_up n i g s.
Proof.
  revert i s. induction n as [|n IH]; intros i s Hfg; [done|]. cbn [for_up].
  rewrite Hfg by lia. apply IH. intros. apply Hfg. lia.
Qed.
Lemma for_up_comm {S} (g : S -> S) n i (f : Z -> S -> S) s :
  (forall j s, f j (g s) = g (f j s)) -> for_up n i f (g s) = g (for_up n i f s).
Proof.
  intros Hc. revert i s. induction n as [|n IH]; intros i s; [done|]. cbn [for_up].
  by rewrite Hc, IH.
Qed.
(** Rows of [m] columns are visited in the order of [m * y + x]. *)
Lemma for_up_shift {S} n i a (f : Z -> S -> S) s :
  for_up n i (λ x, f (a + x)) s = for_up n (a + i) f s.
Proof.
  revert i s. induction n as [|n IH]; intros i s; [done|]. cbn [for_up].
  rewrite IH. f_equal. lia.
Qed.
Lemma for_up_rows {S} n m (f : Z -> S -> S) s :
  for_up n 0 (λ y, for_up m 0 (λ x, f (Z.of_nat m * y + x))) s = for_up (n * m) 0 f s.
Proof.
  assert (forall y s, for_up n y (λ y, for_up m 0 (λ x, f (Z.of_nat m * y + x))) s
    = for_up (n * m) (Z.of_nat m * y) f s) as Hall; [|rewrite Hall; f_equal; lia].
  induction n as [|n IH]; intros y t; [done|]. cbn [for_up]. rewrite IH.
  replace (Datatypes.S n * m)%nat with (m + n * m)%nat by lia.
  rewrite for_up_add, for_up_shift, Z.add_0_r. f_equal. lia.
Qed.

(** ** Programs.

    A C function that reads and writes the state [S] is a [prog S A]. *)
Inductive outcome (S A : Type) : Type :=
  | Ret (a : A) (s : S)   (* returns [a] in state [s] *)
  | Wait (s : S)          (* busy-waits, in state [s], for an interrupt to change it *)
  | Spin                  (* loops forever *)
  | Ub.                   (* leaves an array, or calls a NULL function pointer *)
Arguments Ret {S A} a s.
Arguments Wait {S A} s.
Arguments Spin {S A}.
Arguments Ub {S A}.

Definition prog (S A : Type) : Type := S -> outcome S A.

#[export] Instance prog_ret {S} : MRet (prog S) := λ A a s, Ret a s.
#[export] Instance prog_bind {S} : MBind (prog S) := λ A B f p s,
  match p s with
  | Ret a s' => f a s'
  | Wait s' => Wait s'
  | Spin => Spin
  | Ub => Ub
  end.

Definition get {S T} (f : S -> T) : prog S T := λ s, Ret (f s) s.
Definition modify {S} (f : S -> S) : prog S unit := λ s, Ret tt (f s).
Definition undefined {S A} : prog S A := λ _, Ub.
Definition diverge {S A} : prog S A := λ _, Spin.
(** A loop result: [None] is a loop that does not end. *)
Definition from_loop {S A} (o : option A) : prog S A :=
  match o with Some a => mret a | None => diverge end.

(** A loop whose body is a program. *)
Definition prog_while {S A B} (body : A -> prog S (A + B)) (a : A) : prog S B := λ s,
  match while (λ '(a, s),
          match body a s with
          | Ret (inl a) s => inl (a, s)
          | Ret (inr b) s => inr (Ret b s)
          | Wait s => inr (Wait s)
          | Spin => inr Spin
          | Ub => inr Ub
          end) (a, s) with
  | Some r => r
  | None => Spin
  end.

(** [n] rounds of such a loop, the last of which leaves it, or waits. *)
Inductive prog_rounds {S A B} (body : A -> prog S (A + B)) : nat -> A -> S -> outcome S B -> Prop :=
| prog_leave a s b s' : body a s = Ret (inr b) s' -> prog_rounds body 1 a s (Ret b s')
| prog_wait a s s' : body a s = Wait s' -> prog_rounds body 1 a s (Wait s')
| prog_again n a s a' s' r :
    body a s = Ret (inl a') s' -> prog_rounds body n a' s' r -> prog_rounds body (Datatypes.S n) a s r.
Lemma prog_while_rounds {S A B} (body : A -> prog S (A + B)) n a s r :
  prog_rounds body n a s r -> Z.of_nat n <= 4294967296 -> prog_while body a s = r.
Proof.
  intros Hr Hn. unfold prog_while. erewrite while_runs; [reflexivity| |exact Hn]. clear Hn.
  induction Hr as [a s b s' Hb|a s s' Hb|n a s a' s' r Hb Hr IH].
  - apply runs_leave. by rewrite Hb.
  - apply runs_leave. by rewrite Hb.
  - eapply runs_again; [|exact IH]. by rewrite Hb.
Qed.

(** A loop with a counter: [Inv j] holds before round [j]. *)
Lemma prog_while_for {S A B} (body : A -> prog S (A + B)) (Inv : Z -> A -> S -> Prop) (Post : B -> S -> Prop) i n a s :
  (forall j a s, i <= j < n -> Inv j a s -> exists a' s', body a s = Ret (inl a') s' /\ Inv (j + 1) a' s') ->
  (forall a s, Inv n a s -> exists b s', body a s = Ret (inr b) s' /\ Post b s') ->
  Inv i a s -> i <= n -> n - i < 4294967296 ->
  exists b s', prog_while body a s = Ret b s' /\ Post b s'.
Proof.
  intros Hround Hleave Hi Hin Hn.
  assert (forall m j a s, i <= j -> n - j = Z.of_nat m -> Inv j a s ->
    exists b s', prog_rounds body (Datatypes.S m) a s (Ret b s') /\ Post b s') as Hrun.
  { clear a s Hi. induction m as [|m IH]; intros j a s Hj Hm Ha.
    - replace j with n in Ha by lia. destruct (Hleave a s Ha) as (b & s' & Hb & Hp).
      exists b, s'. split; [by apply prog_leave|done].
    - destruct (Hround j a s ltac:(lia) Ha) as (a' & s1 & Hb & Ha').
      destruct (IH (j + 1) a' s1 ltac:(lia) ltac:(lia) Ha') as (b & s' & Hr & Hp).
      exists b, s'. split; [by eapply prog_again|done]. }
  destruct (Hrun (Z.to_nat (n - i)) i a s ltac:(lia) ltac:(lia) Hi) as (b & s' & Hr & Hp).
  exists b, s'. split; [|done]. apply (prog_while_rounds _ _ _ _ _ Hr). lia.
Qed.

Section Progs.
Context {S : Type}.

Lemma bind_Ret {A B} (p : prog S A) (f : A -> prog S B) s a s' :
  p s = Ret a s' -> (p ≫= f) s = f a s'.
Proof. intros Hp. unfold mbind, prog_bind. by rewrite Hp. Qed.

Lemma bind_Ret_inv {A B} (p : prog S A) (f : A -> prog S B) s b s' :
  (p ≫= f) s = Ret b s' -> exists a s1, p s = Ret a s1 /\ f a s1 = Ret b s'.
Proof.
  unfold mbind, prog_bind. destruct (p s); naive_solver.
Qed.

Lemma bind_assoc {A B C} (p : prog S A) (f : A -> prog S B) (g : B -> prog S C) s :
  ((p ≫= f) ≫= g) s = (p ≫= (λ a, f a ≫= g)) s.
Proof. unfold mbind, prog_bind. by destruct (p s). Qed.

Lemma bind_modify {A} (f : S -> S) (p : unit -> prog S A) s : (modify f ≫= p) s = p tt (f s).
Proof. done. Qed.
Lemma bind_get {A B} (f : S -> A) (p : A -> prog S B) s : (get f ≫= p) s = p (f s) s.
Proof. done. Qed.
Lemma bind_mret {A B} (a : A) (p : A -> prog S B) s : (mret a ≫= p) s = p a s.
Proof. done. Qed.

(** [safe I p]: from a state of [I], [p] does nothing undefined, and every state
    it reaches (returning or waiting) is in [I]. *)
Definition safe {A} (I : S -> Prop) (p : prog S A) : Prop :=
  forall s, I s -> match p s with Ret _ s' | Wait s' => I s' | Spin => True | Ub => False end.

Lemma safe_ret {A} I (a : A) : safe I (mret a).
Proof. intros s Hs. exact Hs. Qed.
Lemma safe_bind {A B} I (p : prog S A) (f : A -> prog S B) :
  safe I p -> (forall a, safe I (f a)) -> safe I (p ≫= f).
Proof.
  intros Hp Hf s Hs. specialize (Hp s Hs). unfold mbind, prog_bind.
  destruct (p s) as [a s'|s'| |]; [by apply Hf|done..].
Qed.
Lemma safe_get {A} I (f : S -> A) : safe I (get f).
Proof. intros s Hs. exact Hs. Qed.
Lemma safe_modify (I : S -> Prop) (f : S -> S) : (forall s, I s -> I (f s)) -> safe I (modify f).
Proof. intros Hf s Hs. by apply Hf. Qed.
Lemma safe_from_loop {A} I (o : option A) : safe I (from_loop o).
Proof. intros s Hs. by destruct o. Qed.
Lemma safe_diverge {A} I : safe (A:=A) I diverge.
Proof. done. Qed.
Lemma safe_if {A} I (b : bool) (p q : prog S A) :
  safe I p -> safe I q -> safe I (if b then p else q).
Proof. by destruct b. Qed.
End Progs.

#[export] Hint Resolve safe_ret safe_bind safe_get safe_modify safe_from_loop safe_diverge
  safe_if : kern.

(** Step through a program whose next call is known. *)
Ltac pstep := unfold mbind, prog_bind, mret, prog_ret, get, modify, undefined, diverge; cbn beta iota zeta.
