(* ===== verification/Machine.v ===== *)
(** * Byte-addressed memory

    The interface that the C library routines and the file system are written
    against: [AddrSpace M] gives byte loads and stores on a state [M], and
    [resolve], which says what location a virtual address stands for.  Two
    addresses may resolve to the same location (the kernel maps video memory
    twice), so a store is seen through every address that resolves to its
    location; [AddrSpaceLaws] says no more than that.

    Instances here: [gmap Z Z], a flat 32-bit memory, and [list Z], a C array of
    bytes whose addresses are its indices.  [State.v] makes the kernel state an
    instance, with [resolve] the page walk. *)
From S2P Require Import Prelude.

Class AddrSpace (M : Type) := {
  resolve : M -> Z -> Z;
  loadb : M -> Z -> Z;
  storeb : Z -> Z -> M -> M
}.

Class AddrSpaceLaws (M : Type) `{!AddrSpace M} := {
  resolve_storeb (m : M) a v b : resolve (storeb a v m) b = resolve m b;
  loadb_storeb (m : M) a v b :
    loadb (storeb a v m) b = if decide (resolve m a = resolve m b) then u8 v else loadb m b;
  loadb_range (m : M) a : 0 <= loadb m a < 256;
  loadb_resolve (m : M) a b : resolve m a = resolve m b -> loadb m a = loadb m b;
  laws_storeb_u8 (m : M) a v : storeb a (u8 v) m = storeb a v m
}.

(** A store keeps the low byte only. *)
Class ByteStores (M : Type) `{!AddrSpace M} := storeb_u8 (m : M) a v : storeb a (u8 v) m = storeb a v m.
#[export] Instance laws_byte_stores `{AddrSpaceLaws M} : ByteStores M := laws_storeb_u8.

(** A [const char *] argument: the bytes at the pointer, by index, in the current state. *)
Definition reader (M : Type) : Type := M -> Z -> Z.

(** A list of byte values. *)
Definition bytes (l : list Z) : Prop := Forall (λ b, 0 <= b < 256) l.
Lemma fmap_u8_bytes l : bytes l -> u8 <$> l = l.
Proof. induction 1 as [|b l Hb _ IH]; [done|]. cbn. by rewrite u8_id, IH. Qed.
Lemma bytes_zget l : (forall i, 0 <= i < zlen l -> 0 <= zget l i < 256) -> bytes l.
Proof.
  intros Hl. apply (Forall_lookup_total_2 _ l). intros i Hi. specialize (Hl (Z.of_nat i)).
  unfold zget, zlen in Hl. rewrite Nat2Z.id in Hl. apply Hl. lia.
Qed.

Lemma bytes_get l i : bytes l -> 0 <= i < zlen l -> 0 <= zget l i < 256.
Proof.
  intros Hl Hi. unfold bytes in Hl. rewrite Forall_lookup_total in Hl. apply Hl. unfold zlen in Hi. lia.
Qed.

Section Blocks.
Context {M : Type} `{!AddrSpace M}.
Implicit Types (m : M) (a b v : Z) (l : list Z).

(** A pointer into the memory being changed. *)
Definition at_ptr (p : Z) : reader M := λ m i, loadb m (p + i).
(** A pointer to an object that is not in that memory (another array, a literal). *)
Definition at_obj (s : Z -> Z) : reader M := λ _ i, s i.

Fixpoint store_bytes a l m : M :=
  match l with
  | [] => m
  | v :: l => store_bytes (a + 1) l (storeb a v m)
  end.
Definition load_bytes m a (n : nat) : list Z := tabulate n (λ i, loadb m (a + i)).

(** Little-endian 32-bit words. *)
Definition bytes32 v : list Z := [v; v / 256; v / 65536; v / 16777216].
Definition load32 m a : Z :=
  loadb m a + 256 * loadb m (a + 1) + 65536 * loadb m (a + 2) + 16777216 * loadb m (a + 3).
Definition store32 a v m : M := store_bytes a (bytes32 v) m.

(** The [n] addresses from [a] are different locations. *)
Definition inj_range m a n : Prop :=
  forall i j, 0 <= i < n -> 0 <= j < n -> resolve m (a + i) = resolve m (a + j) -> i = j.
(** No location of [a..a+n-1] is one of [b..b+k-1]. *)
Definition sep_range m a n b k : Prop :=
  forall i j, 0 <= i < n -> 0 <= j < k -> resolve m (a + i) <> resolve m (b + j).
(** Writing the [n] bytes at [dest] does not change what the first [k] bytes of [src] read. *)
Definition stable (src : reader M) dest n k m : Prop :=
  forall l j, zlen l <= n -> 0 <= j < k -> src (store_bytes dest l m) j = src m j.

Lemma store_bytes_app a l1 l2 m :
  store_bytes a (l1 ++ l2) m = store_bytes (a + zlen l1) l2 (store_bytes a l1 m).
Proof.
  revert a m. induction l1 as [|v l1 IH]; intros a m; simpl.
  - f_equal. unfold zlen. simpl. lia.
  - rewrite IH, zlen_cons. f_equal. lia.
Qed.

Lemma inj_range_le m a n k : inj_range m a n -> k <= n -> inj_range m a k.
Proof. intros Hn Hk i j Hi Hj. apply Hn; lia. Qed.

Lemma stable_at_obj s dest n k m : stable (at_obj s) dest n k m.
Proof. done. Qed.

(** What does not depend on memory is not changed by a block store. *)
Lemma store_bytes_frame {X} (f : M -> X) a l m :
  (forall a v m, f (storeb a v m) = f m) -> f (store_bytes a l m) = f m.
Proof. intros Hf. revert a m. induction l as [|v l IH]; intros a m; simpl; [done|]. by rewrite IH. Qed.

Section Bytes.
Context `{!ByteStores M}.
Lemma store_bytes_u8 m a l : store_bytes a (u8 <$> l) m = store_bytes a l m.
Proof. revert a m. induction l as [|v l IH]; intros a m; simpl; [done|]. by rewrite IH, storeb_u8. Qed.
Lemma store_bytes_cong m a l l' : u8 <$> l = u8 <$> l' -> store_bytes a l m = store_bytes a l' m.
Proof. intros Hl. by rewrite <- (store_bytes_u8 _ _ l), Hl, store_bytes_u8. Qed.
End Bytes.

Section Laws.
Context `{!AddrSpaceLaws M}.

Lemma resolve_store_bytes m a l b : resolve (store_bytes a l m) b = resolve m b.
Proof. revert a m. induction l as [|v l IH]; intros a m; simpl; [done|]. by rewrite IH, resolve_storeb. Qed.

Lemma loadb_storeb_eq m a v : loadb (storeb a v m) a = u8 v.
Proof. rewrite loadb_storeb. by rewrite decide_True. Qed.
Lemma loadb_storeb_ne m a v b : resolve m a <> resolve m b -> loadb (storeb a v m) b = loadb m b.
Proof. intros. rewrite loadb_storeb. by rewrite decide_False. Qed.

Lemma loadb_store_bytes_out m a l b :
  (forall i, 0 <= i < zlen l -> resolve m (a + i) <> resolve m b) ->
  loadb (store_bytes a l m) b = loadb m b.
Proof.
  revert a m. induction l as [|v l IH]; intros a m Hne; simpl; [done|].
  rewrite IH.
  - apply loadb_storeb_ne. specialize (Hne 0). rewrite Z.add_0_r in Hne. apply Hne.
    rewrite zlen_cons. pose proof (zlen_nonneg l). lia.
  - intros i Hi. rewrite !resolve_storeb. replace (a + 1 + i) with (a + (i + 1)) by lia.
    apply Hne. rewrite zlen_cons. lia.
Qed.

Lemma loadb_store_bytes_in m a l i :
  inj_range m a (zlen l) -> 0 <= i < zlen l ->
  loadb (store_bytes a l m) (a + i) = u8 (zget l i).
Proof.
  revert a m i. induction l as [|v l IH]; intros a m i Hinj Hi; simpl.
  { unfold zlen in Hi. simpl in Hi. lia. }
  rewrite zlen_cons in *. destruct (decide (i = 0)) as [->|Hi0].
  - rewrite loadb_store_bytes_out.
    + rewrite Z.add_0_r. apply loadb_storeb_eq.
    + intros j Hj. rewrite !resolve_storeb. intros Heq.
      replace (a + 1 + j) with (a + (j + 1)) in Heq by lia.
      apply Hinj in Heq; lia.
  - rewrite zget_cons_S by lia. replace (a + i) with (a + 1 + (i - 1)) by lia.
    apply IH; [|lia]. intros j k Hj Hk. rewrite !resolve_storeb. intros Heq.
    replace (a + 1 + j) with (a + (j + 1)) in Heq by lia.
    replace (a + 1 + k) with (a + (k + 1)) in Heq by lia.
    apply Hinj in Heq; lia.
Qed.

Lemma load_bytes_store_bytes m a l :
  inj_range m a (zlen l) -> load_bytes (store_bytes a l m) a (length l) = u8 <$> l.
Proof.
  intros Hinj. apply zget_ext.
  - unfold load_bytes. rewrite zlen_tabulate. unfold zlen. by rewrite length_fmap.
  - intros i Hi. unfold load_bytes in *. rewrite zlen_tabulate in Hi.
    rewrite zget_tabulate by lia. rewrite loadb_store_bytes_in; [|done|unfold zlen; lia].
    by rewrite zget_fmap by (unfold zlen; lia).
Qed.

Lemma load_bytes_store_out m a l b n :
  sep_range m a (zlen l) b (Z.of_nat n) -> load_bytes (store_bytes a l m) b n = load_bytes m b n.
Proof.
  intros Hsep. apply tabulate_ext. intros i Hi. apply loadb_store_bytes_out.
  intros j Hj. by apply Hsep.
Qed.

Lemma stable_at_ptr p dest n k m : sep_range m dest n p k -> stable (at_ptr p) dest n k m.
Proof.
  intros Hsep l j Hl Hj. unfold at_ptr. apply loadb_store_bytes_out.
  intros i Hi. apply Hsep; lia.
Qed.

Lemma load32_range m a : 0 <= load32 m a < 4294967296.
Proof.
  unfold load32. pose proof (loadb_range m a). pose proof (loadb_range m (a + 1)).
  pose proof (loadb_range m (a + 2)). pose proof (loadb_range m (a + 3)). lia.
Qed.

Lemma load32_store_bytes_out m a l b :
  sep_range m a (zlen l) b 4 -> load32 (store_bytes a l m) b = load32 m b.
Proof.
  intros Hsep. unfold load32.
  rewrite !loadb_store_bytes_out; [done|intros i Hi..].
  - apply (Hsep i 3); lia.
  - apply (Hsep i 2); lia.
  - apply (Hsep i 1); lia.
  - specialize (Hsep i 0). rewrite Z.add_0_r in Hsep. apply Hsep; lia.
Qed.

Lemma load32_store32 m a v : inj_range m a 4 -> load32 (store32 a v m) a = u32 v.
Proof.
  intros Hinj. unfold load32, store32.
  rewrite <- (Z.add_0_r a) at 2.
  rewrite !loadb_store_bytes_in by (done || (unfold zlen; simpl; lia)).
  unfold zget; simpl. words.
Qed.
End Laws.
End Blocks.

(** ** A flat 32-bit memory; an address that was never written holds 0. *)
#[export] Instance flat_space : AddrSpace (gmap Z Z) := {
  resolve _ a := u32 a;
  loadb m a := u8 (default 0 (m !! u32 a));
  storeb a v m := <[u32 a := u8 v]> m
}.

#[export] Instance flat_laws : AddrSpaceLaws (gmap Z Z).
Proof.
  split; simpl.
  - done.
  - intros m a v b. rewrite lookup_insert. case_decide; simpl; autorewrite with word; done.
  - intros. apply u8_range.
  - intros m a b ->. done.
  - intros. by rewrite u8_u8.
Qed.

(** ** An array of bytes. *)
#[export] Instance array_space : AddrSpace (list Z) := {
  resolve _ a := a;
  loadb l i := zget l i;
  storeb i v l := if in_bounds i l then zset i (u8 v) l else l
}.

#[export] Instance array_byte_stores : ByteStores (list Z).
Proof. intros l i v. unfold storeb, array_space. by rewrite u8_u8. Qed.

(** A block stored within an array. *)
Lemma zlen_array_store a l (arr : list Z) : zlen (store_bytes a l arr) = zlen arr.
Proof.
  apply (store_bytes_frame zlen). intros b v m. unfold storeb, array_space.
  case_match; [apply zlen_zset|done].
Qed.
Lemma zget_array_store a l (arr : list Z) i :
  0 <= a -> a + zlen l <= zlen arr -> 0 <= i ->
  zget (store_bytes a l arr) i =
    if decide (a <= i < a + zlen l) then u8 (zget l (i - a)) else zget arr i.
Proof.
  revert a arr. induction l as [|v l IH]; intros a arr Ha Hl Hi; cbn [store_bytes].
  { rewrite decide_False; [done|]. unfold zlen; simpl; lia. }
  rewrite zlen_cons in *. pose proof (zlen_nonneg l).
  unfold storeb, array_space at 2. rewrite (proj2 (in_bounds_spec a arr)) by lia.
  rewrite IH by (rewrite ?zlen_zset; lia).
  destruct (decide (i = a)) as [->|Hne].
  - rewrite decide_False, decide_True by lia. rewrite zget_zset_eq by lia.
    by replace (a - a) with 0 by lia.
  - rewrite zget_zset_ne by lia. case_decide.
    + rewrite decide_True by lia. rewrite zget_cons_S by lia. do 2 f_equal. lia.
    + rewrite decide_False by lia. done.
Qed.

(** A whole array is overwritten. *)
Lemma array_store_all l (arr : list Z) : zlen l = zlen arr -> store_bytes 0 l arr = u8 <$> l.
Proof.
  intros Hl. apply zget_ext; rewrite zlen_array_store, ?zlen_fmap; [done|].
  intros i Hi. rewrite zget_array_store, zget_fmap by lia. rewrite decide_True by lia. do 2 f_equal. lia.
Qed.

Lemma flat_inj_range (m : gmap Z Z) a n : n <= 4294967296 -> inj_range m a n.
Proof. intros Hn i j Hi Hj. simpl. intros. words. Qed.

Lemma flat_sep_range (m : gmap Z Z) a n b k :
  0 <= a -> 0 <= b -> a + n <= 4294967296 -> b + k <= 4294967296 ->
  a + n <= b \/ b + k <= a -> sep_range m a n b k.
Proof. intros ????? i j Hi Hj. simpl. rewrite !u32_id; lia. Qed.
