(* ===== verification/Lib.v ===== *)
(** * The C library routines of student-distrib/lib.c

    [strlen], [strncmp] read a byte reader; [strcpy], [strncpy], [strrev], [itoa]
    and the assembly copies [memset], [memset_word], [memset_dword], [memcpy],
    [memmove] change an [AddrSpace].  The assembly routines are modelled register
    by register: the byte steps up to an aligned destination, the [rep] string
    instruction on doublewords, the byte steps for what is left.

    The lemmas bring every writing routine to one [store_bytes]; the properties
    compare the routines with what they promise. *)
From S2P Require Import Prelude Machine.

(** ** Reading routines *)

(** [strlen] *)
Definition strlen (s : Z -> Z) : option Z :=
  while (λ len, if s len =? 0 then inr len else inl (u32 (len + 1))) 0.

(** [strncmp]: [k] rounds left, at index [i]. Characters are signed. *)
Fixpoint strncmp_loop (k : nat) (s1 s2 : Z -> Z) (i : Z) : Z :=
  match k with
  | O => 0
  | S k =>
      if negb (s8 (s1 i) =? s8 (s2 i)) || (s8 (s1 i) =? 0)
      then s8 (s1 i) - s8 (s2 i)
      else strncmp_loop k s1 s2 (i + 1)
  end.
Definition strncmp (s1 s2 : Z -> Z) (n : Z) : Z := strncmp_loop (Z.to_nat n) s1 s2 0.

Section Writing.
Context {M : Type} `{!AddrSpace M}.
Implicit Types (src : reader M) (m : M).

(** [strcpy] *)
Definition strcpy (src : reader M) (dest : Z) (m : M) : option M :=
  while (λ '(i, m),
    if src m i =? 0 then inr (storeb (dest + i) 0 m)
    else inl (i + 1, storeb (dest + i) (src m i) m)) (0, m).

(** [strncpy]: copy up to the terminator, then fill with zeros; [k] is [n - i]. *)
Fixpoint strncpy_fill (k : nat) (dest i : Z) (m : M) : M :=
  match k with
  | O => m
  | S k => strncpy_fill k dest (i + 1) (storeb (dest + i) 0 m)
  end.
Fixpoint strncpy_copy (k : nat) (src : reader M) (dest i : Z) (m : M) : M :=
  match k with
  | O => m
  | S k' =>
      if src m i =? 0 then strncpy_fill k dest i m
      else strncpy_copy k' src dest (i + 1) (storeb (dest + i) (src m i) m)
  end.
Definition strncpy (src : reader M) (dest n : Z) (m : M) : M :=
  strncpy_copy (Z.to_nat n) src dest 0 m.

(** [memset]: [ecx] bytes left from [edi]; [eax] is the byte [c] four times. *)
Fixpoint rep_stosl (ecx : nat) (eax edi : Z) (m : M) : M :=
  match ecx with
  | O => m
  | S ecx => rep_stosl ecx eax (edi + 4) (store32 edi eax m)
  end.
Fixpoint memset_bottom (edx : nat) (eax edi : Z) (m : M) : M :=
  match edx with
  | O => m
  | S edx => memset_bottom edx eax (edi + 1) (storeb edi eax m)
  end.
Definition memset_aligned (ecx : nat) (eax edi : Z) (m : M) : M :=
  let edx := (ecx mod 4)%nat in
  let ecx := (ecx / 4)%nat in
  memset_bottom edx eax (edi + 4 * Z.of_nat ecx) (rep_stosl ecx eax edi m).
Fixpoint memset_top (ecx : nat) (eax edi : Z) (m : M) : M :=
  match ecx with
  | O => m
  | S ecx' =>
      if Z.land edi 3 =? 0 then memset_aligned ecx eax edi m
      else memset_top ecx' eax (edi + 1) (storeb edi eax m)
  end.
Definition memset (s c n : Z) (m : M) : M :=
  let c := Z.land c 255 in
  let eax := Z.lor (Z.lor (Z.lor (Z.shiftl c 24) (Z.shiftl c 16)) (Z.shiftl c 8)) c in
  memset_top (Z.to_nat n) eax s m.

(** [memset_word], [memset_dword]: [rep stosw] and [rep stosl] on the whole. *)
Fixpoint rep_stosw (ecx : nat) (eax edi : Z) (m : M) : M :=
  match ecx with
  | O => m
  | S ecx => rep_stosw ecx eax (edi + 2) (store_bytes edi [eax; eax / 256] m)
  end.
Definition memset_word (s c n : Z) (m : M) : M := rep_stosw (Z.to_nat n) c s m.
Definition memset_dword (s c n : Z) (m : M) : M := rep_stosl (Z.to_nat n) c s m.

(** [memcpy]: [esi] is an index into the source, [edi] an address. *)
Fixpoint rep_movsl (ecx : nat) (src : reader M) (esi edi : Z) (m : M) : M :=
  match ecx with
  | O => m
  | S ecx =>
      rep_movsl ecx src (esi + 4) (edi + 4)
        (store_bytes edi [src m esi; src m (esi + 1); src m (esi + 2); src m (esi + 3)] m)
  end.
Fixpoint memcpy_bottom (edx : nat) (src : reader M) (esi edi : Z) (m : M) : M :=
  match edx with
  | O => m
  | S edx => memcpy_bottom edx src (esi + 1) (edi + 1) (storeb edi (src m esi) m)
  end.
Definition memcpy_aligned (ecx : nat) (src : reader M) (esi edi : Z) (m : M) : M :=
  let edx := (ecx mod 4)%nat in
  let ecx := (ecx / 4)%nat in
  memcpy_bottom edx src (esi + 4 * Z.of_nat ecx) (edi + 4 * Z.of_nat ecx)
    (rep_movsl ecx src esi edi m).
Fixpoint memcpy_top (ecx : nat) (src : reader M) (esi edi : Z) (m : M) : M :=
  match ecx with
  | O => m
  | S ecx' =>
      if Z.land edi 3 =? 0 then memcpy_aligned ecx src esi edi m
      else memcpy_top ecx' src (esi + 1) (edi + 1) (storeb edi (src m esi) m)
  end.
Definition memcpy (src : reader M) (dest n : Z) (m : M) : M :=
  memcpy_top (Z.to_nat n) src 0 dest m.

(** [memmove]: forwards when the source is not below the destination, else
    from the last byte down ([std]). *)
Fixpoint rep_movsb (ecx : nat) (step esi edi : Z) (m : M) : M :=
  match ecx with
  | O => m
  | S ecx => rep_movsb ecx step (esi + step) (edi + step) (storeb edi (loadb m esi) m)
  end.
Definition memmove (dest src n : Z) (m : M) : M :=
  if dest <=? src then rep_movsb (Z.to_nat n) 1 src dest m
  else rep_movsb (Z.to_nat n) (-1) (src - 1 + n) (dest - 1 + n) m.

(** [strrev] *)
Definition strrev (s : Z) (m : M) : option M :=
  match strlen (at_ptr s m) with
  | None => None
  | Some len =>
      while (λ '(beg, fin, m),
        if beg <? fin then
          let tmp := loadb m (s + fin) in
          let m := storeb (s + fin) (loadb m (s + beg)) m in
          let m := storeb (s + beg) tmp m in
          inl (beg + 1, fin - 1, m)
        else inr m) (0, s32 (len - 1), m)
  end.

(** The [lookup] string of [itoa]. *)
Definition lookup : list Z :=
  [48; 49; 50; 51; 52; 53; 54; 55; 56; 57;
   65; 66; 67; 68; 69; 70; 71; 72; 73; 74; 75; 76; 77; 78; 79; 80; 81; 82; 83; 84;
   85; 86; 87; 88; 89; 90].

(** [itoa]: the digits from the lowest place up, then [strrev]. *)
Definition itoa (value buf radix : Z) (m : M) : option M :=
  if value =? 0 then Some (storeb (buf + 1) 0 (storeb buf 48 m))
  else
    match while (λ '(newval, newbuf, m),
            if 0 <? newval then
              inl (newval / radix, newbuf + 1,
                   storeb newbuf (zget lookup (newval mod radix)) m)
            else inr (newbuf, m)) (value, buf, m) with
    | None => None
    | Some (newbuf, m) => strrev buf (storeb newbuf 0 m)
    end.
End Writing.

(** ** Strings *)

(** The reader [s] shows the string [l]: the bytes of [l], none of them 0, then 0. *)
Definition cstr (s : Z -> Z) (l : list Z) : Prop :=
  (forall i, 0 <= i < zlen l -> s i = zget l i /\ zget l i <> 0) /\ s (zlen l) = 0.

Lemma strlen_cstr s l : cstr s l -> zlen l < 4294967296 -> strlen s = Some (zlen l).
Proof.
  intros [Hs H0] Hl. pose proof (zlen_nonneg l).
  apply while_count with (f := λ i, i) (n := zlen l); [lia|done|..].
  - intros i Hi. destruct (Hs i Hi) as [-> Hne]. rewrite (proj2 (Z.eqb_neq _ _)) by done.
    by rewrite u32_id by lia.
  - by rewrite H0.
Qed.

Lemma strlen_Some s n :
  strlen s = Some n -> 0 <= n < 4294967296 /\ s n = 0 /\ forall i, 0 <= i < n -> s i <> 0.
Proof.
  intros Hw.
  destruct (while_invariant _ (λ len, 0 <= len < 4294967296 /\
    forall i, 0 <= i < len -> s i <> 0) _ _ Hw) as (len & [Hlen Hall] & Hb).
  - split; [lia|]. intros. lia.
  - intros len len' [Hlen Hall]. case_match; intros; simplify_eq. split; [apply u32_range|].
    intros i Hi. destruct (decide (i = len)) as [->|]; [lia|].
    apply Hall. unfold u32 in Hi. Z.div_mod_to_equations. lia.
  - case_match; simplify_eq. split; [done|]. split; [lia|done].
Qed.

(** The bytes before the terminator. *)
Lemma strlen_Some_cstr s n : strlen s = Some n -> cstr s (tabulate (Z.to_nat n) s).
Proof.
  intros (Hn & H0 & Hne)%strlen_Some. split; rewrite zlen_tabulate, Z2Nat.id by lia; [|done].
  intros i Hi. rewrite zget_tabulate by lia. auto.
Qed.

Lemma cstr_unique s l l' : cstr s l -> cstr s l' -> l = l'.
Proof.
  assert (Hle : forall l l', cstr s l -> cstr s l' -> zlen l <= zlen l').
  { intros l1 l2 [H1 _] [_ H2]. destruct (decide (zlen l1 <= zlen l2)); [done|].
    destruct (H1 (zlen l2)) as [Heq Hne]; [pose proof (zlen_nonneg l2); lia|]. congruence. }
  intros H1 H2. pose proof (Hle _ _ H1 H2). pose proof (Hle _ _ H2 H1).
  apply zget_ext; [lia|]. intros i Hi.
  destruct H1 as [H1 _], H2 as [H2 _].
  destruct (H1 i) as [<- _]; [lia|]. destruct (H2 i) as [<- _]; [lia|]. done.
Qed.

(** [strncmp] stops at the first index where the strings differ or end. *)
Lemma strncmp_loop_agree k s1 s2 i :
  (forall j, 0 <= s1 j < 256) -> (forall j, 0 <= s2 j < 256) ->
  strncmp_loop k s1 s2 i = 0 <->
  forall j, i <= j < i + Z.of_nat k -> (forall h, i <= h < j -> s1 h <> 0) -> s1 j = s2 j.
Proof.
  intros R1 R2. revert i. induction k as [|k IH]; intros i; cbn [strncmp_loop].
  { split; [intros; lia|done]. }
  pose proof (R1 i). pose proof (R2 i).
  destruct (negb (s8 (s1 i) =? s8 (s2 i)) || (s8 (s1 i) =? 0)) eqn:Hstop.
  - split.
    + intros Hd. assert (s1 i = s2 i) by (apply s8_inj; lia).
      assert (s1 i = 0) by (apply s8_inj; [lia..|]; change (s8 0) with 0; lia).
      intros j Hj Hne. destruct (decide (j = i)) as [->|]; [done|].
      exfalso. apply (Hne i); [lia|done].
    + intros Hag. rewrite (Hag i) by lia. lia.
  - assert (s1 i = s2 i) by (apply s8_inj; lia).
    assert (s1 i <> 0) by (intros Hz%(f_equal s8); change (s8 0) with 0 in Hz; lia).
    rewrite IH. split; intros Hag j Hj Hne.
    + destruct (decide (j = i)) as [->|]; [done|]. apply Hag; [lia|]. intros. apply Hne. lia.
    + apply Hag; [lia|]. intros h Hh. destruct (decide (h = i)) as [->|]; [done|]. apply Hne. lia.
Qed.

Lemma strncmp_prefix s1 s2 n :
  (forall j, 0 <= s1 j < 256) -> (forall j, 0 <= s2 j < 256) -> 0 <= n ->
  (forall j, 0 <= j < n -> s2 j <> 0) ->
  strncmp s1 s2 n = 0 <-> forall j, 0 <= j < n -> s1 j = s2 j.
Proof.
  intros R1 R2 Hn Hne. unfold strncmp. rewrite strncmp_loop_agree by done.
  rewrite Z2Nat.id by lia. split.
  - intros Hag j Hj. assert (forall k, 0 <= k -> forall h, 0 <= h < k -> h < n -> s1 h = s2 h) as Hall.
    { intros k Hk. pattern k. apply natlike_ind; [intros; lia| |done].
      intros x Hx IHx h Hh Hhn. apply Hag; [lia|]. intros h' Hh'.
      rewrite IHx by lia. apply Hne. lia. }
    apply (Hall n); lia.
  - intros Hall j Hj _. apply Hall. lia.
Qed.

(** ** Writing routines as block stores *)
Section BlockStores.
Context {M : Type} `{!AddrSpace M, !AddrSpaceLaws M}.
Implicit Types (m : M) (src : reader M).

(** The source reads the same, from index [esi] on, whatever up to [k] bytes
    from [edi] hold. *)
Definition undisturbed src esi edi k m : Prop :=
  forall l j, zlen l <= k -> 0 <= j < k -> src (store_bytes edi l m) (esi + j) = src m (esi + j).

Lemma undisturbed_skip src esi edi k m l c k' :
  undisturbed src esi edi k m -> zlen l = c -> k' <= k - c ->
  undisturbed src (esi + c) (edi + c) k' (store_bytes edi l m).
Proof.
  intros Hu <- Hk l' j Hl' Hj. pose proof (zlen_nonneg l).
  rewrite <- store_bytes_app, <- !Z.add_assoc.
  rewrite !Hu; rewrite ?zlen_app; [done|lia..].
Qed.
Lemma undisturbed_le src esi edi k k' m :
  undisturbed src esi edi k m -> k' <= k -> undisturbed src esi edi k' m.
Proof. intros Hu Hk l j Hl Hj. apply Hu; lia. Qed.

(** A copy in two pieces. *)
Lemma copy_join src esi edi (k1 k2 : nat) m :
  undisturbed src esi edi (Z.of_nat k1 + Z.of_nat k2) m ->
  let m1 := store_bytes edi (tabulate k1 (λ j, src m (esi + j))) m in
  store_bytes (edi + Z.of_nat k1)
    (tabulate k2 (λ j, src m1 (esi + Z.of_nat k1 + j))) m1
  = store_bytes edi (tabulate (k1 + k2) (λ j, src m (esi + j))) m.
Proof.
  intros Hu m1. rewrite tabulate_app, store_bytes_app, zlen_tabulate. f_equal.
  apply tabulate_ext. intros i Hi. unfold m1. rewrite <- Z.add_assoc.
  apply Hu; rewrite ?zlen_tabulate; lia.
Qed.

Lemma memcpy_bottom_bytes k src esi edi m :
  undisturbed src esi edi (Z.of_nat k) m ->
  memcpy_bottom k src esi edi m = store_bytes edi (tabulate k (λ j, src m (esi + j))) m.
Proof.
  revert esi edi m. induction k as [|k IH]; intros esi edi m Hu; [done|].
  cbn [memcpy_bottom]. change (S k) with (1 + k)%nat. rewrite <- copy_join by (eapply undisturbed_le; [done|lia]).
  rewrite IH.
  - cbn. rewrite Z.add_0_r. f_equal.
  - apply (undisturbed_skip _ _ _ _ _ [src m esi] 1 _ Hu); [done|lia].
Qed.

Lemma rep_movsl_bytes k src esi edi m :
  undisturbed src esi edi (4 * Z.of_nat k) m ->
  rep_movsl k src esi edi m = store_bytes edi (tabulate (4 * k) (λ j, src m (esi + j))) m.
Proof.
  revert esi edi m. induction k as [|k IH]; intros esi edi m Hu; [done|].
  cbn [rep_movsl]. replace (4 * S k)%nat with (4 + 4 * k)%nat by lia.
  rewrite <- copy_join by (eapply undisturbed_le; [done|lia]).
  rewrite IH.
  - cbn [tabulate seq fmap list_fmap]. cbn. rewrite Z.add_0_r. f_equal.
  - apply (undisturbed_skip _ _ _ _ _
      [src m esi; src m (esi + 1); src m (esi + 2); src m (esi + 3)] 4 _ Hu); [done|lia].
Qed.

Lemma nat_div_mod_4 n : n = (4 * (n / 4) + n mod 4)%nat.
Proof. apply Nat.div_mod_eq. Qed.

Lemma memcpy_aligned_bytes k src esi edi m :
  undisturbed src esi edi (Z.of_nat k) m ->
  memcpy_aligned k src esi edi m = store_bytes edi (tabulate k (λ j, src m (esi + j))) m.
Proof.
  intros Hu. unfold memcpy_aligned. pose proof (nat_div_mod_4 k) as Hk.
  set (q := (k / 4)%nat) in *. set (r := (k mod 4)%nat) in *. clearbody q r. subst k.
  rewrite rep_movsl_bytes by (eapply undisturbed_le; [done|lia]).
  rewrite memcpy_bottom_bytes.
  - rewrite <- copy_join by (eapply undisturbed_le; [done|lia]).
    replace (Z.of_nat (4 * q)) with (4 * Z.of_nat q) by lia. done.
  - apply (undisturbed_skip _ _ _ _ _ _ _ _ Hu); rewrite ?zlen_tabulate; lia.
Qed.

Lemma memcpy_top_bytes k src esi edi m :
  undisturbed src esi edi (Z.of_nat k) m ->
  memcpy_top k src esi edi m = store_bytes edi (tabulate k (λ j, src m (esi + j))) m.
Proof.
  revert esi edi m. induction k as [|k IH]; intros esi edi m Hu; [done|].
  cbn [memcpy_top]. destruct (Z.land edi 3 =? 0); [by apply memcpy_aligned_bytes|].
  change (S k) with (1 + k)%nat. rewrite <- copy_join by (eapply undisturbed_le; [done|lia]).
  rewrite IH.
  - cbn. rewrite Z.add_0_r. f_equal.
  - apply (undisturbed_skip _ _ _ _ _ [src m esi] 1 _ Hu); [done|lia].
Qed.

(** [memcpy] is one block store of the bytes its source showed at the call. *)
Lemma memcpy_bytes src dest n m :
  0 <= n -> stable src dest n n m ->
  memcpy src dest n m = store_bytes dest (tabulate (Z.to_nat n) (src m)) m.
Proof.
  intros Hn Hs. unfold memcpy. rewrite memcpy_top_bytes; [done|].
  intros l j Hl Hj. rewrite !Z.add_0_l. apply Hs; lia.
Qed.
Lemma memcpy_0 src dest m : memcpy src dest 0 m = m.
Proof. done. Qed.

End BlockStores.

(** ** [memset] *)
Section Memset.
Context {M : Type} `{!AddrSpace M, !ByteStores M}.
Implicit Types (m : M).

Lemma rep_stosl_bytes k eax c edi m :
  (u8 <$> bytes32 eax) = replicate 4 (u8 c) ->
  rep_stosl k eax edi m = store_bytes edi (replicate (4 * k) c) m.
Proof.
  intros He. revert edi m. induction k as [|k IH]; intros edi m; [done|].
  cbn [rep_stosl]. replace (4 * S k)%nat with (4 + 4 * k)%nat by lia.
  rewrite replicate_add, store_bytes_app, IH. f_equal.
  unfold store32. apply store_bytes_cong. by rewrite He.
Qed.
Lemma memset_bottom_bytes k eax c edi m :
  u8 eax = u8 c -> memset_bottom k eax edi m = store_bytes edi (replicate k c) m.
Proof.
  intros He. revert edi m. induction k as [|k IH]; intros edi m; [done|].
  cbn [memset_bottom]. rewrite IH. simpl. by rewrite <- (storeb_u8 m edi eax), He, storeb_u8.
Qed.
Lemma memset_top_bytes k eax c edi m :
  (u8 <$> bytes32 eax) = replicate 4 (u8 c) ->
  memset_top k eax edi m = store_bytes edi (replicate k c) m.
Proof.
  intros He. assert (u8 eax = u8 c) as He0 by (by injection He).
  revert edi m. induction k as [|k IH]; intros edi m; [done|].
  cbn [memset_top]. destruct (Z.land edi 3 =? 0).
  - unfold memset_aligned. pose proof (nat_div_mod_4 (S k)) as Hk.
    set (q := (S k / 4)%nat) in *. set (r := (S k mod 4)%nat) in *. clearbody q r. rewrite Hk.
    rewrite (rep_stosl_bytes _ _ c) by done. rewrite (memset_bottom_bytes _ _ c) by done.
    rewrite replicate_add, store_bytes_app, zlen_replicate. do 2 f_equal. lia.
  - rewrite IH. simpl. by rewrite <- (storeb_u8 m edi eax), He0, storeb_u8.
Qed.

Lemma splat_bytes c : 0 <= c < 256 ->
  (u8 <$> bytes32 (Z.lor (Z.lor (Z.lor (Z.shiftl c 24) (Z.shiftl c 16)) (Z.shiftl c 8)) c))
  = replicate 4 (u8 c).
Proof.
  intros Hc. assert (Z.lor (Z.lor (Z.lor (Z.shiftl c 24) (Z.shiftl c 16)) (Z.shiftl c 8)) c
    = c * 16777216 + c * 65536 + c * 256 + c) as ->.
  { rewrite <- !Z.lor_assoc.
    rewrite (lor_shiftl c c 8), (lor_shiftl c _ 16), (lor_shiftl c _ 24) by lia. lia. }
  unfold bytes32. cbn [fmap list_fmap replicate].
  f_equal; [words|f_equal; [words|f_equal; [words|f_equal; words]]].
Qed.

Lemma memset_bytes s c n m :
  memset s c n m = store_bytes s (replicate (Z.to_nat n) c) m.
Proof.
  unfold memset. cbv zeta. rewrite (memset_top_bytes _ _ (Z.land c 255)).
  - apply store_bytes_cong. rewrite !fmap_replicate. f_equal.
    change 255 with (Z.ones 8). rewrite Z.land_ones by lia. words.
  - apply splat_bytes. change 255 with (Z.ones 8). rewrite Z.land_ones by lia. words.
Qed.
End Memset.

Section StringStores.
Context {M : Type} `{!AddrSpace M, !AddrSpaceLaws M}.
Implicit Types (m : M) (src : reader M).

(** ** [strncpy], [strcpy] *)
Lemma strncpy_fill_bytes k dest i m :
  strncpy_fill k dest i m = store_bytes (dest + i) (replicate k 0) m.
Proof.
  revert i m. induction k as [|k IH]; intros i m; [done|].
  cbn [strncpy_fill]. rewrite IH. simpl. f_equal. lia.
Qed.

(** The [k] bytes [strncpy] writes for a source read from index [i]. *)
Fixpoint strncpy_result (k : nat) (s : Z -> Z) (i : Z) : list Z :=
  match k with
  | O => []
  | S k' => if s i =? 0 then replicate k 0 else s i :: strncpy_result k' s (i + 1)
  end.

Lemma length_strncpy_result k s i : length (strncpy_result k s i) = k.
Proof.
  revert i. induction k as [|k IH]; intros i; [done|]. cbn [strncpy_result].
  case_match; [apply length_replicate|]. simpl. by rewrite IH.
Qed.

Lemma strncpy_result_ext k s s' i :
  (forall j, i <= j < i + Z.of_nat k -> s j = s' j) -> strncpy_result k s i = strncpy_result k s' i.
Proof.
  revert i. induction k as [|k IH]; intros i Hs; [done|]. cbn [strncpy_result].
  rewrite (Hs i) by lia. case_match; [done|]. f_equal. apply IH. intros. apply Hs. lia.
Qed.

Lemma strncpy_copy_bytes k src dest i m :
  undisturbed src i (dest + i) (Z.of_nat k) m ->
  strncpy_copy k src dest i m = store_bytes (dest + i) (strncpy_result k (src m) i) m.
Proof.
  revert i m. induction k as [|k IH]; intros i m Hu; [done|].
  cbn [strncpy_copy strncpy_result]. case_match; [apply strncpy_fill_bytes|].
  rewrite IH.
  - cbn [store_bytes]. replace (dest + (i + 1)) with (dest + i + 1) by lia. f_equal.
    apply strncpy_result_ext. intros j Hj.
    replace j with (i + (j - i)) by lia.
    rewrite <- (Hu [src m i]); [done|unfold zlen; simpl; lia|lia].
  - replace (dest + (i + 1)) with (dest + i + 1) by lia.
    apply (undisturbed_skip _ _ _ _ _ [src m i] 1 _ Hu); [done|lia].
Qed.

Lemma strncpy_bytes src dest n m :
  0 <= n -> stable src dest n n m ->
  strncpy src dest n m = store_bytes dest (strncpy_result (Z.to_nat n) (src m) 0) m.
Proof.
  intros Hn Hs. unfold strncpy. rewrite strncpy_copy_bytes; rewrite Z.add_0_r; [done|].
  intros l j Hl Hj. apply Hs; lia.
Qed.

Lemma strncpy_result_cstr k s l i :
  (forall j, 0 <= j < zlen l -> s (i + j) = zget l j /\ zget l j <> 0) ->
  (zlen l < Z.of_nat k -> s (i + zlen l) = 0) ->
  strncpy_result k s i = take k l ++ replicate (k - length l) 0.
Proof.
  revert i l. induction k as [|k IH]; intros i l Hl H0; [done|]. cbn [strncpy_result].
  destruct l as [|x l].
  - change (zlen []) with 0 in H0. rewrite Z.add_0_r in H0. rewrite H0 by lia. done.
  - destruct (Hl 0) as [Hi Hne]; [rewrite zlen_cons; pose proof (zlen_nonneg l); lia|].
    rewrite Z.add_0_r in Hi. cbn in Hi, Hne. rewrite Hi.
    rewrite (proj2 (Z.eqb_neq _ _)) by done. simpl. f_equal. apply IH.
    + intros j Hj. specialize (Hl (j + 1)). rewrite zlen_cons, zget_cons_S in Hl by lia.
      replace (i + 1 + j) with (i + (j + 1)) by lia. replace (j + 1 - 1) with j in Hl by lia.
      apply Hl. lia.
    + rewrite zlen_cons in H0. intros. rewrite <- H0 by lia. f_equal. lia.
Qed.

Lemma strcpy_bytes src dest m l :
  cstr (src m) l -> stable src dest (zlen l) (zlen l + 1) m -> zlen l < 4294967296 ->
  strcpy src dest m = Some (store_bytes dest (l ++ [0]) m).
Proof.
  intros [Hl H0] Hs Hlen. pose proof (zlen_nonneg l).
  assert (Hsrc : forall i, 0 <= i <= zlen l ->
    src (store_bytes dest (take (Z.to_nat i) l) m) i = src m i).
  { intros i Hi. apply Hs; [|lia]. unfold zlen. rewrite length_take. lia. }
  apply while_count with (f := λ i, (i, store_bytes dest (take (Z.to_nat i) l) m)) (n := zlen l).
  - lia.
  - done.
  - intros i Hi. rewrite Hsrc by lia. destruct (Hl i Hi) as [-> Hne].
    rewrite (proj2 (Z.eqb_neq _ _)) by done. do 2 f_equal.
    replace (Z.to_nat (i + 1)) with (S (Z.to_nat i)) by lia.
    assert (l !! Z.to_nat i = Some (zget l i)) as Hli.
    { apply list_lookup_lookup_total_lt. unfold zlen in Hi. lia. }
    rewrite (take_S_r _ _ _ Hli), store_bytes_app. cbn [store_bytes].
    do 2 f_equal. unfold zlen. rewrite length_take. unfold zlen in Hi. lia.
  - rewrite Hsrc, H0 by lia. cbn. unfold zlen at 2. rewrite Nat2Z.id.
    rewrite take_ge, store_bytes_app by done. done.
Qed.
End StringStores.

(** ** [strrev] *)
Section Reverse.
Context {M : Type} `{!AddrSpace M, !AddrSpaceLaws M}.
Implicit Types (m : M).

(** The bytes at indices [beg..fin] of [s] are those of [m] in reverse, and the
    rest of memory is that of [m]. *)
Definition reversed s beg fin m m' : Prop :=
  (forall a, resolve m' a = resolve m a) /\
  (forall i, beg <= i <= fin -> loadb m' (s + i) = loadb m (s + (beg + fin - i))) /\
  (forall a, (forall i, beg <= i <= fin -> resolve m (s + i) <> resolve m a) ->
    loadb m' a = loadb m a).

Definition strrev_body (s : Z) : Z * Z * M -> (Z * Z * M) + M := λ '(beg, fin, m),
  if beg <? fin then
    let tmp := loadb m (s + fin) in
    let m := storeb (s + fin) (loadb m (s + beg)) m in
    let m := storeb (s + beg) tmp m in
    inl (beg + 1, fin - 1, m)
  else inr m.

Lemma strrev_loop s beg fin m (k : nat) :
  fin - beg < 2 * Z.of_nat k ->
  (forall i j, beg <= i <= fin -> beg <= j <= fin ->
    resolve m (s + i) = resolve m (s + j) -> i = j) ->
  exists m' n, (n <= S k)%nat /\ runs (strrev_body s) n (beg, fin, m) m' /\ reversed s beg fin m m'.
Proof.
  revert beg fin m. induction k as [|k IH]; intros beg fin m Hk Hinj.
  - exists m, 1%nat. split; [lia|]. split; [|split; [done|split; [intros; lia|done]]].
    apply runs_leave. unfold strrev_body. by rewrite (proj2 (Z.ltb_ge _ _)) by lia.
  - destruct (decide (beg < fin)) as [Hlt|Hge].
    2: { exists m, 1%nat. split; [lia|]. split; [|split; [done|split; [|done]]].
      - apply runs_leave. unfold strrev_body. by rewrite (proj2 (Z.ltb_ge _ _)) by lia.
      - intros i Hi. do 2 f_equal. lia. }
    set (m1 := storeb (s + beg) (loadb m (s + fin)) (storeb (s + fin) (loadb m (s + beg)) m)).
    assert (Hr1 : forall a, resolve m1 a = resolve m a).
    { intros a. unfold m1. by rewrite !resolve_storeb. }
    destruct (IH (beg + 1) (fin - 1) m1) as (m' & n & Hn & Hr & Hres & Hin & Hout); [lia|..].
    { intros i j Hi Hj. rewrite !Hr1. apply Hinj; lia. }
    exists m', (S n). split; [lia|]. split.
    { eapply runs_again; [|exact Hr]. unfold strrev_body.
      by rewrite (proj2 (Z.ltb_lt _ _)) by lia. }
    assert (Hne : forall i j, beg <= i <= fin -> beg <= j <= fin -> i <> j ->
      resolve m (s + i) <> resolve m (s + j)).
    { intros i j Hi Hj Hij Heq. by apply Hij, Hinj. }
    split; [intros a; by rewrite Hres, Hr1|]. split.
    + intros i Hi. destruct (decide (i = beg)) as [->|Hb]; [|destruct (decide (i = fin)) as [->|Hf]].
      * rewrite Hout by (intros j Hj; rewrite !Hr1; apply Hne; lia).
        unfold m1. rewrite loadb_storeb_eq, u8_id by apply loadb_range. do 2 f_equal. lia.
      * rewrite Hout by (intros j Hj; rewrite !Hr1; apply Hne; lia).
        unfold m1. rewrite loadb_storeb_ne by (rewrite !resolve_storeb; apply Hne; lia).
        rewrite loadb_storeb_eq, u8_id by apply loadb_range. do 2 f_equal. lia.
      * rewrite Hin by lia. unfold m1.
        rewrite !loadb_storeb_ne by (rewrite ?resolve_storeb; apply Hne; lia).
        do 2 f_equal. lia.
    + intros a Ha. rewrite Hout by (intros j Hj; rewrite !Hr1; apply Ha; lia).
      unfold m1. rewrite !loadb_storeb_ne; [done|..]; rewrite ?resolve_storeb; apply Ha; lia.
Qed.

Lemma strrev_correct s l m :
  cstr (at_ptr s m) l -> zlen l < 2147483648 -> inj_range m s (zlen l) ->
  exists m', strrev s m = Some m' /\ reversed s 0 (zlen l - 1) m m'.
Proof.
  intros Hl Hlen Hinj. pose proof (zlen_nonneg l).
  unfold strrev. rewrite (strlen_cstr _ l) by (done || lia). rewrite s32_id by lia.
  destruct (strrev_loop s 0 (zlen l - 1) m (length l)) as (m' & n & Hn & Hr & Hrev).
  - unfold zlen in *. lia.
  - intros i j Hi Hj. apply Hinj; lia.
  - exists m'. split; [|done]. apply while_runs with n; [exact Hr|]. unfold zlen in *. lia.
Qed.

(** A string and its terminator, stored. *)
Lemma cstr_store buf l m :
  inj_range m buf (zlen l + 1) -> (forall i, 0 <= i < zlen l -> 0 < zget l i < 256) ->
  cstr (at_ptr buf (store_bytes buf (l ++ [0]) m)) l.
Proof.
  intros Hinj Hl. pose proof (zlen_nonneg l).
  assert (Hld : forall i, 0 <= i < zlen l + 1 ->
    loadb (store_bytes buf (l ++ [0]) m) (buf + i) = u8 (zget (l ++ [0]) i)).
  { intros i Hi. apply loadb_store_bytes_in; rewrite zlen_app; done. }
  split; unfold at_ptr.
  - intros i Hi. rewrite Hld, zget_app_l by lia. specialize (Hl i Hi). rewrite u8_id; lia.
  - rewrite Hld, zget_app_r by lia. by rewrite Z.sub_diag.
Qed.

Lemma cstr_reversed s l m m' :
  cstr (at_ptr s m) l -> reversed s 0 (zlen l - 1) m m' -> inj_range m s (zlen l + 1) ->
  cstr (at_ptr s m') (reverse l).
Proof.
  intros [Hl H0] (Hr & Hin & Hout) Hinj. split; rewrite zlen_reverse; unfold at_ptr in *.
  - intros i Hi. rewrite Hin, zget_reverse by lia.
    replace (0 + (zlen l - 1) - i) with (zlen l - 1 - i) by lia. apply Hl. lia.
  - rewrite Hout; [done|]. intros i Hi Heq. apply Hinj in Heq; lia.
Qed.
End Reverse.

(** ** [itoa] *)

(** The digits of [v], lowest place first; 32 places are enough for 32 bits. *)
Fixpoint le_digits (fuel : nat) (radix v : Z) : list Z :=
  match fuel with
  | O => []
  | S fuel => if 0 <? v then v mod radix :: le_digits fuel radix (v / radix) else []
  end.
(** The text [itoa] is to write. *)
Definition numeral (radix v : Z) : list Z :=
  if v =? 0 then [48] else reverse (zget lookup <$> le_digits 32 radix v).

(** What a text means. *)
Definition digit_value (c : Z) : Z := if c <=? 57 then c - 48 else c - 55.
Definition parse_numeral (radix : Z) (l : list Z) : Z :=
  foldl (λ acc c, acc * radix + digit_value c) 0 l.

Section Digits.
Context (radix : Z) (Hradix : 2 <= radix <= 36).

Lemma le_digits_bound fuel v : Forall (λ d, 0 <= d < radix) (le_digits fuel radix v).
Proof.
  revert v. induction fuel as [|fuel IH]; intros v; cbn [le_digits]; [constructor|].
  case_match; constructor; [|apply IH]. apply Z.mod_pos_bound. lia.
Qed.

Lemma length_le_digits fuel v : (length (le_digits fuel radix v) <= fuel)%nat.
Proof.
  revert v. induction fuel as [|fuel IH]; intros v; cbn [le_digits]; [done|].
  case_match; simpl; [|lia]. specialize (IH (v / radix)). lia.
Qed.

Lemma lookup_digit d : 0 <= d < radix ->
  digit_value (zget lookup d) = d /\ 48 <= zget lookup d < 128.
Proof.
  intros Hd. assert (Hall : forallb (λ d, (digit_value (zget lookup d) =? d) &&
    (48 <=? zget lookup d) && (zget lookup d <? 128)) (Z.of_nat <$> seq 0 36) = true) by reflexivity.
  rewrite forallb_forall in Hall. specialize (Hall d).
  assert (In d (Z.of_nat <$> seq 0 36)) as Hin.
  { apply list_elem_of_In, list_elem_of_fmap. exists (Z.to_nat d). split; [lia|].
    apply elem_of_seq. lia. }
  specialize (Hall Hin). lia.
Qed.

Lemma parse_rev_digits fuel v :
  0 <= v < 2 ^ Z.of_nat fuel ->
  parse_numeral radix (reverse (zget lookup <$> le_digits fuel radix v)) = v.
Proof.
  unfold parse_numeral. revert v. induction fuel as [|fuel IH]; intros v Hv; cbn [le_digits].
  { simpl in *. lia. }
  destruct (0 <? v) eqn:Hpos; cbn [fmap list_fmap]; [|cbn; lia].
  rewrite reverse_cons, foldl_app, IH.
  - simpl. destruct (lookup_digit (v mod radix)) as [-> _]; [apply Z.mod_pos_bound; lia|].
    pose proof (Z.div_mod v radix). lia.
  - replace (Z.of_nat (S fuel)) with (Z.of_nat fuel + 1) in Hv by lia.
    rewrite Z.pow_add_r in Hv by lia. split; [apply Z.div_pos; lia|].
    apply Z.div_lt_upper_bound; [lia|]. nia.
Qed.

Lemma parse_numeral_numeral v : 0 <= v < 4294967296 -> parse_numeral radix (numeral radix v) = v.
Proof.
  intros Hv. unfold numeral. destruct (v =? 0) eqn:H0; [cbn; lia|].
  by apply parse_rev_digits.
Qed.

(** No leading zero. *)
Lemma last_le_digits fuel v d :
  0 <= v < 2 ^ Z.of_nat fuel -> last (le_digits fuel radix v) = Some d -> d <> 0.
Proof.
  revert v. induction fuel as [|fuel IH]; intros v Hv; cbn [le_digits]; [done|].
  destruct (0 <? v) eqn:Hpos; [|done].
  destruct (decide (v < radix)) as [Hlt|Hge].
  - rewrite Z.mod_small, Z.div_small by lia. destruct fuel; simpl; intros; simplify_eq; lia.
  - assert (0 < v / radix) by (apply Z.div_str_pos; lia).
    rewrite last_cons. destruct (last (le_digits fuel radix (v / radix))) as [d'|] eqn:Hl.
    + intros; simplify_eq. eapply (IH (v / radix)); [|done].
      replace (Z.of_nat (S fuel)) with (Z.of_nat fuel + 1) in Hv by lia.
      rewrite Z.pow_add_r in Hv by lia.
      split; [lia|]. apply Z.div_lt_upper_bound; [lia|]. nia.
    + destruct fuel as [|fuel].
      { change (2 ^ Z.of_nat 1) with 2 in Hv. lia. }
      cbn [le_digits] in Hl. rewrite (proj2 (Z.ltb_lt _ _)) in Hl by lia.
      apply last_None in Hl. done.
Qed.

Lemma numeral_head v :
  0 < v < 4294967296 -> zget (reverse (zget lookup <$> le_digits 32 radix v)) 0 <> 48.
Proof.
  intros Hv. destruct (last (le_digits 32 radix v)) as [d|] eqn:Hl.
  2: { apply last_None in Hl. cbn [le_digits] in Hl. by rewrite (proj2 (Z.ltb_lt _ _)) in Hl by lia. }
  assert (d <> 0) by (eapply last_le_digits; [|exact Hl]; lia).
  assert (0 <= d < radix).
  { pose proof (le_digits_bound 32 v) as Hb. rewrite Forall_forall in Hb. apply Hb.
    by apply last_Some_elem_of. }
  assert (zget (reverse (zget lookup <$> le_digits 32 radix v)) 0 = zget lookup d) as ->.
  { unfold zget at 1. apply list_lookup_total_correct.
    change (Z.to_nat 0) with 0%nat. rewrite <- head_lookup, head_reverse, fmap_last, Hl. done. }
  destruct (lookup_digit d) as [Hd _]; [done|]. intros Heq. rewrite Heq in Hd. cbn in Hd. done.
Qed.

Context {M : Type} `{!AddrSpace M, !AddrSpaceLaws M}.

Definition itoa_body : Z * Z * M -> (Z * Z * M) + (Z * M) := λ '(newval, newbuf, m),
  if 0 <? newval then
    inl (newval / radix, newbuf + 1, storeb newbuf (zget lookup (newval mod radix)) m)
  else inr (newbuf, m).

Lemma itoa_loop fuel v buf (m : M) :
  0 <= v < 2 ^ Z.of_nat fuel ->
  let ds := zget lookup <$> le_digits fuel radix v in
  runs itoa_body (S (length ds)) (v, buf, m) (buf + zlen ds, store_bytes buf ds m).
Proof.
  revert v buf m. induction fuel as [|fuel IH]; intros v buf m Hv; cbn [le_digits].
  - simpl. apply runs_leave. unfold itoa_body. simpl in Hv. rewrite (proj2 (Z.ltb_ge _ _)) by lia.
    by rewrite Z.add_0_r.
  - destruct (0 <? v) eqn:Hpos.
    + cbn [fmap list_fmap store_bytes length]. rewrite zlen_cons.
      replace (buf + (zlen (zget lookup <$> le_digits fuel radix (v / radix)) + 1))
        with (buf + 1 + zlen (zget lookup <$> le_digits fuel radix (v / radix))) by lia.
      eapply runs_again; [unfold itoa_body; by rewrite Hpos|]. apply IH.
      replace (Z.of_nat (S fuel)) with (Z.of_nat fuel + 1) in Hv by lia.
      rewrite Z.pow_add_r in Hv by lia.
      split; [apply Z.div_pos; lia|]. apply Z.div_lt_upper_bound; [lia|]. nia.
    + simpl. apply runs_leave. unfold itoa_body. rewrite Hpos. by rewrite Z.add_0_r.
Qed.

Lemma digits_ascii v i :
  let ds := zget lookup <$> le_digits 32 radix v in
  0 <= i < zlen ds -> 0 < zget ds i < 128.
Proof.
  intros ds Hi. unfold ds in *. rewrite zlen_fmap in Hi. rewrite zget_fmap by done.
  pose proof (le_digits_bound 32 v) as Hb. rewrite Forall_lookup_total in Hb.
  destruct (lookup_digit (zget (le_digits 32 radix v) i)) as [_ ?]; [|lia].
  apply Hb. unfold zlen in Hi. lia.
Qed.

Lemma itoa_writes v buf (m : M) :
  0 <= v < 4294967296 -> inj_range m buf 33 ->
  exists m', itoa v buf radix m = Some m' /\ cstr (at_ptr buf m') (numeral radix v) /\
    (forall a, (forall i, 0 <= i < 33 -> resolve m (buf + i) <> resolve m a) ->
      loadb m' a = loadb m a).
Proof.
  intros Hv Hinj. unfold itoa, numeral. destruct (v =? 0) eqn:H0.
  - change (storeb (buf + 1) 0 (storeb buf 48 m)) with (store_bytes buf ([48] ++ [0]) m).
    eexists. split; [done|]. split.
    + apply cstr_store; [apply (inj_range_le _ _ _ _ Hinj); unfold zlen; simpl; lia|].
      intros i Hi. unfold zlen in Hi. simpl in Hi. replace i with 0 by lia.
      rewrite zget_cons_0. lia.
    + intros a Ha. apply loadb_store_bytes_out. intros i Hi. apply Ha.
      unfold zlen in Hi. simpl in Hi. lia.
  - pose proof (itoa_loop 32 v buf m Hv) as Hloop. cbv zeta in Hloop.
    pose proof (digits_ascii v) as Hasc. cbv zeta in Hasc.
    set (ds := zget lookup <$> le_digits 32 radix v) in *.
    assert (Hlen : 0 <= zlen ds <= 32).
    { split; [apply zlen_nonneg|]. unfold ds. rewrite zlen_fmap. unfold zlen.
      pose proof (length_le_digits 32 v). lia. }
    change (while _ (v, buf, m)) with (while itoa_body (v, buf, m)).
    rewrite (while_runs _ _ _ _ Hloop) by (unfold zlen in Hlen; lia).
    replace (storeb (buf + zlen ds) 0 (store_bytes buf ds m)) with (store_bytes buf (ds ++ [0]) m)
      by (by rewrite store_bytes_app).
    set (m2 := store_bytes buf (ds ++ [0]) m).
    assert (Hinj2 : inj_range m2 buf 33).
    { intros i j. unfold m2. rewrite !resolve_store_bytes. apply Hinj. }
    assert (Hc : cstr (at_ptr buf m2) ds).
    { apply cstr_store; [by apply (inj_range_le _ _ _ _ Hinj); lia|]. intros i Hi.
      specialize (Hasc i Hi). lia. }
    destruct (strrev_correct buf ds m2 Hc) as (m' & Hm' & Hr); [lia|..].
    { intros i j Hi Hj. apply Hinj2; lia. }
    exists m'. split; [done|]. split.
    + eapply cstr_reversed; [done..|]. intros i j Hi Hj. apply Hinj2; lia.
    + intros a Ha. destruct Hr as (_ & _ & Hout).
      rewrite Hout by (intros i Hi; unfold m2; rewrite !resolve_store_bytes; apply Ha; lia).
      apply loadb_store_bytes_out. intros i Hi. apply Ha.
      rewrite zlen_app in Hi. change (zlen [0]) with 1 in Hi. lia.
Qed.
End Digits.

(** ** [memmove] *)
Section Move.
Context {M : Type} `{!AddrSpace M, !AddrSpaceLaws M}.
Implicit Types (m : M).

(** A byte-by-byte move in the direction [d], whose stores never hit a source byte
    that is still to be read. *)
Lemma rep_movsb_moves (k : nat) d src dest m :
  (forall i j, 0 <= i < Z.of_nat k -> 0 <= j < Z.of_nat k ->
    resolve m (dest + d * i) = resolve m (dest + d * j) -> i = j) ->
  (forall i j, 0 <= j < i -> i < Z.of_nat k ->
    resolve m (dest + d * j) <> resolve m (src + d * i)) ->
  let m' := rep_movsb k d src dest m in
  (forall i, 0 <= i < Z.of_nat k -> loadb m' (dest + d * i) = loadb m (src + d * i)) /\
  (forall a, (forall i, 0 <= i < Z.of_nat k -> resolve m (dest + d * i) <> resolve m a) ->
    loadb m' a = loadb m a).
Proof.
  revert src dest m. induction k as [|k IH]; intros src dest m Hinj Hsafe m'.
  { split; [intros; lia|done]. }
  set (m1 := storeb dest (loadb m src) m).
  assert (Hr : forall a, resolve m1 a = resolve m a) by (intros; apply resolve_storeb).
  destruct (IH (src + d) (dest + d) m1) as [Hin Hout].
  - intros i j Hi Hj. rewrite !Hr.
    replace (dest + d + d * i) with (dest + d * (i + 1)) by lia.
    replace (dest + d + d * j) with (dest + d * (j + 1)) by lia.
    intros Heq. apply Hinj in Heq; lia.
  - intros i j Hj Hi. rewrite !Hr.
    replace (dest + d + d * j) with (dest + d * (j + 1)) by lia.
    replace (src + d + d * i) with (src + d * (i + 1)) by lia.
    apply Hsafe; lia.
  - assert (Hm' : m' = rep_movsb k d (src + d) (dest + d) m1) by done. clearbody m'. subst m'.
    assert (H0 : forall i, 0 <= i < Z.of_nat k -> resolve m (dest + d + d * i) <> resolve m dest).
    { intros i Hi Heq. replace (dest + d + d * i) with (dest + d * (i + 1)) in Heq by lia.
      replace dest with (dest + d * 0) in Heq at 2 by lia. apply Hinj in Heq; lia. }
    split.
    + intros i Hi. destruct (decide (i = 0)) as [->|Hi0].
      * rewrite Z.mul_0_r, !Z.add_0_r.
        rewrite Hout by (intros j Hj; rewrite !Hr; by apply H0).
        unfold m1. by rewrite loadb_storeb_eq, u8_id by apply loadb_range.
      * replace (dest + d * i) with (dest + d + d * (i - 1)) by lia.
        rewrite Hin by lia. replace (src + d + d * (i - 1)) with (src + d * i) by lia.
        unfold m1. apply loadb_storeb_ne. specialize (Hsafe i 0).
        rewrite Z.mul_0_r, Z.add_0_r in Hsafe. apply Hsafe; lia.
    + intros a Ha. rewrite Hout.
      * unfold m1. apply loadb_storeb_ne. specialize (Ha 0).
        rewrite Z.mul_0_r, Z.add_0_r in Ha. apply Ha. lia.
      * intros i Hi. rewrite !Hr. replace (dest + d + d * i) with (dest + d * (i + 1)) by lia.
        apply Ha. lia.
Qed.

(** The addresses of the two ranges are different locations (the ranges may overlap). *)
Definition linear m dest src n : Prop :=
  forall x y, (dest <= x < dest + n \/ src <= x < src + n) ->
    (dest <= y < dest + n \/ src <= y < src + n) -> resolve m x = resolve m y -> x = y.

Lemma memmove_moves dest src n m :
  0 <= n -> linear m dest src n ->
  let m' := memmove dest src n m in
  (forall i, 0 <= i < n -> loadb m' (dest + i) = loadb m (src + i)) /\
  (forall a, (forall i, 0 <= i < n -> resolve m (dest + i) <> resolve m a) ->
    loadb m' a = loadb m a).
Proof.
  intros Hn Hlin m'. unfold m', memmove. clear m'. destruct (dest <=? src) eqn:Hdir.
  - destruct (rep_movsb_moves (Z.to_nat n) 1 src dest m) as [Hin Hout].
    + intros i j Hi Hj Heq. apply Hlin in Heq; lia.
    + intros i j Hj Hi Heq. apply Hlin in Heq; lia.
    + split.
      * intros i Hi. specialize (Hin i). rewrite !Z.mul_1_l in Hin. apply Hin. lia.
      * intros a Ha. apply Hout. intros i Hi. rewrite Z.mul_1_l. apply Ha. lia.
  - destruct (rep_movsb_moves (Z.to_nat n) (-1) (src - 1 + n) (dest - 1 + n) m) as [Hin Hout].
    + intros i j Hi Hj Heq. apply Hlin in Heq; lia.
    + intros i j Hj Hi Heq. apply Hlin in Heq; lia.
    + split.
      * intros i Hi. specialize (Hin (n - 1 - i)).
        replace (dest - 1 + n + -1 * (n - 1 - i)) with (dest + i) in Hin by lia.
        replace (src - 1 + n + -1 * (n - 1 - i)) with (src + i) in Hin by lia.
        apply Hin. lia.
      * intros a Ha. apply Hout. intros i Hi.
        replace (dest - 1 + n + -1 * i) with (dest + (n - 1 - i)) by lia. apply Ha. lia.
Qed.
End Move.

(** ** Properties *)
Section Properties.
Context {M : Type} `{!AddrSpace M, !AddrSpaceLaws M}.
Implicit Types (m : M).

(** C34. The word-at-a-time assembly [memcpy] is a byte copy: the destination holds
    the [n] source bytes, for every alignment and length, and no other location
    changes; the two ranges must not overlap. *)
Theorem memcpy_correct m dest src n :
  0 <= n -> inj_range m dest n -> sep_range m dest n src n ->
  let m' := memcpy (at_ptr src) dest n m in
  load_bytes m' dest (Z.to_nat n) = load_bytes m src (Z.to_nat n) /\
  forall a, (forall i, 0 <= i < n -> resolve m (dest + i) <> resolve m a) ->
    loadb m' a = loadb m a.
Proof.
  intros Hn Hinj Hsep m'. unfold m'. rewrite memcpy_bytes by (done || by apply stable_at_ptr).
  split.
  - rewrite <- (length_tabulate (Z.to_nat n) (at_ptr src m)) at 2.
    rewrite load_bytes_store_bytes by (by rewrite zlen_tabulate, Z2Nat.id by lia).
    apply zget_ext; unfold load_bytes; rewrite zlen_fmap, !zlen_tabulate; [done|].
    intros i Hi. rewrite zget_fmap, !zget_tabulate by (rewrite ?zlen_tabulate; lia).
    apply u8_id, loadb_range.
  - intros a Ha. apply loadb_store_bytes_out. rewrite zlen_tabulate, Z2Nat.id by lia. done.
Qed.

(** The assembly [memset] sets each of the [n] bytes to the low byte of [c],
    for every alignment and length, and no other location changes. *)
Theorem memset_correct m s c n :
  0 <= n -> inj_range m s n ->
  let m' := memset s c n m in
  load_bytes m' s (Z.to_nat n) = replicate (Z.to_nat n) (u8 c) /\
  forall a, (forall i, 0 <= i < n -> resolve m (s + i) <> resolve m a) ->
    loadb m' a = loadb m a.
Proof.
  intros Hn Hinj m'. unfold m'. rewrite memset_bytes. split.
  - rewrite <- (length_replicate (Z.to_nat n) c) at 2.
    rewrite load_bytes_store_bytes by (by rewrite zlen_replicate, Z2Nat.id by lia).
    apply fmap_replicate.
  - intros a Ha. apply loadb_store_bytes_out. rewrite zlen_replicate, Z2Nat.id by lia. done.
Qed.

(** [memmove] moves also when the two ranges overlap, whichever of them is
    lower: the destination ends up with what the source held at the call. *)
Theorem memmove_correct m dest src n :
  0 <= n -> linear m dest src n ->
  let m' := memmove dest src n m in
  load_bytes m' dest (Z.to_nat n) = load_bytes m src (Z.to_nat n) /\
  forall a, (forall i, 0 <= i < n -> resolve m (dest + i) <> resolve m a) ->
    loadb m' a = loadb m a.
Proof.
  intros Hn Hlin m'. destruct (memmove_moves dest src n m Hn Hlin) as [Hin Hout].
  split; [|done]. apply tabulate_ext. intros i Hi. apply Hin. lia.
Qed.

(** C35. [itoa] is right for every radix its digit table covers: it returns, the
    buffer holds a terminated text that reads back as [value] in that radix, with
    no leading zero (but for 0 itself), and nothing outside of the 33 bytes of the
    buffer changes. *)
Theorem itoa_roundtrip m value buf radix :
  2 <= radix <= 36 -> 0 <= value < 4294967296 -> inj_range m buf 33 ->
  exists m' text,
    itoa value buf radix m = Some m' /\
    cstr (at_ptr buf m') text /\
    parse_numeral radix text = value /\
    (value <> 0 -> zget text 0 <> 48) /\
    forall a, (forall i, 0 <= i < 33 -> resolve m (buf + i) <> resolve m a) ->
      loadb m' a = loadb m a.
Proof.
  intros Hr Hv Hinj. destruct (itoa_writes radix Hr value buf m Hv Hinj) as (m' & Hm' & Hc & Hout).
  exists m', (numeral radix value). do 2 (split; [done|]).
  split; [by apply parse_numeral_numeral|]. split; [|done].
  intros Hne. unfold numeral. rewrite (proj2 (Z.eqb_neq _ _)) by done.
  apply numeral_head; [done|lia].
Qed.

(** [strncpy] from a string: it writes exactly [n] bytes, the first [n] bytes of
    the string, padded with zeros when the string is shorter (and not terminated
    when it is not). *)
Theorem strncpy_correct m dest src n l :
  0 <= n -> inj_range m dest n -> sep_range m dest n src n -> cstr (at_ptr src m) l ->
  let m' := strncpy (at_ptr src) dest n m in
  load_bytes m' dest (Z.to_nat n) =
    take (Z.to_nat n) l ++ replicate (Z.to_nat n - length l) 0 /\
  forall a, (forall i, 0 <= i < n -> resolve m (dest + i) <> resolve m a) ->
    loadb m' a = loadb m a.
Proof.
  intros Hn Hinj Hsep [Hl H0] m'. unfold m'.
  rewrite strncpy_bytes by (done || by apply stable_at_ptr).
  rewrite (strncpy_result_cstr _ _ l) by (done || (intros; by rewrite Z.add_0_l)).
  set (bs := take (Z.to_nat n) l ++ replicate (Z.to_nat n - length l) 0).
  assert (Hlen : length bs = Z.to_nat n).
  { unfold bs. rewrite length_app, length_take, length_replicate. lia. }
  assert (Hbs : bytes bs).
  { unfold bytes, bs. apply Forall_app. split; [apply Forall_take|apply Forall_replicate; lia].
    apply bytes_zget. intros i Hi. destruct (Hl i Hi) as [<- _]. apply loadb_range. }
  split.
  - rewrite <- Hlen, load_bytes_store_bytes by (unfold zlen; by rewrite Hlen, Z2Nat.id).
    by apply fmap_u8_bytes.
  - intros a Ha. apply loadb_store_bytes_out. unfold zlen. by rewrite Hlen, Z2Nat.id by lia.
Qed.
End Properties.

(** ** The properties at concrete inputs *)
Definition demo : gmap Z Z := store_bytes 100 [72; 101; 108; 108; 111; 33; 0; 9; 9] ∅.

Lemma memcpy_correct_witness :
  load_bytes (memcpy (at_ptr 100) 201 7 demo) 201 7 = [72; 101; 108; 108; 111; 33; 0].
Proof.
  refine (eq_trans (proj1 (memcpy_correct demo 201 100 7 _ _ _)) _).
  - lia.
  - apply flat_inj_range. lia.
  - apply flat_sep_range; lia.
  - vm_compute. reflexivity.
Defined.

Lemma memset_correct_witness :
  load_bytes (memset 102 (-1) 5 demo) 102 5 = [255; 255; 255; 255; 255].
Proof.
  refine (eq_trans (proj1 (memset_correct demo 102 (-1) 5 _ _)) _).
  - lia.
  - apply flat_inj_range. lia.
  - vm_compute. reflexivity.
Defined.

Lemma flat_linear (m : gmap Z Z) dest src n :
  0 <= dest -> 0 <= src -> dest + n <= 4294967296 -> src + n <= 4294967296 ->
  linear m dest src n.
Proof. intros ???? x y Hx Hy. simpl. rewrite !u32_id by lia. done. Qed.

Lemma memmove_correct_witness :
  load_bytes (memmove 102 100 6 demo) 102 6 = [72; 101; 108; 108; 111; 33].
Proof.
  refine (eq_trans (proj1 (memmove_correct demo 102 100 6 _ _)) _).
  - lia.
  - apply flat_linear; lia.
  - vm_compute. reflexivity.
Defined.

Lemma itoa_roundtrip_witness : exists m' text,
  itoa 48879 300 16 demo = Some m' /\ cstr (at_ptr 300 m') text /\ parse_numeral 16 text = 48879.
Proof.
  destruct (itoa_roundtrip demo 48879 300 16) as (m' & text & Hm & Hc & Hp & _).
  - lia.
  - lia.
  - apply flat_inj_range. lia.
  - exists m', text. auto.
Defined.

Lemma strncpy_correct_witness :
  load_bytes (strncpy (at_ptr 100) 200 8 demo) 200 8 = [72; 101; 108; 108; 111; 33; 0; 0].
Proof.
  refine (eq_trans (proj1 (strncpy_correct demo 200 100 8 [72; 101; 108; 108; 111; 33] _ _ _ _)) _).
  - lia.
  - apply flat_inj_range. lia.
  - apply flat_sep_range; lia.
  - split; [|vm_compute; reflexivity].
    intros i Hi. change (zlen [72; 101; 108; 108; 111; 33]) with 6 in Hi.
    assert (i = 0 \/ i = 1 \/ i = 2 \/ i = 3 \/ i = 4 \/ i = 5) as Hc by lia.
    destruct Hc as [->|[->|[->|[->|[->| ->]]]]]; vm_compute; split; congruence.
  - vm_compute. reflexivity.
Defined.

(** The copies are used through the lemmas above. *)
#[global] Opaque memcpy memset strncpy.
