(* ===== verification/Paging.v ===== *)
(** * Paging: student-distrib/paging.c and the x86 page walk

    The state [mmu] is what paging.c changes: the page directory and the two page
    tables it fills, and the processor's side of them.  The processor may keep
    using entries it has cached until CR3 is reloaded; the model takes the worst
    case and translates with the tables of the last reload ([tlb]), so a function
    that forgets to call [_flush] leaves the old mapping in force.

    The link addresses of the two page tables are not in the source: they are the
    fields [pt_addr] and [npt_addr], which [linked] asks to be page aligned and
    different. *)
From S2P Require Import Prelude.

Definition PAGE_SIZE : Z := 1024.
Definition PROCESS_SIZE : Z := 0x400000.
Definition KER_START_ADDR : Z := 0x400000.
Definition VID_START_ADDR : Z := 0xB8000.
Definition T1_BUF_ADDR : Z := 0xB9000.
Definition T2_BUF_ADDR : Z := 0xBA000.
Definition T3_BUF_ADDR : Z := 0xBB000.
Definition VMEM_SIZE : Z := 4096.
Definition USR_START_ADDR : Z := 0x800000.
Definition VMEM_PAGE : Z := 184.
Definition T1_BUF_PAGE : Z := 185.
Definition T2_BUF_PAGE : Z := 186.
Definition T3_BUF_PAGE : Z := 187.
Definition VMEM_OR_MASK : Z := 0x7.
Definition PTABLE_OR_MASK : Z := 0x13.
Definition PTABLE_OR_MASK_USER : Z := 0x17.
Definition KMEM_OR_MASK : Z := 0x183.
Definition UMEM_OR_MASK : Z := 0x87.
Definition PIDMIN : Z := 0.
Definition PIDMAX : Z := 5.
Definition USER_MEM_LOCATION : Z := 32.
Definition VMEM_33 : Z := 33.
Definition ONEMB_PAGETABLE : Z := 256.

Record page_tables := PageTables {
  page_directory : list Z;
  page_table_0M_4M : list Z;
  new_page_table : list Z
}.
Record mmu := Mmu {
  tables : page_tables;     (* the arrays in memory *)
  tlb : page_tables;        (* the entries the processor translates with *)
  paging_on : bool;         (* CR0.PG *)
  pt_addr : Z;              (* &page_table_0M_4M *)
  npt_addr : Z              (* &new_page_table *)
}.

#[export] Instance set_page_directory : Setter page_directory :=
  λ f r, PageTables (f (page_directory r)) (page_table_0M_4M r) (new_page_table r).
#[export] Instance set_page_table_0M_4M : Setter page_table_0M_4M :=
  λ f r, PageTables (page_directory r) (f (page_table_0M_4M r)) (new_page_table r).
#[export] Instance set_new_page_table : Setter new_page_table :=
  λ f r, PageTables (page_directory r) (page_table_0M_4M r) (f (new_page_table r)).
#[export] Instance set_tables : Setter tables :=
  λ f r, Mmu (f (tables r)) (tlb r) (paging_on r) (pt_addr r) (npt_addr r).
#[export] Instance set_tlb : Setter tlb :=
  λ f r, Mmu (tables r) (f (tlb r)) (paging_on r) (pt_addr r) (npt_addr r).
#[export] Instance set_paging_on : Setter paging_on :=
  λ f r, Mmu (tables r) (tlb r) (f (paging_on r)) (pt_addr r) (npt_addr r).

(** ** The page walk of the processor *)
Definition PRESENT : Z := 0.
Definition PS : Z := 7.
Definition pde_index (va : Z) : Z := va / 4194304.
Definition pte_index (va : Z) : Z := (va / 4096) mod 1024.

(** The page table that a directory entry points to. *)
Definition table_at (m : mmu) (base : Z) : option (list Z) :=
  if base =? pt_addr m then Some (page_table_0M_4M (tlb m))
  else if base =? npt_addr m then Some (new_page_table (tlb m))
  else None.

(** [None] is a page fault. *)
Definition walk (m : mmu) (va : Z) : option Z :=
  if paging_on m then
    let pde := zget (page_directory (tlb m)) (pde_index va) in
    if negb (Z.testbit pde PRESENT) then None
    else if Z.testbit pde PS then Some (pde / 4194304 * 4194304 + va mod 4194304)
    else match table_at m (pde / 4096 * 4096) with
         | None => None
         | Some pt =>
             let pte := zget pt (pte_index va) in
             if Z.testbit pte PRESENT then Some (pte / 4096 * 4096 + va mod 4096) else None
         end
  else Some va.

(** ** The functions of paging.c *)

(** [_flush]: reload CR3. *)
Definition _flush (m : mmu) : mmu := m <| tlb := tables m |>.

Definition paging_initialize (m : mmu) : mmu :=
  let pt := tabulate (Z.to_nat PAGE_SIZE) (λ i,
    if i =? VMEM_PAGE then Z.lor VID_START_ADDR VMEM_OR_MASK
    else if i =? T1_BUF_PAGE then Z.lor T1_BUF_ADDR VMEM_OR_MASK
    else if i =? T2_BUF_PAGE then Z.lor T2_BUF_ADDR VMEM_OR_MASK
    else if i =? T3_BUF_PAGE then Z.lor T3_BUF_ADDR VMEM_OR_MASK
    else 0) in
  let pd := tabulate (Z.to_nat PAGE_SIZE) (λ i,
    if i =? 0 then Z.lor (pt_addr m) PTABLE_OR_MASK
    else if i =? 1 then Z.lor KER_START_ADDR KMEM_OR_MASK
    else 0) in
  let m := m <| tables ::= λ t, t <| page_table_0M_4M := pt |> <| page_directory := pd |> |> in
  (* CR3, then CR4.PSE and CR0.PG *)
  _flush m <| paging_on := true |>.

Definition paging_change_process (pid : Z) (m : mmu) : Z * mmu :=
  let pid := u32 (pid - 1) in
  if (pid <? PIDMIN) || (PIDMAX <? pid) then (u32 (-1), m)
  else
    let entry := Z.lor (USR_START_ADDR + PROCESS_SIZE * pid) UMEM_OR_MASK in
    let m := m <| tables ::= λ t, t <| page_directory ::= zset USER_MEM_LOCATION entry |> |> in
    (0, _flush m).

Definition paging_vidmap (m : mmu) : Z * mmu :=
  let npt := tabulate (Z.to_nat PAGE_SIZE) (λ i,
    if i =? ONEMB_PAGETABLE then Z.lor VID_START_ADDR UMEM_OR_MASK else 0) in
  let entry := Z.lor (npt_addr m) PTABLE_OR_MASK_USER in
  let m := m <| tables ::= λ t, t <| new_page_table := npt |>
                                  <| page_directory ::= zset VMEM_33 entry |> |> in
  (0, _flush m).

(** The two entries through which video memory is written: the kernel's and the
    user's. *)
Definition set_video_page (addr : Z) (t : page_tables) : page_tables :=
  t <| page_table_0M_4M ::= zset VMEM_PAGE (Z.lor addr VMEM_OR_MASK) |>
    <| new_page_table ::= zset ONEMB_PAGETABLE (Z.lor addr UMEM_OR_MASK) |>.

Definition paging_set_write_to_videomem (m : mmu) : mmu :=
  _flush (m <| tables ::= set_video_page VID_START_ADDR |>).

Definition buffer_addr (buffer : Z) : Z :=
  if buffer =? 0 then T1_BUF_ADDR
  else if buffer =? 1 then T2_BUF_ADDR
  else if buffer =? 2 then T3_BUF_ADDR
  else T1_BUF_ADDR.

Definition paging_set_write_to_buffer (buffer : Z) (m : mmu) : mmu :=
  _flush (m <| tables ::= set_video_page (buffer_addr buffer) |>).

(** ** The invariant of the kernel's address space

    From [paging_initialize] on: the tables in force are those in memory, the video
    page goes to video memory or to one of the three terminal buffers, the buffers
    and the kernel are mapped to themselves, and nothing else below 8 MB is mapped. *)
Definition video_frames : list Z := [VID_START_ADDR; T1_BUF_ADDR; T2_BUF_ADDR; T3_BUF_ADDR].

Definition page_aligned (a : Z) : Prop := exists q, a = q * 2 ^ 12.

Record linked (m : mmu) : Prop := {
  linked_pt : page_aligned (pt_addr m);
  linked_npt : page_aligned (npt_addr m);
  linked_ne : pt_addr m <> npt_addr m
}.

Record kernel_map (m : mmu) : Prop := {
  km_linked : linked m;
  km_on : paging_on m = true;
  km_sync : tlb m = tables m;
  km_pd_len : zlen (page_directory (tables m)) = 1024;
  km_pt_len : zlen (page_table_0M_4M (tables m)) = 1024;
  km_npt_len : zlen (new_page_table (tables m)) = 1024;
  km_pd0 : zget (page_directory (tables m)) 0 = Z.lor (pt_addr m) PTABLE_OR_MASK;
  km_pd1 : zget (page_directory (tables m)) 1 = Z.lor KER_START_ADDR KMEM_OR_MASK;
  km_video : exists a, a ∈ video_frames /\
    zget (page_table_0M_4M (tables m)) VMEM_PAGE = Z.lor a VMEM_OR_MASK;
  km_buffers : forall i, T1_BUF_PAGE <= i <= T3_BUF_PAGE ->
    zget (page_table_0M_4M (tables m)) i = Z.lor (i * 4096) VMEM_OR_MASK;
  km_rest : forall i, 0 <= i < 1024 -> ~ (VMEM_PAGE <= i <= T3_BUF_PAGE) ->
    zget (page_table_0M_4M (tables m)) i = 0
}.

(** The frame the video page goes to. *)
Definition video_target (m : mmu) : Z :=
  zget (page_table_0M_4M (tables m)) VMEM_PAGE / 4096 * 4096.

Section Walk.
Context (m : mmu) (Hkm : kernel_map m).

Lemma walk_low va :
  0 <= va < 4194304 ->
  walk m va =
    let pte := zget (page_table_0M_4M (tables m)) (va / 4096) in
    if Z.testbit pte PRESENT then Some (pte / 4096 * 4096 + va mod 4096) else None.
Proof.
  intros Hva. unfold walk. rewrite (km_on _ Hkm), (km_sync _ Hkm).
  unfold pde_index. rewrite Z.div_small, (km_pd0 _ Hkm) by lia.
  destruct (linked_pt _ (km_linked _ Hkm)) as [q Hq]. rewrite Hq.
  rewrite !entry_low by (unfold PTABLE_OR_MASK, PRESENT, PS; lia).
  change (Z.testbit PTABLE_OR_MASK PRESENT) with true.
  change (Z.testbit PTABLE_OR_MASK PS) with false. cbn [negb].
  rewrite (entry_frame q _ 12) by (unfold PTABLE_OR_MASK; lia).
  unfold table_at. rewrite Hq, Z.eqb_refl. unfold pte_index.
  rewrite (km_sync _ Hkm), (Z.mod_small (va / 4096)) by words. done.
Qed.

Lemma walk_kernel va : KER_START_ADDR <= va < 2 * KER_START_ADDR -> walk m va = Some va.
Proof.
  unfold KER_START_ADDR. intros Hva. unfold walk. rewrite (km_on _ Hkm), (km_sync _ Hkm).
  unfold pde_index. replace (va / 4194304) with 1 by words. rewrite (km_pd1 _ Hkm).
  change (Z.testbit (Z.lor KER_START_ADDR KMEM_OR_MASK) PRESENT) with true.
  change (Z.testbit (Z.lor KER_START_ADDR KMEM_OR_MASK) PS) with true. cbn [negb].
  change (Z.lor KER_START_ADDR KMEM_OR_MASK / 4194304 * 4194304) with 4194304.
  f_equal. words.
Qed.

Lemma video_target_frames :
  video_target m ∈ video_frames /\
  zget (page_table_0M_4M (tables m)) VMEM_PAGE = Z.lor (video_target m) VMEM_OR_MASK.
Proof.
  destruct (km_video _ Hkm) as (a & Ha & He). unfold video_target. rewrite He.
  unfold video_frames in Ha. rewrite !elem_of_cons, elem_of_nil in Ha.
  destruct Ha as [->|[->|[->|[->|[]]]]]; (split; [|reflexivity]); apply list_elem_of_In; cbn; tauto.
Qed.

Lemma walk_video off :
  0 <= off < 4096 -> walk m (VID_START_ADDR + off) = Some (video_target m + off).
Proof.
  intros Hoff. rewrite walk_low by (unfold VID_START_ADDR; lia). cbv zeta.
  replace ((VID_START_ADDR + off) / 4096) with VMEM_PAGE by (unfold VID_START_ADDR, VMEM_PAGE; words).
  replace ((VID_START_ADDR + off) mod 4096) with off by (unfold VID_START_ADDR; words).
  fold (video_target m). destruct video_target_frames as [Hin ->].
  unfold video_frames in Hin. rewrite !elem_of_cons, elem_of_nil in Hin.
  by destruct Hin as [->|[->|[->|[->|[]]]]].
Qed.

Lemma walk_buffers va : T1_BUF_ADDR <= va < T3_BUF_ADDR + 4096 -> walk m va = Some va.
Proof.
  unfold T1_BUF_ADDR, T3_BUF_ADDR. intros Hva. rewrite walk_low by lia. cbv zeta.
  rewrite (km_buffers _ Hkm) by (unfold T1_BUF_PAGE, T3_BUF_PAGE; words).
  change 4096 with (2 ^ 12) at 2 4 5. rewrite entry_low by (unfold VMEM_OR_MASK, PRESENT; lia).
  change (Z.testbit VMEM_OR_MASK PRESENT) with true.
  rewrite (entry_frame _ _ 12) by (unfold VMEM_OR_MASK; lia). f_equal. change (2 ^ 12) with 4096. words.
Qed.

Lemma walk_unmapped va :
  0 <= va < VID_START_ADDR \/ T3_BUF_ADDR + 4096 <= va < KER_START_ADDR -> walk m va = None.
Proof.
  unfold VID_START_ADDR, T3_BUF_ADDR, KER_START_ADDR. intros Hva. rewrite walk_low by lia. cbv zeta.
  rewrite (km_rest _ Hkm); [done|words|unfold VMEM_PAGE, T3_BUF_PAGE; words].
Qed.
End Walk.

(** ** Every function of paging.c keeps the invariant *)

Ltac split_frames H :=
  unfold video_frames in H; rewrite !elem_of_cons, elem_of_nil in H;
  destruct H as [->|[->|[->|[->|[]]]]].

Lemma buffer_addr_frames b : buffer_addr b ∈ video_frames.
Proof. unfold buffer_addr. apply list_elem_of_In. repeat case_match; cbn; tauto. Qed.

Lemma paging_initialize_kernel_map m :
  linked m -> zlen (new_page_table (tables m)) = 1024 -> kernel_map (paging_initialize m).
Proof.
  intros Hl Hn. split; try done.
  - by destruct Hl; split.
  - exists VID_START_ADDR. split; [apply list_elem_of_In; cbn; tauto|done].
  - intros i Hi. unfold T1_BUF_PAGE, T3_BUF_PAGE in Hi.
    assert (i = 185 \/ i = 186 \/ i = 187) as [->|[->| ->]] by lia; reflexivity.
  - intros i Hi Hne. cbn. rewrite zget_tabulate by (unfold PAGE_SIZE; lia).
    unfold VMEM_PAGE, T1_BUF_PAGE, T2_BUF_PAGE, T3_BUF_PAGE in *.
    by rewrite !(proj2 (Z.eqb_neq i _)) by lia.
Qed.

(** A change of the directory above entry 1, of the video entry and of the second
    page table, followed by [_flush], keeps the invariant. *)
Lemma kernel_map_update m t :
  kernel_map m ->
  zlen (page_directory t) = 1024 -> zlen (new_page_table t) = 1024 ->
  zget (page_directory t) 0 = zget (page_directory (tables m)) 0 ->
  zget (page_directory t) 1 = zget (page_directory (tables m)) 1 ->
  (exists a, a ∈ video_frames /\
     page_table_0M_4M t = zset VMEM_PAGE (Z.lor a VMEM_OR_MASK) (page_table_0M_4M (tables m))) ->
  kernel_map (_flush (m <| tables := t |>)).
Proof.
  intros Hkm Hpd Hnpt H0 H1 (a & Ha & Hpt).
  pose proof (km_pt_len _ Hkm) as Hlen.
  split; cbn; rewrite ?Hpt, ?zlen_zset; try done.
  - by destruct (km_linked _ Hkm); split.
  - apply (km_on _ Hkm).
  - rewrite H0. apply (km_pd0 _ Hkm).
  - rewrite H1. apply (km_pd1 _ Hkm).
  - exists a. split; [done|]. apply zget_zset_eq. unfold VMEM_PAGE; lia.
  - intros i Hi. rewrite zget_zset_ne by (unfold VMEM_PAGE, T1_BUF_PAGE in *; lia).
    by apply (km_buffers _ Hkm).
  - intros i Hi Hne. rewrite zget_zset_ne by (unfold VMEM_PAGE, T3_BUF_PAGE in *; lia).
    by apply (km_rest _ Hkm).
Qed.

Lemma video_entry_same m :
  kernel_map m ->
  exists a, a ∈ video_frames /\
    page_table_0M_4M (tables m) = zset VMEM_PAGE (Z.lor a VMEM_OR_MASK) (page_table_0M_4M (tables m)).
Proof.
  intros Hkm. destruct (km_video _ Hkm) as (a & Ha & He). exists a. split; [done|].
  rewrite <- He. symmetry. apply zset_id. rewrite (km_pt_len _ Hkm). unfold VMEM_PAGE; lia.
Qed.

Lemma paging_change_process_kernel_map pid m :
  kernel_map m -> kernel_map (paging_change_process pid m).2.
Proof.
  intros Hkm. unfold paging_change_process. case_match; [done|].
  apply (kernel_map_update m _ Hkm); cbn.
  - rewrite zlen_zset. apply (km_pd_len _ Hkm).
  - apply (km_npt_len _ Hkm).
  - apply zget_zset_ne; unfold USER_MEM_LOCATION; lia.
  - apply zget_zset_ne; unfold USER_MEM_LOCATION; lia.
  - by apply video_entry_same.
Qed.

Lemma paging_vidmap_kernel_map m : kernel_map m -> kernel_map (paging_vidmap m).2.
Proof.
  intros Hkm. apply (kernel_map_update m _ Hkm); cbn.
  - rewrite zlen_zset. apply (km_pd_len _ Hkm).
  - done.
  - apply zget_zset_ne; unfold VMEM_33; lia.
  - apply zget_zset_ne; unfold VMEM_33; lia.
  - by apply video_entry_same.
Qed.

Lemma set_video_page_kernel_map a m :
  a ∈ video_frames -> kernel_map m -> kernel_map (_flush (m <| tables ::= set_video_page a |>)).
Proof.
  intros Ha Hkm. apply (kernel_map_update m _ Hkm); cbn; try done.
  - apply (km_pd_len _ Hkm).
  - rewrite zlen_zset. apply (km_npt_len _ Hkm).
  - by exists a.
Qed.

Lemma paging_set_write_to_videomem_kernel_map m :
  kernel_map m -> kernel_map (paging_set_write_to_videomem m).
Proof. apply set_video_page_kernel_map. apply list_elem_of_In. cbn. tauto. Qed.
Lemma paging_set_write_to_buffer_kernel_map b m :
  kernel_map m -> kernel_map (paging_set_write_to_buffer b m).
Proof. apply set_video_page_kernel_map, buffer_addr_frames. Qed.
#[export] Hint Resolve paging_change_process_kernel_map paging_vidmap_kernel_map
  paging_set_write_to_videomem_kernel_map paging_set_write_to_buffer_kernel_map : kern.

(** *** Where the video page goes afterwards *)
Lemma video_target_set a m :
  a ∈ video_frames -> kernel_map m -> video_target (_flush (m <| tables ::= set_video_page a |>)) = a.
Proof.
  intros Ha Hkm. unfold video_target. cbn.
  rewrite zget_zset_eq by (rewrite (km_pt_len _ Hkm); unfold VMEM_PAGE; lia).
  by split_frames Ha.
Qed.
Lemma video_target_videomem m :
  kernel_map m -> video_target (paging_set_write_to_videomem m) = VID_START_ADDR.
Proof. apply video_target_set. apply list_elem_of_In. cbn. tauto. Qed.
Lemma video_target_buffer b m :
  kernel_map m -> video_target (paging_set_write_to_buffer b m) = buffer_addr b.
Proof. apply video_target_set, buffer_addr_frames. Qed.
Lemma video_target_change_process pid m :
  video_target (paging_change_process pid m).2 = video_target m.
Proof. unfold paging_change_process. by case_match. Qed.
Lemma video_target_vidmap m : video_target (paging_vidmap m).2 = video_target m.
Proof. done. Qed.
#[export] Hint Rewrite video_target_change_process video_target_vidmap : word.

(** ** The pages of user space *)

(** The user program's page and the user's video page. *)
Definition user_base : Z := 0x8000000.
Definition user_video : Z := 0x8500000.
Definition user_frame (pid : Z) : Z := 0x800000 + 0x400000 * (pid - 1).

Lemma walk_directory m va :
  kernel_map m -> walk m va =
    let pde := zget (page_directory (tables m)) (pde_index va) in
    if negb (Z.testbit pde PRESENT) then None
    else if Z.testbit pde PS then Some (pde / 4194304 * 4194304 + va mod 4194304)
    else match table_at m (pde / 4096 * 4096) with
         | None => None
         | Some pt =>
             let pte := zget pt (pte_index va) in
             if Z.testbit pte PRESENT then Some (pte / 4096 * 4096 + va mod 4096) else None
         end.
Proof. intros Hkm. unfold walk. by rewrite (km_on _ Hkm), (km_sync _ Hkm). Qed.

Lemma walk_user_page m pid va :
  kernel_map m -> 1 <= pid <= 6 ->
  zget (page_directory (tables m)) USER_MEM_LOCATION = Z.lor (user_frame pid) UMEM_OR_MASK ->
  user_base <= va < user_base + 4194304 ->
  walk m va = Some (user_frame pid + (va - user_base)).
Proof.
  unfold user_base. intros Hkm Hpid He Hva. rewrite (walk_directory _ _ Hkm). cbv zeta.
  unfold pde_index. replace (va / 4194304) with USER_MEM_LOCATION by (unfold USER_MEM_LOCATION; words).
  rewrite He. replace (va mod 4194304) with (va - 0x8000000) by words.
  assert (pid = 1 \/ pid = 2 \/ pid = 3 \/ pid = 4 \/ pid = 5 \/ pid = 6)
    as [->|[->|[->|[->|[->| ->]]]]] by lia; reflexivity.
Qed.

(** A translation depends on its own directory entry only. *)
Lemma walk_other_entry m i e va :
  kernel_map m -> 0 <= va -> 0 <= i -> pde_index va <> i ->
  let m' := _flush (m <| tables ::= λ t, t <| page_directory ::= zset i e |> |>) in
  walk m' va = walk m va.
Proof.
  intros Hkm Hva Hi Hne m'. unfold walk, m', table_at. cbn.
  rewrite (km_on _ Hkm), (km_sync _ Hkm).
  rewrite zget_zset_ne; [done|done|unfold pde_index; words|congruence].
Qed.

(** The user's video page is set up, and goes to [a]. *)
Record vidmapped (m : mmu) (a : Z) : Prop := {
  vm_entry : zget (page_directory (tables m)) VMEM_33 = Z.lor (npt_addr m) PTABLE_OR_MASK_USER;
  vm_page : zget (new_page_table (tables m)) ONEMB_PAGETABLE = Z.lor a UMEM_OR_MASK;
  vm_frame : a ∈ video_frames
}.

Lemma walk_user_video m a off :
  kernel_map m -> vidmapped m a -> 0 <= off < 4096 -> walk m (user_video + off) = Some (a + off).
Proof.
  unfold user_video. intros Hkm [He Hp Ha] Hoff. rewrite (walk_directory _ _ Hkm). cbv zeta.
  unfold pde_index, pte_index.
  replace ((0x8500000 + off) / 4194304) with VMEM_33 by (unfold VMEM_33; words).
  replace (((0x8500000 + off) / 4096) mod 1024) with ONEMB_PAGETABLE by (unfold ONEMB_PAGETABLE; words).
  replace ((0x8500000 + off) mod 4096) with off by words.
  rewrite He. pose proof (km_linked _ Hkm) as [_ [q Hq] Hne]. rewrite Hq.
  rewrite !entry_low by (unfold PTABLE_OR_MASK_USER, PRESENT, PS; lia).
  change (Z.testbit PTABLE_OR_MASK_USER PRESENT) with true.
  change (Z.testbit PTABLE_OR_MASK_USER PS) with false. cbn [negb].
  rewrite (entry_frame q _ 12) by (unfold PTABLE_OR_MASK_USER; lia).
  change 4096 with (2 ^ 12) at 1. rewrite <- Hq. unfold table_at.
  rewrite (proj2 (Z.eqb_neq _ _)) by congruence. rewrite Z.eqb_refl, (km_sync _ Hkm), Hp.
  by split_frames Ha.
Qed.

Lemma vidmapped_vidmap m : kernel_map m -> vidmapped (paging_vidmap m).2 VID_START_ADDR.
Proof.
  intros Hkm. split; cbn.
  - apply zget_zset_eq. rewrite (km_pd_len _ Hkm). unfold VMEM_33; lia.
  - done.
  - apply list_elem_of_In; cbn; tauto.
Qed.
Lemma vidmapped_set_video_page m a b :
  kernel_map m -> vidmapped m a -> b ∈ video_frames ->
  vidmapped (_flush (m <| tables ::= set_video_page b |>)) b.
Proof.
  intros Hkm [He Hp Ha] Hb. split; cbn; [done| |done].
  apply zget_zset_eq. rewrite (km_npt_len _ Hkm). unfold ONEMB_PAGETABLE; lia.
Qed.
Lemma vidmapped_change_process pid m a :
  vidmapped m a -> vidmapped (paging_change_process pid m).2 a.
Proof.
  intros [He Hp Ha]. unfold paging_change_process. case_match; [by split|]. split; cbn; [|done|done].
  rewrite zget_zset_ne; [done|unfold USER_MEM_LOCATION, VMEM_33; lia..].
Qed.

(** ** Properties *)

(** After [paging_initialize] a virtual address translates to itself exactly when
    it lies in the video page, in one of the three terminal buffers or in the
    kernel's 4 MB page; every other address of the 32-bit space faults. *)
Theorem paging_initialize_identity m va :
  linked m -> zlen (new_page_table (tables m)) = 1024 -> 0 <= va < 4294967296 ->
  walk (paging_initialize m) va =
    if decide (0xB8000 <= va < 0xBC000 \/ 0x400000 <= va < 0x800000) then Some va else None.
Proof.
  intros Hl Hn Hva. pose proof (paging_initialize_kernel_map m Hl Hn) as Hkm.
  destruct (decide (0x800000 <= va)) as [Hhi|Hlo].
  - rewrite decide_False by lia. rewrite (walk_directory _ _ Hkm). cbn.
    unfold pde_index. rewrite zget_tabulate by (unfold PAGE_SIZE; words).
    by rewrite (proj2 (Z.eqb_neq (va / _) 0)), (proj2 (Z.eqb_neq (va / _) 1)) by words.
  - case_decide as Hc.
    + destruct (decide (0x400000 <= va)).
      * apply walk_kernel; [done|unfold KER_START_ADDR; lia].
      * destruct (decide (va < 0xB9000)).
        -- replace va with (VID_START_ADDR + (va - 0xB8000)) by (unfold VID_START_ADDR; lia).
           rewrite walk_video by (done || lia). done.
        -- apply walk_buffers; [done|unfold T1_BUF_ADDR, T3_BUF_ADDR; lia].
    + apply walk_unmapped; [done|unfold VID_START_ADDR, T3_BUF_ADDR, KER_START_ADDR; lia].
Qed.

(** The state before [paging_initialize], with two link addresses. *)
Definition boot_mmu : mmu :=
  let t := PageTables [] [] (replicate 1024 0) in Mmu t t false 0x418000 0x419000.
Lemma boot_linked : linked boot_mmu.
Proof. split; [exists 0x418; reflexivity|exists 0x419; reflexivity|done]. Qed.
Definition booted_mmu : mmu := paging_initialize boot_mmu.
Lemma booted_kernel_map : kernel_map booted_mmu.
Proof. apply paging_initialize_kernel_map; [apply boot_linked|done]. Qed.

Lemma paging_initialize_identity_witness :
  linked boot_mmu /\ walk (paging_initialize boot_mmu) 0xB9004 = Some 0xB9004.
Proof.
  split; [apply boot_linked|].
  rewrite (paging_initialize_identity boot_mmu 0xB9004); [reflexivity|apply boot_linked|reflexivity|lia].
Defined.

(** C1. [paging_change_process] accepts exactly the process ids 1 to 6.  It then maps the
    4 MB user page at 128 MB to the frame of that process and no other
    translation changes; the frames of two processes, and a frame and the kernel's
    memory below 8 MB, are disjoint.  Any other id returns -1 and changes nothing. *)
Theorem paging_change_process_isolates m pid :
  kernel_map m -> 0 <= pid < 4294967296 ->
  let '(r, m') := paging_change_process pid m in
  if decide (1 <= pid <= 6) then
    r = 0 /\
    (forall off, 0 <= off < 0x400000 ->
       walk m' (user_base + off) = Some (user_frame pid + off) /\
       0x800000 <= user_frame pid + off /\
       forall pid' off', 1 <= pid' <= 6 -> 0 <= off' < 0x400000 ->
         user_frame pid' + off' = user_frame pid + off -> pid' = pid) /\
    (forall va, 0 <= va -> ~ (user_base <= va < user_base + 0x400000) -> walk m' va = walk m va)
  else r = UINT32_MAX /\ m' = m.
Proof.
  intros Hkm Hpid. pose proof (paging_change_process_kernel_map pid m Hkm) as Hkm'.
  revert Hkm'. unfold paging_change_process, PIDMIN, PIDMAX. cbv zeta.
  case_decide as Hd.
  - rewrite (u32_id (pid - 1)) by lia.
    replace ((pid - 1 <? 0) || (5 <? pid - 1)) with false by lia. cbn [snd]. intros Hkm'.
    split; [done|]. split.
    + intros off Hoff. split; [|unfold user_frame; split; [lia|intros; lia]].
      rewrite (walk_user_page _ pid) by (done || (unfold user_base; lia) ||
        (cbn; apply zget_zset_eq; rewrite (km_pd_len _ Hkm); unfold USER_MEM_LOCATION; lia)).
      f_equal. lia.
    + intros va Hva Hne. apply walk_other_entry; [done|lia|unfold USER_MEM_LOCATION; lia|].
      unfold pde_index, USER_MEM_LOCATION, user_base in *. words.
  - intros _. replace ((u32 (pid - 1) <? 0) || (5 <? u32 (pid - 1))) with true by words. done.
Qed.

Lemma paging_change_process_isolates_witness :
  walk (paging_change_process 3 booted_mmu).2 0x8048000 = Some 0x1048000.
Proof.
  pose proof (paging_change_process_isolates booted_mmu 3 booted_kernel_map ltac:(lia)) as H.
  destruct (paging_change_process 3 booted_mmu) as [r m']. cbn [snd].
  destruct H as (_ & H & _). destruct (H 0x48000 ltac:(lia)) as (Hw & _).
  exact Hw.
Defined.

(** The paging calls the kernel makes while it runs. *)
Inductive paging_call :=
  | ChangeProcess (pid : Z) | Vidmap | WriteToVideomem | WriteToBuffer (b : Z).
Definition paging_step (c : paging_call) (m : mmu) : mmu :=
  match c with
  | ChangeProcess pid => (paging_change_process pid m).2
  | Vidmap => (paging_vidmap m).2
  | WriteToVideomem => paging_set_write_to_videomem m
  | WriteToBuffer b => paging_set_write_to_buffer b m
  end.
Lemma paging_step_kernel_map c m : kernel_map m -> kernel_map (paging_step c m).
Proof. destruct c; unfold paging_step; auto with kern. Qed.

(** C2. The kernel's view is never lost: after any sequence of paging calls the
    kernel's page and the three buffers are still mapped to themselves, the video page
    goes to video memory or to a buffer, and everything else below 4 MB faults. *)
Theorem paging_calls_keep_kernel m cs va :
  kernel_map m -> 0 <= va < 0x800000 ->
  let m' := foldl (flip paging_step) m cs in
  walk m' va =
    if decide (0x400000 <= va \/ 0xB9000 <= va < 0xBC000) then Some va
    else if decide (0xB8000 <= va < 0xB9000) then Some (video_target m' + (va - 0xB8000))
    else None.
Proof.
  intros Hkm Hva m'. assert (kernel_map m') as Hkm'.
  { unfold m'. clear Hva va m'. revert m Hkm. induction cs as [|c cs IH]; intros m Hkm; [done|].
    cbn. apply IH. by apply paging_step_kernel_map. }
  clearbody m'. repeat case_decide.
  - destruct (decide (0x400000 <= va)).
    + apply walk_kernel; [done|unfold KER_START_ADDR; lia].
    + apply walk_buffers; [done|unfold T1_BUF_ADDR, T3_BUF_ADDR; lia].
  - rewrite <- walk_video by (done || lia). f_equal. unfold VID_START_ADDR. lia.
  - apply walk_unmapped; [done|unfold VID_START_ADDR, T3_BUF_ADDR, KER_START_ADDR; lia].
Qed.
Lemma paging_calls_keep_kernel_witness :
  walk (foldl (flip paging_step) booted_mmu [ChangeProcess 2; Vidmap; WriteToBuffer 1]) 0xB8004
  = Some 0xBA004.
Proof.
  etransitivity.
  - exact (paging_calls_keep_kernel booted_mmu [ChangeProcess 2; Vidmap; WriteToBuffer 1] 0xB8004
      booted_kernel_map ltac:(lia)).
  - reflexivity.
Defined.

(** The two video pages.  [paging_vidmap] maps 0x8500000 to video memory, whatever
    the kernel's video page shows; from then on each of the two redirections moves both
    pages to the same frame, so a program that called vidmap and the kernel write the
    same screen.  A change of process does not move them. *)
Theorem video_pages_agree m pid b off :
  kernel_map m -> 0 <= off < 4096 ->
  let m1 := (paging_change_process pid (paging_vidmap m).2).2 in
  walk m1 (user_video + off) = Some (VID_START_ADDR + off) /\
  walk m1 (VID_START_ADDR + off) = Some (video_target m + off) /\
  (let m2 := paging_set_write_to_buffer b m1 in
   walk m2 (user_video + off) = Some (buffer_addr b + off) /\
   walk m2 (VID_START_ADDR + off) = Some (buffer_addr b + off)) /\
  (let m3 := paging_set_write_to_videomem m1 in
   walk m3 (user_video + off) = Some (VID_START_ADDR + off) /\
   walk m3 (VID_START_ADDR + off) = Some (VID_START_ADDR + off)).
Proof.
  intros Hkm Hoff m1.
  assert (kernel_map m1) as Hkm1 by (unfold m1; auto with kern).
  assert (vidmapped m1 VID_START_ADDR) as Hv
    by (apply vidmapped_change_process; by apply vidmapped_vidmap).
  split; [by apply walk_user_video|].
  split; [rewrite walk_video by done; unfold m1; by autorewrite with word|].
  clearbody m1. split; intros m2.
  - assert (kernel_map m2) by (by apply paging_set_write_to_buffer_kernel_map).
    split; [apply walk_user_video; [done| |done]|].
    + apply (vidmapped_set_video_page _ _ _ Hkm1 Hv), buffer_addr_frames.
    + rewrite walk_video by done. unfold m2. by rewrite video_target_buffer.
  - assert (kernel_map m2) by (by apply paging_set_write_to_videomem_kernel_map).
    split; [apply walk_user_video; [done| |done]|].
    + apply (vidmapped_set_video_page _ _ _ Hkm1 Hv). apply list_elem_of_In; cbn; tauto.
    + rewrite walk_video by done. unfold m2. by rewrite video_target_videomem.
Qed.
Lemma video_pages_agree_witness :
  walk (paging_set_write_to_buffer 2 (paging_change_process 4 (paging_vidmap booted_mmu).2).2) 0x8500010
  = Some 0xBB010.
Proof.
  pose proof (video_pages_agree booted_mmu 4 2 16 booted_kernel_map ltac:(lia)) as H.
  exact (proj1 (proj1 (proj2 (proj2 H)))).
Defined.
