(* ===== verification/Devices.v ===== *)
(** * The devices: student-distrib/i8259.c, rtc.c, pit.c

    [dev] is what the drivers touch: the ports, the two mask variables of i8259.c,
    the flag of the real-time clock and the interrupt flag of the processor.  A port
    write is recorded in [port_log], newest first; what a port read answers is the
    devices' own, the field [port_in], which sees the writes so far.

    The hardware side is given by what the data sheets say of a sequence of writes:
    [cmos] is the clock's register file, [pic_state] one 8259. *)
From S2P Require Import Prelude.

Record dev := Dev {
  port_log : list (Z * Z);                (* (data, port), newest first *)
  port_in : list (Z * Z) -> Z -> Z;       (* what the devices answer *)
  master_mask : Z;
  slave_mask : Z;
  rtc_interrupt_occurred : Z;
  interrupt_flag : bool;
  rtcInterruptCount : Z                   (* lib.c *)
}.
#[export] Instance set_port_log : Setter port_log :=
  λ f r, Dev (f (port_log r)) (port_in r) (master_mask r) (slave_mask r) (rtc_interrupt_occurred r) (interrupt_flag r) (rtcInterruptCount r).
#[export] Instance set_port_in : Setter port_in :=
  λ f r, Dev (port_log r) (f (port_in r)) (master_mask r) (slave_mask r) (rtc_interrupt_occurred r) (interrupt_flag r) (rtcInterruptCount r).
#[export] Instance set_master_mask : Setter master_mask :=
  λ f r, Dev (port_log r) (port_in r) (f (master_mask r)) (slave_mask r) (rtc_interrupt_occurred r) (interrupt_flag r) (rtcInterruptCount r).
#[export] Instance set_slave_mask : Setter slave_mask :=
  λ f r, Dev (port_log r) (port_in r) (master_mask r) (f (slave_mask r)) (rtc_interrupt_occurred r) (interrupt_flag r) (rtcInterruptCount r).
#[export] Instance set_rtc_interrupt_occurred : Setter rtc_interrupt_occurred :=
  λ f r, Dev (port_log r) (port_in r) (master_mask r) (slave_mask r) (f (rtc_interrupt_occurred r)) (interrupt_flag r) (rtcInterruptCount r).
#[export] Instance set_interrupt_flag : Setter interrupt_flag :=
  λ f r, Dev (port_log r) (port_in r) (master_mask r) (slave_mask r) (rtc_interrupt_occurred r) (f (interrupt_flag r)) (rtcInterruptCount r).
#[export] Instance set_rtcInterruptCount : Setter rtcInterruptCount :=
  λ f r, Dev (port_log r) (port_in r) (master_mask r) (slave_mask r) (rtc_interrupt_occurred r) (interrupt_flag r) (f (rtcInterruptCount r)).

(** ** Port access and the interrupt flag (lib.h) *)
Definition outb (data port : Z) (d : dev) : dev := d <| port_log ::= cons (u8 data, port) |>.
Definition inb (port : Z) (d : dev) : Z := u8 (port_in d (port_log d) port).
Definition cli (d : dev) : dev := d <| interrupt_flag := false |>.
Definition sti (d : dev) : dev := d <| interrupt_flag := true |>.

(** ** i8259.c *)
Module I8259.
Definition MASTER_8259_PORT : Z := 0x20.
Definition SLAVE_8259_PORT : Z := 0xA0.
Definition MASTER_8259_PORT_DATA : Z := 0x21.
Definition SLAVE_8259_PORT_DATA : Z := 0xA1.
Definition IRQ_SLAVE : Z := 2.
Definition MASK_VALUE : Z := 0xFF.
Definition SLAVE_IRQ_START : Z := 8.
Definition SLAVE_IRQ_LAST : Z := 16.
Definition ICW1 : Z := 0x11.
Definition ICW2_MASTER : Z := 0x20.
Definition ICW2_SLAVE : Z := 0x28.
Definition ICW3_MASTER : Z := 0x04.
Definition ICW3_SLAVE : Z := 0x02.
Definition ICW4 : Z := 0x01.
Definition EOI : Z := 0x60.

Definition i8259_init (d : dev) : dev :=
  let d := outb MASK_VALUE MASTER_8259_PORT_DATA d in
  let d := outb MASK_VALUE SLAVE_8259_PORT_DATA d in
  let d := outb ICW1 MASTER_8259_PORT d in
  let d := outb ICW2_MASTER MASTER_8259_PORT_DATA d in
  let d := outb ICW3_MASTER MASTER_8259_PORT_DATA d in
  let d := outb ICW4 MASTER_8259_PORT_DATA d in
  let d := outb ICW1 SLAVE_8259_PORT d in
  let d := outb ICW2_SLAVE SLAVE_8259_PORT_DATA d in
  let d := outb ICW3_SLAVE SLAVE_8259_PORT_DATA d in
  let d := outb ICW4 SLAVE_8259_PORT_DATA d in
  let d := outb (master_mask d) MASTER_8259_PORT_DATA d in
  outb (slave_mask d) SLAVE_8259_PORT_DATA d.

(** [mask &= ~(1<<n)] and [mask |= 1<<n] on a [uint8_t]. *)
Definition unmask (n mask : Z) : Z := u8 (Z.land mask (Z.lnot (Z.shiftl 1 n))).
Definition mask_bit (n mask : Z) : Z := u8 (Z.lor mask (Z.shiftl 1 n)).

Definition enable_irq (irq_num : Z) (d : dev) : dev :=
  let d :=
    if (0 <=? irq_num) && (irq_num <? SLAVE_IRQ_START) then
      let d := d <| master_mask ::= unmask irq_num |> in
      outb (master_mask d) MASTER_8259_PORT_DATA d
    else d in
  if (SLAVE_IRQ_START <=? irq_num) && (irq_num <? SLAVE_IRQ_LAST) then
    let d := d <| master_mask ::= unmask IRQ_SLAVE |> in
    let d := outb (master_mask d) MASTER_8259_PORT_DATA d in
    let d := d <| slave_mask ::= unmask (irq_num - SLAVE_IRQ_START) |> in
    outb (slave_mask d) SLAVE_8259_PORT_DATA d
  else d.

Definition disable_irq (irq_num : Z) (d : dev) : dev :=
  let d :=
    if (0 <=? irq_num) && (irq_num <? SLAVE_IRQ_START) then
      let d := d <| master_mask ::= mask_bit irq_num |> in
      outb (master_mask d) MASTER_8259_PORT_DATA d
    else d in
  if (SLAVE_IRQ_START <=? irq_num) && (irq_num <? SLAVE_IRQ_LAST) then
    let d := d <| master_mask ::= mask_bit 2 |> in
    let d := outb (master_mask d) MASTER_8259_PORT_DATA d in
    let d := d <| slave_mask ::= mask_bit (irq_num - SLAVE_IRQ_START) |> in
    outb (slave_mask d) SLAVE_8259_PORT_DATA d
  else d.

Definition send_eoi (irq_num : Z) (d : dev) : dev :=
  if SLAVE_IRQ_START <=? irq_num then
    outb (Z.lor EOI (irq_num - SLAVE_IRQ_START)) SLAVE_8259_PORT d
  else outb (Z.lor EOI irq_num) MASTER_8259_PORT d.
End I8259.

(** ** rtc.c *)
Module Rtc.
Definition RTC_CMD_PORT : Z := 0x70.
Definition RTC_DATA_PORT : Z := 0x71.
Definition REG_A_NMI_OFF : Z := 0x8A.
Definition REG_B : Z := 0x8B.
Definition REG_C : Z := 0x0C.
Definition RTC_MASK : Z := 0x40.
Definition RTC_IRQ_NO : Z := 8.
Definition MAX_FREQ : Z := 1024.
Definition DEFAULT_FREQ : Z := 2.
Definition INIT_RATE : Z := 5.
Definition MASK_LOWER : Z := 0xF0.

Definition init_rtc (d : dev) : dev :=
  let d := outb REG_B RTC_CMD_PORT d in
  let prev := s8 (inb RTC_DATA_PORT d) in
  let d := outb REG_B RTC_CMD_PORT d in
  let d := outb (Z.lor prev RTC_MASK) RTC_DATA_PORT d in
  I8259.enable_irq RTC_IRQ_NO d.

(** [rtc_read]: clears the flag and waits for the interrupt to set it. *)
Definition rtc_read_end (d : dev) : outcome dev Z :=
  if rtc_interrupt_occurred d =? 0 then Wait d else Ret 0 d.
Definition rtc_read (d : dev) : outcome dev Z := rtc_read_end (d <| rtc_interrupt_occurred := 0 |>).

(** The search for the rate: [rate] counts up as [tmp] halves from [MAX_FREQ]. *)
Definition find_rate (freq : Z) : option Z :=
  while (λ '(rate, tmp),
    if negb (tmp =? freq) then inl (s8 (rate + 1), Z.shiftr tmp 1) else inr rate)
    (INIT_RATE, MAX_FREQ).

(** [rtc_write]: [buf] is [None] for NULL, else the integer it points to.  The
    test of [v & (v - 1)] tells a power of two from other values. *)
Definition rtc_write (buf : option Z) : prog dev Z := λ d,
  match buf with
  | None => Ret (-1) d
  | Some v =>
      if negb (Z.land v (s32 (v - 1)) =? 0) || (MAX_FREQ <? v) then Ret (-1) d
      else
        match find_rate v with
        | None => Spin
        | Some rate =>
            let d := cli d in
            let d := outb REG_A_NMI_OFF RTC_CMD_PORT d in
            let prev := s8 (inb RTC_DATA_PORT d) in
            let d := outb REG_A_NMI_OFF RTC_CMD_PORT d in
            let d := outb (Z.lor (Z.land prev MASK_LOWER) rate) RTC_DATA_PORT d in
            Ret 0 (sti d)
        end
  end.

Definition rtc_open : prog dev Z := _ ← rtc_write (Some DEFAULT_FREQ); mret 0.
Definition rtc_close : prog dev Z := mret 0.
End Rtc.

(** ** pit.c: the writes of [init_pit]; its last line prints (Scheduler.v) *)
Module Pit.
Definition program (rate : Z) (d : dev) : dev :=
  let divisor := 1193182 / rate in
  let d := outb 0x36 0x43 d in
  let d := outb (Z.land divisor 0xFF) 0x40 d in
  let d := outb (Z.land (Z.shiftr divisor 8) 0xFF) 0x40 d in
  I8259.enable_irq 0 d.
End Pit.

(** ** terminal.c and scheduler.c drive the cursor of the VGA controller *)
Module Cursor.
Definition VMEMPORT_3D4 : Z := 0x3D4.
Definition VMEMPORT_3D5 : Z := 0x3D5.
Definition cursor_on (d : dev) : dev :=
  let d := outb 0x0A VMEMPORT_3D4 d in
  let d := outb (Z.lor (Z.land (inb VMEMPORT_3D5 d) 0x0C) 0) VMEMPORT_3D5 d in
  let d := outb 0x0B VMEMPORT_3D4 d in
  outb (Z.lor (Z.land (inb VMEMPORT_3D5 d) 0x0E) 15) VMEMPORT_3D5 d.
(** The two halves of the position, low byte first. *)
Definition set_cursor (pos : Z) (d : dev) : dev :=
  let d := outb 0x0F VMEMPORT_3D4 d in
  let d := outb (Z.land pos 0xFF) VMEMPORT_3D5 d in
  let d := outb 0x0E VMEMPORT_3D4 d in
  outb (Z.land (Z.shiftr pos 8) 0xFF) VMEMPORT_3D5 d.
End Cursor.

(** ** What the hardware makes of the writes *)

(** The real-time clock: a write to port 0x70 selects a register (bit 7 is the NMI
    mask), a write to port 0x71 sets it.  The state is the selected register and the
    last value written to each register. *)
Definition cmos : Type := Z * (Z -> option Z).
Definition cmos_step (w : Z * Z) (c : cmos) : cmos :=
  let '(data, port) := w in
  if port =? 0x70 then (data mod 128, c.2)
  else if port =? 0x71 then (c.1, λ r, if r =? c.1 then Some data else c.2 r)
  else c.
Definition cmos_of (log : list (Z * Z)) : cmos := foldr cmos_step (0, λ _, None) log.

(** [d'] is [d] after writes to the ports of [P] only. *)
Definition writes_to (P : Z -> Prop) (d d' : dev) : Prop :=
  exists l, d' = d <| port_log ::= app l |> /\ Forall (λ w, P w.2) l.
Definition cursor_port (p : Z) : Prop := p = 0x3D4 \/ p = 0x3D5.
Definition clock_port (p : Z) : Prop := p = 0x70 \/ p = 0x71.
(** What a system call may do to the devices: move the cursor and set register A of the
    clock, its rate.  The masks and the flag of the clock are the same. *)
Record driven (d d' : dev) : Prop := {
  dr_writes : writes_to (λ p, cursor_port p \/ clock_port p) d (d' <| interrupt_flag := interrupt_flag d |>);
  dr_clock : forall r, r <> 0x0A -> (cmos_of (port_log d')).2 r = (cmos_of (port_log d)).2 r
}.

(** One 8259: a first initialisation word (bit 4) on the command port is followed by
    three words on the data port; otherwise a write to the data port sets the mask. *)
Record pic := Pic { icw_left : nat; vector_base : Z; pic_mask : Z; last_eoi : option Z }.
Definition pic_step (cmd : Z) (w : Z * Z) (p : pic) : pic :=
  let '(data, port) := w in
  if port =? cmd then
    if Z.testbit data 4 then Pic 3 (vector_base p) (pic_mask p) (last_eoi p)
    else Pic (icw_left p) (vector_base p) (pic_mask p) (Some data)
  else if port =? cmd + 1 then
    match icw_left p with
    | O => Pic 0 (vector_base p) data (last_eoi p)
    | S 2 => Pic 2 data (pic_mask p) (last_eoi p)
    | S n => Pic n (vector_base p) (pic_mask p) (last_eoi p)
    end
  else p.
Definition pic_of (cmd : Z) (log : list (Z * Z)) : pic :=
  foldr (pic_step cmd) (Pic 0 0 0 None) log.
Definition master_pic (d : dev) : pic := pic_of I8259.MASTER_8259_PORT (port_log d).
Definition slave_pic (d : dev) : pic := pic_of I8259.SLAVE_8259_PORT (port_log d).

(** An interrupt request gets through. *)
Definition irq_open (n : Z) (d : dev) : bool :=
  if n <? 8 then negb (Z.testbit (pic_mask (master_pic d)) n)
  else negb (Z.testbit (pic_mask (master_pic d)) 2) && negb (Z.testbit (pic_mask (slave_pic d)) (n - 8)).

(** The controllers are set up and hold the masks of the two variables. *)
Record pic_synced (d : dev) : Prop := {
  ps_master : master_pic d = Pic 0 0x20 (master_mask d) (last_eoi (master_pic d));
  ps_slave : slave_pic d = Pic 0 0x28 (slave_mask d) (last_eoi (slave_pic d));
  ps_master_range : 0 <= master_mask d < 256;
  ps_slave_range : 0 <= slave_mask d < 256
}.

Lemma unmask_testbit n mask k :
  0 <= mask < 256 -> 0 <= n < 8 -> 0 <= k ->
  Z.testbit (I8259.unmask n mask) k = Z.testbit mask k && negb (k =? n).
Proof.
  intros Hm Hn Hk. unfold I8259.unmask, u8. change 256 with (2 ^ 8) in *.
  destruct (decide (k < 8)).
  - rewrite Z.mod_pow2_bits_low by lia. rewrite Z.land_spec, Z.lnot_spec by lia.
    f_equal. f_equal. rewrite Z.shiftl_1_l. destruct (Z.eqb_spec k n) as [->|].
    + by rewrite Z.pow2_bits_true by lia.
    + by rewrite Z.pow2_bits_false by lia.
  - rewrite Z.mod_pow2_bits_high by lia. by rewrite (testbit_high mask 8) by lia.
Qed.
Lemma mask_bit_testbit n mask k :
  0 <= mask < 256 -> 0 <= n < 8 -> 0 <= k ->
  Z.testbit (I8259.mask_bit n mask) k = Z.testbit mask k || (k =? n).
Proof.
  intros Hm Hn Hk. unfold I8259.mask_bit, u8. change 256 with (2 ^ 8) in *.
  destruct (decide (k < 8)).
  - rewrite Z.mod_pow2_bits_low by lia. rewrite Z.lor_spec.
    f_equal. rewrite Z.shiftl_1_l. destruct (Z.eqb_spec k n) as [->|].
    + by rewrite Z.pow2_bits_true by lia.
    + by rewrite Z.pow2_bits_false by lia.
  - rewrite Z.mod_pow2_bits_high by lia. rewrite (testbit_high mask 8) by lia. simpl. lia.
Qed.
Lemma unmask_range n mask : 0 <= I8259.unmask n mask < 256.
Proof. apply u8_range. Qed.
Lemma mask_bit_range n mask : 0 <= I8259.mask_bit n mask < 256.
Proof. apply u8_range. Qed.

(** A write to another port does not touch a controller; a write to the data port
    of a controller that is set up sets its mask. *)
Lemma pic_data cmd v log b k e :
  pic_of cmd log = Pic 0 b k e -> pic_of cmd ((v, cmd + 1) :: log) = Pic 0 b v e.
Proof.
  intros H. cbn. fold (pic_of cmd log). rewrite H. cbn.
  rewrite (proj2 (Z.eqb_neq _ _)) by lia. by rewrite Z.eqb_refl.
Qed.
Lemma pic_other cmd w log :
  w.2 <> cmd -> w.2 <> cmd + 1 -> pic_of cmd (w :: log) = pic_of cmd log.
Proof.
  destruct w as [v p]. cbn. fold (pic_of cmd log). intros.
  by rewrite !(proj2 (Z.eqb_neq _ _)) by lia.
Qed.

(** ** The moves of the cursor and the rate of the clock *)
Lemma writes_to_refl P d : writes_to P d d.
Proof. exists []. split; [by destruct d|done]. Qed.
Lemma writes_to_trans P d1 d2 d3 : writes_to P d1 d2 -> writes_to P d2 d3 -> writes_to P d1 d3.
Proof.
  intros (l1 & -> & H1) (l2 & -> & H2). exists (l2 ++ l1). split; [|by apply Forall_app].
  unfold upd, set_port_log. cbn. by rewrite app_assoc.
Qed.
Lemma writes_to_outb (P : Z -> Prop) v p d : P p -> writes_to P d (outb v p d).
Proof. intros Hp. exists [(u8 v, p)]. split; [done|by repeat constructor]. Qed.
Lemma set_cursor_writes pos d : writes_to cursor_port d (Cursor.set_cursor pos d).
Proof.
  unfold Cursor.set_cursor. unfold cursor_port, Cursor.VMEMPORT_3D4, Cursor.VMEMPORT_3D5.
  repeat (eapply writes_to_trans; [|apply writes_to_outb; lia]). apply writes_to_refl.
Qed.
Lemma driven_refl d : driven d d.
Proof. split; [|done]. exists []. split; [by destruct d|done]. Qed.
Lemma driven_trans d1 d2 d3 : driven d1 d2 -> driven d2 d3 -> driven d1 d3.
Proof.
  intros [(l1 & E1 & H1) C1] [(l2 & E2 & H2) C2]. split; [|intros r Hr; by rewrite C2, C1].
  exists (l2 ++ l1). split; [|by apply Forall_app].
  destruct d1, d2, d3. unfold upd, set_port_log, set_interrupt_flag in *. cbn in *. injection E1. injection E2. intros. subst. by rewrite app_assoc.
Qed.
(** The interrupt flag is none of them. *)
Lemma driven_if d f : driven d (d <| interrupt_flag := f |>).
Proof. split; [|done]. exists []. split; [by destruct d|done]. Qed.
Lemma driven_flag d d' f g : driven d d' -> driven (d <| interrupt_flag := f |>) (d' <| interrupt_flag := g |>).
Proof.
  intros [(l & E & H) C]. split; [|exact C]. exists l. split; [|done].
  destruct d, d'. unfold upd, set_port_log, set_interrupt_flag in *. cbn in *. injection E. intros. by subst.
Qed.
Lemma cursor_driven d d' : writes_to cursor_port d d' -> driven d d'.
Proof.
  intros (l & -> & Hl). split.
  - exists l. split; [by destruct d|]. eapply Forall_impl; [exact Hl|]. intros w Hw. by left.
  - intros r _. unfold upd, set_port_log. cbn. induction Hl as [|[v p] l Hp Hl IH]; [done|]. cbn [app cmos_of foldr].
    unfold cmos_of in IH. cbn in Hp. unfold cursor_port in Hp. unfold cmos_step at 1.
    rewrite (proj2 (Z.eqb_neq p 0x70)), (proj2 (Z.eqb_neq p 0x71)) by lia. exact IH.
Qed.
(** Neither interrupt controller sees them. *)
Lemma driven_pics d d' : driven d d' -> master_pic d' = master_pic d /\ slave_pic d' = slave_pic d.
Proof.
  intros [(l & E & Hl) _]. unfold master_pic, slave_pic. apply (f_equal port_log) in E.
  unfold upd, set_port_log, set_interrupt_flag in E. cbn in E. rewrite E. clear E.
  induction Hl as [|[v p] l Hp Hl [IH1 IH2]]; [done|]. cbn [app]. cbn in Hp. unfold cursor_port, clock_port in Hp.
  unfold I8259.MASTER_8259_PORT, I8259.SLAVE_8259_PORT in *. split; rewrite pic_other; cbn; done || lia.
Qed.

(** ** Properties of the interrupt controllers *)

Lemma synced_master v d :
  pic_synced d -> 0 <= v < 256 ->
  pic_synced (outb v I8259.MASTER_8259_PORT_DATA (d <| master_mask := v |>)).
Proof.
  intros [Hm Hs Hr Hr'] Hv. unfold master_pic, slave_pic in *.
  split; unfold master_pic, slave_pic; cbn [outb upd set_port_log set_master_mask port_log
    master_mask slave_mask]; rewrite ?(u8_id v) by lia; [|..|done|done].
  - change I8259.MASTER_8259_PORT_DATA with (I8259.MASTER_8259_PORT + 1).
    by rewrite (pic_data _ _ _ _ _ _ Hm).
  - rewrite pic_other by (cbn; unfold I8259.MASTER_8259_PORT_DATA, I8259.SLAVE_8259_PORT; lia). done.
Qed.
Lemma synced_slave v d :
  pic_synced d -> 0 <= v < 256 ->
  pic_synced (outb v I8259.SLAVE_8259_PORT_DATA (d <| slave_mask := v |>)).
Proof.
  intros [Hm Hs Hr Hr'] Hv. unfold master_pic, slave_pic in *.
  split; unfold master_pic, slave_pic; cbn [outb upd set_port_log set_slave_mask port_log
    master_mask slave_mask]; rewrite ?(u8_id v) by lia; [..|done|done].
  - rewrite pic_other by (cbn; unfold I8259.SLAVE_8259_PORT_DATA, I8259.MASTER_8259_PORT; lia). done.
  - change I8259.SLAVE_8259_PORT_DATA with (I8259.SLAVE_8259_PORT + 1).
    by rewrite (pic_data _ _ _ _ _ _ Hs).
Qed.
(** Other ports leave the controllers alone. *)
Lemma synced_other v p d :
  pic_synced d -> ~ (p = 0x20 \/ p = 0x21 \/ p = 0xA0 \/ p = 0xA1) -> pic_synced (outb v p d).
Proof.
  intros [Hm Hs Hr Hr'] Hp. unfold master_pic, slave_pic in *.
  split; unfold master_pic, slave_pic; cbn [outb upd set_port_log port_log master_mask slave_mask];
    rewrite ?pic_other by (cbn; unfold I8259.SLAVE_8259_PORT, I8259.MASTER_8259_PORT; lia); done.
Qed.

(** The four initialisation words. *)
Lemma pic_init cmd b v3 v4 log :
  pic_of cmd ((v4, cmd + 1) :: (v3, cmd + 1) :: (b, cmd + 1) :: (I8259.ICW1, cmd) :: log)
  = Pic 0 b (pic_mask (pic_of cmd log)) (last_eoi (pic_of cmd log)).
Proof.
  unfold pic_of. cbn [foldr]. generalize (foldr (pic_step cmd) (Pic 0 0 0 None) log). intros p.
  unfold pic_step. rewrite Z.eqb_refl, (proj2 (Z.eqb_neq (cmd + 1) cmd)), Z.eqb_refl by lia.
  reflexivity.
Qed.

Lemma pic_known c b k e log :
  pic_of c log = Pic 0 b k e -> pic_of c log = Pic 0 b k (last_eoi (pic_of c log)).
Proof. by intros ->. Qed.

Lemma i8259_init_synced d :
  0 <= master_mask d < 256 -> 0 <= slave_mask d < 256 -> pic_synced (I8259.i8259_init d).
Proof.
  intros Hm Hs. destruct d as [log inp mm sm r fl]. cbn [master_mask slave_mask] in *.
  split; [| |done|done]; unfold master_pic, slave_pic, I8259.i8259_init, outb;
    cbn [upd set_port_log port_log master_mask slave_mask]; rewrite (u8_id mm), (u8_id sm) by lia;
    unfold I8259.MASTER_8259_PORT, I8259.MASTER_8259_PORT_DATA, I8259.SLAVE_8259_PORT,
      I8259.SLAVE_8259_PORT_DATA; eapply pic_known.
  - rewrite (pic_other 0x20 (_, 0xA1)) by done. eapply (pic_data 0x20 mm _ 0x20).
    rewrite !(pic_other 0x20 (_, 0xA1)), (pic_other 0x20 (_, 0xA0)) by done.
    apply (pic_init 0x20 0x20).
  - eapply (pic_data 0xA0 sm _ 0x28). rewrite (pic_other 0xA0 (_, 0x21)) by done.
    apply (pic_init 0xA0 0x28).
Qed.
Lemma i8259_init_masks d :
  master_mask (I8259.i8259_init d) = master_mask d /\ slave_mask (I8259.i8259_init d) = slave_mask d.
Proof. done. Qed.

(** The masks after [enable_irq] and [disable_irq]. *)
Definition masks_after_enable n (d d' : dev) : Prop :=
  (forall k, 0 <= k < 8 -> Z.testbit (master_mask d') k =
     Z.testbit (master_mask d) k && negb (k =? (if n <? 8 then n else 2))) /\
  (forall k, 0 <= k < 8 -> Z.testbit (slave_mask d') k =
     Z.testbit (slave_mask d) k && negb (k =? n - 8)).

Lemma enable_irq_masks n d :
  pic_synced d -> 0 <= n < 16 ->
  pic_synced (I8259.enable_irq n d) /\ masks_after_enable n d (I8259.enable_irq n d).
Proof.
  intros Hs Hn. pose proof (ps_master_range _ Hs) as Hr. pose proof (ps_slave_range _ Hs) as Hr'.
  unfold I8259.enable_irq, masks_after_enable, I8259.SLAVE_IRQ_START, I8259.SLAVE_IRQ_LAST.
  destruct (decide (n < 8)).
  - replace (0 <=? n) with true by lia. replace (n <? 8) with true by lia.
    replace (8 <=? n) with false by lia. cbn [andb].
    split; [apply (synced_master (I8259.unmask n (master_mask d))); auto using unmask_range|].
    split; intros k Hk; [by apply unmask_testbit; lia|].
    replace (k =? n - 8) with false by lia. rewrite andb_true_r. done.
  - replace (n <? 8) with false by lia. replace (8 <=? n) with true by lia.
    replace (n <? 16) with true by lia. rewrite andb_false_r. cbn [andb].
    split.
    + apply (synced_slave (I8259.unmask (n - 8) (slave_mask d))); [|apply unmask_range].
      apply (synced_master (I8259.unmask 2 (master_mask d))); [done|apply unmask_range].
    + split; intros k Hk.
      * by apply (unmask_testbit 2); lia.
      * by apply (unmask_testbit (n - 8)); lia.
Qed.

Lemma irq_open_synced n d :
  pic_synced d -> irq_open n d =
    if n <? 8 then negb (Z.testbit (master_mask d) n)
    else negb (Z.testbit (master_mask d) 2) && negb (Z.testbit (slave_mask d) (n - 8)).
Proof. intros [Hm Hs _ _]. unfold irq_open. by rewrite Hm, Hs. Qed.

(** [enable_irq n] on controllers that hold the mask variables: line [n] is open, no
    line that was open is closed, no line is opened but [n], the cascade line 2 when
    [n] is on the slave, and the slave's lines that only the cascade kept closed; and
    the controllers still hold the variables. *)
Theorem enable_irq_opens d n :
  pic_synced d -> 0 <= n < 16 ->
  let d' := I8259.enable_irq n d in
  pic_synced d' /\ irq_open n d' = true /\
  (forall k, 0 <= k < 16 -> irq_open k d = true -> irq_open k d' = true) /\
  (forall k, 0 <= k < 8 -> irq_open k d' = irq_open k d || (k =? (if n <? 8 then n else 2))) /\
  (forall k, 8 <= k < 16 -> n <> 2 -> irq_open 2 d = true ->
     irq_open k d' = irq_open k d || (k =? n)).
Proof.
  intros Hs Hn d'. destruct (enable_irq_masks n d Hs Hn) as [Hs' [Hm Hsl]]. fold d' in Hs', Hm, Hsl.
  rewrite !irq_open_synced in * by done.
  split; [done|]. split; [|split; [|split]].
  - destruct (n <? 8) eqn:Hn8.
    + rewrite Hm, Z.eqb_refl by lia. by rewrite andb_false_r.
    + rewrite Hm, Hsl by lia. rewrite !Z.eqb_refl. by rewrite !andb_false_r.
  - intros k Hk. rewrite !irq_open_synced by done. destruct (k <? 8) eqn:Hk8.
    + rewrite Hm by lia. by destruct (Z.testbit (master_mask d) k).
    + rewrite Hm, Hsl by lia.
      by destruct (Z.testbit (master_mask d) 2), (Z.testbit (slave_mask d) (k - 8)).
  - intros k Hk. rewrite !irq_open_synced by done. replace (k <? 8) with true by lia.
    rewrite Hm by lia. rewrite negb_andb. by rewrite negb_involutive.
  - intros k Hk Hn2 H2. rewrite !irq_open_synced by done. replace (k <? 8) with false by lia.
    rewrite Hm, Hsl by lia. cbn [Z.ltb Z.compare Pos.compare Pos.compare_cont] in H2.
    rewrite negb_true_iff in H2. rewrite H2. cbn [andb negb].
    rewrite negb_andb, negb_involutive. f_equal. lia.
Qed.

(** Two devices that answer nothing, before the kernel starts. *)
Definition reset_dev : dev := Dev [] (λ _ _, 0) 0xFF 0xFF 0 false 0.
Lemma reset_synced : pic_synced (I8259.i8259_init reset_dev).
Proof. by apply i8259_init_synced. Qed.

Lemma enable_irq_opens_witness :
  irq_open 9 (I8259.enable_irq 9 (I8259.i8259_init reset_dev)) = true.
Proof.
  exact (proj1 (proj2 (enable_irq_opens (I8259.i8259_init reset_dev) 9 reset_synced ltac:(lia)))).
Defined.

Definition masks_after_disable n (d d' : dev) : Prop :=
  (forall k, 0 <= k < 8 -> Z.testbit (master_mask d') k =
     Z.testbit (master_mask d) k || (k =? (if n <? 8 then n else 2))) /\
  (forall k, 0 <= k < 8 -> Z.testbit (slave_mask d') k =
     Z.testbit (slave_mask d) k || (k =? n - 8)).

Lemma disable_irq_masks n d :
  pic_synced d -> 0 <= n < 16 ->
  pic_synced (I8259.disable_irq n d) /\ masks_after_disable n d (I8259.disable_irq n d).
Proof.
  intros Hs Hn. pose proof (ps_master_range _ Hs) as Hr. pose proof (ps_slave_range _ Hs) as Hr'.
  unfold I8259.disable_irq, masks_after_disable, I8259.SLAVE_IRQ_START, I8259.SLAVE_IRQ_LAST.
  destruct (decide (n < 8)).
  - replace (0 <=? n) with true by lia. replace (n <? 8) with true by lia.
    replace (8 <=? n) with false by lia. cbn [andb].
    split; [apply (synced_master (I8259.mask_bit n (master_mask d))); auto using mask_bit_range|].
    split; intros k Hk; [by apply mask_bit_testbit; lia|].
    replace (k =? n - 8) with false by lia. rewrite orb_false_r. done.
  - replace (n <? 8) with false by lia. replace (8 <=? n) with true by lia.
    replace (n <? 16) with true by lia. rewrite andb_false_r. cbn [andb].
    split.
    + apply (synced_slave (I8259.mask_bit (n - 8) (slave_mask d))); [|apply mask_bit_range].
      apply (synced_master (I8259.mask_bit 2 (master_mask d))); [done|apply mask_bit_range].
    + split; intros k Hk.
      * by apply (mask_bit_testbit 2); lia.
      * by apply (mask_bit_testbit (n - 8)); lia.
Qed.

(** [disable_irq n] closes line [n] and the controllers still hold the variables.  On
    the master it closes no other line (but 2 closes the cascade); on the slave it also
    masks the cascade, so that every line of the slave is closed, not only [n]. *)
Theorem disable_irq_closes d n :
  pic_synced d -> 0 <= n < 16 ->
  let d' := I8259.disable_irq n d in
  pic_synced d' /\ irq_open n d' = false /\
  (n < 8 -> n <> 2 -> forall k, 0 <= k < 16 -> k <> n -> irq_open k d' = irq_open k d) /\
  (8 <= n -> forall k, 8 <= k < 16 -> irq_open k d' = false).
Proof.
  intros Hs Hn d'. destruct (disable_irq_masks n d Hs Hn) as [Hs' [Hm Hsl]]. fold d' in Hs', Hm, Hsl.
  rewrite !irq_open_synced in * by done.
  split; [done|]. split; [|split].
  - destruct (n <? 8) eqn:Hn8.
    + rewrite Hm, Z.eqb_refl by lia. by rewrite orb_true_r.
    + rewrite Hm, Hsl by lia. rewrite !Z.eqb_refl. by rewrite !orb_true_r.
  - intros Hn8 Hn2 k Hk Hkn. rewrite !irq_open_synced by done. replace (n <? 8) with true in Hm by lia.
    destruct (k <? 8) eqn:Hk8.
    + rewrite Hm by lia. replace (k =? n) with false by lia. by rewrite orb_false_r.
    + rewrite Hm, Hsl by lia. replace (2 =? n) with false by lia.
      replace (k - 8 =? n - 8) with false by lia. by rewrite !orb_false_r.
  - intros Hn8 k Hk. rewrite !irq_open_synced by done. replace (k <? 8) with false by lia.
    replace (n <? 8) with false in Hm by lia. rewrite Hm by lia. by rewrite orb_true_r.
Qed.
Lemma disable_irq_closes_witness :
  irq_open 8 (I8259.disable_irq 12 (I8259.enable_irq 8 (I8259.i8259_init reset_dev))) = false.
Proof.
  destruct (disable_irq_closes (I8259.enable_irq 8 (I8259.i8259_init reset_dev)) 12) as (_ & _ & _ & H).
  - exact (proj1 (enable_irq_masks 8 _ reset_synced ltac:(lia))).
  - lia.
  - apply H; lia.
Defined.

(** ** Properties of the clock *)

(** The rate for each frequency that passes the test. *)
Definition rate_of (v : Z) : Z := if v =? 0 then 16 else 15 - Z.log2 v.

(** Up to [MAX_FREQ] the test lets 0 and the powers of two through, and the search
    finds their rate. *)
Definition rate_row_ok (v : Z) : bool :=
  if Z.land v (s32 (v - 1)) =? 0 then
    bool_decide (Rtc.find_rate v = Some (rate_of v)) && ((v =? 0) || (v =? 2 ^ Z.log2 v))
  else negb (v =? 0) && negb (v =? 2 ^ Z.log2 v).
Lemma rate_rows : forallb rate_row_ok (tabulate 1025 id) = true.
Proof. vm_compute. reflexivity. Qed.
Lemma rate_row v : 0 <= v <= 1024 -> rate_row_ok v = true.
Proof. intros Hv. apply (check_below 1025 _ rate_rows). lia. Qed.

(** For the least integer the test passes but the search never ends: [tmp] stays 0. *)
Lemma find_rate_min : Rtc.find_rate (-2147483648) = None.
Proof.
  refine (proj2 (while_never _ (λ p : Z * Z, 0 <= p.2) _ _ _)); [|done].
  intros [rate tmp] Ht. cbn in Ht. replace (tmp =? -2147483648) with false by lia. cbn [negb].
  eexists. split; [done|]. cbn. by apply Z.shiftr_nonneg.
Qed.
Lemma land_negative v : -2147483648 < v < 0 -> Z.land v (s32 (v - 1)) < 0.
Proof. intros Hv. rewrite s32_id by lia. apply Z.land_neg. lia. Qed.

(** The frequency the data sheet gives for a rate (registers A's low four bits). *)
Definition rtc_hz (rate : Z) : Z := 32768 / 2 ^ (rate - 1).

Lemma rtc_write_reject v d :
  Z.land v (s32 (v - 1)) <> 0 \/ 1024 < v -> Rtc.rtc_write (Some v) d = Ret (-1) d.
Proof.
  intros H. unfold Rtc.rtc_write, Rtc.MAX_FREQ. by replace (_ || _) with true by lia.
Qed.

(** [rtc_write] ends for every integer but the least. *)
Lemma rtc_write_ends v d :
  -2147483648 < v < 2147483648 -> exists r d', Rtc.rtc_write (Some v) d = Ret r d' /\ driven d d'.
Proof.
  intros Hv. destruct (decide (Z.land v (s32 (v - 1)) <> 0 \/ 1024 < v)) as [Hno|Hyes].
  { exists (-1), d. split; [by apply rtc_write_reject|apply driven_refl]. }
  assert (0 <= v <= 1024) as Hr by (destruct (decide (v < 0)); [pose proof (land_negative v)|]; lia).
  assert (Z.land v (s32 (v - 1)) = 0) as Hl by lia.
  pose proof (rate_row v Hr) as Hrow. unfold rate_row_ok in Hrow. rewrite Hl in Hrow. cbn [Z.eqb] in Hrow.
  apply andb_prop in Hrow as [Hf _]. apply bool_decide_eq_true in Hf.
  unfold Rtc.rtc_write, Rtc.MAX_FREQ. rewrite Hl. replace (1024 <? v) with false by lia. cbn [Z.eqb negb orb]. rewrite Hf.
  eexists _, _. split; [done|]. split.
  - eexists [_; _; _]. split; [by destruct d|]. unfold clock_port. repeat constructor; right; cbn; lia.
  - intros reg Hreg. unfold cmos_of. cbn. by destruct (Z.eqb_spec reg (u8 Rtc.REG_A_NMI_OFF mod 128)) as [->|].
Qed.
Lemma rtc_open_ends d : exists d', Rtc.rtc_open d = Ret 0 d' /\ driven d d'.
Proof.
  destruct (rtc_write_ends Rtc.DEFAULT_FREQ d ltac:(done)) as (r & d' & H & Hd). exists d'. split; [|done]. unfold Rtc.rtc_open. by rewrite (bind_Ret _ _ _ _ _ H).
Qed.

(** C36. [rtc_write] for every integer: NULL, an integer that is not a power of two and
    one above 1024 are rejected and nothing is written.  For [v = 2^k] up to 1024 the
    clock's register A keeps its high half and gets the rate [15 - k], no other
    register changes, interrupts are on again and the call returns 0; the rate selects
    [2 * v] interrupts per second.  0 is accepted and written as the rate 16, which
    sets a bit of the high half; the least integer makes the search loop for ever. *)
Theorem rtc_write_programs d v :
  -2147483648 <= v < 2147483648 ->
  Rtc.rtc_write None d = Ret (-1) d /\
  ((exists k, 0 <= k <= 10 /\ v = 2 ^ k) ->
     exists d', Rtc.rtc_write (Some v) d = Ret 0 d' /\ interrupt_flag d' = true /\
       let prev := s8 (u8 (port_in d ((0x8A, 0x70) :: port_log d) 0x71)) in
       let rate := 15 - Z.log2 v in
       (cmos_of (port_log d')).2 = (λ r, if r =? 0xA then Some (u8 (Z.lor (Z.land prev 0xF0) rate))
                                        else (cmos_of (port_log d)).2 r) /\
       1 <= rate <= 15 /\ rtc_hz rate = 2 * v) /\
  ((forall k, 0 <= k <= 10 -> v <> 2 ^ k) ->
     Rtc.rtc_write (Some v) d =
       if v =? 0 then
         let d1 := outb 0x8A 0x70 (cli d) in
         Ret 0 (sti (outb (Z.lor (Z.land (s8 (inb 0x71 d1)) 0xF0) 16) 0x71 (outb 0x8A 0x70 d1)))
       else if v =? -2147483648 then Spin
       else Ret (-1) d).
Proof.
  intros Hv. split; [done|]. split.
  - intros (k & Hk & ->).
    assert (0 < 2 ^ k <= 2 ^ 10) as Hb
      by (split; [apply Z.pow_pos_nonneg; lia|apply Z.pow_le_mono_r; lia]).
    pose proof (rate_row (2 ^ k) ltac:(lia)) as Hr. unfold rate_row_ok in Hr.
    rewrite Z.log2_pow2, Z.eqb_refl in * by lia. rewrite orb_true_r, andb_true_r, andb_false_r in Hr.
    unfold Rtc.rtc_write, Rtc.MAX_FREQ. destruct (Z.land _ _ =? 0); [|done].
    apply bool_decide_eq_true in Hr. replace (1024 <? 2 ^ k) with false by lia.
    cbn [negb orb]. rewrite Hr. unfold rate_of. rewrite Z.log2_pow2 by lia.
    replace (2 ^ k =? 0) with false by lia.
    eexists. split; [reflexivity|]. split; [done|]. cbv zeta. split; [done|]. split; [lia|].
    assert (k = 0 \/ k = 1 \/ k = 2 \/ k = 3 \/ k = 4 \/ k = 5 \/ k = 6 \/ k = 7 \/ k = 8 \/ k = 9 \/ k = 10)
      as Hc by lia. repeat (destruct Hc as [->|Hc]; [done|]). by subst k.
  - intros Hne. destruct (Z.eqb_spec v 0) as [->|Hv0]; [|destruct (Z.eqb_spec v (-2147483648)) as [->|Hvm]].
    + reflexivity.
    + unfold Rtc.rtc_write. change (negb (Z.land (-2147483648) (s32 (-2147483648 - 1)) =? 0) ||
        (Rtc.MAX_FREQ <? -2147483648)) with false. cbv iota. by rewrite find_rate_min.
    + apply rtc_write_reject. destruct (decide (1024 < v)) as [|Hhi]; [by right|left].
      destruct (decide (v < 0)) as [Hneg|Hpos]; [pose proof (land_negative v); lia|].
      pose proof (rate_row v ltac:(lia)) as Hr. unfold rate_row_ok in Hr.
      intros Hz. rewrite Hz in Hr. cbn [Z.eqb] in Hr.
      apply andb_prop in Hr as [_ Hr]. replace (v =? 0) with false in Hr by lia.
      apply Z.eqb_eq in Hr. pose proof (Z.log2_nonneg v) as Hlog.
      pose proof (Z.log2_le_mono v 1024 ltac:(lia)) as Hlog'. change (Z.log2 1024) with 10 in Hlog'.
      by apply (Hne (Z.log2 v)).
Qed.
Lemma rtc_write_programs_witness :
  exists d', Rtc.rtc_write (Some 32) reset_dev = Ret 0 d' /\ (cmos_of (port_log d')).2 0xA = Some 10.
Proof.
  destruct (proj1 (proj2 (rtc_write_programs reset_dev 32 ltac:(lia)))) as (d' & H & _ & Hc & _).
  - exists 5. split; [lia|reflexivity].
  - exists d'. split; [exact H|]. rewrite Hc. reflexivity.
Defined.

(** The lines open under the masks 0xF8 and 0xFE. *)
Definition irq_value (n : Z) : bool :=
  if n <? 8 then negb (Z.testbit 0xF8 n)
  else negb (Z.testbit 0xF8 2) && negb (Z.testbit 0xFE (n - 8)).
Definition irq_expected (n : Z) : bool := eqb (irq_value n) (bool_decide (n ∈ [0; 1; 2; 8])).

(** The interrupt lines the kernel opens at boot ([entry]: [i8259_init],
    [init_keyboard], [init_rtc], [init_pit]) are the timer, the keyboard, the cascade and
    the clock, and no other; the clock's periodic interrupt is switched on in register B. *)
Theorem boot_opens_irqs d rate n :
  master_mask d = 0xFF -> slave_mask d = 0xFF -> 0 <= n < 16 ->
  let d0 := I8259.enable_irq 1 (I8259.i8259_init d) in
  let d1 := Rtc.init_rtc d0 in
  let d' := Pit.program rate d1 in
  pic_synced d' /\ irq_open n d' = bool_decide (n ∈ [0; 1; 2; 8]) /\
  exists b, (cmos_of (port_log d1)).2 0xB = Some b /\ Z.testbit b 6 = true.
Proof.
  intros Hm Hs Hn d0 d1 d'.
  pose proof (i8259_init_synced d ltac:(lia) ltac:(lia)) as S0.
  destruct (enable_irq_masks 1 _ S0 ltac:(lia)) as [S1 [M1 L1]]. fold d0 in S1, M1, L1.
  set (dr := outb (Z.lor (s8 (inb 0x71 (outb 0x8B 0x70 d0))) 0x40) 0x71 (outb 0x8B 0x70 (outb 0x8B 0x70 d0))).
  assert (pic_synced dr) as S2 by (unfold dr; repeat (apply synced_other; [|lia]); done).
  destruct (enable_irq_masks 8 _ S2 ltac:(lia)) as [S3 [M3 L3]].
  change (I8259.enable_irq 8 dr) with d1 in S3, M3, L3.
  set (dp := outb (Z.land (Z.shiftr (1193182 / rate) 8) 0xFF) 0x40
              (outb (Z.land (1193182 / rate) 0xFF) 0x40 (outb 0x36 0x43 d1))).
  assert (pic_synced dp) as S4 by (unfold dp; repeat (apply synced_other; [|lia]); done).
  destruct (enable_irq_masks 0 _ S4 ltac:(lia)) as [S5 [M5 L5]].
  change (I8259.enable_irq 0 dp) with d' in S5, M5, L5.
  split; [done|]. split.
  - rewrite (irq_open_synced _ _ S5).
    destruct (i8259_init_masks d) as [E1 E2]. rewrite Hm in E1. rewrite Hs in E2.
    assert (forall k, 0 <= k < 8 -> Z.testbit (master_mask d') k = Z.testbit 0xF8 k) as HM.
    { intros k Hk. rewrite M5 by lia. change (master_mask dp) with (master_mask d1).
      rewrite M3 by lia. change (master_mask dr) with (master_mask d0). rewrite M1, E1 by lia.
      revert k Hk. by apply (check_below_eq 8). }
    assert (forall k, 0 <= k < 8 -> Z.testbit (slave_mask d') k = Z.testbit 0xFE k) as HS.
    { intros k Hk. rewrite L5 by lia. change (slave_mask dp) with (slave_mask d1).
      rewrite L3 by lia. change (slave_mask dr) with (slave_mask d0). rewrite L1, E2 by lia.
      revert k Hk. by apply (check_below_eq 8). }
    assert (irq_expected n = true) as Hexp by (apply (check_below 16); [reflexivity|lia]).
    apply eqb_prop in Hexp. rewrite <- Hexp. unfold irq_value.
    destruct (n <? 8) eqn:Hn8; by rewrite ?HM, ?HS by lia.
  - exists (u8 (Z.lor (s8 (inb 0x71 (outb 0x8B 0x70 d0))) 0x40)). split; [reflexivity|].
    unfold u8. change 256 with (2 ^ 8). rewrite Z.mod_pow2_bits_low by lia.
    rewrite Z.lor_spec. apply orb_true_r.
Qed.
Lemma boot_opens_irqs_witness :
  irq_open 8 (Pit.program 500 (Rtc.init_rtc (I8259.enable_irq 1 (I8259.i8259_init reset_dev)))) = true.
Proof.
  destruct (boot_opens_irqs reset_dev 500 8 eq_refl eq_refl ltac:(lia)) as (_ & H & _).
  rewrite H. reflexivity.
Defined.
