(* ===== verification/State.v ===== *)
(** * The state of the kernel

    The C objects of the kernel image (static variables, process control blocks,
    the task state segment) are records; memory that the kernel reaches through raw
    addresses (the screen, the file-system image, user pages, local buffers whose
    address is passed on) is the byte memory [phys], reached through the page walk.
    [kernel] is an [AddrSpace]: a virtual address resolves to the physical address the
    page tables give, and an address that is not mapped to a location of its own above
    the 32-bit space (the fault it would raise is not modelled; the properties speak of
    mapped addresses). *)
From S2P Require Import Prelude Machine Paging Devices.

(** ** filesystem.h, filesystem.c *)
Record dentry_t := Dentry {
  fname : list Z;
  file_type : Z;
  inode_num : Z;
  reserved : list Z
}.
#[export] Instance set_fname : Setter fname :=
  λ f r, Dentry (f (fname r)) (file_type r) (inode_num r) (reserved r).
#[export] Instance set_file_type : Setter file_type :=
  λ f r, Dentry (fname r) (f (file_type r)) (inode_num r) (reserved r).
#[export] Instance set_inode_num : Setter inode_num :=
  λ f r, Dentry (fname r) (file_type r) (f (inode_num r)) (reserved r).
#[export] Instance set_reserved : Setter reserved :=
  λ f r, Dentry (fname r) (file_type r) (inode_num r) (f (reserved r)).

(** The static variables of filesystem.c. *)
Record fs_vars := FsVars {
  dir_entries : Z;
  num_inodes : Z;
  num_dblocks : Z;
  dentry_a : dentry_t;
  dentry_b : dentry_t;
  boot_block_addr : Z
}.
#[export] Instance set_dir_entries : Setter dir_entries :=
  λ f r, FsVars (f (dir_entries r)) (num_inodes r) (num_dblocks r) (dentry_a r) (dentry_b r) (boot_block_addr r).
#[export] Instance set_num_inodes : Setter num_inodes :=
  λ f r, FsVars (dir_entries r) (f (num_inodes r)) (num_dblocks r) (dentry_a r) (dentry_b r) (boot_block_addr r).
#[export] Instance set_num_dblocks : Setter num_dblocks :=
  λ f r, FsVars (dir_entries r) (num_inodes r) (f (num_dblocks r)) (dentry_a r) (dentry_b r) (boot_block_addr r).
#[export] Instance set_dentry_a : Setter dentry_a :=
  λ f r, FsVars (dir_entries r) (num_inodes r) (num_dblocks r) (f (dentry_a r)) (dentry_b r) (boot_block_addr r).
#[export] Instance set_dentry_b : Setter dentry_b :=
  λ f r, FsVars (dir_entries r) (num_inodes r) (num_dblocks r) (dentry_a r) (f (dentry_b r)) (boot_block_addr r).
#[export] Instance set_boot_block_addr : Setter boot_block_addr :=
  λ f r, FsVars (dir_entries r) (num_inodes r) (num_dblocks r) (dentry_a r) (dentry_b r) (f (boot_block_addr r)).

(** ** pcb.h, sys_call.c *)

(** The five tables of function pointers. *)
Inductive optable := rtctable | filetable | directorytable | stdin_table | stdout_table.
#[export] Instance optable_eq_dec : EqDecision optable.
Proof. solve_decision. Defined.

Record file_desc := FileDesc {
  operationstable : option optable;
  fd_inode : Z;
  file_pos : Z;
  fd_flags : list Z
}.
#[export] Instance set_operationstable : Setter operationstable :=
  λ f r, FileDesc (f (operationstable r)) (fd_inode r) (file_pos r) (fd_flags r).
#[export] Instance set_fd_inode : Setter fd_inode :=
  λ f r, FileDesc (operationstable r) (f (fd_inode r)) (file_pos r) (fd_flags r).
#[export] Instance set_file_pos : Setter file_pos :=
  λ f r, FileDesc (operationstable r) (fd_inode r) (f (file_pos r)) (fd_flags r).
#[export] Instance set_fd_flags : Setter fd_flags :=
  λ f r, FileDesc (operationstable r) (fd_inode r) (file_pos r) (f (fd_flags r)).
Definition file_desc0 : file_desc := FileDesc None 0 0 [0; 0; 0; 0].
#[export] Instance file_desc_inhabited : Inhabited file_desc := populate file_desc0.

Record pcb := Pcb {
  fd_array : list file_desc;
  parent : Z;
  process_id : Z;
  parent_esp : Z;
  parent_ebp : Z;
  parent_process_id : Z;
  arg_size : Z;
  arg_arr : list Z;
  status : Z
}.
#[export] Instance set_fd_array : Setter fd_array :=
  λ f r, Pcb (f (fd_array r)) (parent r) (process_id r) (parent_esp r) (parent_ebp r) (parent_process_id r) (arg_size r) (arg_arr r) (status r).
#[export] Instance set_parent : Setter parent :=
  λ f r, Pcb (fd_array r) (f (parent r)) (process_id r) (parent_esp r) (parent_ebp r) (parent_process_id r) (arg_size r) (arg_arr r) (status r).
#[export] Instance set_process_id : Setter process_id :=
  λ f r, Pcb (fd_array r) (parent r) (f (process_id r)) (parent_esp r) (parent_ebp r) (parent_process_id r) (arg_size r) (arg_arr r) (status r).
#[export] Instance set_parent_esp : Setter parent_esp :=
  λ f r, Pcb (fd_array r) (parent r) (process_id r) (f (parent_esp r)) (parent_ebp r) (parent_process_id r) (arg_size r) (arg_arr r) (status r).
#[export] Instance set_parent_ebp : Setter parent_ebp :=
  λ f r, Pcb (fd_array r) (parent r) (process_id r) (parent_esp r) (f (parent_ebp r)) (parent_process_id r) (arg_size r) (arg_arr r) (status r).
#[export] Instance set_parent_process_id : Setter parent_process_id :=
  λ f r, Pcb (fd_array r) (parent r) (process_id r) (parent_esp r) (parent_ebp r) (f (parent_process_id r)) (arg_size r) (arg_arr r) (status r).
#[export] Instance set_arg_size : Setter arg_size :=
  λ f r, Pcb (fd_array r) (parent r) (process_id r) (parent_esp r) (parent_ebp r) (parent_process_id r) (f (arg_size r)) (arg_arr r) (status r).
#[export] Instance set_arg_arr : Setter arg_arr :=
  λ f r, Pcb (fd_array r) (parent r) (process_id r) (parent_esp r) (parent_ebp r) (parent_process_id r) (arg_size r) (f (arg_arr r)) (status r).
#[export] Instance set_status : Setter status :=
  λ f r, Pcb (fd_array r) (parent r) (process_id r) (parent_esp r) (parent_ebp r) (parent_process_id r) (arg_size r) (arg_arr r) (f (status r)).
(** Kernel memory that was never written is zero. *)
Definition pcb0 : pcb := Pcb (replicate 8 file_desc0) 0 0 0 0 0 0 (replicate 128 0) 0.

(** The task state segment's two fields the kernel changes. *)
Record tss_t := Tss {
  ss0 : Z;
  esp0 : Z
}.
#[export] Instance set_ss0 : Setter ss0 :=
  λ f r, Tss (f (ss0 r)) (esp0 r).
#[export] Instance set_esp0 : Setter esp0 :=
  λ f r, Tss (ss0 r) (f (esp0 r)).

(** The registers the context switch works on; [user] is the privilege level. *)
Record cpu := Cpu {
  esp : Z;
  ebp : Z;
  eip : Z;
  user : bool
}.
#[export] Instance set_esp : Setter esp :=
  λ f r, Cpu (f (esp r)) (ebp r) (eip r) (user r).
#[export] Instance set_ebp : Setter ebp :=
  λ f r, Cpu (esp r) (f (ebp r)) (eip r) (user r).
#[export] Instance set_eip : Setter eip :=
  λ f r, Cpu (esp r) (ebp r) (f (eip r)) (user r).
#[export] Instance set_user : Setter user :=
  λ f r, Cpu (esp r) (ebp r) (eip r) (f (user r)).

(** ** scheduler.h *)
Record terminal_t := Terminal {
  lb : list Z;
  noc : Z;
  term_esp : Z;
  term_ebp : Z;
  pid : Z;
  screen_x : Z;
  screen_y : Z
}.
#[export] Instance set_lb : Setter lb :=
  λ f r, Terminal (f (lb r)) (noc r) (term_esp r) (term_ebp r) (pid r) (screen_x r) (screen_y r).
#[export] Instance set_noc : Setter noc :=
  λ f r, Terminal (lb r) (f (noc r)) (term_esp r) (term_ebp r) (pid r) (screen_x r) (screen_y r).
#[export] Instance set_term_esp : Setter term_esp :=
  λ f r, Terminal (lb r) (noc r) (f (term_esp r)) (term_ebp r) (pid r) (screen_x r) (screen_y r).
#[export] Instance set_term_ebp : Setter term_ebp :=
  λ f r, Terminal (lb r) (noc r) (term_esp r) (f (term_ebp r)) (pid r) (screen_x r) (screen_y r).
#[export] Instance set_pid : Setter pid :=
  λ f r, Terminal (lb r) (noc r) (term_esp r) (term_ebp r) (f (pid r)) (screen_x r) (screen_y r).
#[export] Instance set_screen_x : Setter screen_x :=
  λ f r, Terminal (lb r) (noc r) (term_esp r) (term_ebp r) (pid r) (f (screen_x r)) (screen_y r).
#[export] Instance set_screen_y : Setter screen_y :=
  λ f r, Terminal (lb r) (noc r) (term_esp r) (term_ebp r) (pid r) (screen_x r) (f (screen_y r)).
Definition terminal0 : terminal_t := Terminal (replicate 128 0) 0 0 0 0 0 0.
#[export] Instance terminal_inhabited : Inhabited terminal_t := populate terminal0.

Record scheduler_t := Scheduler {
  terminals : list terminal_t;
  vid_bufs : list Z;
  visable_term : Z;
  current_term : Z;
  is_on : list Z
}.
#[export] Instance set_terminals : Setter terminals :=
  λ f r, Scheduler (f (terminals r)) (vid_bufs r) (visable_term r) (current_term r) (is_on r).
#[export] Instance set_vid_bufs : Setter vid_bufs :=
  λ f r, Scheduler (terminals r) (f (vid_bufs r)) (visable_term r) (current_term r) (is_on r).
#[export] Instance set_visable_term : Setter visable_term :=
  λ f r, Scheduler (terminals r) (vid_bufs r) (f (visable_term r)) (current_term r) (is_on r).
#[export] Instance set_current_term : Setter current_term :=
  λ f r, Scheduler (terminals r) (vid_bufs r) (visable_term r) (f (current_term r)) (is_on r).
#[export] Instance set_is_on : Setter is_on :=
  λ f r, Scheduler (terminals r) (vid_bufs r) (visable_term r) (current_term r) (f (is_on r)).

(** ** The static variables of terminal.c and keyboard.c *)
Record term_vars := TermVars {
  terminalbuffer : list (list Z);
  term_flags : list Z;
  numberofchars : list Z
}.
#[export] Instance set_terminalbuffer : Setter terminalbuffer :=
  λ f r, TermVars (f (terminalbuffer r)) (term_flags r) (numberofchars r).
#[export] Instance set_term_flags : Setter term_flags :=
  λ f r, TermVars (terminalbuffer r) (f (term_flags r)) (numberofchars r).
#[export] Instance set_numberofchars : Setter numberofchars :=
  λ f r, TermVars (terminalbuffer r) (term_flags r) (f (numberofchars r)).
Record kbd_vars := KbdVars {
  chararray : list Z;
  linebuffer : list Z
}.
#[export] Instance set_chararray : Setter chararray :=
  λ f r, KbdVars (f (chararray r)) (linebuffer r).
#[export] Instance set_linebuffer : Setter linebuffer :=
  λ f r, KbdVars (chararray r) (f (linebuffer r)).

(** ** The whole kernel *)
Record kernel := Kernel {
  mmu_of : mmu;
  phys : gmap Z Z;
  sched : scheduler_t;
  term : term_vars;
  kbd : kbd_vars;
  fs : fs_vars;
  processes_running : list Z;
  pcbs : gmap Z pcb;
  tss : tss_t;
  regs : cpu;
  devs : dev
}.
#[export] Instance set_mmu_of : Setter mmu_of :=
  λ f r, Kernel (f (mmu_of r)) (phys r) (sched r) (term r) (kbd r) (fs r) (processes_running r) (pcbs r) (tss r) (regs r) (devs r).
#[export] Instance set_phys : Setter phys :=
  λ f r, Kernel (mmu_of r) (f (phys r)) (sched r) (term r) (kbd r) (fs r) (processes_running r) (pcbs r) (tss r) (regs r) (devs r).
#[export] Instance set_sched : Setter sched :=
  λ f r, Kernel (mmu_of r) (phys r) (f (sched r)) (term r) (kbd r) (fs r) (processes_running r) (pcbs r) (tss r) (regs r) (devs r).
#[export] Instance set_term : Setter term :=
  λ f r, Kernel (mmu_of r) (phys r) (sched r) (f (term r)) (kbd r) (fs r) (processes_running r) (pcbs r) (tss r) (regs r) (devs r).
#[export] Instance set_kbd : Setter kbd :=
  λ f r, Kernel (mmu_of r) (phys r) (sched r) (term r) (f (kbd r)) (fs r) (processes_running r) (pcbs r) (tss r) (regs r) (devs r).
#[export] Instance set_fs : Setter fs :=
  λ f r, Kernel (mmu_of r) (phys r) (sched r) (term r) (kbd r) (f (fs r)) (processes_running r) (pcbs r) (tss r) (regs r) (devs r).
#[export] Instance set_processes_running : Setter processes_running :=
  λ f r, Kernel (mmu_of r) (phys r) (sched r) (term r) (kbd r) (fs r) (f (processes_running r)) (pcbs r) (tss r) (regs r) (devs r).
#[export] Instance set_pcbs : Setter pcbs :=
  λ f r, Kernel (mmu_of r) (phys r) (sched r) (term r) (kbd r) (fs r) (processes_running r) (f (pcbs r)) (tss r) (regs r) (devs r).
#[export] Instance set_tss : Setter tss :=
  λ f r, Kernel (mmu_of r) (phys r) (sched r) (term r) (kbd r) (fs r) (processes_running r) (pcbs r) (f (tss r)) (regs r) (devs r).
#[export] Instance set_regs : Setter regs :=
  λ f r, Kernel (mmu_of r) (phys r) (sched r) (term r) (kbd r) (fs r) (processes_running r) (pcbs r) (tss r) (f (regs r)) (devs r).
#[export] Instance set_devs : Setter devs :=
  λ f r, Kernel (mmu_of r) (phys r) (sched r) (term r) (kbd r) (fs r) (processes_running r) (pcbs r) (tss r) (regs r) (f (devs r)).

(** ** Memory *)
#[export] Instance kernel_space : AddrSpace kernel := {
  resolve k va := default (4294967296 + u32 va) (walk (mmu_of k) (u32 va));
  loadb k va := u8 (default 0 (phys k !! default (4294967296 + u32 va) (walk (mmu_of k) (u32 va))));
  storeb va v k :=
    k <| phys ::= <[default (4294967296 + u32 va) (walk (mmu_of k) (u32 va)) := u8 v]> |>
}.

#[export] Instance kernel_laws : AddrSpaceLaws kernel.
Proof.
  split; try done.
  - intros k a v b. unfold loadb, storeb, resolve, kernel_space. cbn.
    rewrite lookup_insert. case_decide; cbn; [by rewrite u8_u8|done].
  - intros. apply u8_range.
  - intros k a b. unfold loadb, resolve, kernel_space. by intros ->.
  - intros. cbn. by rewrite u8_u8.
Qed.

(** What a store leaves alone. *)
Section Frame.
Context (a : Z) (l : list Z) (k : kernel).
Lemma mmu_of_store : mmu_of (store_bytes a l k) = mmu_of k.
Proof. by apply store_bytes_frame. Qed.
Lemma sched_store : sched (store_bytes a l k) = sched k.
Proof. by apply store_bytes_frame. Qed.
Lemma term_store : term (store_bytes a l k) = term k.
Proof. by apply store_bytes_frame. Qed.
Lemma kbd_store : kbd (store_bytes a l k) = kbd k.
Proof. by apply store_bytes_frame. Qed.
Lemma fs_store : fs (store_bytes a l k) = fs k.
Proof. by apply store_bytes_frame. Qed.
Lemma running_store : processes_running (store_bytes a l k) = processes_running k.
Proof. by apply store_bytes_frame. Qed.
Lemma pcbs_store : pcbs (store_bytes a l k) = pcbs k.
Proof. by apply store_bytes_frame. Qed.
Lemma tss_store : tss (store_bytes a l k) = tss k.
Proof. by apply store_bytes_frame. Qed.
Lemma regs_store : regs (store_bytes a l k) = regs k.
Proof. by apply store_bytes_frame. Qed.
Lemma devs_store : devs (store_bytes a l k) = devs k.
Proof. by apply store_bytes_frame. Qed.
End Frame.
#[export] Hint Rewrite mmu_of_store sched_store term_store kbd_store fs_store running_store
  pcbs_store tss_store regs_store devs_store : word.

(** Two states with the same memory and page tables read the same bytes. *)
Lemma loadb_same k k' va : mmu_of k' = mmu_of k -> phys k' = phys k -> loadb k' va = loadb k va.
Proof. intros Hm Hp. unfold loadb, kernel_space. by rewrite Hm, Hp. Qed.
Lemma resolve_same k k' va : mmu_of k' = mmu_of k -> resolve k' va = resolve k va.
Proof. intros Hm. unfold resolve, kernel_space. by rewrite Hm. Qed.

(** Stores commute with updates of the other parts. *)
Lemma store_bytes_phys a l k :
  store_bytes a l k = k <| phys := phys (store_bytes a l k) |>.
Proof.
  revert a k. induction l as [|v l IH]; intros a k; [by destruct k|].
  cbn [store_bytes]. rewrite IH. done.
Qed.

(** The physical bytes a store changes. *)
Lemma phys_store_out a l k p :
  (forall i, 0 <= i < zlen l -> resolve k (a + i) <> p) ->
  phys (store_bytes a l k) !! p = phys k !! p.
Proof.
  revert a k. induction l as [|v l IH]; intros a k Hne; [done|].
  cbn [store_bytes]. rewrite IH.
  - cbn. apply lookup_insert_ne. specialize (Hne 0). rewrite Z.add_0_r in Hne. apply Hne.
    rewrite zlen_cons. pose proof (zlen_nonneg l). lia.
  - intros i Hi. rewrite resolve_storeb. replace (a + 1 + i) with (a + (i + 1)) by lia.
    apply Hne. rewrite zlen_cons. lia.
Qed.

(** ** Running a component's function on its part of the state *)
Definition on_devs {A} (p : prog dev A) : prog kernel A := λ k,
  match p (devs k) with
  | Ret a d => Ret a (k <| devs := d |>)
  | Wait d => Wait (k <| devs := d |>)
  | Spin => Spin
  | Ub => Ub
  end.
Definition dev_op (f : dev -> dev) : prog kernel unit := modify (λ k, k <| devs ::= f |>).
Definition mmu_op (f : mmu -> mmu) : prog kernel unit := modify (λ k, k <| mmu_of ::= f |>).
Definition mem_op (f : kernel -> kernel) : prog kernel unit := modify f.

(** ** Pointers to characters: an address, or an object of the C program that is not
    in the byte memory (a literal, a local array): its characters, then a terminator. *)
Inductive charptr := In_memory (a : Z) | Object (l : list Z).
Definition is_null (p : charptr) : bool :=
  match p with In_memory a => a =? 0 | Object _ => false end.
Definition chars (p : charptr) : reader kernel :=
  match p with In_memory a => at_ptr a | Object l => at_obj (zget (l ++ [0])) end.

(** ** The kernel's own page *)
Lemma resolve_kernel k va :
  kernel_map (mmu_of k) -> 0x400000 <= va < 0x800000 -> resolve k va = va.
Proof.
  intros Hkm Hva. unfold resolve, kernel_space. rewrite u32_id by lia.
  rewrite walk_kernel; [done|done|unfold KER_START_ADDR; lia].
Qed.
Lemma kernel_inj_range k a n :
  kernel_map (mmu_of k) -> 0x400000 <= a -> a + n <= 0x800000 -> inj_range k a n.
Proof. intros Hkm Ha Hn i j Hi Hj. rewrite !resolve_kernel by (done || lia). lia. Qed.
Lemma kernel_sep_range k a n b m :
  kernel_map (mmu_of k) -> 0x400000 <= a -> a + n <= 0x800000 -> 0x400000 <= b -> b + m <= 0x800000 ->
  a + n <= b \/ b + m <= a -> sep_range k a n b m.
Proof. intros Hkm ????? i j Hi Hj. rewrite !resolve_kernel by (done || lia). lia. Qed.
