(* ===== verification/Console.v ===== *)
(** * The console: the screen part of student-distrib/lib.c and the accessors of
    scheduler.c it is built on

    A character goes through the kernel's video page, wherever [Paging] sends it, at
    the cursor of the visible terminal ([putc], for echo and kernel messages) or of the
    scheduled one ([putc_modified], for programs).  [screen] is what the page shows;
    [put] is the behaviour of a terminal of 25 rows of 80 columns that scrolls, which
    both functions are proved to implement. *)
From S2P Require Import Prelude Machine Lib Paging Devices State.

Definition VIDEO : Z := 0xB8000.
Definition NUM_COLS : Z := 80.
Definition NUM_ROWS : Z := 25.
Definition ATTRIB : Z := 0x7.
Definition X_WIDTH : Z := 80.

(** ** scheduler.c: the cursor of the scheduled and of the visible terminal *)
Definition set_terminal (i : Z) (f : terminal_t -> terminal_t) (k : kernel) : kernel :=
  k <| sched ::= λ s, s <| terminals ::= λ ts, zset i (f (zget ts i)) ts |> |>.
Definition get_terminal (i : Z) (k : kernel) : terminal_t := zget (terminals (sched k)) i.

Definition get_current_terminal (k : kernel) : Z := current_term (sched k).
Definition get_visable_terminal (k : kernel) : Z := visable_term (sched k).
Definition get_current_noc (k : kernel) : Z := noc (get_terminal (visable_term (sched k)) k).
Definition set_current_screen_x (x : Z) (k : kernel) : kernel :=
  set_terminal (current_term (sched k)) (λ t, t <| screen_x := x |>) k.
Definition set_current_screen_y (y : Z) (k : kernel) : kernel :=
  set_terminal (current_term (sched k)) (λ t, t <| screen_y := y |>) k.
Definition get_current_screen_x (k : kernel) : Z := screen_x (get_terminal (current_term (sched k)) k).
Definition get_current_screen_y (k : kernel) : Z := screen_y (get_terminal (current_term (sched k)) k).
Definition set_global_screen_x (x : Z) (k : kernel) : kernel :=
  set_terminal (visable_term (sched k)) (λ t, t <| screen_x := x |>) k.
Definition set_global_screen_y (y : Z) (k : kernel) : kernel :=
  set_terminal (visable_term (sched k)) (λ t, t <| screen_y := y |>) k.
Definition get_global_screen_x (k : kernel) : Z := screen_x (get_terminal (visable_term (sched k)) k).
Definition get_global_screen_y (k : kernel) : Z := screen_y (get_terminal (visable_term (sched k)) k).

(** terminal.c *)
Definition enable_cursor (k : kernel) : kernel := k <| devs ::= Cursor.cursor_on |>.
Definition update_cursor (k : kernel) : kernel :=
  let x := get_global_screen_x k in
  let y := get_global_screen_y k in
  let pos := y * X_WIDTH + x in
  k <| devs ::= Cursor.set_cursor pos |>.

(** ** lib.c *)
Definition clear (k : kernel) : kernel :=
  for_up (Z.to_nat (NUM_ROWS * NUM_COLS)) 0 (λ i k,
    storeb (VIDEO + Z.shiftl i 1 + 1) ATTRIB (storeb (VIDEO + Z.shiftl i 1) 32 k)) k.

Definition setposition (x y : Z) (k : kernel) : kernel :=
  set_global_screen_y y (set_global_screen_x x k).

Definition handlebackspace (k : kernel) : kernel :=
  let k :=
    if get_global_screen_x k - 1 <? 0 then
      if negb (get_global_screen_y k =? 0) then
        set_global_screen_x (NUM_COLS - 1) (set_global_screen_y (get_global_screen_y k - 1) k)
      else k
    else set_global_screen_x (get_global_screen_x k - 1) k in
  let k := update_cursor k in
  let i := NUM_COLS * get_global_screen_y k + get_global_screen_x k in
  storeb (VIDEO + Z.shiftl i 1 + 1) ATTRIB (storeb (VIDEO + Z.shiftl i 1) 32 k).

(** The loops that [scroll] and [scroll_modified] share. *)
Definition scroll_rows (k : kernel) : kernel :=
  for_up (Z.to_nat NUM_ROWS) 0 (λ y, for_up (Z.to_nat NUM_COLS) 0 (λ x k,
    let i := NUM_COLS * y + x in
    let j := NUM_COLS * (y + 1) + x in
    let k :=
      if y =? NUM_ROWS - 1 then storeb (VIDEO + Z.shiftl i 1) 32 k
      else storeb (VIDEO + Z.shiftl i 1) (loadb k (VIDEO + Z.shiftl j 1)) k in
    storeb (VIDEO + Z.shiftl i 1 + 1) ATTRIB k)) k.
Definition scroll (k : kernel) : kernel :=
  set_global_screen_x 0 (set_global_screen_y (NUM_ROWS - 1) (scroll_rows k)).
Definition scroll_modified (k : kernel) : kernel :=
  set_current_screen_x 0 (set_current_screen_y (NUM_ROWS - 1) (scroll_rows k)).

Definition putc (c : Z) (k : kernel) : kernel :=
  let k :=
    if (c =? 10) || (c =? 13) then
      let k := set_global_screen_y (get_global_screen_y k + 1) k in
      let k := if negb (get_global_screen_y k <? NUM_ROWS) then scroll k else k in
      set_global_screen_x 0 k
    else
      let k := storeb (VIDEO + Z.shiftl (NUM_COLS * get_global_screen_y k + get_global_screen_x k) 1) c k in
      let k := storeb (VIDEO + Z.shiftl (NUM_COLS * get_global_screen_y k + get_global_screen_x k) 1 + 1) ATTRIB k in
      let k := set_global_screen_x (get_global_screen_x k + 1) k in
      let k :=
        if negb (get_global_screen_x k <? NUM_COLS) then
          let k := set_global_screen_y (get_global_screen_y k + 1) k in
          if negb (get_global_screen_y k <? NUM_ROWS) then scroll k
          else set_global_screen_x 0 k
        else set_global_screen_x (Z.rem (get_global_screen_x k) NUM_COLS) k in
      if negb (get_global_screen_y k <? NUM_ROWS) then scroll k
      else set_global_screen_y
             (Z.rem (get_global_screen_y k + Z.quot (get_global_screen_x k) NUM_COLS) NUM_ROWS) k in
  update_cursor k.

Definition putc_modified (c : Z) (k : kernel) : kernel :=
  if (c =? 10) || (c =? 13) then
    let k := set_current_screen_y (get_current_screen_y k + 1) k in
    let k := if negb (get_current_screen_y k <? NUM_ROWS) then scroll_modified k else k in
    set_current_screen_x 0 k
  else
    let k := storeb (VIDEO + Z.shiftl (NUM_COLS * get_current_screen_y k + get_current_screen_x k) 1) c k in
    let k := storeb (VIDEO + Z.shiftl (NUM_COLS * get_current_screen_y k + get_current_screen_x k) 1 + 1) ATTRIB k in
    let k := set_current_screen_x (get_current_screen_x k + 1) k in
    let k :=
      if negb (get_current_screen_x k <? NUM_COLS) then
        let k := set_current_screen_y (get_current_screen_y k + 1) k in
        if negb (get_current_screen_y k <? NUM_ROWS) then scroll_modified k
        else set_current_screen_x 0 k
      else set_current_screen_x (Z.rem (get_current_screen_x k) NUM_COLS) k in
    if negb (get_current_screen_y k <? NUM_ROWS) then scroll_modified k
    else set_current_screen_y
           (Z.rem (get_current_screen_y k + Z.quot (get_current_screen_x k) NUM_COLS) NUM_ROWS) k.

(** [puts]: from the pointer [s] moved on by [off]. *)
Definition puts (s : charptr) (off : Z) : prog kernel Z := λ k,
  match while (λ '(index, k),
          if chars s k (off + index) =? 0 then inr (index, k)
          else inl (index + 1, putc (chars s k (off + index)) k)) (0, k) with
  | Some (index, k) => Ret index k
  | None => Spin
  end.

(** [printf]: the characters after [%], up to the conversion letter; [esp] is the list
    of the other arguments, [conv_buf] the local array the digits go to: a memory of its
    own, from address 0. *)
Definition format_flags (format : charptr) (k : kernel) (i : Z) : option (bool * Z) :=
  while (λ '(alternate, i),
    if chars format k i =? 35 then inl (true, i + 1) else inr (alternate, i)) (false, i).

Definition local_array (m : gmap Z Z) : charptr := Object (tabulate 64 (loadb m)).
Definition digits (value radix at_ : Z) (conv_buf : gmap Z Z) : prog kernel unit :=
  conv_buf ← from_loop (itoa value at_ radix conv_buf);
  _ ← puts (local_array conv_buf) 0;
  mret tt.

(** One conversion; [true] when it consumed an argument. *)
Definition convert (c : Z) (alternate : bool) (arg : Z) : prog kernel bool :=
  if c =? 37 then _ ← modify (putc 37); mret false
  else if c =? 120 then
    if negb alternate then _ ← digits (u32 arg) 16 0 ∅; mret true
    else
      conv_buf ← from_loop (itoa (u32 arg) 8 16 (∅ : gmap Z Z));
      starting_index ← from_loop (strlen (at_ptr 8 conv_buf));
      let conv_buf := for_up (Z.to_nat (8 - starting_index)) starting_index (λ i, storeb i 48) conv_buf in
      _ ← puts (local_array conv_buf) starting_index;
      mret true
  else if c =? 117 then _ ← digits (u32 arg) 10 0 ∅; mret true
  else if c =? 100 then
    let value := s32 arg in
    if value <? 0 then _ ← digits (u32 (- value)) 10 1 (storeb 0 45 ∅); mret true
    else _ ← digits value 10 0 ∅; mret true
  else if c =? 99 then _ ← modify (putc (u8 arg)); mret true
  else if c =? 115 then _ ← puts (In_memory (u32 arg)) 0; mret true
  else mret false.

Definition printf (format : charptr) (esp : list Z) : prog kernel Z := λ k,
  match while (λ '(i, esp, k),
          let c := chars format k i in
          if c =? 0 then inr (Ret i k)
          else if c =? 37 then
            match format_flags format k (i + 1) with
            | None => inr Spin
            | Some (alternate, i) =>
                match convert (chars format k i) alternate (hd 0 esp) k with
                | Ret consumed k => inl (i + 1, if (consumed : bool) then tl esp else esp, k)
                | Wait k => inr (Wait k)
                | Spin => inr Spin
                | Ub => inr Ub
                end
            end
          else inl (i + 1, esp, putc c k)) (0, esp, k) with
  | Some r => r
  | None => Spin
  end.

(** ** The screen *)

(** The number of cells. *)
Abbreviation CELLS := (Z.to_nat 2000).

(** A text screen: 2000 cells (character, attribute), and the cursor. *)
Record view := View { cells : list (Z * Z); cursor_x : Z; cursor_y : Z }.

Definition scroll_cells (cs : list (Z * Z)) : list (Z * Z) :=
  tabulate CELLS (λ i, (if 1920 <=? i then 32 else (zget cs (i + 80)).1, ATTRIB)).

(** What one character does to a screen. *)
Definition put (c : Z) (v : view) : view :=
  let next_row v :=
    if cursor_y v + 1 <? 25 then View (cells v) 0 (cursor_y v + 1)
    else View (scroll_cells (cells v)) 0 24 in
  if (c =? 10) || (c =? 13) then next_row v
  else
    let cs := zset (80 * cursor_y v + cursor_x v) (u8 c, ATTRIB) (cells v) in
    if cursor_x v + 1 <? 80 then View cs (cursor_x v + 1) (cursor_y v)
    else next_row (View cs (cursor_x v) (cursor_y v)).

(** Backspace: the cursor goes back one cell, except from the top left, and that cell
    is blanked. *)
Definition rub (v : view) : view :=
  let '(x, y) :=
    if cursor_x v =? 0 then (if cursor_y v =? 0 then (0, 0) else (79, cursor_y v - 1))
    else (cursor_x v - 1, cursor_y v) in
  View (zset (80 * y + x) (32, ATTRIB) (cells v)) x y.

Definition view_wf (v : view) : Prop :=
  zlen (cells v) = 2000 /\ 0 <= cursor_x v < 80 /\ 0 <= cursor_y v < 25.

Lemma scroll_cells_len cs : zlen (scroll_cells cs) = 2000.
Proof. apply zlen_tabulate. Qed.
Lemma put_wf c v : view_wf v -> view_wf (put c v).
Proof.
  intros (Hl & Hx & Hy). unfold put, view_wf.
  destruct (_ || _), (cursor_x v + 1 <? 80) eqn:?; cbn [cells cursor_x cursor_y];
    destruct (cursor_y v + 1 <? 25) eqn:?; cbn [cells cursor_x cursor_y];
    rewrite ?zlen_zset, ?scroll_cells_len; lia.
Qed.
Lemma put_char c cs x y :
  (c =? 10) || (c =? 13) = false ->
  put c (View cs x y) =
    let cs := zset (80 * y + x) (u8 c, ATTRIB) cs in
    if x + 1 <? 80 then View cs (x + 1) y
    else if y + 1 <? 25 then View cs 0 (y + 1) else View (scroll_cells cs) 0 24.
Proof. intros Hc. unfold put. cbn [cells cursor_x cursor_y]. by rewrite Hc. Qed.
Lemma rub_wf v : view_wf v -> view_wf (rub v).
Proof.
  intros (Hl & Hx & Hy). unfold rub, view_wf.
  destruct (cursor_x v =? 0) eqn:?, (cursor_y v =? 0) eqn:?;
    cbn [cells cursor_x cursor_y]; rewrite ?zlen_zset; lia.
Qed.

(** What the kernel's video page shows. *)
Definition screen_cells (k : kernel) : list (Z * Z) :=
  tabulate CELLS (λ i, (loadb k (VIDEO + 2 * i), loadb k (VIDEO + 2 * i + 1))).
(** Terminal [t] seen through the video page. *)
Definition view_of (t : Z) (k : kernel) : view :=
  View (screen_cells k) (screen_x (get_terminal t k)) (screen_y (get_terminal t k)).

(** The invariant: the kernel's mapping, the three terminals, the two selectors, and
    every cursor on the screen. *)
Record sched_wf (s : scheduler_t) : Prop := {
  sw_len : zlen (terminals s) = 3;
  sw_visable : 0 <= visable_term s < 3;
  sw_current : 0 <= current_term s < 3;
  sw_cursor : forall t, 0 <= t < 3 ->
    0 <= screen_x (zget (terminals s) t) < 80 /\ 0 <= screen_y (zget (terminals s) t) < 25
}.
Record console_wf (k : kernel) : Prop := {
  cw_map : kernel_map (mmu_of k);
  cw_sched : sched_wf (sched k)
}.

(** *** One cell *)
Definition store_cell (i c a : Z) (k : kernel) : kernel :=
  storeb (VIDEO + Z.shiftl i 1 + 1) a (storeb (VIDEO + Z.shiftl i 1) c k).

Lemma resolve_video k off :
  kernel_map (mmu_of k) -> 0 <= off < 4096 ->
  resolve k (VIDEO + off) = video_target (mmu_of k) + off.
Proof.
  intros Hkm Hoff. unfold resolve, kernel_space. rewrite u32_id by (unfold VIDEO; lia).
  change VIDEO with VID_START_ADDR. by rewrite walk_video.
Qed.

Lemma mmu_of_storeb a v k : mmu_of (storeb a v k) = mmu_of k.
Proof. done. Qed.
#[export] Hint Rewrite mmu_of_storeb : word.

Lemma loadb_video_store k i v j :
  kernel_map (mmu_of k) -> 0 <= i < 4096 -> 0 <= j < 4096 ->
  loadb (storeb (VIDEO + i) v k) (VIDEO + j) = if decide (i = j) then u8 v else loadb k (VIDEO + j).
Proof.
  intros Hkm Hi Hj. rewrite loadb_storeb, !resolve_video by done.
  destruct (decide (i = j)) as [->|Hne]; [by rewrite !decide_True|rewrite !decide_False by lia; done].
Qed.

Lemma screen_store_cell k i c a :
  kernel_map (mmu_of k) -> 0 <= i < 2000 ->
  screen_cells (store_cell i c a k) = zset i (u8 c, u8 a) (screen_cells k).
Proof.
  intros Hkm Hi. unfold store_cell, screen_cells. rewrite Z.shiftl_mul_pow2 by lia.
  change (2 ^ 1) with 2. rewrite (Z.mul_comm i 2). apply zget_ext.
  { by rewrite zlen_zset, !zlen_tabulate. }
  rewrite zlen_tabulate. intros j Hj. rewrite zget_tabulate by lia.
  rewrite <- !Z.add_assoc. rewrite !loadb_video_store by (autorewrite with word; done || lia).
  destruct (decide (i = j)) as [->|Hne].
  - rewrite zget_zset_eq by (rewrite zlen_tabulate; lia).
    rewrite decide_False, !decide_True by lia. done.
  - rewrite zget_zset_ne, zget_tabulate by lia. rewrite !decide_False by lia.
    by rewrite Z.add_assoc.
Qed.

(** *** What a change of the screen leaves alone *)

(** [k'] is [k] with some physical bytes of [lo..lo+n-1] changed. *)
Record touches (lo n : Z) (k k' : kernel) : Prop := {
  to_rest : k' = k <| phys := phys k' |>;
  to_out : forall p, ~ (lo <= p < lo + n) -> phys k' !! p = phys k !! p
}.
Lemma touches_refl lo n k : touches lo n k k.
Proof. split; [by destruct k|done]. Qed.
Lemma touches_trans lo n k1 k2 k3 : touches lo n k1 k2 -> touches lo n k2 k3 -> touches lo n k1 k3.
Proof.
  intros [R1 O1] [R2 O2]. split; [rewrite R2, R1; done|]. intros p Hp. by rewrite O2, O1.
Qed.
Lemma touches_mmu lo n k k' : touches lo n k k' -> mmu_of k' = mmu_of k.
Proof. intros [-> _]. done. Qed.
Lemma touches_sched lo n k k' : touches lo n k k' -> sched k' = sched k.
Proof. intros [-> _]. done. Qed.
Lemma touches_devs lo n k k' : touches lo n k k' -> devs k' = devs k.
Proof. intros [-> _]. done. Qed.
Lemma touches_video_store k i v :
  kernel_map (mmu_of k) -> 0 <= i < 4000 ->
  touches (video_target (mmu_of k)) 4000 k (storeb (VIDEO + i) v k).
Proof.
  intros Hkm Hi. split; [done|]. intros p Hp.
  change (phys (storeb (VIDEO + i) v k)) with (<[resolve k (VIDEO + i) := u8 v]> (phys k)).
  rewrite resolve_video by (done || lia). apply lookup_insert_ne. lia.
Qed.
Lemma touches_store_cell k i c a :
  kernel_map (mmu_of k) -> 0 <= i < 2000 ->
  touches (video_target (mmu_of k)) 4000 k (store_cell i c a k).
Proof.
  intros Hkm Hi. unfold store_cell. rewrite Z.shiftl_mul_pow2 by lia. change (2 ^ 1) with 2.
  apply touches_trans with (storeb (VIDEO + i * 2) c k); [apply touches_video_store; [done|lia]|].
  rewrite <- Z.add_assoc, <- (mmu_of_storeb (VIDEO + i * 2) c k).
  apply touches_video_store; [done|lia].
Qed.

(** *** Scrolling and clearing *)
Definition scroll_cell (i : Z) (k : kernel) : kernel :=
  store_cell i (if 1920 <=? i then 32 else loadb k (VIDEO + 2 * (i + 80))) ATTRIB k.

Lemma scroll_rows_cells k : scroll_rows k = for_up CELLS 0 scroll_cell k.
Proof.
  replace CELLS with (25 * 80)%nat by lia. rewrite <- for_up_rows. apply for_up_ext. intros y s Hy.
  apply for_up_ext. intros x t Hx. unfold scroll_cell, store_cell, NUM_COLS, NUM_ROWS in *. cbn zeta.
  rewrite !Z.shiftl_mul_pow2 by lia. change (2 ^ 1) with 2. change (Z.of_nat 80) with 80.
  replace (1920 <=? 80 * y + x) with (y =? 25 - 1) by lia.
  case_match; [done|]. do 3 f_equal. f_equal. lia.
Qed.

Lemma screen_cells_len k : zlen (screen_cells k) = 2000.
Proof. apply zlen_tabulate. Qed.
Lemma screen_cells_get k i :
  0 <= i < 2000 -> zget (screen_cells k) i = (loadb k (VIDEO + 2 * i), loadb k (VIDEO + 2 * i + 1)).
Proof. intros. unfold screen_cells. by rewrite zget_tabulate. Qed.

(** A loop that visits the cells in order and computes each from cells not yet
    visited. *)
Lemma cells_loop (f : Z -> kernel -> kernel) (new : Z -> Z * Z) k :
  kernel_map (mmu_of k) ->
  (forall i k', 0 <= i < 2000 -> kernel_map (mmu_of k') ->
     (forall j, i <= j < 2000 -> zget (screen_cells k') j = zget (screen_cells k) j) ->
     exists c a, f i k' = store_cell i c a k' /\ (u8 c, u8 a) = new i) ->
  let k' := for_up CELLS 0 f k in
  touches (video_target (mmu_of k)) 4000 k k' /\ screen_cells k' = tabulate CELLS new.
Proof.
  intros Hkm Hf k'.
  assert (touches (video_target (mmu_of k)) 4000 k k' /\
    forall j, 0 <= j < 2000 -> zget (screen_cells k') j = if j <? 2000 then new j else zget (screen_cells k) j)
    as [Ht Hc].
  { apply (for_up_ind (λ i k', touches (video_target (mmu_of k)) 4000 k k' /\
    forall j, 0 <= j < 2000 -> zget (screen_cells k') j = if j <? i then new j else zget (screen_cells k) j)).
    - split; [apply touches_refl|]. intros j Hj. by replace (j <? 0) with false by lia.
    - intros i s Hi [Ht Hc].
      assert (mmu_of s = mmu_of k) as Hm by (by eapply touches_mmu).
      assert (kernel_map (mmu_of s)) as Hks by (by rewrite Hm).
      destruct (Hf i s) as (c & a & -> & Hn); [lia|done| |].
      { intros j Hj. rewrite Hc by lia. by replace (j <? i) with false by lia. }
      split.
      + eapply touches_trans; [done|]. rewrite <- Hm. apply touches_store_cell; [done|lia].
      + intros j Hj. rewrite screen_store_cell by (done || lia).
        destruct (decide (j = i)) as [->|Hne].
        * rewrite zget_zset_eq by (rewrite screen_cells_len; lia).
          by replace (i <? i + 1) with true by lia.
        * rewrite zget_zset_ne, Hc by lia. by replace (j <? i + 1) with (j <? i) by lia. }
  split; [done|]. apply zget_ext; rewrite screen_cells_len, ?zlen_tabulate; [done|].
  intros i Hi. rewrite Hc, zget_tabulate by lia. by replace (i <? 2000) with true by lia.
Qed.

Lemma scroll_rows_spec k :
  kernel_map (mmu_of k) ->
  touches (video_target (mmu_of k)) 4000 k (scroll_rows k) /\
  screen_cells (scroll_rows k) = scroll_cells (screen_cells k).
Proof.
  intros Hkm. rewrite scroll_rows_cells. apply cells_loop; [done|]. intros i k' Hi Hkm' Hold.
  exists (if 1920 <=? i then 32 else loadb k' (VIDEO + 2 * (i + 80))), ATTRIB.
  split; [done|]. f_equal. destruct (1920 <=? i) eqn:Hlast; [done|].
  rewrite <- Hold by lia. rewrite screen_cells_get by lia. cbn [fst].
  apply u8_id, loadb_range.
Qed.

Lemma clear_spec k :
  kernel_map (mmu_of k) ->
  touches (video_target (mmu_of k)) 4000 k (clear k) /\
  screen_cells (clear k) = replicate CELLS (32, ATTRIB).
Proof.
  intros Hkm. destruct (cells_loop (λ i, store_cell i 32 ATTRIB) (λ _, (32, ATTRIB)) k Hkm) as [Ht Hc].
  { intros. by eexists _, _. }
  split; [exact Ht|]. refine (eq_trans Hc _). by vm_compute.
Qed.

(** *** The cursor *)
Definition put_terminal (t : Z) (T : terminal_t) (k : kernel) : kernel :=
  k <| sched ::= λ s, s <| terminals ::= zset t T |> |>.
Definition set_cursor_of (t x y : Z) (k : kernel) : kernel :=
  set_terminal t (λ T, T <| screen_x := x |> <| screen_y := y |>) k.

Lemma get_put_terminal t T k :
  sched_wf (sched k) -> 0 <= t < 3 -> get_terminal t (put_terminal t T k) = T.
Proof. intros Hs Ht. apply zget_zset_eq. rewrite (sw_len _ Hs). lia. Qed.
Lemma get_put_terminal_ne t t' T k :
  0 <= t -> 0 <= t' -> t <> t' -> get_terminal t' (put_terminal t T k) = get_terminal t' k.
Proof. intros. by apply zget_zset_ne. Qed.
Lemma put_put_terminal t T T' k : put_terminal t T (put_terminal t T' k) = put_terminal t T k.
Proof.
  unfold put_terminal, upd, set_sched, set_terminals. cbn. by rewrite zset_zset.
Qed.

Lemma put_terminal_id t k : sched_wf (sched k) -> 0 <= t < 3 -> put_terminal t (get_terminal t k) k = k.
Proof.
  intros Hs Ht. unfold put_terminal, upd, set_sched, set_terminals, get_terminal.
  rewrite zset_id by (rewrite (sw_len _ Hs); lia). destruct k as [m p sc]. by destruct sc.
Qed.

Lemma loadb_put t T k a : loadb (put_terminal t T k) a = loadb k a.
Proof. done. Qed.
Lemma storeb_put t T k a v : storeb a v (put_terminal t T k) = put_terminal t T (storeb a v k).
Proof. done. Qed.

(** The part of [putc] and [putc_modified] that is the same up to the terminal [sel]
    whose cursor they use. *)
Section PutcOn.
Context (sel : kernel -> Z).
Definition set_x (x : Z) (k : kernel) : kernel := set_terminal (sel k) (λ t, t <| screen_x := x |>) k.
Definition set_y (y : Z) (k : kernel) : kernel := set_terminal (sel k) (λ t, t <| screen_y := y |>) k.
Definition get_x (k : kernel) : Z := screen_x (get_terminal (sel k) k).
Definition get_y (k : kernel) : Z := screen_y (get_terminal (sel k) k).
Definition scroll_on (k : kernel) : kernel := set_x 0 (set_y 24 (scroll_rows k)).
Definition newline_on (k : kernel) : kernel :=
  let k := set_y (get_y k + 1) k in
  let k := if negb (get_y k <? 25) then scroll_on k else k in
  set_x 0 k.
Definition char_on (c : Z) (k : kernel) : kernel :=
  let k := storeb (VIDEO + Z.shiftl (80 * get_y k + get_x k) 1) c k in
  let k := storeb (VIDEO + Z.shiftl (80 * get_y k + get_x k) 1 + 1) ATTRIB k in
  let k := set_x (get_x k + 1) k in
  let k :=
    if negb (get_x k <? 80) then
      let k := set_y (get_y k + 1) k in
      if negb (get_y k <? 25) then scroll_on k else set_x 0 k
    else set_x (Z.rem (get_x k) 80) k in
  if negb (get_y k <? 25) then scroll_on k
  else set_y (Z.rem (get_y k + Z.quot (get_x k) 80) 25) k.

Context (Hsel : forall k k', visable_term (sched k') = visable_term (sched k) ->
                  current_term (sched k') = current_term (sched k) -> sel k' = sel k).
Context (Hsel3 : forall k, sched_wf (sched k) -> 0 <= sel k < 3).

(** On a state [K] with the scheduler of [k]. *)
Lemma sel_put k K T : sched K = sched k -> sel (put_terminal (sel k) T K) = sel k.
Proof. intros HK. apply Hsel; cbn; by rewrite HK. Qed.
Lemma set_x_put x k K T :
  sched_wf (sched k) -> sched K = sched k ->
  set_x x (put_terminal (sel k) T K) = put_terminal (sel k) (T <| screen_x := x |>) K.
Proof.
  intros Hs HK. unfold set_x. rewrite sel_put by done.
  change (set_terminal ?t ?f ?K) with (put_terminal t (f (get_terminal t K)) K).
  by rewrite get_put_terminal, put_put_terminal by (rewrite ?HK; auto).
Qed.
Lemma set_y_put y k K T :
  sched_wf (sched k) -> sched K = sched k ->
  set_y y (put_terminal (sel k) T K) = put_terminal (sel k) (T <| screen_y := y |>) K.
Proof.
  intros Hs HK. unfold set_y. rewrite sel_put by done.
  change (set_terminal ?t ?f ?K) with (put_terminal t (f (get_terminal t K)) K).
  by rewrite get_put_terminal, put_put_terminal by (rewrite ?HK; auto).
Qed.
Lemma get_x_put k K T :
  sched_wf (sched k) -> sched K = sched k -> get_x (put_terminal (sel k) T K) = screen_x T.
Proof.
  intros Hs HK. unfold get_x. rewrite sel_put by done. by rewrite get_put_terminal by (rewrite ?HK; auto).
Qed.
Lemma get_y_put k K T :
  sched_wf (sched k) -> sched K = sched k -> get_y (put_terminal (sel k) T K) = screen_y T.
Proof.
  intros Hs HK. unfold get_y. rewrite sel_put by done. by rewrite get_put_terminal by (rewrite ?HK; auto).
Qed.
(** Start from the terminal as it is. *)
Lemma put_get k : sched_wf (sched k) -> put_terminal (sel k) (get_terminal (sel k) k) k = k.
Proof.
  intros Hs. pose proof (Hsel3 k Hs) as H3. pose proof (sw_len _ Hs) as Hl.
  revert H3. generalize (sel k). intros t H3. destruct k as [? ? [ts]]. cbn in Hl.
  unfold put_terminal, get_terminal, upd, set_sched, set_terminals. cbn.
  by rewrite zset_id by lia.
Qed.
Lemma scroll_rows_put k t T : scroll_rows (put_terminal t T k) = put_terminal t T (scroll_rows k).
Proof.
  rewrite (scroll_rows_cells k), (scroll_rows_cells (put_terminal t T k)). apply (for_up_comm (put_terminal t T)). intros j s.
  unfold scroll_cell, store_cell. by rewrite loadb_put, !storeb_put.
Qed.
Lemma scroll_on_put k K T :
  sched_wf (sched k) -> sched K = sched k -> kernel_map (mmu_of K) ->
  scroll_on (put_terminal (sel k) T K)
  = put_terminal (sel k) (T <| screen_x := 0 |> <| screen_y := 24 |>) (scroll_rows K).
Proof.
  intros Hs HK Hkm. unfold scroll_on. rewrite scroll_rows_put.
  assert (sched (scroll_rows K) = sched k) as HS.
  { rewrite <- HK. eapply touches_sched. by apply scroll_rows_spec. }
  by rewrite set_y_put, set_x_put by done.
Qed.

(** The outcome of one character: the screen [put] gives, and the cursor of [sel k]. *)
Record emits (c : Z) (k k' : kernel) : Prop := {
  em_view : view_of (sel k) k' = put c (view_of (sel k) k);
  em_rest : k' = put_terminal (sel k)
    (get_terminal (sel k) k <| screen_x := cursor_x (put c (view_of (sel k) k)) |>
                            <| screen_y := cursor_y (put c (view_of (sel k) k)) |>)
    (k <| phys := phys k' |>);
  em_out : forall p, ~ (video_target (mmu_of k) <= p < video_target (mmu_of k) + 4000) ->
    phys k' !! p = phys k !! p
}.

Lemma emits_of c k K T :
  sched_wf (sched k) ->
  touches (video_target (mmu_of k)) 4000 k K ->
  View (screen_cells K) (screen_x T) (screen_y T) = put c (view_of (sel k) k) ->
  T = get_terminal (sel k) k <| screen_x := screen_x T |> <| screen_y := screen_y T |> ->
  emits c k (put_terminal (sel k) T K).
Proof.
  intros Hs Ht Hv HT. split.
  - unfold view_of at 1. rewrite get_put_terminal by (rewrite ?(touches_sched _ _ _ _ Ht); auto).
    exact Hv.
  - rewrite <- Hv. cbn [cursor_x cursor_y]. rewrite <- HT. f_equal. apply (to_rest _ _ _ _ Ht).
  - apply (to_out _ _ _ _ Ht).
Qed.

(** The state before, as an assignment of the terminal. *)
Lemma newline_emits c k :
  console_wf k -> (c =? 10) || (c =? 13) = true -> emits c k (newline_on k).
Proof.
  intros [Hkm Hs] Hc. pose proof (Hsel3 k Hs) as H3.
  destruct (sw_cursor _ Hs _ H3) as [Hx Hy]. destruct (scroll_rows_spec k Hkm) as [Ht Hcells].
  unfold newline_on. cbv zeta. set (T := get_terminal (sel k) k).
  change (set_y (get_y k + 1) k) with (put_terminal (sel k) (T <| screen_y := screen_y T + 1 |>) k).
  rewrite get_y_put by done. cbn [screen_y upd set_screen_y].
  assert (put c (view_of (sel k) k) =
    if screen_y T + 1 <? 25 then View (screen_cells k) 0 (screen_y T + 1)
    else View (scroll_cells (screen_cells k)) 0 24) as Hput by (unfold put; by rewrite Hc).
  destruct (screen_y T + 1 <? 25) eqn:Hrow; cbn [negb].
  - rewrite set_x_put by done. apply emits_of; [done|apply touches_refl| |done]. by rewrite Hput.
  - rewrite scroll_on_put by done. rewrite set_x_put; [|done|by eapply touches_sched].
    apply emits_of; [done|done| |done]. rewrite Hput, Hcells. done.
Qed.

Lemma char_emits c k :
  console_wf k -> (c =? 10) || (c =? 13) = false -> emits c k (char_on c k).
Proof.
  intros [Hkm Hs] Hc. pose proof (Hsel3 k Hs) as H3.
  destruct (sw_cursor _ Hs _ H3) as [Hx Hy].
  unfold char_on. set (T := get_terminal (sel k) k) in *.
  change (zget (terminals (sched k)) (sel k)) with T in Hx, Hy.
  set (i := 80 * get_y k + get_x k).
  set (K := store_cell i c ATTRIB k).
  assert (sel (storeb (VIDEO + i ≪ 1) c k) = sel k) as Hsel1 by (by apply Hsel).
  assert (sel K = sel k) as Hsel2 by (by apply Hsel).
  assert (i = 80 * screen_y T + screen_x T) as Hi by done.
  replace (80 * get_y (storeb (VIDEO + i ≪ 1) c k) + get_x (storeb (VIDEO + i ≪ 1) c k)) with i
    by (unfold get_x, get_y; by rewrite Hsel1).
  change (storeb (VIDEO + i ≪ 1 + 1) ATTRIB (storeb (VIDEO + i ≪ 1) c k)) with K.
  assert (touches (video_target (mmu_of k)) 4000 k K) as HtK by (apply touches_store_cell; [done|lia]).
  assert (kernel_map (mmu_of K)) as HkmK by done.
  assert (screen_cells K = zset i (u8 c, ATTRIB) (screen_cells k)) as HcK
    by (apply screen_store_cell; [done|lia]).
  destruct (scroll_rows_spec K HkmK) as [HtS HcS].
  assert (get_x K = screen_x T) as HgK by (unfold get_x; by rewrite Hsel2). rewrite HgK.
  replace (set_x (screen_x T + 1) K) with (put_terminal (sel k) (T <| screen_x := screen_x T + 1 |>) K)
    by (unfold set_x; by rewrite Hsel2).
  assert (sched K = sched k) as HsK by done.
  clearbody K. rewrite get_x_put by done. cbn [screen_x upd set_screen_x].
  assert (put c (view_of (sel k) k) =
    if screen_x T + 1 <? 80 then View (screen_cells K) (screen_x T + 1) (screen_y T)
    else if screen_y T + 1 <? 25 then View (screen_cells K) 0 (screen_y T + 1)
    else View (scroll_cells (screen_cells K)) 0 24) as Hput
    by (rewrite HcK, Hi; by apply put_char).
  assert (touches (video_target (mmu_of k)) 4000 k (scroll_rows K)) as HtKS
    by (eapply touches_trans; [done|]; by rewrite <- (touches_mmu _ _ _ _ HtK)).
  pose proof (touches_sched _ _ _ _ HtKS) as HsKS.
  destruct (screen_x T + 1 <? 80) eqn:Hcol; cbn [negb].
  - rewrite set_x_put, get_y_put by done. cbn [screen_y upd set_screen_x].
    replace (screen_y T <? 25) with true by lia. cbn [negb].
    rewrite get_x_put, set_y_put by done. cbn [screen_x screen_y upd set_screen_x set_screen_y].
    rewrite (Z.rem_small (screen_x T + 1)), (Z.quot_small (screen_x T + 1)), Z.add_0_r,
      (Z.rem_small (screen_y T)) by lia.
    apply emits_of; [done|done| |done]. by rewrite Hput.
  - rewrite !get_y_put, set_y_put by done. cbn [screen_x screen_y upd set_screen_x set_screen_y].
    rewrite get_y_put by done. cbn [screen_x screen_y upd set_screen_x set_screen_y].
    destruct (screen_y T + 1 <? 25) eqn:Hrow; cbn [negb].
    + rewrite set_x_put, get_y_put by done. cbn [screen_x screen_y upd set_screen_x set_screen_y].
      rewrite Hrow. cbn [negb]. rewrite get_x_put, set_y_put by done.
      cbn [screen_x screen_y upd set_screen_x set_screen_y].
      rewrite Z.quot_0_l, Z.add_0_r, Z.rem_small by lia.
      apply emits_of; [done|done| |done]. by rewrite Hput.
    + rewrite scroll_on_put, get_y_put by done. cbn [screen_x screen_y upd set_screen_x set_screen_y].
      change (negb (24 <? 25)) with false. cbv iota.
      rewrite get_x_put, set_y_put by done. cbn [screen_x screen_y upd set_screen_x set_screen_y].
      change (Z.rem (24 + Z.quot 0 80) 25) with 24.
      apply emits_of; [done|done| |done]. by rewrite Hput, HcS.
Qed.
End PutcOn.

Definition visable_sel (k : kernel) : Z := visable_term (sched k).
Definition current_sel (k : kernel) : Z := current_term (sched k).

Lemma visable_sel_same k k' :
  visable_term (sched k') = visable_term (sched k) -> current_term (sched k') = current_term (sched k) ->
  visable_sel k' = visable_sel k.
Proof. done. Qed.
Lemma current_sel_same k k' :
  visable_term (sched k') = visable_term (sched k) -> current_term (sched k') = current_term (sched k) ->
  current_sel k' = current_sel k.
Proof. done. Qed.
Lemma visable_sel_range k : sched_wf (sched k) -> 0 <= visable_sel k < 3.
Proof. apply sw_visable. Qed.
Lemma current_sel_range k : sched_wf (sched k) -> 0 <= current_sel k < 3.
Proof. apply sw_current. Qed.

Lemma putc_on c k :
  putc c k = update_cursor (if (c =? 10) || (c =? 13) then newline_on visable_sel k else char_on visable_sel c k).
Proof.
  unfold putc, newline_on, char_on, scroll_on, set_x, set_y, get_x, get_y, visable_sel, scroll,
    set_global_screen_x, set_global_screen_y, get_global_screen_x, get_global_screen_y,
    NUM_COLS, NUM_ROWS.
  change (25 - 1) with 24. by destruct (_ || _).
Qed.
Lemma putc_modified_on c k :
  putc_modified c k = if (c =? 10) || (c =? 13) then newline_on current_sel k else char_on current_sel c k.
Proof.
  unfold putc_modified, newline_on, char_on, scroll_on, set_x, set_y, get_x, get_y, current_sel,
    scroll_modified, set_current_screen_x, set_current_screen_y, get_current_screen_x,
    get_current_screen_y, NUM_COLS, NUM_ROWS.
  change (25 - 1) with 24. by destruct (_ || _).
Qed.

Lemma putc_emits c k : console_wf k ->
  exists K, putc c k = update_cursor K /\ emits visable_sel c k K.
Proof.
  intros Hk. eexists. split; [apply putc_on|]. destruct (_ || _) eqn:Hc.
  - by apply newline_emits; auto using visable_sel_same, visable_sel_range.
  - by apply char_emits; auto using visable_sel_same, visable_sel_range.
Qed.
Lemma putc_modified_emits c k : console_wf k -> emits current_sel c k (putc_modified c k).
Proof.
  intros Hk. rewrite putc_modified_on. destruct (_ || _) eqn:Hc.
  - by apply newline_emits; auto using current_sel_same, current_sel_range.
  - by apply char_emits; auto using current_sel_same, current_sel_range.
Qed.

(** *** The invariant is kept *)
Lemma view_of_wf t k : sched_wf (sched k) -> 0 <= t < 3 -> view_wf (view_of t k).
Proof.
  intros Hs Ht. split; [apply screen_cells_len|]. cbn. by apply (sw_cursor _ Hs).
Qed.
Lemma sched_wf_put t T s :
  sched_wf s -> 0 <= t < 3 -> 0 <= screen_x T < 80 -> 0 <= screen_y T < 25 ->
  sched_wf (s <| terminals ::= zset t T |>).
Proof.
  intros [Hl Hv Hc Hcur] Ht Hx Hy. split; cbn; [by rewrite zlen_zset|done|done|].
  intros t' Ht'. destruct (decide (t' = t)) as [->|Hne].
  - by rewrite zget_zset_eq by lia.
  - rewrite zget_zset_ne by lia. by apply Hcur.
Qed.
Lemma emits_wf sel c k k' :
  (forall k, sched_wf (sched k) -> 0 <= sel k < 3) ->
  console_wf k -> emits sel c k k' -> console_wf k'.
Proof.
  intros Hsel [Hkm Hs] [_ -> _]. specialize (Hsel k Hs).
  destruct (put_wf c (view_of (sel k) k)) as (_ & Hx & Hy); [by apply view_of_wf|].
  split; [exact Hkm|]. by apply sched_wf_put.
Qed.
Lemma putc_wf c k : console_wf k -> console_wf (putc c k).
Proof.
  intros Hk. destruct (putc_emits c k Hk) as (K & -> & He).
  destruct (emits_wf _ _ _ _ visable_sel_range Hk He) as [Hm Hs]. by split.
Qed.
Lemma putc_modified_wf c k : console_wf k -> console_wf (putc_modified c k).
Proof.
  intros Hk. exact (emits_wf _ _ _ _ current_sel_range Hk (putc_modified_emits c k Hk)).
Qed.
#[export] Hint Resolve putc_wf putc_modified_wf : kern.

(** *** The cursor registers of the VGA controller *)
Definition vga_step (w : Z * Z) (c : cmos) : cmos :=
  let '(data, port) := w in
  if port =? 0x3D4 then (data, c.2)
  else if port =? 0x3D5 then (c.1, λ r, if r =? c.1 then Some data else c.2 r)
  else c.
Definition vga_of (log : list (Z * Z)) : cmos := foldr vga_step (0, λ _, None) log.
(** Where the blinking cursor is. *)
Definition vga_cursor (d : dev) : option Z :=
  let r := (vga_of (port_log d)).2 in
  match r 0x0E, r 0x0F with Some h, Some l => Some (256 * h + l) | _, _ => None end.
Lemma set_cursor_position pos d :
  0 <= pos < 65536 -> vga_cursor (Cursor.set_cursor pos d) = Some pos.
Proof.
  intros Hp. unfold vga_cursor, Cursor.set_cursor, outb, vga_of.
  cbn [upd set_port_log port_log foldr]. generalize (foldr vga_step (0, λ _, None) (port_log d)).
  intros c. unfold vga_step. cbn.
  change 255 with (Z.ones 8). rewrite !Z.land_ones, Z.shiftr_div_pow2 by lia. f_equal. words.
Qed.

(** *** What printing does *)

(** Only the cursor of terminal [t] may have moved. *)
Definition cursor_moved (t : Z) (s s' : scheduler_t) : Prop :=
  exists x y, s' = s <| terminals ::= zset t (zget (terminals s) t <| screen_x := x |> <| screen_y := y |>) |>.
Lemma cursor_moved_refl t s : cursor_moved t s s.
Proof.
  exists (screen_x (zget (terminals s) t)), (screen_y (zget (terminals s) t)).
  destruct s as [l ? ? ? ?]. unfold upd, set_terminals. cbn.
  replace (set_screen_y _ _) with (zget l t) by (by destruct (zget l t)).
  f_equal. symmetry. apply list_insert_id'. intros Hl. by apply list_lookup_lookup_total_lt.
Qed.
Lemma cursor_moved_trans t s1 s2 s3 : cursor_moved t s1 s2 -> cursor_moved t s2 s3 -> cursor_moved t s1 s3.
Proof.
  intros (x1 & y1 & ->) (x2 & y2 & ->). exists x2, y2. unfold upd, set_terminals. cbn. rewrite zset_zset.
  f_equal. unfold zget, zset. destruct (decide (Z.to_nat t < length (terminals s1))%nat) as [Hl|Hl].
  - by rewrite list_lookup_total_insert_eq.
  - by rewrite !list_insert_ge by lia.
Qed.
Lemma cursor_moved_turn t s s' :
  cursor_moved t s s' -> current_term s' = current_term s /\ visable_term s' = visable_term s.
Proof. by intros (x & y & ->). Qed.

(** Text put on a screen. *)
Definition put_all (l : list Z) (v : view) : view := foldl (flip put) v l.
Lemma put_all_app l l' v : put_all (l ++ l') v = put_all l' (put_all l v).
Proof. apply foldl_app. Qed.
Lemma put_all_wf l v : view_wf v -> view_wf (put_all l v).
Proof. revert v. induction l as [|c l IH]; intros v Hv; [done|]. apply IH. by apply put_wf. Qed.

(** [k'] is [k] after [l] was printed: on the visible terminal, whose cursor the VGA
    controller shows; nothing else has changed. *)
Record prints (l : list Z) (k k' : kernel) : Prop := {
  pr_wf : console_wf k';
  pr_view : view_of (visable_sel k) k' = put_all l (view_of (visable_sel k) k);
  pr_cursor : let v := view_of (visable_sel k) k' in
    if l is [] then devs k' = devs k else vga_cursor (devs k') = Some (80 * cursor_y v + cursor_x v);
  pr_rest : k' = put_terminal (visable_sel k)
    (get_terminal (visable_sel k) k <| screen_x := cursor_x (view_of (visable_sel k) k') |>
                                  <| screen_y := cursor_y (view_of (visable_sel k) k') |>)
    (k <| phys := phys k' |> <| devs := devs k' |>);
  pr_out : forall p, ~ (video_target (mmu_of k) <= p < video_target (mmu_of k) + 4000) ->
    phys k' !! p = phys k !! p;
  pr_devs : writes_to cursor_port (devs k) (devs k')
}.
Lemma prints_same l k k' :
  prints l k k' -> mmu_of k' = mmu_of k /\ visable_sel k' = visable_sel k /\
  current_term (sched k') = current_term (sched k).
Proof. intros [_ _ _ Hr _ _]. rewrite Hr. done. Qed.

Lemma prints_nil k : console_wf k -> prints [] k k.
Proof.
  intros Hk. split; [done|done|done| |done|apply writes_to_refl]. destruct Hk as [_ Hs].
  set (t := visable_sel k). pose proof (put_terminal_id t k Hs (visable_sel_range k Hs)) as Hid.
  rewrite <- Hid at 1. unfold view_of. cbn [cursor_x cursor_y].
  replace (get_terminal t k <| screen_x := _ |> <| screen_y := _ |>) with (get_terminal t k)
    by (by destruct (get_terminal t k)).
  by destruct k.
Qed.

Lemma prints_trans l l' k k1 k2 : console_wf k -> prints l k k1 -> prints l' k1 k2 -> prints (l ++ l') k k2.
Proof.
  intros Hk H1 H2. destruct (prints_same _ _ _ H1) as (Hm & Hv & _).
  destruct H1 as [Hw1 Hv1 Hc1 Hr1 Ho1 Hd1], H2 as [Hw2 Hv2 Hc2 Hr2 Ho2 Hd2].
  rewrite Hv in *. rewrite Hm in Ho2. split; [done| | | |intros p Hp; by rewrite Ho2, Ho1|by apply writes_to_trans with (devs k1)].
  - by rewrite put_all_app, <- Hv1.
  - destruct l' as [|c l'].
    + rewrite app_nil_r, Hv2. cbn [put_all foldl]. by rewrite Hc2.
    + by destruct l.
  - destruct Hk as [_ Hs]. set (t := visable_sel k) in *.
    assert (get_terminal t k1 = get_terminal t k <| screen_x := cursor_x (view_of t k1) |>
              <| screen_y := cursor_y (view_of t k1) |>) as HT1.
    { rewrite Hr1 at 1. by rewrite get_put_terminal by (exact Hs || apply visable_sel_range, Hs). }
    rewrite HT1 in Hr2. revert Hr2. clear Hv2 Hc2 Ho2 Hw2.
    generalize (view_of t k2) (phys k2) (devs k2). intros v p d ->. clear Hc1 Hv1 Hw1 Ho1 HT1 Hv Hm.
    revert Hr1. generalize (view_of t k1) (phys k1) (devs k1). intros v1 p1 d1 ->.
    unfold put_terminal, upd, set_sched, set_terminals. cbn. by rewrite zset_zset.
Qed.

Lemma putc_prints c k : console_wf k -> prints [c] k (putc c k).
Proof.
  intros Hk. pose proof (putc_wf c k Hk) as Hwf. set (k' := putc c k) in *. set (t := visable_sel k).
  set (v := put c (view_of t k)).
  destruct (putc_emits c k Hk) as (K & HK & [Hv Hr Ho]). fold k' in HK. fold t v in Hv, Hr.
  assert (visable_term (sched K) = t) as Ht by (by rewrite Hr).
  assert (view_of t k' = v) as Hv' by (rewrite HK; exact Hv).
  split; fold t; [done|exact Hv'|rewrite Hv'|rewrite Hv'|rewrite HK; exact Ho|].
  - cbv zeta. rewrite HK. unfold update_cursor. cbn [devs upd set_devs].
    assert (get_global_screen_y K = cursor_y v) as ->
      by (unfold get_global_screen_y; rewrite Ht; exact (f_equal cursor_y Hv)).
    assert (get_global_screen_x K = cursor_x v) as ->
      by (unfold get_global_screen_x; rewrite Ht; exact (f_equal cursor_x Hv)).
    destruct (put_wf c (view_of t k)) as (_ & Hx & Hy); [apply view_of_wf; [|apply visable_sel_range]; apply Hk|].
    fold v in Hx, Hy. unfold X_WIDTH. rewrite set_cursor_position by lia. f_equal. lia.
  - rewrite HK. unfold update_cursor. cbn [devs upd set_devs phys].
    revert Hr. clear. generalize (phys K). by intros p ->.
  - rewrite HK. assert (devs K = devs k) as Hd by (rewrite Hr; done). unfold update_cursor. cbn [devs upd set_devs].
    rewrite Hd. apply set_cursor_writes.
Qed.

(** [k'] is [k] after its visible terminal was made to show [v], cursor included. *)
Record shows (v : view) (k k' : kernel) : Prop := {
  sh_wf : console_wf k';
  sh_view : view_of (visable_sel k) k' = v;
  sh_cursor : vga_cursor (devs k') = Some (80 * cursor_y v + cursor_x v);
  sh_rest : k' = put_terminal (visable_sel k)
    (get_terminal (visable_sel k) k <| screen_x := cursor_x v |> <| screen_y := cursor_y v |>)
    (k <| phys := phys k' |> <| devs := devs k' |>);
  sh_out : forall p, ~ (video_target (mmu_of k) <= p < video_target (mmu_of k) + 4000) ->
    phys k' !! p = phys k !! p
}.
Lemma putc_shows c k : console_wf k -> shows (put c (view_of (visable_sel k) k)) k (putc c k).
Proof.
  intros Hk. destruct (putc_prints c k Hk) as [Hwf Hv Hc Hr Ho _].
  change (put_all [c] ?v) with (put c v) in Hv. cbv zeta in Hc. rewrite Hv in Hc, Hr. by split.
Qed.

(** ** Properties *)

(** C30. [putc] implements a scrolling text screen: on the visible terminal and its
    cursor it does what [put] does.  It changes nothing else but the first 4000 bytes of
    the frame behind the video page and the ports of the cursor, which it moves to the
    new position, and it keeps the invariant (so the cursor never leaves the screen). *)
Theorem putc_put k c :
  console_wf k ->
  let t := visable_term (sched k) in
  let v := put c (view_of t k) in
  let k' := putc c k in
  console_wf k' /\ view_of t k' = v /\
  vga_cursor (devs k') = Some (80 * cursor_y v + cursor_x v) /\
  k' = put_terminal t (get_terminal t k <| screen_x := cursor_x v |> <| screen_y := cursor_y v |>)
         (k <| phys := phys k' |> <| devs := devs k' |>) /\
  (forall p, ~ (video_target (mmu_of k) <= p < video_target (mmu_of k) + 4000) ->
     phys k' !! p = phys k !! p).
Proof.
  intros Hk t v k'. destruct (putc_shows c k Hk) as [Hwf Hv Hc Hr Ho].
  split; [done|]. split; [exact Hv|]. split; [exact Hc|]. split; [exact Hr|exact Ho].
Qed.

(** A kernel right after paging is set up: no process, the three terminals blank. *)
Definition kernel0 : kernel :=
  Kernel booted_mmu ∅ (Scheduler [terminal0; terminal0; terminal0] [0xB9000; 0xBA000; 0xBB000] 0 0 [0; 0; 0])
    (TermVars (replicate 3 (replicate 128 0)) [0; 0; 0] [0; 0; 0]) (KbdVars [] (replicate 128 0))
    (FsVars 0 0 0 (Dentry (replicate 32 0) 0 0 (replicate 6 0)) (Dentry (replicate 32 0) 0 0 (replicate 6 0)) 0)
    (replicate 6 0) ∅ (Tss 0x18 0x800000) (Cpu 0x7FFF00 0x7FFF40 0x400000 false) reset_dev.
Lemma kernel0_wf : console_wf kernel0.
Proof.
  split; [exact booted_kernel_map|]. split; [done|cbn; lia|cbn; lia|]. intros t Ht.
  assert (t = 0 \/ t = 1 \/ t = 2) as [->|[->| ->]] by lia; vm_compute; intuition discriminate.
Qed.

Lemma putc_put_witness :
  vga_cursor (devs (putc 65 kernel0)) = Some 1.
Proof.
  destruct (putc_put kernel0 65 kernel0_wf) as (_ & _ & H & _).
  exact H.
Defined.

Lemma cursor_id T : screen_x T = 0 -> screen_y T = 0 -> T <| screen_x := 0 |> <| screen_y := 0 |> = T.
Proof. destruct T. cbn. by intros -> ->. Qed.

Lemma handlebackspace_cell k :
  console_wf k ->
  let t := visable_term (sched k) in
  let v := rub (view_of t k) in
  handlebackspace k =
    store_cell (80 * cursor_y v + cursor_x v) 32 ATTRIB
      (update_cursor (put_terminal t
         (get_terminal t k <| screen_x := cursor_x v |> <| screen_y := cursor_y v |>) k)).
Proof.
  intros [Hkm Hs] t v. pose proof (sw_visable _ Hs) as H3. fold t in H3.
  destruct (sw_cursor _ Hs _ H3) as [Hx Hy]. set (T := get_terminal t k).
  change (zget (terminals (sched k)) t) with T in Hx, Hy.
  assert (forall K T', K = put_terminal t T' k ->
    let K' := update_cursor K in
    NUM_COLS * get_global_screen_y K' + get_global_screen_x K' = 80 * screen_y T' + screen_x T') as Hpos.
  { intros K T' -> K'. unfold get_global_screen_y, get_global_screen_x.
    change (visable_term (sched K')) with t.
    change (get_terminal t K') with (get_terminal t (put_terminal t T' k)).
    by rewrite get_put_terminal. }
  set (K := if get_global_screen_x k - 1 <? 0 then
      if negb (get_global_screen_y k =? 0) then
        set_global_screen_x (NUM_COLS - 1) (set_global_screen_y (get_global_screen_y k - 1) k)
      else k
    else set_global_screen_x (get_global_screen_x k - 1) k).
  assert (K = put_terminal t (T <| screen_x := cursor_x v |> <| screen_y := cursor_y v |>) k) as HK.
  { unfold K, v, rub. cbn [cells cursor_x cursor_y view_of]. fold T.
    change (get_global_screen_x k) with (screen_x T). change (get_global_screen_y k) with (screen_y T).
    destruct (Z.eqb_spec (screen_x T) 0) as [Hx0|Hx0].
    - replace (screen_x T - 1 <? 0) with true by lia.
      destruct (Z.eqb_spec (screen_y T) 0) as [Hy0|Hy0]; cbn [negb cursor_x cursor_y].
      + symmetry. etransitivity; [|apply (put_get visable_sel visable_sel_range k Hs)].
        unfold visable_sel. fold t T. f_equal. by apply cursor_id.
      + change (set_global_screen_y (screen_y T - 1) k)
          with (put_terminal (visable_sel k) (T <| screen_y := screen_y T - 1 |>) k).
        change (set_global_screen_x (NUM_COLS - 1) ?K) with (set_x visable_sel (NUM_COLS - 1) K).
        rewrite set_x_put by (done || apply visable_sel_same || apply visable_sel_range). done.
    - replace (screen_x T - 1 <? 0) with false by lia. cbn [cursor_x cursor_y].
      change (set_global_screen_x (screen_x T - 1) k)
        with (put_terminal t (T <| screen_x := screen_x T - 1 |>) k). done. }
  unfold handlebackspace. fold K. cbv zeta. rewrite (Hpos K _ HK). rewrite HK. reflexivity.
Qed.

Lemma screen_cells_same k k' :
  mmu_of k' = mmu_of k -> phys k' = phys k -> screen_cells k' = screen_cells k.
Proof. intros Hm Hp. apply tabulate_ext. intros. by rewrite !(loadb_same k k'). Qed.

Lemma handlebackspace_shows k :
  console_wf k -> shows (rub (view_of (visable_sel k) k)) k (handlebackspace k).
Proof.
  intros Hk. set (t := visable_term (sched k)). set (v := rub (view_of t k)). set (k' := handlebackspace k). pose proof (handlebackspace_cell k Hk) as HE. cbv zeta in HE. fold t v k' in HE.
  destruct Hk as [Hkm Hs]. pose proof (sw_visable _ Hs) as H3. fold t in H3.
  destruct (rub_wf (view_of t k)) as (Hvl & Hx & Hy); [by apply view_of_wf|]. fold v in Hvl, Hx, Hy.
  set (T := get_terminal t k <| screen_x := cursor_x v |> <| screen_y := cursor_y v |>) in *.
  set (U := update_cursor (put_terminal t T k)) in *. set (i := 80 * cursor_y v + cursor_x v) in *.
  assert (touches (video_target (mmu_of k)) 4000 U k') as HT
    by (rewrite HE; apply (touches_store_cell U); [exact Hkm|lia]).
  assert (get_terminal t U = T) as HTU by (by apply get_put_terminal).
  assert (sched_wf (sched U)) as HsU by (by apply sched_wf_put).
  assert (view_of t k' = v) as Hv.
  { unfold view_of at 1. unfold get_terminal. rewrite (touches_sched _ _ _ _ HT).
    fold (get_terminal t U). rewrite HTU.
    rewrite HE, screen_store_cell by (exact Hkm || lia).
    change (screen_cells U) with (screen_cells k). unfold i.
    subst T. cbn [screen_x screen_y upd set_screen_x set_screen_y].
    unfold v, rub. by destruct (if cursor_x _ =? 0 then _ else _) as [x y]. }
  change (shows v k k'). split; unfold visable_sel; fold t; [|done| | |].
  - split; [by rewrite (touches_mmu _ _ _ _ HT)|by rewrite (touches_sched _ _ _ _ HT)].
  - rewrite (touches_devs _ _ _ _ HT). unfold U, update_cursor. cbn [devs upd set_devs].
    unfold get_global_screen_y, get_global_screen_x.
    change (visable_term (sched (put_terminal t T k))) with t. rewrite get_put_terminal by done.
    unfold X_WIDTH. rewrite set_cursor_position.
    + f_equal. unfold i. cbn. lia.
    + cbn. lia.
  - rewrite (to_rest _ _ _ _ HT) at 1. rewrite (touches_devs _ _ _ _ HT). reflexivity.
  - apply (to_out _ _ _ _ HT).
Qed.
(** [setposition] on the visible terminal. *)
Lemma setposition_put x y K :
  sched_wf (sched K) ->
  let t := visable_term (sched K) in
  setposition x y K = put_terminal t (get_terminal t K <| screen_x := x |> <| screen_y := y |>) K.
Proof.
  intros Hs t. unfold setposition. change (set_global_screen_y y ?k) with (set_y visable_sel y k).
  change (set_global_screen_x x K) with (put_terminal (visable_sel K) (get_terminal t K <| screen_x := x |>) K).
  by rewrite set_y_put by (done || apply visable_sel_same || apply visable_sel_range).
Qed.
(** Clearing the screen as the keyboard does. *)
Lemma home_shows k K cs :
  console_wf k -> touches (video_target (mmu_of k)) 4000 k K -> screen_cells K = cs ->
  shows (View cs 0 0) k (update_cursor (setposition 0 0 K)).
Proof.
  intros [Hkm Hs] HT Hcells. set (t := visable_term (sched k)). pose proof (sw_visable _ Hs) as H3. fold t in H3.
  assert (sched K = sched k) as HsK by (eapply touches_sched; exact HT).
  set (T := get_terminal t k <| screen_x := 0 |> <| screen_y := 0 |>).
  assert (setposition 0 0 K = put_terminal t T K) as ->.
  { rewrite setposition_put by (by rewrite HsK). unfold get_terminal. by rewrite HsK. }
  assert (sched_wf (sched (put_terminal t T K))) as HwT.
  { apply sched_wf_put; [by rewrite HsK|done|cbn; lia|cbn; lia]. }
  split; unfold visable_sel; fold t.
  - split; [change (kernel_map (mmu_of K)); by rewrite (touches_mmu _ _ _ _ HT)|exact HwT].
  - unfold view_of. change (get_terminal t (update_cursor ?x)) with (get_terminal t x).
    rewrite get_put_terminal by (rewrite ?HsK; done).
    rewrite (screen_cells_same K) by done. by rewrite Hcells.
  - unfold update_cursor. cbn [devs upd set_devs]. unfold get_global_screen_y, get_global_screen_x.
    change (visable_term (sched (put_terminal t T K))) with (visable_term (sched K)). rewrite HsK. fold t.
    rewrite get_put_terminal by (rewrite ?HsK; done). by rewrite set_cursor_position by (cbn; lia).
  - set (D := devs (update_cursor (put_terminal t T K))). change (phys (update_cursor (put_terminal t T K))) with (phys K).
    change (update_cursor (put_terminal t T K)) with (put_terminal t T K <| devs := D |>). clearbody D.
    rewrite (to_rest _ _ _ _ HT) at 1. reflexivity.
  - apply (to_out _ _ _ _ HT).
Qed.
Lemma clear_shows k :
  console_wf k ->
  shows (View (replicate CELLS (32, ATTRIB)) 0 0) k (update_cursor (setposition 0 0 (clear k))).
Proof. intros Hk. destruct (clear_spec k (cw_map _ Hk)) as [HT Hcells]. by apply home_shows. Qed.

