(* ===== verification/Printf.v ===== *)
(** * Formatted output: [puts] and [printf] of lib.c

    A format is a list of pieces; what [printf] puts on the screen is the concatenation of
    what the pieces show.  The definitions of [puts], [convert] and [printf] are in
    [Console]. *)
From S2P Require Import Prelude Machine Lib Paging Devices State Console.

(** ** Strings that printing does not change *)

(** From [off] on, the pointer's characters are the string [l], and stay so whatever
    happens to the bytes of the video frame. *)
Definition printable (k : kernel) (p : charptr) (off : Z) (l : list Z) : Prop :=
  forall k', mmu_of k' = mmu_of k ->
    (forall a, ~ (video_target (mmu_of k) <= a < video_target (mmu_of k) + 4000) -> phys k' !! a = phys k !! a) ->
    cstr (λ i, chars p k' (off + i)) l.

Lemma prints_printable l k k' p off s : prints l k k' -> printable k p off s -> printable k' p off s.
Proof.
  intros Hp Hs k2 Hm Ho. destruct (prints_same _ _ _ Hp) as (Hm' & _). rewrite Hm' in *.
  apply Hs; [done|]. intros a Ha. rewrite Ho by done. by apply (pr_out _ _ _ Hp).
Qed.

Lemma local_array_printable k m off l :
  0 <= off -> off + zlen l < 64 -> cstr (at_ptr off m) l -> printable k (local_array m) off l.
Proof.
  intros Hoff Hl [Hc H0] k' _ _. pose proof (zlen_nonneg l).
  assert (forall i, 0 <= i <= zlen l -> chars (local_array m) k' (off + i) = at_ptr off m i) as He.
  { intros i Hi. unfold local_array, chars, at_obj, at_ptr.
    rewrite zget_app_l by (rewrite zlen_tabulate; lia). by rewrite zget_tabulate by lia. }
  split; [intros i Hi; rewrite He by lia; by apply Hc|rewrite He by lia; exact H0].
Qed.

(** [puts] prints the string. *)
Lemma puts_round p off s k :
  console_wf k -> printable k p off s ->
  forall l2 l1 K, s = l1 ++ l2 -> prints l1 k K ->
  exists K', prints s k K' /\
    runs (λ '(index, k), if chars p k (off + index) =? 0 then inr (index, k)
                         else inl (index + 1, putc (chars p k (off + index)) k))
      (S (length l2)) (zlen l1, K) (zlen s, K').
Proof.
  intros Hk Hs l2. induction l2 as [|c l2 IH]; intros l1 K Heq HK;
    (destruct (Hs K) as [Hc H0]; [by apply prints_same in HK as (? & _)|apply (pr_out _ _ _ HK)|]).
  - rewrite app_nil_r in Heq. subst s. exists K. split; [done|]. apply runs_leave. cbv beta in H0. by rewrite H0.
  - pose proof (zlen_nonneg l1). pose proof (zlen_nonneg l2).
    destruct (Hc (zlen l1)) as [Hget Hne]; [subst s; rewrite zlen_app, zlen_cons; lia|].
    assert (zget s (zlen l1) = c) as Hat
      by (subst s; rewrite zget_app_r by lia; by rewrite Z.sub_diag, zget_cons_0).
    cbv beta in Hget. rewrite Hat in Hget, Hne.
    destruct (IH (l1 ++ [c]) (putc c K)) as (K' & HK' & Hr).
    + subst s. by rewrite <- app_assoc.
    + apply prints_trans with K; [done|done|]. apply putc_prints, (pr_wf _ _ _ HK).
    + exists K'. split; [done|]. eapply runs_again; [|exact Hr]. cbv beta iota.
      rewrite Hget, (proj2 (Z.eqb_neq c 0)) by done. by rewrite zlen_app.
Qed.
Lemma puts_prints p off s k :
  console_wf k -> printable k p off s -> zlen s < 4294967295 ->
  exists k', puts p off k = Ret (zlen s) k' /\ prints s k k'.
Proof.
  intros Hk Hs Hl. destruct (puts_round p off s k Hk Hs s [] k) as (k' & Hp & Hr); [done|by apply prints_nil|].
  exists k'. split; [|done]. unfold puts.
  pose proof (while_runs _ _ _ _ Hr) as Hw. change (zlen []) with 0 in Hw. rewrite Hw; [done|].
  unfold zlen in Hl. lia.
Qed.

(** ** Formats *)
Inductive piece :=
  | Lit (c : Z)            (* any other character *)
  | Percent                (* %% *)
  | Hex (v : Z)            (* %x *)
  | HexPadded (v : Z)      (* %#x *)
  | Unsigned (v : Z)       (* %u *)
  | Signed (v : Z)         (* %d *)
  | Char (v : Z)           (* %c *)
  | Str (a : Z) (l : list Z).  (* %s, the string [l] at [a] *)

Definition format_of (p : piece) : list Z :=
  match p with
  | Lit c => [c]
  | Percent => [37; 37]
  | Hex _ => [37; 120]
  | HexPadded _ => [37; 35; 120]
  | Unsigned _ => [37; 117]
  | Signed _ => [37; 100]
  | Char _ => [37; 99]
  | Str _ _ => [37; 115]
  end.
Definition args_of (p : piece) : list Z :=
  match p with
  | Lit _ | Percent => []
  | Hex v | HexPadded v | Unsigned v | Signed v | Char v => [v]
  | Str a _ => [a]
  end.
(** What a piece shows: the least digits of the argument's 32-bit value, filled up to 8
    hexadecimal digits for [%#x]. *)
Definition shown (p : piece) : list Z :=
  match p with
  | Lit c => [c]
  | Percent => [37]
  | Hex v => numeral 16 (u32 v)
  | HexPadded v => replicate (8 - length (numeral 16 (u32 v))) 48 ++ numeral 16 (u32 v)
  | Unsigned v => numeral 10 (u32 v)
  | Signed v => if s32 v <? 0 then 45 :: numeral 10 (- s32 v) else numeral 10 (s32 v)
  | Char v => [u8 v]
  | Str _ l => l
  end.
Definition piece_ok (k : kernel) (p : piece) : Prop :=
  match p with
  | Lit c => c <> 0 /\ c <> 37
  | Str a l => 0 <= a < 4294967296 /\ zlen l < 4294967295 /\ printable k (In_memory a) 0 l
  | _ => True
  end.
Lemma prints_piece_ok l k k' p : prints l k k' -> piece_ok k p -> piece_ok k' p.
Proof.
  intros Hp. destruct p; try done. intros (? & ? & ?). split; [done|]. split; [done|].
  by eapply prints_printable.
Qed.

Definition formats (ps : list piece) : list Z := ps ≫= format_of.
Definition arguments (ps : list piece) : list Z := ps ≫= args_of.
Definition shows (ps : list piece) : list Z := ps ≫= shown.

(** ** The digits *)
Lemma le_digits_length fuel radix n v :
  2 <= radix -> 0 <= v < radix ^ Z.of_nat n -> (length (le_digits fuel radix v) <= n)%nat.
Proof.
  intros Hr. revert n v. induction fuel as [|fuel IH]; intros n v Hv; cbn [le_digits]; [simpl; lia|].
  destruct (Z.ltb_spec 0 v) as [Hpos|]; [|simpl; lia].
  destruct n as [|n]; [simpl in Hv; lia|]. cbn [length]. apply le_n_S, IH.
  replace (Z.of_nat (S n)) with (Z.of_nat n + 1) in Hv by lia. rewrite Z.pow_add_r in Hv by lia.
  split; [apply Z.div_pos; lia|]. apply Z.div_lt_upper_bound; [lia|]. nia.
Qed.
Lemma numeral_length radix n v :
  2 <= radix -> (1 <= n)%nat -> 0 <= v < radix ^ Z.of_nat n -> (length (numeral radix v) <= n)%nat.
Proof.
  intros Hr Hn Hv. unfold numeral. destruct (v =? 0); [simpl; lia|].
  rewrite length_reverse, length_fmap. by apply le_digits_length.
Qed.
Lemma numeral_length32 radix v : 2 <= radix -> 0 <= v < 4294967296 -> zlen (numeral radix v) <= 32.
Proof.
  intros Hr Hv. unfold zlen. change 32 with (Z.of_nat 32). apply inj_le, numeral_length; [done|lia|].
  split; [lia|]. apply Z.lt_le_trans with (2 ^ 32); [lia|]. apply Z.pow_le_mono_l. lia.
Qed.

(** [itoa] into a local array, and what it leaves in front. *)
Lemma itoa_local radix v at_ (m : gmap Z Z) :
  2 <= radix <= 36 -> 0 <= v < 4294967296 -> 0 <= at_ < 4096 ->
  exists m', itoa v at_ radix m = Some m' /\ cstr (at_ptr at_ m') (numeral radix v) /\
    forall a, 0 <= a < at_ -> loadb m' a = loadb m a.
Proof.
  intros Hr Hv Ha. destruct (itoa_writes radix Hr v at_ m Hv) as (m' & Hi & Hc & Ho).
  { apply flat_inj_range. lia. }
  exists m'. split; [done|]. split; [done|]. intros a Hlt. apply Ho. intros i Hi'. cbn.
  rewrite !u32_id by lia. lia.
Qed.

Lemma cstr_cons s c l : c <> 0 -> s 0 = c -> cstr (λ i, s (1 + i)) l -> cstr s (c :: l).
Proof.
  intros Hc Hs [Hl H0]. pose proof (zlen_nonneg l). split.
  - intros i Hi. rewrite zlen_cons in Hi. destruct (decide (i = 0)) as [->|]; [by rewrite zget_cons_0|].
    rewrite zget_cons_S by lia. replace (s i) with (s (1 + (i - 1))) by (f_equal; lia). apply Hl. lia.
  - rewrite zlen_cons, Z.add_comm. exact H0.
Qed.
Lemma cstr_ext s s' l : (forall i, 0 <= i <= zlen l -> s i = s' i) -> cstr s l -> cstr s' l.
Proof.
  intros He [Hl H0]. pose proof (zlen_nonneg l).
  split; [intros i Hi|]; rewrite <- He by lia; [by apply Hl|done].
Qed.
Lemma cstr_zeros s n l :
  (forall i, 0 <= i < Z.of_nat n -> s i = 48) -> cstr (λ i, s (Z.of_nat n + i)) l -> cstr s (replicate n 48 ++ l).
Proof.
  revert s. induction n as [|n IH]; intros s Hs Hl; [by eapply cstr_ext; [|exact Hl]|].
  cbn [replicate app]. apply cstr_cons; [done|apply Hs; lia|]. apply IH.
  - intros i Hi. apply Hs. lia.
  - eapply cstr_ext; [|exact Hl]. intros i Hi. cbv beta. f_equal. lia.
Qed.

Lemma digits_prints radix v at_ m l k :
  console_wf k -> 2 <= radix <= 36 -> 0 <= v < 4294967296 -> 0 <= at_ < 8 ->
  (forall m' : gmap Z Z, cstr (at_ptr at_ m') (numeral radix v) -> (forall a, 0 <= a < at_ -> loadb m' a = loadb m a) ->
     cstr (at_ptr 0 m') l) -> zlen l <= 40 ->
  exists k', digits v radix at_ m k = Ret tt k' /\ prints l k k'.
Proof.
  intros Hk Hr Hv Ha Hl Hlen. destruct (itoa_local radix v at_ m) as (m' & Hi & Hc & Ho); [done|done|lia|].
  destruct (puts_prints (local_array m') 0 l k Hk) as (k' & Hp & Hpr); [|lia|].
  - apply local_array_printable; [lia|lia|]. by apply Hl.
  - exists k'. split; [|done]. unfold digits. rewrite Hi. cbn [from_loop]. pstep. by rewrite Hp.
Qed.

Lemma digits_prints_0 radix v k :
  console_wf k -> 2 <= radix <= 36 -> 0 <= v < 4294967296 ->
  exists k', digits v radix 0 ∅ k = Ret tt k' /\ prints (numeral radix v) k k'.
Proof.
  intros Hk Hr Hv. apply digits_prints; [done|done|done|lia|done|].
  pose proof (numeral_length32 radix v ltac:(lia) Hv). lia.
Qed.

(** The arguments a piece consumes, as [convert] reports it. *)
Definition consumes (p : piece) : bool := match p with Lit _ | Percent => false | _ => true end.
Definition is_lit (p : piece) : bool := match p with Lit _ => true | _ => false end.
Definition letter (p : piece) : Z := List.last (format_of p) 0.
Definition is_alternate (p : piece) : bool := match p with HexPadded _ => true | _ => false end.

Lemma hex_padded_prints v k :
  console_wf k -> exists k', convert 120 true v k = Ret true k' /\ prints (shown (HexPadded v)) k k'.
Proof.
  intros Hk. pose proof (u32_range v) as Hv. set (l := numeral 16 (u32 v)).
  destruct (itoa_local 16 (u32 v) 8 ∅) as (m & Hi & Hc & _); [lia|done|lia|]. fold l in Hc.
  assert (length l <= 8)%nat as Hl by (apply numeral_length; [lia|lia|exact Hv]).
  set (m' := for_up (Z.to_nat (8 - zlen l)) (zlen l) (λ i, storeb i 48) m).
  assert (forall a, 0 <= a < 4096 -> loadb m' a = if decide (zlen l <= a < 8) then 48 else loadb m a) as Hm'.
  { intros a Ha. unfold m'.
    pose proof (for_up_ind (λ i M, loadb M a = if decide (zlen l <= a < i) then 48 else loadb m a)
      (Z.to_nat (8 - zlen l)) (zlen l) (λ i, storeb i 48) m) as Hind. cbv beta in Hind.
    replace (zlen l + Z.of_nat (Z.to_nat (8 - zlen l))) with 8 in Hind by (unfold zlen; lia).
    apply Hind; [by rewrite decide_False by lia|]. intros j s Hj Hs.
    rewrite loadb_storeb, Hs. cbn [resolve flat_space]. unfold zlen in *.
    rewrite !u32_id by lia. repeat case_decide; lia || done. }
  destruct (puts_prints (local_array m') (zlen l) (shown (HexPadded v)) k Hk) as (k' & Hp & Hpr).
  - cbn [shown]. fold l. apply local_array_printable; [apply zlen_nonneg|unfold zlen; rewrite length_app, length_replicate; lia|].
    unfold at_ptr. apply cstr_zeros.
    + intros i Hi'. rewrite Hm' by (unfold zlen; lia). by rewrite decide_True by (unfold zlen in *; lia).
    + eapply cstr_ext; [|exact Hc]. intros i Hi'. cbv beta. unfold at_ptr.
      rewrite Hm' by (unfold zlen in *; lia). rewrite decide_False by (unfold zlen; lia).
      f_equal. unfold zlen. lia.
  - cbn [shown]. fold l. unfold zlen. rewrite length_app, length_replicate. lia.
  - exists k'. split; [|done]. unfold convert. cbn [Z.eqb Pos.eqb negb]. rewrite Hi. cbn [from_loop]. pstep.
    rewrite (strlen_cstr _ _ Hc) by (unfold zlen; lia). cbn [from_loop]. pstep. fold m'. by rewrite Hp.
Qed.

Lemma convert_prints p arg k :
  console_wf k -> piece_ok k p -> is_lit p = false -> (args_of p <> [] -> arg = hd 0 (args_of p)) ->
  exists k', convert (letter p) (is_alternate p) arg k = Ret (consumes p) k' /\ prints (shown p) k k'.
Proof.
  intros Hk Hok Hnl Harg. destruct p as [c| |v|v|v|v|v|a l]; try done;
    try (rewrite Harg by done; clear Harg arg);
    cbn [letter format_of List.last is_alternate args_of hd consumes].
  - exists (putc 37 k). split; [done|by apply putc_prints].
  - destruct (digits_prints_0 16 (u32 v) k Hk ltac:(lia) (u32_range v)) as (k' & Hd & Hp).
    exists k'. split; [|done]. unfold convert. cbn [Z.eqb Pos.eqb negb]. pstep. by rewrite Hd.
  - by apply hex_padded_prints.
  - destruct (digits_prints_0 10 (u32 v) k Hk ltac:(lia) (u32_range v)) as (k' & Hd & Hp).
    exists k'. split; [|done]. unfold convert. cbn [Z.eqb Pos.eqb negb]. pstep. by rewrite Hd.
  - pose proof (s32_range v) as Hv. unfold convert. cbn [Z.eqb Pos.eqb negb shown].
    destruct (Z.ltb_spec (s32 v) 0).
    + rewrite (u32_id (- s32 v)) by lia.
      destruct (digits_prints 10 (- s32 v) 1 (storeb 0 45 ∅) (45 :: numeral 10 (- s32 v)) k)
        as (k' & Hd & Hp); [done|lia|lia|lia| | |exists k'; split; [|done]; pstep; by rewrite Hd].
      * intros m' Hc Ho. apply cstr_cons; [done|unfold at_ptr; rewrite Ho by lia; reflexivity|exact Hc].
      * rewrite zlen_cons. pose proof (numeral_length32 10 (- s32 v) ltac:(lia) ltac:(lia)). lia.
    + destruct (digits_prints_0 10 (s32 v) k Hk ltac:(lia) ltac:(lia)) as (k' & Hd & Hp).
      exists k'. split; [|done]. pstep. by rewrite Hd.
  - exists (putc (u8 v) k). split; [done|by apply putc_prints].
  - destruct Hok as (Ha & Hl & Hpr). destruct (puts_prints (In_memory a) 0 l k Hk Hpr Hl) as (k' & Hd & Hp).
    exists k'. split; [|done]. unfold convert. cbn [Z.eqb Pos.eqb negb]. rewrite u32_id by done. pstep. by rewrite Hd.
Qed.

(** The loop of [printf]: one round per piece. *)
Definition printf_body (format : charptr) : Z * list Z * kernel -> (Z * list Z * kernel) + outcome kernel Z :=
  λ '(i, esp, k),
    let c := chars format k i in
    if c =? 0 then inr (Ret i k)
    else if c =? 37 then
      match format_flags format k (i + 1) with
      | None => inr Spin
      | Some (alternate, i) =>
          match convert (chars format k i) alternate (hd 0 esp) k with
          | Ret consumed k => inl (i + 1, if (consumed : bool) then tl esp else esp, k)
          | Wait k => inr (Wait k)
          | Spin => inr Spin
          | Ub => inr Ub
          end
      end
    else inl (i + 1, esp, putc c k).
Lemma printf_unfold format esp k :
  printf format esp k = match while (printf_body format) (0, esp, k) with Some r => r | None => Spin end.
Proof. done. Qed.

Lemma format_char pre p post k j :
  0 <= j < zlen (format_of p) ->
  chars (Object (pre ++ format_of p ++ post)) k (zlen pre + j) = zget (format_of p) j.
Proof.
  intros Hj. pose proof (zlen_nonneg pre). unfold chars, at_obj. rewrite <- app_assoc, zget_app_r by lia.
  replace (zlen pre + j - zlen pre) with j by lia. by rewrite <- app_assoc, zget_app_l by lia.
Qed.

Lemma format_flags_of pre p post k :
  is_lit p = false ->
  let format := Object (pre ++ format_of p ++ post) in
  let i := zlen pre + zlen (format_of p) - 1 in
  format_flags format k (zlen pre + 1) = Some (is_alternate p, i) /\ chars format k i = letter p.
Proof.
  intros Hp format i. split.
  - unfold format_flags, i, format. pose proof (format_char pre p post k) as Hc.
    assert (0 < zlen (format_of p) - 1) as Hlen by (destruct p; unfold zlen; simpl; lia || done).
    destruct (is_alternate p) eqn:Halt.
    + destruct p; try discriminate Halt. apply while_runs with 2%nat; [|done].
      eapply runs_again; [|apply runs_leave]; cbv beta iota.
      * rewrite (Hc 1) by done. cbn. done.
      * rewrite <- Z.add_assoc, (Hc (1 + 1)) by done. cbn. do 2 f_equal. unfold zlen; simpl; lia.
    + apply while_runs with 1%nat; [apply runs_leave|done]. cbv beta iota. rewrite Hc by lia.
      destruct p; done || discriminate Halt || (cbn; do 2 f_equal; unfold zlen; simpl; lia).
  - unfold i, format. replace (zlen pre + zlen (format_of p) - 1) with (zlen pre + (zlen (format_of p) - 1)) by lia.
    rewrite format_char by (destruct p; unfold zlen; simpl; lia). by destruct p.
Qed.

Lemma printf_piece pre p post k esp :
  console_wf k -> piece_ok k p ->
  exists k', prints (shown p) k k' /\
    printf_body (Object (pre ++ format_of p ++ post)) (zlen pre, args_of p ++ esp, k)
    = inl (zlen pre + zlen (format_of p), esp, k').
Proof.
  intros Hk Hok. pose proof (format_char pre p post k 0) as H0. rewrite Z.add_0_r in H0.
  unfold printf_body. rewrite H0 by (destruct p; unfold zlen; simpl; lia).
  destruct (is_lit p) eqn:Hnl; cycle 1.
  - replace (zget (format_of p) 0) with 37 by (by destruct p). cbn [Z.eqb Pos.eqb].
    destruct (format_flags_of pre p post k Hnl) as [-> ->].
    destruct (convert_prints p (hd 0 (args_of p ++ esp)) k Hk Hok Hnl) as (k' & Hc & Hp); [by destruct p|].
    exists k'. split; [done|].
    rewrite Hc. replace (if consumes p then tl (args_of p ++ esp) else args_of p ++ esp) with esp by (by destruct p).
    do 3 f_equal. lia.
  - destruct p as [c| | | | | | |]; try discriminate Hnl. destruct Hok as [Hc0 Hc37].
    cbn [format_of zget]. change (zget [c] 0) with c.
    rewrite (proj2 (Z.eqb_neq c 0)), (proj2 (Z.eqb_neq c 37)) by done.
    exists (putc c k). split; [by apply putc_prints|done].
Qed.

Lemma printf_round ps2 : forall ps1 l k0 k post,
  zlen (formats (ps1 ++ ps2)) < 4294967295 -> console_wf k0 -> prints l k0 k ->
  Forall (piece_ok k0) ps2 ->
  exists K, prints (l ++ shows ps2) k0 K /\
    runs (printf_body (Object (formats (ps1 ++ ps2)))) (S (length ps2))
      (zlen (formats ps1), arguments ps2 ++ post, k) (Ret (zlen (formats (ps1 ++ ps2))) K).
Proof.
  induction ps2 as [|p ps2 IH]; intros ps1 l k0 k post Hlen Hk0 Hk Hok.
  { exists k. rewrite !app_nil_r. split; [done|]. apply runs_leave. unfold printf_body, chars, at_obj.
    rewrite zget_app_r by lia. by rewrite Z.sub_diag. }
  inversion Hok as [|? ? Hp Hps]; subst.
  assert (formats (ps1 ++ p :: ps2) = formats ps1 ++ format_of p ++ formats ps2) as Hfmt
    by (unfold formats; by rewrite bind_app).
  assert (ps1 ++ p :: ps2 = (ps1 ++ [p]) ++ ps2) as Hassoc by (by rewrite <- app_assoc).
  assert (formats (ps1 ++ [p]) = formats ps1 ++ format_of p) as Hfmt1
    by (unfold formats; rewrite bind_app; cbn; by rewrite app_nil_r).
  assert (exists k', prints (shown p) k k' /\
    printf_body (Object (formats (ps1 ++ p :: ps2))) (zlen (formats ps1), args_of p ++ arguments ps2 ++ post, k)
    = inl (zlen (formats (ps1 ++ [p])), arguments ps2 ++ post, k')) as (k' & Hpr & Hbody).
  { rewrite Hfmt, Hfmt1, zlen_app. apply printf_piece; [by apply Hk|by eapply prints_piece_ok]. }
  destruct (IH (ps1 ++ [p]) (l ++ shown p) k0 k' post) as (K & HK & Hr).
  - by rewrite <- Hassoc.
  - done.
  - by apply prints_trans with k.
  - done.
  - exists K. split; [cbn; by rewrite app_assoc|]. rewrite Hassoc.
    eapply runs_again; [|exact Hr]. rewrite <- Hassoc. cbn. rewrite <- app_assoc. exact Hbody.
Qed.

Lemma printf_pieces k ps :
  console_wf k -> Forall (piece_ok k) ps -> zlen (formats ps) < 4294967295 ->
  exists k', printf (Object (formats ps)) (arguments ps) k = Ret (zlen (formats ps)) k' /\ prints (shows ps) k k'.
Proof.
  intros Hk Hps Hlen.
  destruct (printf_round ps [] [] k k [] Hlen Hk (prints_nil k Hk) Hps) as (K & HK & Hr).
  exists K. split; [|exact HK]. rewrite app_nil_r in Hr. rewrite printf_unfold.
  pose proof (while_runs _ _ _ _ Hr) as Hw.
  change (zlen (formats [])) with 0 in Hw. change (formats ([] ++ ps)) with (formats ps) in Hw.
  rewrite Hw; [done|].
  assert (length ps <= length (formats ps))%nat; [|unfold zlen in Hlen; lia].
  clear. induction ps as [|p ps IH]; [done|]. cbn. rewrite length_app. unfold formats in IH.
  assert (1 <= length (format_of p))%nat by (destruct p; simpl; lia). lia.
Qed.
(** A plain text without a per cent sign is printed as it is. *)
Lemma printf_text l k :
  console_wf k -> Forall (λ c, c <> 0 /\ c <> 37) l -> zlen l < 4294967295 ->
  exists k', printf (Object l) [] k = Ret (zlen l) k' /\ prints l k k'.
Proof.
  intros Hk Hl Hlen.
  assert (formats (Lit <$> l) = l) as Hf by (clear; induction l as [|c l IH]; [done|cbn; by f_equal]).
  assert (shows (Lit <$> l) = l) as Hs by (clear; induction l as [|c l IH]; [done|cbn; by f_equal]).
  assert (arguments (Lit <$> l) = []) as Ha by (clear; induction l as [|c l IH]; done).
  destruct (printf_pieces k (Lit <$> l)) as (k' & Hp & Hpr); [done|by apply Forall_fmap|by rewrite Hf|].
  exists k'. by rewrite Hf, Ha, Hs in *.
Qed.

(** C31. [printf] of a format made of pieces, with their arguments, returns the length of the
    format and has printed exactly what the pieces show, one after the other, on the visible
    terminal; nothing else has changed. *)
Theorem printf_prints k ps :
  console_wf k -> Forall (piece_ok k) ps -> zlen (formats ps) < 4294967295 ->
  exists k', printf (Object (formats ps)) (arguments ps) k = Ret (zlen (formats ps)) k' /\ prints (shows ps) k k'.
Proof. apply printf_pieces. Qed.
Lemma printf_prints_witness :
  exists k', printf (Object (text "%d%% of 0x%#x" ++ [10])) [-7; 255] kernel0
    = Ret 14 k' /\ view_of 0 k' = put_all (text "-7% of 0x000000FF" ++ [10]) (view_of 0 kernel0).
Proof.
  set (ps := [Signed (-7); Percent] ++ (Lit <$> text " of 0x") ++ [HexPadded 255; Lit 10]).
  destruct (printf_prints kernel0 ps kernel0_wf) as (k' & Hp & [_ Hv _ _ _ _]).
  - repeat constructor; discriminate.
  - vm_compute. reflexivity.
  - exists k'. split.
    + change (zlen (formats ps)) with 14 in Hp. exact Hp.
    + replace (text "-7% of 0x000000FF" ++ [10]) with (shows ps) by (vm_compute; reflexivity). exact Hv.
Defined.
