(* ===== verification/Terminal.v ===== *)
(** * Terminals: student-distrib/terminal.c, the line buffers and [switch_terminals] of
    scheduler.c

    Each of the three terminals has a screen, a line being typed ([lb], [noc]) and a line
    that was entered and waits to be read ([terminalbuffer], [numberofchars], and the
    flag).  The screen of the visible terminal is video memory; the others' are kept in
    the three buffers behind it.  [screen_of] is a terminal's screen wherever it is kept. *)
From S2P Require Import Prelude Machine Lib Paging Devices State Console.

Definition KEYBOARD_BUFFER_LENGTH : Z := 128.
Definition TERMINALS : Z := 3.

(** ** scheduler.c *)
Definition set_pid (pid_ : Z) (k : kernel) : kernel :=
  set_terminal (current_term (sched k)) (λ t, t <| pid := pid_ |>) k.
Definition get_current_pid (k : kernel) : Z := pid (get_terminal (current_term (sched k)) k).

(** [set_line_buffer] fills the keyboard's buffer from the visible terminal's,
    [set_global_buffer] the other way. *)
Definition set_line_buffer (linebuffer : list Z) (k : kernel) : list Z :=
  let t := get_terminal (visable_term (sched k)) k in
  memcpy (at_obj (zget (lb t))) 0 (noc t) linebuffer.
Definition set_global_buffer (linebuffer : list Z) (numberofchars : Z) (k : kernel) : kernel :=
  let k := set_terminal (visable_term (sched k)) (λ t, t <| noc := numberofchars |>) k in
  set_terminal (visable_term (sched k))
    (λ t, t <| lb ::= memcpy (at_obj (zget linebuffer)) 0 numberofchars |>) k.

Definition switch_terminals (next_terminal : Z) (k : kernel) : kernel :=
  let k := k <| devs ::= cli |> in
  let prev_terminal := visable_term (sched k) in
  let prev_terminal_buf := zget (vid_bufs (sched k)) prev_terminal in
  if next_terminal =? prev_terminal then k
  else
    let k := k <| sched ::= λ s, s <| visable_term := next_terminal |> |> in
    let k := update_cursor k in
    let next_terminal_buf := zget (vid_bufs (sched k)) next_terminal in
    let vmem := VID_START_ADDR in
    let k := k <| mmu_of ::= paging_set_write_to_videomem |> in
    let k := memcpy (at_ptr vmem) prev_terminal_buf VMEM_SIZE k in
    let k := memcpy (at_ptr next_terminal_buf) vmem VMEM_SIZE k in
    let k :=
      if negb (current_term (sched k) =? visable_term (sched k)) then
        k <| mmu_of ::= paging_set_write_to_buffer (current_term (sched k)) |>
      else k in
    k <| devs ::= sti |>.

(** ** terminal.c *)
Definition set_terminalbuffer (t : Z) (f : list Z -> list Z) (k : kernel) : kernel :=
  k <| term ::= λ v, v <| terminalbuffer ::= λ b, zset t (f (zget b t)) b |> |>.
Definition clear_buffer : list Z -> list Z := memset 0 0 KEYBOARD_BUFFER_LENGTH.

Definition init (k : kernel) : Z * kernel :=
  (0, set_terminalbuffer 2 clear_buffer (set_terminalbuffer 1 clear_buffer (set_terminalbuffer 0 clear_buffer k))).

Definition terminal_write (fd buf nbytes : Z) (k : kernel) : Z * kernel :=
  let k := for_up (Z.to_nat nbytes) 0 (λ i k, putc_modified (loadb k (buf + i)) k) k in
  (0, update_cursor k).

(** [terminal_read] up to the loop that waits for the flag. *)
Definition terminal_read_begin (buffer nbytes : Z) (k : kernel) : kernel :=
  memset buffer 0 (u32 nbytes) k.
(** The loop, once the flag is set: the remaining statements. *)
Definition terminal_read_end (buffer : Z) : prog kernel Z := λ k,
  let current_t := get_current_terminal k in
  let n := zget (numberofchars (term k)) current_t in
  let line := zget (terminalbuffer (term k)) current_t in
  if zlen line <? n then Ub
  else
    let k := for_up (Z.to_nat n) 0 (λ i k,
               storeb (buffer + i) (zget (zget (terminalbuffer (term k)) current_t) i) k) k in
    let k := storeb (buffer + Z.max 0 n) 10 k in
    let k := update_cursor k in
    let retvalue := zget (numberofchars (term k)) current_t in
    let k := set_terminalbuffer current_t clear_buffer k in
    let k := k <| term ::= λ v, v <| numberofchars ::= zset current_t 0 |> <| term_flags ::= zset current_t 0 |> |> in
    Ret (retvalue + 1) k.
Definition terminal_read (fd buffer nbytes : Z) : prog kernel Z := λ k,
  let k := terminal_read_begin buffer nbytes k in
  if zget (term_flags (term k)) (get_current_terminal k) =? 0 then Wait k
  else terminal_read_end buffer k.

Definition terminal_open (k : kernel) : Z := 0.
Definition terminal_close (fd : Z) (k : kernel) : Z := 0.

Definition set_terminal_buffer (buf : list Z) (nchars : Z) : prog kernel unit := λ k,
  let current_t := get_visable_terminal k in
  let k := set_terminalbuffer current_t clear_buffer k in
  if KEYBOARD_BUFFER_LENGTH <=? nchars then Ub
  else
    let k := set_terminalbuffer current_t
               (for_up (Z.to_nat nchars) 0 (λ i b, zset i (zget buf i) b)) k in
    let k := k <| term ::= λ v, v <| numberofchars ::= zset current_t nchars |> |> in
    let k := set_terminalbuffer current_t
               (zset (zget (numberofchars (term k)) current_t) 10) k in
    Ret tt (k <| term ::= λ v, v <| term_flags ::= zset current_t 1 |> |>).

(** ** Screens *)

(** A byte of physical memory. *)
Definition phys_byte (k : kernel) (p : Z) : Z := u8 (default 0 (phys k !! p)).
Lemma loadb_phys k va : loadb k va = phys_byte k (resolve k va).
Proof. done. Qed.
Lemma phys_loadb k p : resolve k p = p -> phys_byte k p = loadb k p.
Proof. intros Hp. by rewrite loadb_phys, Hp. Qed.

(** Where the screen of terminal [t] is kept, and its bytes. *)
Definition frame_of (t : Z) (k : kernel) : Z :=
  if t =? visable_term (sched k) then VID_START_ADDR else T1_BUF_ADDR + 4096 * t.
Definition screen_byte (k : kernel) (t i : Z) : Z := phys_byte k (frame_of t k + i).

(** The kernel writes the screen of the scheduled terminal. *)
Definition coherent (k : kernel) : Prop :=
  video_target (mmu_of k) = frame_of (current_term (sched k)) k.
Definition bufs_ok (k : kernel) : Prop := vid_bufs (sched k) = [T1_BUF_ADDR; T2_BUF_ADDR; T3_BUF_ADDR].

Lemma bufs_get k t : bufs_ok k -> 0 <= t < 3 -> zget (vid_bufs (sched k)) t = T1_BUF_ADDR + 4096 * t.
Proof.
  intros -> Ht. assert (t = 0 \/ t = 1 \/ t = 2) as [->|[->| ->]] by lia; reflexivity.
Qed.
Lemma buffer_addr_frame t : 0 <= t < 3 -> buffer_addr t = T1_BUF_ADDR + 4096 * t.
Proof. intros Ht. assert (t = 0 \/ t = 1 \/ t = 2) as [->|[->| ->]] by lia; reflexivity. Qed.

(** The state while the video page shows video memory: its text pages are mapped to
    themselves. *)
Definition text_identity (k : kernel) : Prop :=
  forall a, VID_START_ADDR <= a < T3_BUF_ADDR + 4096 -> resolve k a = a.
Lemma videomem_identity k :
  kernel_map (mmu_of k) -> text_identity (k <| mmu_of ::= paging_set_write_to_videomem |>).
Proof.
  intros Hkm a Ha. unfold VID_START_ADDR, T3_BUF_ADDR in Ha.
  set (k1 := k <| mmu_of ::= paging_set_write_to_videomem |>).
  assert (kernel_map (mmu_of k1)) as H1 by (by apply paging_set_write_to_videomem_kernel_map).
  destruct (decide (a < 0xB9000)) as [Hv|Hv].
  - replace a with (VIDEO + (a - 0xB8000)) at 1 by (unfold VIDEO; lia).
    rewrite resolve_video by (done || lia).
    change (video_target (mmu_of k1)) with (video_target (paging_set_write_to_videomem (mmu_of k))).
    rewrite video_target_videomem by done. unfold VID_START_ADDR. lia.
  - unfold resolve, kernel_space. rewrite u32_id by lia.
    rewrite walk_buffers; [done|exact H1|unfold T1_BUF_ADDR, T3_BUF_ADDR; lia].
Qed.
Lemma store_identity a l k : text_identity k -> text_identity (store_bytes a l k).
Proof. intros Hk b Hb. rewrite resolve_store_bytes. by apply Hk. Qed.

(** Copying one text page over another. *)
Definition text_page (p : Z) : Prop := VID_START_ADDR <= p /\ p + 4096 <= T3_BUF_ADDR + 4096.
Lemma copy_page k src dest :
  text_identity k -> text_page src -> text_page dest -> src + 4096 <= dest \/ dest + 4096 <= src ->
  let k' := memcpy (at_ptr src) dest VMEM_SIZE k in
  text_identity k' /\ k' = k <| phys := phys k' |> /\
  (forall p, ~ (VID_START_ADDR <= p < T3_BUF_ADDR + 4096) -> phys k' !! p = phys k !! p) /\
  forall p, VID_START_ADDR <= p < T3_BUF_ADDR + 4096 ->
    phys_byte k' p = if decide (dest <= p < dest + 4096) then phys_byte k (src + (p - dest)) else phys_byte k p.
Proof.
  intros Hid [Hs1 Hs2] [Hd1 Hd2] Hsep k'. unfold VMEM_SIZE in k'.
  assert (k' = store_bytes dest (tabulate (Z.to_nat 4096) (at_ptr src k)) k) as ->.
  { unfold k'. apply memcpy_bytes; [lia|]. apply stable_at_ptr.
    intros i j Hi Hj. rewrite !Hid by lia. lia. }
  assert (zlen (tabulate (Z.to_nat 4096) (at_ptr src k)) = 4096) as Hl by (rewrite zlen_tabulate; lia).
  assert (forall i, 0 <= i < 4096 ->
    zget (tabulate (Z.to_nat 4096) (at_ptr src k)) i = phys_byte k (src + i)) as Hget.
  { intros i Hi. rewrite zget_tabulate by lia. unfold at_ptr. by rewrite loadb_phys, Hid by lia. }
  revert Hl Hget. generalize (tabulate (Z.to_nat 4096) (at_ptr src k)). intros l Hl Hget.
  pose proof (store_identity dest l k Hid) as Hid'.
  split; [done|]. split; [apply store_bytes_phys|]. split.
  { intros p Hp. apply phys_store_out. rewrite Hl. intros i Hi. rewrite Hid by lia. lia. }
  intros p Hp.
  rewrite phys_loadb by (by apply Hid'). case_decide as Hin.
  - rewrite <- (Hget (p - dest)) by lia.
    assert (loadb (store_bytes dest l k) (dest + (p - dest)) = u8 (zget l (p - dest))) as Hb.
    { apply loadb_store_bytes_in; [|lia]. rewrite Hl. intros i j Hi Hj. rewrite !Hid by lia. lia. }
    replace (dest + (p - dest)) with p in Hb by lia. rewrite Hb, (Hget (p - dest)) by lia. apply u8_u8.
  - rewrite loadb_store_bytes_out by (rewrite Hl; intros i Hi; rewrite !Hid by lia; lia).
    symmetry. apply phys_loadb. by apply Hid.
Qed.

(** The state in which [switch_terminals] copies, and its copies with the buffers'
    addresses filled in. *)
Definition switch_copying (n : Z) (k : kernel) : kernel :=
  update_cursor (k <| devs ::= cli |> <| sched ::= λ s, s <| visable_term := n |> |>)
    <| mmu_of ::= paging_set_write_to_videomem |>.
Definition switch_finish (k : kernel) : kernel :=
  (if negb (current_term (sched k) =? visable_term (sched k)) then
     k <| mmu_of ::= paging_set_write_to_buffer (current_term (sched k)) |>
   else k) <| devs ::= sti |>.
Lemma switch_terminals_copies k n :
  bufs_ok k -> 0 <= visable_term (sched k) < 3 -> 0 <= n < 3 -> n <> visable_term (sched k) ->
  switch_terminals n k =
    switch_finish (memcpy (at_ptr (T1_BUF_ADDR + 4096 * n)) VID_START_ADDR VMEM_SIZE
      (memcpy (at_ptr VID_START_ADDR) (T1_BUF_ADDR + 4096 * visable_term (sched k)) VMEM_SIZE
         (switch_copying n k))).
Proof.
  intros Hb Hv Hn Hne. rewrite <- (bufs_get k n Hb Hn), <- (bufs_get k _ Hb Hv).
  unfold switch_terminals. cbv zeta.
  cbn [devs sched upd set_devs set_sched]. by rewrite (proj2 (Z.eqb_neq n _) Hne).
Qed.
Lemma switch_terminals_same k n :
  n = visable_term (sched k) -> switch_terminals n k = k <| devs ::= cli |>.
Proof. intros ->. unfold switch_terminals. cbn [devs sched upd set_devs]. by rewrite Z.eqb_refl. Qed.

(** What the two copies do to the four text pages. *)
Lemma switch_terminals_pages k n :
  kernel_map (mmu_of k) -> bufs_ok k -> 0 <= visable_term (sched k) < 3 -> 0 <= n < 3 ->
  n <> visable_term (sched k) ->
  exists k3, switch_terminals n k = switch_finish k3 /\
    k3 = k <| sched ::= λ s, s <| visable_term := n |> |> <| mmu_of ::= paging_set_write_to_videomem |>
           <| phys := phys k3 |> <| devs := devs k3 |> /\
    (forall p, ~ (VID_START_ADDR <= p < T3_BUF_ADDR + 4096) -> phys k3 !! p = phys k !! p) /\
    forall p, VID_START_ADDR <= p < T3_BUF_ADDR + 4096 ->
      phys_byte k3 p =
        if decide (VID_START_ADDR <= p < T1_BUF_ADDR) then phys_byte k (T1_BUF_ADDR + 4096 * n + (p - VID_START_ADDR))
        else if decide (T1_BUF_ADDR + 4096 * visable_term (sched k) <= p < T1_BUF_ADDR + 4096 * visable_term (sched k) + 4096)
        then phys_byte k (VID_START_ADDR + (p - (T1_BUF_ADDR + 4096 * visable_term (sched k))))
        else phys_byte k p.
Proof.
  intros Hkm Hb Hv Hn Hne. rewrite (switch_terminals_copies k n Hb Hv Hn Hne).
  assert (switch_copying n k = k <| sched ::= λ s, s <| visable_term := n |> |>
    <| mmu_of ::= paging_set_write_to_videomem |> <| devs := devs (switch_copying n k) |>) as Hs1 by done.
  assert (phys (switch_copying n k) = phys k) as Hp1 by done.
  assert (text_identity (switch_copying n k)) as Hid1 by (by apply videomem_identity).
  assert (forall p, phys_byte k p = phys_byte (switch_copying n k) p) as Hpb
    by (intros p; unfold phys_byte; by rewrite Hp1).
  revert Hs1 Hp1 Hid1 Hpb. generalize (switch_copying n k). intros k1 Hs1 Hp1 Hid1 Hpb.
  set (prev := visable_term (sched k)) in *. clearbody prev.
  destruct (copy_page k1 VID_START_ADDR (T1_BUF_ADDR + 4096 * prev) Hid1) as (Hid2 & Hr2 & Ho2 & Hp2);
    [unfold text_page, VID_START_ADDR, T1_BUF_ADDR, T3_BUF_ADDR; lia..|].
  revert Hid2 Hr2 Ho2 Hp2. generalize (memcpy (at_ptr VID_START_ADDR) (T1_BUF_ADDR + 4096 * prev) VMEM_SIZE k1).
  intros k2 Hid2 Hr2 Ho2 Hp2.
  destruct (copy_page k2 (T1_BUF_ADDR + 4096 * n) VID_START_ADDR Hid2) as (Hid3 & Hr3 & Ho3 & Hp3);
    [unfold text_page, VID_START_ADDR, T1_BUF_ADDR, T3_BUF_ADDR; lia..|].
  revert Hid3 Hr3 Ho3 Hp3. generalize (memcpy (at_ptr (T1_BUF_ADDR + 4096 * n)) VID_START_ADDR VMEM_SIZE k2).
  intros k3 Hid3 Hr3 Ho3 Hp3. exists k3. split; [done|].
  split; [rewrite Hr3, Hr2, Hs1; done|]. split; [intros p Hp; by rewrite Ho3, Ho2, Hp1|].
  intros p Hp. unfold VID_START_ADDR, T1_BUF_ADDR, T3_BUF_ADDR in *. rewrite !Hpb.
  rewrite Hp3 by lia. destruct (decide (0xB8000 <= p < 0xB9000)).
  - rewrite decide_True by lia. rewrite Hp2 by lia. by rewrite decide_False by lia.
  - rewrite decide_False by lia. by rewrite Hp2 by lia.
Qed.

Lemma switch_finish_facts k :
  sched (switch_finish k) = sched k /\ (forall p, phys_byte (switch_finish k) p = phys_byte k p) /\
  (mmu_of (switch_finish k) = if negb (current_term (sched k) =? visable_term (sched k))
    then paging_set_write_to_buffer (current_term (sched k)) (mmu_of k) else mmu_of k) /\
  phys (switch_finish k) = phys k /\
  switch_finish k = k <| mmu_of := mmu_of (switch_finish k) |> <| devs := devs (switch_finish k) |>.
Proof. unfold switch_finish. case_match; (split; [done|split; [done|split; [done|split; [done|by destruct k]]]]). Qed.

(** Switching to another terminal, wherever the video page was sent. *)
Lemma switch_terminals_screens k n :
  console_wf k -> bufs_ok k -> 0 <= n < 3 -> n <> visable_term (sched k) ->
  let k' := switch_terminals n k in
  console_wf k' /\ coherent k' /\
  k' = k <| sched ::= λ s, s <| visable_term := n |> |> <| mmu_of := mmu_of k' |>
         <| phys := phys k' |> <| devs := devs k' |> /\
  page_directory (tables (mmu_of k')) = page_directory (tables (mmu_of k)) /\
  (forall p, ~ (VID_START_ADDR <= p < T3_BUF_ADDR + 4096) -> phys k' !! p = phys k !! p) /\
  (forall t i, 0 <= t < 3 -> 0 <= i < 4096 -> screen_byte k' t i = screen_byte k t i).
Proof.
  intros [Hkm Hs] Hbufs Hn Hne k'. pose proof (sw_visable _ Hs) as Hv. pose proof (sw_current _ Hs) as Hc.
  destruct (switch_terminals_pages k n Hkm Hbufs Hv Hn Hne) as (k3 & HE & Hr3 & Ho3 & Hp3).
  fold k' in HE. destruct (switch_finish_facts k3) as (Hs4 & Hp4 & Hm4 & Hph4 & Hr4).
  rewrite <- HE in Hs4, Hp4, Hm4, Hph4, Hr4. clearbody k'. clear HE.
  assert (sched k3 = sched k <| visable_term := n |>) as Hs3 by (by rewrite Hr3).
  assert (mmu_of k3 = paging_set_write_to_videomem (mmu_of k)) as Hm3 by (by rewrite Hr3).
  rewrite Hs3 in Hs4, Hm4.
  assert (kernel_map (mmu_of k3)) as Hkm3 by (rewrite Hm3; auto with kern).
  cbn [current_term visable_term upd set_visable_term] in Hm4.
  split; [|split; [|split; [rewrite Hr4, Hr3; reflexivity|split; [|split; [intros p Hp; by rewrite Hph4, Ho3|]]]]].
  - split; [rewrite Hm4; case_match; auto with kern|]. rewrite Hs4. by destruct Hs; split.
  - unfold coherent, frame_of. rewrite Hs4, Hm4. cbn [current_term visable_term upd set_visable_term].
    destruct (Z.eqb_spec (current_term (sched k)) n) as [->|Hcn]; cbn [negb].
    + rewrite Hm3. by apply video_target_videomem.
    + rewrite (video_target_buffer _ _ Hkm3). by apply buffer_addr_frame.
  - rewrite Hm4. case_match; cbn; by rewrite Hm3.
  - intros t i Ht Hi. unfold screen_byte, frame_of. rewrite Hs4, Hp4.
    cbn [visable_term upd set_visable_term].
    unfold VID_START_ADDR, T1_BUF_ADDR, T3_BUF_ADDR in *.
    rewrite Hp3; [|destruct (t =? n); lia].
    destruct (Z.eqb_spec t n) as [->|Htn].
    + rewrite (proj2 (Z.eqb_neq n _) Hne), decide_True by lia. f_equal. lia.
    + rewrite decide_False by lia.
      destruct (Z.eqb_spec t (visable_term (sched k))) as [->|Htp].
      * rewrite decide_True by lia. f_equal. lia.
      * by rewrite decide_False by lia.
Qed.
(** C7. Switching terminals loses nothing: afterwards terminal [n] is the visible one, the
    whole 4096-byte screen of every terminal is what it was, wherever it is kept now,
    the kernel still writes the screen of the scheduled terminal, and nothing else of the
    scheduler's state (cursors, typed lines) has changed. *)
Theorem switch_terminals_keeps_screens k n :
  console_wf k -> bufs_ok k -> coherent k -> 0 <= n < 3 ->
  let k' := switch_terminals n k in
  console_wf k' /\ coherent k' /\
  sched k' = sched k <| visable_term := n |> /\
  (forall t i, 0 <= t < 3 -> 0 <= i < 4096 -> screen_byte k' t i = screen_byte k t i).
Proof.
  intros Hk Hbufs Hcoh Hn k'. destruct (decide (n = visable_term (sched k))) as [Heq|Hne].
  { unfold k'. rewrite (switch_terminals_same k n Heq), Heq. destruct Hk as [Hkm Hs].
    split; [by split|]. split; [done|]. split; [|done]. cbn. by destruct (sched k). }
  destruct (switch_terminals_screens k n Hk Hbufs Hn Hne) as (Hwf & Hc & Hr & _ & _ & Hb). fold k' in Hwf, Hc, Hr, Hb.
  split; [done|]. split; [done|]. split; [by rewrite Hr|done].
Qed.
Lemma kernel0_coherent : coherent kernel0.
Proof. vm_compute. reflexivity. Qed.
Lemma switch_terminals_keeps_screens_witness :
  screen_byte (switch_terminals 2 (putc 65 kernel0)) 0 0 = screen_byte (putc 65 kernel0) 0 0.
Proof.
  apply (switch_terminals_keeps_screens (putc 65 kernel0) 2).
  - apply putc_wf, kernel0_wf.
  - reflexivity.
  - vm_compute. reflexivity.
  - lia.
  - lia.
  - lia.
Defined.

(** ** Writing to a terminal *)

(** What [putc_modified] does, as one step of a loop. *)
Record wrote (t : Z) (l : list Z) (k k' : kernel) : Prop := {
  wr_wf : console_wf k';
  wr_view : view_of t k' = put_all l (view_of t k);
  wr_mmu : mmu_of k' = mmu_of k;
  wr_sched : cursor_moved t (sched k) (sched k');
  wr_rest : k' = k <| sched := sched k' |> <| phys := phys k' |>;
  wr_out : forall p, ~ (video_target (mmu_of k) <= p < video_target (mmu_of k) + 4000) ->
    phys k' !! p = phys k !! p
}.

Lemma wrote_nil k : console_wf k -> wrote (current_term (sched k)) [] k k.
Proof.
  intros Hk. split; [done..| | |done].
  - apply cursor_moved_refl.
  - by destruct k.
Qed.
Lemma wrote_same_term t l k k' :
  wrote t l k k' -> current_term (sched k') = current_term (sched k) /\ visable_term (sched k') = visable_term (sched k).
Proof. intros [_ _ _ Hs _ _]. by apply (cursor_moved_turn t). Qed.
Lemma wrote_snoc t l c k k' :
  t = current_term (sched k) -> wrote t l k k' -> wrote t (l ++ [c]) k (putc_modified c k').
Proof.
  intros Ht Hw. destruct (wrote_same_term _ _ _ _ Hw) as [Hcur _].
  destruct Hw as [Hwf Hv Hm Hs Hr Ho].
  pose proof (putc_modified_emits c k' Hwf) as He. destruct He as [Hv' Hr' Ho'].
  unfold current_sel in Hv', Hr', Ho'. rewrite Hcur, <- Ht in Hv', Hr'. rewrite Hm in Ho'.
  set (k2 := putc_modified c k') in *. revert Hv' Hr'. generalize (put c (view_of t k')) at 2 3. intros v Hv' Hr'.
  split.
  - by apply putc_modified_wf.
  - rewrite put_all_app, <- Hv. exact Hv'.
  - rewrite Hr'. exact Hm.
  - apply cursor_moved_trans with (sched k'); [exact Hs|].
    exists (cursor_x v), (cursor_y v). by rewrite Hr'.
  - rewrite Hr' at 1. rewrite Hr'. cbn. rewrite Hr. cbn. done.
  - intros p Hp. by rewrite Ho', Ho.
Qed.

Lemma video_target_range m : kernel_map m -> VID_START_ADDR <= video_target m <= T3_BUF_ADDR.
Proof.
  intros Hm. destruct (video_target_frames m Hm) as [Hin _]. unfold video_frames in Hin.
  rewrite !elem_of_cons, elem_of_nil in Hin. unfold VID_START_ADDR, T1_BUF_ADDR, T2_BUF_ADDR, T3_BUF_ADDR in *. lia.
Qed.
(** The loop of [terminal_write]. *)
Lemma terminal_write_wrote k fd buf n :
  console_wf k -> 0 <= n ->
  (forall i, 0 <= i < n -> let p := resolve k (buf + i) in
    ~ (video_target (mmu_of k) <= p < video_target (mmu_of k) + 4000)) ->
  exists K, terminal_write fd buf n k = (0, update_cursor K) /\
    wrote (current_term (sched k)) (load_bytes k buf (Z.to_nat n)) k K.
Proof.
  intros Hwf Hn Hout. set (t := current_term (sched k)). unfold terminal_write.
  set (K := for_up _ _ _ _). exists K. split; [done|].
  unfold K. pose proof (for_up_ind (λ i K, wrote t (load_bytes k buf (Z.to_nat i)) k K)
    (Z.to_nat n) 0 (λ i k, putc_modified (loadb k (buf + i)) k) k) as Hind.
  cbv beta in Hind. rewrite Z.add_0_l, Z2Nat.id in Hind by lia. apply Hind.
  - by apply wrote_nil.
  - intros j s Hj Hs. replace (Z.to_nat (j + 1)) with (Z.to_nat j + 1)%nat by lia.
    unfold load_bytes. rewrite tabulate_app. cbn [tabulate seq fmap list_fmap].
    rewrite Z2Nat.id by lia. change (Z.of_nat 0) with 0. rewrite Z.add_0_r.
    replace (loadb k (buf + j)) with (loadb s (buf + j)); [by apply wrote_snoc|].
    rewrite !loadb_phys, (resolve_same k s) by apply (wr_mmu _ _ _ _ Hs).
    unfold phys_byte. rewrite (wr_out _ _ _ _ Hs); [done|]. apply Hout. lia.
Qed.

(** What is written behind the video page stays on the screen of the scheduled terminal. *)
Lemma target_screens k K :
  sched_wf (sched k) -> mmu_of K = mmu_of k ->
  current_term (sched K) = current_term (sched k) /\ visable_term (sched K) = visable_term (sched k) ->
  (forall p, ~ (video_target (mmu_of k) <= p < video_target (mmu_of k) + 4000) -> phys K !! p = phys k !! p) ->
  coherent k -> coherent K /\
  forall t i, 0 <= t < 3 -> t <> current_term (sched k) -> 0 <= i < 4096 -> screen_byte K t i = screen_byte k t i.
Proof.
  intros Hsw Hm [Hcur Hvis] Ho Hc. set (t := current_term (sched k)) in *. split.
  - unfold coherent, frame_of. rewrite Hm, Hcur, Hvis. exact Hc.
  - intros t' i Ht' Hne Hi. unfold screen_byte, frame_of, phys_byte.
    rewrite Hvis, Ho; [done|]. rewrite Hc. unfold frame_of. fold t. pose proof (sw_current _ Hsw). unfold VID_START_ADDR, T1_BUF_ADDR.
    destruct (Z.eqb_spec t (visable_term (sched k))), (Z.eqb_spec t' (visable_term (sched k))); lia.
Qed.
Lemma wrote_screens l k K :
  console_wf k -> wrote (current_term (sched k)) l k K -> coherent k ->
  coherent (update_cursor K) /\
  forall t i, 0 <= t < 3 -> t <> current_term (sched k) -> 0 <= i < 4096 ->
    screen_byte (update_cursor K) t i = screen_byte k t i.
Proof.
  intros Hwf Hw. apply (target_screens k (update_cursor K)); [apply Hwf|apply (wr_mmu _ _ _ _ Hw)| |exact (wr_out _ _ _ _ Hw)].
  exact (wrote_same_term _ _ _ _ Hw).
Qed.


(** ** Entering and reading a line *)

(** The arrays of terminal.c. *)
Record term_wf (v : term_vars) : Prop := {
  tv_bufs : zlen (terminalbuffer v) = 3;
  tv_flags : zlen (term_flags v) = 3;
  tv_noc : zlen (numberofchars v) = 3;
  tv_buf : forall t, 0 <= t < 3 -> zlen (zget (terminalbuffer v) t) = 128;
  tv_count : forall t, 0 <= t < 3 -> 0 <= zget (numberofchars v) t <= 127
}.

Lemma clear_buffer_len b : zlen (clear_buffer b) = zlen b.
Proof. unfold clear_buffer. rewrite memset_bytes. apply zlen_array_store. Qed.
Lemma clear_buffer_zero b : zlen b = 128 -> clear_buffer b = replicate 128 0.
Proof.
  intros Hb. unfold clear_buffer. rewrite memset_bytes, array_store_all; [done|].
  rewrite Hb. done.
Qed.

(** The copy loop of [set_terminal_buffer]. *)
Lemma copy_line (n : nat) buf (b : list Z) :
  (n <= length b)%nat -> (n <= length buf)%nat ->
  for_up n 0 (λ i b, zset i (zget buf i) b) b = take n buf ++ drop n b.
Proof.
  intros Hb Hbuf. induction n as [|n IH]; [done|].
  replace (S n) with (n + 1)%nat by lia. rewrite for_up_add, IH by lia. cbn [for_up].
  rewrite Z.add_0_l. apply zget_ext; rewrite zlen_zset; unfold zlen;
    rewrite !length_app, !length_take, !length_drop; [lia|].
  intros i Hi. unfold zget, zset. rewrite Nat2Z.id.
  destruct (decide (Z.to_nat i = n)) as [Heq|Hne].
  - rewrite Heq, list_lookup_total_insert_eq by (rewrite length_app, length_take, length_drop; lia).
    rewrite lookup_total_app_l by (rewrite length_take; lia).
    rewrite !list_lookup_total_alt, lookup_take_lt by lia. done.
  - rewrite list_lookup_total_insert_ne by done. rewrite !list_lookup_total_alt.
    destruct (decide (Z.to_nat i < n)%nat).
    + rewrite !lookup_app_l by (rewrite length_take; lia). by rewrite !lookup_take_lt by lia.
    + rewrite !lookup_app_r by (rewrite length_take; lia). rewrite !lookup_drop, !length_take.
      do 2 f_equal. lia.
Qed.

(** The read loop stores the line. *)
Lemma store_line (n : nat) t buffer k :
  let line := zget (terminalbuffer (term k)) t in
  (n <= length line)%nat ->
  for_up n 0 (λ i k, storeb (buffer + i) (zget (zget (terminalbuffer (term k)) t) i) k) k
  = store_bytes buffer (take n line) k.
Proof.
  intros line Hn. induction n as [|n IH]; [done|].
  replace (S n) with (n + 1)%nat by lia. rewrite for_up_add, IH by lia. cbn [for_up].
  rewrite Z.add_0_l. autorewrite with word. fold line.
  replace (n + 1)%nat with (S n) by lia. rewrite (take_S_r _ _ (zget line (Z.of_nat n))).
  - rewrite store_bytes_app. replace (zlen (take n line)) with (Z.of_nat n); [done|].
    unfold zlen. rewrite length_take. lia.
  - unfold zget. rewrite Nat2Z.id. apply list_lookup_lookup_total_lt. lia.
Qed.

Definition read_done (t : Z) (k : kernel) : kernel :=
  set_terminalbuffer t clear_buffer (update_cursor k)
    <| term ::= λ v, v <| numberofchars ::= zset t 0 |> <| term_flags ::= zset t 0 |> |>.
Lemma terminal_read_end_line buffer k :
  let t := current_term (sched k) in
  let n := zget (numberofchars (term k)) t in
  let line := zget (terminalbuffer (term k)) t in
  0 <= n <= zlen line ->
  terminal_read_end buffer k =
    Ret (n + 1) (read_done t (store_bytes buffer (take (Z.to_nat n) line ++ [10]) k)).
Proof.
  intros t n line Hn. unfold terminal_read_end, get_current_terminal. fold t. fold n line.
  replace (zlen line <? n) with false by lia. rewrite store_line by (fold line; unfold zlen in Hn; lia).
  fold line. rewrite Z.max_r by lia. cbv zeta. f_equal.
  - f_equal. change (term (update_cursor ?K)) with (term K). cbn [term storeb kernel_space upd set_phys].
    autorewrite with word. done.
  - unfold read_done. rewrite store_bytes_app.
    replace (zlen (take (Z.to_nat n) line)) with n; [done|].
    unfold zlen in *. rewrite length_take. lia.
Qed.

(** The variables of terminal.c after a line was handed over. *)
Definition with_line (t : Z) (line : list Z) (n : Z) (v : term_vars) : term_vars :=
  TermVars (zset t (zset n 10 (take (Z.to_nat n) line ++ drop (Z.to_nat n) (replicate 128 0))) (terminalbuffer v))
    (zset t 1 (term_flags v)) (zset t n (numberofchars v)).
Lemma set_terminal_buffer_runs k line n :
  term_wf (term k) -> 0 <= visable_term (sched k) < 3 -> zlen line = 128 -> 0 <= n <= 127 ->
  set_terminal_buffer line n k = Ret tt (k <| term := with_line (visable_term (sched k)) line n (term k) |>).
Proof.
  intros [Hb Hf Hno Hbl Hcnt] Ht Hline Hn. set (t := visable_term (sched k)) in *.
  unfold set_terminal_buffer, get_visable_terminal. fold t.
  replace (KEYBOARD_BUFFER_LENGTH <=? n) with false by (unfold KEYBOARD_BUFFER_LENGTH; lia).
  f_equal. unfold set_terminalbuffer, with_line. destruct k as [? ? ? [tb tf tn]]. cbn in *.
  unfold upd, set_term, set_terminalbuffer, set_term_flags, set_numberofchars. cbn.
  f_equal. rewrite !zset_zset. rewrite !zget_zset_eq by (rewrite ?zlen_zset; lia).
  rewrite clear_buffer_zero by (by apply Hbl). rewrite copy_line; [done|..].
  - rewrite length_replicate. lia.
  - unfold zlen in Hline. lia.
Qed.
Lemma with_line_wf t line n v :
  term_wf v -> 0 <= t < 3 -> zlen line = 128 -> 0 <= n <= 127 -> term_wf (with_line t line n v).
Proof.
  intros [Hb Hf Hno Hbl Hcnt] Ht Hline Hn.
  split; unfold with_line; cbn [terminalbuffer term_flags numberofchars]; rewrite ?zlen_zset; try done.
  - intros t' Ht'. destruct (decide (t' = t)) as [->|Hne]; [|rewrite zget_zset_ne by lia; by apply Hbl].
    rewrite zget_zset_eq, zlen_zset by lia. unfold zlen in *. rewrite length_app, length_take, length_drop, length_replicate. lia.
  - intros t' Ht'. destruct (decide (t' = t)) as [->|Hne]; [rewrite zget_zset_eq by lia; lia|].
    rewrite zget_zset_ne by lia. by apply Hcnt.
Qed.

(** The line that waits to be read by terminal [t]. *)
Definition entered (t : Z) (v : term_vars) : option (list Z) :=
  if zget (term_flags v) t =? 0 then None
  else Some (take (Z.to_nat (zget (numberofchars v) t)) (zget (terminalbuffer v) t)).
Lemma entered_with_line t t' line n v :
  term_wf v -> 0 <= t < 3 -> 0 <= t' < 3 -> zlen line = 128 -> 0 <= n <= 127 ->
  entered t' (with_line t line n v) = if decide (t' = t) then Some (take (Z.to_nat n) line) else entered t' v.
Proof.
  intros [Hb Hf Hno Hbl Hcnt] Ht Ht' Hline Hn. unfold entered, with_line.
  cbn [terminalbuffer term_flags numberofchars]. case_decide as Hd.
  - subst t'. rewrite !zget_zset_eq by lia. f_equal. unfold zset. rewrite take_insert_ge by lia.
    rewrite take_app_le, take_take by (rewrite length_take; unfold zlen in Hline; lia). f_equal. lia.
  - by rewrite !zget_zset_ne by lia.
Qed.

(** [terminal_read] when a line is ready: its end, and all of it. *)
Lemma terminal_read_end_entered k buffer l :
  let t := current_term (sched k) in
  term_wf (term k) -> 0 <= t < 3 -> entered t (term k) = Some l ->
  zlen l = zget (numberofchars (term k)) t /\
  terminal_read_end buffer k = Ret (zlen l + 1) (read_done t (store_bytes buffer (l ++ [10]) k)).
Proof.
  intros t [Hb Hf Hno Hbl Hcnt] Ht He. unfold entered in He. specialize (Hcnt t Ht).
  destruct (Z.eqb_spec (zget (term_flags (term k)) t) 0) as [|Hflag]; [done|]. injection He as He.
  set (n := zget (numberofchars (term k)) t) in *. set (line := zget (terminalbuffer (term k)) t) in *.
  assert (zlen line = 128) as Hline by (by apply Hbl).
  assert (zlen l = n) as Hl by (rewrite <- He, zlen_take; lia).
  pose proof (terminal_read_end_line buffer k) as Hend. cbv zeta in Hend.
  fold t in Hend. fold n line in Hend. specialize (Hend ltac:(lia)). rewrite He in Hend. by rewrite Hl.
Qed.
Lemma read_done_wf t k : term_wf (term k) -> 0 <= t < 3 -> term_wf (term (read_done t k)).
Proof.
  intros [Hb Hf Hno Hbl Hcnt] Ht. unfold read_done, set_terminalbuffer.
  split; cbn [terminalbuffer term_flags numberofchars term upd set_term State.set_terminalbuffer set_term_flags set_numberofchars];
    change (term (update_cursor k)) with (term k); rewrite ?zlen_zset; try done.
  - intros t' Ht'. destruct (decide (t' = t)) as [->|Hne]; [|rewrite zget_zset_ne by lia; by apply Hbl].
    rewrite zget_zset_eq by lia. rewrite clear_buffer_len. by apply Hbl.
  - intros t' Ht'. destruct (decide (t' = t)) as [->|Hne]; [rewrite zget_zset_eq by lia; lia|].
    rewrite zget_zset_ne by lia. by apply Hcnt.
Qed.
Lemma terminal_read_end_ready k buffer l :
  let t := current_term (sched k) in
  term_wf (term k) -> 0 <= t < 3 -> entered t (term k) = Some l -> bytes l -> inj_range k buffer (zlen l + 1) ->
  exists k2, terminal_read_end buffer k = Ret (zlen l + 1) k2 /\
    load_bytes k2 buffer (Z.to_nat (zlen l + 1)) = l ++ [10] /\
    entered t (term k2) = None /\ sched k2 = sched k /\ mmu_of k2 = mmu_of k /\
    forall t', 0 <= t' < 3 -> t' <> t ->
      zget (terminalbuffer (term k2)) t' = zget (terminalbuffer (term k)) t' /\
      zget (numberofchars (term k2)) t' = zget (numberofchars (term k)) t' /\
      zget (term_flags (term k2)) t' = zget (term_flags (term k)) t'.
Proof.
  intros t Hw Ht He Hbytes Hinj. destruct (terminal_read_end_entered k buffer l Hw Ht He) as [Hl Hend].
  destruct Hw as [Hb Hf Hno Hbl Hcnt]. fold t in Hl, Hend. set (n := zget (numberofchars (term k)) t) in *.
  rewrite Hl in *. specialize (Hcnt t Ht). fold n in Hcnt. set (K := store_bytes buffer (l ++ [10]) k) in *.
  assert (term K = term k) as HK by (unfold K; by autorewrite with word).
  exists (read_done t K). split; [exact Hend|split; [|split; [|split; [|split]]]].
  - change (load_bytes (read_done t K)) with (load_bytes K).
    assert (zlen (l ++ [10]) = n + 1) as Hl1 by (rewrite zlen_app; change (zlen [10]) with 1; lia).
    replace (Z.to_nat (n + 1)) with (length (l ++ [10])) by (unfold zlen in Hl1; lia).
    unfold K. rewrite load_bytes_store_bytes.
    + apply fmap_u8_bytes, Forall_app. split; [done|by repeat constructor].
    + rewrite Hl1. exact Hinj.
  - unfold entered, read_done. cbn. rewrite HK, zget_zset_eq by lia. done.
  - change (sched K = sched k). unfold K. by autorewrite with word.
  - change (mmu_of K = mmu_of k). unfold K. by autorewrite with word.
  - intros t' Ht' Hne. unfold read_done. cbn. rewrite HK. by rewrite !zget_zset_ne by lia.
Qed.
Lemma terminal_read_begin_same b n k :
  let k' := terminal_read_begin b n k in
  k' = k <| phys := phys k' |> /\ term k' = term k /\ sched k' = sched k /\ mmu_of k' = mmu_of k.
Proof.
  intros k'. unfold k', terminal_read_begin. rewrite memset_bytes.
  split; [apply store_bytes_phys|]. by autorewrite with word.
Qed.
Lemma terminal_read_ready k fd buffer nbytes l :
  let t := current_term (sched k) in
  let kb := terminal_read_begin buffer nbytes k in
  entered t (term k) = Some l -> terminal_read fd buffer nbytes k = terminal_read_end buffer kb.
Proof.
  intros t kb He. destruct (terminal_read_begin_same buffer nbytes k) as (_ & Ht & Hs & _). fold kb in Ht, Hs.
  unfold terminal_read, entered, get_current_terminal in *. fold kb. rewrite Ht, Hs. fold t.
  by destruct (_ =? 0).
Qed.
Lemma terminal_read_waits k fd b m :
  entered (current_term (sched k)) (term k) = None ->
  terminal_read fd b m k = Wait (terminal_read_begin b m k).
Proof.
  intros He. destruct (terminal_read_begin_same b m k) as (_ & Ht & Hs & _).
  unfold terminal_read, entered, get_current_terminal in *. rewrite Ht, Hs. by destruct (_ =? 0).
Qed.

