(* ===== verification/Filesystem.v ===== *)
(** * The file system: student-distrib/filesystem.c

    The image is read in place, through the kernel's memory: a boot block with 63
    directory entries of 64 bytes, then the inodes (a size and up to 1023 block numbers),
    then the data blocks, all of 4096 bytes.  The definitions follow the code on 32-bit
    values; [file_byte] says what byte [i] of a file is, and [read_data] is proved to
    deliver exactly those.  An out parameter that is a C object ([dentry_t *]) is passed
    and returned by value; no caller passes NULL for it. *)
From S2P Require Import Prelude Machine Lib Paging Devices State Console.

Definition FILE_NAME_SIZE : Z := 32.
Definition FS_BLOCK_SIZE : Z := 4096.
Definition BYTES_IN_INT : Z := 4.
Definition BOOT_BLOCK_SIZE : Z := 64.
Definition BOOT_BLOCK_DIR_ENTRIES : Z := BOOT_BLOCK_SIZE - 2.
Definition NUM_INODES : Z := 64.
Definition MAX_FILE_SIZE : Z := 1023 * FS_BLOCK_SIZE.
Definition MAX_FILE_NUM : Z := 62.
Definition FTYPE_REGULAR : Z := 2.
Definition FILETYPE_INDEX : Z := 1.

(** ** pcb.c *)
Definition PCB_MASK : Z := 0xFFE000.
(** The process control block of the stack the code runs on.  The code masks the address of
    a local; the stack pointer that the model keeps lies in the same 8 kB. *)
Definition get_pcb_address (k : kernel) : Z := Z.land (esp (regs k)) PCB_MASK.
Definition get_pcb (a : Z) (k : kernel) : pcb := default pcb0 (pcbs k !! a).
Definition set_pcb (a : Z) (f : pcb -> pcb) (k : kernel) : kernel := k <| pcbs ::= <[a := f (get_pcb a k)]> |>.
Definition get_fd (a i : Z) (k : kernel) : file_desc := zget (fd_array (get_pcb a k)) i.
Definition set_fd (a i : Z) (f : file_desc -> file_desc) (k : kernel) : kernel :=
  set_pcb a (λ p, p <| fd_array ::= λ l, zset i (f (zget l i)) l |>) k.

Lemma set_fd_ext a i f g k : f (get_fd a i k) = g (get_fd a i k) -> set_fd a i f k = set_fd a i g k.
Proof.
  intros Hfg. unfold set_fd, set_pcb, upd, set_pcbs, set_fd_array. unfold get_fd in Hfg. by rewrite Hfg.
Qed.

(** ** Operations on the image *)
Definition set_mod_start (mod_start : Z) (k : kernel) : Z * kernel :=
  (0, k <| fs ::= λ f, f <| boot_block_addr := mod_start |> |>).

(** The three counters, copied from the boot block by every operation. *)
Definition read_counts (k : kernel) : kernel :=
  let boot := boot_block_addr (fs k) in
  k <| fs ::= λ f, f <| dir_entries := load32 k boot |>
                     <| num_inodes := load32 k (boot + 4) |>
                     <| num_dblocks := load32 k (boot + 8) |> |>.

Definition read_data (inode offset buf length : Z) : prog kernel Z := λ k,
  let len := length in
  if buf =? 0 then Ret (-1) k
  else if length =? 0 then Ret (-1) k
  else
    let len := if MAX_FILE_SIZE <? length then u32 (MAX_FILE_SIZE - offset) else len in
    if MAX_FILE_SIZE <? offset then Ret (-1) k
    else
      let len := if MAX_FILE_SIZE <? u32 (offset + len) then u32 (MAX_FILE_SIZE - offset) else len in
      if boot_block_addr (fs k) =? 0 then Ret (-1) k
      else
        let k := read_counts k in
        if NUM_INODES <? inode then Ret (-1) k
        else
          let inode_start_addr := boot_block_addr (fs k) + FS_BLOCK_SIZE in
          let inode_addr := inode_start_addr + inode * FS_BLOCK_SIZE in
          let dblock_start_addr := inode_start_addr + num_inodes (fs k) * FS_BLOCK_SIZE in
          let inode_file_size := load32 k inode_addr in
          if inode_file_size <? offset then Ret (-1) k
          else
            let len := if inode_file_size <? len then u32 (inode_file_size - offset) else len in
            let len := if inode_file_size <? u32 (offset + len) then u32 (inode_file_size - offset) else len in
            let start_dblock := offset / FS_BLOCK_SIZE in
            let end_dblock := u32 (offset + len) / FS_BLOCK_SIZE in
            (* the address of the block that entry [j] of the inode names *)
            let block_addr j k := dblock_start_addr + load32 k (inode_addr + 4 * (1 + j)) * FS_BLOCK_SIZE in
            if start_dblock =? end_dblock then
              Ret (s32 len) (memcpy (at_ptr (block_addr start_dblock k + offset mod FS_BLOCK_SIZE)) buf len k)
            else
              let bytes_to_copy_in_dblock := FS_BLOCK_SIZE - offset mod FS_BLOCK_SIZE in
              let k := memcpy (at_ptr (block_addr start_dblock k + offset mod FS_BLOCK_SIZE)) buf
                         bytes_to_copy_in_dblock k in
              match while (λ '(j, buf_offset, bytes_remaining, k),
                      if negb (j =? end_dblock) then
                        inl (u32 (j + 1), u32 (buf_offset + FS_BLOCK_SIZE), u32 (bytes_remaining - FS_BLOCK_SIZE),
                             memcpy (at_ptr (block_addr j k)) (buf + buf_offset) FS_BLOCK_SIZE k)
                      else inr (j, buf_offset, bytes_remaining, k))
                      (start_dblock + 1, bytes_to_copy_in_dblock, u32 (len - bytes_to_copy_in_dblock), k) with
              | None => Spin
              | Some (j, buf_offset, bytes_remaining, k) =>
                  let bytes_to_copy_in_dblock := bytes_remaining in
                  let k := memcpy (at_ptr (block_addr j k)) (buf + buf_offset) bytes_to_copy_in_dblock k in
                  let bytes_remaining := u32 (bytes_remaining - bytes_to_copy_in_dblock) in
                  if negb (bytes_remaining =? 0) then
                    (_ ← printf 
                       (Object (text "There is an error as all bytes have not been copied" ++ [10])) [];
                     mret (-1)) k
                  else Ret (s32 len) k
              end.

Definition get_filesize (inode : Z) (k : kernel) : Z :=
  if boot_block_addr (fs k) =? 0 then -1
  else if NUM_INODES <? inode then -1
  else s32 (load32 k (boot_block_addr (fs k) + FS_BLOCK_SIZE + inode * FS_BLOCK_SIZE)).

(** *** Directory entries *)
Definition with_fname (l : list Z) (d : dentry_t) : dentry_t := d <| fname := l |>.

(** The search over the entries after the first: [n] of them left, at index [j]. *)
Fixpoint find_file (n : nat) (fname : charptr) (first_file j : Z) : prog kernel Z :=
  match n with
  | O => mret j
  | S n => λ k,
      (fname_length ← from_loop (strlen (at_ptr (first_file + j * BOOT_BLOCK_SIZE) k));
       let fname_length := if FILE_NAME_SIZE <? fname_length then FILE_NAME_SIZE else fname_length in
       len ← from_loop (strlen (chars fname k));
       if fname_length =? len then
         if strncmp (at_ptr (first_file + j * BOOT_BLOCK_SIZE) k) (chars fname k) len =? 0 then mret j
         else find_file n fname first_file (j + 1)
       else find_file n fname first_file (j + 1)) k
  end.

(** Bytes are copied to [dentry->fname], an array of 32; a longer copy leaves it.  The
    callers pass the address of an entry, which the test for NULL never rejects. *)
Definition read_dentry_by_name (fname_ : charptr) (dentry : dentry_t) : prog kernel (Z * dentry_t) := λ k,
  if is_null fname_ then Ret (-1, dentry) k
  else if boot_block_addr (fs k) =? 0 then Ret (-1, dentry) k
  else
    let k := read_counts k in
    let first_directory := boot_block_addr (fs k) + 4 * 16 in
    match strlen (chars fname_ k) with
    | None => Spin
    | Some len =>
        if strncmp (at_ptr first_directory k) (chars fname_ k) len =? 0 then
          if FILE_NAME_SIZE <? len then Ub
          else
            Ret (0, dentry <| fname := strncpy (at_obj (chars fname_ k)) 0 len (fname dentry) |>
                           <| file_type := 1 |> <| inode_num := 0 |>) k
        else
          let first_file := first_directory + 4 * 16 in
          match find_file (Z.to_nat MAX_FILE_NUM) fname_ first_file 0 k with
          | Ret j k =>
              if j =? MAX_FILE_NUM then Ret (-1, dentry) k
              else
                let entry := first_file + j * BOOT_BLOCK_SIZE in
                Ret (0, dentry <| fname := strncpy (at_obj (chars fname_ k)) 0 FILE_NAME_SIZE (fname dentry) |>
                               <| file_type := u32 (s8 (loadb k (FILE_NAME_SIZE + entry))) |>
                               <| inode_num := u32 (s8 (loadb k (FILE_NAME_SIZE + BYTES_IN_INT + entry))) |>) k
          | Wait k => Wait k
          | Spin => Spin
          | Ub => Ub
          end
    end.

(** [dentry->fname[32] = 0] is the byte after the array: the low byte of [file_type]. *)
Definition read_dentry_by_index (index : Z) (dentry : dentry_t) (k : kernel) : Z * dentry_t * kernel :=
  let k := read_counts k in
  if (BOOT_BLOCK_DIR_ENTRIES <? index) || (dir_entries (fs k) <=? index) then (-1, dentry, k)
  else
    let dentry_addr := boot_block_addr (fs k) + 4 * (16 + index * 16) in
    let d := dentry <| fname := strncpy (at_obj (at_ptr dentry_addr k)) 0 FILE_NAME_SIZE (fname dentry) |> in
    let d := d <| file_type := load32 k (dentry_addr + 32) |> in
    let d := d <| inode_num := load32 k (dentry_addr + 36) |> in
    let d := d <| file_type ::= λ t, t - t mod 256 |> in
    (0, d, k).

(** ** The operations of the table [filetable] *)
Definition fs_open (filename : charptr) : prog kernel Z := λ k,
  match read_dentry_by_name filename (dentry_a (fs k)) k with
  | Ret (r, d) k =>
      let k := k <| fs ::= λ f, f <| dentry_a := d |> |> in
      if r =? -1 then Ret (-1) k else Ret 0 k
  | Wait k => Wait k
  | Spin => Spin
  | Ub => Ub
  end.
Definition fs_close (k : kernel) : Z * kernel := (0, k <| fs ::= λ f, f <| dentry_a := dentry_b f |> |>).

Definition fs_read (fd buf nbytes : Z) : prog kernel Z := λ k,
  if nbytes =? 0 then Ret 0 k
  else if buf =? 0 then Ret (-1) k
  else
    let curr_pcb := get_pcb_address k in
    if curr_pcb =? 0 then Ret (-1) k
    else if negb (in_bounds fd (fd_array (get_pcb curr_pcb k))) then Ub
    else
      let f := get_fd curr_pcb fd k in
      if negb (zget (fd_flags f) FILETYPE_INDEX =? FTYPE_REGULAR) then Ret (-1) k
      else
        let filesize := get_filesize (u32 (fd_inode f)) k in
        if filesize <=? file_pos f then Ret 0 k
        else
          match read_data (u32 (fd_inode f)) (u32 (file_pos f)) buf (u32 nbytes) k with
          | Ret retval k =>
              Ret retval (set_fd curr_pcb fd (λ f, f <| file_pos ::= λ p, s32 (p + retval) |>) k)
          | r => r
          end.
Definition fs_write (fd buf nbytes : Z) (k : kernel) : Z := if nbytes =? 0 then 0 else -1.

(** ** The operations of the table [directorytable] *)

(** The copy loop of [dir_read]: [j] bytes done; it returns [bytes_read]. *)
Definition dir_copy (name : list Z) (buf file_size nbytes : Z) (k : kernel) : option (Z * kernel) :=
  while (λ '(j, k),
    if j <? nbytes then
      let k := storeb (buf + j) (zget name j) k in
      let j := j + 1 in
      if file_size <=? j then inr (file_size, k) else inl (j, k)
    else inr (nbytes, k)) (0, k).

(** [d0] is what the uninitialised local [d] held. *)
Definition dir_read (d0 : dentry_t) (fd buf nbytes : Z) : prog kernel Z := λ k,
  if boot_block_addr (fs k) =? 0 then Ret (-1) k
  else if (fd =? 0) || (fd =? 1) || (7 <? fd) then Ret (-1) k
  else
    let curr_pcb := get_pcb_address k in
    if negb (in_bounds fd (fd_array (get_pcb curr_pcb k))) then Ub
    else
      let '(r, d, k) := read_dentry_by_index (u32 (file_pos (get_fd curr_pcb fd k))) d0 k in
      if r =? -1 then Ret 0 k
      else
        (* the name runs on into the bytes after it when it has no terminator *)
        let bytes_of_d := fname d ++ (u8 <$> bytes32 (file_type d)) in
        match strlen (zget bytes_of_d) with
        | None => Spin
        | Some file_size =>
            match dir_copy bytes_of_d buf file_size nbytes k with
            | None => Spin
            | Some (bytes_read, k) =>
                Ret bytes_read (set_fd curr_pcb fd (λ f, f <| file_pos ::= λ p, s32 (p + 1) |>) k)
            end
        end.
Definition dir_close (k : kernel) : Z * kernel := (0, k <| fs ::= λ f, f <| dentry_a := dentry_b f |> |>).
Definition dir_open (filename : charptr) (k : kernel) : Z := 0.
Definition dir_write (fd buf nbytes : Z) (k : kernel) : Z := 0.

(** ** What the image says *)
Section Image.
Context (k : kernel).
Definition boot : Z := boot_block_addr (fs k).
Definition file_size (inode : Z) : Z := load32 k (boot + 4096 + inode * 4096).
(** The block that entry [j] of the inode names, and byte [i] of the file. *)
Definition block_no (inode j : Z) : Z := load32 k (boot + 4096 + inode * 4096 + 4 * (1 + j)).
Definition data_start : Z := boot + 4096 + load32 k (boot + 4) * 4096.
Definition file_byte (inode i : Z) : Z :=
  loadb k (data_start + block_no inode (i / 4096) * 4096 + i mod 4096).
Definition file_bytes (inode offset n : Z) : list Z :=
  tabulate (Z.to_nat n) (λ i, file_byte inode (offset + i)).
(** The image takes [image_size] bytes from [boot]. *)
Definition image_size : Z := 4096 * (1 + load32 k (boot + 4) + load32 k (boot + 8)).

(** File [inode] is well formed: its size fits, and the blocks that hold its bytes are
    blocks of the image. *)
Record file_wf (inode : Z) : Prop := {
  fw_boot : boot <> 0;
  fw_inode : 0 <= inode < load32 k (boot + 4) /\ inode <= 64;
  fw_size : file_size inode <= MAX_FILE_SIZE;
  fw_blocks : forall i, 0 <= i < file_size inode -> block_no inode (i / 4096) < load32 k (boot + 8)
}.
End Image.

(** The [n] bytes at [buf] are different locations, none of them in the image. *)
Record buffer_ok (k : kernel) (buf n : Z) : Prop := {
  bo_null : buf <> 0;
  bo_inj : inj_range k buf n;
  bo_sep : sep_range k buf n (boot k) (image_size k)
}.
Lemma buffer_ok_le k buf n m : buffer_ok k buf n -> m <= n -> buffer_ok k buf m.
Proof.
  intros [Hn Hi Hs] Hm. split; [done|by apply inj_range_le with n|].
  intros i j Hi' Hj. apply Hs; lia.
Qed.

(** *** The image is stable under stores to such a buffer *)
Section Stable.
Context (k : kernel) (buf n : Z) (Hb : buffer_ok k buf n).
Context (l : list Z) (Hl : zlen l <= n).

Lemma image_byte a : boot k <= a < boot k + image_size k ->
  loadb (store_bytes buf l k) a = loadb k a.
Proof.
  intros Ha. apply loadb_store_bytes_out. intros i Hi.
  replace a with (boot k + (a - boot k)) by lia. apply (bo_sep _ _ _ Hb); lia.
Qed.
Lemma image_word a : boot k <= a -> a + 4 <= boot k + image_size k ->
  load32 (store_bytes buf l k) a = load32 k a.
Proof. intros. unfold load32. by rewrite !image_byte by lia. Qed.
End Stable.

Lemma counts_range k : 0 <= load32 k (boot k + 4) /\ 0 <= load32 k (boot k + 8).
Proof. split; apply load32_range. Qed.
Lemma block_no_range k inode j : 0 <= block_no k inode j.
Proof. apply load32_range. Qed.

Lemma file_bytes_range k inode offset n : bytes (file_bytes k inode offset n).
Proof.
  apply bytes_zget. intros i Hi. unfold file_bytes in *. rewrite zlen_tabulate in Hi.
  rewrite zget_tabulate by lia. apply loadb_range.
Qed.

(** [read_counts] changes no memory. *)
Lemma read_counts_file_bytes k inode offset n :
  file_bytes (read_counts k) inode offset n = file_bytes k inode offset n.
Proof. done. Qed.
Lemma read_counts_idem k : read_counts (read_counts k) = read_counts k.
Proof. done. Qed.

Lemma read_counts_wf k inode : file_wf k inode -> file_wf (read_counts k) inode.
Proof. by intros []. Qed.
Lemma read_counts_buffer k buf n : buffer_ok k buf n -> buffer_ok (read_counts k) buf n.
Proof. by intros []. Qed.

(** *** One block of a file *)
Lemma copy_block k inode buf n c m offset :
  file_wf k inode -> buffer_ok k buf n -> 0 <= offset -> 0 <= c -> 0 <= m -> c + m <= n ->
  (0 < m -> offset + c + m <= file_size k inode) ->
  (offset + c) mod 4096 + m <= 4096 ->
  let K := store_bytes buf (file_bytes k inode offset c) k in
  let j := (offset + c) / 4096 in
  let addr := data_start k + load32 K (boot k + 4096 + inode * 4096 + 4 * (1 + j)) * 4096
              + (offset + c) mod 4096 in
  memcpy (at_ptr addr) (buf + c) m K = store_bytes buf (file_bytes k inode offset (c + m)) k.
Proof.
  intros Hf Hb Ho Hc Hm Hn Hsz Hblk K j addr.
  destruct (decide (m = 0)) as [->|Hm0]; [by rewrite memcpy_0, Z.add_0_r|].
  pose proof (fw_size _ _ Hf) as HS. unfold MAX_FILE_SIZE, FS_BLOCK_SIZE in HS.
  assert (j < 1023) as Hj by (unfold j; Z.div_mod_to_equations; lia).
  destruct (counts_range k) as [Hni Hnd].
  destruct (fw_inode _ _ Hf) as [Hino _].
  assert (zlen (file_bytes k inode offset c) = c) as Hlc by (unfold file_bytes; rewrite zlen_tabulate; lia).
  assert (0 <= j) by (unfold j; apply Z.div_pos; lia).
  assert (addr = data_start k + block_no k inode j * 4096 + (offset + c) mod 4096) as Haddr.
  { unfold addr, block_no, K. do 3 f_equal.
    apply (image_word _ _ _ Hb); [lia|lia|unfold image_size; lia]. }
  assert (block_no k inode j < load32 k (boot k + 8)) as Hno
    by (apply (fw_blocks _ _ Hf); lia).
  pose proof (block_no_range k inode j) as Hno0.
  assert (forall i, 0 <= i < m ->
    boot k <= addr + i < boot k + image_size k) as Hin.
  { intros i Hi. rewrite Haddr. unfold data_start, image_size.
    pose proof (Z.mod_pos_bound (offset + c) 4096). nia. }
  rewrite memcpy_bytes.
  - unfold file_bytes at 1. replace (Z.to_nat (c + m)) with (Z.to_nat c + Z.to_nat m)%nat by lia.
    rewrite tabulate_app, store_bytes_app, zlen_tabulate, Z2Nat.id by lia.
    fold (file_bytes k inode offset c). fold K. f_equal.
    apply tabulate_ext. intros i Hi. unfold at_ptr, K. rewrite Z2Nat.id in Hi by lia.
    rewrite (image_byte _ _ _ Hb) by (lia || by apply Hin). rewrite Haddr. unfold file_byte.
    assert ((offset + (c + i)) / 4096 = j /\ (offset + (c + i)) mod 4096 = (offset + c) mod 4096 + i)
      as [-> ->].
    { unfold j. split; Z.div_mod_to_equations; lia. }
    f_equal. lia.
  - lia.
  - apply stable_at_ptr. intros i i' Hi Hi'. unfold K. rewrite !resolve_store_bytes.
    rewrite <- Z.add_assoc. replace (addr + i') with (boot k + (addr + i' - boot k)) by lia.
    specialize (Hin i' Hi'). apply (bo_sep _ _ _ Hb); lia.
Qed.

(** *** The whole of [read_data] *)
Definition clipped (length offset size : Z) : Z := Z.min length (size - offset).

(** The three corrections of the length. *)
Lemma read_data_length length offset size :
  0 <= offset <= size -> size <= MAX_FILE_SIZE -> 0 < length < 4294967296 ->
  let len := if MAX_FILE_SIZE <? length then u32 (MAX_FILE_SIZE - offset) else length in
  let len := if MAX_FILE_SIZE <? u32 (offset + len) then u32 (MAX_FILE_SIZE - offset) else len in
  let len := if size <? len then u32 (size - offset) else len in
  (if size <? u32 (offset + len) then u32 (size - offset) else len) = clipped length offset size.
Proof.
  unfold MAX_FILE_SIZE, FS_BLOCK_SIZE, clipped. intros Ho Hs Hl. cbv zeta.
  rewrite !(u32_id (_ - offset)) by lia.
  destruct (1023 * 4096 <? length) eqn:?; [rewrite (u32_id (offset + (1023 * 4096 - offset))) by lia
    | rewrite (u32_id (offset + length)) by lia];
  repeat (case_match; try lia); rewrite u32_id in * by lia; lia.
Qed.

Section ReadData.
Context (k : kernel) (inode offset buf n : Z).
Context (Hf : file_wf k inode) (Ho : 0 <= offset) (Hn : 0 <= n) (Hend : offset + n <= file_size k inode).
Context (Hb : buffer_ok k buf n).

Definition copied (c : Z) : kernel := store_bytes buf (file_bytes k inode offset c) k.
Definition block_at (j : Z) (K : kernel) : Z :=
  data_start k + load32 K (boot k + 4096 + inode * 4096 + 4 * (1 + j)) * 4096.

Lemma copied_step c m j s :
  0 <= c -> 0 <= m -> c + m <= n -> (offset + c) / 4096 = j -> (offset + c) mod 4096 = s -> s + m <= 4096 ->
  memcpy (at_ptr (block_at j (copied c) + s)) (buf + c) m (copied c) = copied (c + m).
Proof.
  intros Hc Hm Hcm <- <- Hs. apply (copy_block k inode buf n c m offset); auto; lia.
Qed.

(** The middle blocks. *)
Lemma read_data_loop (first last c0 : Z) :
  first = offset / 4096 -> last = (offset + n) / 4096 -> first < last ->
  c0 = 4096 - offset mod 4096 ->
  while (λ '(j, buf_offset, bytes_remaining, k),
           if negb (j =? last) then
             inl (u32 (j + 1), u32 (buf_offset + FS_BLOCK_SIZE), u32 (bytes_remaining - FS_BLOCK_SIZE),
                  memcpy (at_ptr (block_at j k)) (buf + buf_offset) FS_BLOCK_SIZE k)
           else inr (j, buf_offset, bytes_remaining, k))
    (first + 1, c0, u32 (n - c0), copied c0)
  = let c := c0 + 4096 * (last - first - 1) in Some (last, c, n - c, copied c).
Proof.
  intros Hfst Hlst Hlt Hc0. unfold FS_BLOCK_SIZE.
  pose proof (fw_size _ _ Hf) as HS. unfold MAX_FILE_SIZE, FS_BLOCK_SIZE in HS.
  apply while_count with (n := last - first - 1)
    (f := λ i, (first + 1 + i, c0 + 4096 * i, n - (c0 + 4096 * i), copied (c0 + 4096 * i))).
  - Z.div_mod_to_equations; lia.
  - rewrite Z.mul_0_r, !Z.add_0_r, u32_id; [done|Z.div_mod_to_equations; lia].
  - intros i Hi. replace (first + 1 + i =? last) with false by lia. cbn [negb]. f_equal.
    rewrite (u32_id (first + 1 + i + 1)), (u32_id (c0 + 4096 * i + 4096)), (u32_id (_ - 4096))
      by (Z.div_mod_to_equations; lia).
    rewrite <- (Z.add_0_r (block_at _ _)).
    rewrite (copied_step _ _ (first + 1 + i) 0) by (Z.div_mod_to_equations; lia).
    f_equal; [f_equal; [f_equal; lia|lia]|f_equal; lia].
  - replace (first + 1 + (last - first - 1)) with last by lia. by rewrite Z.eqb_refl.
Qed.
End ReadData.

(** [read_data] on a well-formed file, for every offset and every positive length. *)
Lemma read_data_spec k inode offset buf length :
  let size := file_size k inode in
  let n := clipped length offset size in
  file_wf k inode -> buffer_ok k buf n -> 0 <= offset < 4294967296 -> 0 < length < 4294967296 ->
  read_data inode offset buf length k =
    if size <? offset then Ret (-1) (if MAX_FILE_SIZE <? offset then k else read_counts k)
    else Ret n (store_bytes buf (file_bytes k inode offset n) (read_counts k)).
Proof.
  intros size n Hf Hb Ho Hl. pose proof (bo_null _ _ _ Hb) as Hnull.
  pose proof (fw_size _ _ Hf) as HS. fold size in HS.
  pose proof (fw_boot _ _ Hf) as Hboot. destruct (fw_inode _ _ Hf) as [_ Hino].
  unfold read_data. rewrite (proj2 (Z.eqb_neq buf 0)), (proj2 (Z.eqb_neq length 0)) by lia. cbv zeta.
  destruct (MAX_FILE_SIZE <? offset) eqn:Hmax.
  { by replace (size <? offset) with true by lia. }
  rewrite (proj2 (Z.eqb_neq (boot_block_addr (fs k)) 0)) by done.
  replace (NUM_INODES <? inode) with false by (unfold NUM_INODES; lia).
  set (K := read_counts k).
  change (load32 K (boot_block_addr (fs K) + FS_BLOCK_SIZE + inode * FS_BLOCK_SIZE)) with size.
  destruct (size <? offset) eqn:Hsz; [done|].
  rewrite (read_data_length length offset size) by lia. fold n.
  assert (0 <= n /\ offset + n <= size) as [Hn0 Hend] by (unfold n, clipped; lia).
  rewrite (u32_id (offset + n)) by (unfold MAX_FILE_SIZE, FS_BLOCK_SIZE in HS; lia).
  rewrite (s32_id n) by (unfold MAX_FILE_SIZE, FS_BLOCK_SIZE in HS; lia).
  pose proof (read_counts_wf _ _ Hf) as HfK. pose proof (read_counts_buffer _ _ _ Hb) as HbK.
  fold K in HfK, HbK.
  change (store_bytes buf (file_bytes k inode offset n) K) with (copied K inode offset buf n).
  unfold FS_BLOCK_SIZE. change (boot_block_addr (fs K)) with (boot K).
  change (boot K + 4096 + num_inodes (fs K) * 4096) with (data_start K).
  pose proof (copied_step K inode offset buf n HfK ltac:(lia) Hend HbK) as Hstep.
  assert (forall m, 0 <= m <= n -> offset mod 4096 + m <= 4096 ->
    memcpy (at_ptr (data_start K + load32 K (boot K + 4096 + inode * 4096 + 4 * (1 + offset / 4096)) * 4096
      + offset mod 4096)) buf m K = copied K inode offset buf m) as Hfirst.
  { intros m Hm Hm'. rewrite <- (Z.add_0_l m) at 2.
    rewrite <- (Hstep 0 m (offset / 4096) (offset mod 4096)) by (rewrite ?Z.add_0_r; lia).
    by rewrite Z.add_0_r. }
  destruct (Z.eqb_spec (offset / 4096) ((offset + n) / 4096)) as [Hone|Hmany].
  - rewrite Hfirst by (Z.div_mod_to_equations; lia). done.
  - rewrite Hfirst by (Z.div_mod_to_equations; lia).
    pose proof (read_data_loop K inode offset buf n HfK ltac:(lia) Hend HbK _ _ _ eq_refl eq_refl
      ltac:(Z.div_mod_to_equations; lia) eq_refl) as Hloop.
    unfold block_at, FS_BLOCK_SIZE in Hloop. rewrite Hloop. clear Hloop. cbv zeta.
    set (c := 4096 - offset mod 4096 + 4096 * ((offset + n) / 4096 - offset / 4096 - 1)).
    rewrite Z.sub_diag. cbn [negb Z.eqb].
    pose proof (Hstep c (n - c) ((offset + n) / 4096) 0) as Hlast. unfold block_at in Hlast.
    rewrite Z.add_0_r in Hlast. change (negb (u32 0 =? 0)) with false. cbv iota.
    rewrite Hlast by (unfold c; Z.div_mod_to_equations; lia).
    by replace (c + (n - c)) with n by lia.
Qed.


(** ** Looking a name up *)
Definition entry_addr (k : kernel) (i : Z) : Z := boot k + 64 + i * 64.
Definition entry_byte (k : kernel) (i j : Z) : Z := loadb k (entry_addr k i + j).
(** The bytes before the first 0, at most [n]. *)
Fixpoint name_at (n : nat) (s : Z -> Z) (j : Z) : list Z :=
  match n with
  | O => []
  | S n => if s j =? 0 then [] else s j :: name_at n s (j + 1)
  end.
Definition entry_name (k : kernel) (i : Z) : list Z := name_at 32 (entry_byte k i) 0.

Lemma name_at_zlen n s j : zlen (name_at n s j) <= Z.of_nat n.
Proof.
  revert j. induction n as [|n IH]; intros j; cbn [name_at]; [done|].
  case_match; [unfold zlen; simpl; lia|]. rewrite zlen_cons. specialize (IH (j + 1)). lia.
Qed.
Lemma name_at_bytes n s j : (forall h, 0 <= s h < 256) -> bytes (name_at n s j).
Proof.
  intros Hs. revert j. induction n as [|n IH]; intros j; [by constructor|].
  cbn [name_at]. case_match; constructor; [apply Hs|apply IH].
Qed.
Lemma name_at_nonzero n s j i : 0 <= i < zlen (name_at n s j) -> zget (name_at n s j) i <> 0.
Proof.
  revert j i. induction n as [|n IH]; intros j i Hi; [unfold zlen in Hi; simpl in Hi; lia|].
  cbn [name_at] in *. destruct (Z.eqb_spec (s j) 0) as [|Hne]; [unfold zlen in Hi; simpl in Hi; lia|].
  rewrite zlen_cons in Hi. destruct (decide (i = 0)) as [->|]; [done|].
  rewrite zget_cons_S by lia. apply IH. lia.
Qed.
Lemma name_at_prefix n s j L :
  (forall h, 0 <= h < L -> s (j + h) <> 0) -> 0 <= L -> (L < Z.of_nat n -> s (j + L) = 0) ->
  name_at n s j = tabulate (Z.to_nat (Z.min L (Z.of_nat n))) (λ h, s (j + h)).
Proof.
  revert j L. induction n as [|n IH]; intros j L Hne HL H0.
  { rewrite Z.min_r by lia. done. }
  cbn [name_at]. destruct (decide (L = 0)) as [->|HL0].
  - rewrite Z.add_0_r in H0. rewrite H0, Z.min_l by lia. done.
  - specialize (Hne 0) as Hj. rewrite Z.add_0_r in Hj. rewrite (proj2 (Z.eqb_neq _ _)) by (apply Hj; lia).
    rewrite (IH (j + 1) (L - 1)).
    + replace (Z.to_nat (Z.min L (Z.of_nat (S n)))) with (S (Z.to_nat (Z.min (L - 1) (Z.of_nat n)))) by lia.
      rewrite tabulate_S, Z.add_0_r. f_equal. apply tabulate_ext. intros. f_equal. lia.
    + intros h Hh. replace (j + 1 + h) with (j + (h + 1)) by lia. apply Hne. lia.
    + lia.
    + intros. replace (j + 1 + (L - 1)) with (j + L) by lia. apply H0. lia.
Qed.

(** The test of one entry compares its whole name. *)
Lemma entry_test s f l L :
  (forall j, 0 <= s j < 256) -> (forall j, 0 <= f j < 256) -> cstr f l -> strlen s = Some L ->
  ((if FILE_NAME_SIZE <? L then FILE_NAME_SIZE else L) =? zlen l) && (strncmp s f (zlen l) =? 0)
  = bool_decide (name_at 32 s 0 = l).
Proof.
  intros Rs Rf [Hf _] (HL & HL0 & HLne)%strlen_Some. pose proof (zlen_nonneg l) as Hl.
  rewrite (name_at_prefix 32 s 0 L) by (intros; rewrite ?Z.add_0_l; auto; lia).
  change (Z.of_nat 32) with FILE_NAME_SIZE.
  replace (if FILE_NAME_SIZE <? L then FILE_NAME_SIZE else L) with (Z.min L FILE_NAME_SIZE)
    by (case_match; lia).
  set (n := Z.min L FILE_NAME_SIZE). assert (0 <= n) by (unfold n, FILE_NAME_SIZE; lia).
  symmetry.
  destruct (Z.eqb_spec n (zlen l)) as [Hn|Hn]; cbn [andb].
  - destruct (Z.eqb_spec (strncmp s f (zlen l)) 0) as [Hc|Hc].
    + apply bool_decide_eq_true_2. rewrite strncmp_prefix in Hc by (auto; intros j Hj; by rewrite (proj1 (Hf j Hj)); apply Hf).
      apply zget_ext; rewrite zlen_tabulate; [lia|]. intros i Hi.
      rewrite zget_tabulate, Z.add_0_l, Hc by lia. apply Hf. lia.
    + apply bool_decide_eq_false_2. intros Heq. apply Hc.
      rewrite strncmp_prefix by (auto; intros j Hj; by rewrite (proj1 (Hf j Hj)); apply Hf).
      intros j Hj. rewrite (proj1 (Hf j Hj)), <- Heq, zget_tabulate by lia. by rewrite Z.add_0_l.
  - apply bool_decide_eq_false_2. intros Heq%(f_equal zlen). rewrite zlen_tabulate in Heq. lia.
Qed.

(** Every entry's name ends somewhere (the fields after it hold small numbers). *)
Definition dir_ok (k : kernel) : Prop :=
  forall i, 1 <= i <= 62 -> exists L, strlen (entry_byte k i) = Some L.
(** The string argument: its characters are bytes, and it is terminated. *)
Record string_arg (fname : charptr) (k : kernel) (l : list Z) : Prop := {
  sa_null : is_null fname = false;
  sa_bytes : forall j, 0 <= chars fname k j < 256;
  sa_cstr : cstr (chars fname k) l;
  sa_len : zlen l < 4294967296
}.

(** A literal is a string argument. *)
Definition plain (l : list Z) : Prop := Forall (λ b, 0 < b < 256) l.
Lemma plain_zget l i : plain l -> 0 <= i < zlen l -> 0 < zget l i < 256.
Proof.
  intros Hl Hi. unfold zget. apply (Forall_lookup_total_1 _ _ _ Hl). unfold zlen in Hi. lia.
Qed.
Lemma bytes_any l i : bytes l -> 0 <= zget l i < 256.
Proof.
  intros Hl. destruct (decide (Z.to_nat i < length l)%nat) as [Hi|Hi].
  - unfold zget. apply (Forall_lookup_total_1 _ _ _ Hl Hi).
  - unfold zget. rewrite list_lookup_total_alt, lookup_ge_None_2 by lia. by vm_compute.
Qed.
Lemma plain_bytes l : plain l -> bytes l.
Proof. intros Hl. eapply Forall_impl; [exact Hl|]. cbn. lia. Qed.
Lemma object_string l k : plain l -> zlen l < 4294967296 -> string_arg (Object l) k l.
Proof.
  intros Hl Hlen. split; [done| | |done]; cbn; unfold at_obj.
  - intros j. apply bytes_any, Forall_app. split; [by apply plain_bytes|by repeat constructor].
  - split.
    + intros i Hi. rewrite zget_app_l by done. pose proof (plain_zget _ _ Hl Hi). split; [done|lia].
    + by rewrite zget_app_r, Z.sub_diag by lia.
Qed.

Lemma entry_byte_range k i j : 0 <= entry_byte k i j < 256.
Proof. apply loadb_range. Qed.

Lemma find_file_step n fname k l j :
  boot k <> 0 -> string_arg fname k l -> dir_ok k -> 0 <= j < 62 ->
  find_file (S n) fname (boot k + 128) j k =
    if decide (entry_name k (j + 1) = l) then Ret j k else find_file n fname (boot k + 128) (j + 1) k.
Proof.
  intros Hb [Hn Hr Hc Hl] Hd Hj. destruct (Hd (j + 1)) as [L HL]; [lia|].
  assert (forall h, at_ptr (boot k + 128 + j * BOOT_BLOCK_SIZE) k h = entry_byte k (j + 1) h) as Hs.
  { intros h. unfold at_ptr, entry_byte, entry_addr, BOOT_BLOCK_SIZE. f_equal. lia. }
  cbn [find_file]. replace (at_ptr (boot k + 128 + j * BOOT_BLOCK_SIZE) k) with (entry_byte k (j + 1)).
  2: { unfold at_ptr, entry_byte, entry_addr, BOOT_BLOCK_SIZE. replace (boot k + 64 + (j + 1) * 64) with (boot k + 128 + j * 64) by lia. done. }
  rewrite HL, (strlen_cstr _ _ Hc Hl). cbn [from_loop]. pstep.
  pose proof (entry_test _ _ _ _ (entry_byte_range k (j + 1)) Hr Hc HL) as Ht.
  fold (entry_name k (j + 1)) in Ht.
  case_decide as He.
  - rewrite bool_decide_eq_true_2 in Ht by done. apply andb_prop in Ht as [-> ->]. done.
  - rewrite bool_decide_eq_false_2 in Ht by done.
    destruct (_ =? zlen l); [|done]. cbn [andb] in Ht. by rewrite Ht.
Qed.

Lemma find_file_first n fname k l j i :
  boot k <> 0 -> string_arg fname k l -> dir_ok k -> 0 <= j -> j + Z.of_nat n <= 62 ->
  j <= i < j + Z.of_nat n -> entry_name k (i + 1) = l ->
  (forall h, j <= h < i -> entry_name k (h + 1) <> l) ->
  find_file n fname (boot k + 128) j k = Ret i k.
Proof.
  intros Hb Hs Hd. revert j. induction n as [|n IH]; intros j Hj Hn Hi He Hne; [lia|].
  rewrite (find_file_step n fname k l) by (assumption || lia). case_decide as Hj1.
  - destruct (decide (i = j)) as [->|]; [done|]. destruct (Hne j); [lia|done].
  - destruct (decide (i = j)) as [->|]; [done|]. apply IH; try assumption; [lia..|].
    intros. apply Hne. lia.
Qed.
Lemma find_file_none n fname k l j :
  boot k <> 0 -> string_arg fname k l -> dir_ok k -> 0 <= j -> j + Z.of_nat n <= 62 ->
  (forall h, j <= h < j + Z.of_nat n -> entry_name k (h + 1) <> l) ->
  find_file n fname (boot k + 128) j k = Ret (j + Z.of_nat n) k.
Proof.
  intros Hb Hs Hd. revert j. induction n as [|n IH]; intros j Hj Hn Hne.
  - by rewrite Z.add_0_r.
  - rewrite (find_file_step n fname k l) by (assumption || lia). rewrite decide_False by (apply Hne; lia).
    rewrite IH by (lia || (intros; apply Hne; lia)). f_equal. lia.
Qed.

Lemma read_counts_string fname k l : string_arg fname k l -> string_arg fname (read_counts k) l.
Proof. intros [? Hr Hc ?]. by destruct fname; split. Qed.
Lemma read_counts_dir k : dir_ok k -> dir_ok (read_counts k).
Proof. done. Qed.

(** The name [strncpy] leaves in the 32 bytes of an entry. *)
Lemma dentry_name k fname d l :
  string_arg fname k l -> zlen (State.fname d) = 32 -> zlen l <= 32 ->
  strncpy (at_obj (chars fname k)) 0 FILE_NAME_SIZE (State.fname d) = l ++ replicate (32 - length l) 0.
Proof.
  intros [_ Hr Hc Hl] Hd Hl32. rewrite strncpy_bytes by (done || by apply stable_at_obj).
  change (at_obj (chars fname k) (State.fname d)) with (chars fname k).
  change (Z.to_nat FILE_NAME_SIZE) with 32%nat.
  rewrite (strncpy_result_cstr 32 _ l 0).
  - rewrite array_store_all.
    + rewrite fmap_app, fmap_replicate, take_ge by (unfold zlen in *; lia).
      f_equal. apply zget_ext; rewrite zlen_fmap; [done|]. intros i Hi. rewrite zget_fmap by done.
      rewrite <- (proj1 (proj1 Hc i Hi)). apply u8_id, Hr.
    + unfold zlen in *. rewrite length_app, length_take, length_replicate. lia.
  - intros j Hj. rewrite Z.add_0_l. by apply Hc.
  - intros _. rewrite Z.add_0_l. apply Hc.
Qed.

(** The test of the first entry: is the string a prefix of its bytes? *)
Definition is_directory (k : kernel) (l : list Z) : Prop := forall j, 0 <= j < zlen l -> entry_byte k 0 j = zget l j.

Section Lookup.
Context (k : kernel) (fname : charptr) (d : dentry_t) (l : list Z).
Context (Hb : boot k <> 0) (Hs : string_arg fname k l) (Hd : dir_ok k).
Context (Hfd : zlen (State.fname d) = 32) (Hl32 : zlen l <= 32).
Let K := read_counts k.

Lemma first_entry_test :
  strncmp (at_ptr (boot K + 64) K) (chars fname K) (zlen l) = 0 <-> is_directory k l.
Proof.
  pose proof (read_counts_string _ _ _ Hs) as HsK.
  pose proof (sa_cstr _ _ _ HsK) as Hc. pose proof (sa_bytes _ _ _ HsK) as Hr. fold K in Hc, Hr.
  rewrite strncmp_prefix.
  - unfold is_directory. split; intros H j Hj.
    + rewrite <- (proj1 (proj1 Hc j Hj)). rewrite <- H by done.
      unfold at_ptr, entry_byte, entry_addr. by rewrite Z.mul_0_l, Z.add_0_r.
    + rewrite (proj1 (proj1 Hc j Hj)). rewrite <- H by done.
      unfold at_ptr, entry_byte, entry_addr. by rewrite Z.mul_0_l, Z.add_0_r.
  - intros. apply loadb_range.
  - done.
  - apply zlen_nonneg.
  - intros j Hj. rewrite (proj1 (proj1 Hc j Hj)). by apply Hc.
Qed.

Lemma read_dentry_by_name_cases :
  read_dentry_by_name fname d k =
  if strncmp (at_ptr (boot K + 64) K) (chars fname K) (zlen l) =? 0 then
    if FILE_NAME_SIZE <? zlen l then Ub
    else Ret (0, d <| State.fname := strncpy (at_obj (chars fname K)) 0 (zlen l) (State.fname d) |>
              <| file_type := 1 |> <| inode_num := 0 |>) K
  else
    match find_file 62 fname (boot K + 128) 0 K with
    | Ret j k =>
        if j =? 62 then Ret (-1, d) k
        else
          let entry := boot K + 128 + j * BOOT_BLOCK_SIZE in
          Ret (0, d <| State.fname := strncpy (at_obj (chars fname k)) 0 FILE_NAME_SIZE (State.fname d) |>
                    <| file_type := u32 (s8 (loadb k (FILE_NAME_SIZE + entry))) |>
                    <| inode_num := u32 (s8 (loadb k (FILE_NAME_SIZE + BYTES_IN_INT + entry))) |>) k
    | Wait k => Wait k
    | Spin => Spin
    | Ub => Ub
    end.
Proof.
  pose proof (read_counts_string _ _ _ Hs) as HsK. fold K in HsK.
  unfold read_dentry_by_name. rewrite (sa_null _ _ _ Hs).
  rewrite (proj2 (Z.eqb_neq (boot_block_addr (fs k)) 0)) by done. fold K. cbv zeta.
  rewrite (strlen_cstr _ _ (sa_cstr _ _ _ HsK) (sa_len _ _ _ HsK)).
  change (boot_block_addr (fs K)) with (boot K). change (4 * 16) with 64.
  replace (boot K + 64 + 64) with (boot K + 128) by lia. done.
Qed.

(** The directory's own entry, a file, and no file of that name. *)
Lemma read_dentry_by_name_directory :
  is_directory k l -> exists d', read_dentry_by_name fname d k = Ret (0, d') K /\
    file_type d' = 1 /\ inode_num d' = 0.
Proof.
  intros Hy%first_entry_test. rewrite read_dentry_by_name_cases, Hy. cbn [Z.eqb].
  replace (FILE_NAME_SIZE <? zlen l) with false by (unfold FILE_NAME_SIZE; lia). by eexists.
Qed.
Lemma read_dentry_by_name_file i :
  ~ is_directory k l -> 1 <= i <= 62 -> entry_name k i = l -> (forall j, 1 <= j < i -> entry_name k j <> l) ->
  read_dentry_by_name fname d k =
    Ret (0, Dentry (l ++ replicate (32 - length l) 0) (u32 (s8 (entry_byte k i 32)))
              (u32 (s8 (entry_byte k i 36))) (reserved d)) K.
Proof.
  pose proof (read_counts_string _ _ _ Hs) as HsK. pose proof (read_counts_dir _ Hd) as HdK.
  fold K in HsK, HdK. assert (boot K <> 0) as HbK by done.
  intros Hno Hi He Hfirst. rewrite read_dentry_by_name_cases.
  rewrite (proj2 (Z.eqb_neq _ _)) by (by rewrite first_entry_test).
  rewrite (find_file_first 62 fname K l 0 (i - 1));
    [|assumption..|lia|lia|lia|by rewrite Z.sub_add|].
  - replace (i - 1 =? 62) with false by lia. cbv zeta. rewrite (dentry_name K fname d l) by done.
    assert (forall c, loadb K (c + (boot K + 128 + (i - 1) * BOOT_BLOCK_SIZE)) = entry_byte k i c) as Hbyte.
    { intros c. change (loadb K ?a) with (loadb k a). unfold entry_byte, entry_addr, BOOT_BLOCK_SIZE.
      change (boot K) with (boot k). f_equal. lia. }
    rewrite !Hbyte. done.
  - intros h Hh. apply Hfirst. lia.
Qed.
Lemma read_dentry_by_name_none :
  ~ is_directory k l -> (forall i, 1 <= i <= 62 -> entry_name k i <> l) ->
  read_dentry_by_name fname d k = Ret (-1, d) K.
Proof.
  pose proof (read_counts_string _ _ _ Hs) as HsK. pose proof (read_counts_dir _ Hd) as HdK.
  fold K in HsK, HdK. assert (boot K <> 0) as HbK by done.
  intros Hno Hnone. rewrite read_dentry_by_name_cases, (proj2 (Z.eqb_neq _ _)) by (by rewrite first_entry_test).
  rewrite (find_file_none 62 fname K l 0); [reflexivity|assumption..|lia|lia|].
  intros h Hh. apply Hnone. lia.
Qed.
End Lookup.

(** C32. [read_dentry_by_name] for a string [l].  When [l] is a prefix of the first entry's
    bytes (so for the empty string too) it reports the directory.  Otherwise it reports
    the first of the entries 1 to 62 whose whole name is [l], with the name padded to 32
    bytes and the type and inode number taken from one signed byte each; when there is
    none it returns -1 and leaves the argument alone. *)
Theorem read_dentry_by_name_finds k fname d l :
  boot k <> 0 -> string_arg fname k l -> dir_ok k -> zlen (State.fname d) = 32 -> zlen l <= 32 ->
  let directory := is_directory k l in
  (directory -> exists d', read_dentry_by_name fname d k = Ret (0, d') (read_counts k) /\
     file_type d' = 1 /\ inode_num d' = 0) /\
  (~ directory -> forall i, 1 <= i <= 62 -> entry_name k i = l ->
     (forall j, 1 <= j < i -> entry_name k j <> l) ->
     read_dentry_by_name fname d k =
       Ret (0, Dentry (l ++ replicate (32 - length l) 0) (u32 (s8 (entry_byte k i 32)))
                 (u32 (s8 (entry_byte k i 36))) (reserved d)) (read_counts k)) /\
  (~ directory -> (forall i, 1 <= i <= 62 -> entry_name k i <> l) ->
     read_dentry_by_name fname d k = Ret (-1, d) (read_counts k)).
Proof.
  intros Hb Hs Hd Hfd Hl32 directory. split; [|split].
  - by apply read_dentry_by_name_directory.
  - intros. by apply read_dentry_by_name_file.
  - by apply read_dentry_by_name_none.
Qed.

(** ** Entries by index *)
Lemma strncpy_result_name n s j :
  strncpy_result n s j = name_at n s j ++ replicate (n - length (name_at n s j)) 0.
Proof.
  revert j. induction n as [|n IH]; intros j; [done|]. cbn [strncpy_result name_at].
  case_match; [done|]. by rewrite IH.
Qed.

(** [read_dentry_by_index] accepts the indices below the entry count and up to 62.  It
    delivers the entry's name, padded to 32 bytes, and its inode number; the terminator it
    then writes behind the 32 bytes clears the low byte of the type, which is 0 for every
    type the file system has.  Any other index gives -1 and the argument unchanged. *)
Lemma read_dentry_by_index_entry k index d :
  0 <= index -> zlen (State.fname d) = 32 ->
  let entry32 o := load32 k (entry_addr k index + o) in
  let name := entry_name k index in
  read_dentry_by_index index d k =
    if decide (index <= 62 /\ index < load32 k (boot k)) then
      (0, Dentry (name ++ replicate (32 - length name) 0)
            (entry32 32 - entry32 32 mod 256) (entry32 36) (reserved d), read_counts k)
    else (-1, d, read_counts k).
Proof.
  intros Hi Hd entry32 name. unfold read_dentry_by_index. cbv zeta. set (K := read_counts k).
  change (dir_entries (fs K)) with (load32 k (boot k)).
  change BOOT_BLOCK_DIR_ENTRIES with 62.
  case_decide as Hc.
  - replace ((62 <? index) || (load32 k (boot k) <=? index)) with false by lia.
    replace (boot_block_addr (fs K) + 4 * (16 + index * 16)) with (entry_addr k index)
      by (unfold entry_addr; change (boot_block_addr (fs K)) with (boot k); lia).
    rewrite strncpy_bytes by (done || by apply stable_at_obj).
    change (at_obj (at_ptr (entry_addr k index) K) (State.fname d)) with (entry_byte k index).
    change (Z.to_nat FILE_NAME_SIZE) with 32%nat. rewrite strncpy_result_name. fold (entry_name k index).
    fold name. rewrite array_store_all.
    + rewrite fmap_u8_bytes; [by destruct d|]. apply Forall_app; split.
      * apply name_at_bytes, entry_byte_range.
      * apply Forall_replicate. lia.
    + rewrite Hd, zlen_app, zlen_replicate. pose proof (name_at_zlen 32 (entry_byte k index) 0) as Hn.
      fold (entry_name k index) in Hn. fold name in Hn. unfold zlen in *. lia.
  - by replace ((62 <? index) || (load32 k (boot k) <=? index)) with true by lia.
Qed.

(** ** Reading a file through a descriptor *)
(** Two states with the same image have the same files. *)
Record same_image (k K : kernel) : Prop := {
  si_boot : boot K = boot k;
  si_bytes : forall a, boot k <= a < boot k + image_size k -> loadb K a = loadb k a
}.
Lemma same_image_word k K a :
  same_image k K -> boot k <= a -> a + 4 <= boot k + image_size k -> load32 K a = load32 k a.
Proof. intros [_ Hb] ??. unfold load32. by rewrite !Hb by lia. Qed.
Lemma same_image_size k K : same_image k K -> image_size K = image_size k.
Proof.
  intros Hs. pose proof (counts_range k) as [??]. unfold image_size. rewrite (si_boot _ _ Hs).
  by rewrite !(same_image_word _ _ _ Hs) by (unfold image_size; lia).
Qed.
Lemma same_image_trans k1 k2 k3 : same_image k1 k2 -> same_image k2 k3 -> same_image k1 k3.
Proof.
  intros H12 [B23 M23]. pose proof (same_image_size _ _ H12) as Hs. destruct H12 as [B12 M12].
  split; [by rewrite B23|]. intros a Ha. rewrite M23 by (rewrite B12, Hs; lia). by apply M12.
Qed.
Lemma same_image_file k K inode :
  same_image k K -> file_wf k inode -> file_wf K inode /\
  file_size K inode = file_size k inode /\
  forall i, 0 <= i < file_size k inode -> file_byte K inode i = file_byte k inode i.
Proof.
  intros Hs Hf. pose proof (si_boot _ _ Hs) as HB. pose proof (same_image_word k K) as HW.
  pose proof (counts_range k) as [Hni Hnd]. destruct (fw_inode _ _ Hf) as [Hino Hino64].
  pose proof (fw_size _ _ Hf) as HS. unfold MAX_FILE_SIZE, FS_BLOCK_SIZE in HS.
  assert (load32 K (boot k + 4) = load32 k (boot k + 4)) as H4 by (apply HW; [done|lia|unfold image_size; lia]).
  assert (load32 K (boot k + 8) = load32 k (boot k + 8)) as H8 by (apply HW; [done|lia|unfold image_size; lia]).
  assert (file_size K inode = file_size k inode) as HFS
    by (unfold file_size; rewrite HB; apply HW; [done|lia|unfold image_size; lia]).
  assert (forall i, 0 <= i < file_size k inode ->
    block_no K inode (i / 4096) = block_no k inode (i / 4096)) as HBN.
  { intros i Hi. unfold block_no. rewrite HB. apply HW; [done|..];
      unfold image_size; Z.div_mod_to_equations; lia. }
  split; [|split; [done|]].
  - destruct Hf as [Hboot Hi HSz Hbl]. split; rewrite ?HB, ?H4, ?HFS; try assumption.
    intros i Hi'. rewrite H8, HBN by done. by apply Hbl.
  - intros i Hi. unfold file_byte, data_start. rewrite HB, H4, HBN by done.
    apply (si_bytes _ _ Hs).
    pose proof (fw_blocks _ _ Hf i Hi). pose proof (block_no_range k inode (i / 4096)).
    pose proof (Z.mod_pos_bound i 4096). unfold image_size. nia.
Qed.
Lemma same_image_bytes k K inode pos n :
  same_image k K -> file_wf k inode -> 0 <= pos -> pos + n <= file_size k inode ->
  file_bytes K inode pos n = file_bytes k inode pos n.
Proof.
  intros Hs Hf Hp Hn. apply tabulate_ext. intros i Hi.
  apply (same_image_file _ _ _ Hs Hf). lia.
Qed.
Lemma same_image_store k buf n l :
  buffer_ok k buf n -> zlen l <= n -> same_image k (store_bytes buf l k).
Proof.
  intros Hb Hl. split; [unfold boot; by autorewrite with word|]. intros a Ha. by apply (image_byte _ _ _ Hb).
Qed.

Lemma store_file_wf k buf n l inode :
  file_wf k inode -> buffer_ok k buf n -> zlen l <= n -> file_wf (store_bytes buf l k) inode /\
  image_size (store_bytes buf l k) = image_size k /\ boot (store_bytes buf l k) = boot k /\
  file_size (store_bytes buf l k) inode = file_size k inode /\
  forall i, 0 <= i < file_size k inode -> file_byte (store_bytes buf l k) inode i = file_byte k inode i.
Proof.
  intros Hf Hb Hl. pose proof (same_image_store k buf n l Hb Hl) as Hs.
  destruct (same_image_file _ _ inode Hs Hf) as (Hw & Hsz & Hby).
  split; [done|]. split; [by apply same_image_size|]. split; [apply Hs|]. by split.
Qed.

(** What a read of [n] bytes leaves: the bytes, and everything else as it was. *)
(** The static variables but the three counts. *)
Definition same_statics (k K : kernel) : Prop :=
  boot_block_addr (fs K) = boot_block_addr (fs k) /\ dentry_a (fs K) = dentry_a (fs k) /\ dentry_b (fs K) = dentry_b (fs k).
Lemma same_statics_trans k1 k2 k3 : same_statics k1 k2 -> same_statics k2 k3 -> same_statics k1 k3.
Proof. unfold same_statics. intuition congruence. Qed.
Record fetched (inode offset buf n : Z) (k K : kernel) : Prop := {
  fe_bytes : load_bytes K buf (Z.to_nat n) = file_bytes k inode offset n;
  fe_rest : K = k <| phys := phys K |> <| fs := fs K |>;
  fe_image : same_image k K;
  fe_out : forall p, (forall i, 0 <= i < n -> resolve k (buf + i) <> p) -> phys K !! p = phys k !! p;
  fe_statics : same_statics k K
}.
Lemma read_data_fetches k inode offset buf length :
  let n := clipped length offset (file_size k inode) in
  file_wf k inode -> buffer_ok k buf n -> 0 <= offset <= file_size k inode -> 0 < length < 4294967296 ->
  exists K, read_data inode offset buf length k = Ret n K /\ fetched inode offset buf n k K.
Proof.
  intros n Hf Hb Ho Hl. pose proof (fw_size _ _ Hf) as HS. unfold MAX_FILE_SIZE, FS_BLOCK_SIZE in HS.
  rewrite (read_data_spec k inode offset buf length) by (done || lia). fold n.
  replace (file_size k inode <? offset) with false by lia.
  assert (0 <= n) as Hn by (unfold n, clipped; lia).
  set (l := file_bytes k inode offset n).
  assert (zlen l = n) as Hzl by (unfold l, file_bytes; rewrite zlen_tabulate; lia).
  exists (store_bytes buf l (read_counts k)). split; [done|]. split.
  - replace (Z.to_nat n) with (List.length l) by (unfold zlen in Hzl; lia).
    rewrite load_bytes_store_bytes; [apply fmap_u8_bytes, file_bytes_range|rewrite Hzl; apply (bo_inj _ _ _ Hb)].
  - rewrite store_bytes_phys at 1. autorewrite with word. reflexivity.
  - apply same_image_trans with (read_counts k); [by split|].
    apply same_image_store with n; [by apply read_counts_buffer|lia].
  - intros p Hp. change (phys k) with (phys (read_counts k)). apply phys_store_out. rewrite Hzl. exact Hp.
  - unfold same_statics. by autorewrite with word.
Qed.

(** C5. [read_data] on a well-formed file, for every offset and every positive length:
    an offset past the end gives -1 and changes no memory.  Otherwise it returns [n], the number of
    bytes asked for or left after the offset, whichever is less - the comment on the function
    promises 0, or the number of bytes not copied, see the findings; afterwards the buffer
    holds the bytes [offset .. offset+n-1] of the file, which may come from any number of
    blocks, no other location has changed, and the file is the same as before. *)
Theorem read_data_correct k inode offset buf length :
  let size := file_size k inode in
  let n := clipped length offset size in
  file_wf k inode -> buffer_ok k buf n -> 0 <= offset < 4294967296 -> 0 < length < 4294967296 ->
  exists k',
    read_data inode offset buf length k = Ret (if size <? offset then -1 else n) k' /\
    (offset <= size -> load_bytes k' buf (Z.to_nat n) = file_bytes k inode offset n) /\
    (forall a, (offset <= size -> forall i, 0 <= i < n -> resolve k (buf + i) <> resolve k a) ->
       loadb k' a = loadb k a) /\
    file_size k' inode = size /\
    (forall i, 0 <= i < size -> file_byte k' inode i = file_byte k inode i).
Proof.
  intros size n Hf Hb Ho Hl. rewrite (read_data_spec k inode offset buf length) by assumption.
  fold size n. destruct (Z.ltb_spec size offset) as [Hs|Hs].
  - exists (if MAX_FILE_SIZE <? offset then k else read_counts k).
    destruct (MAX_FILE_SIZE <? offset); (split; [done|]; split; [lia|done]).
  - set (l := file_bytes k inode offset n).
    assert (0 <= n) as Hn by (unfold n, clipped; lia).
    assert (zlen l = n) as Hzl by (unfold l, file_bytes; rewrite zlen_tabulate; lia).
    exists (store_bytes buf l (read_counts k)). split; [done|].
    destruct (store_file_wf (read_counts k) buf n l inode) as (_ & _ & _ & HsK & HyK);
      [by apply read_counts_wf|by apply read_counts_buffer|lia|].
    split; [|split; [|split; [exact HsK|exact HyK]]].
    + intros _. replace (Z.to_nat n) with (List.length l) by (unfold zlen in Hzl; lia).
      rewrite load_bytes_store_bytes; [|rewrite Hzl; apply (bo_inj _ _ _ Hb)].
      apply fmap_u8_bytes, file_bytes_range.
    + intros a Ha. rewrite loadb_store_bytes_out; [done|]. rewrite Hzl. by apply Ha.
Qed.

(** Descriptor [fd] of the running process reads file [inode] at [pos]; up to [B] bytes
    go to [buf]. *)
Record reading (fd inode pos buf B : Z) (k : kernel) : Prop := {
  rd_pcb : get_pcb_address k <> 0;
  rd_fd : in_bounds fd (fd_array (get_pcb (get_pcb_address k) k)) = true;
  rd_type : zget (fd_flags (get_fd (get_pcb_address k) fd k)) FILETYPE_INDEX = FTYPE_REGULAR;
  rd_inode : u32 (fd_inode (get_fd (get_pcb_address k) fd k)) = inode;
  rd_pos : file_pos (get_fd (get_pcb_address k) fd k) = pos;
  rd_pos_range : 0 <= pos < 2147483648;
  rd_file : file_wf k inode;
  rd_buf : buffer_ok k buf B
}.

(** The state after one read of [n] bytes at [pos]. *)
Definition after_read (fd inode pos buf n : Z) (k : kernel) : kernel :=
  set_fd (get_pcb_address k) fd (λ f, f <| file_pos ::= λ p, s32 (p + n) |>)
    (store_bytes buf (file_bytes k inode pos n) (read_counts k)).

Lemma get_filesize_size k inode :
  file_wf k inode -> get_filesize inode k = file_size k inode.
Proof.
  intros [Hb [_ Hi] Hs _]. unfold get_filesize. fold (boot k).
  rewrite (proj2 (Z.eqb_neq _ _)) by done. replace (NUM_INODES <? inode) with false by (unfold NUM_INODES; lia).
  unfold file_size, FS_BLOCK_SIZE in *. apply s32_id.
  pose proof (load32_range k (boot k + 4096 + inode * 4096)). unfold MAX_FILE_SIZE, FS_BLOCK_SIZE in Hs. lia.
Qed.

(** [fs_read] of [nbytes] on an open regular file: at the end of the file it returns 0
    and changes nothing; before it, it stores the next [min nbytes (size - pos)] bytes of
    the file at [buf], advances the position by that number and returns it. *)
Lemma fs_read_advances k fd inode pos buf B nbytes :
  reading fd inode pos buf B k -> 0 < nbytes <= B -> nbytes < 2147483648 ->
  let size := file_size k inode in
  let n := clipped nbytes pos size in
  fs_read fd buf nbytes k =
    if size <=? pos then Ret 0 k else Ret n (after_read fd inode pos buf n k).
Proof.
  intros [Hp Hfd Ht Hi Hpos Hpr Hf Hb] Hn Hn31 size n. unfold fs_read.
  rewrite (proj2 (Z.eqb_neq nbytes 0)), (proj2 (Z.eqb_neq buf 0)), (proj2 (Z.eqb_neq (get_pcb_address k) 0))
    by (done || lia || apply (bo_null _ _ _ Hb)).
  rewrite Hfd, Ht, Hi, Hpos. cbn [negb Z.eqb FTYPE_REGULAR Pos.eqb].
  rewrite (get_filesize_size _ _ Hf). fold size. destruct (size <=? pos) eqn:Hend; [done|].
  rewrite (u32_id pos), (u32_id nbytes) by lia.
  rewrite (read_data_spec k inode pos buf nbytes Hf); 
    [|apply buffer_ok_le with B; [done|unfold clipped; lia]|lia|lia].
  fold size. replace (size <? pos) with false by lia. done.
Qed.

(** *** A file read in pieces *)

(** Reads of the given sizes, one after the other, into the same buffer; the bytes each
    one left there. *)
Fixpoint reads (fd buf : Z) (ns : list Z) : prog kernel (list Z) :=
  match ns with
  | [] => mret []
  | n :: ns =>
      r ← fs_read fd buf n;
      chunk ← get (λ k, load_bytes k buf (Z.to_nat r));
      rest ← reads fd buf ns;
      mret (chunk ++ rest)
  end.

Lemma after_read_reading fd inode pos buf B n k :
  reading fd inode pos buf B k -> 0 <= n <= B -> pos + n <= file_size k inode ->
  let k' := after_read fd inode pos buf n k in
  reading fd inode (pos + n) buf B k' /\ file_size k' inode = file_size k inode /\
  (forall i, 0 <= i < file_size k inode -> file_byte k' inode i = file_byte k inode i) /\
  load_bytes k' buf (Z.to_nat n) = file_bytes k inode pos n.
Proof.
  intros [Hp Hfd Ht Hi Hpos Hpr Hf Hb] Hn Hend k'.
  set (l := file_bytes k inode pos n). assert (zlen l = n) as Hl
    by (unfold l, file_bytes; rewrite zlen_tabulate; lia).
  set (K := store_bytes buf l (read_counts k)).
  destruct (store_file_wf (read_counts k) buf B l inode) as (HfK & HiK & HbK & HsK & HyK);
    [by apply read_counts_wf|by apply read_counts_buffer|lia|]. fold K in HfK, HiK, HbK, HsK, HyK.
  assert (get_pcb_address K = get_pcb_address k) as HaK
    by (unfold get_pcb_address, K; by autorewrite with word).
  assert (pcbs K = pcbs k) as HpK by (unfold K; by autorewrite with word).
  set (a := get_pcb_address k) in *.
  assert (k' = set_fd a fd (λ f, f <| file_pos ::= λ p, s32 (p + n) |>) K) as Hk' by done.
  assert (get_fd a fd k' = (get_fd a fd k) <| file_pos ::= λ p, s32 (p + n) |>) as Hfd'.
  { rewrite Hk'. unfold get_fd at 1, get_pcb. cbn. rewrite lookup_insert_eq. cbn.
    rewrite zget_zset_eq by (apply in_bounds_spec; unfold get_pcb in *; by rewrite HpK).
    unfold get_fd, get_pcb. by rewrite HpK. }
  pose proof (fw_size _ _ Hf) as HS. unfold MAX_FILE_SIZE, FS_BLOCK_SIZE in HS.
  split; [|split; [exact HsK|split; [exact HyK|]]].
  - split.
    + change (get_pcb_address k') with (get_pcb_address K). by rewrite HaK.
    + change (get_pcb_address k') with (get_pcb_address K). rewrite HaK, Hk'. unfold get_pcb. cbn.
      rewrite lookup_insert_eq. cbn. apply in_bounds_spec. rewrite zlen_zset.
      apply in_bounds_spec. unfold get_pcb in *. by rewrite HpK.
    + change (get_pcb_address k') with (get_pcb_address K). by rewrite HaK, Hfd'.
    + change (get_pcb_address k') with (get_pcb_address K). by rewrite HaK, Hfd'.
    + change (get_pcb_address k') with (get_pcb_address K). rewrite HaK, Hfd'. cbn. rewrite Hpos. apply s32_id. lia.
    + lia.
    + destruct HfK. by split.
    + destruct Hb as [Hb1 Hb2 Hb3]. split; [done|..].
      * intros i j ??. change (resolve k' ?x) with (resolve K x). unfold K. rewrite !resolve_store_bytes. by apply Hb2.
      * intros i j ? Hj. change (resolve k' ?x) with (resolve K x). unfold K. rewrite !resolve_store_bytes.
        change (boot k') with (boot K). rewrite HbK. apply Hb3; [done|].
        change (image_size k') with (image_size K) in Hj. by rewrite HiK in Hj.
  - change (load_bytes k' buf (Z.to_nat n)) with (load_bytes K buf (Z.to_nat n)).
    replace (Z.to_nat n) with (length l) by (unfold zlen in Hl; lia).
    unfold K. rewrite load_bytes_store_bytes.
    + apply fmap_u8_bytes, bytes_zget. intros i Hi'. unfold l, file_bytes in *.
      rewrite zlen_tabulate in Hi'. rewrite zget_tabulate by lia. apply loadb_range.
    + rewrite Hl. apply (bo_inj _ _ _ (read_counts_buffer _ _ _ (buffer_ok_le _ _ _ n Hb ltac:(lia)))).
Qed.

Lemma file_bytes_app k inode pos n m :
  0 <= n -> 0 <= m ->
  file_bytes k inode pos (n + m) = file_bytes k inode pos n ++ file_bytes k inode (pos + n) m.
Proof.
  intros. unfold file_bytes. rewrite Z2Nat.inj_add, tabulate_app, Z2Nat.id by lia. f_equal.
  apply tabulate_ext. intros. f_equal. lia.
Qed.

(** C6. A file read in pieces of any positive sizes: the pieces put together are the
    file from the position on, as far as the sizes reach; so a program that reads until
    it gets 0 bytes has read the whole file, once and in order.  [fs_read] returns the number
    of bytes, where its comment says 0. *)
Theorem reads_deliver_file k fd inode pos buf B ns :
  reading fd inode pos buf B k -> B < 2147483648 -> Forall (λ n, 0 < n <= B) ns -> pos <= file_size k inode ->
  exists k', reads fd buf ns k = Ret (file_bytes k inode pos (clipped (foldr Z.add 0 ns) pos (file_size k inode))) k'.
Proof.
  intros Hr HB Hns Hpos. revert k pos Hr Hpos. induction Hns as [|n ns Hn Hns IH]; intros k pos Hr Hpos.
  - exists k. cbn. unfold clipped, file_bytes. by rewrite Z.min_l by lia.
  - cbn [reads foldr]. set (size := file_size k inode) in *.
    assert (0 <= foldr Z.add 0 ns) as Hsum
      by (clear - Hns; induction Hns; cbn; lia).
    pose proof (fs_read_advances k fd inode pos buf B n Hr ltac:(lia) ltac:(lia)) as Hread.
    cbv zeta in Hread. fold size in Hread. destruct (size <=? pos) eqn:Hend.
    + destruct (IH k pos Hr Hpos) as [k' Hk']. exists k'.
      pstep. rewrite Hread. fold size in Hk'. revert Hk'. pstep. intros ->.
      replace (clipped (n + foldr Z.add 0 ns) pos size) with 0 by (unfold clipped; lia).
      by replace (clipped (foldr Z.add 0 ns) pos size) with 0 by (unfold clipped; lia).
    + set (m := clipped n pos size) in *. assert (0 <= m <= B) by (unfold m, clipped; lia).
      destruct (after_read_reading fd inode pos buf B m k Hr) as (Hr' & Hs' & Hy' & Hl');
        [done|unfold m, clipped; fold size; lia|].
      destruct (IH _ (pos + m) Hr') as [k' Hk']; [rewrite Hs'; unfold m, clipped; fold size; lia|].
      exists k'. revert Hk'. pstep. rewrite Hread. intros ->. f_equal. rewrite Hl', Hs'. fold size.
      replace (clipped (n + foldr Z.add 0 ns) pos size)
        with (m + clipped (foldr Z.add 0 ns) (pos + m) size) by (unfold m, clipped; lia).
      rewrite file_bytes_app by (unfold m, clipped; lia). f_equal.
      apply tabulate_ext. intros i Hi. apply Hy'. fold size. unfold m, clipped in *.
      pose proof (rd_pos_range _ _ _ _ _ _ Hr). lia.
Qed.

(** ** Listing the directory *)

(** The copy loop stores the first [min nbytes size] characters. *)
Lemma dir_copy_bytes name buf size nbytes k :
  0 < size < 4294967296 -> 0 < nbytes < 4294967296 -> size <= zlen name ->
  dir_copy name buf size nbytes k =
    let n := Z.min size nbytes in Some (n, store_bytes buf (take (Z.to_nat n) name) k).
Proof.
  intros Hs Hn Hl. set (st := λ j, store_bytes buf (take (Z.to_nat j) name) k).
  assert (forall j, 0 <= j < zlen name -> storeb (buf + j) (zget name j) (st j) = st (j + 1)) as Hstep.
  { intros j Hj. unfold st. replace (Z.to_nat (j + 1)) with (S (Z.to_nat j)) by lia.
    rewrite (take_S_r _ _ (zget name j)).
    - rewrite store_bytes_app. replace (zlen (take (Z.to_nat j) name)) with j; [done|].
      unfold zlen in *. rewrite length_take. lia.
    - unfold zget. apply list_lookup_lookup_total_lt. unfold zlen in Hj. lia. }
  unfold dir_copy. cbv zeta. destruct (decide (size <= nbytes)).
  - rewrite Z.min_l by lia.
    apply while_count with (f := λ j, (j, st j)) (n := size - 1); [lia|done|..].
    + intros j Hj. replace (j <? nbytes) with true by lia. cbn [fst snd].
      rewrite Hstep by lia. by replace (size <=? j + 1) with false by lia.
    + replace (size - 1 <? nbytes) with true by lia. rewrite Hstep by lia.
      replace (size - 1 + 1) with size by lia. by rewrite (proj2 (Z.leb_le _ _)) by lia.
  - rewrite Z.min_r by lia.
    apply while_count with (f := λ j, (j, st j)) (n := nbytes); [lia|done|..].
    + intros j Hj. replace (j <? nbytes) with true by lia.
      rewrite Hstep by lia. by replace (size <=? j + 1) with false by lia.
    + by rewrite Z.ltb_irrefl.
Qed.

(** One call of [dir_read]. *)
Lemma dir_read_entry k d0 fd buf nbytes i :
  let a := get_pcb_address k in
  boot k <> 0 -> 2 <= fd <= 7 -> in_bounds fd (fd_array (get_pcb a k)) = true ->
  file_pos (get_fd a fd k) = i -> 0 <= i < 2147483648 -> 0 < nbytes < 2147483648 ->
  zlen (State.fname d0) = 32 -> (i <= 62 -> i < load32 k (boot k) -> entry_name k i <> []) ->
  let name := entry_name k i in
  dir_read d0 fd buf nbytes k =
    if decide (i <= 62 /\ i < load32 k (boot k)) then
      let n := Z.min (zlen name) nbytes in
      Ret n (set_fd a fd (λ f, f <| file_pos := i + 1 |>)
               (store_bytes buf (take (Z.to_nat n) name) (read_counts k)))
    else Ret 0 (read_counts k).
Proof.
  intros a Hb Hfd Hin Hpos Hi Hn Hd Hname name. unfold dir_read.
  rewrite (proj2 (Z.eqb_neq (boot_block_addr (fs k)) 0)) by done.
  rewrite (proj2 (Z.eqb_neq fd 0)), (proj2 (Z.eqb_neq fd 1)) by lia.
  replace (7 <? fd) with false by lia. cbn [orb]. fold a. rewrite Hin. cbn [negb].
  rewrite Hpos, (u32_id i) by lia.
  rewrite (read_dentry_by_index_entry k i d0) by (lia || done). fold name.
  case_decide as Hc; [|done]. change (0 =? -1) with false. cbv iota.
  cbn [State.fname file_type]. set (t := load32 k (entry_addr k i + 32)).
  pose proof (name_at_zlen 32 (entry_byte k i) 0) as Hlen. fold (entry_name k i) in Hlen. fold name in Hlen.
  pose proof (zlen_nonneg name).
  specialize (Hname (proj1 Hc) (proj2 Hc)).
  assert (0 < zlen (entry_name k i)) as Hpos_len
    by (destruct (entry_name k i) as [|c l]; [done|rewrite zlen_cons; pose proof (zlen_nonneg l); lia]).
  fold name in Hpos_len.
  set (tail_ := u8 <$> bytes32 (t - t mod 256)).
  set (padded := (name ++ replicate (32 - length name) 0) ++ tail_).
  assert (padded = name ++ (replicate (32 - length name) 0 ++ tail_)) as Hpad
    by (unfold padded; by rewrite <- app_assoc).
  rewrite (strlen_cstr (zget padded) name); [|split|lia].
  - assert (zlen name <= zlen padded) as Hle
      by (rewrite Hpad, zlen_app; pose proof (zlen_nonneg (replicate (32 - length name) 0 ++ tail_)); lia).
    rewrite dir_copy_bytes by lia.
    cbv zeta. rewrite Hpad, take_app_le by (unfold zlen; lia). f_equal.
    set (K := store_bytes _ _ _).
    assert (get_pcb a K = get_pcb a k) as HK by (unfold get_pcb, K; by autorewrite with word).
    apply set_fd_ext. unfold get_fd. rewrite HK. fold (get_fd a fd k).
    unfold upd, set_file_pos. by rewrite Hpos, s32_id by lia.
  - intros j Hj. rewrite Hpad, zget_app_l by lia. split; [done|].
    intros Hz. revert Hz. unfold name, entry_name in *. apply name_at_nonzero. done.
  - rewrite Hpad, zget_app_r by lia. rewrite Z.sub_diag.
    destruct (32 - length name)%nat eqn:H32; [|done].
    change (u8 (t - t mod 256) = 0). words.
Qed.

(** C33. [dir_read] on descriptor [fd] at position [i]: for an entry with a name it stores
    the first [min nbytes (length of the name)] characters of the name at [buf], without a
    terminator, moves to the next entry and returns that number; past the last entry
    it returns 0, and keeps returning 0.  Nothing is printed, although the comments on it say
    that it lists the directory on the screen and returns 0 or -1, see the findings. *)
Theorem dir_read_lists k d0 fd buf nbytes i :
  let a := get_pcb_address k in
  boot k <> 0 -> 2 <= fd <= 7 -> in_bounds fd (fd_array (get_pcb a k)) = true ->
  file_pos (get_fd a fd k) = i -> 0 <= i < 2147483648 -> 0 < nbytes < 2147483648 ->
  zlen (State.fname d0) = 32 -> (i <= 62 -> i < load32 k (boot k) -> entry_name k i <> []) ->
  let name := entry_name k i in
  dir_read d0 fd buf nbytes k =
    if decide (i <= 62 /\ i < load32 k (boot k)) then
      let n := Z.min (zlen name) nbytes in
      Ret n (set_fd a fd (λ f, f <| file_pos := i + 1 |>)
               (store_bytes buf (take (Z.to_nat n) name) (read_counts k)))
    else Ret 0 (read_counts k).
Proof. apply dir_read_entry. Qed.

(** ** A small image

    Two entries, the directory and the file [hello] of 4100 bytes, whose bytes 4094 to
    4099 lie in two blocks; a process with pid 1 has the file open as descriptor 2. *)
Definition demo_image : gmap Z Z :=
  let at_ a l m := store_bytes (0x410000 + a) l m in
  at_ 0 (bytes32 2 ++ bytes32 1 ++ bytes32 2)
    (at_ 64 [46] (at_ 96 (bytes32 1)
      (at_ 128 [104; 101; 108; 108; 111] (at_ 160 (bytes32 2 ++ bytes32 0)
        (at_ 4096 (bytes32 4100 ++ bytes32 1 ++ bytes32 0)
          (at_ 16382 [104; 101] (at_ 8192 [108; 108; 111; 33] ∅))))))).
Definition demo_pcb : pcb :=
  pcb0 <| fd_array ::= zset 2 (FileDesc (Some filetable) 0 4094 [1; 2; 0; 0]) |> <| process_id := 1 |>.
Definition demo_fs : kernel :=
  kernel0 <| phys := demo_image |> <| fs ::= λ f, f <| boot_block_addr := 0x410000 |> |>
          <| regs ::= λ r, r <| esp := 0x7FDF00 |> |> <| pcbs := {[ 0x7FC000 := demo_pcb ]} |>.

Lemma demo_map : kernel_map (mmu_of demo_fs).
Proof. exact booted_kernel_map. Qed.
Lemma demo_size : file_size demo_fs 0 = 4100.
Proof. vm_compute. reflexivity. Qed.
Lemma demo_inodes : load32 demo_fs (boot demo_fs + 4) = 1.
Proof. vm_compute. reflexivity. Qed.
Lemma demo_blocks : load32 demo_fs (boot demo_fs + 8) = 2.
Proof. vm_compute. reflexivity. Qed.
Lemma demo_block_nos j : 0 <= j < 2 -> block_no demo_fs 0 j < 2.
Proof.
  intros Hj. assert (j = 0 \/ j = 1) as [->| ->] by lia; vm_compute; done.
Qed.
Lemma demo_file : file_wf demo_fs 0.
Proof.
  split; rewrite ?demo_size, ?demo_inodes, ?demo_blocks; [done|lia|unfold MAX_FILE_SIZE, FS_BLOCK_SIZE; lia|].
  intros i Hi. apply demo_block_nos. Z.div_mod_to_equations. lia.
Qed.
Lemma demo_buffer n : n <= 4096 -> buffer_ok demo_fs 0x500000 n.
Proof.
  intros Hn. split; [done|by apply kernel_inj_range; [apply demo_map|lia..]|].
  unfold image_size. rewrite demo_inodes, demo_blocks. change (boot demo_fs) with 0x410000.
  apply kernel_sep_range; [apply demo_map|lia..].
Qed.
Lemma demo_reading : reading 2 0 4094 0x500000 4096 demo_fs.
Proof.
  split; try (vm_compute; reflexivity).
  - by vm_compute.
  - lia.
  - exact demo_file.
  - by apply demo_buffer.
Qed.
Lemma demo_dir : dir_ok demo_fs.
Proof.
  intros i Hi. pose proof (check_below 63 (λ i, match strlen (entry_byte demo_fs i) with Some _ => true | None => false end)
    ltac:(vm_compute; reflexivity) i ltac:(lia)) as Hc. cbv beta in Hc.
  destruct (strlen (entry_byte demo_fs i)) as [L|]; [by exists L|done].
Qed.
Definition hello : list Z := [104; 101; 108; 108; 111].
Lemma hello_plain : plain hello.
Proof. repeat constructor. Qed.

Lemma read_data_correct_witness :
  exists k', read_data 0 4094 0x500000 100 demo_fs = Ret 6 k' /\
    load_bytes k' 0x500000 6 = [104; 101; 108; 108; 111; 33].
Proof.
  pose proof (read_data_correct demo_fs 0 4094 0x500000 100 demo_file) as H.
  cbv zeta in H. rewrite demo_size in H. change (clipped 100 4094 4100) with 6 in H.
  destruct H as (k' & Hr & Hl & _); [apply demo_buffer; lia|lia|lia|].
  exists k'. split; [exact Hr|]. refine (eq_trans (Hl _) _); [lia|]. vm_compute. reflexivity.
Defined.

Lemma read_dentry_by_name_finds_witness :
  exists d, read_dentry_by_name (Object hello) (dentry_a (fs demo_fs)) demo_fs
    = Ret (0, d) (read_counts demo_fs) /\ file_type d = 2 /\ inode_num d = 0.
Proof.
  destruct (read_dentry_by_name_finds demo_fs (Object hello) (dentry_a (fs demo_fs)) hello) as (_ & H & _).
  - vm_compute. discriminate.
  - apply object_string; [exact hello_plain|reflexivity].
  - exact demo_dir.
  - reflexivity.
  - vm_compute. discriminate.
  - eexists. split; [apply (H ltac:(intros Hd; specialize (Hd 0 ltac:(vm_compute; split; congruence)); vm_compute in Hd; discriminate) 1)|].
    + lia.
    + vm_compute. reflexivity.
    + lia.
    + vm_compute. split; reflexivity.
Defined.

Lemma reads_deliver_file_witness :
  exists k', reads 2 0x500000 [1; 3; 4096; 7] demo_fs = Ret [104; 101; 108; 108; 111; 33] k'.
Proof.
  destruct (reads_deliver_file demo_fs 2 0 4094 0x500000 4096 [1; 3; 4096; 7] demo_reading) as [k' Hk'].
  - lia.
  - repeat constructor; lia.
  - rewrite demo_size. lia.
  - exists k'. refine (eq_trans Hk' _). f_equal.
Defined.

Lemma dir_read_lists_witness : exists k',
  dir_read (dentry_a (fs demo_fs)) 3 0x500000 32 demo_fs = Ret 1 k'.
Proof.
  eexists. refine (eq_trans (dir_read_lists demo_fs (dentry_a (fs demo_fs)) 3 0x500000 32 0 _ _ _ _ _ _ _ _) _).
  - vm_compute. discriminate.
  - lia.
  - vm_compute. reflexivity.
  - vm_compute. reflexivity.
  - lia.
  - lia.
  - reflexivity.
  - vm_compute. discriminate.
  - cbv zeta. replace (Z.min (zlen (entry_name demo_fs 0)) 32) with 1 by (vm_compute; reflexivity).
    reflexivity.
Defined.
