(* ===== verification/SysCall.v ===== *)
(** * System calls: student-distrib/sys_call.c

    Descriptors are dispatched through the five tables of function pointers.  [d0] is what
    the uninitialised local [dir_entry] held.  [execute] and [halt] are in [Process]. *)
From S2P Require Import Prelude Machine Lib Paging Devices State Console Terminal Filesystem.

Definition END_KMEM : Z := 0x800000.
Definition PCB_SIZE : Z := 0x2000.
Definition KERNEL_MEM_SIZE : Z := 0x2000.
Definition NUMBEROFPROCESSESSUPPORTED : Z := 6.
Definition ENTRIESINFDARRAY : Z := 8.
Definition MAXBUFSIZEEXECUTE : Z := 128.
Definition STARTOFEIPINEXECUTABLE : Z := 24.
Definition EXTENDEDPAGESIZE : Z := 0x400000.
Definition VIRTUALADDRESSFOREXECUTABLEDATA : Z := 0x8048000.
Definition METADATAEXECUTESIZE : Z := 40.
Definition FDSTART : Z := 2.
Definition FDEND : Z := 7.
Definition VMEM_133MB : Z := 0x8500000.
Definition NUM_TERMINALS : Z := 3.
Definition KERNEL_DS : Z := 0x18.

(** ** Descriptors *)
Definition set_up_stdin (p : pcb) : pcb :=
  p <| fd_array ::= λ l, zset 0 (zget l 0 <| operationstable := Some stdin_table |> <| fd_inode := -1 |>
                                   <| file_pos := 0 |> <| fd_flags ::= zset 0 1 |>) l |>.
Definition set_up_stdout (p : pcb) : pcb :=
  p <| fd_array ::= λ l, zset 1 (zget l 1 <| operationstable := Some stdout_table |> <| fd_inode := -1 |>
                                   <| file_pos := 0 |> <| fd_flags ::= zset 0 1 |>) l |>.

(** [set_parent] *)
Definition set_parent (current_pid parent_pcb parent_pid : Z) (p : pcb) : pcb :=
  if negb (current_pid =? 1) then p <| parent := parent_pcb |> <| parent_process_id := parent_pid |>
  else p <| parent := 0 |>.

(** [set_up_fdsandargs]: descriptors 2 to 7 are freed, the arguments copied; [j] runs
    over the command, [i] over [arg_arr]. *)
Definition free_fds (p : pcb) : pcb :=
  for_up 6 2 (λ i p, p <| fd_array ::= λ l, zset i (zget l i <| file_pos := 0 |> <| fd_flags ::= zset 0 0 |>) l |>) p.
Definition copy_args (arg_size_ arg_idx : Z) (arg_arr_ : list Z) (p : pcb) : option pcb :=
  while (λ '(i, j, p),
    if (j <? arg_size_) && negb (zget arg_arr_ j =? 0) then
      inl (i + 1, j + 1, p <| arg_arr ::= zset i (zget arg_arr_ j) |>)
    else inr p) (0, arg_idx, p).
Definition set_up_fdsandargs (arg_size_ arg_idx : Z) (arg_arr_ : list Z) (p : pcb) : option pcb :=
  let p := free_fds p in
  let p := for_up 128 0 (λ i p, p <| arg_arr ::= zset i 0 |>) p in
  let p := p <| arg_size := arg_size_ |> in
  copy_args arg_size_ arg_idx arg_arr_ p.

(** The first free descriptor from [i] on; [n] are left. *)
Fixpoint find_free_fd (n : nat) (i : Z) (fds : list file_desc) : Z :=
  match n with
  | O => i
  | S n => if zget (fd_flags (zget fds i)) 0 =? 0 then i else find_free_fd n (i + 1) fds
  end.
Definition fd_array_handle_open (a file_type_ inode_num_ : Z) (k : kernel) : Z * kernel :=
  if a =? 0 then (-1, k)
  else if negb (file_type_ =? 0) && negb (file_type_ =? 1) && negb (file_type_ =? 2) then (-1, k)
  else
    let i := find_free_fd 6 FDSTART (fd_array (get_pcb a k)) in
    if ENTRIESINFDARRAY <=? i then (-1, k)
    else
      let table := if file_type_ =? 0 then rtctable else if file_type_ =? 1 then directorytable else filetable in
      (i, set_fd a i (λ f, f <| operationstable := Some table |> <| fd_inode := inode_num_ |> <| file_pos := 0 |>
                             <| fd_flags ::= λ l, zset 1 (u8 file_type_) (zset 0 1 l) |>) k).
Definition fd_array_handle_close (fd a : Z) (k : kernel) : Z * kernel :=
  if fd <? 0 then (-1, k)
  else if (fd <? FDSTART) || (FDEND <? fd) then (-1, k)
  else if a =? 0 then (-1, k)
  else
    (0, set_fd a fd (λ f, f <| operationstable := None |> <| fd_inode := 0 |> <| file_pos := 0 |>
                            <| fd_flags ::= λ l, zset 3 0 (zset 2 0 (zset 1 0 (zset 0 0 l))) |>) k).

(** ** The calls through the tables; calling a NULL entry is undefined *)
Definition op_open (t : optable) (filename : charptr) : prog kernel Z :=
  match t with
  | rtctable => on_devs Rtc.rtc_open
  | filetable => fs_open filename
  | directorytable => mret 0
  | stdin_table | stdout_table => mret 0
  end.
Definition op_read (d0 : dentry_t) (t : optable) (fd buf nbytes : Z) : prog kernel Z :=
  match t with
  | rtctable => on_devs Rtc.rtc_read
  | filetable => fs_read fd buf nbytes
  | directorytable => dir_read d0 fd buf nbytes
  | stdin_table => terminal_read fd buf nbytes
  | stdout_table => undefined
  end.
Definition op_write (t : optable) (fd buf nbytes : Z) : prog kernel Z := λ k,
  match t with
  | rtctable => on_devs (Rtc.rtc_write (if buf =? 0 then None else Some (s32 (load32 k buf)))) k
  | filetable => Ret (fs_write fd buf nbytes k) k
  | directorytable => Ret (dir_write fd buf nbytes k) k
  | stdin_table => Ub
  | stdout_table => let '(r, k) := terminal_write fd buf nbytes k in Ret r k
  end.
Definition op_close (t : optable) (fd : Z) : prog kernel Z := λ k,
  match t with
  | rtctable => on_devs Rtc.rtc_close k
  | filetable => let '(r, k) := fs_close k in Ret r k
  | directorytable => let '(r, k) := dir_close k in Ret r k
  | stdin_table | stdout_table => Ret 0 k
  end.

Section Calls.
Context (d0 : dentry_t).

Definition open (filename : charptr) : prog kernel Z := λ k,
  if is_null filename then Ret (-1) k
  else
    match strlen (chars filename k) with
    | None => Spin
    | Some len =>
        if len =? 0 then Ret (-1) k
        else
          ('(r, dir_entry) ← read_dentry_by_name filename d0;
           if r =? -1 then mret (-1)
           else
             curr_pcb ← get get_pcb_address;
             fd_opened ← ((λ k, let '(r, k) := fd_array_handle_open curr_pcb (s32 (file_type dir_entry))
                                                 (s32 (inode_num dir_entry)) k in Ret r k) : prog kernel Z);
             if fd_opened =? -1 then mret (-1)
             else
               table ← get (λ k, operationstable (get_fd curr_pcb fd_opened k));
               _ ← match table with Some t => op_open t filename | None => undefined end;
               mret fd_opened) k
    end.

Definition close (fd : Z) : prog kernel Z := λ k,
  if fd <? 0 then Ret (-1) k
  else if (fd <? FDSTART) || (FDEND <? fd) then Ret (-1) k
  else
    let curr_pcb := get_pcb_address k in
    let f := get_fd curr_pcb fd k in
    if zget (fd_flags f) 0 =? 0 then Ret (-1) k
    else
      match operationstable f with
      | None => Ret (-1) k
      | Some t =>
          (_ ← op_close t fd;
           ((λ k, let '(r, k) := fd_array_handle_close fd curr_pcb k in Ret r k) : prog kernel Z)) k
      end.

Definition read (fd buf nbytes : Z) : prog kernel Z := λ k,
  if (fd <? 0) || (FDEND <? fd) then Ret (-1) k
  else if buf =? 0 then Ret (-1) k
  else if fd =? 1 then Ret (-1) k
  else
    let f := get_fd (get_pcb_address k) fd k in
    if zget (fd_flags f) 0 =? 0 then Ret (-1) k
    else match operationstable f with
         | Some t => op_read d0 t fd buf nbytes k
         | None => Ub
         end.

Definition write (fd buf nbytes : Z) : prog kernel Z := λ k,
  if (fd <=? 0) || (FDEND <? fd) then Ret (-1) k
  else if buf =? 0 then Ret (-1) k
  else
    let f := get_fd (get_pcb_address k) fd k in
    if zget (fd_flags f) 0 =? 0 then Ret (-1) k
    else match operationstable f with
         | Some t => op_write t fd buf nbytes k
         | None => Ub
         end.
End Calls.

(** ** The other calls *)
Definition vidmap (screen_start : Z) (k : kernel) : Z * kernel :=
  if screen_start =? 0 then (-1, k)
  else
    let page_dir_idx := Z.shiftr (Z.land 0xFFC00000 screen_start) 22 in
    if negb (page_dir_idx =? 32) then (-1, k)
    else
      let k := k <| mmu_of ::= λ m, (paging_vidmap m).2 |> in
      (0, memcpy (at_obj (zget (u8 <$> bytes32 VMEM_133MB))) screen_start 4 k).
Definition set_handler (signum handler_address : Z) (k : kernel) : Z := -1.
Definition sigreturn (k : kernel) : Z := -1.
Definition getargs (buf nbytes : Z) (k : kernel) : Z * kernel :=
  let p := get_pcb (get_pcb_address k) k in
  if (buf =? 0) || (nbytes <? 0) || (nbytes - 1 <? arg_size p) then (-1, k)
  else (0, strncpy (at_obj (zget (arg_arr p))) buf nbytes k).

(** ** The descriptor table *)

(** The kinds of file, by the number in the directory entry. *)
Definition table_of (ty : Z) : optable :=
  if ty =? 0 then rtctable else if ty =? 1 then directorytable else filetable.
Definition in_use (f : file_desc) : bool := negb (zget (fd_flags f) 0 =? 0).

(** Descriptor 0 is the keyboard, 1 the screen; of the others, one in use has the table of
    the type in its flags. *)
Record fds_wf (l : list file_desc) : Prop := {
  fw_len : zlen l = 8;
  fw_flags : forall i, 0 <= i < 8 -> zlen (fd_flags (zget l i)) = 4;
  fw_stdin : in_use (zget l 0) = true /\ operationstable (zget l 0) = Some stdin_table;
  fw_stdout : in_use (zget l 1) = true /\ operationstable (zget l 1) = Some stdout_table;
  fw_open : forall i, 2 <= i < 8 -> in_use (zget l i) = true ->
    0 <= zget (fd_flags (zget l i)) 1 <= 2 /\
    operationstable (zget l i) = Some (table_of (zget (fd_flags (zget l i)) 1))
}.
Definition proc_fds (k : kernel) : list file_desc := fd_array (get_pcb (get_pcb_address k) k).

(** C25. [read] and [write] reach the function of the descriptor's kind and never a NULL
    entry of a table: reads go to the keyboard for 0, writes to the screen for 1, and for
    an open descriptor from 2 on both go to the clock, the directory or the file by the type
    it was opened with; every other descriptor, a closed one, a NULL buffer, reading 1
    and writing 0 give -1 and change nothing. *)
Theorem read_write_dispatch k d0 fd buf nbytes :
  fds_wf (proc_fds k) ->
  let f := zget (proc_fds k) fd in
  let ty := zget (fd_flags f) 1 in
  read d0 fd buf nbytes k =
    (if (buf =? 0) || (fd <? 0) || (7 <? fd) || (fd =? 1) || negb (in_use f) then Ret (-1) k
     else if fd =? 0 then terminal_read fd buf nbytes k
     else if ty =? 0 then on_devs Rtc.rtc_read k
     else if ty =? 1 then dir_read d0 fd buf nbytes k
     else fs_read fd buf nbytes k) /\
  write fd buf nbytes k =
    (if (buf =? 0) || (fd <=? 0) || (7 <? fd) || negb (in_use f) then Ret (-1) k
     else if fd =? 1 then Ret (terminal_write fd buf nbytes k).1 (terminal_write fd buf nbytes k).2
     else if ty =? 0 then on_devs (Rtc.rtc_write (Some (s32 (load32 k buf)))) k
     else if ty =? 1 then Ret 0 k
     else Ret (if nbytes =? 0 then 0 else -1) k).
Proof.
  intros Hf f ty. pose proof (fw_stdin _ Hf) as [Hin0 Ht0]. pose proof (fw_stdout _ Hf) as [Hin1 Ht1].
  unfold read, write, get_fd. fold (proc_fds k). change (zget (proc_fds k) fd) with f.
  change (zget (fd_flags f) 0 =? 0) with (zget (fd_flags f) 0 =? 0).
  replace (zget (fd_flags f) 0 =? 0) with (negb (in_use f)) by (unfold in_use; by rewrite negb_involutive).
  unfold FDEND. split.
  - destruct (buf =? 0) eqn:Hb; [by destruct ((fd <? 0) || (7 <? fd))|]. cbn [orb].
    destruct (fd <? 0) eqn:Hlo; [done|]. cbn [orb]. destruct (7 <? fd) eqn:Hhi; [done|]. cbn [orb].
    destruct (Z.eqb_spec fd 1) as [->|H1]; [done|]. cbn [orb].
    destruct (in_use f) eqn:Huse; [|done]. cbn [negb].
    destruct (Z.eqb_spec fd 0) as [->|H0]; [unfold f; by rewrite Ht0|].
    destruct (fw_open _ Hf fd ltac:(lia) Huse) as [_ Htab]. fold f ty in Htab. rewrite Htab.
    unfold table_of. destruct (ty =? 0); [done|]. by destruct (ty =? 1).
  - destruct (buf =? 0) eqn:Hb; [by destruct ((fd <=? 0) || (7 <? fd))|]. cbn [orb].
    destruct (fd <=? 0) eqn:Hlo; [done|]. cbn [orb]. destruct (7 <? fd) eqn:Hhi; [done|]. cbn [orb].
    destruct (in_use f) eqn:Huse; [|done]. cbn [negb].
    destruct (Z.eqb_spec fd 1) as [->|H1].
    { unfold f. rewrite Ht1. unfold op_write. by destruct (terminal_write 1 buf nbytes k). }
    destruct (fw_open _ Hf fd ltac:(lia) Huse) as [_ Htab]. fold f ty in Htab. rewrite Htab.
    unfold table_of, op_write. destruct (ty =? 0); [by rewrite Hb|]. by destruct (ty =? 1).
Qed.

Lemma get_set_pcb a f k : get_pcb a (set_pcb a f k) = f (get_pcb a k).
Proof. unfold get_pcb at 1, set_pcb. cbn. by rewrite lookup_insert_eq. Qed.
Lemma get_set_pcb_ne a b f k : a <> b -> get_pcb b (set_pcb a f k) = get_pcb b k.
Proof. intros. unfold get_pcb, set_pcb. cbn. by rewrite lookup_insert_ne. Qed.
Lemma fds_set_fd a i f k :
  fd_array (get_pcb a (set_fd a i f k)) = zset i (f (zget (fd_array (get_pcb a k)) i)) (fd_array (get_pcb a k)).
Proof. unfold set_fd. by rewrite get_set_pcb. Qed.

(** An entry may be replaced by a free one or by an open one of a known type. *)
Lemma fds_wf_set l i f :
  fds_wf l -> 2 <= i < 8 -> zlen (fd_flags f) = 4 ->
  (in_use f = true -> 0 <= zget (fd_flags f) 1 <= 2 /\
     operationstable f = Some (table_of (zget (fd_flags f) 1))) ->
  fds_wf (zset i f l).
Proof.
  intros [Hl Hfl H0 H1 Ho] Hi Hf Huse. split; rewrite ?zlen_zset; [done|..].
  - intros j Hj. destruct (decide (j = i)) as [->|]; [by rewrite zget_zset_eq by lia|].
    rewrite zget_zset_ne by lia. by apply Hfl.
  - rewrite zget_zset_ne by lia. done.
  - rewrite zget_zset_ne by lia. done.
  - intros j Hj. destruct (decide (j = i)) as [->|]; [by rewrite zget_zset_eq by lia|].
    rewrite zget_zset_ne by lia. by apply Ho.
Qed.

Lemma find_free_fd_least n i l :
  let r := find_free_fd n i l in
  i <= r <= i + Z.of_nat n /\
  (forall j, i <= j < r -> in_use (zget l j) = true) /\
  (r < i + Z.of_nat n -> in_use (zget l r) = false).
Proof.
  revert i. induction n as [|n IH]; intros i; cbn [find_free_fd].
  { split; [lia|]. split; intros; lia. }
  destruct (zget (fd_flags (zget l i)) 0 =? 0) eqn:Hz.
  - split; [lia|]. split; [intros; lia|]. intros _. unfold in_use. by rewrite Hz.
  - destruct (IH (i + 1)) as (Hr & Hu & Hf). split; [lia|]. split.
    + intros j Hj. destruct (decide (j = i)) as [->|]; [unfold in_use; by rewrite Hz|]. apply Hu. lia.
    + intros. apply Hf. lia.
Qed.

(** C26. Opening gives the least free descriptor from 2 on, and only that one changes: it is
    in use, at position 0, on the given inode, with the table of the type.  An unknown
    type, or no free descriptor, gives -1 and changes nothing.  The table stays well
    formed either way. *)
Theorem fd_array_handle_open_least k a ty ino :
  a <> 0 -> fds_wf (fd_array (get_pcb a k)) ->
  let l := fd_array (get_pcb a k) in
  let '(r, k') := fd_array_handle_open a ty ino k in
  let l' := fd_array (get_pcb a k') in
  fds_wf l' /\
  ((r = -1 /\ k' = k /\ (~ (0 <= ty <= 2) \/ forall i, 2 <= i < 8 -> in_use (zget l i) = true)) \/
   (0 <= ty <= 2 /\ 2 <= r < 8 /\ in_use (zget l r) = false /\
    (forall i, 2 <= i < r -> in_use (zget l i) = true) /\
    in_use (zget l' r) = true /\ operationstable (zget l' r) = Some (table_of ty) /\
    fd_inode (zget l' r) = ino /\ file_pos (zget l' r) = 0 /\ zget (fd_flags (zget l' r)) 1 = ty /\
    (forall i, 0 <= i -> i <> r -> zget l' i = zget l i) /\
    (forall b, b <> a -> get_pcb b k' = get_pcb b k))).
Proof.
  intros Ha Hf l. unfold fd_array_handle_open. rewrite (proj2 (Z.eqb_neq a 0)) by done.
  destruct (negb (ty =? 0) && negb (ty =? 1) && negb (ty =? 2)) eqn:Hty.
  { split; [done|left]. split; [done|]. split; [done|left; lia]. }
  fold l. destruct (find_free_fd_least 6 FDSTART l) as (Hr & Hu & Hfree).
  set (r := find_free_fd 6 FDSTART l) in *. clearbody r. unfold FDSTART, ENTRIESINFDARRAY in *.
  destruct (8 <=? r) eqn:Hfull.
  { split; [done|left]. split; [done|]. split; [done|right]. intros i Hi. apply Hu. lia. }
  set (g := λ f, _). rewrite fds_set_fd. fold l.
  pose proof (fw_flags _ Hf r ltac:(lia)) as Hfl. fold l in Hfl.
  assert (zlen l = 8) as Hl by apply (fw_len _ Hf).
  assert (zlen (fd_flags (g (zget l r))) = 4) as Hg4 by (unfold g; cbn; by rewrite !zlen_zset).
  assert (zget (fd_flags (g (zget l r))) 1 = ty) as Hg1.
  { unfold g. cbn. rewrite zget_zset_eq by (rewrite zlen_zset; lia). apply u8_id. lia. }
  assert (in_use (g (zget l r)) = true) as Hgu.
  { unfold in_use, g. cbn. by rewrite zget_zset_ne, zget_zset_eq by (rewrite ?zlen_zset; lia). }
  assert (operationstable (g (zget l r)) = Some (table_of ty)) as Hgt by done.
  split; [apply fds_wf_set; [done|lia|done|]; rewrite Hg1; intros _; split; [lia|done]|].
  right. rewrite zget_zset_eq by lia.
  split; [lia|]. split; [lia|]. split; [apply Hfree; lia|]. split; [intros; apply Hu; lia|].
  split; [done|]. split; [done|]. split; [done|]. split; [done|]. split; [done|].
  split; [intros; by rewrite zget_zset_ne by lia|].
  intros b Hb. by apply get_set_pcb_ne.
Qed.

Definition statics_closed (k K : kernel) : Prop :=
  boot_block_addr (fs K) = boot_block_addr (fs k) /\ dentry_b (fs K) = dentry_b (fs k) /\
  (dentry_a (fs K) = dentry_a (fs k) \/ dentry_a (fs K) = dentry_b (fs k)).
Lemma statics_closed_refl k : statics_closed k k.
Proof. split; [done|]. split; [done|by left]. Qed.
Lemma statics_closed_trans k1 k2 k3 : statics_closed k1 k2 -> statics_closed k2 k3 -> statics_closed k1 k3.
Proof. unfold statics_closed. intuition congruence. Qed.
(** Closing through the tables changes the static entries of filesystem.c at most. *)
Lemma op_close_fs t fd k :
  exists K, op_close t fd k = Ret 0 K /\ K = k <| fs := fs K |> /\ statics_closed k K.
Proof.
  destruct t; cbn; eexists; (split; [done|]); (split; [by destruct k|]);
    (split; [done|split; [done|(by left) || by right]]).
Qed.

Definition closed_fd (f : file_desc) : file_desc :=
  f <| operationstable := None |> <| fd_inode := 0 |> <| file_pos := 0 |>
    <| fd_flags ::= λ l, zset 3 0 (zset 2 0 (zset 1 0 (zset 0 0 l))) |>.
Lemma closed_fd_flags f : zlen (fd_flags (closed_fd f)) = zlen (fd_flags f).
Proof. cbn [closed_fd fd_flags upd set_fd_flags]. by rewrite !zlen_zset. Qed.
Lemma closed_fd_free f : zlen (fd_flags f) = 4 -> in_use (closed_fd f) = false.
Proof.
  intros Hf. unfold in_use.
  change (fd_flags (closed_fd f)) with (zset 3 0 (zset 2 0 (zset 1 0 (zset 0 0 (fd_flags f))))).
  by rewrite !zget_zset_ne, zget_zset_eq by (rewrite ?zlen_zset; lia).
Qed.

Lemma close_open_fd k fd :
  get_pcb_address k <> 0 -> fds_wf (proc_fds k) -> 2 <= fd <= 7 -> in_use (zget (proc_fds k) fd) = true ->
  exists K, close fd k = Ret 0 (set_fd (get_pcb_address k) fd closed_fd K) /\ K = k <| fs := fs K |> /\ statics_closed k K.
Proof.
  intros Ha Hf Hfd Huse. destruct (fw_open _ Hf fd ltac:(lia) Huse) as [_ Htab].
  destruct (op_close_fs (table_of (zget (fd_flags (zget (proc_fds k) fd)) 1)) fd k) as (K & HK & Hr & Hfs).
  exists K. split; [|done]. unfold close. replace (fd <? 0) with false by lia. unfold FDSTART, FDEND.
  replace ((fd <? 2) || (7 <? fd)) with false by lia. unfold get_fd.
  change (fd_array (get_pcb (get_pcb_address k) k)) with (proc_fds k).
  unfold in_use in Huse. apply negb_true_iff in Huse. rewrite Huse, Htab.
  rewrite (bind_Ret _ _ _ _ _ HK). unfold fd_array_handle_close, FDSTART, FDEND.
  replace (fd <? 0) with false by lia. replace ((fd <? 2) || (7 <? fd)) with false by lia.
  by rewrite (proj2 (Z.eqb_neq _ 0)) by done.
Qed.

(** After such a step only that descriptor has changed. *)
Lemma proc_fds_set k K fd f :
  K = k <| fs := fs K |> ->
  proc_fds (set_fd (get_pcb_address k) fd f K) = zset fd (f (zget (proc_fds k) fd)) (proc_fds k).
Proof.
  intros HK. unfold proc_fds at 1.
  change (get_pcb_address (set_fd (get_pcb_address k) fd f K)) with (get_pcb_address K).
  assert (get_pcb_address K = get_pcb_address k) as -> by (by rewrite HK).
  rewrite fds_set_fd. assert (get_pcb (get_pcb_address k) K = get_pcb (get_pcb_address k) k) as -> by (by rewrite HK).
  done.
Qed.
Lemma fds_wf_close l fd : fds_wf l -> 2 <= fd <= 7 -> fds_wf (zset fd (closed_fd (zget l fd)) l).
Proof.
  intros Hf Hfd. pose proof (fw_flags _ Hf fd ltac:(lia)) as Hfl.
  apply fds_wf_set; [done|lia|by rewrite closed_fd_flags|]. intros Hu. by rewrite closed_fd_free in Hu.
Qed.

(** C27. [close] frees an open descriptor from 2 to 7 and returns 0; the table stays well
    formed and no other descriptor changes.  Closing 0, 1, a free descriptor or a number
    out of range gives -1 and changes nothing. *)
Theorem close_frees k fd :
  get_pcb_address k <> 0 -> fds_wf (proc_fds k) ->
  if decide (2 <= fd <= 7 /\ in_use (zget (proc_fds k) fd) = true) then
    exists k', close fd k = Ret 0 k' /\ fds_wf (proc_fds k') /\
      in_use (zget (proc_fds k') fd) = false /\
      (forall i, 0 <= i -> i <> fd -> zget (proc_fds k') i = zget (proc_fds k) i) /\
      phys k' = phys k /\ sched k' = sched k
  else close fd k = Ret (-1) k.
Proof.
  intros Ha Hf. case_decide as Hc.
  - destruct Hc as [Hfd Huse]. destruct (close_open_fd k fd Ha Hf Hfd Huse) as (K & HK & Hr & _).
    pose proof (fw_len _ Hf) as Hl. pose proof (fw_flags _ Hf fd ltac:(lia)) as Hfl.
    eexists. split; [exact HK|]. rewrite (proc_fds_set k K fd closed_fd Hr).
    split; [by apply fds_wf_close|]. split; [|split].
    + rewrite zget_zset_eq by lia. by apply closed_fd_free.
    + intros i Hi Hne. by rewrite zget_zset_ne by lia.
    + change (phys K = phys k /\ sched K = sched k). by rewrite Hr.
  - unfold close, FDSTART, FDEND. destruct (fd <? 0) eqn:H0; [done|].
    destruct ((fd <? 2) || (7 <? fd)) eqn:H27; [done|].
    unfold get_fd. change (fd_array (get_pcb (get_pcb_address k) k)) with (proc_fds k).
    destruct (zget (fd_flags (zget (proc_fds k) fd)) 0 =? 0) eqn:Hu; [done|].
    destruct Hc. split; [lia|]. unfold in_use. by rewrite Hu.
Qed.

(** The process of [demo_fs] with its descriptors set up. *)
Definition demo_sys : kernel :=
  demo_fs <| pcbs := {[ 0x7FC000 := set_up_stdout (set_up_stdin demo_pcb) ]} |>.
Lemma demo_fds : fds_wf (proc_fds demo_sys).
Proof.
  split; [reflexivity| |split; reflexivity|split; reflexivity|].
  - intros i Hi. pose proof (check_below 8 (λ i, zlen (fd_flags (zget (proc_fds demo_sys) i)) =? 4)
      ltac:(vm_compute; reflexivity) i ltac:(lia)) as Hc. cbv beta in Hc. lia.
  - intros i Hi Hu. assert (i = 2 \/ i = 3 \/ i = 4 \/ i = 5 \/ i = 6 \/ i = 7) as Hc by lia.
    repeat (destruct Hc as [->|Hc]; [first [discriminate Hu | vm_compute; intuition discriminate]|]).
    subst i. discriminate Hu.
Qed.
Lemma read_write_dispatch_witness :
  read (dentry_a (fs demo_sys)) 2 0x500000 10 demo_sys = fs_read 2 0x500000 10 demo_sys.
Proof.
  destruct (read_write_dispatch demo_sys (dentry_a (fs demo_sys)) 2 0x500000 10 demo_fds) as [H _].
  assert (in_use (zget (proc_fds demo_sys) 2) = true) as Hu by (vm_compute; reflexivity).
  assert (zget (fd_flags (zget (proc_fds demo_sys) 2)) 1 = 2) as Ht by (vm_compute; reflexivity).
  rewrite Hu, Ht in H. exact H.
Defined.
Lemma fd_array_handle_open_least_witness :
  (fd_array_handle_open 0x7FC000 1 0 demo_sys).1 = 3.
Proof.
  assert (fds_wf (fd_array (get_pcb 0x7FC000 demo_sys))) as Hd.
  { replace 0x7FC000 with (get_pcb_address demo_sys) by (vm_compute; reflexivity). exact demo_fds. }
  pose proof (fd_array_handle_open_least demo_sys 0x7FC000 1 0 ltac:(lia) Hd) as H.
  assert ((fd_array_handle_open 0x7FC000 1 0 demo_sys).1 <> -1) as Hok by (vm_compute; discriminate).
  assert (in_use (zget (fd_array (get_pcb 0x7FC000 demo_sys)) 3) = false) as H3 by (vm_compute; reflexivity).
  assert (in_use (zget (fd_array (get_pcb 0x7FC000 demo_sys)) 2) = true) as H2 by (vm_compute; reflexivity).
  destruct (fd_array_handle_open 0x7FC000 1 0 demo_sys) as [r k']. cbn [fst] in *.
  destruct H as [_ [(-> & _)|(_ & Hr & Hfree & Hleast & _)]]; [congruence|].
  destruct (decide (r = 3)) as [->|Hne]; [reflexivity|].
  destruct (decide (r = 2)) as [->|]; [congruence|].
  rewrite Hleast in H3 by lia. discriminate H3.
Defined.
Lemma close_frees_witness : exists k', close 2 demo_sys = Ret 0 k'.
Proof.
  pose proof (close_frees demo_sys 2 ltac:(vm_compute; discriminate) demo_fds) as H.
  rewrite decide_True in H by (split; [lia|vm_compute; reflexivity]).
  destruct H as (k' & H & _). exists k'. exact H.
Defined.

(** ** The calls that write to user memory *)

(** The page of process [p] is mapped. *)
Definition user_page (p : Z) (m : mmu) : Prop :=
  1 <= p <= 6 /\ zget (page_directory (tables m)) USER_MEM_LOCATION = Z.lor (user_frame p) UMEM_OR_MASK.
Lemma resolve_user k p va :
  kernel_map (mmu_of k) -> user_page p (mmu_of k) -> user_base <= va < user_base + 0x400000 ->
  resolve k va = user_frame p + (va - user_base).
Proof.
  unfold user_base. intros Hkm [Hp He] Hva. unfold resolve, kernel_space. rewrite u32_id by lia.
  by rewrite (walk_user_page _ p).
Qed.
Lemma user_inj_range k p a n :
  kernel_map (mmu_of k) -> user_page p (mmu_of k) -> user_base <= a -> a + n <= user_base + 0x400000 ->
  inj_range k a n.
Proof. intros Hkm Hp Ha Hn i j Hi Hj. rewrite !(resolve_user k p) by (done || lia). lia. Qed.
Lemma user_page_vidmap p m : user_page p m -> user_page p (paging_vidmap m).2.
Proof.
  intros [Hp He]. split; [done|]. cbn.
  rewrite zget_zset_ne; [done|unfold VMEM_33, USER_MEM_LOCATION; lia..].
Qed.

(** The directory index of a user pointer. *)
Lemma directory_index p : 0 <= p < 4294967296 -> Z.shiftr (Z.land 0xFFC00000 p) 22 = p / 0x400000.
Proof.
  intros Hp. rewrite Z.shiftr_land. change (Z.shiftr 0xFFC00000 22) with (Z.ones 10).
  rewrite Z.land_comm, Z.land_ones, Z.shiftr_div_pow2 by lia. words.
Qed.

(** C28. [vidmap] accepts exactly the pointers into the 4 MB user page.  It then stores the
    address 0x8500000 through the pointer, at that address the program finds video memory,
    and its own page, the kernel's mapping and every other byte are what they were.
    Any other pointer, NULL too, gives -1 and changes nothing. *)
Theorem vidmap_grants k p ptr :
  kernel_map (mmu_of k) -> user_page p (mmu_of k) -> 0 <= ptr < 4294967296 ->
  let '(r, k') := vidmap ptr k in
  if decide (user_base <= ptr < user_base + 0x400000) then
    ptr + 4 <= user_base + 0x400000 ->
    r = 0 /\ load32 k' ptr = user_video /\
    (forall off, 0 <= off < 4096 -> walk (mmu_of k') (user_video + off) = Some (VID_START_ADDR + off)) /\
    kernel_map (mmu_of k') /\ user_page p (mmu_of k') /\
    (forall a, ~ (user_frame p + (ptr - user_base) <= a < user_frame p + (ptr - user_base) + 4) ->
       phys k' !! a = phys k !! a) /\
    pcbs k' = pcbs k /\ sched k' = sched k /\ fs k' = fs k
  else r = -1 /\ k' = k.
Proof.
  intros Hkm Hp Hptr. unfold vidmap. rewrite directory_index by done.
  case_decide as Hd; unfold user_base in *.
  - rewrite (proj2 (Z.eqb_neq ptr 0)) by lia. replace (ptr / 0x400000 =? 32) with true by words.
    cbn [negb]. intros Hend. set (K := k <| mmu_of ::= _ |>).
    assert (kernel_map (mmu_of K)) as HkmK by (apply paging_vidmap_kernel_map, Hkm).
    assert (user_page p (mmu_of K)) as HpK by apply (user_page_vidmap _ _ Hp).
    assert (vidmapped (mmu_of K) VID_START_ADDR) as Hv by apply (vidmapped_vidmap _ Hkm).
    rewrite memcpy_bytes by (lia || apply stable_at_obj).
    assert (store_bytes ptr (tabulate (Z.to_nat 4) (at_obj (zget (u8 <$> bytes32 VMEM_133MB)) K)) K
      = store32 ptr VMEM_133MB K) as -> by (unfold store32; apply store_bytes_cong; reflexivity).
    assert (inj_range K ptr 4) as Hinj by (eapply user_inj_range; unfold user_base; done || lia).
    split; [done|]. split; [rewrite load32_store32 by done; reflexivity|].
    unfold store32. autorewrite with word.
    split; [intros; by apply walk_user_video|]. do 2 (split; [done|]).
    split; [|done]. intros a Ha. change (phys k) with (phys K). apply phys_store_out. intros i Hi.
    change (zlen (bytes32 VMEM_133MB)) with 4 in Hi.
    rewrite (resolve_user K p) by (done || (unfold user_base; lia)). unfold user_base. lia.
  - destruct (ptr =? 0); [done|]. replace (ptr / 0x400000 =? 32) with false by words. done.
Qed.
(** The process of [demo_fs] with its page mapped. *)
Definition demo_running : kernel := demo_fs <| mmu_of ::= λ m, (paging_change_process 1 m).2 |>.
Lemma demo_running_map : kernel_map (mmu_of demo_running).
Proof. apply paging_change_process_kernel_map, demo_map. Qed.
Lemma demo_running_page : user_page 1 (mmu_of demo_running).
Proof. split; [lia|vm_compute; reflexivity]. Qed.
Lemma vidmap_grants_witness : (vidmap 0x8050000 demo_running).1 = 0.
Proof.
  pose proof (vidmap_grants demo_running 1 0x8050000 demo_running_map demo_running_page ltac:(lia)) as H.
  destruct (vidmap 0x8050000 demo_running) as [r k'].
  rewrite decide_True in H by (unfold user_base; lia).
  destruct H as [-> _]; [unfold user_base; lia|]. reflexivity.
Defined.

(** The arguments padded with zeros to [n] bytes. *)
Definition padded (n : nat) (l : list Z) : list Z := take n l ++ replicate (n - length l) 0.
Lemma padded_length n l : length (padded n l) = n.
Proof. unfold padded. rewrite length_app, length_take, length_replicate. lia. Qed.
Lemma padded_bytes n l : plain l -> bytes (padded n l).
Proof.
  intros Hl. apply Forall_app. split; [apply Forall_take, plain_bytes, Hl|].
  apply Forall_replicate. lia.
Qed.
Lemma getargs_stores k buf nbytes l :
  let p := get_pcb (get_pcb_address k) k in
  plain l -> zlen l < 128 -> arg_arr p = l ++ replicate (128 - length l) 0 ->
  buf <> 0 -> 0 <= nbytes -> arg_size p < nbytes ->
  getargs buf nbytes k = (0, store_bytes buf (padded (Z.to_nat nbytes) l) k).
Proof.
  intros p Hl Hl128 Harg Hb Hn Hs. unfold getargs. fold p.
  replace ((buf =? 0) || (nbytes <? 0) || (nbytes - 1 <? arg_size p)) with false by lia.
  rewrite strncpy_bytes by (lia || apply stable_at_obj).
  change (at_obj (zget (arg_arr p)) k) with (zget (arg_arr p)).
  rewrite (strncpy_result_cstr _ _ l); [done|..].
  - intros j Hj. rewrite Z.add_0_l, Harg, zget_app_l by lia.
    pose proof (plain_zget l j Hl Hj). split; [done|lia].
  - intros _. rewrite Z.add_0_l, Harg, zget_app_r by lia. rewrite Z.sub_diag.
    unfold zlen in Hl128. destruct (128 - length l)%nat eqn:E; [lia|done].
Qed.

(** [getargs] fails exactly for a NULL buffer, a negative size and a buffer of at most the
    length of the command line, and then changes nothing.  Otherwise the buffer holds the
    arguments, padded with zeros to its size, and nothing else has changed. *)
Theorem getargs_copies k buf nbytes l :
  let p := get_pcb (get_pcb_address k) k in
  plain l -> zlen l < 128 -> arg_arr p = l ++ replicate (128 - length l) 0 ->
  inj_range k buf nbytes ->
  let '(r, k') := getargs buf nbytes k in
  if decide (buf = 0 \/ nbytes < 0 \/ nbytes <= arg_size p) then r = -1 /\ k' = k
  else
    r = 0 /\ load_bytes k' buf (Z.to_nat nbytes) = take (Z.to_nat nbytes) l ++ replicate (Z.to_nat nbytes - length l) 0 /\
    (forall a, (forall i, 0 <= i < nbytes -> resolve k (buf + i) <> resolve k a) -> loadb k' a = loadb k a) /\
    pcbs k' = pcbs k /\ mmu_of k' = mmu_of k /\ sched k' = sched k.
Proof.
  intros p Hl Hl128 Harg Hinj. case_decide as Hd.
  - unfold getargs. fold p. by replace ((buf =? 0) || (nbytes <? 0) || (nbytes - 1 <? arg_size p)) with true by lia.
  - assert (buf <> 0 /\ 0 <= nbytes /\ arg_size p < nbytes) as (? & ? & ?) by lia.
    rewrite (getargs_stores k buf nbytes l) by done. set (out := padded _ l).
    assert (length out = Z.to_nat nbytes) as Hout by apply padded_length.
    assert (zlen out = nbytes) as Hzout by (unfold zlen; lia).
    split; [done|]. split; [|split; [|by autorewrite with word]].
    + change (_ ++ _) with out. rewrite <- Hout. rewrite load_bytes_store_bytes by (by rewrite Hzout).
      by apply fmap_u8_bytes, padded_bytes.
    + intros a Ha. apply loadb_store_bytes_out. rewrite Hzout. exact Ha.
Qed.
Lemma getargs_copies_witness : exists k', getargs 0x500000 8 demo_fs = (0, k') /\
  load_bytes k' 0x500000 8 = [0; 0; 0; 0; 0; 0; 0; 0].
Proof.
  assert (inj_range demo_fs 0x500000 8) as Hinj by (apply kernel_inj_range; [apply demo_map|lia|lia]).
  pose proof (getargs_copies demo_fs 0x500000 8 [] ltac:(constructor) ltac:(reflexivity)
    ltac:(vm_compute; reflexivity) Hinj) as H.
  destruct (getargs 0x500000 8 demo_fs) as [r k']. exists k'.
  rewrite decide_False in H by (intros [?|[?|Hc]]; [discriminate|lia|vm_compute in Hc; by apply Hc]).
  destruct H as (-> & Hl & _). split; [reflexivity|exact Hl].
Defined.
