(* ===== verification/Keyboard.v ===== *)
(** * The keyboard: student-distrib/keyboard.c

    [check_input] is the whole interrupt routine: the scan code is read from the port, the
    line of the visible terminal is edited and echoed through the video page, which is
    sent to video memory for the time, and the interrupt is acknowledged.  [temp0] is what
    the uninitialised local [temp] held.

    [editor] is the abstract machine it implements: a line editor per terminal, the state of
    the modifier keys, and the lines that were entered. *)
From S2P Require Import Prelude Machine Lib Paging Devices State Console Terminal.

Definition KEYBOARD_CMD_PORT : Z := 0x60.
Definition NUM_KEYS : Z := 255.
Definition LEFTSHIFT : Z := 0x2A.
Definition LEFTSHIFTRELEASED : Z := 0xAA.
Definition RIGHTSHIFT : Z := 0x36.
Definition RIGHTSHIFTRELEASED : Z := 0xB6.
Definition CAPSLOCK : Z := 0x3A.
Definition LEFTCONTROLPRESSED : Z := 0x1D.
Definition LEFTCONTROLRELEASED : Z := 0x9D.
Definition BACKSPACE : Z := 0x0E.
Definition ENTER : Z := 0x1C.
Definition ASCIILOWERCASEA : Z := 97.
Definition ASCIILOWERCASEZ : Z := 122.
Definition ASCII1 : Z := 49.
Definition ASCII9 : Z := 57.
Definition ALTPRESSED : Z := 0x38.
Definition ALTRELEASED : Z := 0xB8.
Definition ASCII_TO_HEX : Z := 32.

(** ** The tables *)

(** The initial [chararray]; the entries of the modifier keys become their state, the
    characters '0' (48) and '1' (49). *)
Definition keymap : list Z :=
  [32; 0] ++ text "1234567890-=btqwertyuiop[]" ++ [10] ++ text "0asdfghjkl;'`s\zxcvbnm,./r" ++
  [0; 0; 32] ++ replicate 197 0.
Definition shiftarray : list Z := text "~!@#$%^&*(".

Definition key (i : Z) (k : kernel) : Z := zget (chararray (kbd k)) i.
Definition set_key (i c : Z) (k : kernel) : kernel := k <| kbd ::= λ b, b <| chararray ::= zset i c |> |>.
Definition on_line (f : list Z -> list Z) (k : kernel) : kernel := k <| kbd ::= λ b, b <| linebuffer ::= f |> |>.
(** [linebuffer[i] = c] *)
Definition set_line (i c : Z) : prog kernel unit := λ k,
  if (0 <=? i) && (i <? KEYBOARD_BUFFER_LENGTH) then Ret tt (on_line (zset i c) k) else Ub.
(** [set_global_buffer(linebuffer, n)] *)
Definition save_line (n : Z) : prog kernel unit := modify (λ k, set_global_buffer (linebuffer (kbd k)) n k).

(** The character of a key while shift is held: the digits by [shiftarray], the others by
    the inner [switch], whose [default] leaves [temp] as it was. *)
Definition shifted (temp0 c : Z) : Z :=
  if (ASCII1 <=? c) && (c <=? ASCII9) then
    let x := c - 48 in
    if negb (zget shiftarray x =? 0) then zget shiftarray x else temp0
  else
    match c with
    | 45 => 95 | 61 => 43 | 91 => 123 | 93 => 125 | 96 => 126 | 92 => 124
    | 59 => 58 | 39 => 34 | 44 => 60 | 46 => 62 | 47 => 63 | 48 => 41
    | _ => temp0
    end.

(** ** The routine *)
Section Input.
Context (temp0 : Z).

(** The three ways a character is typed. *)
Definition type_upper (temp numberofchars : Z) : prog kernel unit :=
  _ ← set_line numberofchars temp;
  _ ← modify (putc temp);
  _ ← modify update_cursor;
  save_line (numberofchars + 1).
Definition type_char (temp numberofchars : Z) : prog kernel unit :=
  _ ← set_line numberofchars temp;
  _ ← modify (putc temp);
  _ ← save_line (numberofchars + 1);
  modify update_cursor.
Definition clear_screen : prog kernel unit :=
  _ ← modify clear;
  _ ← modify (setposition 0 0);
  _ ← modify update_cursor;
  _ ← modify (on_line (memset 0 0 KEYBOARD_BUFFER_LENGTH));
  save_line 0.

(** Alt and a function key. *)
Definition switch_key (a numberofchars : Z) : prog kernel Z :=
  alt ← get (key 0x38);
  if alt =? 49 then
    _ ← modify (if a =? 0x3C then switch_terminals 1
                else if a =? 0x3D then switch_terminals 2
                else if a =? 0x3B then switch_terminals 0
                else id);
    get get_current_noc
  else mret numberofchars.

(** The [default] case. *)
Definition default_char (a numberofchars : Z) : prog kernel unit := λ k,
  let caps := key CAPSLOCK k =? 49 in
  let shift := (key LEFTSHIFT k =? 49) || (key RIGHTSHIFT k =? 49) in
  if NUM_KEYS <=? a then Ub
  else
    let c := key a k in
    if (caps || shift) && (ASCIILOWERCASEA <=? c) && (c <=? ASCIILOWERCASEZ) then
      let temp := if caps && shift then c else c - ASCII_TO_HEX in
      if (temp =? 76) && (key LEFTCONTROLPRESSED k =? 49) then clear_screen k
      else if negb (numberofchars =? KEYBOARD_BUFFER_LENGTH - 1) then type_upper temp numberofchars k
      else Ret tt k
    else if shift then
      if negb (c =? 0) && negb (numberofchars =? KEYBOARD_BUFFER_LENGTH - 1) then
        type_char (shifted temp0 c) numberofchars k
      else Ret tt k
    else if negb (c =? 0) && negb (numberofchars =? KEYBOARD_BUFFER_LENGTH - 1) then
      type_char c numberofchars k
    else Ret tt k.
Definition default_key (a numberofchars : Z) : prog kernel unit :=
  numberofchars ← switch_key a numberofchars;
  default_char a numberofchars.

Definition backspace_key (numberofchars : Z) : prog kernel unit :=
  if negb (numberofchars =? 0) then
    _ ← modify handlebackspace;
    _ ← set_line numberofchars 0;
    save_line (numberofchars - 1)
  else mret tt.
Definition enter_key (numberofchars : Z) : prog kernel unit :=
  _ ← modify (λ k, putc (key ENTER k) k);
  _ ← set_line numberofchars 10;
  line ← get (λ k, linebuffer (kbd k));
  _ ← set_terminal_buffer line numberofchars;
  _ ← modify (on_line (memset 0 0 KEYBOARD_BUFFER_LENGTH));
  save_line 0.

(** The [switch] on the scan code. *)
Definition handle_key (a numberofchars : Z) : prog kernel unit :=
  if a =? LEFTSHIFT then modify (set_key LEFTSHIFT 49)
  else if a =? LEFTSHIFTRELEASED then modify (set_key LEFTSHIFT 48)
  else if a =? RIGHTSHIFT then modify (set_key RIGHTSHIFT 49)
  else if a =? RIGHTSHIFTRELEASED then modify (set_key RIGHTSHIFT 48)
  else if a =? LEFTCONTROLPRESSED then modify (set_key LEFTCONTROLPRESSED 49)
  else if a =? LEFTCONTROLRELEASED then modify (set_key LEFTCONTROLPRESSED 48)
  else if a =? ALTPRESSED then modify (set_key ALTPRESSED 49)
  else if a =? ALTRELEASED then modify (set_key ALTPRESSED 48)
  else if a =? BACKSPACE then backspace_key numberofchars
  else if a =? ENTER then enter_key numberofchars
  else if a =? CAPSLOCK then modify (λ k, set_key CAPSLOCK (if key CAPSLOCK k =? 48 then 49 else 48) k)
  else default_key a numberofchars.

Definition check_input : prog kernel unit :=
  numberofchars ← get get_current_noc;
  _ ← modify (λ k, on_line (λ l, set_line_buffer l k) k);
  _ ← modify (λ k, setposition (get_global_screen_x k) (get_global_screen_y k) k);
  a ← get (λ k, inb KEYBOARD_CMD_PORT (devs k));
  _ ← mmu_op paging_set_write_to_videomem;
  _ ← handle_key a numberofchars;
  _ ← modify (λ k,
        if negb (get_current_terminal k =? get_visable_terminal k) then
          k <| mmu_of ::= paging_set_write_to_buffer (get_current_terminal k) |>
        else k);
  dev_op (I8259.send_eoi 1).
End Input.

Definition init_keyboard (k : kernel) : kernel :=
  let k := k <| devs ::= I8259.enable_irq 1 |> in
  let k := set_key CAPSLOCK 48 k in
  let k := set_key LEFTSHIFT 48 k in
  set_key ALTPRESSED 48 k.

(** ** The abstract line editor *)
Record modifiers := Modifiers { m_caps : bool; m_left : bool; m_right : bool; m_ctrl : bool; m_alt : bool }.
Record editor := Editor {
  ed_mods : modifiers;
  ed_shown : Z;                          (* the visible terminal *)
  ed_terms : list (view * list Z);       (* each terminal's screen and the line being typed *)
  ed_entered : list (option (list Z))    (* the line that waits to be read *)
}.
#[export] Instance ed_term_inhabited : Inhabited (view * list Z) := populate (View [] 0 0, []).

(** What a key does to the visible terminal. *)
Inductive action := Modify (m : modifiers) | Rub | Enter | Show (t : Z) | Wipe | Type_char (c : Z) | Nothing.

Definition lower (c : Z) : bool := (97 <=? c) && (c <=? 122).
Definition char_action (temp0 : Z) (m : modifiers) (c : Z) : action :=
  let shift := m_left m || m_right m in
  if c =? 0 then Nothing
  else if lower c then
    if xorb (m_caps m) shift then (if (c =? 108) && m_ctrl m then Wipe else Type_char (c - 32)) else Type_char c
  else if shift then Type_char (shifted temp0 c)
  else Type_char c.
Definition key_action (temp0 : Z) (m : modifiers) (a : Z) : action :=
  let '(Modifiers caps lsh rsh ctrl alt) := m in
  if a =? LEFTSHIFT then Modify (Modifiers caps true rsh ctrl alt)
  else if a =? LEFTSHIFTRELEASED then Modify (Modifiers caps false rsh ctrl alt)
  else if a =? RIGHTSHIFT then Modify (Modifiers caps lsh true ctrl alt)
  else if a =? RIGHTSHIFTRELEASED then Modify (Modifiers caps lsh false ctrl alt)
  else if a =? LEFTCONTROLPRESSED then Modify (Modifiers caps lsh rsh true alt)
  else if a =? LEFTCONTROLRELEASED then Modify (Modifiers caps lsh rsh false alt)
  else if a =? ALTPRESSED then Modify (Modifiers caps lsh rsh ctrl true)
  else if a =? ALTRELEASED then Modify (Modifiers caps lsh rsh ctrl false)
  else if a =? CAPSLOCK then Modify (Modifiers (negb caps) lsh rsh ctrl alt)
  else if a =? BACKSPACE then Rub
  else if a =? ENTER then Enter
  else if alt && (0x3B <=? a) && (a <=? 0x3D) then Show (a - 0x3B)
  else char_action temp0 m (zget keymap a).

Definition edit_term (f : view * list Z -> view * list Z) (e : editor) : editor :=
  Editor (ed_mods e) (ed_shown e) (zset (ed_shown e) (f (zget (ed_terms e) (ed_shown e))) (ed_terms e)) (ed_entered e).
Definition act (x : action) (e : editor) : editor :=
  let line := (zget (ed_terms e) (ed_shown e)).2 in
  match x with
  | Nothing => e
  | Modify m => Editor m (ed_shown e) (ed_terms e) (ed_entered e)
  | Show t => Editor (ed_mods e) t (ed_terms e) (ed_entered e)
  | Wipe => edit_term (λ _, (View (replicate CELLS (32, ATTRIB)) 0 0, [])) e
  | Rub => if zlen line =? 0 then e else edit_term (λ '(v, l), (rub v, take (length l - 1) l)) e
  | Type_char c => if zlen line =? 127 then e else edit_term (λ '(v, l), (put c v, l ++ [c])) e
  | Enter =>
      let e' := edit_term (λ '(v, l), (put 10 v, [])) e in
      Editor (ed_mods e') (ed_shown e') (ed_terms e') (zset (ed_shown e) (Some line) (ed_entered e))
  end.
Definition press (temp0 a : Z) (e : editor) : editor := act (key_action temp0 (ed_mods e) a) e.

(** ** The abstraction *)
Definition mods_of (k : kernel) : modifiers :=
  let on i := key i k =? 49 in
  Modifiers (on CAPSLOCK) (on LEFTSHIFT) (on RIGHTSHIFT) (on LEFTCONTROLPRESSED) (on ALTPRESSED).

(** The screen of terminal [t], wherever it is kept, and its line. *)
Definition term_view (t : Z) (k : kernel) : view :=
  View (tabulate CELLS (λ i, (screen_byte k t (2 * i), screen_byte k t (2 * i + 1))))
    (screen_x (get_terminal t k)) (screen_y (get_terminal t k)).
Definition typed_of (T : terminal_t) : list Z := take (Z.to_nat (noc T)) (lb T).
Definition editor_of (k : kernel) : editor :=
  Editor (mods_of k) (visable_term (sched k))
    (tabulate 3 (λ t, (term_view t k, typed_of (get_terminal t k))))
    (tabulate 3 (λ t, entered t (term k))).

Definition is_modifier (i : Z) : bool :=
  (i =? CAPSLOCK) || (i =? LEFTSHIFT) || (i =? RIGHTSHIFT) || (i =? LEFTCONTROLPRESSED) || (i =? ALTPRESSED).
Record keys_wf (ca : list Z) : Prop := {
  kw_len : zlen ca = NUM_KEYS;
  kw_map : forall i, 0 <= i < NUM_KEYS -> is_modifier i = false -> zget ca i = zget keymap i;
  kw_caps : zget ca CAPSLOCK = 48 \/ zget ca CAPSLOCK = 49
}.
Record line_wf (T : terminal_t) : Prop := {
  lw_len : zlen (lb T) = 128;
  lw_bytes : bytes (lb T);
  lw_noc : 0 <= noc T <= 127
}.
Record input_wf (k : kernel) : Prop := {
  iw_console : console_wf k;
  iw_bufs : bufs_ok k;
  iw_term : term_wf (term k);
  iw_keys : keys_wf (chararray (kbd k));
  iw_lines : forall t, 0 <= t < 3 -> line_wf (get_terminal t k);
  iw_buffer : zlen (linebuffer (kbd k)) = 128 /\ bytes (linebuffer (kbd k))
}.

(** What follows the video page while it shows video memory. *)
Definition video_mode (k : kernel) : Prop := video_target (mmu_of k) = VID_START_ADDR.
Lemma video_view k :
  console_wf k -> video_mode k -> view_of (visable_term (sched k)) k = term_view (visable_term (sched k)) k.
Proof.
  intros [Hkm Hs] Hv. unfold view_of, term_view. f_equal. apply tabulate_ext. intros i Hi.
  assert (forall off, 0 <= off < 4000 -> loadb k (VIDEO + off) = screen_byte k (visable_term (sched k)) off) as Hb.
  { intros off Hoff. unfold screen_byte, frame_of. rewrite Z.eqb_refl, loadb_phys, resolve_video by (done || lia).
    by rewrite Hv. }
  replace (VIDEO + 2 * i + 1) with (VIDEO + (2 * i + 1)) by lia. by rewrite !Hb by lia.
Qed.

(** ** Copying a line *)
Lemma copy_prefix src dst n :
  bytes src -> 0 <= n <= zlen src -> n <= zlen dst ->
  memcpy (at_obj (zget src)) 0 n dst = take (Z.to_nat n) src ++ drop (Z.to_nat n) dst.
Proof.
  intros Hb Hn Hd. rewrite memcpy_bytes by (lia || apply stable_at_obj).
  assert (zlen (tabulate (Z.to_nat n) (at_obj (zget src) dst)) = n) as Hl by (rewrite zlen_tabulate; lia).
  apply zget_ext.
  - rewrite zlen_array_store, zlen_app, zlen_take, zlen_drop by lia. lia.
  - rewrite zlen_array_store. intros i Hi. rewrite zget_array_store by lia. rewrite Hl.
    destruct (decide (i < n)) as [Hin|Hin].
    + rewrite decide_True by lia. rewrite zget_app_l by (rewrite zlen_take; lia).
      rewrite zget_tabulate by lia. unfold at_obj. rewrite Z.sub_0_r. rewrite zget_take by lia.
      apply u8_id. apply bytes_get; [done|lia].
    + rewrite decide_False by lia. rewrite zget_app_r, zlen_take by (rewrite ?zlen_take; lia).
      rewrite zget_drop by lia. f_equal. lia.
Qed.

Lemma memset_line l : zlen l = 128 -> memset 0 0 KEYBOARD_BUFFER_LENGTH l = replicate 128 0.
Proof. exact (clear_buffer_zero l). Qed.
Lemma on_line_buffer f k : linebuffer (kbd (on_line f k)) = f (linebuffer (kbd k)).
Proof. done. Qed.
Lemma on_line_eta f k : k <| kbd := kbd (on_line f k) |> <| term := term k |> = on_line f k.
Proof. by destruct k. Qed.
Lemma on_line_keys f k : chararray (kbd (on_line f k)) = chararray (kbd k).
Proof. done. Qed.

(** [set_line_buffer] brings the line being typed into [linebuffer]. *)
Lemma set_line_buffer_line k lbuf :
  line_wf (get_terminal (visable_term (sched k)) k) -> zlen lbuf = 128 ->
  let T := get_terminal (visable_term (sched k)) k in
  set_line_buffer lbuf k = typed_of T ++ drop (Z.to_nat (noc T)) lbuf.
Proof.
  intros [Hl Hb Hn] Hlb. cbv zeta. unfold set_line_buffer, typed_of. cbv zeta. apply copy_prefix; [done|lia|lia].
Qed.
Lemma zlen_typed T : line_wf T -> zlen (typed_of T) = noc T.
Proof. intros [Hl Hb Hn]. apply zlen_take. lia. Qed.
Lemma bytes_typed T : line_wf T -> bytes (typed_of T).
Proof. intros [Hl Hb Hn]. by apply Forall_take. Qed.

(** [set_global_buffer] puts it back. *)
Lemma set_global_buffer_line k buf n :
  sched_wf (sched k) -> line_wf (get_terminal (visable_term (sched k)) k) ->
  bytes buf -> zlen buf = 128 -> 0 <= n <= 127 ->
  let v := visable_term (sched k) in
  exists T, set_global_buffer buf n k = put_terminal v T k /\ line_wf T /\ typed_of T = take (Z.to_nat n) buf /\
    T = get_terminal v k <| noc := noc T |> <| lb := lb T |>.
Proof.
  intros Hs [Hl Hb Hn'] Hbuf Hlb Hn v. pose proof (sw_visable _ Hs) as Hv. fold v in Hv. set (T0 := get_terminal v k) in *.
  exists (T0 <| noc := n |> <| lb ::= memcpy (at_obj (zget buf)) 0 n |>).
  assert (memcpy (at_obj (zget buf)) 0 n (lb T0) = take (Z.to_nat n) buf ++ drop (Z.to_nat n) (lb T0)) as Hc.
  { apply copy_prefix; [done|lia|]. unfold T0, v in *. lia. }
  assert (lb (T0 <| noc := n |> <| lb ::= memcpy (at_obj (zget buf)) 0 n |>)
          = take (Z.to_nat n) buf ++ drop (Z.to_nat n) (lb T0)) as HlbT by exact Hc.
  assert (zlen (lb T0) = 128) as Hl0 by exact Hl.
  split; [|split; [split|split; [|done]]].
  - unfold set_global_buffer. change (set_terminal v (λ t, t <| noc := n |>) k) with (put_terminal v (T0 <| noc := n |>) k).
    cbv zeta. change (visable_term (sched (put_terminal v (T0 <| noc := n |>) k))) with v.
    unfold set_terminal. fold v.
    change (put_terminal v (zget (terminals (sched (put_terminal v (T0 <| noc := n |>) k))) v <| lb ::= memcpy (at_obj (zget buf)) 0 n |>)
      (put_terminal v (T0 <| noc := n |>) k) = put_terminal v (T0 <| noc := n |> <| lb ::= memcpy (at_obj (zget buf)) 0 n |>) k).
    fold (get_terminal v (put_terminal v (T0 <| noc := n |>) k)).
    by rewrite get_put_terminal, put_put_terminal.
  - rewrite HlbT, zlen_app, zlen_take, zlen_drop by lia. lia.
  - rewrite HlbT. apply Forall_app. split; [by apply Forall_take|by apply Forall_drop].
  - exact Hn.
  - unfold typed_of. rewrite HlbT. change (noc _) with n.
    rewrite take_app_le, take_take by (rewrite length_take; unfold zlen in *; lia). f_equal. lia.
Qed.

(** ** An edit: the visible terminal shows [v] and holds the line [l] *)
Definition same_process (T T' : terminal_t) : Prop :=
  pid T = pid T' /\ term_esp T = term_esp T' /\ term_ebp T = term_ebp T'.
Record edited (v : view) (l : list Z) (k k' : kernel) : Prop := {
  ed_wf : console_wf k';
  ed_view : view_of (visable_term (sched k)) k' = v;
  ed_rest : exists T, line_wf T /\ typed_of T = l /\
    same_process T (get_terminal (visable_term (sched k)) k) /\
    k' = put_terminal (visable_term (sched k)) T
           (k <| phys := phys k' |> <| devs := devs k' |> <| kbd := kbd k' |> <| term := term k' |>);
  ed_keys : chararray (kbd k') = chararray (kbd k);
  ed_buffer : zlen (linebuffer (kbd k')) = 128 /\ bytes (linebuffer (kbd k'));
  ed_out : forall p, ~ (video_target (mmu_of k) <= p < video_target (mmu_of k) + 4000) ->
    phys k' !! p = phys k !! p
}.

(** Moving the cursor again does not matter. *)
Lemma edited_devs v l k k' d : edited v l k k' -> edited v l k (k' <| devs := d |>).
Proof.
  intros [Hwf Hv (T & HT & Hl & Hp & Hr) Hk Hb Ho]. split; [|exact Hv| |done|done|exact Ho].
  - by destruct Hwf.
  - exists T. split; [done|]. split; [done|]. split; [done|]. rewrite Hr at 1. done.
Qed.

(** The screen is changed, from [k0] to [k1], and then the line saved. *)
Lemma edited_save k k0 k1 v kb tm n :
  input_wf k -> k0 = k <| kbd := kbd k0 |> -> shows v k0 k1 ->
  chararray kb = chararray (kbd k) -> zlen (linebuffer kb) = 128 -> bytes (linebuffer kb) -> 0 <= n <= 127 ->
  edited v (take (Z.to_nat n) (linebuffer kb)) k
    (set_global_buffer (linebuffer kb) n (k1 <| kbd := kb |> <| term := tm |>)).
Proof.
  intros Hw Hk0 [Hwf1 Hv1 _ Hr1 Ho1] Hkeys Hlen Hbytes Hn. destruct (iw_console _ Hw) as [Hkm Hs].
  set (t := visable_term (sched k)). pose proof (sw_visable _ Hs) as Ht. fold t in Ht.
  assert (sched k0 = sched k) as Hs0 by (by rewrite Hk0). assert (mmu_of k0 = mmu_of k) as Hm0 by (by rewrite Hk0).
  assert (phys k0 = phys k) as Hp0 by (by rewrite Hk0).
  unfold visable_sel, get_terminal in Hv1, Hr1. rewrite Hs0 in Hv1, Hr1. rewrite Hm0, Hp0 in Ho1. fold t in Hv1, Hr1.
  fold (get_terminal t k) in Hr1. pose proof (iw_lines _ Hw t Ht) as Hline.
  set (T1 := get_terminal t k <| screen_x := cursor_x v |> <| screen_y := cursor_y v |>) in *.
  set (K := k1 <| kbd := kb |> <| term := tm |>).
  assert (get_terminal t K = T1) as HT1.
  { change (get_terminal t k1 = T1). rewrite Hr1. apply get_put_terminal; [|done]. cbn. by rewrite Hs0. }
  assert (visable_term (sched K) = t) as HtK by (change (visable_term (sched k1) = t); rewrite Hr1; cbn; by rewrite Hs0).
  destruct (set_global_buffer_line K (linebuffer kb) n) as (T & HT & HlT & Hty & HTeq); rewrite ?HtK, ?HT1; try done.
  { by destruct Hwf1. }
  { destruct Hline; by split. }
  cbv zeta in HT. rewrite HtK in HT. rewrite HtK, HT1 in HTeq. rewrite HT. clear HT.
  assert (screen_x T = cursor_x v /\ screen_y T = cursor_y v) as [Hx Hy] by (rewrite HTeq; done).
  assert (same_process T (get_terminal t k)) as Hsp by (rewrite HTeq; done).
  pose proof (f_equal screen_x HT1) as Hx1. pose proof (f_equal screen_y HT1) as Hy1.
  assert (sched_wf (sched K)) as HsK by (by destruct Hwf1).
  split; fold t; [| | |exact Hkeys|split; [exact Hlen|exact Hbytes]|exact Ho1].
  - split; [by destruct Hwf1|]. apply sched_wf_put; [done|done| |]; rewrite ?Hx, ?Hy.
    + pose proof (sw_cursor _ HsK t Ht) as Hc. change (zget (terminals (sched K)) t) with (get_terminal t K) in Hc.
      rewrite HT1 in Hc. apply Hc.
    + pose proof (sw_cursor _ HsK t Ht) as Hc. change (zget (terminals (sched K)) t) with (get_terminal t K) in Hc.
      rewrite HT1 in Hc. apply Hc.
  - rewrite <- Hv1. unfold view_of. rewrite get_put_terminal by done. rewrite Hx, Hy.
    change (get_terminal t k1) with (get_terminal t K). rewrite HT1. done.
  - exists T. split; [done|]. split; [done|]. split; [done|].
    unfold K. rewrite Hr1, Hk0. unfold put_terminal, upd, set_sched, set_terminals. cbn. by rewrite zset_zset.
Qed.

(** *** What an edit means for the abstract state *)
Lemma tabulate_zset {A} `{Inhabited A} (n : nat) (f g : Z -> A) t x :
  0 <= t < Z.of_nat n -> (forall i, 0 <= i < Z.of_nat n -> g i = if decide (i = t) then x else f i) ->
  tabulate n g = zset t x (tabulate n f).
Proof.
  intros Ht Hg. apply zget_ext; rewrite ?zlen_zset, !zlen_tabulate; [done|]. intros i Hi.
  rewrite zget_tabulate, Hg by lia. case_decide as Hd.
  - subst i. by rewrite zget_zset_eq by (rewrite zlen_tabulate; lia).
  - rewrite zget_zset_ne by lia. by rewrite zget_tabulate by lia.
Qed.
Lemma zget_terms k t :
  0 <= t < 3 -> zget (ed_terms (editor_of k)) t = (term_view t k, typed_of (get_terminal t k)).
Proof. intros Ht. cbn [ed_terms editor_of]. rewrite zget_tabulate by lia. done. Qed.
Lemma mods_same k k' : chararray (kbd k') = chararray (kbd k) -> mods_of k' = mods_of k.
Proof. intros Hk. unfold mods_of, key. by rewrite Hk. Qed.
Lemma term_view_same k k' t :
  get_terminal t k' = get_terminal t k -> (forall i, 0 <= i < 4000 -> screen_byte k' t i = screen_byte k t i) ->
  term_view t k' = term_view t k.
Proof.
  intros HT Hb. unfold term_view. rewrite HT. f_equal. apply tabulate_ext. intros i Hi. by rewrite !Hb by lia.
Qed.

Lemma edited_visable v l k k' : edited v l k k' -> visable_term (sched k') = visable_term (sched k).
Proof. intros [_ _ (T & _ & _ & _ & ->) _ _ _]. done. Qed.
Lemma edited_mmu v l k k' : edited v l k k' -> mmu_of k' = mmu_of k.
Proof. intros [_ _ (T & _ & _ & _ & ->) _ _ _]. done. Qed.
Lemma edited_other v l k k' t :
  input_wf k -> edited v l k k' -> 0 <= t < 3 -> t <> visable_term (sched k) -> get_terminal t k' = get_terminal t k.
Proof.
  intros Hw [_ _ (T & _ & _ & _ & ->) _ _ _] Ht Hne. destruct (iw_console _ Hw) as [_ Hs].
  pose proof (sw_visable _ Hs). by rewrite get_put_terminal_ne by (done || lia).
Qed.
Lemma edited_line v l k k' :
  input_wf k -> edited v l k k' ->
  line_wf (get_terminal (visable_term (sched k)) k') /\ typed_of (get_terminal (visable_term (sched k)) k') = l /\
  same_process (get_terminal (visable_term (sched k)) k') (get_terminal (visable_term (sched k)) k).
Proof.
  intros Hw [_ _ (T & H1 & H2 & H3 & ->) _ _ _]. destruct (iw_console _ Hw) as [_ Hs].
  by rewrite get_put_terminal by (done || apply sw_visable, Hs).
Qed.

Lemma edited_input v l k k' : input_wf k -> term_wf (term k') -> edited v l k k' -> input_wf k'.
Proof.
  intros Hw Htw He. destruct (edited_line _ _ _ _ Hw He) as [Hl _].
  split; [by destruct He| |done| | |by destruct He].
  - unfold bufs_ok. destruct He as [_ _ (T & _ & _ & _ & ->) _ _ _]. exact (iw_bufs _ Hw).
  - rewrite (ed_keys _ _ _ _ He). exact (iw_keys _ Hw).
  - intros t Ht. destruct (decide (t = visable_term (sched k))) as [->|Hne]; [done|].
    rewrite (edited_other v l k k') by done. by apply (iw_lines _ Hw).
Qed.

Lemma edited_editor v l k k' :
  input_wf k -> video_mode k -> edited v l k k' ->
  editor_of k' = let e := edit_term (λ _, (v, l)) (editor_of k) in
    Editor (ed_mods e) (ed_shown e) (ed_terms e) (tabulate 3 (λ t, entered t (term k'))).
Proof.
  intros Hw Hvm He. destruct (iw_console _ Hw) as [Hkm Hs]. pose proof (sw_visable _ Hs) as Ht.
  unfold editor_of, edit_term. cbn [ed_mods ed_shown ed_terms ed_entered].
  rewrite (mods_same k k') by apply He. rewrite (edited_visable _ _ _ _ He). f_equal.
  apply tabulate_zset; [lia|]. intros t Ht3. case_decide as Hd.
  - subst t. destruct (edited_line _ _ _ _ Hw He) as (_ & -> & _). f_equal.
    rewrite <- (ed_view _ _ _ _ He). rewrite <- (edited_visable _ _ _ _ He). symmetry. apply video_view.
    + apply He.
    + unfold video_mode. by rewrite (edited_mmu _ _ _ _ He).
  - rewrite (edited_other v l k k') by done. f_equal. apply term_view_same; [by apply (edited_other v l)|].
    intros i Hi. unfold screen_byte, frame_of, phys_byte. rewrite (edited_visable _ _ _ _ He).
    rewrite (ed_out _ _ _ _ He); [done|]. rewrite Hvm.
    rewrite (proj2 (Z.eqb_neq _ _) Hd). unfold VID_START_ADDR, T1_BUF_ADDR. lia.
Qed.
Lemma edited_same_term v l k k' :
  input_wf k -> video_mode k -> edited v l k k' -> term k' = term k ->
  input_wf k' /\ editor_of k' = edit_term (λ _, (v, l)) (editor_of k).
Proof.
  intros Hw Hvm He Htm. split; [apply (edited_input v l k); [done|rewrite Htm; apply Hw|done]|].
  rewrite (edited_editor v l k k' Hw Hvm He), Htm. done.
Qed.

(** ** The handlers *)

(** What no key touches. *)
Record quiet (k k' : kernel) : Prop := {
  qu_rest : k' = k <| mmu_of := mmu_of k' |> <| phys := phys k' |> <| sched := sched k' |> <| term := term k' |>
                   <| kbd := kbd k' |> <| devs := devs k' |>;
  qu_current : current_term (sched k') = current_term (sched k) /\ is_on (sched k') = is_on (sched k);
  qu_process : forall t, 0 <= t < 3 -> same_process (get_terminal t k') (get_terminal t k);
  qu_directory : page_directory (tables (mmu_of k')) = page_directory (tables (mmu_of k));
  qu_phys : forall p, ~ (VID_START_ADDR <= p < T3_BUF_ADDR + 4096) -> phys k' !! p = phys k !! p
}.
Lemma quiet_refl k : quiet k k.
Proof. split; [by destruct k|done..]. Qed.
Lemma quiet_trans k1 k2 k3 : quiet k1 k2 -> quiet k2 k3 -> quiet k1 k3.
Proof.
  intros [Hr1 Hc1 Hp1 Hd1 Ho1] [Hr2 Hc2 Hp2 Hd2 Ho2]. split; [| | |by rewrite Hd2|].
  - rewrite Hr2, Hr1. done.
  - destruct Hc1 as [<- <-]. exact Hc2.
  - intros t Ht. destruct (Hp1 t Ht) as (? & ? & ?), (Hp2 t Ht) as (? & ? & ?). split; [|split]; congruence.
  - intros p Hp. by rewrite Ho2, Ho1.
Qed.
Lemma edited_quiet v l k k' : input_wf k -> video_mode k -> edited v l k k' -> quiet k k'.
Proof.
  intros Hw Hvm He. split.
  - destruct He as [_ _ (T & _ & _ & _ & Hr) _ _ _]. rewrite Hr at 1. by rewrite Hr.
  - destruct He as [_ _ (T & _ & _ & _ & ->) _ _ _]. done.
  - intros t Ht. destruct (decide (t = visable_term (sched k))) as [->|Hne]; [by apply (edited_line v l)|].
    by rewrite (edited_other v l k k').
  - by rewrite (edited_mmu _ _ _ _ He).
  - intros p Hp. apply He. rewrite Hvm. unfold VID_START_ADDR, T3_BUF_ADDR in *. lia.
Qed.

(** What a handler must achieve. *)
Record handled (x : action) (k k' : kernel) : Prop := {
  ha_input : input_wf k';
  ha_editor : editor_of k' = act x (editor_of k);
  ha_quiet : quiet k k';
  ha_video : video_mode k' \/ coherent k'
}.
(** [linebuffer] starts with the line of the visible terminal. *)
Definition lined (k : kernel) : Prop :=
  let T := get_terminal (visable_term (sched k)) k in
  take (Z.to_nat (noc T)) (linebuffer (kbd k)) = typed_of T.

Section Handlers.
Context (k : kernel) (Hw : input_wf k) (Hvm : video_mode k) (Hln : lined k).
Local Abbreviation vis := (visable_term (sched k)).
Local Abbreviation T := (get_terminal vis k).

Lemma shown_line : zget (ed_terms (editor_of k)) vis = (view_of vis k, typed_of T).
Proof.
  pose proof (iw_console _ Hw) as Hc. rewrite zget_terms by (apply sw_visable, Hc). by rewrite video_view.
Qed.
Lemma vis_line : line_wf T.
Proof. apply (iw_lines _ Hw), sw_visable, (iw_console _ Hw). Qed.
Lemma editing v l k' f :
  edited v l k k' -> term k' = term k -> f (view_of vis k, typed_of T) = (v, l) ->
  input_wf k' /\ editor_of k' = edit_term f (editor_of k) /\ quiet k k' /\ video_mode k'.
Proof.
  intros He Htm Hf. destruct (edited_same_term v l k k' Hw Hvm He Htm) as [Hi Hed].
  split; [done|]. split; [|split; [by apply (edited_quiet v l)|]].
  - rewrite Hed. unfold edit_term. change (ed_shown (editor_of k)) with vis. by rewrite shown_line, Hf.
  - unfold video_mode. by rewrite (edited_mmu _ _ _ _ He).
Qed.

Lemma on_line_wf f : console_wf (on_line f k).
Proof. by destruct (iw_console _ Hw). Qed.

(** Typing one character, in either order of the last two statements. *)
Lemma typing c n :
  n = noc T -> n <> 127 -> 0 <= c < 256 ->
  set_line n c k = Ret tt (on_line (zset n c) k) /\
  edited (put c (view_of vis k)) (typed_of T ++ [c]) k
    (set_global_buffer (zset n c (linebuffer (kbd k))) (n + 1) (putc c (on_line (zset n c) k))).
Proof.
  intros Hn Hne Hc. destruct vis_line as [Hl Hb Hnoc]. destruct (iw_buffer _ Hw) as [Hlen Hbytes]. split.
  - unfold set_line, KEYBOARD_BUFFER_LENGTH. by replace ((0 <=? n) && (n <? 128)) with true by lia.
  - set (k0 := on_line (zset n c) k). pose proof (putc_shows c k0 (on_line_wf _)) as Hsh.
    change (view_of (visable_sel k0) k0) with (view_of vis k) in Hsh.
    pose proof (edited_save k k0 (putc c k0) _ (kbd k0) (term (putc c k0)) (n + 1) Hw eq_refl Hsh eq_refl) as He.
    change (linebuffer (kbd k0)) with (zset n c (linebuffer (kbd k))) in He.
    replace (take (Z.to_nat (n + 1)) (zset n c (linebuffer (kbd k)))) with (typed_of T ++ [c]) in He.
    + assert (kbd (putc c k0) = kbd k0) as Hkb by (by rewrite (sh_rest _ _ _ Hsh)).
      replace (putc c k0 <| kbd := kbd k0 |> <| term := term (putc c k0) |>) with (putc c k0) in He
        by (rewrite <- Hkb; by destruct (putc c k0)).
      apply He; [by rewrite zlen_zset| |lia]. by apply Forall_insert.
    + rewrite take_snoc by (rewrite zlen_zset; lia). rewrite zget_zset_eq by lia.
      unfold zset. rewrite take_insert_ge by lia. rewrite Hn. by rewrite Hln.
Qed.

Lemma handled_edit x v l f k' :
  edited v l k k' -> term k' = term k -> f (view_of vis k, typed_of T) = (v, l) ->
  act x (editor_of k) = edit_term f (editor_of k) -> handled x k k'.
Proof.
  intros He Htm Hf Ha. destruct (editing v l k' f He Htm Hf) as (H1 & H2 & H3 & H4).
  split; [done|by rewrite Ha|done|by left].
Qed.
Lemma handled_nothing x : act x (editor_of k) = editor_of k -> handled x k k.
Proof. intros Ha. split; [done|done|apply quiet_refl|by left]. Qed.
Lemma line_length : zlen (zget (ed_terms (editor_of k)) (ed_shown (editor_of k))).2 = noc T.
Proof. change (ed_shown (editor_of k)) with vis. rewrite shown_line. cbn [snd]. by rewrite zlen_typed by apply vis_line. Qed.

Lemma typing_handled c n :
  n = noc T -> n <> 127 -> 0 <= c < 256 ->
  let K := set_global_buffer (zset n c (linebuffer (kbd k))) (n + 1) (putc c (on_line (zset n c) k)) in
  forall d, handled (Type_char c) k (K <| devs := d |>).
Proof.
  intros Hn Hne Hc K d. destruct (typing c n Hn Hne Hc) as [_ He]. fold K in He.
  apply (handled_edit _ (put c (view_of vis k)) (typed_of T ++ [c]) (λ '(v, l), (put c v, l ++ [c]))).
  - by apply edited_devs.
  - unfold K. change (term (putc c (on_line (zset n c) k)) = term k).
    rewrite (sh_rest _ _ _ (putc_shows c _ (on_line_wf (zset n c)))). done.
  - done.
  - unfold act. rewrite line_length, <- Hn. by rewrite (proj2 (Z.eqb_neq _ 127)).
Qed.
Lemma putc_kbd c f : kbd (putc c (on_line f k)) = kbd (on_line f k).
Proof. by rewrite (sh_rest _ _ _ (putc_shows c _ (on_line_wf f))). Qed.
Lemma type_char_handled c n :
  n = noc T -> n <> 127 -> 0 <= c < 256 ->
  (exists k', type_upper c n k = Ret tt k' /\ handled (Type_char c) k k') /\
  (exists k', type_char c n k = Ret tt k' /\ handled (Type_char c) k k').
Proof.
  intros Hn Hne Hc. destruct (typing c n Hn Hne Hc) as [Hset _].
  pose proof (typing_handled c n Hn Hne Hc) as Hh. cbv zeta in Hh. set (k1 := putc c (on_line (zset n c) k)) in *.
  assert (linebuffer (kbd k1) = zset n c (linebuffer (kbd k))) as Hk1 by (unfold k1; by rewrite putc_kbd).
  split; eexists; (split; [|apply Hh]).
  - unfold type_upper, save_line. rewrite (bind_Ret _ _ _ _ _ Hset), !bind_modify. fold k1.
    unfold modify. change (linebuffer (kbd (update_cursor k1))) with (linebuffer (kbd k1)). rewrite Hk1. reflexivity.
  - unfold type_char, save_line. rewrite (bind_Ret _ _ _ _ _ Hset), !bind_modify. fold k1.
    unfold modify. rewrite Hk1. reflexivity.
Qed.

Lemma shown_unchanged v k1 : shows v k k1 -> k1 <| kbd := kbd k |> <| term := term k |> = k1.
Proof. intros [_ _ _ Hr _]. rewrite Hr. done. Qed.
(** The line is emptied. *)
Lemma emptied v k1 kb tm f :
  shows v k k1 -> chararray kb = chararray (kbd k) -> f (linebuffer kb) = replicate 128 0 ->
  exists k', save_line 0 (on_line f (k1 <| kbd := kb |> <| term := tm |>)) = Ret tt k' /\ edited v [] k k' /\ term k' = tm.
Proof.
  intros Hsh Hkeys Hf. assert (k = k <| kbd := kbd k |>) as Hid by (by destruct k).
  set (kb' := kb <| linebuffer ::= f |>). assert (linebuffer kb' = replicate 128 0) as Hz by exact Hf.
  pose proof (edited_save k k k1 _ kb' tm 0 Hw Hid Hsh) as He. rewrite Hz in He.
  exists (set_global_buffer (replicate 128 0) 0 (k1 <| kbd := kb' |> <| term := tm |>)).
  split; [|split; [apply He; [done|done|by apply Forall_replicate|lia]|done]].
  unfold save_line, modify. rewrite on_line_buffer. cbn [kbd upd set_kbd set_term]. rewrite Hf. done.
Qed.
Lemma act_wipe : act Wipe (editor_of k) = edit_term (λ _, (View (replicate CELLS (32, ATTRIB)) 0 0, [])) (editor_of k).
Proof. reflexivity. Qed.
Lemma clear_screen_handled : exists k', clear_screen k = Ret tt k' /\ handled Wipe k k'.
Proof.
  unfold clear_screen. rewrite !bind_modify.
  pose proof (clear_shows k (iw_console _ Hw)) as Hsh.
  destruct (emptied _ _ (kbd k) (term k) (memset 0 0 KEYBOARD_BUFFER_LENGTH) Hsh) as (k' & Hs & He & Htm);
    [done|apply memset_line, (iw_buffer _ Hw)|].
  rewrite (shown_unchanged _ _ Hsh) in Hs.
  exists k'. split; [exact Hs|]. exact (handled_edit Wipe _ _ (λ _, (View (replicate CELLS (32, ATTRIB)) 0 0, [])) _ He Htm eq_refl act_wipe).
Qed.

Lemma backspace_key_handled : exists k', backspace_key (noc T) k = Ret tt k' /\ handled Rub k k'.
Proof.
  unfold backspace_key. destruct vis_line as [Hl Hb Hn]. destruct (iw_buffer _ Hw) as [Hlen Hbytes].
  destruct (Z.eqb_spec (noc T) 0) as [H0|H0]; cbn [negb].
  { exists k. split; [done|]. apply handled_nothing. unfold act. rewrite line_length, H0. done. }
  rewrite bind_modify. pose proof (handlebackspace_shows k (iw_console _ Hw)) as Hsh. set (k1 := handlebackspace k) in *. clearbody k1.
  pose proof (shown_unchanged _ _ Hsh) as Hk1.
  assert (kbd k1 = kbd k /\ term k1 = term k) as [Hkb Htm] by (rewrite (sh_rest _ _ _ Hsh); done).
  unfold set_line, KEYBOARD_BUFFER_LENGTH.
  assert (k = k <| kbd := kbd k |>) as Hid by (by destruct k).
  pose proof (edited_save k k k1 _ (kbd (on_line (zset (noc T) 0) k1)) (term k1) (noc T - 1) Hw Hid Hsh) as He.
  rewrite on_line_eta, on_line_keys, on_line_buffer, Hkb in He.
  eexists. split.
  - unfold mbind, prog_bind. replace ((0 <=? noc T) && (noc T <? 128)) with true by lia.
    unfold save_line, modify. rewrite on_line_buffer, Hkb. reflexivity.
  - eapply (handled_edit Rub _ _ (λ '(v, l), (rub v, take (length l - 1) l))).
    + apply He; [done|by rewrite zlen_zset|by apply Forall_insert|lia].
    + exact Htm.
    + f_equal. unfold zset. rewrite take_insert_ge by lia. rewrite <- Hln, take_take. f_equal.
      rewrite length_take. unfold zlen in Hlen. lia.
    + unfold act. by rewrite line_length, (proj2 (Z.eqb_neq _ 0)).
Qed.

Lemma enter_char : key ENTER k = 10.
Proof. unfold key. rewrite (kw_map _ (iw_keys _ Hw)); [done|unfold ENTER, NUM_KEYS; lia|done]. Qed.
Lemma enter_key_handled : exists k', enter_key (noc T) k = Ret tt k' /\ handled Enter k k'.
Proof.
  destruct vis_line as [Hl Hb Hn]. destruct (iw_buffer _ Hw) as [Hlen Hbytes].
  pose proof (sw_visable _ (cw_sched _ (iw_console _ Hw))) as Hvis.
  unfold enter_key. rewrite bind_modify, enter_char.
  pose proof (putc_shows 10 k (iw_console _ Hw)) as Hsh. set (k1 := putc 10 k) in *. clearbody k1.
  assert (kbd k1 = kbd k /\ term k1 = term k /\ visable_term (sched k1) = vis) as (Hkb & Htm & Hv1)
    by (rewrite (sh_rest _ _ _ Hsh); done).
  set (full := zset (noc T) 10 (linebuffer (kbd k))).
  assert (zlen full = 128) as Hfull by (unfold full; by rewrite zlen_zset).
  assert (set_line (noc T) 10 k1 = Ret tt (on_line (zset (noc T) 10) k1)) as Hset.
  { unfold set_line, KEYBOARD_BUFFER_LENGTH. by replace ((0 <=? noc T) && (noc T <? 128)) with true by lia. }
  rewrite (bind_Ret _ _ _ _ _ Hset), bind_get, on_line_buffer, Hkb. fold full. clear Hset.
  pose proof (set_terminal_buffer_runs (on_line (zset (noc T) 10) k1) full (noc T)) as Hrun.
  change (term (on_line (zset (noc T) 10) k1)) with (term k1) in Hrun.
  change (sched (on_line (zset (noc T) 10) k1)) with (sched k1) in Hrun. rewrite Htm, Hv1 in Hrun.
  rewrite (bind_Ret _ _ _ _ _ (Hrun (iw_term _ Hw) Hvis Hfull Hn)), bind_modify.
  set (tm := with_line vis full (noc T) (term k)).
  destruct (emptied _ k1 (kbd (on_line (zset (noc T) 10) k1)) tm (memset 0 0 KEYBOARD_BUFFER_LENGTH) Hsh)
    as (k' & Hs & He & Htm').
  { by rewrite on_line_keys, Hkb. }
  { rewrite on_line_buffer, Hkb. by apply memset_line. }
  exists k'. split.
  { replace (on_line (zset (noc T) 10) k1 <| term := tm |>) with
      (k1 <| kbd := kbd (on_line (zset (noc T) 10) k1) |> <| term := tm |>) by (by destruct k1). exact Hs. }
  pose proof (with_line_wf vis full (noc T) (term k) (iw_term _ Hw) Hvis Hfull Hn) as Htw. fold tm in Htw.
  split.
  - eapply (edited_input _ _ k k' Hw); [by rewrite Htm'|exact He].
  - rewrite (edited_editor _ _ k k' Hw Hvm He), Htm'. cbv zeta. unfold act. cbv zeta.
    change (ed_shown (editor_of k)) with vis. rewrite shown_line. cbn [snd]. f_equal.
    + unfold edit_term. change (ed_shown (editor_of k)) with vis. by rewrite shown_line.
    + change (ed_entered (editor_of k)) with (tabulate 3 (λ t, entered t (term k))).
      apply tabulate_zset; [lia|]. intros t Ht. unfold tm.
      rewrite entered_with_line by (done || apply (iw_term _ Hw)). case_decide; [|done]. f_equal.
      unfold full, zset. rewrite take_insert_ge by lia. exact Hln.
  - exact (edited_quiet _ _ k k' Hw Hvm He).
  - left. unfold video_mode. by rewrite (edited_mmu _ _ _ _ He).
Qed.

(** The modifier keys. *)
Lemma key_set_key i j c : 0 <= i < NUM_KEYS -> 0 <= j < NUM_KEYS -> key j (set_key i c k) = if decide (j = i) then c else key j k.
Proof.
  intros Hi Hj. unfold key, set_key. cbn [kbd chararray upd set_kbd set_chararray]. case_decide as Hd.
  - subst j. apply zget_zset_eq. rewrite (kw_len _ (iw_keys _ Hw)). lia.
  - apply zget_zset_ne; lia.
Qed.
Lemma set_key_handled i c m :
  is_modifier i = true -> c = 48 \/ c = 49 -> mods_of (set_key i c k) = m -> handled (Modify m) k (set_key i c k).
Proof.
  intros Hi Hc Hm. destruct Hw as [Hcon Hb Ht [Hkl Hkm Hkc] Hl Hbuf].
  assert (0 <= i < NUM_KEYS) as Hir.
  { unfold is_modifier in Hi. unfold NUM_KEYS, CAPSLOCK, LEFTSHIFT, RIGHTSHIFT, LEFTCONTROLPRESSED, ALTPRESSED in *. lia. }
  split.
  - split; try done; [by destruct Hcon|]. cbn [kbd chararray upd set_kbd set_chararray set_key]. split.
    + by rewrite zlen_zset.
    + intros j Hj Hjm. rewrite zget_zset_ne; [by apply Hkm|lia|lia|]. intros ->. congruence.
    + destruct (decide (i = CAPSLOCK)) as [->|Hne]; [rewrite zget_zset_eq by lia; done|].
      rewrite zget_zset_ne by (unfold CAPSLOCK in *; lia). done.
  - unfold editor_of. rewrite Hm. done.
  - split; [by destruct k|done..].
  - by left.
Qed.

(** Alt and a function key. *)
Lemma switch_handled n :
  0 <= n < 3 -> handled (Show n) k (switch_terminals n k) /\ kbd (switch_terminals n k) = kbd k.
Proof.
  intros Hn. destruct (decide (n = vis)) as [Heq|Hne].
  { rewrite (switch_terminals_same k n Heq). split; [|done]. split.
    - destruct Hw as [[? ?] ? ? ? ? ?]. by split.
    - unfold act. rewrite Heq. done.
    - split; [by destruct k|done..].
    - by left. }
  destruct (switch_terminals_screens k n (iw_console _ Hw) (iw_bufs _ Hw) Hn Hne) as (Hwf & Hc & Hr & Hd & Ho & Hb).
  set (k' := switch_terminals n k) in *. clearbody k'.
  assert (kbd k' = kbd k /\ term k' = term k /\ sched k' = sched k <| visable_term := n |>) as (Hkb & Htm & Hsc)
    by (rewrite Hr; done).
  assert (forall t, get_terminal t k' = get_terminal t k) as HT by (intros t; unfold get_terminal; by rewrite Hsc).
  split; [split|done].
  - split; [done|unfold bufs_ok; by rewrite Hsc; apply (iw_bufs _ Hw)|rewrite Htm; apply Hw|rewrite Hkb; apply Hw| |rewrite Hkb; apply Hw].
    intros t Ht. rewrite HT. by apply Hw.
  - unfold editor_of, act. cbn [ed_mods ed_terms ed_entered]. rewrite (mods_same k k') by (by rewrite Hkb).
    rewrite Hsc, Htm. f_equal. apply tabulate_ext. intros t Ht. rewrite HT. f_equal.
    apply term_view_same; [apply HT|]. intros i Hi. apply Hb; lia.
  - split; [rewrite Hr; done|by rewrite Hsc|intros t Ht; rewrite HT; done|exact Hd|exact Ho].
  - by right.
Qed.

Lemma switch_key_other a :
  ~ (key 0x38 k = 49 /\ 0x3B <= a <= 0x3D) -> switch_key a (noc T) k = Ret (noc T) k.
Proof.
  intros Ha. unfold switch_key. rewrite bind_get. destruct (Z.eqb_spec (key 0x38 k) 49) as [Halt|]; [|done].
  rewrite bind_modify. unfold get, get_current_noc.
  replace (a =? 0x3C) with false by lia. replace (a =? 0x3D) with false by lia. by replace (a =? 0x3B) with false by lia.
Qed.
Lemma switch_key_switches a :
  key 0x38 k = 49 -> 0x3B <= a <= 0x3D ->
  exists n', switch_key a (noc T) k = Ret n' (switch_terminals (a - 0x3B) k).
Proof.
  intros Halt Ha. unfold switch_key. rewrite bind_get, Halt. cbn [Z.eqb Pos.eqb]. rewrite bind_modify. unfold get.
  assert (a = 0x3B \/ a = 0x3C \/ a = 0x3D) as [->|[->| ->]] by lia; eexists; reflexivity.
Qed.

(** The other keys. *)
Lemma keymap_range a : 0 <= a < 255 -> 0 <= zget keymap a < 128.
Proof.
  intros Ha. pose proof (check_below 255 (λ i, (0 <=? zget keymap i) && (zget keymap i <? 128))
    ltac:(vm_compute; reflexivity) a ltac:(lia)) as Hc. cbv beta in Hc. lia.
Qed.
Lemma key_plain a : 0 <= a < NUM_KEYS -> is_modifier a = false -> key a k = zget keymap a.
Proof. intros Ha Hm. by apply (kw_map _ (iw_keys _ Hw)). Qed.

Lemma act_full c : noc T = 127 -> act (Type_char c) (editor_of k) = editor_of k.
Proof. intros Hn. unfold act. rewrite line_length, Hn. done. Qed.

Lemma shifted_range temp0 c : 0 <= temp0 < 256 -> 0 <= shifted temp0 c < 256.
Proof.
  intros Ht. unfold shifted, ASCII1, ASCII9. destruct ((49 <=? c) && (c <=? 57)) eqn:Hc.
  - pose proof (check_below 10 (λ x, (0 <=? zget shiftarray x) && (zget shiftarray x <? 256)) ltac:(vm_compute; reflexivity) (c - 48) ltac:(lia)) as Hs.
    cbv beta in Hs. cbv zeta. case_match; lia.
  - repeat case_match; lia.
Qed.

Lemma default_char_handled temp0 a :
  0 <= a < NUM_KEYS -> is_modifier a = false -> 0 <= temp0 < 256 ->
  exists k', default_char temp0 a (noc T) k = Ret tt k' /\ handled (char_action temp0 (mods_of k) (zget keymap a)) k k'.
Proof.
  intros Ha Hm Ht. unfold default_char. replace (NUM_KEYS <=? a) with false by lia. cbv zeta.
  rewrite (key_plain a Ha Hm). pose proof (keymap_range a Ha) as Hr. set (c := zget keymap a) in *. clearbody c.
  unfold char_action, mods_of. cbn [m_caps m_left m_right m_ctrl].
  set (caps := key CAPSLOCK k =? 49). set (ctrl := key LEFTCONTROLPRESSED k =? 49).
  set (shift := (key LEFTSHIFT k =? 49) || (key RIGHTSHIFT k =? 49)). clearbody caps ctrl shift.
  unfold lower, ASCIILOWERCASEA, ASCIILOWERCASEZ, ASCII_TO_HEX, KEYBOARD_BUFFER_LENGTH.
  assert (forall ch, 0 <= ch < 256 ->
    (exists k', (if negb (noc T =? 128 - 1) then type_upper ch (noc T) k else Ret tt k) = Ret tt k' /\ handled (Type_char ch) k k') /\
    (exists k', (if negb (noc T =? 128 - 1) then type_char ch (noc T) k else Ret tt k) = Ret tt k' /\ handled (Type_char ch) k k'))
    as Htype.
  { intros ch Hch. destruct (Z.eqb_spec (noc T) (128 - 1)) as [Hfull|Hroom]; cbn [negb].
    - split; exists k; (split; [done|apply handled_nothing, act_full; lia]).
    - by apply type_char_handled. }
  destruct (Z.eqb_spec c 0) as [->|Hc0].
  { rewrite andb_false_r. cbn [negb andb]. exists k. split; [by destruct shift|by apply handled_nothing]. }
  cbn [negb andb]. rewrite <- andb_assoc. destruct ((97 <=? c) && (c <=? 122)) eqn:Hlow.
  - destruct caps, shift; cbn [andb orb xorb].
    + replace (c =? 76) with false by lia. cbn [andb]. apply Htype; lia.
    + replace (c - 32 =? 76) with (c =? 108) by lia. destruct ((c =? 108) && ctrl); [apply clear_screen_handled|apply Htype; lia].
    + replace (c - 32 =? 76) with (c =? 108) by lia. destruct ((c =? 108) && ctrl); [apply clear_screen_handled|apply Htype; lia].
    + apply Htype; lia.
  - rewrite andb_false_r. destruct shift; [apply Htype, shifted_range; lia|apply Htype; lia].
Qed.

Lemma default_char_zero temp0 a n k' :
  0 <= a < NUM_KEYS -> key a k' = 0 -> default_char temp0 a n k' = Ret tt k'.
Proof.
  intros Ha H0. unfold default_char. replace (NUM_KEYS <=? a) with false by lia. cbv zeta. rewrite H0.
  unfold ASCIILOWERCASEA. rewrite andb_false_r. cbn [andb negb Z.eqb]. by destruct (_ || _).
Qed.
Lemma default_key_handled temp0 a :
  0 <= a < NUM_KEYS -> is_modifier a = false -> 0 <= temp0 < 256 ->
  exists k', default_key temp0 a (noc T) k = Ret tt k' /\
    handled (if m_alt (mods_of k) && (0x3B <=? a) && (a <=? 0x3D) then Show (a - 0x3B)
             else char_action temp0 (mods_of k) (zget keymap a)) k k'.
Proof.
  intros Ha Hm Ht. unfold default_key. change (m_alt (mods_of k)) with (key 0x38 k =? 49).
  destruct (decide (key 0x38 k = 49 /\ 0x3B <= a <= 0x3D)) as [[Halt Hrange]|Hno].
  - destruct (switch_key_switches a Halt Hrange) as (n' & Hsw). rewrite (bind_Ret _ _ _ _ _ Hsw).
    destruct (switch_handled (a - 0x3B)) as [Hh Hkb]; [lia|]. eexists. split.
    + apply default_char_zero; [done|]. unfold key. rewrite Hkb. change (key a k = 0). rewrite key_plain by done.
      assert (a = 0x3B \/ a = 0x3C \/ a = 0x3D) as [->|[->| ->]] by lia; reflexivity.
    + rewrite Halt. replace ((0x3B <=? a) && (a <=? 0x3D)) with true by lia. rewrite <- andb_assoc.
      by replace ((59 <=? a) && (a <=? 61)) with true by lia.
  - rewrite (bind_Ret _ _ _ _ _ (switch_key_other a Hno)).
    replace ((key 0x38 k =? 49) && (0x3B <=? a) && (a <=? 0x3D)) with false by lia. by apply default_char_handled.
Qed.

(** Every scan code but 0xFF. *)
Lemma handle_key_handled temp0 a :
  0 <= a < NUM_KEYS -> 0 <= temp0 < 256 ->
  exists k', handle_key temp0 a (noc T) k = Ret tt k' /\ handled (key_action temp0 (mods_of k) a) k k'.
Proof.
  intros Ha Ht. pose proof (default_key_handled temp0 a Ha) as Hdef.
  pose proof (kw_caps _ (iw_keys _ Hw)) as Hcaps. change (zget (chararray (kbd k)) CAPSLOCK) with (key CAPSLOCK k) in Hcaps.
  assert (forall i c m, is_modifier i = true -> c = 48 \/ c = 49 -> mods_of (set_key i c k) = m ->
    exists k', modify (set_key i c) k = Ret tt k' /\ handled (Modify m) k k') as Hset.
  { intros i c m H1 H2 H3. eexists. split; [reflexivity|]. by apply set_key_handled. }
  assert (forall i c, (0 <=? i) && (i <? NUM_KEYS) = true -> mods_of (set_key i c k) =
    let on j := (if decide (j = i) then c else key j k) =? 49 in
    Modifiers (on CAPSLOCK) (on LEFTSHIFT) (on RIGHTSHIFT) (on LEFTCONTROLPRESSED) (on ALTPRESSED)) as Hmods.
  { intros i c Hi. unfold mods_of. rewrite !key_set_key by (lia || (compute; intuition discriminate)). done. }
  unfold handle_key. unfold mods_of at 1. unfold key_action.
  destruct (a =? LEFTSHIFT) eqn:H1; [apply Hset; [done|auto|by rewrite Hmods]|].
  destruct (a =? LEFTSHIFTRELEASED) eqn:H2; [apply Hset; [done|auto|by rewrite Hmods]|].
  destruct (a =? RIGHTSHIFT) eqn:H3; [apply Hset; [done|auto|by rewrite Hmods]|].
  destruct (a =? RIGHTSHIFTRELEASED) eqn:H4; [apply Hset; [done|auto|by rewrite Hmods]|].
  destruct (a =? LEFTCONTROLPRESSED) eqn:H5; [apply Hset; [done|auto|by rewrite Hmods]|].
  destruct (a =? LEFTCONTROLRELEASED) eqn:H6; [apply Hset; [done|auto|by rewrite Hmods]|].
  destruct (a =? ALTPRESSED) eqn:H7; [apply Hset; [done|auto|by rewrite Hmods]|].
  destruct (a =? ALTRELEASED) eqn:H8; [apply Hset; [done|auto|by rewrite Hmods]|].
  destruct (a =? CAPSLOCK) eqn:H11.
  { replace (a =? BACKSPACE) with false by (unfold BACKSPACE, CAPSLOCK in *; lia).
    replace (a =? ENTER) with false by (unfold ENTER, CAPSLOCK in *; lia).
    apply Hset; [done|destruct (key CAPSLOCK k =? 48); auto|].
    rewrite Hmods by done. destruct Hcaps as [-> | ->]; done. }
  destruct (a =? BACKSPACE) eqn:H9; [apply backspace_key_handled|].
  destruct (a =? ENTER) eqn:H10; [apply enter_key_handled|].
  apply Hdef; [|done]. unfold is_modifier. rewrite H1, H3, H5, H7, H11. done.
Qed.
End Handlers.

(** ** The interrupt routine *)
Lemma setposition_same k :
  sched_wf (sched k) -> setposition (get_global_screen_x k) (get_global_screen_y k) k = k.
Proof.
  intros Hs. pose proof (sw_visable _ Hs) as Hv. rewrite setposition_put by done.
  etransitivity; [|by apply (put_terminal_id (visable_term (sched k)) k)]. f_equal.
  unfold get_global_screen_x, get_global_screen_y. by destruct (get_terminal (visable_term (sched k)) k).
Qed.

(** The state in which the key is handled. *)
Definition prologue (k : kernel) : kernel :=
  on_line (λ l, set_line_buffer l k) k <| mmu_of ::= paging_set_write_to_videomem |>.
Lemma prologue_ok k :
  input_wf k -> input_wf (prologue k) /\ video_mode (prologue k) /\ lined (prologue k) /\
  editor_of (prologue k) = editor_of k /\ quiet k (prologue k).
Proof.
  intros Hw. destruct Hw as [[Hkm Hs] Hb Ht Hk Hl [Hlen Hbytes]].
  pose proof (Hl _ (sw_visable _ Hs)) as Hlv.
  assert (linebuffer (kbd (prologue k)) = typed_of (get_terminal (visable_term (sched k)) k)
    ++ drop (Z.to_nat (noc (get_terminal (visable_term (sched k)) k))) (linebuffer (kbd k))) as Hlb.
  { exact (set_line_buffer_line k (linebuffer (kbd k)) Hlv Hlen). }
  pose proof (zlen_typed _ Hlv) as Hzt. destruct Hlv as [Hl1 Hl2 Hl3].
  split; [|split; [|split; [|split]]].
  - split; [split; [by apply paging_set_write_to_videomem_kernel_map|exact Hs]|exact Hb|exact Ht|exact Hk|exact Hl|].
    rewrite Hlb. split.
    + rewrite zlen_app, zlen_drop by lia. lia.
    + apply Forall_app. split; [by apply Forall_take|by apply Forall_drop].
  - by apply video_target_videomem.
  - unfold lined. cbv zeta. rewrite Hlb. change (sched (prologue k)) with (sched k).
    change (get_terminal ?t (prologue k)) with (get_terminal t k). apply take_app_length'. unfold zlen in Hzt. lia.
  - done.
  - split; [by destruct k|done..].
Qed.

Definition epilogue (k : kernel) : kernel :=
  (if negb (get_current_terminal k =? get_visable_terminal k) then
     k <| mmu_of ::= paging_set_write_to_buffer (get_current_terminal k) |>
   else k) <| devs ::= I8259.send_eoi 1 |>.
Lemma epilogue_ok k :
  input_wf k -> video_mode k \/ coherent k ->
  input_wf (epilogue k) /\ coherent (epilogue k) /\ editor_of (epilogue k) = editor_of k /\ quiet k (epilogue k).
Proof.
  intros [[Hkm Hs] Hb Ht Hk Hl Hlb] Hv. unfold epilogue, get_current_terminal, get_visable_terminal.
  pose proof (sw_current _ Hs) as Hc.
  destruct (Z.eqb_spec (current_term (sched k)) (visable_term (sched k))) as [He|He]; cbn [negb].
  - split; [split; [by split|done..]|]. split; [|split; [done|split; [by destruct k|done..]]].
    destruct Hv as [Hv|Hv]; [|exact Hv].
    change (video_target (mmu_of k) = frame_of (current_term (sched k)) k). unfold frame_of. by rewrite He, Z.eqb_refl.
  - split; [split; [split; [by apply paging_set_write_to_buffer_kernel_map|exact Hs]|done..]|].
    split; [|split; [done|split; [by destruct k|done..]]]. unfold coherent, frame_of.
    cbn [sched current_term visable_term mmu_of upd set_mmu_of set_devs].
    rewrite (proj2 (Z.eqb_neq _ _) He), (video_target_buffer _ _ Hkm). by apply buffer_addr_frame.
Qed.

Lemma check_input_unfold temp0 k :
  sched_wf (sched k) ->
  check_input temp0 k =
    (_ ← handle_key temp0 (inb KEYBOARD_CMD_PORT (devs k)) (noc (get_terminal (visable_term (sched k)) k));
     modify epilogue) (prologue k).
Proof.
  intros Hs. unfold check_input. rewrite bind_get, bind_modify. set (k1 := on_line _ k).
  rewrite bind_modify, (setposition_same k1 Hs), bind_get. unfold mmu_op. rewrite bind_modify. reflexivity.
Qed.
Lemma check_input_runs temp0 k :
  let a := inb KEYBOARD_CMD_PORT (devs k) in
  input_wf k -> 0 <= temp0 < 256 -> a <> 0xFF ->
  exists k', check_input temp0 k = Ret tt k' /\ input_wf k' /\ coherent k' /\
    editor_of k' = press temp0 a (editor_of k) /\ quiet k k' /\ hd (0, 0) (port_log (devs k')) = (0x61, 0x20).
Proof.
  intros a Hw Ht Ha. assert (0 <= a < NUM_KEYS) as Har.
  { pose proof (u8_range (port_in (devs k) (port_log (devs k)) KEYBOARD_CMD_PORT)) as Hr.
    change (0 <= a < 256) in Hr. unfold NUM_KEYS. lia. }
  destruct (prologue_ok k Hw) as (Hw1 & Hvm & Hln & Hed & Hq1).
  destruct (handle_key_handled (prologue k) Hw1 Hvm Hln temp0 a Har Ht) as (k2 & Hrun & [Hw2 Hed2 Hq2 Hv2]).
  destruct (epilogue_ok k2 Hw2 Hv2) as (Hw3 & Hc3 & Hed3 & Hq3).
  exists (epilogue k2). split; [|split; [done|split; [done|split; [|split]]]].
  - rewrite check_input_unfold by apply (iw_console _ Hw). by rewrite (bind_Ret _ _ _ _ _ Hrun).
  - rewrite Hed3, Hed2, Hed. done.
  - eapply quiet_trans; [exact Hq1|]. by eapply quiet_trans.
  - done.
Qed.

(** *** Typing a line *)

(** The keyboard holds the scan code [a]; the interrupt is taken. *)
Definition arrives (a : Z) (k : kernel) : kernel := k <| devs ::= λ d, d <| port_in := λ _ _, a |> |>.
Fixpoint keys_arrive (temp0 : Z) (codes : list Z) : prog kernel unit := λ k,
  match codes with
  | [] => Ret tt k
  | a :: codes => (_ ← check_input temp0; keys_arrive temp0 codes) (arrives a k)
  end.
Lemma keys_arrive_edit temp0 codes k :
  input_wf k -> coherent k -> 0 <= temp0 < 256 -> Forall (λ a, 0 <= a < 0xFF) codes ->
  exists k', keys_arrive temp0 codes k = Ret tt k' /\ input_wf k' /\ coherent k' /\
    editor_of k' = foldl (λ e a, press temp0 a e) (editor_of k) codes /\ quiet k k'.
Proof.
  intros Hw Hc Ht Hcodes. revert k Hw Hc. induction Hcodes as [|a codes Ha _ IH]; intros k Hw Hc.
  - exists k. split; [done|]. split; [done|]. split; [done|]. split; [done|apply quiet_refl].
  - assert (input_wf (arrives a k)) as Hwa by (destruct Hw as [[? ?] ? ? ? ? ?]; by split).
    assert (inb KEYBOARD_CMD_PORT (devs (arrives a k)) = a) as Hin by (apply u8_id; lia).
    assert (quiet k (arrives a k)) as Hqa by (split; [by destruct k|done..]).
    destruct (check_input_runs temp0 (arrives a k) Hwa Ht) as (k1 & Hrun & Hw1 & Hc1 & He1 & Hq1 & _); [rewrite Hin; lia|].
    rewrite Hin in He1. destruct (IH k1 Hw1 Hc1) as (k2 & Hrun2 & Hw2 & Hc2 & He2 & Hq2).
    exists k2. split; [|split; [done|split; [done|split]]].
    + cbn [keys_arrive]. by rewrite (bind_Ret _ _ _ _ _ Hrun).
    + rewrite He2, He1. done.
    + eapply quiet_trans; [exact Hqa|]. by eapply quiet_trans.
Qed.

(** The keys that type a printable character: its key, or shift, its key, shift released. *)
Definition codes_of (c : Z) : list Z :=
  match list_find (λ a, zget keymap (Z.of_nat a) = c) (seq 2 12 ++ seq 15 43) with
  | Some (_, a) => [Z.of_nat a]
  | None =>
      match list_find (λ a, let b := zget keymap (Z.of_nat a) in
               (if lower b then b - 32 else shifted 0 b) = c) (seq 2 12 ++ seq 15 43) with
      | Some (_, a) => [LEFTSHIFT; Z.of_nat a; LEFTSHIFTRELEASED]
      | None => []
      end
  end.
Definition no_modifiers : modifiers := Modifiers false false false false false.
Definition left_shift : modifiers := Modifiers false true false false false.

(** What the codes of a character do, with the actions of its keys evaluated. *)
Definition actions_of (temp0 : Z) (codes : list Z) : list action :=
  match codes with
  | [a] => [key_action temp0 no_modifiers a]
  | [s; a; r] => [key_action temp0 no_modifiers s; key_action temp0 left_shift a; key_action temp0 left_shift r]
  | _ => []
  end.
Lemma codes_of_types temp0 c :
  32 <= c <= 126 ->
  actions_of temp0 (codes_of c) = [Type_char c] \/
  actions_of temp0 (codes_of c) = [Modify left_shift; Type_char c; Modify no_modifiers].
Proof.
  intros Hc. set (i := c - 32). replace c with (32 + i) by lia. assert (0 <= i < 95) as Hi by lia. clearbody i. clear c Hc.
  assert (forall j : nat, (j < 95)%nat -> actions_of temp0 (codes_of (32 + Z.of_nat j)) = [Type_char (32 + Z.of_nat j)] \/
    actions_of temp0 (codes_of (32 + Z.of_nat j)) = [Modify left_shift; Type_char (32 + Z.of_nat j); Modify no_modifiers]) as Hall.
  { intros j Hj. do 95 (destruct j as [|j]; [vm_compute; auto|]). lia. }
  specialize (Hall (Z.to_nat i) ltac:(lia)). by rewrite Z2Nat.id in Hall by lia.
Qed.

(** After [init_keyboard], with the initial tables. *)
Lemma init_keyboard_keys k :
  chararray (kbd k) = keymap -> keys_wf (chararray (kbd (init_keyboard k))) /\ mods_of (init_keyboard k) = no_modifiers.
Proof.
  intros Hk. unfold mods_of, key. cbn [init_keyboard set_key kbd chararray upd set_kbd set_chararray set_devs].
  rewrite Hk. split; [|vm_compute; reflexivity]. split; [reflexivity| |left; vm_compute; reflexivity].
  intros i Hi Hm. unfold is_modifier in Hm. rewrite !zget_zset_ne; [done|..];
    unfold CAPSLOCK, LEFTSHIFT, ALTPRESSED in *; lia.
Qed.
Definition demo_input : kernel := init_keyboard (kernel0 <| kbd := KbdVars keymap (replicate 128 0) |>).
Lemma demo_input_wf : input_wf demo_input.
Proof.
  split.
  - destruct kernel0_wf. by split.
  - reflexivity.
  - split; [done..| |]; intros t Ht; assert (t = 0 \/ t = 1 \/ t = 2) as [->|[->| ->]] by lia;
      first [reflexivity|vm_compute; intuition discriminate].
  - by apply init_keyboard_keys.
  - intros t Ht. change (get_terminal t demo_input) with (zget [terminal0; terminal0; terminal0] t).
    assert (zget [terminal0; terminal0; terminal0] t = terminal0) as ->
      by (assert (t = 0 \/ t = 1 \/ t = 2) as [->|[->| ->]] by lia; reflexivity).
    split; [reflexivity|by apply Forall_replicate|cbn; lia].
  - split; [reflexivity|by apply Forall_replicate].
Qed.
Lemma demo_input_coherent : coherent demo_input.
Proof. exact kernel0_coherent. Qed.

(** ** Properties *)

(** C13. The keyboard interrupt routine implements the line editor: for every scan code but 0xFF,
    in every state where the lines, tables and mappings are well formed, [check_input]
    returns, keeps that invariant, and does to the three terminals' screens and lines, the
    modifier keys and the entered lines exactly what [press] does.  The kernel writes to the
    scheduled terminal again, the interrupt is acknowledged last, and no process, file or
    memory outside the four text pages changes. *)
Theorem check_input_edits temp0 k :
  let a := inb KEYBOARD_CMD_PORT (devs k) in
  input_wf k -> 0 <= temp0 < 256 -> a <> 0xFF ->
  exists k', check_input temp0 k = Ret tt k' /\ input_wf k' /\ coherent k' /\
    editor_of k' = press temp0 a (editor_of k) /\
    quiet k k' /\ hd (0, 0) (port_log (devs k')) = (0x61, 0x20).
Proof. exact (check_input_runs temp0 k). Qed.
Lemma check_input_edits_witness :
  exists k', check_input 0 (arrives 0x1E demo_input) = Ret tt k' /\ typed_of (get_terminal 0 k') = text "a".
Proof.
  assert (input_wf (arrives 0x1E demo_input)) as Hw by (destruct demo_input_wf as [[? ?] ? ? ? ? ?]; split; done).
  destruct (check_input_edits 0 (arrives 0x1E demo_input) Hw) as (k' & Hr & _ & _ & He & _); [lia|vm_compute; discriminate|].
  exists k'. split; [exact Hr|]. pose proof (zget_terms k' 0 ltac:(lia)) as Ht. rewrite He in Ht.
  apply (f_equal snd) in Ht. cbn [snd] in Ht. rewrite <- Ht. vm_compute. reflexivity.
Defined.

(** C40. The scan code 0xFF, which the 255 entries of [chararray] do not cover, is read beyond the
    array's end in every state. *)
Theorem check_input_overruns temp0 k :
  sched_wf (sched k) -> inb KEYBOARD_CMD_PORT (devs k) = 0xFF -> check_input temp0 k = Ub.
Proof.
  intros Hs Ha. rewrite check_input_unfold, Ha by done. set (n := noc _).
  change (handle_key temp0 0xFF n) with (default_key temp0 0xFF n).
  assert (forall n' K, default_char temp0 0xFF n' K = Ub) as Hub by done.
  unfold default_key, switch_key, mbind, prog_bind, get, mret, prog_ret, modify.
  by destruct (key 0x38 (prologue k) =? 49); rewrite Hub.
Qed.
Lemma check_input_overruns_witness : check_input 0 (arrives 0xFF demo_input) = Ub.
Proof. apply check_input_overruns; [exact (cw_sched _ (iw_console _ demo_input_wf))|reflexivity]. Defined.
