(* ===== verification/Process.v ===== *)
(** * Processes: [execute] and [halt] of student-distrib/sys_call.c

    A process is one of six slots, each with its control block at the bottom of its kernel
    stack and its 4 MB user frame.  [execute] and [halt] change the processor's stack and
    privilege ([regs]); a call that ends in user mode is told from one that returns by
    [exec_result].

    Local arrays of [execute] that it passes to [read_data] live on the kernel stack: they
    are at the address [locals], an argument.  [d0] is what the uninitialised local
    [dir_entry] held. *)
From S2P Require Import Prelude Machine Lib Paging Devices State Console Printf Terminal Filesystem SysCall.

(** How a call ends that may leave the kernel: it returns, or a program runs in user mode
    (the registers say where). *)
Inductive exec_result := Returned (v : Z) | In_user.

Definition pcb_addr (pid_ : Z) : Z := END_KMEM - (pid_ + 1) * PCB_SIZE.
Definition stack_top (pid_ : Z) : Z := END_KMEM - pid_ * KERNEL_MEM_SIZE.

Definition save_parent_registers (a esp_ ebp_ : Z) (k : kernel) : kernel :=
  set_pcb a (λ p, p <| parent_esp := esp_ |> <| parent_ebp := ebp_ |>) k.
(** [contextswitchasm] (linkage.S): save the two registers in the new process, then [iret]
    to its entry point on its user stack, interrupts on. *)
Definition contextswitchasm (eipval current_process : Z) (k : kernel) : kernel :=
  let k := save_parent_registers current_process (esp (regs k)) (ebp (regs k)) k in
  k <| regs ::= λ r, r <| eip := eipval |> <| esp := 0x83ffffc |> <| user := true |> |>
    <| devs ::= sti |>.
(** [restoreparent] (linkage.S): the stack of the parent is back. *)
Definition restoreparent (ebp_ esp_ : Z) (k : kernel) : kernel :=
  k <| regs ::= λ r, r <| ebp := ebp_ |> <| esp := esp_ |> |>.

(** [execute]: the loops over the command. *)
Definition save_command (command : Z -> Z) : option (Z * list Z) :=
  while (λ '(n, arr),
    let c := command n in
    if negb (c =? 10) && negb (c =? 0) then inl (n + 1, zset n c arr) else inr (n, arr))
    (0, replicate 128 0).
Definition skip_spaces (command : Z -> Z) : option Z :=
  while (λ i, if command i =? 32 then inl (i + 1) else inr i) 0.
Definition parse_filename (command : Z -> Z) (i : Z) : option (Z * list Z) :=
  while (λ '(i, j, buf),
    let c := command i in
    if negb (c =? 32) && negb (c =? 10) && negb (c =? 0) then inl (i + 1, j + 1, buf ++ [c])
    else inr (j, buf)) (i, 0, []).

(** The first free slot; [n] are left, at pid [i]. *)
Fixpoint find_free_pid (n : nat) (i : Z) (running : list Z) : option Z :=
  match n with
  | O => None
  | S n => if zget running (i - 1) =? 0 then Some i else find_free_pid n (i + 1) running
  end.

Section Processes.
Context (d0 : dentry_t) (locals : kernel -> Z).

(** From the free slot on: the process is created and entered. *)
Definition start_process (current_pid inode arg_size_ arg_idx : Z) (arg_arr_ : list Z) (executablebytes : Z) :
    prog kernel exec_result :=
  _ ← modify (set_pid current_pid);
  _ ← mmu_op (λ m, (paging_change_process current_pid m).2);
  _ ← read_data inode 0 VIRTUALADDRESSFOREXECUTABLEDATA EXTENDEDPAGESIZE;
  let current_process := pcb_addr current_pid in
  _ ← modify (λ k,
        if NUM_TERMINALS <? current_pid then
          let parent_pcb := get_pcb_address k in
          let parent_pid := (END_KMEM - parent_pcb) / PCB_SIZE - 1 in
          set_pcb current_process (λ p, p <| parent := parent_pcb |> <| parent_process_id := parent_pid |>) k
        else set_pcb current_process (λ p, p <| parent := 0 |>) k);
  _ ← modify (set_pcb current_process (λ p, set_up_stdout (set_up_stdin p) <| process_id := current_pid |>));
  p ← get (get_pcb current_process);
  p ← from_loop (set_up_fdsandargs arg_size_ arg_idx arg_arr_ p);
  _ ← modify (set_pcb current_process (λ _, p));
  _ ← modify (λ k, k <| tss := Tss KERNEL_DS (END_KMEM - current_pid * KERNEL_MEM_SIZE) |>);
  entry ← get (λ k, load32 k executablebytes);
  _ ← modify (contextswitchasm entry current_process);
  mret In_user.

Definition execute (command : charptr) : prog kernel exec_result := λ k,
  if is_null command then Ret (Returned (-1)) k
  else
    match strlen (chars command k) with
    | None => Spin
    | Some len =>
        if MAXBUFSIZEEXECUTE <? len then
          (_ ← printf (Object (text "Bad Length" ++ [10])) []; mret (Returned (-1))) k
        else
          match save_command (chars command k) with
          | None => Spin
          | Some (arg_size_, arg_arr_) =>
              (* arg_arr[arg_size+1] = 0 *)
              if MAXBUFSIZEEXECUTE <=? arg_size_ + 1 then Ub
              else
                let arg_arr_ := zset (arg_size_ + 1) 0 arg_arr_ in
                (i ← from_loop (skip_spaces (chars command k));
                 '(j, buf) ← from_loop (parse_filename (chars command k) i);
                 let j := if j =? MAXBUFSIZEEXECUTE then MAXBUFSIZEEXECUTE - 1 else j in
                 let buf := take (Z.to_nat j) buf in
                 let arg_idx := j + 1 in
                 '(r, dir_entry) ← read_dentry_by_name (Object buf) d0;
                 if r =? -1 then mret (Returned (-1))
                 else
                   let inode := inode_num dir_entry in
                   check_buf ← get locals;
                   let executablebytes := check_buf + METADATAEXECUTESIZE in
                   n ← read_data inode 0 check_buf METADATAEXECUTESIZE;
                   if negb (n =? METADATAEXECUTESIZE) then mret (Returned (-1))
                   else
                     magic ← get (λ k, load_bytes k check_buf 4);
                     if negb (bool_decide (magic = [0x7f; 0x45; 0x4C; 0x46])) then mret (Returned (-1))
                     else
                       _ ← read_data inode STARTOFEIPINEXECUTABLE executablebytes 4;
                       running ← get processes_running;
                       match find_free_pid 6 1 running with
                       | None =>
                           _ ← printf (Object (text "Maximum number of processes reached" ++ [10])) [];
                           mret (Returned (-1))
                       | Some current_pid =>
                           _ ← modify (λ k, k <| processes_running ::= zset (current_pid - 1) 1 |>);
                           start_process current_pid inode arg_size_ arg_idx arg_arr_ executablebytes
                       end) k
          end
    end.

(** The statement after [contextswitchasm], reached when the child halts: [execute]
    returns the status field of the child's own control block. *)
Definition execute_return (current_process : Z) (k : kernel) : Z := status (get_pcb current_process k).

(** [halt]: the descriptors are closed one by one. *)
Definition close_one (i : Z) : prog kernel unit :=
  curr_pcb ← get get_pcb_address;
  in_use ← get (λ k, zget (fd_flags (get_fd curr_pcb i k)) 0);
  _ ← (if in_use =? 1 then close i else mret 0);
  mret tt.
Definition close_all : prog kernel unit :=
  foldr (λ i rest, _ ← close_one i; rest) (mret tt) [0; 1; 2; 3; 4; 5; 6; 7].

(** The end of [halt] together with what [restoreparent] goes back to, the last line of the
    parent's [execute]. *)
Definition halt_process (status_ : Z) : prog kernel exec_result :=
  curr_pcb ← get get_pcb_address;
  p ← get (get_pcb curr_pcb);
  _ ← modify (λ k, k <| processes_running ::= zset (process_id p - 1) 0 |>);
  let parentid := u32 (parent_process_id p) in
  _ ← close_all;
  _ ← (if NUM_TERMINALS <? process_id p then modify (set_pcb (parent p) (λ q, q <| status := u8 status_ |>))
       else mret tt);
  _ ← modify (set_pid (s32 parentid));
  _ ← mmu_op (λ m, (paging_change_process parentid m).2);
  _ ← modify (λ k, k <| tss := Tss KERNEL_DS (u32 (END_KMEM - parentid * KERNEL_MEM_SIZE)) |>);
  p ← get (get_pcb curr_pcb);
  _ ← modify (restoreparent (parent_ebp p) (parent_esp p));
  r ← get (execute_return curr_pcb);
  mret (Returned r).

Definition halt (status_ : Z) : prog kernel exec_result :=
  curr_pcb ← get get_pcb_address;
  p ← get (get_pcb curr_pcb);
  if process_id p <? NUM_TERMINALS + 1 then
    _ ← printf (Object (text "Cannot close base process -- ")) [];
    _ ← dev_op cli;
    _ ← modify (λ k, k <| processes_running ::= zset (process_id p - 1) 0 |>);
    r ← execute (Object (text "shell"));
    match r with
    | In_user => mret In_user
    | Returned _ => halt_process status_
    end
  else halt_process status_.
End Processes.

(** ** The control block of a stack *)

(** [get_pcb_address] finds the control block of the process whose kernel stack it runs
    on: for every stack pointer strictly inside the 8 kB of process [p] (1 to 6), above
    its control block's address, it is the address [execute] puts the block of [p] at;
    different processes have different blocks, and blocks and stacks lie in the kernel's
    page. *)
Theorem get_pcb_address_of_stack k p :
  1 <= p <= 6 -> pcb_addr p < esp (regs k) < stack_top p ->
  get_pcb_address k = pcb_addr p /\ pcb_addr p <> 0 /\
  KER_START_ADDR <= pcb_addr p /\ stack_top p <= END_KMEM /\
  forall q, 1 <= q <= 6 -> pcb_addr q = pcb_addr p -> q = p.
Proof.
  unfold pcb_addr, stack_top, END_KMEM, PCB_SIZE, KERNEL_MEM_SIZE, KER_START_ADDR. intros Hp He.
  split; [|split; [lia|split; [lia|split; [lia|intros; lia]]]].
  unfold get_pcb_address, PCB_MASK. set (x := esp (regs k)) in *.
  change 0xFFE000 with (Z.shiftl (Z.ones 11) 13).
  replace (Z.land x (Z.shiftl (Z.ones 11) 13)) with (Z.shiftl (Z.land (Z.shiftr x 13) (Z.ones 11)) 13).
  - rewrite Z.land_ones, Z.shiftr_div_pow2, Z.shiftl_mul_pow2 by lia.
    change (2 ^ 13) with 8192. change (2 ^ 11) with 2048. Z.div_mod_to_equations; lia.
  - apply Z.bits_inj'. intros n Hn. rewrite Z.land_spec.
    destruct (decide (n < 13)).
    + rewrite !Z.shiftl_spec_low by lia. by rewrite andb_false_r.
    + rewrite !Z.shiftl_spec by lia. rewrite Z.land_spec, Z.shiftr_spec by lia.
      do 2 f_equal. lia.
Qed.
Lemma get_pcb_address_of_stack_witness : get_pcb_address demo_fs = pcb_addr 1.
Proof.
  destruct (get_pcb_address_of_stack demo_fs 1) as [H _]; [lia|vm_compute; split; reflexivity|exact H].
Defined.


(** ** The command line *)

(** A buffer of 128 bytes that holds [l]. *)
Definition pad (l : list Z) : list Z := l ++ replicate (128 - length l) 0.
Lemma zlen_pad l : zlen l <= 128 -> zlen (pad l) = 128.
Proof. unfold pad, zlen. rewrite length_app, length_replicate. lia. Qed.
Lemma zget_pad l i : 0 <= i < 128 -> zget (pad l) i = if decide (i < zlen l) then zget l i else 0.
Proof.
  intros Hi. unfold pad. case_decide; [by apply zget_app_l; lia|].
  rewrite zget_app_r by lia. unfold zget. apply lookup_total_replicate_2. unfold zlen in *. lia.
Qed.
Lemma zset_pad l c : zlen l < 128 -> zset (zlen l) c (pad l) = pad (l ++ [c]).
Proof.
  intros Hl. apply zget_ext.
  - rewrite zlen_zset, !zlen_pad; [done|rewrite zlen_app; unfold zlen in *; simpl; lia|lia].
  - rewrite zlen_zset, zlen_pad by lia. intros i Hi. rewrite (zget_pad (l ++ [c])) by lia.
    rewrite zlen_app. change (zlen [c]) with 1. pose proof (zlen_nonneg l).
    destruct (decide (i = zlen l)) as [->|Hne].
    + rewrite zget_zset_eq by (rewrite zlen_pad; lia). rewrite decide_True by lia.
      rewrite zget_app_r by lia. by rewrite Z.sub_diag.
    + rewrite zget_zset_ne by lia. rewrite zget_pad by lia. destruct (decide (i < zlen l)).
      * rewrite decide_True by lia. by rewrite zget_app_l by lia.
      * by rewrite decide_False by lia.
Qed.

(** A line as the shell passes it: no newline and no zero inside, one of them behind. *)
Record typed (command : Z -> Z) (line : list Z) : Prop := {
  ty_plain : plain line;
  ty_line : Forall (λ c, c <> 10) line;
  ty_at : forall i, 0 <= i < zlen line -> command i = zget line i;
  ty_end : command (zlen line) = 10 \/ command (zlen line) = 0
}.
(** It consists of [n] spaces, the program's name, and the rest, which starts with a space. *)
Record line_of (n : Z) (name rest line : list Z) : Prop := {
  lo_line : line = replicate (Z.to_nat n) 32 ++ name ++ rest;
  lo_spaces : 0 <= n;
  lo_name : name <> [] /\ Forall (λ c, c <> 32) name;
  lo_rest : rest = [] \/ hd 0 rest = 32
}.

Section Parsing.
Context (command : Z -> Z) (line : list Z) (n : Z) (name rest : list Z).
Context (Hty : typed command line) (Hlo : line_of n name rest line) (Hlen : zlen line <= 126).

Lemma line_char i : 0 <= i < zlen line -> command i = zget line i /\ zget line i <> 0 /\ zget line i <> 10.
Proof.
  intros Hi. split; [by apply (ty_at _ _ Hty)|].
  pose proof (plain_zget _ _ (ty_plain _ _ Hty) Hi). split; [lia|].
  pose proof (ty_line _ _ Hty) as Hl. rewrite Forall_lookup_total in Hl. apply Hl. unfold zlen in Hi. lia.
Qed.

Lemma save_command_line : save_command command = Some (zlen line, pad line).
Proof.
  pose proof (zlen_nonneg line). unfold save_command.
  apply (while_count _ (λ i, (i, pad (take (Z.to_nat i) line))) (zlen line)); [lia|done| |].
  - intros i Hi. destruct (line_char i Hi) as (-> & Hnz & H10).
    rewrite (proj2 (Z.eqb_neq _ 10)), (proj2 (Z.eqb_neq _ 0)) by done. cbn [negb andb]. do 2 f_equal.
    rewrite take_snoc by lia. rewrite <- zset_pad by (rewrite zlen_take; lia). by rewrite zlen_take by lia.
  - rewrite take_ge by (unfold zlen; lia).
    destruct (ty_end _ _ Hty) as [-> | ->]; done.
Qed.

(** Indices into the line. *)
Lemma line_split : zlen line = n + zlen name + zlen rest.
Proof.
  destruct Hlo as [-> Hn _ _]. rewrite !zlen_app, zlen_replicate. lia.
Qed.
Lemma line_space i : 0 <= i < n -> zget line i = 32.
Proof.
  destruct Hlo as [-> Hn _ _]. intros Hi. rewrite zget_app_l by (rewrite zlen_replicate; lia).
  apply zget_replicate. lia.
Qed.
Lemma line_name i : 0 <= i < zlen name -> zget line (n + i) = zget name i /\ zget name i <> 32.
Proof.
  destruct Hlo as [-> Hn [_ H32] _]. intros Hi. split.
  - rewrite zget_app_r, zlen_replicate by (rewrite zlen_replicate; lia).
    rewrite zget_app_l by (rewrite ?zlen_replicate; lia). f_equal. lia.
  - rewrite Forall_lookup_total in H32. apply H32. unfold zlen in Hi. lia.
Qed.

Lemma skip_spaces_line : skip_spaces command = Some n.
Proof.
  pose proof line_split as Hs. pose proof (zlen_nonneg rest). pose proof (lo_spaces _ _ _ _ Hlo).
  assert (0 < zlen name) as Hname.
  { destruct (lo_name _ _ _ _ Hlo) as [Hne _]. destruct name; [done|]. rewrite zlen_cons. pose proof (zlen_nonneg l). lia. }
  unfold skip_spaces. apply (while_count _ (λ i, i) n); [lia|done| |].
  - intros i Hi. destruct (line_char i) as [-> _]; [lia|]. by rewrite line_space by lia.
  - destruct (line_char n) as [-> _]; [lia|]. destruct (line_name 0) as [Hat Hne]; [lia|].
    rewrite Z.add_0_r in Hat. by rewrite Hat, (proj2 (Z.eqb_neq _ 32)) by done.
Qed.

(** The character behind the name. *)
Lemma after_name : let c := command (n + zlen name) in c = 32 \/ c = 10 \/ c = 0.
Proof.
  pose proof line_split as Hs. cbv zeta. destruct Hlo as [Hl Hn _ [-> | Hr]].
  - change (zlen []) with 0 in Hs. replace (n + zlen name) with (zlen line) by lia.
    destruct (ty_end _ _ Hty); auto.
  - destruct rest as [|c r]; [done|]. cbn [hd] in Hr. subst c. rewrite zlen_cons in Hs.
    pose proof (zlen_nonneg r). pose proof (zlen_nonneg name).
    destruct (line_char (n + zlen name)) as [-> _]; [lia|]. left.
    rewrite Hl, zget_app_r, zlen_replicate, zget_app_r by (rewrite ?zlen_replicate; lia).
    replace (n + zlen name - Z.of_nat (Z.to_nat n) - zlen name) with 0 by lia. done.
Qed.

Lemma parse_filename_line : parse_filename command n = Some (zlen name, name).
Proof.
  pose proof line_split as Hs. pose proof (zlen_nonneg rest). pose proof (lo_spaces _ _ _ _ Hlo).
  pose proof (zlen_nonneg name). unfold parse_filename.
  apply (while_count _ (λ j, (n + j, j, take (Z.to_nat j) name)) (zlen name)); [lia|by rewrite Z.add_0_r| |].
  - intros j Hj. destruct (line_char (n + j)) as (-> & Hnz & H10); [lia|].
    destruct (line_name j Hj) as [Hat H32]. rewrite Hat in *.
    rewrite !(proj2 (Z.eqb_neq _ _)) by done. cbn [negb andb]. rewrite take_snoc by lia. by rewrite Z.add_assoc.
  - rewrite take_ge by (unfold zlen; lia). destruct after_name as [-> |[-> | ->]]; done.
Qed.

(** Copying from index [idx] of the saved line. *)
Lemma copy_args_line idx p :
  0 <= idx -> arg_arr p = pad [] ->
  copy_args (zlen line) idx (pad line) p = Some (p <| arg_arr := pad (drop (Z.to_nat idx) line) |>).
Proof.
  intros Hidx Hp. pose proof (zlen_nonneg line). set (args := drop (Z.to_nat idx) line).
  assert (zlen args = Z.max 0 (zlen line - idx)) as Hargs by (unfold args, zlen; rewrite length_drop; lia).
  unfold copy_args.
  apply (while_count _ (λ i, (i, idx + i, p <| arg_arr := pad (take (Z.to_nat i) args) |>)) (zlen args)).
  - lia.
  - rewrite Z.add_0_r. change (take (Z.to_nat 0) args) with (@nil Z). rewrite <- Hp. by destruct p.
  - intros i Hi. replace (idx + i <? zlen line) with true by lia.
    assert (zget (pad line) (idx + i) = zget args i) as ->.
    { rewrite zget_pad, decide_True by lia. unfold args. by rewrite zget_drop by lia. }
    destruct (line_char (idx + i)) as (_ & Hnz & _); [lia|].
    unfold args in *. rewrite zget_drop by lia. rewrite (proj2 (Z.eqb_neq _ 0)) by done. cbn [negb andb].
    do 2 f_equal; [f_equal; lia|].
    assert (zlen (take (Z.to_nat i) (drop (Z.to_nat idx) line)) = i) as Hti by (apply zlen_take; lia).
    unfold upd, set_arg_arr. cbn. f_equal. rewrite take_snoc, zget_drop, <- zset_pad by (rewrite ?Hti; lia).
    by rewrite Hti.
  - rewrite take_ge by (unfold zlen; lia). destruct (Z.ltb_spec (idx + zlen args) (zlen line)); [lia|done].
Qed.
End Parsing.

(** *** The control block of a new process *)

(** The descriptors have room for their flags. *)
Definition fds_shape (l : list file_desc) : Prop :=
  zlen l = 8 /\ forall i, 0 <= i < 8 -> zlen (fd_flags (zget l i)) = 4.

Definition free_fd (f : file_desc) : file_desc := f <| file_pos := 0 |> <| fd_flags ::= zset 0 0 |>.
Lemma in_use_free_fd f : zlen (fd_flags f) = 4 -> in_use (free_fd f) = false.
Proof.
  intros Hf. unfold in_use. assert (zget (fd_flags (free_fd f)) 0 = 0) as ->; [|done].
  apply zget_zset_eq. change (0 <= 0 < zlen (fd_flags f)). lia.
Qed.
Lemma free_fds_fds p i :
  fds_shape (fd_array p) -> 0 <= i < 8 ->
  zget (fd_array (free_fds p)) i = (if decide (2 <= i) then free_fd else id) (zget (fd_array p) i) /\
  zlen (fd_array (free_fds p)) = 8 /\ free_fds p = p <| fd_array := fd_array (free_fds p) |>.
Proof.
  intros [Hl _] Hi. unfold free_fds.
  pose proof (for_up_ind (λ j q,
      zget (fd_array q) i = (if decide (2 <= i < j) then free_fd else id) (zget (fd_array p) i) /\
      zlen (fd_array q) = 8 /\ q = p <| fd_array := fd_array q |>) 6 2
      (λ i p, p <| fd_array ::= λ l, zset i (zget l i <| file_pos := 0 |> <| fd_flags ::= zset 0 0 |>) l |>) p) as Hind.
  cbv beta in Hind. change (2 + Z.of_nat 6) with 8 in Hind.
  destruct Hind as (H1 & H2 & H3).
  - rewrite decide_False by lia. split; [done|]. split; [done|]. by destruct p.
  - intros j q Hj (Hq & Hql & Hqp). split; [|split].
    + cbn. destruct (decide (i = j)) as [->|Hne].
      * rewrite zget_zset_eq by lia. rewrite Hq, decide_False, decide_True by lia. done.
      * rewrite zget_zset_ne by lia. rewrite Hq. repeat case_decide; done || lia.
    + cbn. by rewrite zlen_zset.
    + rewrite Hqp. done.
  - split; [|done]. rewrite H1. repeat case_decide; done || lia.
Qed.

Lemma clear_args_pad p :
  zlen (arg_arr p) = 128 -> for_up 128 0 (λ i p, p <| arg_arr ::= zset i 0 |>) p = p <| arg_arr := pad [] |>.
Proof.
  intros Hl.
  pose proof (for_up_ind (λ j q, q = p <| arg_arr := arg_arr q |> /\ zlen (arg_arr q) = 128 /\
      forall i, 0 <= i < j -> zget (arg_arr q) i = 0) 128 0 (λ i p, p <| arg_arr ::= zset i 0 |>) p) as Hind.
  cbv beta in Hind. change (0 + Z.of_nat 128) with 128 in Hind. destruct Hind as (H1 & H2 & H3).
  - split; [by destruct p|]. split; [done|]. intros; lia.
  - intros j q Hj (Hq & Hql & Hqz). split; [by rewrite Hq|]. cbn. split; [by rewrite zlen_zset|].
    intros i Hi. destruct (decide (i = j)) as [->|]; [by rewrite zget_zset_eq by lia|].
    rewrite zget_zset_ne by lia. apply Hqz. lia.
  - set (q := for_up _ _ _ _) in *. clearbody q. rewrite H1.
    assert (arg_arr q = pad []) as ->; [|done]. apply zget_ext; [by rewrite H2|]. intros i Hi.
    rewrite H3 by lia. rewrite zget_pad by lia. by rewrite decide_False by (unfold zlen; simpl; lia).
Qed.

(** What [set_up_fdsandargs] makes of a control block. *)
Definition with_args (line : list Z) (idx : Z) (p : pcb) : pcb :=
  free_fds p <| arg_size := zlen line |> <| arg_arr := pad (drop (Z.to_nat idx) line) |>.
Lemma set_up_fdsandargs_line command line n name rest idx p :
  typed command line -> line_of n name rest line -> zlen line <= 126 -> 0 <= idx ->
  fds_shape (fd_array p) -> zlen (arg_arr p) = 128 ->
  set_up_fdsandargs (zlen line) idx (zset (zlen line + 1) 0 (pad line)) p = Some (with_args line idx p).
Proof.
  intros Hty Hlo Hlen Hidx Hsh Harg. pose proof (zlen_nonneg line). unfold set_up_fdsandargs.
  assert (zset (zlen line + 1) 0 (pad line) = pad line) as ->.
  { pose proof (zset_id (zlen line + 1) (pad line)) as Hz.
    rewrite zget_pad, decide_False in Hz by lia. apply Hz. rewrite zlen_pad; lia. }
  destruct (free_fds_fds p 0 Hsh ltac:(lia)) as (_ & _ & Hfree).
  assert (zlen (arg_arr (free_fds p)) = 128) as Hf by (by rewrite Hfree).
  rewrite (clear_args_pad _ Hf). erewrite copy_args_line by (eassumption || done). done.
Qed.

(** C11. The parsing of a command line of [n] spaces, the program's name and the rest, of at
    most 126 characters: the name is found whatever the spaces, the saved line is the line,
    and the control block's argument string is what follows the first [length name + 1]
    characters of the line.  These are the arguments - all of the rest but its first
    space - when there are no leading spaces, and otherwise not. *)
Theorem command_line_parsed command line n name rest p :
  typed command line -> line_of n name rest line -> zlen line <= 126 ->
  fds_shape (fd_array p) -> zlen (arg_arr p) = 128 ->
  let idx := zlen name + 1 in
  save_command command = Some (zlen line, pad line) /\
  skip_spaces command = Some n /\
  parse_filename command n = Some (zlen name, name) /\
  exists p', set_up_fdsandargs (zlen line) idx (zset (zlen line + 1) 0 (pad line)) p = Some p' /\
    arg_arr p' = pad (drop (Z.to_nat idx) line) /\ arg_size p' = zlen line /\
    (n = 0 -> arg_arr p' = pad (tl rest)) /\
    (forall i, 2 <= i < 8 -> in_use (zget (fd_array p') i) = false).
Proof.
  intros Hty Hlo Hlen Hsh Harg idx. pose proof (zlen_nonneg name).
  split; [by eapply save_command_line|]. split; [by eapply skip_spaces_line|].
  split; [by eapply parse_filename_line|].
  exists (with_args line idx p). split; [eapply set_up_fdsandargs_line; done || (unfold idx; lia)|].
  split; [done|]. split; [done|]. split.
  - intros ->. cbn [arg_arr with_args upd set_arg_arr]. f_equal. destruct Hlo as [-> _ _ _].
    change (replicate (Z.to_nat 0) 32) with (@nil Z). cbn [app]. unfold idx.
    replace (Z.to_nat (zlen name + 1)) with (S (length name)) by (unfold zlen; lia).
    change (S (length name)) with (1 + length name)%nat. rewrite <- skipn_skipn, skipn_app.
    rewrite Nat.sub_diag, skipn_all.
    by destruct rest.
  - intros i Hi. change (fd_array (with_args line idx p)) with (fd_array (free_fds p)).
    destruct (free_fds_fds p i Hsh ltac:(lia)) as (-> & _).
    rewrite decide_True by lia. apply in_use_free_fd. destruct Hsh as [_ Hf]. apply Hf. lia.
Qed.
Lemma command_line_parsed_witness :
  exists p', set_up_fdsandargs 7 4 (zset 8 0 (pad (text "cat foo"))) pcb0 = Some p' /\ arg_arr p' = pad (text "foo").
Proof.
  set (line := text "cat foo").
  destruct (command_line_parsed (zget (line ++ [10])) line 0 (text "cat") (text " foo") pcb0)
    as (_ & _ & _ & p' & Hp & _ & _ & Ha & _).
  - split; [repeat constructor|repeat constructor; discriminate| |left; reflexivity].
    intros i Hi. apply zget_app_l. exact Hi.
  - split; [reflexivity|lia|split; [discriminate|repeat constructor; discriminate]|right; reflexivity].
  - vm_compute. discriminate.
  - split; [reflexivity|]. intros i Hi.
    pose proof (check_below 8 (λ i, zlen (fd_flags (zget (fd_array pcb0) i)) =? 4) ltac:(vm_compute; reflexivity) i ltac:(lia)) as Hc.
    cbv beta in Hc. lia.
  - reflexivity.
  - exists p'. split; [exact Hp|]. exact (Ha eq_refl).
Defined.

(** ** Starting a program *)

(** The file can be loaded: the image lies in the kernel's page, and the file is at least
    a header and fits in the user page behind the load address. *)
Record loadable (k : kernel) (inode : Z) : Prop := {
  ld_map : kernel_map (mmu_of k);
  ld_file : file_wf k inode;
  ld_image : 0x400000 <= boot k /\ boot k + image_size k <= 0x800000;
  ld_size : METADATAEXECUTESIZE <= file_size k inode <= 0x3B8000
}.
Lemma kernel_buffer_ok k a n :
  kernel_map (mmu_of k) -> 0x400000 <= boot k /\ boot k + image_size k <= 0x800000 ->
  0x400000 <= a -> a + n <= 0x800000 -> a + n <= boot k \/ boot k + image_size k <= a -> buffer_ok k a n.
Proof.
  intros Hkm Himg Ha Hn Hsep. split; [lia|by apply kernel_inj_range|apply kernel_sep_range; done || lia].
Qed.
Lemma user_buffer_ok k inode pid_ n :
  loadable k inode -> user_page pid_ (mmu_of k) -> n <= 0x3B8000 ->
  buffer_ok k VIRTUALADDRESSFOREXECUTABLEDATA n.
Proof.
  unfold VIRTUALADDRESSFOREXECUTABLEDATA. intros [Hkm _ Himg _] Hu Hn.
  split; [done|eapply user_inj_range; [done|done|unfold user_base; lia..]|].
  intros i j Hi Hj. rewrite (resolve_user k pid_), resolve_kernel by (done || (unfold user_base; lia)).
  destruct Hu as [Hp _]. unfold user_frame, user_base. lia.
Qed.
Lemma user_page_change pid_ m :
  kernel_map m -> 1 <= pid_ <= 6 -> user_page pid_ (paging_change_process pid_ m).2.
Proof.
  intros Hkm Hp. split; [done|]. unfold paging_change_process, PIDMIN, PIDMAX. rewrite (u32_id (pid_ - 1)) by lia.
  replace ((pid_ - 1 <? 0) || (5 <? pid_ - 1)) with false by lia. cbn.
  rewrite zget_zset_eq by (rewrite (km_pd_len _ Hkm); unfold USER_MEM_LOCATION; lia).
  unfold user_frame, USR_START_ADDR, PROCESS_SIZE. done.
Qed.

(** The control block of a new process. *)
Definition child_block (pid_ parent_a : Z) (line : list Z) (idx esp_ ebp_ : Z) (p : pcb) : pcb :=
  with_args line idx
    (set_up_stdout (set_up_stdin
      (if NUM_TERMINALS <? pid_
       then p <| parent := parent_a |> <| parent_process_id := (END_KMEM - parent_a) / PCB_SIZE - 1 |>
       else p <| parent := 0 |>)) <| process_id := pid_ |>)
  <| parent_esp := esp_ |> <| parent_ebp := ebp_ |>.

(** Process [pid_] runs the program of file [inode], entered at [entry]; besides its frame,
    the [n] bytes at [scratch] may have changed. *)
Record started (pid_ inode : Z) (line : list Z) (idx entry scratch n : Z) (k K : kernel) : Prop := {
  st_map : kernel_map (mmu_of K);
  st_page : user_page pid_ (mmu_of K);
  st_code : load_bytes K VIRTUALADDRESSFOREXECUTABLEDATA (Z.to_nat (file_size k inode))
            = file_bytes k inode 0 (file_size k inode);
  st_regs : regs K = regs k <| eip := entry |> <| esp := 0x83ffffc |> <| user := true |>;
  st_tss : tss K = Tss KERNEL_DS (stack_top pid_);
  st_if : interrupt_flag (devs K) = true;
  st_pid : sched K = sched (set_pid pid_ k);
  st_block : get_pcb (pcb_addr pid_) K =
    child_block pid_ (get_pcb_address k) line idx (esp (regs k)) (ebp (regs k)) (get_pcb (pcb_addr pid_) k);
  st_others : forall a, a <> pcb_addr pid_ -> get_pcb a K = get_pcb a k;
  st_phys : forall a, ~ (user_frame pid_ <= a < user_frame pid_ + 0x400000) -> ~ (scratch <= a < scratch + n) ->
    phys K !! a = phys k !! a;
  st_rest : term K = term k /\ kbd K = kbd k;
  st_mmu : mmu_of K = (paging_change_process pid_ (mmu_of k)).2;
  st_statics : same_statics k K
}.

Lemma shape_zset l i f :
  fds_shape l -> 0 <= i < 8 -> zlen (fd_flags f) = 4 -> fds_shape (zset i f l).
Proof.
  intros [Hl Hf] Hi Hff. split; [by rewrite zlen_zset|]. intros j Hj.
  destruct (decide (j = i)) as [->|]; [by rewrite zget_zset_eq by lia|]. rewrite zget_zset_ne by lia. by apply Hf.
Qed.
Lemma set_up_shape p :
  fds_shape (fd_array p) -> fds_shape (fd_array (set_up_stdout (set_up_stdin p))).
Proof.
  intros Hs. assert (fds_shape (fd_array (set_up_stdin p))) as Hs1.
  { apply shape_zset; [done|lia|]. cbn. rewrite zlen_zset. apply Hs. lia. }
  apply shape_zset; [done|lia|]. cbn [fd_flags upd set_fd_flags]. rewrite zlen_zset. apply Hs1. lia.
Qed.

Lemma set_up_fds p :
  fds_shape (fd_array p) -> let l := fd_array (set_up_stdout (set_up_stdin p)) in
  (in_use (zget l 0) = true /\ operationstable (zget l 0) = Some stdin_table) /\
  (in_use (zget l 1) = true /\ operationstable (zget l 1) = Some stdout_table).
Proof.
  intros [Hl Hf] l. set (open_as t f := f <| operationstable := Some t |> <| fd_inode := -1 |>
    <| file_pos := 0 |> <| fd_flags ::= zset 0 1 |>).
  set (l0 := zset 0 (open_as stdin_table (zget (fd_array p) 0)) (fd_array p)).
  assert (forall t f, zlen (fd_flags f) = 4 -> in_use (open_as t f) = true) as Huse.
  { intros t f Hff. unfold in_use. assert (zget (fd_flags (open_as t f)) 0 = 1) as ->; [|done].
    apply zget_zset_eq. change (0 <= 0 < zlen (fd_flags f)). lia. }
  assert (zlen l0 = 8) as Hl0 by (unfold l0; by rewrite zlen_zset).
  change l with (zset 1 (open_as stdout_table (zget l0 1)) l0). rewrite zget_zset_ne, zget_zset_eq by lia.
  unfold l0 at 1 2. rewrite zget_zset_eq by lia.
  split; (split; [apply Huse|done]); [apply Hf; lia|]. unfold l0. rewrite zget_zset_ne by lia. apply Hf. lia.
Qed.

(** The new process has its standard descriptors open and no other. *)
Lemma child_block_fds pid_ parent_a line idx esp_ ebp_ p :
  fds_shape (fd_array p) -> let l := fd_array (child_block pid_ parent_a line idx esp_ ebp_ p) in
  fds_wf l /\ forall i, 2 <= i < 8 -> in_use (zget l i) = false.
Proof.
  intros Hs l. set (q := if NUM_TERMINALS <? pid_
       then p <| parent := parent_a |> <| parent_process_id := (END_KMEM - parent_a) / PCB_SIZE - 1 |>
       else p <| parent := 0 |>).
  assert (fds_shape (fd_array q)) as Hq by (unfold q; by destruct (NUM_TERMINALS <? pid_)).
  set (r := set_up_stdout (set_up_stdin q) <| process_id := pid_ |>).
  assert (fds_shape (fd_array r)) as Hr by (apply set_up_shape, Hq).
  change l with (fd_array (free_fds r)). pose proof (free_fds_fds r) as Hf.
  assert (forall i, 2 <= i < 8 -> in_use (zget (fd_array (free_fds r)) i) = false) as Hfree.
  { intros i Hi. destruct (Hf i Hr ltac:(lia)) as (-> & _). rewrite decide_True by lia.
    apply in_use_free_fd. destruct Hr as [_ Hr]. apply Hr. lia. }
  split; [|exact Hfree]. split.
  - apply (Hf 0); [done|lia].
  - intros i Hi. destruct (Hf i Hr Hi) as (-> & _). destruct Hr as [_ Hr]. case_decide; [|by apply Hr].
    unfold free_fd. cbn. rewrite zlen_zset. by apply Hr.
  - destruct (Hf 0 Hr ltac:(lia)) as (-> & _). rewrite decide_False by lia. by apply (set_up_fds q).
  - destruct (Hf 1 Hr ltac:(lia)) as (-> & _). rewrite decide_False by lia. by apply (set_up_fds q).
  - intros i Hi Hu. by rewrite Hfree in Hu.
Qed.

Lemma start_process_runs command n name rest pid_ inode line idx entry k :
  loadable k inode -> 1 <= pid_ <= 6 ->
  typed command line -> line_of n name rest line -> zlen line <= 126 -> 0 <= idx ->
  fds_shape (fd_array (get_pcb (pcb_addr pid_) k)) -> zlen (arg_arr (get_pcb (pcb_addr pid_) k)) = 128 ->
  0x400000 <= entry -> entry + 4 <= 0x800000 ->
  exists K, start_process pid_ inode (zlen line) idx (zset (zlen line + 1) 0 (pad line)) entry k = Ret In_user K /\
    started pid_ inode line idx (load32 k entry) 0 0 k K /\ processes_running K = processes_running k.
Proof.
  intros Hld Hpid Hty Hlo Hlen Hidx Hsh Harg He He'.
  set (k2 := set_pid pid_ k <| mmu_of ::= λ m, (paging_change_process pid_ m).2 |>).
  destruct Hld as [Hkm Hf Himg Hsz]. unfold METADATAEXECUTESIZE in Hsz.
  assert (kernel_map (mmu_of k2)) as Hkm2 by (apply paging_change_process_kernel_map, Hkm).
  assert (user_page pid_ (mmu_of k2)) as Hu by (apply user_page_change; done).
  assert (same_image k k2) as Hs2.
  { split; [done|]. intros a Ha. rewrite !loadb_phys, !resolve_kernel by (done || lia). done. }
  destruct (same_image_file _ _ inode Hs2 Hf) as (Hf2 & Hsz2 & Hby2).
  assert (loadable k2 inode) as Hld2.
  { split; [done|done| |rewrite Hsz2; done]. rewrite (si_boot _ _ Hs2), (same_image_size _ _ Hs2). done. }
  assert (clipped EXTENDEDPAGESIZE 0 (file_size k2 inode) = file_size k inode) as Hclip
    by (rewrite Hsz2; unfold clipped, EXTENDEDPAGESIZE; lia).
  destruct (read_data_fetches k2 inode 0 VIRTUALADDRESSFOREXECUTABLEDATA EXTENDEDPAGESIZE) as (K3 & Hr & Hfe);
    [done|rewrite Hclip; apply (user_buffer_ok _ inode pid_); done || lia|lia|unfold EXTENDEDPAGESIZE; lia|].
  rewrite Hclip in Hfe, Hr. destruct Hfe as [Hbytes Hrest Himg3 Hout Hst3].
  assert (forall b, ~ (user_frame pid_ <= b < user_frame pid_ + 0x400000) -> phys K3 !! b = phys k !! b) as Hphys.
  { intros b Hb. rewrite Hout; [done|]. intros i Hi. unfold VIRTUALADDRESSFOREXECUTABLEDATA.
    rewrite (resolve_user k2 pid_) by (done || (unfold user_base; lia)). unfold user_base. lia. }
  assert (forall b, 0x400000 <= b < 0x800000 -> loadb K3 b = loadb k b) as Hlow.
  { intros b Hb. assert (kernel_map (mmu_of K3)) as Hkm3 by (by rewrite Hrest).
    rewrite !loadb_phys, !resolve_kernel by done. unfold phys_byte. rewrite Hphys; [done|].
    unfold user_frame. lia. }
  set (a := pcb_addr pid_). set (ga := get_pcb_address k).
  assert (get_pcb a K3 = get_pcb a k) as HaK by (by rewrite Hrest).
  assert (get_pcb_address K3 = ga) as Hga by (by rewrite Hrest).
  set (f1 := λ p, if NUM_TERMINALS <? pid_
    then p <| parent := ga |> <| parent_process_id := (END_KMEM - ga) / PCB_SIZE - 1 |>
    else p <| parent := 0 |>).
  set (f2 := λ p, set_up_stdout (set_up_stdin p) <| process_id := pid_ |>).
  set (blk := with_args line idx (f2 (f1 (get_pcb a k)))).
  set (K8 := set_pcb a (λ _, blk) (set_pcb a f2 (set_pcb a f1 K3))
             <| tss := Tss KERNEL_DS (stack_top pid_) |>).
  assert (load32 K8 entry = load32 k entry) as Hword.
  { unfold load32. rewrite !(loadb_same K3 K8) by done. by rewrite !Hlow by lia. }
  exists (contextswitchasm (load32 k entry) a K8). split.
  - unfold start_process. fold a. unfold mmu_op. rewrite !bind_modify. fold k2.
    rewrite (bind_Ret _ _ _ _ _ Hr). rewrite !bind_modify, bind_get. rewrite Hga.
    replace (if NUM_TERMINALS <? pid_ then set_pcb a _ K3 else _) with (set_pcb a f1 K3)
      by (unfold f1; by destruct (NUM_TERMINALS <? pid_)).
    fold f2. rewrite !get_set_pcb, HaK.
    rewrite (set_up_fdsandargs_line command line n name rest); [|done..| |].
    2: { apply set_up_shape. unfold f1. by destruct (NUM_TERMINALS <? pid_). }
    2: { unfold f1. by destruct (NUM_TERMINALS <? pid_). }
    cbn [from_loop]. rewrite bind_mret, !bind_modify, bind_get, bind_modify. fold blk.
    change (set_pcb a (λ _, blk) (set_pcb a f2 (set_pcb a f1 K3)) <| tss := _ |>) with K8. by rewrite Hword.
  - assert (forall b, get_pcb b K3 = get_pcb b k) as HbK by (intros b; by rewrite Hrest).
    assert (regs K8 = regs k) as Hregs by (unfold K8; cbn; by rewrite Hrest).
    assert (devs K8 = devs k) as Hdevs by (unfold K8; cbn; by rewrite Hrest).
    split; [split; cbn [contextswitchasm]|].
    + change (kernel_map (mmu_of K3)). by rewrite Hrest.
    + change (user_page pid_ (mmu_of K3)). by rewrite Hrest.
    + rewrite <- (same_image_bytes k k2 inode 0 (file_size k inode) Hs2 Hf), <- Hbytes by lia.
      unfold load_bytes. apply tabulate_ext. intros i Hi. by apply loadb_same.
    + change (regs K8 <| eip := load32 k entry |> <| esp := 0x83ffffc |> <| user := true |> = 
        regs k <| eip := load32 k entry |> <| esp := 0x83ffffc |> <| user := true |>). by rewrite Hregs.
    + done.
    + done.
    + change (sched K3 = sched (set_pid pid_ k)). by rewrite Hrest.
    + change (get_pcb a (save_parent_registers a (esp (regs K8)) (ebp (regs K8)) K8)
        = child_block pid_ ga line idx (esp (regs k)) (ebp (regs k)) (get_pcb a k)).
      unfold save_parent_registers. rewrite get_set_pcb, Hregs.
      change (get_pcb a K8) with (get_pcb a (set_pcb a (λ _, blk) (set_pcb a f2 (set_pcb a f1 K3)))).
      by rewrite get_set_pcb.
    + intros b Hb. change (get_pcb b (save_parent_registers a (esp (regs K8)) (ebp (regs K8)) K8) = get_pcb b k).
      unfold save_parent_registers. rewrite get_set_pcb_ne by done. rewrite <- HbK.
      change (get_pcb b (set_pcb a (λ _, blk) (set_pcb a f2 (set_pcb a f1 K3))) = get_pcb b K3).
      by rewrite !get_set_pcb_ne by done.
    + intros b Hb _. by apply Hphys.
    + change (term K3 = term k /\ kbd K3 = kbd k). by rewrite Hrest.
    + change (mmu_of K3 = mmu_of k2). by rewrite Hrest.
    + exact Hst3.
    + change (processes_running K3 = processes_running k). by rewrite Hrest.
Qed.

(** The least free slot. *)
Lemma find_free_pid_least n i running :
  match find_free_pid n i running with
  | Some p => i <= p < i + Z.of_nat n /\ zget running (p - 1) = 0 /\
              forall q, i <= q < p -> zget running (q - 1) <> 0
  | None => forall q, i <= q < i + Z.of_nat n -> zget running (q - 1) <> 0
  end.
Proof.
  revert i. induction n as [|n IH]; intros i; cbn [find_free_pid]; [intros; lia|].
  destruct (Z.eqb_spec (zget running (i - 1)) 0) as [H0|H0].
  - split; [lia|]. split; [done|]. intros; lia.
  - specialize (IH (i + 1)). destruct (find_free_pid n (i + 1) running) as [p|].
    + destruct IH as (Hp & Hz & Hq). split; [lia|]. split; [done|]. intros q Hq'.
      destruct (decide (q = i)) as [->|]; [done|]. apply Hq. lia.
    + intros q Hq'. destruct (decide (q = i)) as [->|]; [done|]. apply IH. lia.
Qed.

(** The word whose bytes were loaded. *)
Definition le32 (l : list Z) : Z := zget l 0 + 256 * zget l 1 + 65536 * zget l 2 + 16777216 * zget l 3.
Lemma load32_le32 (k : kernel) a : load32 k a = le32 (load_bytes k a 4).
Proof. unfold load32, le32, load_bytes. rewrite !zget_tabulate by lia. rewrite !Z.add_0_r. lia. Qed.

Lemma line_plain command line n name rest :
  typed command line -> line_of n name rest line -> plain name.
Proof.
  intros Hty [Hl _ _ _]. pose proof (ty_plain _ _ Hty) as Hp. rewrite Hl in Hp.
  apply Forall_app in Hp as [_ Hp]. by apply Forall_app in Hp as [Hp _].
Qed.

Section Execute.
Context (d0 : dentry_t) (locals : kernel -> Z) (command : charptr) (k : kernel) (line name rest : list Z) (n i len : Z).
Let inode := u32 (s8 (entry_byte k i 36)).
Let L := locals (read_counts k).

(** What [execute] is called with: a string whose line names a file of the image... *)
Record names_program : Prop := {
  np_null : is_null command = false;
  np_len : strlen (chars command k) = Some len /\ len <= 128;
  np_typed : typed (chars command k) line;
  np_line : line_of n name rest line;
  np_short : zlen line <= 126;
  np_d0 : zlen (State.fname d0) = 32;
  np_dir : dir_ok k /\ ~ is_directory k name;
  np_entry : 1 <= i <= 62 /\ entry_name k i = name /\ forall j, 1 <= j < i -> entry_name k j <> name
}.
(** ... that is an executable, and there is room on the kernel stack for its header. *)
Record is_program : Prop := {
  ip_load : loadable k inode;
  ip_magic : file_bytes k inode 0 4 = [0x7f; 0x45; 0x4C; 0x46];
  ip_stack : 0x400000 <= L /\ L + 44 <= 0x800000;
  ip_sep : L + 44 <= boot k \/ boot k + image_size k <= L
}.

Lemma fetched_kernel_facts inode' offset buf m K K' :
  fetched inode' offset buf m K K' ->
  mmu_of K' = mmu_of K /\ sched K' = sched K /\ term K' = term K /\ kbd K' = kbd K /\
  processes_running K' = processes_running K /\ pcbs K' = pcbs K /\ tss K' = tss K /\ regs K' = regs K /\
  devs K' = devs K.
Proof. intros [_ -> _ _ _]. done. Qed.

(** The header and the entry point are read into the local arrays. *)
Lemma read_header :
  names_program -> is_program ->
  exists K2 K3,
    read_dentry_by_name (Object name) d0 k
      = Ret (0, Dentry (name ++ replicate (32 - length name) 0) (u32 (s8 (entry_byte k i 32))) inode (reserved d0)) (read_counts k) /\
    read_data inode 0 L METADATAEXECUTESIZE (read_counts k) = Ret METADATAEXECUTESIZE K2 /\
    load_bytes K2 L 4 = [0x7f; 0x45; 0x4C; 0x46] /\
    read_data inode STARTOFEIPINEXECUTABLE (L + METADATAEXECUTESIZE) 4 K2 = Ret 4 K3 /\
    load32 K3 (L + METADATAEXECUTESIZE) = le32 (file_bytes k inode 24 4) /\
    same_image k K3 /\ K3 = k <| phys := phys K3 |> <| fs := fs K3 |> /\ same_statics k K3 /\
    (forall a, ~ (L <= a < L + 44) -> phys K3 !! a = phys k !! a).
Proof.
  intros [Hnull Hlen Hty Hlo Hshort Hd0 [Hdir Hnd] (Hi & He & Hfirst)] [Hld Hmagic HL Hsep].
  pose proof (ld_map _ _ Hld) as Hkm. pose proof (ld_file _ _ Hld) as Hf.
  pose proof (ld_image _ _ Hld) as Himg. pose proof (ld_size _ _ Hld) as Hsz.
  unfold METADATAEXECUTESIZE, STARTOFEIPINEXECUTABLE in *.
  assert (buffer_ok k L 44) as Hbuf by (apply kernel_buffer_ok; done || lia).
  pose proof (line_plain _ _ _ _ _ Hty Hlo) as Hplain.
  assert (zlen name <= 32) as Hn32 by (rewrite <- He; apply (name_at_zlen 32)).
  assert (clipped 40 0 (file_size (read_counts k) inode) = 40) as Hc1
    by (change (file_size (read_counts k) inode) with (file_size k inode); unfold clipped; lia).
  destruct (read_data_fetches (read_counts k) inode 0 L 40) as (K2 & Hr2 & Hf2);
    [by apply read_counts_wf|rewrite Hc1; apply read_counts_buffer, (buffer_ok_le _ _ _ _ Hbuf); lia
    |change (file_size (read_counts k) inode) with (file_size k inode); lia|lia|].
  rewrite Hc1 in Hr2, Hf2.
  assert (same_image k K2) as Hs2 by (apply same_image_trans with (read_counts k); [by split|apply Hf2]).
  destruct (same_image_file _ _ inode Hs2 Hf) as (Hw2 & Hsz2 & _).
  destruct (fetched_kernel_facts _ _ _ _ _ _ Hf2) as (Hm2 & _).
  assert (buffer_ok K2 (L + 40) 4) as Hb2.
  { assert (kernel_map (mmu_of K2)) as Hkm2 by (rewrite Hm2; exact Hkm).
    apply kernel_buffer_ok; rewrite ?(si_boot _ _ Hs2), ?(same_image_size _ _ Hs2); done || lia. }
  assert (clipped 4 24 (file_size K2 inode) = 4) as Hc2 by (rewrite Hsz2; unfold clipped; lia).
  destruct (read_data_fetches K2 inode 24 (L + 40) 4) as (K3 & Hr3 & Hf3);
    [done|rewrite Hc2; done|lia|lia|].
  rewrite Hc2 in Hr3, Hf3. destruct Hf2 as [Hby2 Hre2 _ Ho2 Hst2], Hf3 as [Hby3 Hre3 Hs3 Ho3 Hst3].
  exists K2, K3. split; [|split; [exact Hr2|split; [|split; [exact Hr3|split; [|split; [|split; [|split; [by apply same_statics_trans with K2|]]]]]]]].
  - apply (read_dentry_by_name_file k (Object name) d0 name); try done; [apply Hf|].
    apply object_string; [done|lia].
  - rewrite <- Hmagic. change (Z.to_nat 40) with (4 + 36)%nat in Hby2.
    unfold load_bytes, file_bytes in *. change (Z.to_nat 4) with 4%nat.
    change (Z.to_nat 40) with (4 + 36)%nat in Hby2. rewrite !tabulate_app in Hby2.
    apply app_inj_1 in Hby2 as [Hby2 _]; [exact Hby2|done].
  - rewrite load32_le32. change (Z.to_nat 4) with 4%nat in Hby3. rewrite Hby3. f_equal.
    apply same_image_bytes; done || lia.
  - by apply same_image_trans with K2.
  - rewrite Hre3, Hre2. done.
  - intros a Ha. rewrite Ho3, Ho2; [done|..]; intros j Hj.
    + change (resolve (read_counts k) (L + j)) with (resolve k (L + j)). rewrite resolve_kernel by (done || lia). lia.
    + rewrite (resolve_same k K2) by (by rewrite Hm2). rewrite resolve_kernel by (done || lia). lia.
Qed.
End Execute.

(** [execute] once the command is parsed: the rest of its body. *)
Definition execute_rest (d0 : dentry_t) (locals : kernel -> Z) (line name : list Z) : prog kernel exec_result :=
  '(r, dir_entry) ← read_dentry_by_name (Object name) d0;
  if r =? -1 then mret (Returned (-1))
  else
    let inode := inode_num dir_entry in
    check_buf ← get locals;
    n ← read_data inode 0 check_buf METADATAEXECUTESIZE;
    if negb (n =? METADATAEXECUTESIZE) then mret (Returned (-1))
    else
      magic ← get (λ k, load_bytes k check_buf 4);
      if negb (bool_decide (magic = [0x7f; 0x45; 0x4C; 0x46])) then mret (Returned (-1))
      else
        _ ← read_data inode STARTOFEIPINEXECUTABLE (check_buf + METADATAEXECUTESIZE) 4;
        running ← get processes_running;
        match find_free_pid 6 1 running with
        | None =>
            _ ← printf (Object (text "Maximum number of processes reached" ++ [10])) [];
            mret (Returned (-1))
        | Some current_pid =>
            _ ← modify (λ k, k <| processes_running ::= zset (current_pid - 1) 1 |>);
            start_process current_pid inode (zlen line) (zlen name + 1) (zset (zlen line + 1) 0 (pad line))
              (check_buf + METADATAEXECUTESIZE)
        end.
Lemma execute_parsed d0 locals command k line name rest n len :
  is_null command = false -> strlen (chars command k) = Some len -> len <= 128 ->
  typed (chars command k) line -> line_of n name rest line -> zlen line <= 126 ->
  execute d0 locals command k = execute_rest d0 locals line name k.
Proof.
  intros Hnull Hstr Hlen Hty Hlo Hshort. pose proof (zlen_nonneg rest) as Hr0.
  unfold execute. rewrite Hnull, Hstr. unfold MAXBUFSIZEEXECUTE. replace (128 <? len) with false by lia.
  erewrite save_command_line by eassumption. replace (128 <=? zlen line + 1) with false by lia. cbv zeta.
  erewrite skip_spaces_line by eassumption. cbn [from_loop]. rewrite bind_mret.
  erewrite parse_filename_line by eassumption. cbn [from_loop]. rewrite bind_mret.
  assert (zlen line = n + zlen name + zlen rest) as Hsplit by (eapply line_split; eassumption).
  pose proof (lo_spaces _ _ _ _ Hlo) as Hn0.
  replace (zlen name =? 128) with false by lia. rewrite take_ge by (unfold zlen; lia). done.
Qed.

Lemma execute_runs d0 locals command k line name rest n i len pid_ :
  let inode := u32 (s8 (entry_byte k i 36)) in
  names_program d0 command k line name rest n i len ->
  is_program locals k i ->
  find_free_pid 6 1 (processes_running k) = Some pid_ ->
  fds_shape (fd_array (get_pcb (pcb_addr pid_) k)) -> zlen (arg_arr (get_pcb (pcb_addr pid_) k)) = 128 ->
  exists K, execute d0 locals command k = Ret In_user K /\
    started pid_ inode line (zlen name + 1) (le32 (file_bytes k inode 24 4)) (locals (read_counts k)) 44 k K /\
    processes_running K = zset (pid_ - 1) 1 (processes_running k) /\
    let l := fd_array (get_pcb (pcb_addr pid_) K) in
    fds_wf l /\ forall j, 2 <= j < 8 -> in_use (zget l j) = false.
Proof.
  intros inode Hnp Hip Hpid Hsh Harg. set (L := locals (read_counts k)).
  destruct (read_header d0 locals command k line name rest n i len Hnp Hip)
    as (K2 & K3 & Hd & Hr2 & Hmagic & Hr3 & Hentry & Hs3 & Hre3 & Hst3 & Ho3).
  fold inode L in Hd, Hr2, Hmagic, Hr3, Hentry, Ho3.
  pose proof (find_free_pid_least 6 1 (processes_running k)) as Hleast. rewrite Hpid in Hleast.
  destruct Hleast as (Hpr & _).
  destruct Hnp as [Hnull [Hstr Hlen] Hty Hlo Hshort _ _ _], Hip as [Hld _ HL _]. fold inode in Hld. fold L in HL.
  set (K4 := K3 <| processes_running ::= zset (pid_ - 1) 1 |>).
  assert (same_image k K4) as Hs4 by (destruct Hs3 as [Hb3 Hy3]; by split).
  assert (loadable K4 inode) as Hld4.
  { destruct Hld as [Hkm Hf Himg Hsz]. destruct (same_image_file _ _ inode Hs4 Hf) as (Hw & Hz & _).
    split; [unfold K4; rewrite Hre3; exact Hkm|done| |rewrite Hz; done].
    by rewrite (si_boot _ _ Hs4), (same_image_size _ _ Hs4). }
  assert (forall b, get_pcb b K4 = get_pcb b k) as Hpcb by (intros b; unfold K4; by rewrite Hre3).
  pose proof (zlen_nonneg name) as Hname0. pose proof (zlen_nonneg rest) as Hrest0.
  destruct (start_process_runs (chars command k) n name rest pid_ inode line (zlen name + 1) (L + METADATAEXECUTESIZE) K4)
    as (K & HK & Hst & Hrun); [done|lia|done|done|done|lia|by rewrite Hpcb|by rewrite Hpcb
      |unfold METADATAEXECUTESIZE; lia|unfold METADATAEXECUTESIZE; lia|].
  exists K. split; [|split; [|split]].
  - rewrite (execute_parsed d0 locals command k line name rest n len) by done. unfold execute_rest.
    rewrite (bind_Ret _ _ _ _ _ Hd). cbn [inode_num]. change (0 =? -1) with false. cbv iota.
    rewrite bind_get. fold L. rewrite (bind_Ret _ _ _ _ _ Hr2), Z.eqb_refl. cbn [negb].
    rewrite bind_get, Hmagic, bool_decide_true by done. cbn [negb].
    rewrite (bind_Ret _ _ _ _ _ Hr3), bind_get.
    assert (processes_running K3 = processes_running k) as Hrun3 by (by rewrite Hre3).
    rewrite Hrun3, Hpid, bind_modify. exact HK.
  - destruct Hst as [Hm Hpg Hc Hrg Ht Hif Hsd Hb Hoth Hph Hre Hmm Hstt].
    split; [done|done| | |done|done| | | | | | |].
    + destruct Hld as [_ Hf _ Hsz]. unfold METADATAEXECUTESIZE in Hsz.
      destruct (same_image_file _ _ inode Hs4 Hf) as (_ & Hz & _). rewrite Hz in Hc. rewrite Hc.
      by apply same_image_bytes; done || lia.
    + rewrite Hrg. change (load32 K4 (L + METADATAEXECUTESIZE)) with (load32 K3 (L + METADATAEXECUTESIZE)).
      rewrite Hentry. change (regs K4) with (regs K3). by rewrite Hre3.
    + rewrite Hsd. unfold K4. by rewrite Hre3.
    + rewrite Hb, Hpcb. change (regs K4) with (regs K3). change (get_pcb_address K4) with (get_pcb_address K3).
      unfold get_pcb_address. change (regs K4) with (regs K3). by rewrite Hre3.
    + intros a Ha. by rewrite Hoth, Hpcb.
    + intros a Ha Hal. rewrite Hph by (done || lia). by apply Ho3.
    + destruct Hre as [-> ->]. unfold K4. by rewrite Hre3.
    + rewrite Hmm. unfold K4. by rewrite Hre3.
    + by apply same_statics_trans with K3.
  - rewrite Hrun. unfold K4. cbn. by rewrite Hre3.
  - rewrite (st_block _ _ _ _ _ _ _ _ _ Hst). apply child_block_fds. by rewrite Hpcb.
Qed.

(** C8. [execute] of a command line that names an executable file, when a slot is free: the
    least free process slot is taken and the program runs in user mode from its entry
    point with interrupts on.  Its page is mapped and holds the file at 0x8048000; the task
    state names its own kernel stack; its control block is fresh: it has the arguments,
    its parent and the registers [halt] will restore, and only the standard descriptors
    are open.  No other process's control block or frame, and nothing of the kernel's memory
    but 44 bytes of the stack, has changed. *)
Theorem execute_starts d0 locals command k line name rest n i len pid_ :
  let inode := u32 (s8 (entry_byte k i 36)) in
  names_program d0 command k line name rest n i len ->
  is_program locals k i ->
  find_free_pid 6 1 (processes_running k) = Some pid_ ->
  fds_shape (fd_array (get_pcb (pcb_addr pid_) k)) -> zlen (arg_arr (get_pcb (pcb_addr pid_) k)) = 128 ->
  exists K, execute d0 locals command k = Ret In_user K /\
    started pid_ inode line (zlen name + 1) (le32 (file_bytes k inode 24 4)) (locals (read_counts k)) 44 k K /\
    processes_running K = zset (pid_ - 1) 1 (processes_running k) /\
    let l := fd_array (get_pcb (pcb_addr pid_) K) in
    fds_wf l /\ forall j, 2 <= j < 8 -> in_use (zget l j) = false.
Proof. exact (execute_runs d0 locals command k line name rest n i len pid_). Qed.

(** An image with one executable file of 60 bytes, and a kernel with it as [prog], entered at 0x80482E8, and no
    process running. *)
Definition exec_image (name : list Z) : gmap Z Z :=
  let at_ a l m := store_bytes (0x410000 + a) l m in
  at_ 0 (bytes32 2 ++ bytes32 1 ++ bytes32 1)
    (at_ 64 [46] (at_ 96 (bytes32 1)
      (at_ 128 name (at_ 160 (bytes32 2 ++ bytes32 0)
        (at_ 4096 (bytes32 60 ++ bytes32 0)
          (at_ 8192 [0x7f; 0x45; 0x4C; 0x46] (at_ 8216 (bytes32 0x80482E8) ∅))))))).
Definition exec_kernel : kernel := demo_fs <| phys := exec_image (text "prog") |> <| pcbs := ∅ |>.
Lemma exec_loadable : loadable exec_kernel 0.
Proof.
  assert (load32 exec_kernel (boot exec_kernel + 4) = 1) as Hi by (vm_compute; reflexivity).
  assert (load32 exec_kernel (boot exec_kernel + 8) = 1) as Hb by (vm_compute; reflexivity).
  assert (file_size exec_kernel 0 = 60) as Hs by (vm_compute; reflexivity).
  split; [exact demo_map| | |rewrite Hs; unfold METADATAEXECUTESIZE; lia].
  - split; [discriminate|rewrite Hi; lia|rewrite Hs; discriminate|].
    intros i Hi'. rewrite Hs in Hi'. replace (i / 4096) with 0 by (Z.div_mod_to_equations; lia). rewrite Hb.
    replace (block_no exec_kernel 0 0) with 0 by (vm_compute; reflexivity). lia.
  - unfold image_size. rewrite Hi, Hb. change (boot exec_kernel) with 0x410000. lia.
Qed.
Lemma exec_names : names_program (dentry_a (fs exec_kernel)) (Object (text "prog arg")) exec_kernel
  (text "prog arg") (text "prog") (text " arg") 0 1 8.
Proof.
  split; [reflexivity|split; [vm_compute; reflexivity|lia]| | |vm_compute; discriminate|reflexivity| |].
  - split; [repeat constructor|repeat constructor; discriminate| |right; vm_compute; reflexivity].
    intros j Hj. apply zget_app_l. exact Hj.
  - split; [reflexivity|lia|split; [discriminate|repeat constructor; discriminate]|right; reflexivity].
  - split.
    + intros j Hj. pose proof (check_below 63 (λ i, match strlen (entry_byte exec_kernel i) with Some _ => true | None => false end)
        ltac:(vm_compute; reflexivity) j ltac:(lia)) as Hc. cbv beta in Hc.
      destruct (strlen (entry_byte exec_kernel j)) as [len|]; [by exists len|done].
    + intros Hd. specialize (Hd 0 ltac:(vm_compute; intuition discriminate)). vm_compute in Hd. discriminate Hd.
  - split; [lia|]. split; [vm_compute; reflexivity|intros; lia].
Qed.
Lemma execute_starts_witness :
  exists K, execute (dentry_a (fs exec_kernel)) (λ _, 0x7FDE00) (Object (text "prog arg")) exec_kernel = Ret In_user K /\
    eip (regs K) = 0x80482E8 /\ arg_arr (get_pcb (pcb_addr 1) K) = pad (text "arg").
Proof.
  assert (u32 (s8 (entry_byte exec_kernel 1 36)) = 0) as Hino by (vm_compute; reflexivity).
  assert (boot exec_kernel + image_size exec_kernel = 0x413000) as Himg by (vm_compute; reflexivity).
  destruct (execute_starts (dentry_a (fs exec_kernel)) (λ _, 0x7FDE00) (Object (text "prog arg")) exec_kernel
    (text "prog arg") (text "prog") (text " arg") 0 1 8 1 exec_names) as (K & HK & Hst & _).
  - split; [rewrite Hino; exact exec_loadable|vm_compute; reflexivity|lia|right; rewrite Himg; lia].
  - vm_compute. reflexivity.
  - split; [reflexivity|]. intros i Hi.
    pose proof (check_below 8 (λ i, zlen (fd_flags (zget (fd_array (get_pcb (pcb_addr 1) exec_kernel)) i)) =? 4)
      ltac:(vm_compute; reflexivity) i ltac:(lia)) as Hc. cbv beta in Hc. lia.
  - vm_compute. reflexivity.
  - exists K. split; [exact HK|]. rewrite (st_regs _ _ _ _ _ _ _ _ _ Hst), (st_block _ _ _ _ _ _ _ _ _ Hst).
    split; [|vm_compute; reflexivity]. rewrite Hino. vm_compute. reflexivity.
Defined.

(** ** Refusals *)

(** Nothing but the screen and the file counters has changed. *)
Lemma prints_frame l k k' :
  prints l k k' ->
  mmu_of k' = mmu_of k /\ pcbs k' = pcbs k /\ processes_running k' = processes_running k /\
  regs k' = regs k /\ tss k' = tss k /\ fs k' = fs k /\ term k' = term k /\ kbd k' = kbd k.
Proof. intros [_ _ _ -> _ _]. done. Qed.

Lemma exec_dir : dir_ok exec_kernel.
Proof. exact (proj1 (np_dir _ _ _ _ _ _ _ _ _ exec_names)). Qed.

(** ** [halt] *)


(** Nothing but the descriptors of the running process (and the static variables of
    filesystem.c) has changed. *)
Record closes (k K : kernel) : Prop := {
  cl_rest : K = k <| fs := fs K |> <| pcbs := pcbs K |>;
  cl_block : get_pcb (get_pcb_address k) K = get_pcb (get_pcb_address k) k <| fd_array := proc_fds K |>;
  cl_others : forall b, b <> get_pcb_address k -> get_pcb b K = get_pcb b k;
  cl_statics : statics_closed k K
}.
Lemma closes_address k K : closes k K -> get_pcb_address K = get_pcb_address k.
Proof. intros [-> _ _ _]. done. Qed.
Lemma closes_refl k : closes k k.
Proof. split; [by destruct k| |done|apply statics_closed_refl]. unfold proc_fds. by destruct (get_pcb _ k). Qed.
Lemma closes_trans k1 k2 k3 : closes k1 k2 -> closes k2 k3 -> closes k1 k3.
Proof.
  intros H12 H23. pose proof (closes_address _ _ H12) as Ha. destruct H12 as [Hr1 Hb1 Ho1 Hs1], H23 as [Hr2 Hb2 Ho2 Hs2].
  rewrite Ha in *. split.
  - rewrite Hr2, Hr1. done.
  - rewrite Hb2, Hb1. done.
  - intros b Hb. by rewrite Ho2, Ho1.
  - by apply statics_closed_trans with k2.
Qed.
Lemma closes_set_fd k K fd f :
  K = k <| fs := fs K |> -> statics_closed k K -> closes k (set_fd (get_pcb_address k) fd f K).
Proof.
  intros HK Hst. assert (forall b, get_pcb b K = get_pcb b k) as Hg by (intros b; by rewrite HK).
  split.
  - rewrite HK. done.
  - unfold set_fd at 1. rewrite get_set_pcb, Hg, (proc_fds_set k K fd f HK). done.
  - intros b Hb. unfold set_fd. by rewrite get_set_pcb_ne.
  - exact Hst.
Qed.

(** The flag of a descriptor is [INUSE] or [NOTINUSE]. *)
Definition flag_ok (f : file_desc) : Prop := zget (fd_flags f) 0 = 0 \/ zget (fd_flags f) 0 = 1.

Lemma close_one_frees i k :
  get_pcb_address k <> 0 -> fds_wf (proc_fds k) -> flag_ok (zget (proc_fds k) i) -> 0 <= i < 8 ->
  exists K, close_one i k = Ret tt K /\ closes k K /\ fds_wf (proc_fds K) /\
    (2 <= i -> in_use (zget (proc_fds K) i) = false) /\
    (forall j, 0 <= j -> j <> i -> zget (proc_fds K) j = zget (proc_fds k) j).
Proof.
  intros Ha Hf Hfl Hi. unfold close_one. rewrite bind_get, bind_get. unfold get_fd.
  change (fd_array (get_pcb (get_pcb_address k) k)) with (proc_fds k).
  destruct (zget (fd_flags (zget (proc_fds k) i)) 0 =? 1) eqn:Hu.
  - assert (in_use (zget (proc_fds k) i) = true) as Huse by (unfold in_use; lia).
    destruct (decide (2 <= i)) as [H2|H2].
    + destruct (close_open_fd k i) as (K & HK & Hr & Hst); [done..|lia|done|].
      pose proof (fw_len _ Hf) as Hl. pose proof (fw_flags _ Hf i ltac:(lia)) as Hf4.
      eexists. split; [by rewrite (bind_Ret _ _ _ _ _ HK)|]. split; [by apply closes_set_fd|].
      rewrite (proc_fds_set k K i closed_fd Hr). split; [apply fds_wf_close; done || lia|]. split.
      * intros _. rewrite zget_zset_eq by lia. by apply closed_fd_free.
      * intros j Hj Hne. by rewrite zget_zset_ne by lia.
    + exists k. split; [|split; [apply closes_refl|split; [done|split; [lia|done]]]].
      assert (close i k = Ret (-1) k) as Hc.
      { unfold close, FDSTART, FDEND. replace (i <? 0) with false by lia. by replace (i <? 2) with true by lia. }
      by rewrite (bind_Ret _ _ _ _ _ Hc).
  - exists k. split; [done|]. split; [apply closes_refl|]. split; [done|]. split; [|done].
    intros _. unfold in_use. destruct Hfl as [H|H]; rewrite H in *; done.
Qed.

Lemma close_all_frees k :
  get_pcb_address k <> 0 -> fds_wf (proc_fds k) -> (forall i, 0 <= i < 8 -> flag_ok (zget (proc_fds k) i)) ->
  exists K, close_all k = Ret tt K /\ closes k K /\ fds_wf (proc_fds K) /\
    forall i, 2 <= i < 8 -> in_use (zget (proc_fds K) i) = false.
Proof.
  intros Ha Hf Hfl.
  assert (forall n (js : list Z) k', js = map Z.of_nat (seq n (8 - n)) -> closes k k' -> fds_wf (proc_fds k') ->
    (forall i, 2 <= i < 8 -> i < Z.of_nat n -> in_use (zget (proc_fds k') i) = false) ->
    (forall i, Z.of_nat n <= i < 8 -> flag_ok (zget (proc_fds k') i)) ->
    exists K, foldr (λ i rest, _ ← close_one i; rest) (mret tt) js k' = Ret tt K /\ closes k K /\ fds_wf (proc_fds K) /\
      forall i, 2 <= i < 8 -> in_use (zget (proc_fds K) i) = false) as Hgen.
  { intros n js. revert n. induction js as [|j js IH]; intros n k' Hjs Hc Hw Hfree Hfl'.
    - exists k'. split; [done|]. split; [done|]. split; [done|]. intros i Hi. apply Hfree; [done|].
      destruct (decide (n < 8)%nat) as [Hn|]; [|lia]. replace (8 - n)%nat with (S (7 - n)) in Hjs by lia. done.
    - destruct (decide (n < 8)%nat) as [Hn|]; [|by replace (8 - n)%nat with O in Hjs by lia].
      replace (8 - n)%nat with (S (8 - S n)) in Hjs by lia. cbn [seq map] in Hjs. injection Hjs as -> Hjs.
      destruct (close_one_frees (Z.of_nat n) k') as (K & HK & HcK & HwK & Hi & Ho);
        [by rewrite (closes_address _ _ Hc)|done|apply Hfl'; lia|lia|].
      destruct (IH (S n) K Hjs) as (K' & HK' & Hrest); [by eapply closes_trans|done| | |].
      + intros i Hi8 Hin. destruct (decide (i = Z.of_nat n)) as [->|Hne]; [apply Hi; lia|].
        rewrite Ho by lia. apply Hfree; lia.
      + intros i Hin. rewrite Ho by lia. apply Hfl'. lia.
      + exists K'. split; [|done]. cbn [foldr]. by rewrite (bind_Ret _ _ _ _ _ HK). }
  destruct (Hgen O [0; 1; 2; 3; 4; 5; 6; 7] k) as (K & HK & Hrest);
    [done|apply closes_refl|done|lia|intros; apply Hfl; lia|].
  exists K. by split.
Qed.

Lemma halt_runs d0 locals status_ k pid_ pp :
  let a := pcb_addr pid_ in
  let p := get_pcb a k in
  4 <= pid_ <= 6 -> 1 <= pp <= 6 -> get_pcb_address k = a -> process_id p = pid_ ->
  parent_process_id p = pp -> parent p = pcb_addr pp -> pp <> pid_ ->
  fds_wf (fd_array p) -> (forall i, 0 <= i < 8 -> flag_ok (zget (fd_array p) i)) -> kernel_map (mmu_of k) ->
  exists K, halt d0 locals status_ k = Ret (Returned (status p)) K /\
    processes_running K = zset (pid_ - 1) 0 (processes_running k) /\
    (forall i, 2 <= i < 8 -> in_use (zget (fd_array (get_pcb a K)) i) = false) /\
    get_pcb (pcb_addr pp) K = get_pcb (pcb_addr pp) k <| status := u8 status_ |> /\
    (forall b, b <> a -> b <> pcb_addr pp -> get_pcb b K = get_pcb b k) /\
    kernel_map (mmu_of K) /\ user_page pp (mmu_of K) /\ sched K = sched (set_pid pp k) /\
    tss K = Tss KERNEL_DS (stack_top pp) /\
    regs K = regs k <| ebp := parent_ebp p |> <| esp := parent_esp p |> /\
    phys K = phys k /\ term K = term k /\ kbd K = kbd k /\ devs K = devs k /\
    mmu_of K = (paging_change_process pp (mmu_of k)).2 /\
    statics_closed k K.
Proof.
  intros a p Hpid Hpp Ha Hid Hppid Hpar Hne Hw Hfl Hkm.
  assert (a <> 0 /\ a <> pcb_addr pp) as [Ha0 Hap].
  { unfold a, pcb_addr, END_KMEM, PCB_SIZE. lia. }
  unfold halt. rewrite !bind_get, Ha. fold p. rewrite Hid. unfold NUM_TERMINALS.
  replace (pid_ <? 3 + 1) with false by lia. unfold halt_process. rewrite !bind_get, Ha. fold p.
  rewrite Hid, bind_modify, Hppid, (u32_id pp) by lia.
  set (k0 := k <| processes_running ::= zset (pid_ - 1) 0 |>).
  destruct (close_all_frees k0) as (K1 & HK1 & [Hr Hb Ho Hst] & Hw1 & Hfree).
  { change (get_pcb_address k <> 0). congruence. }
  { unfold proc_fds. change (get_pcb_address k0) with (get_pcb_address k). rewrite Ha. exact Hw. }
  { unfold proc_fds. change (get_pcb_address k0) with (get_pcb_address k). rewrite Ha. exact Hfl. }
  assert (get_pcb_address K1 = a) as Ha1 by (by rewrite Hr).
  change (get_pcb_address k0) with (get_pcb_address k) in Hb, Ho. rewrite Ha in Hb, Ho.
  change (get_pcb a k0) with p in Hb.
  unfold proc_fds in Hfree. rewrite Ha1 in Hfree.
  rewrite (bind_Ret _ _ _ _ _ HK1). unfold NUM_TERMINALS. replace (3 <? pid_) with true by lia. rewrite Hpar. cbv iota.
  rewrite !bind_modify. unfold mmu_op. rewrite !bind_modify, bind_get, bind_modify, bind_get.
  rewrite (s32_id pp) by lia.
  match goal with |- context [restoreparent (parent_ebp (get_pcb a ?x)) _ ?y] => set (K2 := x) end.
  assert (get_pcb a K2 = get_pcb a K1) as Hg by (by apply get_set_pcb_ne).
  eexists. split; [unfold execute_return; change (get_pcb a (restoreparent ?e ?s ?x)) with (get_pcb a x); rewrite Hg, Hb; reflexivity|].
  split; [change (processes_running K1 = processes_running k0); by rewrite Hr|].
  split; [change (forall i, 2 <= i < 8 -> in_use (zget (fd_array (get_pcb a K2)) i) = false); by rewrite Hg|].
  split; [change (get_pcb (pcb_addr pp) K2 = get_pcb (pcb_addr pp) k <| status := u8 status_ |>)|].
  { unfold K2. etransitivity; [apply get_set_pcb|]. by rewrite Ho. }
  split; [intros b Hba Hbp; change (get_pcb b K2 = get_pcb b k); etransitivity; [by apply get_set_pcb_ne|by apply Ho]|].
  assert (mmu_of K1 = mmu_of k) as Hm by (by rewrite Hr).
  split; [change (kernel_map (paging_change_process pp (mmu_of K1)).2); rewrite Hm; by apply paging_change_process_kernel_map|].
  split; [change (user_page pp (paging_change_process pp (mmu_of K1)).2); rewrite Hm; by apply user_page_change|].
  split; [change (sched (set_pid pp K1) = sched (set_pid pp k)); by rewrite Hr|].
  split; [cbn; unfold stack_top, KERNEL_DS; rewrite u32_id by (unfold END_KMEM, KERNEL_MEM_SIZE; lia); done|].
  split.
  - change (regs K1 <| ebp := parent_ebp p |> <| esp := parent_esp p |> = regs k <| ebp := parent_ebp p |> <| esp := parent_esp p |>).
    by rewrite Hr.
  - change (phys K1 = phys k /\ term K1 = term k /\ kbd K1 = kbd k /\ devs K1 = devs k /\
      (paging_change_process pp (mmu_of K1)).2 = (paging_change_process pp (mmu_of k)).2 /\ statics_closed k K1).
    rewrite Hm. split; [by rewrite Hr|]. split; [by rewrite Hr|]. split; [by rewrite Hr|]. split; [by rewrite Hr|]. by split.
Qed.

(** C9. [halt] of a process started by [execute] (4 to 6) ends it: its slot is free, all
    its descriptors but the standard ones are closed, the parent's page is mapped again,
    the task state names the parent's kernel stack, the scheduled terminal runs the
    parent, and the processor is back on the stack [contextswitchasm] saved, at the end
    of the parent's [execute].  That call returns the [status] field of the CHILD's control
    block, which [halt] does not write: the exit status is stored in the parent's block. *)
Theorem halt_returns_to_parent d0 locals status_ k pid_ pp :
  let a := pcb_addr pid_ in
  let p := get_pcb a k in
  4 <= pid_ <= 6 -> 1 <= pp <= 6 -> get_pcb_address k = a -> process_id p = pid_ ->
  parent_process_id p = pp -> parent p = pcb_addr pp -> pp <> pid_ ->
  fds_wf (fd_array p) -> (forall i, 0 <= i < 8 -> flag_ok (zget (fd_array p) i)) -> kernel_map (mmu_of k) ->
  exists K, halt d0 locals status_ k = Ret (Returned (status p)) K /\
    processes_running K = zset (pid_ - 1) 0 (processes_running k) /\
    (forall i, 2 <= i < 8 -> in_use (zget (fd_array (get_pcb a K)) i) = false) /\
    get_pcb (pcb_addr pp) K = get_pcb (pcb_addr pp) k <| status := u8 status_ |> /\
    (forall b, b <> a -> b <> pcb_addr pp -> get_pcb b K = get_pcb b k) /\
    kernel_map (mmu_of K) /\ user_page pp (mmu_of K) /\ sched K = sched (set_pid pp k) /\
    tss K = Tss KERNEL_DS (stack_top pp) /\
    regs K = regs k <| ebp := parent_ebp p |> <| esp := parent_esp p |> /\
    phys K = phys k /\ term K = term k /\ kbd K = kbd k /\ devs K = devs k.
Proof.
  intros a p Hpid Hpp Ha Hid Hppid Hpar Hne Hw Hfl Hkm.
  destruct (halt_runs d0 locals status_ k pid_ pp Hpid Hpp Ha Hid Hppid Hpar Hne Hw Hfl Hkm)
    as (K & HK & H1 & H2 & H3 & H4 & H5 & H6 & H7 & H8 & H9 & H10 & H11 & H12 & H13 & _).
  by exists K.
Qed.
(** Process 4, started by the shell 1, with one open file. *)
Definition halt_kernel : kernel :=
  demo_running <| regs ::= λ r, r <| esp := 0x7F7F00 |> |>
    <| pcbs := {[ 0x7F6000 := set_up_stdout (set_up_stdin demo_pcb) <| process_id := 4 |> <| parent := 0x7FC000 |>
                                <| parent_process_id := 1 |> <| parent_esp := 0x7FDE00 |> <| parent_ebp := 0x7FDE40 |> ]} |>.
Lemma halt_fds : fds_wf (fd_array (get_pcb 0x7F6000 halt_kernel)).
Proof.
  replace (fd_array (get_pcb 0x7F6000 halt_kernel)) with (proc_fds demo_sys) by (vm_compute; reflexivity).
  exact demo_fds.
Qed.
Lemma halt_returns_to_parent_witness :
  exists K, halt (dentry_a (fs halt_kernel)) (λ _, 0) 7 halt_kernel = Ret (Returned 0) K /\
    status (get_pcb 0x7FC000 K) = 7 /\ esp (regs K) = 0x7FDE00.
Proof.
  destruct (halt_returns_to_parent (dentry_a (fs halt_kernel)) (λ _, 0) 7 halt_kernel 4 1)
    as (K & HK & _ & _ & Hp & _ & _ & _ & _ & _ & Hr & _);
    [lia|lia|reflexivity|reflexivity|reflexivity|reflexivity|lia|exact halt_fds| |exact demo_running_map|].
  - intros i Hi. pose proof (check_below 8 (λ i, let x := zget (fd_flags (zget (fd_array (get_pcb (pcb_addr 4) halt_kernel)) i)) 0 in
      (x =? 0) || (x =? 1)) ltac:(vm_compute; reflexivity) i ltac:(lia)) as Hc. cbv beta zeta in Hc. unfold flag_ok. lia.
  - exists K. split; [exact HK|]. change 0x7FC000 with (pcb_addr 1). rewrite Hp, Hr. split; reflexivity.
Defined.
