(* ===== verification/Scheduler.v ===== *)
(** * The scheduler: [scheduler_next] and the set-up of student-distrib/scheduler.c

    Each tick of the timer saves the stack and frame pointers of the interrupted terminal and
    gives the processor to the next one: its first time a shell is executed, later its
    process is resumed.  What the switch leaves in [regs] is the stack the resumed terminal
    was interrupted on; the code there is the end of the same routine.

    [exe_at] is the address of [global_scheduler.exe_bytes], [d0] what the uninitialised
    [dir_entry] held, [locals] the local arrays of [execute]. *)
From S2P Require Import Prelude Machine Lib Paging Devices State Console Printf Terminal Filesystem SysCall Process Keyboard.

Definition NUM_TERMS : Z := 3.
Definition FIRST_CURRENT_T : Z := 2.
Definition FIRST_VISIBLE_T : Z := 0.
Definition SIZEOFOPERATIONSTABLE : Z := 4.

Section Scheduling.
Context (d0 : dentry_t) (locals : kernel -> Z) (exe_at : Z).

(** The body of the loop of [init_global_scheduler]. *)
Definition init_terminal (i : Z) (k : kernel) : kernel :=
  let k := set_terminal i (λ t, t <| noc := 0 |> <| lb ::= memset 0 0 KEYBOARD_BUFFER_LENGTH |>
                                  <| pid := i + 1 |> <| screen_x := 0 |> <| screen_y := 0 |>) k in
  k <| sched ::= λ s, s <| vid_bufs ::= zset i (T1_BUF_ADDR + VMEM_SIZE * i) |> <| is_on ::= zset i 0 |> |>.
Definition init_global_scheduler : prog kernel unit :=
  '(_, dir_entry) ← read_dentry_by_name (Object (text "shell")) d0;
  _ ← read_data (inode_num dir_entry) STARTOFEIPINEXECUTABLE exe_at SIZEOFOPERATIONSTABLE;
  _ ← modify (for_up 3 0 init_terminal);
  _ ← mmu_op (λ m, (paging_change_process 1 m).2);
  modify (λ k, k <| sched ::= λ s, s <| current_term := FIRST_CURRENT_T |> <| visable_term := FIRST_VISIBLE_T |> |>).

Definition save_esp_ebp (esp_ ebp_ : Z) (k : kernel) : kernel :=
  set_terminal (current_term (sched k)) (λ t, t <| term_esp := esp_ |> <| term_ebp := ebp_ |>) k.
(** linkage.S: the two registers are passed on. *)
Definition save_esp_ebpasm (k : kernel) : kernel := save_esp_ebp (esp (regs k)) (ebp (regs k)) k.

(** The next terminal, with its screen behind the video page. *)
Definition next_turn (k : kernel) : kernel :=
  let k := save_esp_ebpasm k in
  let k := k <| sched ::= λ s, s <| current_term ::= λ c, Z.rem (c + 1) NUM_TERMS |> |> in
  if current_term (sched k) =? visable_term (sched k) then k <| mmu_of ::= paging_set_write_to_videomem |>
  else k <| mmu_of ::= paging_set_write_to_buffer (current_term (sched k)) |>.

Definition resume (pid_ : Z) (k : kernel) : kernel :=
  let k := k <| mmu_of ::= λ m, (paging_change_process pid_ m).2 |> in
  let k := k <| tss := Tss KERNEL_DS (u32 (END_KMEM - pid_ * KERNEL_MEM_SIZE)) |> in
  let t := get_terminal (current_term (sched k)) k in
  restoreparent (term_ebp t) (term_esp t) k.

Definition scheduler_next : prog kernel exec_result :=
  _ ← modify next_turn;
  pid_ ← get (λ k, u32 (pid (get_terminal (current_term (sched k)) k)));
  on ← get (λ k, zget (is_on (sched k)) (current_term (sched k)));
  if on =? 0 then
    _ ← modify (λ k, k <| sched ::= λ s, s <| is_on ::= zset (current_term s) 1 |> |>);
    r ← execute d0 locals (Object (text "shell"));
    match r with
    | In_user => mret In_user
    | Returned r =>
        _ ← (if r <? 0 then _ ← printf (Object (text "failed")) []; mret tt else mret tt);
        mret (Returned 0)
    end
  else
    _ ← modify (resume pid_);
    mret (Returned 0).
End Scheduling.

(** ** The invariant *)
Record sched_ok (k : kernel) : Prop := {
  so_console : console_wf k;
  so_bufs : bufs_ok k;
  so_on : zlen (is_on (sched k)) = 3;
  so_pids : forall t, 0 <= t < 3 -> 1 <= pid (get_terminal t k) <= 6
}.
Definition turn_after (t : Z) : Z := if t =? 2 then 0 else t + 1.

(** [next_turn]: who is next, what is saved, where the video page goes. *)
Lemma next_turn_spec k :
  sched_ok k ->
  let c := current_term (sched k) in
  let k' := next_turn k in
  sched_ok k' /\ coherent k' /\
  sched k' = sched k <| terminals ::= zset c (get_terminal c k <| term_esp := esp (regs k) |> <| term_ebp := ebp (regs k) |>) |>
                     <| current_term := turn_after c |> /\
  page_directory (tables (mmu_of k')) = page_directory (tables (mmu_of k)) /\
  k' = k <| sched := sched k' |> <| mmu_of := mmu_of k' |>.
Proof.
  intros [[Hkm Hs] Hb Hon Hp] c k'. pose proof (sw_current _ Hs) as Hc. fold c in Hc.
  set (T := get_terminal c k <| term_esp := esp (regs k) |> <| term_ebp := ebp (regs k) |>).
  set (k1 := put_terminal c T k).
  assert (Z.rem (c + 1) NUM_TERMS = turn_after c) as Hn.
  { unfold NUM_TERMS, turn_after. rewrite Z.rem_mod_nonneg by lia.
    assert (c = 0 \/ c = 1 \/ c = 2) as [->|[->| ->]] by lia; reflexivity. }
  assert (0 <= turn_after c < 3) as Hn3 by (unfold turn_after; case_match; lia).
  set (k2 := k1 <| sched ::= λ s, s <| current_term := turn_after c |> |>).
  assert (sched_wf (sched k1)) as Hs1 by (apply sched_wf_put; [done|done|apply (sw_cursor _ Hs c Hc)..]).
  assert (sched_wf (sched k2)) as Hs2 by (destruct Hs1; by split).
  assert (k' = if turn_after c =? visable_term (sched k2) then k2 <| mmu_of ::= paging_set_write_to_videomem |>
               else k2 <| mmu_of ::= paging_set_write_to_buffer (turn_after c) |>) as Hk'.
  { unfold k', next_turn. change (save_esp_ebpasm k) with k1. cbv zeta.
    replace (k1 <| sched ::= λ s, s <| current_term ::= λ c, Z.rem (c + 1) NUM_TERMS |> |>) with k2; [done|].
    unfold k2. rewrite <- Hn. done. }
  assert (sched k' = sched k2) as Hsk by (rewrite Hk'; by case_match).
  assert (forall t, 0 <= t < 3 -> pid (get_terminal t k') = pid (get_terminal t k)) as Hpid.
  { intros t Ht. unfold get_terminal at 1. rewrite Hsk. change (zget (terminals (sched k2)) t) with (get_terminal t k1).
    destruct (decide (t = c)) as [->|Hne]; [by unfold k1; rewrite get_put_terminal|].
    unfold k1. by rewrite get_put_terminal_ne by lia. }
  split; [|split; [|split; [|split]]].
  - split; [split; [rewrite Hk'; case_match; [by apply paging_set_write_to_videomem_kernel_map|by apply paging_set_write_to_buffer_kernel_map]|by rewrite Hsk]| | |].
    + unfold bufs_ok. rewrite Hsk. exact Hb.
    + rewrite Hsk. exact Hon.
    + intros t Ht. rewrite Hpid by done. by apply Hp.
  - unfold coherent, frame_of. rewrite Hsk, Hk'. change (current_term (sched k2)) with (turn_after c).
    case_match.
    + by apply video_target_videomem.
    + etransitivity; [by apply (video_target_buffer _ _ Hkm)|]. by apply buffer_addr_frame.
  - by rewrite Hsk.
  - rewrite Hk'. by case_match.
  - rewrite Hk'. by case_match; destruct k.
Qed.

(** ** Set-up *)

(** A terminal after [init_global_scheduler]: the registers are left alone. *)
Definition fresh_terminal (p : Z) (t : terminal_t) : terminal_t :=
  Terminal (replicate 128 0) 0 (term_esp t) (term_ebp t) p 0 0.
Definition fresh_sched (ts : list terminal_t) : scheduler_t :=
  Scheduler (tabulate 3 (λ i, fresh_terminal (i + 1) (zget ts i))) [T1_BUF_ADDR; T2_BUF_ADDR; T3_BUF_ADDR] 0 2 [0; 0; 0].
(** The arrays of the scheduler have three elements, the line buffers 128. *)
Record sched_shape (s : scheduler_t) : Prop := {
  ss_terminals : zlen (terminals s) = 3;
  ss_bufs : zlen (vid_bufs s) = 3;
  ss_on : zlen (is_on s) = 3;
  ss_lines : forall t, 0 <= t < 3 -> zlen (lb (zget (terminals s) t)) = 128
}.
Lemma three_elements {A} (l : list A) : zlen l = 3 -> exists a b c, l = [a; b; c].
Proof.
  unfold zlen. intros Hl. destruct l as [|a [|b [|c [|]]]]; cbn in Hl; try lia. by exists a, b, c.
Qed.

(** The three rounds of the loop, and the two assignments after it. *)
Lemma init_terminals k :
  sched_shape (sched k) ->
  for_up 3 0 init_terminal k
    <| sched ::= λ s, s <| current_term := FIRST_CURRENT_T |> <| visable_term := FIRST_VISIBLE_T |> |>
  = k <| sched := fresh_sched (terminals (sched k)) |>.
Proof.
  intros [Ht Hv Ho Hl]. destruct k as [m ph [ts vb vis cur on] tv kv f pr pc tss_ rg dv]. cbn [sched terminals vid_bufs is_on] in *.
  destruct (three_elements _ Ht) as (t0 & t1 & t2 & ->). destruct (three_elements _ Hv) as (v0 & v1 & v2 & ->).
  destruct (three_elements _ Ho) as (o0 & o1 & o2 & ->).
  pose proof (Hl 0 ltac:(lia)) as H0. pose proof (Hl 1 ltac:(lia)) as H1. pose proof (Hl 2 ltac:(lia)) as H2.
  change (zlen (lb t0) = 128) in H0. change (zlen (lb t1) = 128) in H1. change (zlen (lb t2) = 128) in H2.
  apply memset_line in H0, H1, H2.
  assert (forall p t, memset 0 0 KEYBOARD_BUFFER_LENGTH (lb t) = replicate 128 0 ->
    fresh_terminal p t = Terminal (memset 0 0 KEYBOARD_BUFFER_LENGTH (lb t)) 0 (term_esp t) (term_ebp t) p 0 0) as Hf
    by (intros p t ->; done).
  unfold fresh_sched, tabulate. cbn [seq fmap list_fmap].
  change (zget (terminals (Scheduler [t0; t1; t2] [v0; v1; v2] vis cur [o0; o1; o2])) ?i) with (zget [t0; t1; t2] i).
  change (zget [t0; t1; t2] (Z.of_nat 0)) with t0. change (zget [t0; t1; t2] (Z.of_nat 1)) with t1.
  change (zget [t0; t1; t2] (Z.of_nat 2)) with t2. rewrite (Hf _ t0 H0), (Hf _ t1 H1), (Hf _ t2 H2). reflexivity.
Qed.

(** The directory has [shell], as file [i], and there is a place for the bytes read. *)
Record has_shell (d0 : dentry_t) (exe_at : Z) (k : kernel) (i : Z) : Prop := {
  hs_boot : boot k <> 0;
  hs_d0 : zlen (State.fname d0) = 32;
  hs_dir : dir_ok k /\ ~ is_directory k (text "shell");
  hs_entry : 1 <= i <= 62 /\ entry_name k i = text "shell" /\ forall j, 1 <= j < i -> entry_name k j <> text "shell";
  hs_file : file_wf k (u32 (s8 (entry_byte k i 36))) /\ 28 <= file_size k (u32 (s8 (entry_byte k i 36)));
  hs_place : buffer_ok k exe_at 4
}.
Lemma init_global_scheduler_runs d0 exe_at k i :
  sched_shape (sched k) -> has_shell d0 exe_at k i ->
  exists K, init_global_scheduler d0 exe_at k = Ret tt K /\
    sched K = fresh_sched (terminals (sched k)) /\ mmu_of K = (paging_change_process 1 (mmu_of k)).2 /\
    K = k <| sched := sched K |> <| mmu_of := mmu_of K |> <| phys := phys K |> <| fs := fs K |> /\
    same_statics k K /\
    forall p, (forall j, 0 <= j < 4 -> resolve k (exe_at + j) <> p) -> phys K !! p = phys k !! p.
Proof.
  intros Hsh [Hb Hd0 [Hdir Hnd] (Hi & He & Hfirst) [Hf Hsz] Hbuf]. set (inode := u32 (s8 (entry_byte k i 36))) in *.
  pose proof (read_dentry_by_name_file k (Object (text "shell")) d0 (text "shell")) as Hrd.
  assert (clipped 4 24 (file_size (read_counts k) inode) = 4) as Hc
    by (change (file_size (read_counts k) inode) with (file_size k inode); unfold clipped; lia).
  destruct (read_data_fetches (read_counts k) inode 24 exe_at 4) as (K2 & Hr2 & [_ Hre2 _ Ho2 Hb2]);
    [by apply read_counts_wf|rewrite Hc; by apply read_counts_buffer
    |change (file_size (read_counts k) inode) with (file_size k inode); lia|lia|].
  rewrite Hc in Hr2, Ho2.
  assert (sched K2 = sched k) as Hs2 by (by rewrite Hre2).
  exists (K2 <| sched := fresh_sched (terminals (sched k)) |> <| mmu_of ::= λ m, (paging_change_process 1 m).2 |>).
  split; [|split; [done|split; [cbn; by rewrite Hre2|split; [|split; [exact Hb2|exact Ho2]]]]].
  - assert (plain (text "shell")) as Hpl by (vm_compute; repeat constructor).
    specialize (Hrd Hb (object_string _ k Hpl eq_refl) Hdir Hd0 ltac:(vm_compute; discriminate) i Hnd Hi He Hfirst).
    unfold init_global_scheduler. rewrite (bind_Ret _ _ _ _ _ Hrd).
    cbn [inode_num]. fold inode. unfold STARTOFEIPINEXECUTABLE, SIZEOFOPERATIONSTABLE.
    rewrite (bind_Ret _ _ _ _ _ Hr2). unfold mmu_op. rewrite !bind_modify. unfold modify. f_equal.
    rewrite <- Hs2, <- (init_terminals K2) by (by rewrite Hs2). done.
  - rewrite Hre2. done.
Qed.

(** ** Resuming *)

(** [K] is [k] after a tick gave the processor to terminal [n], which ran before. *)
Record resumed (n : Z) (k K : kernel) : Prop := {
  re_ok : sched_ok K;
  re_coherent : coherent K;
  re_current : current_term (sched K) = n;
  re_visable : visable_term (sched K) = visable_term (sched k);
  re_on : is_on (sched K) = is_on (sched k);
  re_saved : let c := current_term (sched k) in
    get_terminal c K = get_terminal c k <| term_esp := esp (regs k) |> <| term_ebp := ebp (regs k) |>;
  re_others : forall t, 0 <= t < 3 -> t <> current_term (sched k) -> get_terminal t K = get_terminal t k;
  re_page : user_page (pid (get_terminal n k)) (mmu_of K);
  re_tss : tss K = Tss KERNEL_DS (stack_top (pid (get_terminal n k)));
  re_regs : regs K = regs k <| ebp := term_ebp (get_terminal n k) |> <| esp := term_esp (get_terminal n k) |>;
  re_rest : K = k <| sched := sched K |> <| mmu_of := mmu_of K |> <| tss := tss K |> <| regs := regs K |>
}.

Lemma turn_after_ne c : 0 <= c < 3 -> 0 <= turn_after c < 3 /\ turn_after c <> c.
Proof. unfold turn_after. case_match; lia. Qed.

Lemma scheduler_next_resumed d0 locals k :
  sched_ok k -> let n := turn_after (current_term (sched k)) in
  zget (is_on (sched k)) n <> 0 ->
  exists K, scheduler_next d0 locals k = Ret (Returned 0) K /\ resumed n k K.
Proof.
  intros Hok n Hon. destruct (next_turn_spec k Hok) as (Hok1 & Hc1 & Hs1 & Hd1 & Hr1).
  destruct Hok as [[Hkm Hs] Hb Hlen Hp]. pose proof (sw_current _ Hs) as Hc. set (c := current_term (sched k)) in *.
  destruct (turn_after_ne c Hc) as [Hn Hne]. fold n in Hn, Hne, Hs1.
  set (k1 := next_turn k) in *.
  assert (current_term (sched k1) = n) as Hcur1 by (by rewrite Hs1).
  assert (is_on (sched k1) = is_on (sched k)) as Hon1 by (by rewrite Hs1).
  assert (forall t, 0 <= t < 3 -> t <> c -> get_terminal t k1 = get_terminal t k) as Hoth.
  { intros t Ht Htc. unfold get_terminal. rewrite Hs1. cbn. apply zget_zset_ne; lia. }
  assert (get_terminal c k1 = get_terminal c k <| term_esp := esp (regs k) |> <| term_ebp := ebp (regs k) |>) as Hsaved.
  { unfold get_terminal at 1. rewrite Hs1. cbn. apply zget_zset_eq. rewrite (sw_len _ Hs). lia. }
  pose proof (Hp n Hn) as Hpn. rewrite <- (Hoth n Hn Hne) in Hpn.
  exists (resume (pid (get_terminal n k1)) k1). split.
  - unfold scheduler_next. rewrite bind_modify. fold k1. rewrite !bind_get, Hcur1, Hon1, u32_id by lia.
    by rewrite (proj2 (Z.eqb_neq _ 0)) by done.
  - set (p := pid (get_terminal n k1)) in *.
    assert (resume p k1 = k1 <| mmu_of ::= λ m, (paging_change_process p m).2 |> <| tss := Tss KERNEL_DS (stack_top p) |>
      <| regs := regs k1 <| ebp := term_ebp (get_terminal n k1) |> <| esp := term_esp (get_terminal n k1) |> |>) as HK.
    { unfold resume. cbv zeta. cbn [sched upd set_mmu_of set_tss]. rewrite Hcur1.
      rewrite u32_id by (unfold END_KMEM, KERNEL_MEM_SIZE; lia). done. }
    rewrite HK. clear HK. destruct Hok1 as [[Hkm1 Hsw1] Hb1 Hl1 Hp1]. split.
    + split; [split; [by apply paging_change_process_kernel_map|exact Hsw1]|exact Hb1|exact Hl1|exact Hp1].
    + unfold coherent, frame_of in *. cbn [sched mmu_of upd set_mmu_of set_tss set_regs].
      by rewrite video_target_change_process.
    + exact Hcur1.
    + cbn [sched upd set_mmu_of set_tss set_regs]. by rewrite Hs1.
    + exact Hon1.
    + exact Hsaved.
    + exact Hoth.
    + rewrite <- (Hoth n Hn Hne). by apply user_page_change.
    + rewrite <- (Hoth n Hn Hne). done.
    + rewrite <- (Hoth n Hn Hne). change (regs k1 <| ebp := term_ebp (get_terminal n k1) |> <| esp := term_esp (get_terminal n k1) |>
        = regs k <| ebp := term_ebp (get_terminal n k1) |> <| esp := term_esp (get_terminal n k1) |>). by rewrite Hr1.
    + rewrite Hr1. done.
Qed.

(** What may happen between two ticks, for the scheduler: the running terminal's own entry and
    everything else may change, not who runs and not the saved state of the others. *)
Record runs_on (k K : kernel) : Prop := {
  ro_ok : sched_ok K;
  ro_current : current_term (sched K) = current_term (sched k);
  ro_on : is_on (sched K) = is_on (sched k);
  ro_others : forall t, 0 <= t < 3 -> t <> current_term (sched k) -> same_process (get_terminal t K) (get_terminal t k)
}.

(** C14. Every terminal gets its turn and comes back to where it was: once all three run, after
    three ticks - whatever the three did in their turns, their processes replaced included -
    the first one is resumed with exactly the registers it had, on the page of the process
    it had then; the three turns are of three different terminals. *)
Theorem three_ticks_come_back d0 locals k :
  sched_ok k -> (forall t, 0 <= t < 3 -> zget (is_on (sched k)) t <> 0) ->
  let c := current_term (sched k) in
  exists k1, scheduler_next d0 locals k = Ret (Returned 0) k1 /\ forall K1, runs_on k1 K1 ->
  exists k2, scheduler_next d0 locals K1 = Ret (Returned 0) k2 /\ forall K2, runs_on k2 K2 ->
  exists k3, scheduler_next d0 locals K2 = Ret (Returned 0) k3 /\
    current_term (sched k3) = c /\ c <> current_term (sched k1) /\ c <> current_term (sched k2) /\
    current_term (sched k1) <> current_term (sched k2) /\
    esp (regs k3) = esp (regs k) /\ ebp (regs k3) = ebp (regs k) /\
    user_page (pid (get_terminal c k)) (mmu_of k3) /\ tss k3 = Tss KERNEL_DS (stack_top (pid (get_terminal c k))) /\
    coherent k3.
Proof.
  intros Hok Hall c. pose proof (sw_current _ (cw_sched _ (so_console _ Hok))) as Hc. fold c in Hc.
  destruct (turn_after_ne c Hc) as [Hn1 Hne1]. destruct (turn_after_ne _ Hn1) as [Hn2 Hne2].
  assert (turn_after (turn_after (turn_after c)) = c /\ turn_after (turn_after c) <> c) as [H3 H2c].
  { assert (c = 0 \/ c = 1 \/ c = 2) as [->|[->| ->]] by lia; done. }
  destruct (scheduler_next_resumed d0 locals k Hok (Hall _ Hn1)) as (k1 & Hk1 & Hr1). exists k1. split; [done|].
  intros K1 Hrun1. pose proof (re_current _ _ _ Hr1) as Hc1. fold c in Hc1.
  pose proof (ro_current _ _ Hrun1) as HC1. rewrite Hc1 in HC1.
  assert (forall t, 0 <= t < 3 -> zget (is_on (sched K1)) t <> 0) as Hall1
    by (intros t Ht; rewrite (ro_on _ _ Hrun1), (re_on _ _ _ Hr1); auto).
  destruct (scheduler_next_resumed d0 locals K1 (ro_ok _ _ Hrun1)) as (k2 & Hk2 & Hr2); [rewrite HC1; auto|].
  exists k2. split; [done|]. intros K2 Hrun2.
  pose proof (re_current _ _ _ Hr2) as Hc2. rewrite HC1 in Hc2.
  pose proof (ro_current _ _ Hrun2) as HC2. rewrite Hc2 in HC2.
  destruct (scheduler_next_resumed d0 locals K2 (ro_ok _ _ Hrun2)) as (k3 & Hk3 & Hr3).
  { rewrite HC2, H3, (ro_on _ _ Hrun2), (re_on _ _ _ Hr2). auto. }
  rewrite HC2, H3 in Hr3. exists k3. split; [done|].
  assert (same_process (get_terminal c K2) (get_terminal c k1)) as (Hp & He & Hb).
  { destruct (ro_others _ _ Hrun2 c Hc) as (? & ? & ?); [congruence|].
    destruct (ro_others _ _ Hrun1 c Hc) as (? & ? & ?); [congruence|].
    pose proof (re_others _ _ _ Hr2 c Hc) as Ho. rewrite HC1 in Ho. rewrite Ho in * by congruence.
    split; [|split]; congruence. }
  pose proof (re_saved _ _ _ Hr1) as Hsv. cbv zeta in Hsv. fold c in Hsv. rewrite Hsv in Hp, He, Hb. cbn in Hp, He, Hb.
  split; [apply Hr3|]. split; [congruence|]. split; [congruence|]. split; [congruence|].
  split; [rewrite (re_regs _ _ _ Hr3); exact He|]. split; [rewrite (re_regs _ _ _ Hr3); exact Hb|].
  rewrite <- Hp. split; [apply Hr3|]. split; apply Hr3.
Qed.

(** The three terminals run, in processes 1 to 3. *)
Definition running_terminal (p e : Z) : terminal_t := terminal0 <| pid := p |> <| term_esp := e |> <| term_ebp := e + 64 |>.
Definition sched_kernel (on : list Z) : kernel :=
  kernel0 <| sched := Scheduler [running_terminal 1 0x7FDF00; running_terminal 2 0x7FBF00; running_terminal 3 0x7F9F00]
                        [0xB9000; 0xBA000; 0xBB000] 0 2 on |>.
Lemma sched_kernel_ok on : zlen on = 3 -> sched_ok (sched_kernel on).
Proof.
  intros Hon. split; [split; [exact booted_kernel_map|]|reflexivity|exact Hon|].
  - split; [reflexivity|cbn; lia|cbn; lia|]. intros t Ht.
    assert (t = 0 \/ t = 1 \/ t = 2) as [->|[->| ->]] by lia; vm_compute; intuition discriminate.
  - intros t Ht. assert (t = 0 \/ t = 1 \/ t = 2) as [->|[->| ->]] by lia; vm_compute; intuition discriminate.
Qed.
Lemma three_ticks_come_back_witness :
  exists k1, scheduler_next (dentry_a (fs kernel0)) (λ _, 0) (sched_kernel [1; 1; 1]) = Ret (Returned 0) k1.
Proof.
  destruct (three_ticks_come_back (dentry_a (fs kernel0)) (λ _, 0) (sched_kernel [1; 1; 1])) as (k1 & Hk1 & _).
  - by apply sched_kernel_ok.
  - intros t Ht. assert (t = 0 \/ t = 1 \/ t = 2) as [->|[->| ->]] by lia; discriminate.
  - exists k1. exact Hk1.
Defined.

(** ** Starting *)

(** The first turn of a terminal. *)
Lemma first_turn_runs d0 locals k i pid_ :
  sched_ok k -> let n := turn_after (current_term (sched k)) in
  zget (is_on (sched k)) n = 0 ->
  let k1 := next_turn k <| sched ::= λ s, s <| is_on ::= zset n 1 |> |> in
  let inode := u32 (s8 (entry_byte k1 i 36)) in
  names_program d0 (Object (text "shell")) k1 (text "shell") (text "shell") [] 0 i 5 ->
  is_program locals k1 i -> find_free_pid 6 1 (processes_running k) = Some pid_ ->
  fds_shape (fd_array (get_pcb (pcb_addr pid_) k)) -> zlen (arg_arr (get_pcb (pcb_addr pid_) k)) = 128 ->
  exists K, scheduler_next d0 locals k = Ret In_user K /\
    started pid_ inode (text "shell") 6 (le32 (file_bytes k1 inode 24 4)) (locals (read_counts k1)) 44 k1 K /\
    processes_running K = zset (pid_ - 1) 1 (processes_running k) /\
    sched K = sched k1 <| terminals ::= zset n (get_terminal n k1 <| pid := pid_ |>) |> /\
    (let l := fd_array (get_pcb (pcb_addr pid_) K) in fds_wf l /\ forall j, 2 <= j < 8 -> in_use (zget l j) = false) /\
    current_term (sched K) = n /\ pid (get_terminal n K) = pid_ /\ zget (is_on (sched K)) n = 1 /\
    (let c := current_term (sched k) in
     term_esp (get_terminal c K) = esp (regs k) /\ term_ebp (get_terminal c K) = ebp (regs k)) /\
    video_target (mmu_of k1) = frame_of n K.
Proof.
  intros Hok n Hon k1 inode Hnp Hip Hpid Hsh Harg.
  destruct (next_turn_spec k Hok) as (Hok1 & Hc1 & Hs1 & _ & Hr1).
  destruct Hok as [[Hkm Hs] Hb Hlen Hp]. pose proof (sw_current _ Hs) as Hc.
  destruct (turn_after_ne _ Hc) as [Hn Hne]. fold n in Hn, Hne, Hs1.
  assert (processes_running k1 = processes_running k /\ pcbs k1 = pcbs k) as [Hrun1 Hpcb1]
    by (unfold k1; rewrite Hr1; done).
  assert (current_term (sched k1) = n) as Hcur1 by (unfold k1; cbn; by rewrite Hs1).
  assert (current_term (sched (next_turn k)) = n) as Hcur by (by rewrite Hs1).
  assert (is_on (sched (next_turn k)) = is_on (sched k)) as Honk by (by rewrite Hs1).
  destruct (execute_runs d0 locals (Object (text "shell")) k1 (text "shell") (text "shell") [] 0 i 5 pid_ Hnp Hip)
    as (K & HK & Hst & Hrun & Hfds); [by rewrite Hrun1| | |].
  { unfold get_pcb. rewrite Hpcb1. exact Hsh. }
  { unfold get_pcb. rewrite Hpcb1. exact Harg. }
  pose proof (st_pid _ _ _ _ _ _ _ _ _ Hst) as Hsk.
  assert (sched K = sched k1 <| terminals ::= zset n (get_terminal n k1 <| pid := pid_ |>) |>) as HsK
    by (rewrite Hsk; unfold set_pid; rewrite Hcur1; done).
  assert (zlen (terminals (sched k1)) = 3) as Hl3.
  { destruct Hok1 as [[_ Hsw] _ _ _]. exact (sw_len _ Hsw). }
  exists K. split; [|split; [exact Hst|split; [by rewrite Hrun, Hrun1|split; [exact HsK|split; [exact Hfds|split; [|split; [|split; [|split]]]]]]]].
  - unfold scheduler_next. rewrite bind_modify, !bind_get, Hcur, Honk, Hon. cbn [Z.eqb]. rewrite bind_modify.
    replace (next_turn k <| sched ::= λ s, s <| is_on ::= zset (current_term s) 1 |> |>) with k1
      by (unfold k1; rewrite <- Hcur; done).
    by rewrite (bind_Ret _ _ _ _ _ HK).
  - rewrite HsK. exact Hcur1.
  - unfold get_terminal. rewrite HsK. cbn [terminals upd set_terminals]. by rewrite zget_zset_eq by lia.
  - rewrite HsK. change (zget (zset n 1 (is_on (sched (next_turn k)))) n = 1). rewrite Honk. apply zget_zset_eq. lia.
  - cbv zeta. assert (get_terminal (current_term (sched k)) K = get_terminal (current_term (sched k)) k
      <| term_esp := esp (regs k) |> <| term_ebp := ebp (regs k) |>) as ->; [|done].
    unfold get_terminal at 1. rewrite HsK. cbn [terminals upd set_terminals]. rewrite zget_zset_ne by lia.
    change (terminals (sched k1)) with (terminals (sched (next_turn k))). rewrite Hs1. cbn [terminals upd set_terminals set_current_term].
    apply zget_zset_eq. rewrite (sw_len _ Hs). lia.
  - change (mmu_of k1) with (mmu_of (next_turn k)). rewrite Hc1, Hcur. unfold frame_of. by rewrite HsK.
Qed.

(** The first turn of a terminal starts its shell: when terminal [n] has not run, the tick
    marks it, executes [shell] and ends in user mode at the shell's entry point, in the least
    free process slot, which becomes the terminal's process; the interrupted terminal's
    registers are saved and the video page shows terminal [n]. *)
Theorem scheduler_next_starts d0 locals k i pid_ :
  sched_ok k -> let n := turn_after (current_term (sched k)) in
  zget (is_on (sched k)) n = 0 ->
  let k1 := next_turn k <| sched ::= λ s, s <| is_on ::= zset n 1 |> |> in
  let inode := u32 (s8 (entry_byte k1 i 36)) in
  names_program d0 (Object (text "shell")) k1 (text "shell") (text "shell") [] 0 i 5 ->
  is_program locals k1 i -> find_free_pid 6 1 (processes_running k) = Some pid_ ->
  fds_shape (fd_array (get_pcb (pcb_addr pid_) k)) -> zlen (arg_arr (get_pcb (pcb_addr pid_) k)) = 128 ->
  exists K, scheduler_next d0 locals k = Ret In_user K /\
    started pid_ inode (text "shell") 6 (le32 (file_bytes k1 inode 24 4)) (locals (read_counts k1)) 44 k1 K /\
    processes_running K = zset (pid_ - 1) 1 (processes_running k) /\
    current_term (sched K) = n /\ pid (get_terminal n K) = pid_ /\ zget (is_on (sched K)) n = 1 /\
    (let c := current_term (sched k) in
     term_esp (get_terminal c K) = esp (regs k) /\ term_ebp (get_terminal c K) = ebp (regs k)) /\
    video_target (mmu_of k1) = frame_of n K.
Proof.
  intros Hok n Hon k1 inode Hnp Hip Hpid Hsh Harg.
  destruct (first_turn_runs d0 locals k i pid_ Hok Hon Hnp Hip Hpid Hsh Harg) as (K & HK & Hst & Hrun & _ & _ & Hrest).
  by exists K.
Qed.

(** A kernel whose image has a [shell], before the first tick. *)
Definition shell_kernel : kernel :=
  sched_kernel [0; 0; 0] <| phys := exec_image (text "shell") |> <| fs := fs exec_kernel |>.
Definition shell_turn : kernel := next_turn shell_kernel <| sched ::= λ s, s <| is_on ::= zset 0 1 |> |>.
Lemma shell_kernel_ok : sched_ok shell_kernel.
Proof. destruct (sched_kernel_ok [0; 0; 0] eq_refl) as [[H1 H2] H3 H4 H5]. by split; [split|..]. Qed.
Lemma shell_loadable : loadable shell_turn 0.
Proof.
  assert (load32 shell_turn (boot shell_turn + 4) = 1) as Hi by (vm_compute; reflexivity).
  assert (load32 shell_turn (boot shell_turn + 8) = 1) as Hb by (vm_compute; reflexivity).
  assert (file_size shell_turn 0 = 60) as Hs by (vm_compute; reflexivity).
  split; [apply (cw_map _ (so_console _ (proj1 (next_turn_spec _ shell_kernel_ok))))| | |rewrite Hs; unfold METADATAEXECUTESIZE; lia].
  - split; [discriminate|rewrite Hi; lia|rewrite Hs; discriminate|].
    intros i Hi'. rewrite Hs in Hi'. replace (i / 4096) with 0 by (Z.div_mod_to_equations; lia). rewrite Hb.
    replace (block_no shell_turn 0 0) with 0 by (vm_compute; reflexivity). lia.
  - unfold image_size. rewrite Hi, Hb. change (boot shell_turn) with 0x410000. lia.
Qed.
Lemma shell_turn_names : names_program (dentry_a (fs exec_kernel)) (Object (text "shell")) shell_turn
  (text "shell") (text "shell") [] 0 1 5.
Proof.
  split; [reflexivity|split; [vm_compute; reflexivity|lia]| | |vm_compute; discriminate|reflexivity| |].
  - split; [repeat constructor|repeat constructor; discriminate| |right; vm_compute; reflexivity].
    intros j Hj. apply zget_app_l. exact Hj.
  - split; [reflexivity|lia|split; [discriminate|repeat constructor; discriminate]|left; reflexivity].
  - split.
    + intros j Hj. pose proof (check_below 63 (λ i, match strlen (entry_byte shell_turn i) with Some _ => true | None => false end)
        ltac:(vm_compute; reflexivity) j ltac:(lia)) as Hc. cbv beta in Hc.
      destruct (strlen (entry_byte shell_turn j)) as [len|]; [by exists len|done].
    + intros Hd. specialize (Hd 0 ltac:(vm_compute; intuition discriminate)). vm_compute in Hd. discriminate Hd.
  - split; [lia|]. split; [vm_compute; reflexivity|intros; lia].
Qed.
Lemma scheduler_next_starts_witness :
  exists K, scheduler_next (dentry_a (fs exec_kernel)) (λ _, 0x7F9D00) shell_kernel = Ret In_user K /\ pid (get_terminal 0 K) = 1.
Proof.
  assert (u32 (s8 (entry_byte shell_turn 1 36)) = 0) as Hino by (vm_compute; reflexivity).
  assert (boot shell_turn + image_size shell_turn = 0x413000) as Himg by (vm_compute; reflexivity).
  destruct (scheduler_next_starts (dentry_a (fs exec_kernel)) (λ _, 0x7F9D00) shell_kernel 1 1)
    as (K & HK & _ & _ & _ & Hp & _).
  - exact shell_kernel_ok.
  - reflexivity.
  - exact shell_turn_names.
  - split; change (next_turn shell_kernel <| sched ::= λ s, s <| is_on ::= zset (turn_after (current_term (sched shell_kernel))) 1 |> |>)
      with shell_turn; rewrite ?Hino; [exact shell_loadable|vm_compute; reflexivity|lia|right; rewrite Himg; lia].
  - vm_compute. reflexivity.
  - split; [reflexivity|]. intros i Hi.
    pose proof (check_below 8 (λ i, zlen (fd_flags (zget (fd_array (get_pcb (pcb_addr 1) shell_kernel)) i)) =? 4)
      ltac:(vm_compute; reflexivity) i ltac:(lia)) as Hc. cbv beta in Hc. lia.
  - vm_compute. reflexivity.
  - exists K. split; [exact HK|]. exact Hp.
Defined.
