(* ===== verification/Idt.v ===== *)
(** * Interrupts: student-distrib/idt.c, and the entry points of linkage.S

    [initialize_IDT] fills the table of 256 descriptors; the processor reads a descriptor as
    two 32-bit words ([encode_desc]) and as a gate ([decode_gate]).  [address] is where the
    linker put a handler.  [run_handler] runs a handler on the kernel
    state; the assembly routines around the C handlers save and restore the general
    registers and end in [iret], which has no other effect on [kernel].

    [temp0], [d0], [locals] are the uninitialised or local objects of the functions called,
    [cr2] the address of a page fault. *)
From S2P Require Import Prelude Machine Lib Paging Devices State Console Printf Terminal Filesystem SysCall Process Keyboard Scheduler.

Definition EXCEPTION_COUNT : Z := 32.
Definition SYSTEMCALLNO : Z := 0x80.
Definition PITNO : Z := 0x20.
Definition KEYBOARD : Z := 0x21.
Definition RTC : Z := 0x28.
Definition KERNEL_CS : Z := 0x10.
Definition NUM_VEC : Z := 256.

(** ** The handlers *)
Inductive handler :=
  | handle0 | handle1 | handle2 | handle3 | handle4 | handle5 | handle6 | handle7 | handle8 | handle9
  | handle10 | handle14 | commonehandler
  | keyboardhandlerasm | rtchandlerasm | systemcallasm | pithandlerasm.
#[export] Instance handler_eq_dec : EqDecision handler.
Proof. solve_decision. Defined.

(** ** x86_desc.h *)
Record idt_desc_t := IdtDesc {
  offset_15_00 : Z;
  seg_selector : Z;
  reserved4 : Z;
  reserved3 : Z;
  reserved2 : Z;
  reserved1 : Z;
  size : Z;
  reserved0 : Z;
  dpl : Z;
  present : Z;
  offset_31_16 : Z
}.
Definition idt_desc0 : idt_desc_t := IdtDesc 0 0 0 0 0 0 0 0 0 0 0.
#[export] Instance idt_desc_inhabited : Inhabited idt_desc_t := populate idt_desc0.

Definition SET_IDT_ENTRY (handler_ : Z) (str : idt_desc_t) : idt_desc_t :=
  IdtDesc (Z.land handler_ 0xFFFF) (seg_selector str) (reserved4 str) (reserved3 str) (reserved2 str) (reserved1 str)
    (size str) (reserved0 str) (dpl str) (present str) (Z.shiftr (Z.land handler_ 0xFFFF0000) 16).

Section Table.
Context (address : handler -> Z).

(** The nine assignments to a descriptor; only the privilege and [reserved3] differ between
    the entries. *)
Definition set_fields (dpl_ reserved3_ : Z) (d : idt_desc_t) : idt_desc_t :=
  IdtDesc (offset_15_00 d) KERNEL_CS 0 reserved3_ 1 1 1 0 dpl_ 1 (offset_31_16 d).
Definition exception_handler (i : Z) : handler :=
  if i =? 0 then handle0 else if i =? 1 then handle1 else if i =? 2 then handle2 else if i =? 3 then handle3
  else if i =? 4 then handle4 else if i =? 5 then handle5 else if i =? 6 then handle6 else if i =? 7 then handle7
  else if i =? 8 then handle8 else if i =? 14 then handle14 else if i =? 9 then handle9 else if i =? 13 then handle0
  else commonehandler.
Definition set_entry (i dpl_ reserved3_ : Z) (h : handler) (idt : list idt_desc_t) : list idt_desc_t :=
  zset i (SET_IDT_ENTRY (address h) (set_fields dpl_ reserved3_ (zget idt i))) idt.
Definition initialize_IDT (idt : list idt_desc_t) : list idt_desc_t :=
  let idt := for_up 32 0 (λ i, set_entry i 0 0 (exception_handler i)) idt in
  let idt := set_entry KEYBOARD 0 1 keyboardhandlerasm idt in
  let idt := set_entry RTC 0 1 rtchandlerasm idt in
  let idt := set_entry SYSTEMCALLNO 3 1 systemcallasm idt in
  set_entry PITNO 3 0 pithandlerasm idt.
End Table.

(** ** What the processor makes of a descriptor (Intel SDM volume 3, 6.11) *)
Definition encode_desc (d : idt_desc_t) : Z * Z :=
  (offset_15_00 d + 0x10000 * seg_selector d,
   reserved4 d + 0x100 * reserved3 d + 0x200 * reserved2 d + 0x400 * reserved1 d + 0x800 * size d
     + 0x1000 * reserved0 d + 0x2000 * dpl d + 0x8000 * present d + 0x10000 * offset_31_16 d).
(** A trap gate leaves the interrupt flag on, an interrupt gate clears it. *)
Record gate := Gate { g_offset : Z; g_selector : Z; g_trap : bool; g_dpl : Z }.
Definition decode_gate (w : Z * Z) : option gate :=
  let '(lo, hi) := w in
  let ty := Z.land (Z.shiftr hi 8) 0x1F in
  if Z.testbit hi 15 && ((ty =? 0x0E) || (ty =? 0x0F)) then
    Some (Gate (Z.lor (Z.land lo 0xFFFF) (Z.land hi 0xFFFF0000)) (Z.land (Z.shiftr lo 16) 0xFFFF)
            (ty =? 0x0F) (Z.land (Z.shiftr hi 13) 3))
  else None.
Definition gate_of (idt : list idt_desc_t) (v : Z) : option gate := decode_gate (encode_desc (zget idt v)).

(** ** The C handlers *)
Section Handlers.
Context (d0 : dentry_t) (locals : kernel -> Z) (temp0 : Z) (cr2 : Z).

(** [printf] of a message, then [while(1)]. *)
Definition squash (msg : list Z) : prog kernel unit := _ ← printf (Object msg) []; diverge.
Definition exception_message (h : handler) : list Z :=
  match h with
  | handle0 => text "general Protection exception" ++ [10]
  | handle1 => text "Debug exception" ++ [10]
  | handle2 => text "NMI Interupt" ++ [10]
  | handle3 => text "Breakpoint Exception" ++ [10]
  | handle4 => text "Overflow Exception" ++ [10]
  | handle5 => text "BOUND Range Exceeded Exception" ++ [10]
  | handle6 => text "Invalid Opcode Exception" ++ [10]
  | handle7 => text "Device Not Available Exception" ++ [10]
  | handle8 => text "Double Fault Exception" ++ [10]
  | handle9 => text "Coprocessor Segment Overrun" ++ [10]
  | handle10 => text "Invalid TSS exception" ++ [10]
  | _ => text "exception raised"
  end.
(** [handle14]: a page fault halts the process. *)
Definition page_fault : prog kernel exec_result :=
  _ ← printf (Object (text "Page Fault exception" ++ [10])) [];
  _ ← printf (Object (text "The Exception occurred at:%x")) [cr2];
  halt d0 locals 80.

Definition keyboard_handler : prog kernel unit := check_input temp0.
Definition test_interrupts (d : dev) : dev := d <| rtcInterruptCount ::= λ n, s32 (n + 1) |>.
Definition rtchandler : prog kernel unit :=
  dev_op (λ d,
    let d := d <| rtc_interrupt_occurred := 1 |> in
    let d := outb Rtc.REG_C Rtc.RTC_CMD_PORT d in
    (* the byte read from the data port is dropped *)
    let d := test_interrupts d in
    let d := I8259.send_eoi Rtc.RTC_IRQ_NO d in
    I8259.send_eoi I8259.IRQ_SLAVE d).
Definition pithandler : prog kernel exec_result :=
  _ ← dev_op (I8259.send_eoi 0);
  scheduler_next d0 locals.

(** ** System calls: [systemcallasm] and its jump table *)
Definition returned (p : prog kernel Z) : prog kernel exec_result := r ← p; mret (Returned r).
Definition pure_call (f : kernel -> Z * kernel) : prog kernel Z := λ k, Ret (f k).1 (f k).2.
Definition MIN_SYS_CALL : Z := 0.
Definition MAX_SYS_CALL : Z := 10.
Definition systemcall (eax ebx ecx edx : Z) : prog kernel exec_result :=
  if (s32 eax <=? MIN_SYS_CALL) || (MAX_SYS_CALL <? s32 eax) then mret (Returned (-1))
  else
    match s32 eax - 1 with
    | 0 => halt d0 locals (u8 ebx)
    | 1 => execute d0 locals (In_memory ebx)
    | 2 => returned (read d0 (s32 ebx) ecx (s32 edx))
    | 3 => returned (write (s32 ebx) ecx (s32 edx))
    | 4 => returned (open d0 (In_memory ebx))
    | 5 => returned (close (s32 ebx))
    | 6 => returned (pure_call (getargs ebx (s32 ecx)))
    | 7 => returned (pure_call (vidmap ebx))
    | 8 => returned (get (set_handler (s32 ebx) ecx))
    | _ => returned (get sigreturn)
    end.

(** The handler of a vector, on the registers of the interrupted program. *)
Definition run_handler (h : handler) (eax ebx ecx edx : Z) : prog kernel exec_result :=
  match h with
  | handle14 => page_fault
  | keyboardhandlerasm => _ ← keyboard_handler; mret (Returned eax)
  | rtchandlerasm => _ ← rtchandler; mret (Returned eax)
  | systemcallasm => systemcall eax ebx ecx edx
  | pithandlerasm => pithandler
  | h => _ ← squash (exception_message h); mret (Returned eax)
  end.
End Handlers.

(** ** The table *)
Lemma land_high x : 0 <= x < 4294967296 -> Z.land x 0xFFFF0000 = x / 65536 * 65536.
Proof.
  intros Hx. change 0xFFFF0000 with (Z.shiftl (Z.ones 16) 16).
  replace (Z.land x (Z.shiftl (Z.ones 16) 16)) with (Z.shiftl (Z.land (Z.shiftr x 16) (Z.ones 16)) 16).
  - rewrite Z.land_ones, Z.shiftr_div_pow2, Z.shiftl_mul_pow2 by lia.
    change (2 ^ 16) with 65536. rewrite Z.mod_small; [done|]. Z.div_mod_to_equations; lia.
  - apply Z.bits_inj'. intros n Hn. rewrite Z.land_spec. destruct (decide (n < 16)).
    + rewrite !Z.shiftl_spec_low by lia. by rewrite andb_false_r.
    + rewrite !Z.shiftl_spec by lia. rewrite Z.land_spec, Z.shiftr_spec by lia. do 2 f_equal. lia.
Qed.

Lemma decode_entry a p r d :
  0 <= a < 4294967296 -> p = 0 \/ p = 3 -> r = 0 \/ r = 1 ->
  decode_gate (encode_desc (SET_IDT_ENTRY a (set_fields p r d))) = Some (Gate a KERNEL_CS (r =? 1) p).
Proof.
  intros Ha Hp Hr. unfold SET_IDT_ENTRY, set_fields, encode_desc, decode_gate, KERNEL_CS.
  cbn [offset_15_00 seg_selector reserved4 reserved3 reserved2 reserved1 size reserved0 dpl present offset_31_16].
  change 0xFFFF with (Z.ones 16). rewrite (land_high a Ha), !Z.land_ones by lia.
  rewrite !Z.shiftr_div_pow2 by lia. change (2 ^ 16) with 65536. rewrite Z.div_mul by lia.
  set (l := a mod 65536). set (h := a / 65536).
  assert (0 <= l < 65536 /\ 0 <= h < 65536 /\ a = h * 65536 + l) as (Hl & Hh & Hal)
    by (unfold l, h; Z.div_mod_to_equations; lia). clearbody l h.
  set (lo := l + 65536 * 16). set (c := 0x100 * r + 0x8E00 + 0x2000 * p).
  replace (0 + 256 * r + 512 * 1 + 1024 * 1 + 2048 * 1 + 4096 * 0 + 8192 * p + 32768 * 1 + 65536 * h)
    with (h * 65536 + c) by (unfold c; lia).
  rewrite land_high by (unfold c; lia).
  assert (Z.testbit (h * 65536 + c) 15 = true) as ->.
  { pose proof (Z.testbit_spec' (h * 65536 + c) 15 ltac:(lia)) as Hb. change (2 ^ 15) with 32768 in Hb.
    destruct (Z.testbit (h * 65536 + c) 15); [done|]. cbn [Z.b2z] in Hb. unfold c in Hb. Z.div_mod_to_equations; lia. }
  change 0x1F with (Z.ones 5). change 3 with (Z.ones 2). rewrite !Z.land_ones by lia.
  change (2 ^ 8) with 256. change (2 ^ 5) with 32. change (2 ^ 13) with 8192. change (2 ^ 2) with 4.
  replace ((h * 65536 + c) / 256 mod 32) with (14 + r) by (unfold c; Z.div_mod_to_equations; lia).
  replace ((h * 65536 + c) / 8192 mod 4) with p by (unfold c; Z.div_mod_to_equations; lia).
  replace ((h * 65536 + c) / 65536) with h by (unfold c; Z.div_mod_to_equations; lia).
  replace (lo mod 65536) with l by (unfold lo; Z.div_mod_to_equations; lia).
  replace (lo / 65536 mod 65536) with 16 by (unfold lo; Z.div_mod_to_equations; lia).
  replace (Z.lor l (h * 65536)) with a; [destruct Hr as [-> | ->]; done|].
  rewrite Z.lor_comm. change 65536 with (2 ^ 16). rewrite lor_low by lia. done.
Qed.

Section Gates.
Context (address : handler -> Z) (Haddr : forall h, 0 <= address h < 4294967296).

Lemma set_entry_get i p r h idt v :
  zlen idt = 256 -> 0 <= i < 256 -> 0 <= v -> p = 0 \/ p = 3 -> r = 0 \/ r = 1 ->
  gate_of (set_entry address i p r h idt) v =
    if decide (v = i) then Some (Gate (address h) KERNEL_CS (r =? 1) p) else gate_of idt v.
Proof.
  intros Hl Hi Hv Hp Hr. unfold gate_of, set_entry. case_decide as Hd.
  - subst v. rewrite zget_zset_eq by lia. by apply decode_entry.
  - by rewrite zget_zset_ne by lia.
Qed.
Lemma set_entry_len i p r h idt : zlen (set_entry address i p r h idt) = zlen idt.
Proof. apply zlen_zset. Qed.

(** The table the processor has after [initialize_IDT]. *)
Definition vector_handler (v : Z) : option handler :=
  if v <? 32 then Some (exception_handler v)
  else if v =? PITNO then Some pithandlerasm
  else if v =? KEYBOARD then Some keyboardhandlerasm
  else if v =? RTC then Some rtchandlerasm
  else if v =? SYSTEMCALLNO then Some systemcallasm
  else None.
Definition from_user (v : Z) : bool := (v =? PITNO) || (v =? SYSTEMCALLNO).
Definition is_trap (v : Z) : bool := (v =? KEYBOARD) || (v =? RTC) || (v =? SYSTEMCALLNO).
Definition vector_gate (v : Z) : option gate :=
  (λ h, Gate (address h) KERNEL_CS (is_trap v) (if from_user v then 3 else 0)) <$> vector_handler v.

Lemma idt_table v :
  0 <= v < 256 -> gate_of (initialize_IDT address (replicate 256 idt_desc0)) v = vector_gate v.
Proof.
  intros Hv. unfold initialize_IDT. set (idt0 := replicate 256 idt_desc0).
  set (idt1 := for_up 32 0 (λ i, set_entry address i 0 0 (exception_handler i)) idt0).
  assert (zlen idt1 = 256 /\ gate_of idt1 v =
    if decide (v < 32) then Some (Gate (address (exception_handler v)) KERNEL_CS false 0) else None) as [Hl1 H1].
  { pose proof (for_up_ind (λ i idt, zlen idt = 256 /\ gate_of idt v =
      if decide (v < i) then Some (Gate (address (exception_handler v)) KERNEL_CS false 0) else None)
      32 0 (λ i, set_entry address i 0 0 (exception_handler i)) idt0) as Hind. cbv beta in Hind. apply Hind.
    - split; [done|]. rewrite decide_False by lia. unfold gate_of, idt0, zget.
      rewrite lookup_total_replicate_2 by lia. reflexivity.
    - intros j s Hj [Hl Hg]. rewrite set_entry_len. split; [done|]. rewrite set_entry_get by (auto || lia).
      destruct (decide (v = j)) as [->|Hd]; [by rewrite decide_True by lia|]. rewrite Hg.
      destruct (decide (v < j)); [by rewrite decide_True by lia|by rewrite decide_False by lia]. }
  clearbody idt1. rewrite !set_entry_get by (rewrite ?set_entry_len; auto || lia || (unfold KEYBOARD, RTC, SYSTEMCALLNO, PITNO; lia)).
  rewrite H1. unfold vector_gate, vector_handler, from_user, is_trap.
  unfold KEYBOARD, RTC, SYSTEMCALLNO, PITNO.
  destruct (Z.eqb_spec v 0x20) as [->|]; [done|]. destruct (Z.eqb_spec v 0x80) as [->|]; [done|].
  destruct (Z.eqb_spec v 0x28) as [->|]; [done|]. destruct (Z.eqb_spec v 0x21) as [->|]; [done|].
  rewrite !decide_False by done. destruct (Z.ltb_spec v 32).
  - by rewrite decide_True by lia.
  - by rewrite decide_False by lia.
Qed.
End Gates.

(** ** [INT v] in a user program *)

(** The processor takes the kernel stack of the TSS and pushes five words on it; through an
    interrupt gate the interrupts go off. *)
Definition kernel_esp (k : kernel) : Z := u32 (esp0 (tss k) - 20).
Definition enter_kernel (masked : bool) (k : kernel) : kernel :=
  k <| regs ::= λ r, r <| esp := kernel_esp k |> <| user := false |> |>
    <| devs ::= λ d, d <| interrupt_flag ::= λ b, negb masked && b |> |>.
(** [iret] pops them again, the flags among them, unless the routine went over to another
    stack, where another routine goes on. *)
Definition leave_kernel (k K : kernel) : kernel :=
  if esp (regs K) =? kernel_esp k then
    K <| regs := regs k |> <| devs ::= λ d, d <| interrupt_flag := interrupt_flag (devs k) |> |>
  else K.
Definition trap (masked : bool) (p : prog kernel exec_result) : prog kernel exec_result := λ k,
  match p (enter_kernel masked k) with
  | Ret (Returned v) K => Ret (Returned v) (leave_kernel k K)
  | r => r
  end.
Definition all_handlers : list handler :=
  [handle0; handle1; handle2; handle3; handle4; handle5; handle6; handle7; handle8; handle9; handle10; handle14;
   commonehandler; keyboardhandlerasm; rtchandlerasm; systemcallasm; pithandlerasm].
Definition handler_at (address : handler -> Z) (a : Z) : option handler :=
  snd <$> list_find (λ h, address h = a) all_handlers.

Section User.
Context (address : handler -> Z) (d0 : dentry_t) (locals : kernel -> Z) (temp0 cr2 : Z).

(** The processor jumps through the gate of the vector, or of vector 13 when the gate is
    missing or not open to privilege level 3. *)
Definition jump (g : option gate) (eax ebx ecx edx : Z) : prog kernel exec_result :=
  match g with
  | Some g =>
      match handler_at address (g_offset g) with
      | Some h => trap (negb (g_trap g)) (run_handler d0 locals temp0 cr2 h eax ebx ecx edx)
      | None => undefined
      end
  | None => undefined
  end.
Definition user_int (idt : list idt_desc_t) (v eax ebx ecx edx : Z) : prog kernel exec_result :=
  match gate_of idt v with
  | Some g => if g_dpl g =? 3 then jump (Some g) eax ebx ecx edx else jump (gate_of idt 13) eax ebx ecx edx
  | None => jump (gate_of idt 13) eax ebx ecx edx
  end.

Lemma handler_at_address : (forall h h', address h = address h' -> h = h') -> forall h, handler_at address (address h) = Some h.
Proof.
  intros Hinj h. unfold handler_at.
  destruct (list_find (λ h', address h' = address h) all_handlers) as [[i h']|] eqn:Hf.
  - apply list_find_Some in Hf as (_ & He & _). cbn. f_equal. by apply Hinj.
  - apply list_find_None in Hf. rewrite Forall_forall in Hf. exfalso. apply (Hf h); [|done].
    destruct h; repeat (try (by left); right).
Qed.

(** A message and an endless loop. *)
Lemma squash_spins msg k :
  console_wf k -> Forall (λ c, c <> 0 /\ c <> 37) msg -> zlen msg < 4294967295 -> squash msg k = Spin.
Proof.
  intros Hk Hm Hl. destruct (printf_text msg k Hk Hm Hl) as (k' & Hp & _).
  unfold squash. by rewrite (bind_Ret _ _ _ _ _ Hp).
Qed.
End User.

(** C38. The interrupt table: after [initialize_IDT] on the zeroed table of 256 entries the gate the
    processor reads for a vector leads to the handler's address in the kernel's code
    segment for the 32 exceptions, the timer, the keyboard, the clock and the system call,
    and to nothing for every other vector; exceptions and the timer are interrupt gates,
    the other three trap gates; only the timer's and the system call's may be used by a
    program. *)
Theorem idt_gates address v :
  (forall h, 0 <= address h < 4294967296) -> 0 <= v < 256 ->
  let g := gate_of (initialize_IDT address (replicate 256 idt_desc0)) v in
  g = (λ h, Gate (address h) KERNEL_CS (is_trap v) (if from_user v then 3 else 0)) <$> vector_handler v /\
  (g = None <-> ~ (v < 32 \/ v = 0x20 \/ v = 0x21 \/ v = 0x28 \/ v = 0x80)) /\
  ((exists g', g = Some g' /\ g_dpl g' = 3) <-> v = 0x20 \/ v = 0x80) /\
  ((exists g', g = Some g' /\ g_trap g' = true) <-> v = 0x21 \/ v = 0x28 \/ v = 0x80).
Proof.
  intros Ha Hv g. assert (g = vector_gate address v) as -> by (by apply idt_table).
  split; [done|]. unfold vector_gate, vector_handler, is_trap, from_user, KEYBOARD, RTC, SYSTEMCALLNO, PITNO.
  destruct (Z.ltb_spec v 32).
  { replace (v =? 0x20) with false by lia. replace (v =? 0x80) with false by lia.
    replace (v =? 0x21) with false by lia. replace (v =? 0x28) with false by lia. cbn.
    split; [|split]; (split; [|lia]); [done|intros (g' & [= <-] & Hd); discriminate Hd|intros (g' & [= <-] & Hd); discriminate Hd]. }
  destruct (Z.eqb_spec v 0x20) as [->|]; [|destruct (Z.eqb_spec v 0x21) as [->|]; [|destruct (Z.eqb_spec v 0x28) as [->|];
    [|destruct (Z.eqb_spec v 0x80) as [->|]]]]; cbn.
  5: { split; [split; [lia|done]|]. split; (split; [intros (g' & Hg & _); discriminate Hg|lia]). }
  all: split; [split; [done|lia]|].
  all: split; split; first [lia|intros _; eexists; split; reflexivity|intros (g' & [= <-] & Hd); discriminate Hd|auto].
Qed.
Lemma idt_gates_witness :
  gate_of (initialize_IDT (λ _, 0x401234) (replicate 256 idt_desc0)) 0x80 = Some (Gate 0x401234 0x10 true 3).
Proof. apply (idt_gates (λ _, 0x401234) 0x80); lia. Defined.

Lemma leave_entered masked k : leave_kernel k (enter_kernel masked k) = k.
Proof.
  unfold leave_kernel. change (esp (regs (enter_kernel masked k))) with (kernel_esp k). rewrite Z.eqb_refl.
  destruct k as [m ph s t kb f pr pc ts rg dv]. by destruct dv.
Qed.


(** Addresses a linker might choose. *)
Definition demo_address (h : handler) : Z :=
  0x400000 + 16 * match list_find (λ h', h = h') all_handlers with Some (i, _) => Z.of_nat i | None => 0 end.
Lemma demo_address_ok : (forall h, 0 <= demo_address h < 4294967296) /\ (forall h h', demo_address h = demo_address h' -> h = h').
Proof.
  split.
  - intros h. destruct h; vm_compute; intuition discriminate.
  - intros h h'. destruct h, h'; vm_compute; (done || (intros H; discriminate H)).
Qed.
