(* ===== verification/User.v ===== *)
(** * User programs: the library of src/syscalls

    The system call stubs (ece391syscall.S) and the support functions (ece391support.c),
    on the memory and through the INT 0x80 of the kernel model.  A program's local arrays
    and string literals are in its page: the address of an array is an argument, [lit]
    gives the address where the linker put a literal.  A call during which another
    program runs ([execute]) leaves the caller waiting.

    [in_program] is what a running program relies on; the lemmas on the calls say what it
    finds after each of them. *)
From S2P Require Import Prelude Machine Lib Paging Devices State Console Printf Terminal Filesystem SysCall Process Keyboard Scheduler Idt.

Definition SYS_HALT : Z := 1.
Definition SYS_EXECUTE : Z := 2.
Definition SYS_READ : Z := 3.
Definition SYS_WRITE : Z := 4.
Definition SYS_OPEN : Z := 5.
Definition SYS_CLOSE : Z := 6.
Definition SYS_GETARGS : Z := 7.
Definition SYS_VIDMAP : Z := 8.
Definition SYS_SET_HANDLER : Z := 9.
Definition SYS_SIGRETURN : Z := 10.

Section Calls.
Context (d0 : dentry_t) (locals : kernel -> Z).

(** [DO_CALL]: the number in EAX, the arguments in EBX, ECX and EDX, INT 0x80. *)
Definition DO_CALL (number a b c : Z) : prog kernel Z := λ k,
  match trap false (systemcall d0 locals number a b c) k with
  | Ret (Returned r) K => Ret r K
  | Ret In_user K => Wait K
  | Wait K => Wait K
  | Spin => Spin
  | Ub => Ub
  end.
Definition ece391_execute (command : Z) : prog kernel Z := DO_CALL SYS_EXECUTE command 0 0.
Definition ece391_read (fd buf nbytes : Z) : prog kernel Z := DO_CALL SYS_READ fd buf nbytes.
Definition ece391_write (fd buf nbytes : Z) : prog kernel Z := DO_CALL SYS_WRITE fd buf nbytes.
Definition ece391_open (filename : Z) : prog kernel Z := DO_CALL SYS_OPEN filename 0 0.
Definition ece391_close (fd : Z) : prog kernel Z := DO_CALL SYS_CLOSE fd 0 0.
Definition ece391_getargs (buf nbytes : Z) : prog kernel Z := DO_CALL SYS_GETARGS buf nbytes 0.
Definition ece391_vidmap (screen_start : Z) : prog kernel Z := DO_CALL SYS_VIDMAP screen_start 0 0.
Definition ece391_set_handler (signum handler : Z) : prog kernel Z := DO_CALL SYS_SET_HANDLER signum handler 0.
Definition ece391_sigreturn : prog kernel Z := DO_CALL SYS_SIGRETURN 0 0 0.
(** [_start]: [main], then [halt] with its result. *)
Definition _start (main : prog kernel Z) : prog kernel exec_result :=
  r ← main; trap false (systemcall d0 locals SYS_HALT r 0 0).

(** ** ece391support.c *)
Definition ece391_strlen (s : Z) : prog kernel Z := λ k,
  from_loop (while (λ len, if loadb k (s + len) =? 0 then inr len else inl (u32 (len + 1))) 0) k.
Definition ece391_strcpy (dst src : Z) : prog kernel unit := λ k,
  match while (λ '(i, k),
          let c := loadb k (src + i) in
          let k := storeb (dst + i) c k in
          if negb (c =? 0) then inl (i + 1, k) else inr k) (0, k) with
  | Some k => Ret tt k
  | None => Spin
  end.
Definition ece391_fdputs (fd s : Z) : prog kernel unit :=
  len ← ece391_strlen s;
  _ ← ece391_write fd s len;
  mret tt.
Definition ece391_strcmp (s1 s2 : Z) : prog kernel Z := λ k,
  from_loop (while (λ i,
    let c1 := loadb k (s1 + i) in
    let c2 := loadb k (s2 + i) in
    if c1 =? c2 then if c1 =? 0 then inr 0 else inl (i + 1) else inr (c1 - c2)) 0) k.
Definition ece391_strncmp (s1 s2 n : Z) : prog kernel Z := λ k,
  if n =? 0 then Ret 0 k
  else
    from_loop (while (λ '(i, n),
      let c1 := loadb k (s1 + i) in
      let c2 := loadb k (s2 + i) in
      if c1 =? c2 then
        if c1 =? 0 then inr 0
        else let n := u32 (n - 1) in if n =? 0 then inr 0 else inl (i + 1, n)
      else inr (c1 - c2)) (0, n)) k.
Definition ece391_strrev (s : Z) : prog kernel Z :=
  len ← ece391_strlen s;
  let end_ := s32 (len - 1) in
  if end_ <=? 0 then mret s
  else ((λ k,
    match while (λ '(beg, end_, k),
            if beg <? end_ then
              let tmp := loadb k (s + end_) in
              let k := storeb (s + end_) (loadb k (s + beg)) k in
              let k := storeb (s + beg) tmp k in
              inl (beg + 1, end_ - 1, k)
            else inr k) (0, end_, k) with
    | Some k => Ret s k
    | None => Spin
    end) : prog kernel Z).
(** [radix] is positive. *)
Definition ece391_itoa (value buf radix : Z) : prog kernel Z := λ k,
  if value =? 0 then Ret buf (storeb (buf + 1) 0 (storeb buf 48 k))
  else
    match while (λ '(newval, newbuf, k),
            if 0 <? newval then
              inl (newval / radix, newbuf + 1, storeb newbuf (zget lookup (s32 (newval mod radix))) k)
            else inr (newbuf, k)) (value, buf, k) with
    | Some (newbuf, k) => ece391_strrev buf (storeb newbuf 0 k)
    | None => Spin
    end.
End Calls.

(** ** A running program *)
Definition in_user (a : Z) : Prop := user_base <= a < user_base + 0x400000.

(** The names of the static entries are arrays of 32 bytes. *)
Definition fs_ok (f : fs_vars) : Prop :=
  zlen (State.fname (dentry_a f)) = 32 /\ zlen (State.fname (dentry_b f)) = 32.
(** The flags are [INUSE] or [NOTINUSE]. *)
Definition flags_ok (l : list file_desc) : Prop := forall i, 0 <= i < 8 -> flag_ok (zget l i).
Definition flags_check (l : list file_desc) : bool :=
  forallb (λ i, let x := zget (fd_flags (zget l i)) 0 in (x =? 0) || (x =? 1)) (tabulate 8 id).
Lemma flags_check_ok l : flags_check l = true -> flags_ok l.
Proof. intros Hc i Hi. pose proof (check_below 8 _ Hc i Hi) as H. cbv beta zeta in H. unfold flag_ok. lia. Qed.
(** Process [p] runs in user mode: its page is mapped, the TSS names its kernel stack, and
    the kernel's invariants hold; the file system image is in the kernel's page. *)
Record in_program (p : Z) (k : kernel) : Prop := {
  pg_console : console_wf k;
  pg_page : user_page p (mmu_of k);
  pg_stack : esp0 (tss k) = stack_top p;
  pg_fds : fds_wf (fd_array (get_pcb (pcb_addr p) k));
  pg_flags : flags_ok (fd_array (get_pcb (pcb_addr p) k));
  pg_static : fs_ok (fs k);
  pg_term : term_wf (term k);
  pg_image : 0x400000 <= boot k /\ boot k + image_size k <= 0x800000
}.
Lemma in_program_pid p k : in_program p k -> p = 1 \/ p = 2 \/ p = 3 \/ p = 4 \/ p = 5 \/ p = 6.
Proof. intros H. destruct (pg_page _ _ H). lia. Qed.
(** The kernel finds the control block from its stack. *)
Lemma entered_pcb p k masked : in_program p k -> get_pcb_address (enter_kernel masked k) = pcb_addr p.
Proof.
  intros H. unfold get_pcb_address. change (esp (regs (enter_kernel masked k))) with (kernel_esp k).
  unfold kernel_esp. rewrite (pg_stack _ _ H).
  destruct (in_program_pid p k H) as [->|[->|[->|[->|[->| ->]]]]]; reflexivity.
Qed.
Lemma pcb_addr_nonzero p k : in_program p k -> pcb_addr p <> 0.
Proof. intros H. destruct (in_program_pid p k H) as [->|[->|[->|[->|[->| ->]]]]]; discriminate. Qed.

(** The line that terminal [t] has for its reader. *)
Definition line_state (t : Z) (v : term_vars) : list Z * Z * Z :=
  (zget (terminalbuffer v) t, zget (numberofchars v) t, zget (term_flags v) t).
(** What a call keeps: the caller's registers and mapping, the other processes, the image,
    all of the program's memory apart from [W], and, of what the terminals save, everything
    but the cursor of the caller's.  Of the physical memory no byte changes outside the
    program's page and the cells behind the video page.  The counts and the two entries that
    filesystem.c computes anew at every lookup are scratch: [lf_image] says that the image,
    and the address of its boot block, stay. *)
Record kept (p : Z) (W : Z -> Prop) (k K : kernel) : Prop := {
  lf_in : in_program p K;
  lf_mmu : mmu_of K = mmu_of k;
  lf_regs : regs K = regs k;
  lf_tss : tss K = tss k;
  lf_kbd : kbd K = kbd k;
  lf_image : same_image k K;
  lf_memory : forall a, in_user a -> ~ W a -> loadb K a = loadb k a;
  lf_sched : cursor_moved (current_term (sched k)) (sched k) (sched K);
  lf_others : forall a, a <> pcb_addr p -> get_pcb a K = get_pcb a k;
  lf_block : get_pcb (pcb_addr p) K = get_pcb (pcb_addr p) k <| fd_array := fd_array (get_pcb (pcb_addr p) K) |>;
  lf_phys : forall q, ~ user_frame p <= q < user_frame p + 0x400000 ->
    ~ video_target (mmu_of k) <= q < video_target (mmu_of k) + 4000 -> phys K !! q = phys k !! q;
  lf_lines : forall t, 0 <= t < 3 -> t <> current_term (sched k) -> line_state t (term K) = line_state t (term k);
  lf_running : processes_running K = processes_running k;
  lf_interrupts : interrupt_flag (devs K) = interrupt_flag (devs k);
  lf_screens : coherent k -> coherent K /\
    forall t i, 0 <= t < 3 -> t <> current_term (sched k) -> 0 <= i < 4096 -> screen_byte K t i = screen_byte k t i
}.
(** What a call leaves that does not wait: the devices too, but for the cursor and the
    clock's rate. *)
Record left (p : Z) (W : Z -> Prop) (k K : kernel) : Prop := {
  lf_kept :> kept p W k K;
  lf_devices : driven (devs k) (devs K)
}.
Lemma lf_turn p W k K :
  kept p W k K -> current_term (sched K) = current_term (sched k) /\ visable_term (sched K) = visable_term (sched k).
Proof. intros H. exact (cursor_moved_turn _ _ _ (lf_sched _ _ _ _ H)). Qed.
Lemma lf_frames p W k K :
  kept p W k K -> forall q, 0x400000 <= q -> ~ user_frame p <= q < user_frame p + 0x400000 -> phys K !! q = phys k !! q.
Proof.
  intros H q Hq Hn. apply (lf_phys _ _ _ _ H); [done|]. pose proof (cw_map _ (pg_console _ _ (lf_in _ _ _ _ H))) as Hm.
  rewrite (lf_mmu _ _ _ _ H) in Hm. pose proof (video_target_range _ Hm). unfold T3_BUF_ADDR in *. lia.
Qed.
Lemma kept_refl p W k : in_program p k -> kept p W k k.
Proof. intros H. split; try done; [apply cursor_moved_refl|]. by destruct (get_pcb (pcb_addr p) k). Qed.
Lemma left_refl p W k : in_program p k -> left p W k k.
Proof. intros H. split; [by apply kept_refl|apply driven_refl]. Qed.
Lemma kept_trans p W k1 k2 k3 : kept p W k1 k2 -> kept p W k2 k3 -> kept p W k1 k3.
Proof.
  intros A B. destruct (lf_turn _ _ _ _ A) as [A5 _].
  destruct A as [_ A1 A2 At Ak A3 A4 As A7 A8 A9 A10 A11 A13 A12], B as [B0 B1 B2 Bt Bk B3 B4 Bs B7 B8 B9 B10 B11 B13 B12].
  split; [done|congruence|congruence|congruence|congruence|by apply same_image_trans with k2| | | | | | |congruence|congruence|].
  - intros a Ha Hw. by rewrite B4, A4.
  - rewrite A5 in Bs. by apply cursor_moved_trans with (sched k2).
  - intros a Ha. by rewrite B7, A7.
  - rewrite B8. generalize (fd_array (get_pcb (pcb_addr p) k3)). intros l. by rewrite A8.
  - intros q Hq Hn. rewrite B9 by (done || by rewrite A1). by apply A9.
  - intros t Ht Hne. rewrite B10 by (done || congruence). by apply A10.
  - intros [Hc Hs]%A12. destruct (B12 Hc) as [Hc' Hs']. split; [done|].
    intros t i Ht Hne Hi. rewrite Hs' by (done || congruence). by apply Hs.
Qed.
Lemma left_trans p W k1 k2 k3 : left p W k1 k2 -> left p W k2 k3 -> left p W k1 k3.
Proof. intros [A Ad] [B Bd]. split; [by apply kept_trans with k2|by apply driven_trans with (devs k2)]. Qed.
Lemma kept_weaken p (W W' : Z -> Prop) k K : (forall a, in_user a -> W a -> W' a) -> kept p W k K -> kept p W' k K.
Proof.
  intros HW [? ? ? ? ? ? Hm ? ? ? ? ? ? ? ?]. split; [done..| |done|done|done|done|done|done|done|done].
  intros a Ha Hn. apply Hm; [done|]. intros Hw. by apply Hn, HW.
Qed.
Lemma left_weaken p (W W' : Z -> Prop) k K : (forall a, in_user a -> W a -> W' a) -> left p W k K -> left p W' k K.
Proof. intros HW [A Ad]. split; [by apply (kept_weaken p W)|done]. Qed.

(** The devices are not what [kept] is about. *)
Lemma kept_devs p k d :
  in_program p k -> interrupt_flag d = interrupt_flag (devs k) -> kept p (λ _, False) k (k <| devs := d |>).
Proof.
  intros Hp Hf. destruct (kept_refl p (λ _, False) k Hp) as [_ _ _ _ _ _ _ Hs _ Hb _ _ _ _ Hsc].
  destruct Hp as [[H0 H1] H2 H3 H4 H5 H6 H7 H8].
  split; [|reflexivity|reflexivity|reflexivity|reflexivity| | |exact Hs|reflexivity|exact Hb|reflexivity|reflexivity|reflexivity|exact Hf|exact Hsc].
  - split; [split; [exact H0|exact H1]|exact H2|exact H3|exact H4|exact H5|exact H6|exact H7|exact H8].
  - by split.
  - reflexivity.
Qed.

(** The kernel's part of a call, and the way back. *)
Definition serviced (k K : kernel) : Prop :=
  K = k <| sched := sched K |> <| phys := phys K |> <| fs := fs K |> <| pcbs := pcbs K |> <| devs := devs K |> <| term := term K |>.
Definition back (k K : kernel) : kernel :=
  K <| regs := regs k |> <| devs ::= λ d, d <| interrupt_flag := interrupt_flag (devs k) |> |>.
Lemma serviced_refl k : serviced k k.
Proof. by destruct k. Qed.
Lemma phys_serviced k ph : serviced k (k <| phys := ph |>).
Proof. by destruct k. Qed.
Lemma read_counts_serviced k : serviced k (read_counts k).
Proof. by destruct k. Qed.
Lemma serviced_same k K :
  serviced k K -> mmu_of K = mmu_of k /\ regs K = regs k /\ tss K = tss k /\
  kbd K = kbd k /\ processes_running K = processes_running k.
Proof. unfold serviced. generalize (sched K) (phys K) (fs K) (pcbs K) (devs K) (term K). by intros ? ? ? ? ? ? ->. Qed.
Lemma DO_CALL_runs d0 locals k number a b c r K :
  systemcall d0 locals number a b c (enter_kernel false k) = Ret (Returned r) K ->
  serviced (enter_kernel false k) K -> DO_CALL d0 locals number a b c k = Ret r (back k K).
Proof.
  intros Hc (_ & Hr & _)%serviced_same. unfold DO_CALL, trap. rewrite Hc. unfold leave_kernel. rewrite Hr.
  change (esp (regs (enter_kernel false k))) with (kernel_esp k). by rewrite Z.eqb_refl.
Qed.

Lemma user_resolve p k a : in_program p k -> in_user a -> resolve k a = user_frame p + (a - user_base).
Proof. intros H Ha. apply (resolve_user k p); [apply H|apply H|exact Ha]. Qed.
Lemma user_frame_high p k : in_program p k -> 0x800000 <= user_frame p.
Proof. intros H. destruct (pg_page _ _ H) as [Hp _]. unfold user_frame. lia. Qed.

Lemma driven_back k K : driven (devs (enter_kernel false k)) (devs K) -> driven (devs k) (devs (back k K)).
Proof.
  intros H. apply (driven_flag _ _ (interrupt_flag (devs k)) (interrupt_flag (devs k))) in H.
  destruct k as [m ph s t kb f pr pc ts rg dv]. destruct dv. exact H.
Qed.
Lemma left_back p (W : Z -> Prop) k K :
  in_program p k -> serviced (enter_kernel false k) K ->
  sched_wf (sched K) -> cursor_moved (current_term (sched k)) (sched k) (sched K) ->
  fds_wf (fd_array (get_pcb (pcb_addr p) K)) -> flags_ok (fd_array (get_pcb (pcb_addr p) K)) -> fs_ok (fs K) ->
  get_pcb (pcb_addr p) K = get_pcb (pcb_addr p) k <| fd_array := fd_array (get_pcb (pcb_addr p) K) |> ->
  term_wf (term K) ->
  (forall t, 0 <= t < 3 -> t <> current_term (sched k) -> line_state t (term K) = line_state t (term k)) ->
  (forall a, a <> pcb_addr p -> get_pcb a K = get_pcb a k) -> boot K = boot k ->
  (forall q, ~ video_target (mmu_of k) <= q < video_target (mmu_of k) + 4000 ->
    (forall a, in_user a -> W a -> resolve k a <> q) -> phys K !! q = phys k !! q) ->
  (coherent k -> coherent K /\
    forall t i, 0 <= t < 3 -> t <> current_term (sched k) -> 0 <= i < 4096 -> screen_byte K t i = screen_byte k t i) ->
  driven (devs (enter_kernel false k)) (devs K) -> left p W k (back k K).
Proof.
  intros Hp Hsv Hsw Hcur Hfds Hfl Hfn Hblk Htw Hlines Hoth Hboot Hphys Hscr Hdev.
  split; [|by apply driven_back].
  destruct (serviced_same _ _ Hsv) as (Hm & _ & Ht & Hkb & Hrun). change (mmu_of (enter_kernel false k)) with (mmu_of k) in Hm.
  pose proof (cw_map _ (pg_console _ _ Hp)) as Hkm. pose proof (user_frame_high p k Hp) as Hhigh.
  assert (forall a, resolve (back k K) a = resolve k a) as Hres by (intros a; apply resolve_same; exact Hm).
  assert (forall a, 0x400000 <= resolve k a -> (forall b, in_user b -> W b -> resolve k b <> resolve k a) ->
    loadb (back k K) a = loadb k a) as Hload.
  { intros a Ha Hb. rewrite !loadb_phys, Hres. unfold phys_byte. change (phys (back k K)) with (phys K).
    pose proof (video_target_range _ Hkm). unfold T3_BUF_ADDR in *. by rewrite Hphys by (lia || done). }
  assert (same_image k (back k K)) as Him.
  { split; [exact Hboot|]. intros a Ha. destruct (pg_image _ _ Hp).
    assert (resolve k a = a) as Hra by (apply resolve_kernel; [done|lia]).
    apply Hload; rewrite Hra; [lia|]. intros b Hb _. rewrite (user_resolve p k b Hp Hb). unfold in_user in Hb. lia. }
  split; [|exact Hm|done|exact Ht|exact Hkb|done| |exact Hcur|exact Hoth|exact Hblk| |exact Hlines|exact Hrun|done|exact Hscr].
  - split; [split; [change (kernel_map (mmu_of K)); by rewrite Hm|exact Hsw]| | |exact Hfds|exact Hfl|exact Hfn|exact Htw|].
    + change (user_page p (mmu_of K)). rewrite Hm. apply Hp.
    + change (esp0 (tss K) = stack_top p). rewrite Ht. apply Hp.
    + rewrite (same_image_size _ _ Him). change (boot (back k K)) with (boot K). rewrite Hboot. apply Hp.
  - intros a Ha Hw. rewrite <- (Hload a); [done| |].
    + rewrite (user_resolve p k a Hp Ha). unfold in_user in Ha. lia.
    + intros b Hb HWb Heq. rewrite (user_resolve p k a Hp Ha), (user_resolve p k b Hp Hb) in Heq.
      apply Hw. by replace a with b by lia.
  - intros q Hn Hq. apply Hphys; [done|]. intros a Ha _ Heq. rewrite (user_resolve p k a Hp Ha) in Heq.
    apply Hn. unfold in_user in Ha. lia.
Qed.

(** ** The calls *)
Section Laws.
Context (d0 : dentry_t) (locals : kernel -> Z) (p : Z).

Definition within (buf n : Z) (a : Z) : Prop := buf <= a < buf + n.
Definition nothing (a : Z) : Prop := False.

Lemma returned_Ret (f : prog kernel Z) k r K : f k = Ret r K -> returned f k = Ret (Returned r) K.
Proof. intros Hf. unfold returned. by rewrite (bind_Ret _ _ _ _ _ Hf). Qed.

Lemma cursor_serviced k K :
  K = k <| sched := sched K |> <| phys := phys K |> -> serviced k (update_cursor K).
Proof. generalize (sched K) (phys K). intros s ph ->. by destruct k. Qed.
(** [write] on descriptor 1 prints. *)
Lemma write_prints k buf n :
  in_program p k -> user_base <= buf -> 0 <= n -> buf + n <= user_base + 0x400000 ->
  exists K, ece391_write d0 locals 1 buf n k = Ret 0 K /\ left p nothing k K /\ (pcbs K = pcbs k /\ term K = term k) /\
    (let t := current_term (sched k) in view_of t K = put_all (load_bytes k buf (Z.to_nat n)) (view_of t k)).
Proof.
  intros Hp Hb Hn Hbn. set (k0 := enter_kernel false k).
  assert (console_wf k0) as Hk0 by (destruct (pg_console _ _ Hp); by split).
  pose proof (user_frame_high p k Hp) as Hhigh.
  destruct (terminal_write_wrote k0 1 buf n Hk0 Hn) as (K & HK & Hw).
  { intros i Hi. change (resolve k0 (buf + i)) with (resolve k (buf + i)).
    rewrite (user_resolve p k) by (done || (unfold in_user; lia)).
    pose proof (video_target_range _ (cw_map _ (pg_console _ _ Hp))). change (mmu_of k0) with (mmu_of k).
    unfold user_base, VID_START_ADDR, T3_BUF_ADDR in *. lia. }
  destruct (wrote_same_term _ _ _ _ Hw) as [Hcur Hvis].
  pose proof Hw as [HwfK Hv Hm _ Hr Ho].
  exists (back k (update_cursor K)). split; [|split; [|split]].
  - apply DO_CALL_runs.
    + apply returned_Ret. change (s32 1) with 1. rewrite s32_id by (unfold user_base in *; lia).
      unfold write. replace ((1 <=? 0) || (FDEND <? 1)) with false by done.
      rewrite (proj2 (Z.eqb_neq buf 0)) by (unfold user_base in Hb; lia). cbv zeta.
      unfold get_fd. rewrite (entered_pcb p k false Hp).
      destruct (fw_stdout _ (pg_fds _ _ Hp)) as [Hu Ht]. unfold in_use in Hu. apply negb_true_iff in Hu.
      change (get_pcb (pcb_addr p) (enter_kernel false k)) with (get_pcb (pcb_addr p) k). rewrite Hu, Ht.
      unfold op_write. fold k0. by rewrite HK.
    + by apply cursor_serviced.
  - apply left_back; [done|by apply cursor_serviced|apply HwfK|exact (wr_sched _ _ _ _ Hw)| | | | | | | | | | |].
    + change (pcbs (update_cursor K)) with (pcbs K). unfold get_pcb. change (pcbs (update_cursor K)) with (pcbs K).
      rewrite Hr. apply Hp.
    + unfold get_pcb. change (pcbs (update_cursor K)) with (pcbs K). rewrite Hr. apply Hp.
    + change (fs (update_cursor K)) with (fs K). rewrite Hr. apply Hp.
    + unfold get_pcb. change (pcbs (update_cursor K)) with (pcbs K). rewrite Hr.
      change (pcbs (k0 <| sched := sched K |> <| phys := phys K |>)) with (pcbs k). by destruct (default _ _).
    + change (term (update_cursor K)) with (term K). rewrite Hr. apply Hp.
    + intros t _ _. change (term (update_cursor K)) with (term K). by rewrite Hr.
    + intros a _. unfold get_pcb. change (pcbs (update_cursor K)) with (pcbs K). by rewrite Hr.
    + change (boot (update_cursor K)) with (boot K). by rewrite Hr.
    + intros q Hq _. change (phys (update_cursor K)) with (phys K). by apply Ho.
    + exact (wrote_screens _ k0 K Hk0 Hw).
    + apply cursor_driven. unfold update_cursor. cbn [devs upd set_devs].
      assert (devs K = devs k0) as -> by (by rewrite Hr). apply set_cursor_writes.
  - change (pcbs K = pcbs k /\ term K = term k). by rewrite Hr.
  - exact Hv.
Qed.

(** [fdputs] prints a string. *)
Lemma strlen_user k s l :
  cstr (at_ptr s k) l -> zlen l < 4294967296 -> ece391_strlen s k = Ret (zlen l) k.
Proof.
  intros Hc Hl. unfold ece391_strlen. pose proof (strlen_cstr _ _ Hc Hl) as Hs.
  unfold strlen, at_ptr in Hs. by rewrite Hs.
Qed.
Lemma cstr_load (k : kernel) s l : cstr (at_ptr s k) l -> load_bytes k s (Z.to_nat (zlen l)) = l.
Proof.
  intros [Hc _]. unfold load_bytes. apply zget_ext; [rewrite zlen_tabulate; unfold zlen; lia|].
  rewrite zlen_tabulate. intros i Hi. rewrite zget_tabulate by lia. apply Hc. unfold zlen in *. lia.
Qed.
Lemma fdputs_prints k s l :
  in_program p k -> cstr (at_ptr s k) l -> user_base <= s -> s + zlen l <= user_base + 0x400000 ->
  exists K, ece391_fdputs d0 locals 1 s k = Ret tt K /\ left p nothing k K /\ (pcbs K = pcbs k /\ term K = term k) /\
    (let t := current_term (sched k) in view_of t K = put_all l (view_of t k)).
Proof.
  intros Hp Hc Hs Hl. pose proof (zlen_nonneg l).
  destruct (write_prints k s (zlen l) Hp Hs ltac:(done) Hl) as (K & HK & Hleft & Hpcb & Hv).
  rewrite (cstr_load k s l Hc) in Hv. exists K. split; [|done].
  unfold ece391_fdputs. rewrite (bind_Ret _ _ _ _ _ (strlen_user k s l Hc ltac:(unfold user_base in *; lia))).
  by rewrite (bind_Ret _ _ _ _ _ HK).
Qed.

(** A buffer of the program is a good place for a read. *)
Lemma program_buffer_ok k buf n :
  in_program p k -> user_base <= buf -> buf + n <= user_base + 0x400000 -> buffer_ok (enter_kernel false k) buf n.
Proof.
  intros Hp Hb Hn. pose proof (user_frame_high p k Hp) as Hhigh. split.
  - unfold user_base in Hb. lia.
  - apply (user_inj_range _ p); [apply Hp|apply Hp|done|done].
  - intros i j Hi Hj. destruct (pg_image _ _ Hp).
    change (boot (enter_kernel false k)) with (boot k) in *. change (image_size (enter_kernel false k)) with (image_size k) in *.
    change (resolve (enter_kernel false k) ?a) with (resolve k a).
    rewrite (user_resolve p k) by (done || (unfold in_user; lia)).
    rewrite resolve_kernel by (apply Hp || lia). unfold user_base in *. lia.
Qed.
Lemma view_kept t k K :
  kernel_map (mmu_of k) -> mmu_of K = mmu_of k -> sched K = sched k ->
  (forall q, q < 0x400000 -> phys K !! q = phys k !! q) -> view_of t K = view_of t k.
Proof.
  intros Hkm Hm Hs Hph. unfold view_of, get_terminal. rewrite Hs. f_equal. apply tabulate_ext. intros i Hi.
  pose proof (video_target_range _ Hkm). unfold T3_BUF_ADDR in *.
  assert (forall off, 0 <= off < 4096 -> loadb K (VIDEO + off) = loadb k (VIDEO + off)) as Hl.
  { intros off Hoff. rewrite !loadb_phys, (resolve_same k K) by done. unfold phys_byte.
    by rewrite Hph by (rewrite resolve_video by done; lia). }
  rewrite <- !Z.add_assoc, !Hl by (unfold CELLS in *; lia). done.
Qed.
Lemma screens_kept k K :
  kernel_map (mmu_of k) -> mmu_of K = mmu_of k -> sched K = sched k ->
  (forall q, q < 0x400000 -> phys K !! q = phys k !! q) -> coherent k -> coherent K /\
    forall t i, 0 <= t < 3 -> t <> current_term (sched k) -> 0 <= i < 4096 -> screen_byte K t i = screen_byte k t i.
Proof.
  intros Hkm Hm Hs Hph Hc. split; [unfold coherent, frame_of in *; by rewrite Hm, Hs|].
  intros t i Ht _ Hi. unfold screen_byte, frame_of, phys_byte. rewrite Hs, Hph; [done|].
  unfold VID_START_ADDR, T1_BUF_ADDR. case_match; lia.
Qed.

(** The static variables are not memory. *)
Lemma store_bytes_fs buf l f k : store_bytes buf l (k <| fs ::= f |>) = store_bytes buf l k <| fs ::= f |>.
Proof. revert buf k. induction l as [|c l IH]; intros buf k; [done|]. cbn [store_bytes]. by rewrite <- IH. Qed.
(** The descriptors of the program, and one that is open. *)
Definition fds (k : kernel) : list file_desc := fd_array (get_pcb (pcb_addr p) k).
Definition is_open (f : file_desc) (ty inode pos : Z) : Prop :=
  in_use f = true /\ zget (fd_flags f) 1 = ty /\ u32 (fd_inode f) = inode /\ file_pos f = pos.

Lemma set_fd_id a b i f k :
  f (get_fd a i k) = get_fd a i k -> 0 <= i < zlen (fd_array (get_pcb a k)) -> get_pcb b (set_fd a i f k) = get_pcb b k.
Proof.
  intros Hf Hi. destruct (decide (b = a)) as [->|Hne]; [|by apply get_set_pcb_ne].
  unfold set_fd. rewrite get_set_pcb. unfold get_fd in Hf. unfold upd, set_fd_array. rewrite Hf, zset_id by done.
  by destruct (get_pcb a k).
Qed.
(** A call that stores [l] at [buf], changes the static variables of the file system and
    one descriptor. *)
Record stored (fd : Z) (g : file_desc -> file_desc) (buf : Z) (l : list Z) (k K : kernel) : Prop := {
  sd_serviced : serviced (enter_kernel false k) K;
  sd_sched : sched K = sched k;
  sd_phys : phys K = phys (store_bytes buf l (enter_kernel false k));
  sd_boot : boot K = boot k;
  sd_term : term K = term k;
  sd_static : fs_ok (fs K);
  sd_devs : driven (devs (enter_kernel false k)) (devs K);
  sd_pcbs : forall a, get_pcb a K = get_pcb a (set_fd (pcb_addr p) fd g k)
}.
Definition fd_ok (f : file_desc) : Prop :=
  zlen (fd_flags f) = 4 /\ flag_ok f /\
  (in_use f = true -> 0 <= zget (fd_flags f) 1 <= 2 /\ operationstable f = Some (table_of (zget (fd_flags f) 1))).
Definition at_pos (pos : Z) (f : file_desc) : file_desc := f <| file_pos := pos |>.
Lemma at_pos_ok l fd pos : fds_wf l -> flags_ok l -> 2 <= fd <= 7 -> fd_ok (at_pos pos (zget l fd)).
Proof. intros Hf Hfl Hfd. split; [apply (fw_flags _ Hf); lia|]. split; [apply (Hfl fd); lia|]. intros Hu. by apply (fw_open _ Hf); [lia|]. Qed.
Lemma stored_fs fd g buf l k F :
  boot_block_addr (F (fs k)) = boot_block_addr (fs k) -> fs_ok (F (fs k)) ->
  stored fd g buf l k (set_fd (pcb_addr p) fd g (store_bytes buf l (enter_kernel false k) <| fs ::= F |>)).
Proof.
  intros Hf Hfn. set (k0 := enter_kernel false k).
  assert (forall a, get_pcb a (store_bytes buf l k0 <| fs ::= F |>) = get_pcb a k) as Hpcb
    by (intros a; unfold get_pcb; cbn; by autorewrite with word).
  split; [|cbn; by autorewrite with word|done|unfold boot; cbn; by autorewrite with word|cbn; by autorewrite with word|cbn; by autorewrite with word| |].
  - unfold serviced. rewrite (store_bytes_phys buf l k0). generalize (phys (store_bytes buf l k0)). by intros.
  - change (driven (devs k0) (devs (store_bytes buf l k0))). rewrite (store_bytes_phys buf l k0). apply driven_refl.
  - intros a. unfold set_fd. destruct (decide (a = pcb_addr p)) as [->|Hne].
    + by rewrite !get_set_pcb, Hpcb.
    + by rewrite !get_set_pcb_ne, Hpcb.
Qed.
Lemma stored_left fd g buf l k K n :
  in_program p k -> stored fd g buf l k K -> 2 <= fd <= 7 -> fd_ok (g (zget (fds k) fd)) -> zlen l <= n ->
  user_base <= buf -> buf + n <= user_base + 0x400000 ->
  left p (within buf n) k (back k K) /\
  fds (back k K) = zset fd (g (zget (fds k) fd)) (fds k) /\
  load_bytes (back k K) buf (length l) = u8 <$> l /\
  (forall t, view_of t (back k K) = view_of t k).
Proof.
  intros Hp [Hsv Hs Hph Hboot Hte Hfn Hdv Hpcb] Hfd (Hg4 & Hgf & Hgt) Hl Hb Hbn. set (k0 := enter_kernel false k) in *.
  pose proof (cw_map _ (pg_console _ _ Hp)) as Hkm. pose proof (user_frame_high p k Hp) as Hhigh.
  pose proof (zlen_nonneg l) as Hl0.
  assert (forall q, (forall a, in_user a -> within buf n a -> resolve k a <> q) -> phys K !! q = phys k !! q) as Hout.
  { intros q Hq. rewrite Hph. change (phys k) with (phys k0). apply phys_store_out. intros i Hi.
    change (resolve k0 (buf + i)) with (resolve k (buf + i)).
    apply Hq; [unfold in_user|unfold within]; lia. }
  assert (forall q, q < 0x800000 -> phys K !! q = phys k !! q) as Hlow.
  { intros q Hq. apply Hout. intros a Ha _. rewrite (user_resolve p k a Hp Ha). unfold in_user in Ha. lia. }
  destruct (serviced_same _ _ Hsv) as (Hm & _). change (mmu_of k0) with (mmu_of k) in Hm.
  assert (get_pcb (pcb_addr p) K = get_pcb (pcb_addr p) k <| fd_array ::= λ l, zset fd (g (zget l fd)) l |>) as Hown
    by (rewrite Hpcb; unfold set_fd; by rewrite get_set_pcb).
  assert (fds (back k K) = zset fd (g (zget (fds k) fd)) (fds k)) as Hfds
    by (unfold fds; change (get_pcb (pcb_addr p) (back k K)) with (get_pcb (pcb_addr p) K); by rewrite Hown).
  split; [|split; [exact Hfds|split]].
  - apply left_back; [done|exact Hsv|rewrite Hs; apply Hp|rewrite Hs; apply cursor_moved_refl| | |exact Hfn|by rewrite Hown|rewrite Hte; apply Hp|intros t _ _; by rewrite Hte| |done| | |exact Hdv].
    + change (fds_wf (fds (back k K))). rewrite Hfds. pose proof (pg_fds _ _ Hp) as Hf. fold (fds k) in Hf.
      by apply fds_wf_set; [|lia|..].
    + change (flags_ok (fds (back k K))). rewrite Hfds. intros i Hi. pose proof (fw_len _ (pg_fds _ _ Hp)) as Hlen. fold (fds k) in Hlen.
      destruct (decide (i = fd)) as [->|]; [by rewrite zget_zset_eq by lia|]. rewrite zget_zset_ne by lia. by apply (pg_flags _ _ Hp).
    + intros a Ha. rewrite Hpcb. unfold set_fd. by apply get_set_pcb_ne.
    + intros q _. apply Hout.
    + apply screens_kept; [done|done|done|]. intros q Hq. apply Hlow. lia.
  - assert (forall a, loadb (back k K) a = loadb (store_bytes buf l k0) a) as Hload.
    { intros a. apply loadb_same; [|exact Hph]. autorewrite with word. exact Hm. }
    transitivity (load_bytes (store_bytes buf l k0) buf (length l)); [apply tabulate_ext; intros; apply Hload|].
    apply load_bytes_store_bytes. apply (user_inj_range k0 p); [exact Hkm|apply Hp|done|lia].
  - intros t. apply view_kept; [done|exact Hm|exact Hs|]. intros q Hq. apply Hlow. lia.
Qed.

(** A line fits into the line buffer. *)
Lemma entered_short k l : in_program p k -> entered (current_term (sched k)) (term k) = Some l -> zlen l < 128.
Proof.
  intros Hp Hen. pose proof (sw_current _ (cw_sched _ (pg_console _ _ Hp))) as Hc.
  destruct (terminal_read_end_entered k 0 l (pg_term _ _ Hp) Hc Hen) as [Hl _].
  pose proof (tv_count _ (pg_term _ _ Hp) _ Hc) as Hcount. lia.
Qed.
(** [read] on descriptor 0 when a line was entered before.  It may be longer than the [n]
    bytes that are asked for: the buffer has [B]. *)
Lemma read_line k buf n B l :
  let t := current_term (sched k) in
  in_program p k -> entered t (term k) = Some l -> 0 <= n <= B -> zlen l + 1 <= B ->
  user_base <= buf -> buf + B <= user_base + 0x400000 ->
  exists K, ece391_read d0 locals 0 buf n k = Ret (zlen l + 1) K /\ left p (within buf B) k K /\ pcbs K = pcbs k /\
    (bytes l -> load_bytes K buf (Z.to_nat (zlen l + 1)) = l ++ [10]) /\ entered t (term K) = None /\ forall t, view_of t K = view_of t k.
Proof.
  intros t Hp Hen Hn HB Hb Hbn. set (k0 := enter_kernel false k). pose proof (zlen_nonneg l) as Hl0.
  assert (n < 2147483648) as Hn31 by (unfold user_base in *; lia).
  pose proof (cw_map _ (pg_console _ _ Hp)) as Hkm. pose proof (user_frame_high p k Hp) as Hhigh.
  assert (0 <= t < 3) as Ht by apply (pg_console _ _ Hp).
  set (kb := store_bytes buf (replicate (Z.to_nat (u32 n)) 0) k0).
  assert (terminal_read_begin buf n k0 = kb) as Hkb by (unfold terminal_read_begin; apply memset_bytes).
  assert (term kb = term k /\ sched kb = sched k /\ mmu_of kb = mmu_of k) as (Htk & Hsk & Hmk)
    by (unfold kb; by autorewrite with word).
  destruct (terminal_read_end_entered kb buf l) as [_ Hend]; rewrite ?Hsk, ?Htk; [apply Hp|done|done|].
  rewrite Hsk in Hend. fold t in Hend. set (Ks := store_bytes buf (l ++ [10]) kb) in *. set (K := read_done t Ks) in *.
  assert (mmu_of Ks = mmu_of k /\ sched Ks = sched k /\ term Ks = term k) as (HmK & HsK & HtK)
    by (unfold Ks; by autorewrite with word).
  assert (zlen (l ++ [10]) = zlen l + 1) as Hl1 by (by rewrite zlen_app).
  assert (forall q, (forall a, in_user a -> within buf B a -> resolve k a <> q) -> phys K !! q = phys k !! q) as Hout.
  { intros q Hq. change (phys K) with (phys Ks). unfold Ks. rewrite phys_store_out.
    - unfold kb. change (phys k) with (phys k0). apply phys_store_out. rewrite zlen_replicate, u32_id by lia. intros i Hi.
      apply Hq; [unfold in_user|unfold within]; lia.
    - intros i Hi. rewrite (resolve_same k kb) by done. apply Hq; [unfold in_user|unfold within]; lia. }
  assert (forall q, q < 0x800000 -> phys K !! q = phys k !! q) as Hlow.
  { intros q Hq. apply Hout. intros a Ha _. rewrite (user_resolve p k a Hp Ha). unfold in_user in Ha. lia. }
  assert (serviced k0 K) as Hsv.
  { assert (Ks = k0 <| phys := phys Ks |>) as HKs by (unfold Ks, kb; by rewrite store_bytes_phys, (store_bytes_phys _ (replicate _ _))).
    unfold K. rewrite HKs. generalize (phys Ks). intros ph. by destruct k0. }
  assert (pcbs K = pcbs k) as Hpc by (change (pcbs K) with (pcbs Ks); unfold Ks, kb; by autorewrite with word).
  assert (forall b, get_pcb b K = get_pcb b k) as Hpcb by (intros b; unfold get_pcb; by rewrite Hpc).
  assert (fs K = fs k) as Hfs by (change (fs K) with (fs Ks); unfold Ks, kb; by autorewrite with word).
  exists (back k K). split; [|split; [|split; [done|split; [|split]]]].
  - apply DO_CALL_runs; [|done]. apply returned_Ret. change (s32 0) with 0. rewrite s32_id by lia. unfold read, FDEND. cbv zeta.
    change ((0 <? 0) || (7 <? 0)) with false. rewrite (proj2 (Z.eqb_neq buf 0)) by (unfold user_base in Hb; lia).
    change (0 =? 1) with false. unfold get_fd. rewrite (entered_pcb p k false Hp).
    destruct (fw_stdin _ (pg_fds _ _ Hp)) as [Hu Hto]. unfold in_use in Hu. apply negb_true_iff in Hu.
    change (get_pcb (pcb_addr p) (enter_kernel false k)) with (get_pcb (pcb_addr p) k). rewrite Hu, Hto. unfold op_read. fold k0.
    rewrite (terminal_read_ready k0 0 buf n l) by done. by rewrite Hkb.
  - apply left_back; [done|exact Hsv|change (sched K) with (sched Ks); rewrite HsK; apply Hp|change (sched K) with (sched Ks); rewrite HsK; apply cursor_moved_refl
      |rewrite Hpcb; apply Hp|rewrite Hpcb; apply Hp|rewrite Hfs; apply Hp| | | |by intros
      |unfold boot; by rewrite Hfs|intros q _; apply Hout| |].
    + rewrite Hpcb. by destruct (get_pcb (pcb_addr p) k).
    + apply read_done_wf; [rewrite HtK; apply Hp|done].
    + intros t' Ht' Hne. unfold line_state, K, read_done. cbn. rewrite HtK. by rewrite !zget_zset_ne by lia.
    + apply screens_kept; [done|exact HmK|exact HsK|]. intros q Hq. apply Hlow. lia.
    + apply cursor_driven. change (devs K) with (devs (update_cursor Ks)). unfold update_cursor. cbn [devs upd set_devs].
      assert (devs Ks = devs k0) as -> by (unfold Ks, kb; by rewrite store_bytes_phys, (store_bytes_phys _ (replicate _ _))).
      apply set_cursor_writes.
  - intros Hby. replace (Z.to_nat (zlen l + 1)) with (length (l ++ [10])) by (rewrite <- Hl1; unfold zlen; lia).
    transitivity (load_bytes Ks buf (length (l ++ [10]))); [apply tabulate_ext; intros i Hi; by apply loadb_same|].
    unfold Ks. rewrite load_bytes_store_bytes.
    + apply fmap_u8_bytes, Forall_app. split; [done|by repeat constructor].
    + apply (user_inj_range kb p); [by rewrite Hmk|rewrite Hmk; apply Hp|done|lia].
  - change (entered t (term K) = None). unfold entered, K, read_done. cbn. rewrite HtK.
    rewrite zget_zset_eq by (rewrite (tv_flags _ (pg_term _ _ Hp)); lia). done.
  - intros t'. apply view_kept; [done|exact HmK|exact HsK|]. intros q Hq. apply Hlow. lia.
Qed.

(** [read] reaches the operation of the descriptor's kind. *)
Lemma read_open k fd ty inode pos buf n r K :
  in_program p k -> 2 <= fd <= 7 -> is_open (zget (fds k) fd) ty inode pos -> user_base <= buf ->
  0 <= n < 2147483648 ->
  op_read d0 (table_of ty) fd buf n (enter_kernel false k) = Ret r K -> serviced (enter_kernel false k) K ->
  ece391_read d0 locals fd buf n k = Ret r (back k K).
Proof.
  intros Hp Hfd (Hu & Ht & _) Hb Hn Hr Hsv. apply DO_CALL_runs; [|done].
  apply returned_Ret. rewrite !s32_id by lia. unfold read, FDEND.
  replace ((fd <? 0) || (7 <? fd)) with false by lia.
  rewrite (proj2 (Z.eqb_neq buf 0)) by (unfold user_base in Hb; lia). replace (fd =? 1) with false by lia. cbv zeta.
  unfold get_fd. rewrite (entered_pcb p k false Hp).
  change (fd_array (get_pcb (pcb_addr p) (enter_kernel false k))) with (fds k).
  destruct (fw_open _ (pg_fds _ _ Hp) fd ltac:(lia) Hu) as [_ Hop]. fold (fds k) in Hop. rewrite Ht in Hop.
  unfold in_use in Hu. apply negb_true_iff in Hu. rewrite Hu, Hop. exact Hr.
Qed.

(** A file is read piece by piece. *)
Lemma read_file k fd inode pos buf n :
  in_program p k -> 2 <= fd <= 7 -> is_open (zget (fds k) fd) 2 inode pos -> file_wf k inode ->
  0 <= pos <= file_size k inode -> user_base <= buf -> 0 < n -> buf + n <= user_base + 0x400000 ->
  let m := clipped n pos (file_size k inode) in
  exists K, ece391_read d0 locals fd buf n k = Ret m K /\ left p (within buf n) k K /\
    fds K = zset fd (at_pos (pos + m) (zget (fds k) fd)) (fds k) /\
    load_bytes K buf (Z.to_nat m) = file_bytes k inode pos m /\
    forall t, view_of t K = view_of t k.
Proof.
  intros Hp Hfd Hop Hf Hpos Hb Hn Hbn m. set (k0 := enter_kernel false k).
  pose proof (entered_pcb p k false Hp) as Ha. fold k0 in Ha. pose proof Hop as (Hu & Ht & Hi & Hps).
  pose proof (fw_size _ _ Hf) as HS. unfold MAX_FILE_SIZE, FS_BLOCK_SIZE in HS.
  assert (file_wf k0 inode) as Hf0 by (by destruct Hf).
  pose proof (pg_fds _ _ Hp) as Hfw. fold (fds k) in Hfw. pose proof (fw_len _ Hfw) as Hlen.
  assert (reading fd inode pos buf n k0) as Hrd.
  { split; rewrite ?Ha; [by apply (pcb_addr_nonzero p k)| |exact Ht|exact Hi|exact Hps|lia|exact Hf0|by apply program_buffer_ok].
    apply in_bounds_spec. change (0 <= fd < zlen (fds k)). lia. }
  pose proof (fs_read_advances k0 fd inode pos buf n n Hrd ltac:(lia) ltac:(unfold user_base in *; lia)) as Hread.
  cbv zeta in Hread. change (file_size k0 inode) with (file_size k inode) in Hread. fold m in Hread.
  set (l := file_bytes k inode pos m).
  assert (0 <= m <= n) as Hm by (unfold m, clipped; lia).
  assert (zlen l = m) as Hl by (unfold l, file_bytes; rewrite zlen_tabulate; lia).
  assert (bytes l) as Hby by (apply bytes_zget; intros j Hj; unfold l, file_bytes in *; rewrite zlen_tabulate in Hj;
    rewrite zget_tabulate by lia; apply loadb_range).
  assert (exists K, fs_read fd buf n k0 = Ret m K /\ stored fd (at_pos (pos + m)) buf l k K) as (K & HK & Hst).
  { rewrite Hread. destruct (Z.leb_spec (file_size k inode) pos).
    - assert (m = 0) as Hm0 by (unfold m, clipped; lia). exists k0. rewrite Hm0. split; [done|].
      replace l with (@nil Z) by (destruct l; [done|rewrite zlen_cons in Hl; pose proof (zlen_nonneg l); lia]).
      split; [apply serviced_refl|done|done|done|done|apply Hp|apply driven_refl|]. intros a. change (get_pcb a k0) with (get_pcb a k). symmetry. apply set_fd_id.
      + unfold get_fd. change (fd_array (get_pcb (pcb_addr p) k)) with (fds k). rewrite Z.add_0_r, <- Hps.
        unfold at_pos. by destruct (zget (fds k) fd).
      + change (0 <= fd < zlen (fds k)). lia.
    - eexists. split; [done|]. unfold after_read. rewrite Ha. change (file_bytes k0 inode pos m) with l.
      unfold read_counts. rewrite store_bytes_fs.
      match goal with |- stored _ _ _ _ _ (set_fd _ _ ?g ?K) =>
        rewrite (set_fd_ext (pcb_addr p) fd g (at_pos (pos + m)) K) end; [apply stored_fs; [done|apply Hp]|].
      unfold get_fd, get_pcb. cbn [pcbs upd set_fs]. autorewrite with word.
      fold (get_pcb (pcb_addr p) k0). change (fd_array (get_pcb (pcb_addr p) k0)) with (fds k).
      unfold at_pos, upd, set_file_pos. rewrite Hps, s32_id by (unfold m, clipped; lia). done. }
  destruct (stored_left fd _ buf l k K n Hp Hst Hfd (at_pos_ok _ _ _ Hfw (pg_flags _ _ Hp) Hfd) ltac:(lia) Hb Hbn) as (Hleft & Hfds & Hload & Hview).
  exists (back k K). split; [|split; [done|split; [done|split; [|done]]]].
  - apply (read_open k fd 2 inode pos); [done|done|done|done|unfold user_base in *; lia|exact HK|exact (sd_serviced _ _ _ _ _ _ Hst)].
  - rewrite <- Hl at 1. unfold zlen. rewrite Nat2Z.id, Hload. by apply fmap_u8_bytes.
Qed.

(** [getargs] copies the arguments. *)
Lemma stored_plain buf l k :
  in_program p k -> stored 2 id buf l k (store_bytes buf l (enter_kernel false k)).
Proof.
  intros Hp. set (k0 := enter_kernel false k).
  assert (forall a, get_pcb a (store_bytes buf l k0) = get_pcb a k) as Hpcb
    by (intros a; unfold get_pcb; by autorewrite with word).
  split; [|by autorewrite with word|done|unfold boot; by autorewrite with word|by autorewrite with word|autorewrite with word; apply Hp| |].
  - rewrite (store_bytes_phys buf l k0). apply phys_serviced.
  - rewrite (store_bytes_phys buf l k0). apply driven_refl.
  - intros a. rewrite Hpcb. symmetry. apply set_fd_id; [done|]. rewrite (fw_len _ (pg_fds _ _ Hp)). lia.
Qed.
Lemma fds_id k : in_program p k -> zset 2 (id (zget (fds k) 2)) (fds k) = fds k.
Proof. intros Hp. apply zset_id. rewrite (fw_len (fds k) (pg_fds _ _ Hp)). lia. Qed.
(** A call that changed neither the memory nor a descriptor. *)
Lemma quiet_left k K :
  in_program p k -> stored 2 id user_base [] k K ->
  left p nothing k (back k K) /\ fds (back k K) = fds k /\ forall t, view_of t (back k K) = view_of t k.
Proof.
  intros Hp Hst. destruct (stored_left 2 id user_base [] k _ 0 Hp Hst ltac:(lia)) as (Hleft & Hfds & _ & Hview);
    [apply (at_pos_ok (fds k) 2 (file_pos (zget (fds k) 2))); [apply Hp|apply Hp|lia]|done|done|lia|].
  rewrite (fds_id k Hp) in Hfds. split; [|done]. apply left_weaken with (within user_base 0); [unfold within; lia|done].
Qed.
(** It refreshed the counts of the file system, or drove the devices. *)
Lemma counts_stored k : in_program p k -> stored 2 id user_base [] k (read_counts (enter_kernel false k)).
Proof.
  intros Hp. pose proof (stored_plain user_base [] k Hp) as [H1 H2 H3 H4 H5 H6 H7 H8].
  split; [by apply read_counts_serviced|exact H2|exact H3|exact H4|exact H5|exact H6|exact H7|exact H8].
Qed.
Lemma counts_left k :
  in_program p k -> let K := back k (read_counts (enter_kernel false k)) in
  left p nothing k K /\ fds K = fds k /\ (forall t, view_of t K = view_of t k) /\ forall a, loadb K a = loadb k a.
Proof. intros Hp K. destruct (quiet_left k _ Hp (counts_stored k Hp)) as (Hl & Hf & Hv). done. Qed.
Lemma devs_serviced k K d : serviced k K -> serviced k (K <| devs := d |>).
Proof. unfold serviced. generalize (sched K) (phys K) (fs K) (pcbs K) (devs K) (term K). by intros ? ? ? ? ? ? ->. Qed.
Lemma devs_stored fd g k K d :
  driven (devs K) d -> stored fd g user_base [] k K -> stored fd g user_base [] k (K <| devs := d |>).
Proof.
  intros Hd [H1 H2 H3 H4 H5 H6 H7 H8].
  split; [by apply devs_serviced|exact H2|exact H3|exact H4|exact H5|exact H6|by apply driven_trans with (devs K)|exact H8].
Qed.
Lemma getargs_call k buf n l :
  in_program p k -> plain l -> zlen l < 128 ->
  arg_arr (get_pcb (pcb_addr p) k) = l ++ replicate (128 - length l) 0 ->
  arg_size (get_pcb (pcb_addr p) k) < n -> 0 < n < 2147483648 ->
  user_base <= buf -> buf + n <= user_base + 0x400000 ->
  exists K, ece391_getargs d0 locals buf n k = Ret 0 K /\ left p (within buf n) k K /\
    fds K = fds k /\ load_bytes K buf (Z.to_nat n) = padded (Z.to_nat n) l /\
    (forall t, view_of t K = view_of t k) /\ term K = term k.
Proof.
  intros Hp Hl Hl128 Harg Hsz Hn Hb Hbn. set (k0 := enter_kernel false k).
  pose proof (entered_pcb p k false Hp) as Ha. fold k0 in Ha.
  set (L := padded (Z.to_nat n) l). pose proof (stored_plain buf L k Hp) as Hst. fold k0 in Hst.
  assert (length L = Z.to_nat n) as HL by apply padded_length.
  destruct (stored_left 2 id buf L k _ n Hp Hst ltac:(lia)) as (Hleft & Hfds & Hload & Hview);
    [apply (at_pos_ok (fds k) 2 (file_pos (zget (fds k) 2))); [apply Hp|apply Hp|lia]|unfold zlen; lia|done|done|].
  rewrite (fds_id k Hp) in Hfds. exists (back k (store_bytes buf L k0)).
  split; [|split; [done|split; [done|split; [|split; [done|exact (sd_term _ _ _ _ _ _ Hst)]]]]].
  - apply DO_CALL_runs; [|exact (sd_serviced _ _ _ _ _ _ Hst)]. apply returned_Ret.
    rewrite s32_id by lia. unfold pure_call. fold k0.
    rewrite (getargs_stores k0 buf n l); rewrite ?Ha; [done|done|done|done|unfold user_base in Hb; lia|lia|done].
  - rewrite <- HL, Hload. by apply fmap_u8_bytes, padded_bytes.
Qed.

(** [open]: the name is looked up, the least free descriptor is taken. *)
Lemma stored_empty k fd g F :
  boot_block_addr (F (fs k)) = boot_block_addr (fs k) -> fs_ok (F (fs k)) ->
  stored fd g user_base [] k (set_fd (pcb_addr p) fd g (enter_kernel false k) <| fs ::= F |>).
Proof. exact (stored_fs fd g user_base [] k F). Qed.
Definition opened_fd (ty inode : Z) (f : file_desc) : file_desc :=
  f <| operationstable := Some (table_of ty) |> <| fd_inode := s32 inode |> <| file_pos := 0 |>
    <| fd_flags ::= λ l, zset 1 ty (zset 0 1 l) |>.
Lemma opened_fd_open ty inode f :
  zlen (fd_flags f) = 4 -> 0 <= ty <= 2 -> 0 <= inode < 4294967296 ->
  fd_ok (opened_fd ty inode f) /\ is_open (opened_fd ty inode f) ty inode 0.
Proof.
  intros Hf Hty Hi. unfold fd_ok, is_open, in_use, opened_fd. unfold flag_ok.
  cbn [fd_flags file_pos fd_inode operationstable upd set_fd_flags set_file_pos set_fd_inode set_operationstable].
  rewrite !zlen_zset, zget_zset_eq by (rewrite zlen_zset; lia). rewrite zget_zset_ne, zget_zset_eq by lia.
  rewrite u32_s32, u32_id by lia. split; [|done]. split; [done|]. split; [by right|done].
Qed.
(** The least free descriptor. *)
Definition free_fd (k : kernel) : Z := find_free_fd 6 FDSTART (fds k).
Lemma handle_open k ty inode :
  in_program p k -> 0 <= ty <= 2 -> 2 <= free_fd k <= 7 ->
  forall K, get_pcb (pcb_addr p) K = get_pcb (pcb_addr p) k ->
  fd_array_handle_open (pcb_addr p) ty (s32 inode) K = (free_fd k, set_fd (pcb_addr p) (free_fd k) (opened_fd ty inode) K).
Proof.
  intros Hp Hty Hfree K HK. unfold fd_array_handle_open. rewrite (proj2 (Z.eqb_neq _ 0)) by by apply (pcb_addr_nonzero p k).
  rewrite HK. fold (fds k). fold (free_fd k).
  replace (ENTRIESINFDARRAY <=? free_fd k) with false by (unfold ENTRIESINFDARRAY; lia).
  assert (ty = 0 \/ ty = 1 \/ ty = 2) as [->|[->| ->]] by lia; done.
Qed.

(** The directory names file [l] as entry [i]. *)
Record names_file (k : kernel) (l : list Z) (i : Z) : Prop := {
  nf_plain : plain l;
  nf_short : 0 < zlen l <= 32;
  nf_dir : dir_ok k /\ ~ is_directory k l;
  nf_entry : 1 <= i <= 62 /\ entry_name k i = l /\ forall j, 1 <= j < i -> entry_name k j <> l;
  nf_locals : zlen (State.fname d0) = 32
}.
Definition file_inode (k : kernel) (i : Z) : Z := u32 (s8 (entry_byte k i 36)).
Lemma file_inode_range k i : 0 <= file_inode k i < 4294967296.
Proof. apply u32_range. Qed.
Lemma user_string k K a l :
  in_program p k -> mmu_of K = mmu_of k -> phys K = phys k -> in_user a -> zlen l < 4294967296 ->
  cstr (at_ptr a k) l -> string_arg (In_memory a) K l.
Proof.
  intros Hp Hm Hph Ha Hl Hc. split; [|intros j; apply loadb_range| |done].
  - cbn. apply Z.eqb_neq. unfold in_user, user_base in Ha. lia.
  - destruct Hc as [Hc H0]. cbn. unfold at_ptr in *. split; [intros j Hj|]; rewrite (loadb_same k K) by done; [by apply Hc|done].
Qed.
(** [open] of a name that was found: as the directory entry [D] says. *)
Section Found.
Context (k : kernel) (name : Z) (l : list Z) (D : dentry_t) (Hp : in_program p k) (Hu : in_user name).
Context (Hc : cstr (at_ptr name k) l) (Hl : 0 < zlen l < 4294967296).
Let k0 := enter_kernel false k.
Context (Hr : read_dentry_by_name (In_memory name) d0 k0 = Ret (0, D) (read_counts k0)).

Lemma open_found ty inode r K :
  s32 (file_type D) = ty -> 0 <= ty <= 2 -> s32 (inode_num D) = s32 inode -> 2 <= free_fd k <= 7 ->
  op_open (table_of ty) (In_memory name) (set_fd (pcb_addr p) (free_fd k) (opened_fd ty inode) (read_counts k0)) = Ret r K ->
  serviced k0 K -> ece391_open d0 locals name k = Ret (free_fd k) (back k K).
Proof.
  intros Hty Ht Hino Hfree Hop Hsv. pose proof (entered_pcb p k false Hp) as Ha. fold k0 in Ha.
  pose proof (user_string k k0 name l Hp eq_refl eq_refl Hu ltac:(lia) Hc) as Hs0.
  refine (DO_CALL_runs d0 locals k _ _ _ _ (free_fd k) K _ Hsv). apply returned_Ret. fold k0.
  unfold open. rewrite (sa_null _ _ _ Hs0), (strlen_cstr _ _ (sa_cstr _ _ _ Hs0) (sa_len _ _ _ Hs0)).
  rewrite (proj2 (Z.eqb_neq (zlen l) 0)) by lia. rewrite (bind_Ret _ _ _ _ _ Hr).
  change (0 =? -1) with false. cbv iota. rewrite bind_get. change (get_pcb_address (read_counts k0)) with (get_pcb_address k0).
  rewrite Ha, Hty, Hino. set (k1 := set_fd _ _ _ _) in Hop.
  pose proof (handle_open k ty inode Hp Ht Hfree (read_counts k0) eq_refl) as Hho. fold k1 in Hho.
  match goal with |- (?q ≫= _) _ = _ => assert (q (read_counts k0) = Ret (free_fd k) k1) as Hq by (rewrite Hho; reflexivity) end.
  rewrite (bind_Ret _ _ _ _ _ Hq). replace (free_fd k =? -1) with false by lia. rewrite bind_get.
  assert (operationstable (get_fd (pcb_addr p) (free_fd k) k1) = Some (table_of ty)) as ->.
  { unfold get_fd, k1. rewrite fds_set_fd. change (fd_array (get_pcb (pcb_addr p) (read_counts k0))) with (fds k).
    pose proof (fw_len _ (pg_fds _ _ Hp)) as Hlen. fold (fds k) in Hlen. by rewrite zget_zset_eq by lia. }
  by rewrite (bind_Ret _ _ _ _ _ Hop).
Qed.
(** No descriptor is free, or the type is none that is known. *)
Lemma open_found_refused :
  free_fd k = 8 \/ ~ 0 <= s32 (file_type D) <= 2 -> ece391_open d0 locals name k = Ret (-1) (back k (read_counts k0)).
Proof.
  intros Hno. pose proof (entered_pcb p k false Hp) as Ha. fold k0 in Ha.
  pose proof (user_string k k0 name l Hp eq_refl eq_refl Hu ltac:(lia) Hc) as Hs0.
  refine (DO_CALL_runs d0 locals k _ _ _ _ (-1) _ _ (read_counts_serviced k0)). apply returned_Ret. fold k0.
  unfold open. rewrite (sa_null _ _ _ Hs0), (strlen_cstr _ _ (sa_cstr _ _ _ Hs0) (sa_len _ _ _ Hs0)).
  rewrite (proj2 (Z.eqb_neq (zlen l) 0)) by lia. rewrite (bind_Ret _ _ _ _ _ Hr).
  change (0 =? -1) with false. cbv iota. rewrite bind_get. change (get_pcb_address (read_counts k0)) with (get_pcb_address k0). rewrite Ha.
  match goal with |- (?q ≫= _) _ = _ => assert (q (read_counts k0) = Ret (-1) (read_counts k0)) as Hq end; [|by rewrite (bind_Ret _ _ _ _ _ Hq)].
  unfold fd_array_handle_open. rewrite (proj2 (Z.eqb_neq _ 0)) by by apply (pcb_addr_nonzero p k).
  destruct (_ && _) eqn:Ht; [done|]. destruct Hno as [Hfull|Hno]; [|lia].
  change (fd_array (get_pcb (pcb_addr p) (read_counts k0))) with (fds k). fold (free_fd k). by rewrite Hfull.
Qed.
End Found.

Lemma open_regular k name l i :
  in_program p k -> in_user name -> cstr (at_ptr name k) l -> names_file k l i ->
  entry_byte k i 32 = 2 -> 2 <= free_fd k <= 7 ->
  exists K, ece391_open d0 locals name k = Ret (free_fd k) K /\ left p nothing k K /\
    fds K = zset (free_fd k) (opened_fd 2 (file_inode k i) (zget (fds k) (free_fd k))) (fds k) /\
    (forall t, view_of t K = view_of t k) /\ forall a, loadb K a = loadb k a.
Proof.
  intros Hp Hu Hc [Hpl [Hl0 Hl32] [Hdir Hnd] (Hi & He & Hfirst) Hd0] Hty Hfree.
  set (k0 := enter_kernel false k). pose proof (entered_pcb p k false Hp) as Ha. fold k0 in Ha.
  assert (boot k0 <> 0) as Hb0 by (change (boot k <> 0); destruct (pg_image _ _ Hp); lia).
  pose proof (user_string k k0 name l Hp eq_refl eq_refl Hu ltac:(lia) Hc) as Hs0.
  pose proof (read_dentry_by_name_file k0 _ d0 l Hb0 Hs0 Hdir Hd0 Hl32 i Hnd Hi He Hfirst) as Hr0.
  change (entry_byte k0 i) with (entry_byte k i) in Hr0. rewrite Hty in Hr0. fold (file_inode k i) in Hr0.
  set (g := opened_fd 2 (file_inode k i)). set (fd := free_fd k) in *.
  set (k1 := set_fd (pcb_addr p) fd g (read_counts k0)).
  assert (boot k1 <> 0) as Hb1 by exact Hb0.
  pose proof (user_string k k1 name l Hp eq_refl eq_refl Hu ltac:(lia) Hc) as Hs1.
  pose proof (read_dentry_by_name_file k1 _ (dentry_a (fs k1)) l Hb1 Hs1 Hdir (proj1 (pg_static _ _ Hp)) Hl32 i Hnd Hi He Hfirst) as Hr1.
  match type of Hr1 with _ = Ret (0, ?d) _ => set (D := d) in Hr1 end.
  set (K := read_counts k1 <| fs ::= λ f, f <| dentry_a := D |> |>).
  assert (stored fd g user_base [] k K) as Hst.
  { refine (stored_empty k fd g (λ _, fs K) eq_refl _). cbn [fs K upd set_fs set_dentry_a dentry_a]. unfold D. cbn [State.fname].
    split; [|apply (pg_static _ _ Hp)]. cbn [State.fname dentry_a upd set_dentry_a]. rewrite zlen_app, zlen_replicate. unfold zlen in *. lia. }
  pose proof (pg_fds _ _ Hp) as Hfw. fold (fds k) in Hfw.
  destruct (opened_fd_open 2 (file_inode k i) (zget (fds k) fd)) as [Hok Hop];
    [exact (fw_flags _ Hfw fd ltac:(lia))|lia|apply file_inode_range|].
  destruct (stored_left fd g user_base [] k K 0 Hp Hst Hfree Hok ltac:(done) ltac:(done) ltac:(lia)) as (Hleft & Hfds & _ & Hview).
  exists (back k K). split; [|split; [|split; [done|split; [done|done]]]].
  - apply (open_found k name l _ Hp Hu Hc ltac:(lia) Hr0 2 (file_inode k i) 0 K); try done.
    unfold op_open, table_of, fs_open. cbn [Z.eqb Pos.eqb]. fold k0 fd g k1. rewrite Hr1. reflexivity.
  - apply left_weaken with (within user_base 0); [unfold within; lia|done].
Qed.

(** No file of that name. *)
Lemma open_missing k name l :
  in_program p k -> in_user name -> cstr (at_ptr name k) l -> 0 < zlen l < 4294967296 -> dir_ok k -> ~ is_directory k l ->
  (forall i, 1 <= i <= 62 -> entry_name k i <> l) -> zlen (State.fname d0) = 32 ->
  exists K, ece391_open d0 locals name k = Ret (-1) K /\ left p nothing k K /\ fds K = fds k /\
    (forall t, view_of t K = view_of t k) /\ forall a, loadb K a = loadb k a.
Proof.
  intros Hp Hu Hc [Hl0 Hl32] Hdir Hnd Hnone Hd0. set (k0 := enter_kernel false k).
  assert (boot k0 <> 0) as Hb0 by (change (boot k <> 0); destruct (pg_image _ _ Hp); lia).
  pose proof (user_string k k0 name l Hp eq_refl eq_refl Hu ltac:(lia) Hc) as Hs0.
  pose proof (read_dentry_by_name_none k0 _ d0 l Hb0 Hs0 Hdir Hnd Hnone) as Hr0.
  destruct (counts_left k Hp) as (Hleft & Hfds & Hview & Hload). fold k0 in Hleft, Hfds, Hview, Hload.
  exists (back k (read_counts k0)). split; [|done].
  refine (DO_CALL_runs d0 locals k _ _ _ _ (-1) _ _ (read_counts_serviced _)). apply returned_Ret. fold k0.
  unfold open. rewrite (sa_null _ _ _ Hs0), (strlen_cstr _ _ (sa_cstr _ _ _ Hs0) (sa_len _ _ _ Hs0)).
  rewrite (proj2 (Z.eqb_neq (zlen l) 0)) by lia. by rewrite (bind_Ret _ _ _ _ _ Hr0).
Qed.

(** The directory. *)
Lemma open_directory k name l :
  in_program p k -> in_user name -> cstr (at_ptr name k) l -> 0 < zlen l <= 32 -> dir_ok k -> is_directory k l ->
  zlen (State.fname d0) = 32 -> 2 <= free_fd k <= 7 ->
  exists K, ece391_open d0 locals name k = Ret (free_fd k) K /\ left p nothing k K /\
    fds K = zset (free_fd k) (opened_fd 1 0 (zget (fds k) (free_fd k))) (fds k) /\
    (forall t, view_of t K = view_of t k) /\ forall a, loadb K a = loadb k a.
Proof.
  intros Hp Hu Hc [Hl0 Hl32] Hdir Hd Hd0 Hfree.
  set (k0 := enter_kernel false k). pose proof (entered_pcb p k false Hp) as Ha. fold k0 in Ha.
  assert (boot k0 <> 0) as Hb0 by (change (boot k <> 0); destruct (pg_image _ _ Hp); lia).
  pose proof (user_string k k0 name l Hp eq_refl eq_refl Hu ltac:(lia) Hc) as Hs0.
  destruct (read_dentry_by_name_directory k0 _ d0 l Hb0 Hs0 Hl32 Hd) as (D & Hr0 & Hty & Hin).
  set (g := opened_fd 1 0). set (fd := free_fd k) in *.
  set (K := set_fd (pcb_addr p) fd g (read_counts k0)).
  assert (stored fd g user_base [] k K) as Hst by exact (stored_empty k fd g (λ _, fs K) eq_refl (pg_static _ _ Hp)).
  pose proof (pg_fds _ _ Hp) as Hfw. fold (fds k) in Hfw.
  destruct (opened_fd_open 1 0 (zget (fds k) fd)) as [Hok Hop];
    [exact (fw_flags _ Hfw fd ltac:(lia))|lia|lia|].
  destruct (stored_left fd g user_base [] k K 0 Hp Hst Hfree Hok ltac:(done) ltac:(done) ltac:(lia)) as (Hleft & Hfds & _ & Hview).
  exists (back k K). split; [|split; [|split; [done|split; [done|done]]]].
  - apply (open_found k name l D Hp Hu Hc ltac:(lia) Hr0 1 0 0 K); rewrite ?Hty, ?Hin; try done.
  - apply left_weaken with (within user_base 0); [unfold within; lia|done].
Qed.

(** The directory is read entry by entry. *)
Lemma read_directory k fd buf n i :
  in_program p k -> 2 <= fd <= 7 -> is_open (zget (fds k) fd) 1 0 i -> 0 <= i <= 63 -> zlen (State.fname d0) = 32 ->
  (i <= 62 -> i < load32 k (boot k) -> entry_name k i <> []) ->
  user_base <= buf -> 0 < n -> buf + n <= user_base + 0x400000 ->
  let name := entry_name k i in
  exists K,
    (if decide (i <= 62 /\ i < load32 k (boot k)) then
       let m := Z.min (zlen name) n in
       ece391_read d0 locals fd buf n k = Ret m K /\
       fds K = zset fd (at_pos (i + 1) (zget (fds k) fd)) (fds k) /\
       load_bytes K buf (Z.to_nat m) = take (Z.to_nat m) name
     else ece391_read d0 locals fd buf n k = Ret 0 K /\ fds K = fds k) /\
    left p (within buf n) k K /\ forall t, view_of t K = view_of t k.
Proof.
  intros Hp Hfd Hop Hi Hd0 Hname Hb Hn Hbn name. set (k0 := enter_kernel false k).
  pose proof (entered_pcb p k false Hp) as Ha. fold k0 in Ha. pose proof Hop as (Hu & Ht & Hin & Hps).
  pose proof (pg_fds _ _ Hp) as Hfw. fold (fds k) in Hfw. pose proof (fw_len _ Hfw) as Hlen.
  assert (boot k0 <> 0) as Hb0 by (change (boot k <> 0); destruct (pg_image _ _ Hp); lia).
  assert (get_fd (get_pcb_address k0) fd k0 = zget (fds k) fd) as Hgf by (by rewrite Ha).
  assert (in_bounds fd (fd_array (get_pcb (get_pcb_address k0) k0)) = true) as Hbd.
  { rewrite Ha. apply in_bounds_spec. change (0 <= fd < zlen (fds k)). lia. }
  pose proof (dir_read_entry k0 d0 fd buf n i Hb0 Hfd Hbd) as Hread. rewrite Hgf in Hread.
  specialize (Hread Hps ltac:(lia) ltac:(unfold user_base in *; lia) Hd0 Hname). cbv zeta in Hread.
  change (entry_name k0 i) with name in Hread. change (load32 k0 (boot k0)) with (load32 k (boot k)) in Hread.
  rewrite Ha in Hread. case_decide as Hc.
  - set (m := Z.min (zlen name) n) in *. set (l := take (Z.to_nat m) name).
    pose proof (zlen_nonneg name).
    assert (length l = Z.to_nat m) as Hl by (unfold l; rewrite length_take; unfold m, zlen; lia).
    assert (bytes l) as Hby by (apply Forall_take, name_at_bytes, entry_byte_range).
    set (K := set_fd _ _ _ _) in Hread.
    assert (stored fd (at_pos (i + 1)) buf l k K) as Hst.
    { unfold K, read_counts. fold l. rewrite store_bytes_fs. change (λ f : file_desc, f <| file_pos := i + 1 |>) with (at_pos (i + 1)). apply stored_fs; [done|apply Hp]. }
    destruct (stored_left fd _ buf l k K n Hp Hst Hfd (at_pos_ok _ _ _ Hfw (pg_flags _ _ Hp) Hfd)) as (Hleft & Hfds & Hload & Hview);
      [unfold zlen; lia|done|done|].
    exists (back k K). split; [split; [|split; [done|]]|done].
    + refine (read_open k fd 1 0 i buf n m K Hp Hfd Hop Hb _ Hread (sd_serviced _ _ _ _ _ _ Hst)). unfold user_base in *; lia.
    + fold l. rewrite <- Hl, Hload. by apply fmap_u8_bytes.
  - destruct (counts_left k Hp) as (Hleft & Hfds & Hview & _). exists (back k (read_counts k0)).
    split; [split; [|done]|split; [by apply (left_weaken p nothing)|done]].
    refine (read_open k fd 1 0 i buf n 0 _ Hp Hfd Hop Hb _ Hread (read_counts_serviced k0)). unfold user_base in *; lia.
Qed.

(** ** Calls that leave the kernel as it was *)
Lemma DO_CALL_refused k number a b c r :
  systemcall d0 locals number a b c (enter_kernel false k) = Ret (Returned r) (enter_kernel false k) ->
  DO_CALL d0 locals number a b c k = Ret r k.
Proof. intros Hc. unfold DO_CALL, trap. by rewrite Hc, leave_entered. Qed.
Definition open_number (k : kernel) (fd : Z) : Prop := 0 <= fd <= 7 /\ in_use (zget (fds k) fd) = true.
Lemma kernel_fd k fd : in_program p k -> get_fd (get_pcb_address (enter_kernel false k)) fd (enter_kernel false k) = zget (fds k) fd.
Proof. intros Hp. by rewrite (entered_pcb p k false Hp). Qed.
Lemma read_refused k fd buf n :
  in_program p k -> ~ open_number k (s32 fd) \/ s32 fd = 1 -> ece391_read d0 locals fd buf n k = Ret (-1) k.
Proof.
  intros Hp Hfd. apply DO_CALL_refused, returned_Ret. unfold read, FDEND. cbv zeta. rewrite (kernel_fd k _ Hp).
  destruct ((s32 fd <? 0) || (7 <? s32 fd)) eqn:Hr; [done|]. destruct (buf =? 0); [done|].
  destruct (Z.eqb_spec (s32 fd) 1); [done|].
  destruct (zget (fd_flags (zget (fds k) (s32 fd))) 0 =? 0) eqn:Hu; [done|].
  destruct Hfd as [Hfd|]; [|done]. destruct Hfd. split; [lia|]. unfold in_use. by rewrite Hu.
Qed.
Lemma write_refused k fd buf n :
  in_program p k -> ~ open_number k (s32 fd) \/ s32 fd = 0 -> ece391_write d0 locals fd buf n k = Ret (-1) k.
Proof.
  intros Hp Hfd. apply DO_CALL_refused, returned_Ret. unfold write, FDEND. cbv zeta. rewrite (kernel_fd k _ Hp).
  destruct ((s32 fd <=? 0) || (7 <? s32 fd)) eqn:Hr; [done|]. destruct (buf =? 0); [done|].
  destruct (zget (fd_flags (zget (fds k) (s32 fd))) 0 =? 0) eqn:Hu; [done|].
  destruct Hfd as [Hfd|]; [|lia]. destruct Hfd. split; [lia|]. unfold in_use. by rewrite Hu.
Qed.
Lemma close_refused k fd :
  in_program p k -> ~ open_number k (s32 fd) \/ s32 fd < 2 -> ece391_close d0 locals fd k = Ret (-1) k.
Proof.
  intros Hp Hfd. apply DO_CALL_refused, returned_Ret. unfold close, FDSTART, FDEND. cbv zeta. rewrite (kernel_fd k _ Hp).
  destruct (s32 fd <? 0) eqn:H0; [done|]. destruct ((s32 fd <? 2) || (7 <? s32 fd)) eqn:Hr; [done|].
  destruct (zget (fd_flags (zget (fds k) (s32 fd))) 0 =? 0) eqn:Hu; [done|].
  destruct Hfd as [Hfd|]; [|lia]. destruct Hfd. split; [lia|]. unfold in_use. by rewrite Hu.
Qed.
Lemma open_refused k name : cstr (at_ptr name k) [] -> ece391_open d0 locals name k = Ret (-1) k.
Proof.
  intros Hc. apply DO_CALL_refused, returned_Ret. unfold open. destruct (is_null (In_memory name)); [done|].
  change (chars (In_memory name) (enter_kernel false k)) with (at_ptr name k).
  by rewrite (strlen_cstr _ _ Hc ltac:(done)).
Qed.
Lemma vidmap_refused k ptr :
  0 <= ptr < 4294967296 -> ptr = 0 \/ ptr / 0x400000 <> 32 -> ece391_vidmap d0 locals ptr k = Ret (-1) k.
Proof.
  intros Hr Hptr. apply DO_CALL_refused, returned_Ret. unfold pure_call, vidmap.
  destruct (Z.eqb_spec ptr 0); [done|]. rewrite directory_index by done.
  by replace (ptr / 0x400000 =? 32) with false by lia.
Qed.
Lemma number_refused k number a b c : ~ 1 <= s32 number <= 10 -> DO_CALL d0 locals number a b c k = Ret (-1) k.
Proof.
  intros Hn. apply DO_CALL_refused. unfold systemcall, MIN_SYS_CALL, MAX_SYS_CALL.
  by replace ((s32 number <=? 0) || (10 <? s32 number)) with true by lia.
Qed.

(** A call that changed one descriptor and the static entries only. *)
Lemma stored_closed fd g k F :
  in_program p k -> stored fd g user_base [] k (set_fd (pcb_addr p) fd g (enter_kernel false k) <| fs ::= F |>) ->
  2 <= fd <= 7 -> fd_ok (g (zget (fds k) fd)) ->
  let K := back k (set_fd (pcb_addr p) fd g (enter_kernel false k) <| fs ::= F |>) in
  left p nothing k K /\ fds K = zset fd (g (zget (fds k) fd)) (fds k) /\ forall t, view_of t K = view_of t k.
Proof.
  intros Hp Hst Hfd Hg K.
  destruct (stored_left fd g user_base [] k _ 0 Hp Hst Hfd Hg ltac:(done) ltac:(done) ltac:(lia)) as (HL & Hf & _ & Hv).
  split; [|done]. apply (left_weaken p (within user_base 0)); [unfold within; lia|done].
Qed.
(** [close] of an open descriptor. *)
Lemma close_call k fd :
  in_program p k -> 2 <= fd <= 7 -> in_use (zget (fds k) fd) = true ->
  exists K, ece391_close d0 locals fd k = Ret 0 K /\ left p nothing k K /\
    fds K = zset fd (closed_fd (zget (fds k) fd)) (fds k) /\ forall t, view_of t K = view_of t k.
Proof.
  intros Hp Hfd Hu. set (k0 := enter_kernel false k). pose proof (entered_pcb p k false Hp) as Ha. fold k0 in Ha.
  pose proof (pg_fds _ _ Hp) as Hfw. fold (fds k) in Hfw.
  assert (proc_fds k0 = fds k) as Hpf by (unfold proc_fds; by rewrite Ha).
  destruct (close_open_fd k0 fd) as (K & HK & Hr & Hfs); rewrite ?Hpf, ?Ha; [by apply (pcb_addr_nonzero p k)|done..|].
  rewrite Ha in HK. set (F := λ _ : fs_vars, fs K).
  assert (set_fd (pcb_addr p) fd closed_fd K = set_fd (pcb_addr p) fd closed_fd k0 <| fs ::= F |>) as Heq by (by rewrite Hr).
  rewrite Heq in HK.
  assert (boot_block_addr (F (fs k)) = boot_block_addr (fs k) /\ fs_ok (F (fs k))) as [Hb Hok].
  { unfold F. destruct (pg_static _ _ Hp). destruct Hfs as (Hb & Hdb & Hda). split; [exact Hb|].
    unfold fs_ok. rewrite Hdb. by destruct Hda as [->| ->]. }
  pose proof (stored_empty k fd closed_fd F Hb Hok) as Hst.
  assert (fd_ok (closed_fd (zget (fds k) fd))) as Hc.
  { pose proof (fw_flags _ Hfw fd ltac:(lia)) as Hf4. split; [by rewrite closed_fd_flags|].
    pose proof (closed_fd_free _ Hf4) as Hfr. split; [left; unfold in_use in Hfr; lia|]. intros Hx. by rewrite Hfr in Hx. }
  destruct (stored_closed fd closed_fd k F Hp Hst Hfd Hc) as (HL & Hf & Hv).
  eexists. split; [|split; [exact HL|split; [exact Hf|exact Hv]]].
  refine (DO_CALL_runs d0 locals k _ _ _ _ 0 _ _ (sd_serviced _ _ _ _ _ _ Hst)). apply returned_Ret.
  rewrite s32_id by lia. exact HK.
Qed.
(** [open] of the directory when no descriptor is free. *)
Lemma open_full k name l :
  in_program p k -> in_user name -> cstr (at_ptr name k) l -> 0 < zlen l <= 32 -> dir_ok k -> is_directory k l ->
  zlen (State.fname d0) = 32 -> free_fd k = 8 ->
  exists K, ece391_open d0 locals name k = Ret (-1) K /\ left p nothing k K /\ fds K = fds k /\
    forall t, view_of t K = view_of t k.
Proof.
  intros Hp Hu Hc [Hl0 Hl32] Hdir Hd Hd0 Hfree.
  set (k0 := enter_kernel false k).
  assert (boot k0 <> 0) as Hb0 by (change (boot k <> 0); destruct (pg_image _ _ Hp); lia).
  pose proof (user_string k k0 name l Hp eq_refl eq_refl Hu ltac:(lia) Hc) as Hs0.
  destruct (read_dentry_by_name_directory k0 _ d0 l Hb0 Hs0 Hl32 Hd) as (D & Hr0 & Hty & Hin).
  destruct (counts_left k Hp) as (Hleft & Hfds & Hview & _).
  eexists. split; [apply (open_found_refused k name l D Hp Hu Hc ltac:(lia) Hr0); by left|done].
Qed.
(** ** Calls that wait *)
Definition in_page (buf n : Z) : Prop := user_base <= buf /\ buf + n <= user_base + 0x400000.
Definition is_clock (k : kernel) (fd : Z) : Prop :=
  2 <= fd <= 7 /\ in_use (zget (fds k) fd) = true /\ zget (fd_flags (zget (fds k) fd)) 1 = 0.
Lemma DO_CALL_waits k number a b c K :
  systemcall d0 locals number a b c (enter_kernel false k) = Wait K -> DO_CALL d0 locals number a b c k = Wait K.
Proof. intros Hc. unfold DO_CALL, trap. by rewrite Hc. Qed.
Lemma read_waits k fd buf n t K :
  in_program p k -> 0 <= fd <= 7 -> fd <> 1 -> in_page buf n -> 0 < n -> in_use (zget (fds k) fd) = true ->
  operationstable (zget (fds k) fd) = Some t -> op_read d0 t fd buf n (enter_kernel false k) = Wait K ->
  ece391_read d0 locals fd buf n k = Wait K.
Proof.
  intros Hp Hfd H1 [Hb Hbn] Hn Hu Ht Hr. unfold user_base in *. apply DO_CALL_waits.
  assert (read d0 fd buf n (enter_kernel false k) = Wait K) as Hread.
  { unfold read, FDEND. replace ((fd <? 0) || (7 <? fd)) with false by lia. rewrite (proj2 (Z.eqb_neq buf 0)) by lia.
    replace (fd =? 1) with false by lia. cbv zeta. rewrite (kernel_fd k _ Hp).
    unfold in_use in Hu. apply negb_true_iff in Hu. rewrite Hu, Ht. exact Hr. }
  change (returned (read d0 (s32 fd) buf (s32 n)) (enter_kernel false k) = Wait K). rewrite !s32_id by lia.
  unfold returned, mbind, prog_bind. by rewrite Hread.
Qed.
End Laws.
