(* ===== verification/Programs.v ===== *)
(** * User programs: cat, ls, grep, hello, counter, testprint and the shell

    The programs of src/syscalls, on the library of [User].  Their local arrays are at the
    addresses they take as arguments, their literals where [lit] says; the loops are
    [prog_while].  A program that reads the keyboard waits ([Wait]) unless a line was
    entered before. *)
From S2P Require Import Prelude Machine Lib Paging Devices State Console Printf Terminal Filesystem SysCall Process Keyboard Scheduler Idt User.

Section Programs.
Context (d0 : dentry_t) (locals : kernel -> Z) (lit : list Z -> Z).
Abbreviation fdputs := (ece391_fdputs d0 locals).
Abbreviation say s := (ece391_fdputs d0 locals 1 (lit s)).
Abbreviation read_ := (ece391_read d0 locals).
Abbreviation write_ := (ece391_write d0 locals).
Abbreviation open_ := (ece391_open d0 locals).
Abbreviation close_ := (ece391_close d0 locals).
Abbreviation getargs_ := (ece391_getargs d0 locals).
Abbreviation peek a := (get (λ k : kernel, loadb k a)).
Abbreviation poke a v := (modify (λ k : kernel, storeb a v k)).

(** ** ece391cat.c *)
Definition cat_round (fd buf : Z) : prog kernel (unit + Z) :=
  cnt ← read_ fd buf 1024;
  if cnt =? 0 then mret (inr 0)
  else if cnt =? -1 then _ ← say (text "file read failed" ++ [10]); mret (inr 3)
  else
    r ← write_ 1 buf cnt;
    if r =? -1 then mret (inr 3) else mret (inl tt).
Definition cat (buf : Z) : prog kernel Z :=
  r ← getargs_ buf 1024;
  if negb (r =? 0) then _ ← say (text "could not read arguments" ++ [10]); mret 3
  else
    fd ← open_ buf;
    if fd =? -1 then _ ← say (text "file not found" ++ [10]); mret 2
    else prog_while (λ _ : unit, cat_round fd buf) tt.

(** ** ece391ls.c *)
Definition ls_round (fd buf : Z) : prog kernel (unit + Z) :=
  cnt ← read_ fd buf 32;
  if cnt =? 0 then mret (inr 0)
  else if cnt =? -1 then _ ← say (text "directory entry read failed" ++ [10]); mret (inr 3)
  else
    _ ← poke (buf + cnt) 10;
    r ← write_ 1 buf (cnt + 1);
    if r =? -1 then mret (inr 3) else mret (inl tt).
Definition ls (buf : Z) : prog kernel Z :=
  fd ← open_ (lit (text "."));
  if fd =? -1 then _ ← say (text "directory open failed" ++ [10]); mret 2
  else prog_while (λ _ : unit, ls_round fd buf) tt.

(** ** ece391grep.c *)
Definition GREP_BUFSIZE : Z := 1024.

(** [while (line_end < last && '\n' != data[line_end]) line_end++] *)
Definition end_of_line (data last line_start : Z) (k : kernel) : option Z :=
  while (λ line_end,
    if (line_end <? last) && negb (loadb k (data + line_end) =? 10) then inl (line_end + 1) else inr line_end) line_start.
(** The search of one line, from [check] on. *)
Definition search_line (s s_len fname data line_start line_end : Z) : prog kernel unit :=
  prog_while (λ check,
    if negb (check <? line_end) then mret (inr tt)
    else
      c0 ← peek s;
      c ← peek (data + check);
      if negb (c0 =? c) then mret (inl (check + 1))
      else
        r ← ece391_strncmp (data + check) s s_len;
        if r =? 0 then
          _ ← fdputs 1 fname;
          _ ← say (text ":");
          _ ← fdputs 1 (data + line_start);
          _ ← say [10];
          mret (inr tt)
        else mret (inl (check + 1))) line_start.
(** The lines of the data read so far; what is left over is moved to the front.  It returns
    the new [last]. *)
Definition search_data (s s_len fname data cnt last : Z) : prog kernel Z :=
  prog_while (λ line_start,
    e ← get (end_of_line data last line_start);
    line_end ← from_loop e;
    c ← peek (data + line_end);
    if negb (c =? 10) && negb (cnt =? 0) && negb (line_start =? 0) then
      _ ← poke (data + line_end) 0;
      _ ← ece391_strcpy data (data + line_start);
      mret (inr (last - line_start))
    else
      _ ← poke (data + line_end) 0;
      _ ← search_line s s_len fname data line_start line_end;
      let line_start := line_end + 1 in
      if last <=? line_start then mret (inr 0) else mret (inl line_start)) 0.
Definition do_one_file (data s fname : Z) : prog kernel Z :=
  s_len ← ece391_strlen s;
  fd ← open_ fname;
  if fd =? -1 then _ ← say (text "file open failed" ++ [10]); mret (-1)
  else
    r ← prog_while (λ last,
          cnt ← read_ fd (data + last) (GREP_BUFSIZE - last);
          if cnt =? -1 then _ ← say (text "file read failed" ++ [10]); mret (inr (-1))
          else
            last ← search_data s (s32 s_len) fname data cnt (last + cnt);
            if cnt =? 0 then mret (inr 0) else mret (inl last)) 0;
    if r =? -1 then mret (-1)
    else
      r ← close_ fd;
      if r =? -1 then _ ← say (text "file close failed" ++ [10]); mret (-1)
      else mret 0.
Definition grep (buf search data : Z) : prog kernel Z :=
  r ← getargs_ search GREP_BUFSIZE;
  if negb (r =? 0) then _ ← say (text "could not read argument" ++ [10]); mret 3
  else
    fd ← open_ (lit (text "."));
    if fd =? -1 then _ ← say (text "directory open failed" ++ [10]); mret 2
    else
      prog_while (λ _ : unit,
        cnt ← read_ fd buf 32;
        if cnt =? 0 then mret (inr 0)
        else if cnt =? -1 then _ ← say (text "directory entry read failed" ++ [10]); mret (inr 3)
        else
          c ← peek buf;
          if c =? 46 then mret (inl tt)
          else
            _ ← poke (buf + cnt) 0;
            r ← do_one_file data search buf;
            if negb (r =? 0) then mret (inr 3) else mret (inl tt)) tt.

(** ** ece391hello.c *)
Definition hello_main (buf : Z) : prog kernel Z :=
  _ ← say (text "Hi, what's your name? ");
  cnt ← read_ 0 buf 1023;
  if cnt =? -1 then _ ← say (text "Can't read name from keyboard." ++ [10]); mret 3
  else
    _ ← poke (buf + cnt) 0;
    _ ← say (text "Hello, ");
    _ ← fdputs 1 buf;
    mret 0.

(** ** ece391counter.c *)
Definition count_to (buf max : Z) : prog kernel unit :=
  prog_while (λ i,
    if negb (i <? max) then mret (inr tt)
    else
      _ ← ece391_itoa (u32 (i + 1)) buf 10;
      _ ← fdputs 1 buf;
      _ ← say [10];
      mret (inl (u32 (i + 1)))) 0.
Definition counter (buf : Z) : prog kernel Z :=
  _ ← say (text "Enter the Test Number: (0): 100, (1): 10000, (2): 100000" ++ [10]);
  cnt ← read_ 0 buf 1023;
  if cnt =? -1 then _ ← say (text "Can't read the number from keyboard." ++ [10]); mret 3
  else
    _ ← poke (buf + cnt) 0;
    len ← ece391_strlen buf;
    c ← peek buf;
    if (2 <? len) || ((len =? 2) && ((c <? 48) || (50 <? c))) then _ ← say (text "Wrong Choice!" ++ [10]); mret 0
    else
      let max := if c =? 48 then 100 else if c =? 49 then 10000 else if c =? 50 then 100000 else 0 in
      _ ← count_to buf max;
      mret 0.

(** ** ece391testprint.c *)
Definition testprint : prog kernel Z :=
  _ ← say (text "Hello, if this ran, the program was correct. Yay!" ++ [10]);
  mret 0.

(** ** ece391shell.c: [execute_] is the call of [execute] until it returns. *)
Definition report_value (rval : Z) : prog kernel unit :=
  if rval =? -1 then say (text "no such command" ++ [10])
  else if rval =? 256 then say (text "program terminated by exception" ++ [10])
  else if negb (rval =? 0) then say (text "program terminated abnormally" ++ [10])
  else mret tt.
Definition shell_round (execute_ : Z -> prog kernel Z) (buf : Z) : prog kernel (unit + Z) :=
  _ ← say (text "391OS> ");
  cnt ← read_ 0 buf 1023;
  if cnt =? -1 then _ ← say (text "read from keyboard failed" ++ [10]); mret (inr 3)
  else
    c ← peek (buf + cnt - 1);
    let cnt := if (0 <? cnt) && (c =? 10) then cnt - 1 else cnt in
    _ ← poke (buf + cnt) 0;
    r ← ece391_strcmp buf (lit (text "exit"));
    if r =? 0 then mret (inr 0)
    else
      c ← peek buf;
      if c =? 0 then mret (inl tt)
      else
        rval ← execute_ buf;
        _ ← report_value rval;
        mret (inl tt).
Definition shell (execute_ : Z -> prog kernel Z) (buf : Z) : prog kernel Z :=
  _ ← say (text "Starting 391 Shell" ++ [10]);
  prog_while (λ _ : unit, shell_round execute_ buf) tt.
End Programs.

(** ** What they do *)
Section Runs.
Context (d0 : dentry_t) (locals : kernel -> Z) (lit : list Z -> Z) (p : Z).

(** A string of the program, at [a]. *)
Record string_at (k : kernel) (a : Z) (l : list Z) : Prop := {
  st_cstr : cstr (at_ptr a k) l;
  st_place : user_base <= a /\ a + zlen l < user_base + 0x400000
}.
Lemma string_left k K W a l :
  left p W k K -> string_at k a l -> (forall j, 0 <= j <= zlen l -> ~ W (a + j)) -> string_at K a l.
Proof.
  intros HL [[Hc H0] Ha] HW. pose proof (zlen_nonneg l).
  assert (forall j, 0 <= j <= zlen l -> loadb K (a + j) = loadb k (a + j)) as Hm
    by (intros j Hj; apply (lf_memory _ _ _ _ HL); [unfold in_user; lia|auto]).
  split; [split|done]; unfold at_ptr in *.
  - intros j Hj. rewrite Hm by lia. by apply Hc.
  - by rewrite Hm by lia.
Qed.
Lemma say_prints k s l :
  in_program p k -> string_at k (lit s) l ->
  exists K, ece391_fdputs d0 locals 1 (lit s) k = Ret tt K /\ left p nothing k K /\ (pcbs K = pcbs k /\ term K = term k) /\
    (let t := current_term (sched k) in view_of t K = put_all l (view_of t k)).
Proof. intros Hp [Hc Ha]. apply fdputs_prints; [done|done|lia..]. Qed.

(** The program stores into its own page. *)
Lemma store_bytes_left k a l :
  in_program p k -> user_base <= a -> a + zlen l <= user_base + 0x400000 ->
  left p (within a (zlen l)) k (store_bytes a l k) /\ fds p (store_bytes a l k) = fds p k /\
  load_bytes (store_bytes a l k) a (length l) = u8 <$> l /\ forall t, view_of t (store_bytes a l k) = view_of t k.
Proof.
  intros Hp Ha Hl. assert (store_bytes a l k = back k (store_bytes a l (enter_kernel false k))) as ->.
  { assert (store_bytes a l (enter_kernel false k) = enter_kernel false (store_bytes a l k)) as ->
      by (clear; revert a k; induction l as [|c l IH]; intros a k; [done|cbn [store_bytes]; by rewrite <- IH]).
    rewrite (store_bytes_phys a l k). generalize (phys (store_bytes a l k)). intros ph0.
    destruct k as [m ph sc t kb f pr pc ts rg dv]. by destruct dv. }
  pose proof (stored_plain p a l k Hp) as Hst.
  destruct (stored_left p 2 id a l k _ (zlen l) Hp Hst) as (HL & Hf & Hb & Hv); [lia| |done|done|done|].
  { apply (at_pos_ok (fds p k) 2 (file_pos (zget (fds p k) 2))); [apply Hp|apply Hp|lia]. }
  rewrite (fds_id p k Hp) in Hf. done.
Qed.
Lemma store_left k a v :
  in_program p k -> in_user a ->
  left p (within a 1) k (storeb a v k) /\ fds p (storeb a v k) = fds p k /\
  loadb (storeb a v k) a = u8 v /\ forall t, view_of t (storeb a v k) = view_of t k.
Proof.
  intros Hp Ha. unfold in_user in Ha.
  destruct (store_bytes_left k a [v] Hp) as (HL & Hf & Hb & Hv); [lia|change (zlen [v]) with 1; lia|].
  split; [done|]. split; [done|]. split; [|done].
  unfold load_bytes in Hb. cbn in Hb. rewrite Z.add_0_r in Hb. by injection Hb.
Qed.

(** [K] has the descriptors of [k], but that [fd] is open at [pos]. *)
Definition opens (fd ty inode pos : Z) (k K : kernel) : Prop :=
  exists f, fds p K = zset fd f (fds p k) /\ is_open f ty inode pos.
Lemma opens_refl fd ty inode pos k :
  in_program p k -> 2 <= fd <= 7 -> is_open (zget (fds p k) fd) ty inode pos -> opens fd ty inode pos k k.
Proof.
  intros Hp Hfd Ho. exists (zget (fds p k) fd). split; [|done]. symmetry. apply zset_id.
  pose proof (fw_len _ (pg_fds _ _ Hp)). unfold fds. lia.
Qed.
Lemma opens_trans fd ty1 inode1 pos1 ty inode pos k K1 K :
  opens fd ty1 inode1 pos1 k K1 -> opens fd ty inode pos K1 K -> opens fd ty inode pos k K.
Proof. intros (f & Hf & _) (g & Hg & Ho). exists g. by rewrite Hg, Hf, zset_zset. Qed.
Lemma opens_same fd ty inode pos k K1 K : fds p K = fds p K1 -> opens fd ty inode pos k K1 -> opens fd ty inode pos k K.
Proof. unfold opens. by intros ->. Qed.
Lemma opens_open fd ty inode pos k K :
  in_program p k -> 2 <= fd <= 7 -> opens fd ty inode pos k K -> is_open (zget (fds p K) fd) ty inode pos.
Proof.
  intros Hp Hfd (f & -> & Ho). by rewrite zget_zset_eq by (pose proof (fw_len _ (pg_fds _ _ Hp)); unfold fds; lia).
Qed.

(** ** cat *)
Lemma cat_round_copies k fd buf inode pos :
  in_program p k -> 2 <= fd <= 7 -> is_open (zget (fds p k) fd) 2 inode pos -> file_wf k inode ->
  0 <= pos <= file_size k inode -> user_base <= buf -> buf + 1024 <= user_base + 0x400000 ->
  let m := clipped 1024 pos (file_size k inode) in
  exists K, cat_round d0 locals lit fd buf k = Ret (if m =? 0 then inr 0 else inl tt) K /\
    left p (within buf 1024) k K /\ opens fd 2 inode (pos + m) k K /\
    (let t := current_term (sched k) in view_of t K = put_all (file_bytes k inode pos m) (view_of t k)).
Proof.
  intros Hp Hfd Ho Hf Hpos Hb Hbn m.
  destruct (read_file d0 locals p k fd inode pos buf 1024) as (K1 & Hr & HL & Hfds & Hload & Hview); try done; try lia.
  fold m in Hr, Hfds, Hload. unfold cat_round. rewrite (bind_Ret _ _ _ _ _ Hr).
  assert (0 <= m <= 1024) as Hm by (unfold m, clipped; lia).
  assert (opens fd 2 inode (pos + m) k K1) as Ho1
    by (exists (at_pos (pos + m) (zget (fds p k) fd)); split; [done|by destruct Ho as (?&?&?&?)]).
  destruct (Z.eqb_spec m 0) as [Hm0|Hm0].
  { exists K1. rewrite Hview. split; [done|]. split; [done|]. split; [done|]. by rewrite Hm0. }
  replace (m =? -1) with false by lia.
  destruct (write_prints d0 locals p K1 buf m) as (K & Hw & HL2 & [Hpcb _] & Hv); [apply HL|done|lia|lia|].
  exists K. rewrite (bind_Ret _ _ _ _ _ Hw). split; [done|]. split; [|split].
  - apply left_trans with K1; [done|]. by apply (left_weaken p nothing).
  - apply opens_same with K1; [|done]. unfold fds, get_pcb. by rewrite Hpcb.
  - destruct (lf_turn _ _ _ _ HL) as [Hcur _]. cbv zeta in Hv |- *. by rewrite Hcur, Hload, Hview in Hv.
Qed.
Lemma cat_rounds fd buf inode n : forall k pos,
  in_program p k -> 2 <= fd <= 7 -> is_open (zget (fds p k) fd) 2 inode pos -> file_wf k inode ->
  0 <= pos <= file_size k inode -> file_size k inode - pos <= Z.of_nat n ->
  user_base <= buf -> buf + 1024 <= user_base + 0x400000 ->
  exists K rounds, prog_rounds (λ _ : unit, cat_round d0 locals lit fd buf) rounds tt k (Ret 0 K) /\
    (rounds <= S n)%nat /\ (left p (within buf 1024) k K /\ opens fd 2 inode (file_size k inode) k K) /\
    (let t := current_term (sched k) in
     view_of t K = put_all (file_bytes k inode pos (file_size k inode - pos)) (view_of t k)).
Proof.
  induction n as [|n IH]; intros k pos Hp Hfd Ho Hf Hpos Hn Hb Hbn;
    destruct (cat_round_copies k fd buf inode pos Hp Hfd Ho Hf Hpos Hb Hbn) as (K & Hr & HL & Ho1 & Hv);
    set (m := clipped 1024 pos (file_size k inode)) in *;
    assert (m = Z.min 1024 (file_size k inode - pos)) as Hm by done.
  - assert (m = 0) as Hm0 by lia. rewrite Hm0 in Hr, Hv. exists K, 1%nat. replace (pos + m) with (file_size k inode) in Ho1 by lia.
    split; [by apply prog_leave|]. split; [lia|]. split; [done|]. by replace (file_size k inode - pos) with 0 by lia.
  - destruct (Z.eqb_spec m 0) as [Hm0|Hm0].
    { rewrite Hm0 in Hv. exists K, 1%nat. replace (pos + m) with (file_size k inode) in Ho1 by lia.
      split; [by apply prog_leave|]. split; [lia|]. split; [done|].
      by replace (file_size k inode - pos) with 0 by lia. }
    destruct (same_image_file _ _ inode (lf_image _ _ _ _ HL) Hf) as (Hf1 & Hsz & _).
    destruct (IH K (pos + m)) as (K' & r & Hrs & Hr' & [HL' Ho'] & Hv'); rewrite ?Hsz; try done; try lia; [apply HL|by apply opens_open with k|].
    rewrite Hsz in Hv', Ho'.
    exists K', (S r). split; [by eapply prog_again|]. split; [lia|]. split; [split; [by apply left_trans with K|by eapply opens_trans]|].
    destruct (lf_turn _ _ _ _ HL) as [Hcur _]. rewrite Hcur in Hv'. cbv zeta in Hv, Hv' |- *.
    rewrite Hv', Hv, (same_image_bytes k K) by (apply HL || done || lia).
    rewrite <- put_all_app, <- file_bytes_app by lia. do 2 f_equal. lia.
Qed.

(** The directory while a program runs: its entries end within their 64 bytes. *)
Definition dir_closed (k : kernel) : Prop :=
  forall i, 1 <= i <= 62 -> exists L, L < 64 /\ strlen (entry_byte k i) = Some L.
Lemma dir_closed_ok k : dir_closed k -> dir_ok k.
Proof. intros Hd i Hi. destruct (Hd i Hi) as (L & _ & HL). by exists L. Qed.
Lemma same_image_entry k K i j : same_image k K -> 0 <= i <= 62 -> 0 <= j < 64 -> entry_byte K i j = entry_byte k i j.
Proof.
  intros [Hb Hm] Hi Hj. unfold entry_byte, entry_addr. rewrite Hb. apply Hm.
  pose proof (counts_range k). unfold image_size. lia.
Qed.
Lemma name_at_ext n s s' : forall j, (forall h, j <= h < j + Z.of_nat n -> s h = s' h) -> name_at n s j = name_at n s' j.
Proof.
  induction n as [|n IH]; intros j Hs; [done|]. cbn [name_at]. rewrite Hs by lia. case_match; [done|].
  f_equal. apply IH. intros h Hh. apply Hs. lia.
Qed.
Lemma same_image_name k K i : same_image k K -> 0 <= i <= 62 -> entry_name K i = entry_name k i.
Proof. intros HI Hi. apply name_at_ext. intros h Hh. apply same_image_entry; [done|lia..]. Qed.
Lemma same_image_closed k K : same_image k K -> dir_closed k -> dir_closed K.
Proof.
  intros HI Hd i Hi. destruct (Hd i Hi) as (L & HL & Hs). exists L. split; [done|].
  destruct (strlen_Some _ _ Hs) as (HL0 & _). apply strlen_Some_cstr in Hs. destruct Hs as [Hc H0].
  set (l := tabulate (Z.to_nat L) (entry_byte k i)) in *.
  assert (zlen l = L) as Hl by (unfold l; rewrite zlen_tabulate; lia). rewrite <- Hl. apply strlen_cstr; [|lia].
  split; [intros j Hj; rewrite (same_image_entry k K) by (done || lia); by apply Hc|].
  by rewrite (same_image_entry k K) by (done || lia).
Qed.
Lemma same_image_directory k K l : same_image k K -> zlen l <= 32 -> is_directory K l <-> is_directory k l.
Proof.
  intros HI Hl. unfold is_directory. split; intros H j Hj; rewrite <- H by done; [symmetry|];
    apply same_image_entry; (done || lia).
Qed.
Lemma names_file_left k K l i :
  same_image k K -> dir_closed k -> names_file d0 k l i -> names_file d0 K l i.
Proof.
  intros HI Hd [Hpl Hs [_ Hnd] (Hi & He & Hne) H0]. split; [done|done| |split; [done|]|done].
  - split; [by apply dir_closed_ok, (same_image_closed k)|]. by rewrite (same_image_directory k K) by (done || lia).
  - split; [by rewrite (same_image_name k K) by (done || lia)|].
    intros j Hj. rewrite (same_image_name k K) by (done || lia). by apply Hne.
Qed.

(** The arguments of the command line: [l], and there is room for them in 1024 bytes. *)
Record arguments (k : kernel) (l : list Z) : Prop := {
  ar_plain : plain l;
  ar_length : 0 < zlen l <= 32;
  ar_bytes : arg_arr (get_pcb (pcb_addr p) k) = l ++ replicate (128 - length l) 0;
  ar_size : arg_size (get_pcb (pcb_addr p) k) < 1024
}.
Lemma padded_string k a n l :
  plain l -> zlen l < Z.of_nat n -> user_base <= a -> a + Z.of_nat n <= user_base + 0x400000 ->
  load_bytes k a n = padded n l -> string_at k a l.
Proof.
  intros Hpl Hl Ha Han Hload.
  assert (forall j, 0 <= j < Z.of_nat n -> loadb k (a + j) = zget (padded n l) j) as Hz.
  { intros j Hj. rewrite <- Hload. unfold load_bytes. by rewrite zget_tabulate by lia. }
  pose proof (zlen_nonneg l). unfold padded in Hz. rewrite take_ge in Hz by (unfold zlen in Hl; lia).
  split; [|lia]. unfold at_ptr. split.
  - intros j Hj. rewrite Hz, zget_app_l by lia. pose proof (plain_zget l j Hpl Hj). split; [done|lia].
  - rewrite Hz, zget_app_r by lia. rewrite Z.sub_diag. unfold zlen in Hl.
    by destruct (n - length l)%nat eqn:E; [lia|].
Qed.
Lemma program_args k buf l :
  in_program p k -> arguments k l -> user_base <= buf -> buf + 1024 <= user_base + 0x400000 ->
  exists K, ece391_getargs d0 locals buf 1024 k = Ret 0 K /\ left p (within buf 1024) k K /\
    fds p K = fds p k /\ string_at K buf l /\ forall t, view_of t K = view_of t k.
Proof.
  intros Hp [Hpl Hl Hb Hs] Hbuf Hn.
  destruct (getargs_call d0 locals p k buf 1024 l) as (K & HK & HL & Hf & Hload & Hv & _); try done; try lia.
  exists K. split; [done|]. split; [done|]. split; [done|]. split; [|done].
  by apply (padded_string K buf 1024); [|lia|..].
Qed.

Lemma cat_prints k buf name i :
  in_program p k -> arguments k name -> user_base <= buf -> buf + 1024 <= user_base + 0x400000 ->
  dir_closed k -> names_file d0 k name i -> entry_byte k i 32 = 2 -> file_wf k (file_inode k i) ->
  2 <= free_fd p k <= 7 ->
  exists K, cat d0 locals lit buf k = Ret 0 K /\ left p (within buf 1024) k K /\
    opens (free_fd p k) 2 (file_inode k i) (file_size k (file_inode k i)) k K /\
    (let t := current_term (sched k) in
     let file := file_inode k i in
     view_of t K = put_all (file_bytes k file 0 (file_size k file)) (view_of t k)).
Proof.
  intros Hp Har Hb Hbn Hd Hn Hty Hf Hfree.
  destruct (program_args k buf name Hp Har Hb Hbn) as (K1 & Hga & HL1 & Hf1 & [Hs1 _] & Hv1).
  pose proof (lf_image _ _ _ _ HL1) as HI1. pose proof (nf_entry _ _ _ _ Hn) as (Hi & _).
  assert (file_inode K1 i = file_inode k i) as Hino by (unfold file_inode; by rewrite (same_image_entry k K1) by (done || lia)).
  destruct (open_regular d0 locals p K1 buf name i) as (K2 & Hop & HL2 & Hf2 & Hv2 & _).
  { apply HL1. } { unfold in_user. lia. } { done. } { by apply (names_file_left k). }
  { by rewrite (same_image_entry k K1) by (done || lia). } { unfold free_fd. by rewrite Hf1. }
  rewrite Hino in Hf2. unfold free_fd in Hop, Hf2. rewrite Hf1 in Hop, Hf2. fold (free_fd p k) in Hop, Hf2.
  set (file := file_inode k i) in *. set (fd := free_fd p k) in *.
  assert (left p (within buf 1024) k K2) as HL12 by (apply left_trans with K1; [done|by apply (left_weaken p nothing)]).
  destruct (same_image_file _ _ file (lf_image _ _ _ _ HL12) Hf) as (Hf' & Hsz & _).
  pose proof (pg_fds _ _ Hp) as Hfw. fold (fds p k) in Hfw. pose proof (fw_len _ Hfw) as Hlen.
  destruct (cat_rounds fd buf file (Z.to_nat (file_size k file)) K2 0) as (K & r & Hr & Hrn & [HL Ho] & Hv).
  { apply HL12. } { done. }
  { rewrite Hf2, zget_zset_eq by lia. apply opened_fd_open; [apply (fw_flags _ Hfw); lia|lia|apply file_inode_range]. }
  { done. } { rewrite Hsz. split; [lia|apply load32_range]. } { rewrite Hsz. lia. } { done. } { done. }
  assert (opens fd 2 file (file_size k file) k K) as Hown.
  { rewrite Hsz in Ho. destruct Ho as (f & Hfd & Hof). exists f. by rewrite Hfd, Hf2, zset_zset. }
  exists K. split; [|split; [by apply left_trans with K2|]; split; [done|]].
  - unfold cat. rewrite (bind_Ret _ _ _ _ _ Hga). cbn [Z.eqb negb]. rewrite (bind_Ret _ _ _ _ _ Hop).
    replace (fd =? -1) with false by lia. apply (prog_while_rounds _ r); [done|].
    pose proof (fw_size _ _ Hf) as HS. unfold MAX_FILE_SIZE, FS_BLOCK_SIZE in HS. lia.
  - destruct (lf_turn _ _ _ _ HL12) as [Hcur _]. cbv zeta in Hv |- *.
    rewrite Hcur, Hsz, Z.sub_0_r, (same_image_bytes k K2) in Hv by (apply HL12 || done || lia).
    by rewrite Hv, Hv2, Hv1.
Qed.
(** C21. [cat] prints the file that its argument names, byte for byte and nothing else, for
    every length of the file, and returns 0.  What it changes is its buffer, the least free
    one of its descriptors - which it leaves open, at the end of the file -, and the screen of
    its terminal. *)
Theorem cat_prints_file k buf name i :
  in_program p k -> arguments k name -> user_base <= buf -> buf + 1024 <= user_base + 0x400000 ->
  dir_closed k -> names_file d0 k name i -> entry_byte k i 32 = 2 -> file_wf k (file_inode k i) ->
  2 <= free_fd p k <= 7 ->
  exists K, cat d0 locals lit buf k = Ret 0 K /\ left p (within buf 1024) k K /\
    opens (free_fd p k) 2 (file_inode k i) (file_size k (file_inode k i)) k K /\
    (let t := current_term (sched k) in
     let file := file_inode k i in
     view_of t K = put_all (file_bytes k file 0 (file_size k file)) (view_of t k)).
Proof. apply cat_prints. Qed.

(** ** ls *)
(** The lines of the entries from [i] on, [n] of them. *)
Definition listing (k : kernel) (i : Z) (n : nat) : list Z :=
  concat (tabulate n (λ j, entry_name k (i + j) ++ [10])).
Definition entries (k : kernel) : Z := Z.min 63 (load32 k (boot k)).
Lemma listing_cons k i n : listing k i (S n) = (entry_name k i ++ [10]) ++ listing k (i + 1) n.
Proof.
  unfold listing. change (S n) with (1 + n)%nat. rewrite tabulate_app. cbn [concat tabulate seq fmap list_fmap app].
  rewrite Z.add_0_r. apply (f_equal (app _)), (f_equal (@concat Z)), tabulate_ext. intros j _. by rewrite Z.add_assoc.
Qed.
Lemma same_image_entries k K : same_image k K -> entries K = entries k.
Proof.
  intros HI. pose proof (counts_range k). unfold entries. rewrite (si_boot _ _ HI). f_equal.
  apply (same_image_word k K); [exact HI|lia|unfold image_size; lia].
Qed.
Lemma same_image_listing k K i n :
  same_image k K -> 0 <= i -> i + Z.of_nat n <= entries k -> listing K i n = listing k i n.
Proof.
  intros HI Hi Hn. apply (f_equal (@concat Z)), tabulate_ext. intros j Hj. unfold entries in Hn.
  by rewrite (same_image_name k K) by (done || lia).
Qed.
Lemma load_bytes_snoc (k : kernel) a n : load_bytes k a (S n) = load_bytes k a n ++ [loadb k (a + Z.of_nat n)].
Proof.
  unfold load_bytes. replace (S n) with (n + 1)%nat by lia. rewrite tabulate_app. cbn [tabulate seq fmap list_fmap].
  by rewrite Z.add_0_r.
Qed.
Lemma ls_round_prints k fd buf i :
  in_program p k -> 2 <= fd <= 7 -> is_open (zget (fds p k) fd) 1 0 i -> 0 <= i <= entries k ->
  zlen (State.fname d0) = 32 -> (i < entries k -> entry_name k i <> []) ->
  user_base <= buf -> buf + 33 <= user_base + 0x400000 ->
  exists K, left p (within buf 33) k K /\
    if i <? entries k then
      ls_round d0 locals lit fd buf k = Ret (inl tt) K /\ opens fd 1 0 (i + 1) k K /\
      (let t := current_term (sched k) in view_of t K = put_all (entry_name k i ++ [10]) (view_of t k))
    else
      ls_round d0 locals lit fd buf k = Ret (inr 0) K /\ fds p K = fds p k /\ forall t, view_of t K = view_of t k.
Proof.
  intros Hp Hfd Ho Hi Hd0 Hne Hb Hbn. unfold entries in *.
  destruct (read_directory d0 locals p k fd buf 32 i) as (K1 & Hr & HL & Hv1); try done; try lia.
  { intros ? ?. apply Hne. lia. }
  assert (left p (within buf 33) k K1) as HL1 by (apply (left_weaken p (within buf 32)); [unfold within; lia|done]).
  case_decide as Hc.
  - replace (i <? Z.min 63 (load32 k (boot k))) with true by lia.
    set (l := entry_name k i) in *. assert (zlen l <= 32) as Hl by apply (name_at_zlen 32).
    pose proof (zlen_nonneg l). assert (0 < zlen l) as Hl0.
    { assert (l <> []) as Hnil by (apply Hne; lia). destruct l as [|c l']; [done|]. rewrite zlen_cons. pose proof (zlen_nonneg l'). lia. }
    rewrite Z.min_l in Hr by lia. destruct Hr as (Hr & Hf & Hload).
    rewrite take_ge in Hload by (unfold zlen; lia).
    destruct (store_left K1 (buf + zlen l) 10) as (HL2 & Hf2 & Hb2 & Hv2).
    { apply HL. } { unfold in_user. lia. }
    set (K2 := storeb (buf + zlen l) 10 K1) in *.
    destruct (write_prints d0 locals p K2 buf (zlen l + 1)) as (K & Hw & HL3 & [Hpcb _] & Hv3); [apply HL2|done|lia|lia|].
    exists K. split; [|split; [|split]].
    + apply left_trans with K1; [done|]. apply left_trans with K2; [|by apply (left_weaken p nothing)].
      apply (left_weaken p (within (buf + zlen l) 1)); [unfold within; lia|done].
    + unfold ls_round. rewrite (bind_Ret _ _ _ _ _ Hr). replace (zlen l =? 0) with false by lia.
      replace (zlen l =? -1) with false by lia. rewrite bind_modify. fold K2. by rewrite (bind_Ret _ _ _ _ _ Hw).
    + assert (fds p K = fds p K2) as HfK by (unfold fds, get_pcb; by rewrite Hpcb).
      exists (at_pos (i + 1) (zget (fds p k) fd)). split; [by rewrite HfK, Hf2, Hf|by destruct Ho as (?&?&?&?)].
    + destruct (lf_turn _ _ _ _ HL1) as [Hcur _]. destruct (lf_turn _ _ _ _ HL2) as [Hcur2 _].
      cbv zeta in Hv3 |- *. rewrite Hcur2, Hcur, Hv2, Hv1 in Hv3. rewrite Hv3. f_equal.
      replace (Z.to_nat (zlen l + 1)) with (S (Z.to_nat (zlen l))) by lia.
      rewrite load_bytes_snoc, Z2Nat.id by lia. rewrite Hb2. f_equal.
      transitivity (load_bytes K1 buf (Z.to_nat (zlen l))); [|exact Hload]. apply tabulate_ext. intros j Hj. apply (lf_memory _ _ _ _ HL2); [unfold in_user; lia|unfold within; lia].
  - replace (i <? Z.min 63 (load32 k (boot k))) with false by lia. destruct Hr as [Hr Hf].
    exists K1. split; [done|]. split; [|done]. unfold ls_round. by rewrite (bind_Ret _ _ _ _ _ Hr).
Qed.
Lemma ls_rounds fd buf n : forall k i,
  in_program p k -> 2 <= fd <= 7 -> is_open (zget (fds p k) fd) 1 0 i -> 0 <= i <= entries k ->
  entries k - i = Z.of_nat n -> zlen (State.fname d0) = 32 ->
  (forall j, 0 <= j < entries k -> entry_name k j <> []) ->
  user_base <= buf -> buf + 33 <= user_base + 0x400000 ->
  exists K, prog_rounds (λ _ : unit, ls_round d0 locals lit fd buf) (S n) tt k (Ret 0 K) /\
    (left p (within buf 33) k K /\ opens fd 1 0 (entries k) k K) /\
    (let t := current_term (sched k) in view_of t K = put_all (listing k i n) (view_of t k)).
Proof.
  induction n as [|n IH]; intros k i Hp Hfd Ho Hi Hn Hd0 Hne Hb Hbn;
    destruct (ls_round_prints k fd buf i Hp Hfd Ho Hi Hd0 ltac:(intros; apply Hne; lia) Hb Hbn) as (K & HL & Hr).
  - replace (i <? entries k) with false in Hr by lia. destruct Hr as (Hr & Hf & Hv). exists K.
    split; [by apply prog_leave|]. split; [split; [done|]|cbv zeta; by rewrite Hv].
    apply opens_same with k; [done|]. replace (entries k) with i by lia. by apply opens_refl.
  - replace (i <? entries k) with true in Hr by lia. destruct Hr as (Hr & Ho1 & Hv).
    pose proof (lf_image _ _ _ _ HL) as HI. pose proof (same_image_entries _ _ HI) as He.
    destruct (IH K (i + 1)) as (K' & Hrs & [HL' Ho'] & Hv'); rewrite ?He; try done; try lia; [apply HL|by apply opens_open with k| |].
    { intros j Hj. rewrite (same_image_name k K) by (done || (unfold entries in Hj; lia)). by apply Hne. }
    rewrite He in Ho'. exists K'. split; [by eapply prog_again|]. split; [split; [by apply left_trans with K|by eapply opens_trans]|].
    destruct (lf_turn _ _ _ _ HL) as [Hcur _]. rewrite Hcur in Hv'. cbv zeta in Hv, Hv' |- *.
    by rewrite Hv', Hv, listing_cons, (same_image_listing k K), <- put_all_app by (done || lia).
Qed.

(** C23. [ls] prints the name of every entry of the directory, in their order and each on a
    line of its own - at most the 63 that [dir_read] reaches -, and returns 0.  What it
    changes is its buffer, the least free one of its descriptors - which it leaves open,
    behind the last entry -, and the screen of its terminal. *)
Theorem ls_lists_directory k buf :
  in_program p k -> user_base <= buf -> buf + 33 <= user_base + 0x400000 ->
  string_at k (lit (text ".")) (text ".") -> dir_closed k -> is_directory k (text ".") ->
  (forall i, 0 <= i < entries k -> entry_name k i <> []) -> zlen (State.fname d0) = 32 -> 2 <= free_fd p k <= 7 ->
  exists K, ls d0 locals lit buf k = Ret 0 K /\ left p (within buf 33) k K /\
    opens (free_fd p k) 1 0 (entries k) k K /\
    (let t := current_term (sched k) in
     view_of t K = put_all (listing k 0 (Z.to_nat (entries k))) (view_of t k)).
Proof.
  intros Hp Hb Hbn [Hs Hsa] Hd Hdir Hne Hd0 Hfree. change (zlen (text ".")) with 1 in Hsa.
  destruct (open_directory d0 locals p k (lit (text ".")) (text ".")) as (K1 & Hop & HL1 & Hf1 & Hv1 & _); try done.
  { unfold in_user. lia. } { by apply dir_closed_ok. }
  set (fd := free_fd p k) in *. pose proof (lf_image _ _ _ _ HL1) as HI. pose proof (same_image_entries _ _ HI) as He.
  pose proof (pg_fds _ _ Hp) as Hfw. fold (fds p k) in Hfw. pose proof (fw_len _ Hfw) as Hlen.
  assert (0 <= entries k) as H0 by (unfold entries; pose proof (load32_range k (boot k)); lia).
  destruct (ls_rounds fd buf (Z.to_nat (entries k)) K1 0) as (K & Hr & [HL Ho] & Hv); rewrite ?He; try done; try lia.
  { apply HL1. }
  { rewrite Hf1, zget_zset_eq by lia. apply opened_fd_open; [apply (fw_flags _ Hfw); lia|lia|lia]. }
  { intros j Hj. rewrite (same_image_name k K1) by (done || (unfold entries in Hj; lia)). by apply Hne. }
  rewrite He in Ho. destruct Ho as (f & Hfd & Hof).
  exists K. split; [|split; [|split; [exists f; by rewrite Hfd, Hf1, zset_zset|]]].
  - unfold ls. rewrite (bind_Ret _ _ _ _ _ Hop). replace (fd =? -1) with false by lia.
    apply (prog_while_rounds _ _ _ _ _ Hr). unfold entries in *. lia.
  - apply left_trans with K1; [|done]. by apply (left_weaken p nothing).
  - destruct (lf_turn _ _ _ _ HL1) as [Hcur _]. cbv zeta in Hv |- *. rewrite Hcur, Hv1 in Hv. rewrite Hv.
    by rewrite (same_image_listing k K1) by (done || lia).
Qed.
End Runs.

(** What a theorem about a running program asks for, as checks of the memory: a string at an
    address, the names of the directory. *)
Definition string_check (k : kernel) (a : Z) (l : list Z) : bool :=
  forallb (λ j, (loadb k (a + j) =? zget l j) && negb (zget l j =? 0)) (tabulate (length l) id) &&
  (loadb k (a + zlen l) =? 0) && (user_base <=? a) && (a + zlen l <? user_base + 0x400000).
Lemma string_check_ok k a l : string_check k a l = true -> string_at k a l.
Proof.
  unfold string_check. intros Hc. apply andb_prop in Hc as [Hc H4]. apply andb_prop in Hc as [Hc H3].
  apply andb_prop in Hc as [Hc H2]. split; [split|lia]; unfold at_ptr; [|lia].
  intros j Hj. pose proof (check_below (length l) _ Hc j Hj) as H. cbv beta in H. lia.
Qed.
Definition dir_check (k : kernel) : bool :=
  forallb (λ i, match strlen (entry_byte k i) with Some L => L <? 64 | None => false end) (tabulate 63 id).
Lemma dir_check_ok k : dir_check k = true -> dir_closed k.
Proof.
  intros Hc i Hi. pose proof (check_below 63 _ Hc i ltac:(lia)) as H. cbv beta in H.
  destruct (strlen (entry_byte k i)) as [L|]; [exists L; split; [lia|done]|done].
Qed.

(** The process of [demo_sys] running with the argument [hello]. *)
Definition demo_user : kernel :=
  demo_running <| pcbs := {[ 0x7FC000 := set_up_stdout (set_up_stdin demo_pcb)
                               <| arg_arr := hello ++ replicate 123 0 |> <| arg_size := 5 |> ]} |>
               <| tss ::= λ t, t <| esp0 := stack_top 1 |> |>.
Lemma kernel0_term_wf : term_wf (term kernel0).
Proof.
  split; [reflexivity..| |]; intros t Ht; assert (t = 0 \/ t = 1 \/ t = 2) as [->|[->| ->]] by lia;
    first [reflexivity|vm_compute; intuition discriminate].
Qed.
Lemma demo_in_program : in_program 1 demo_user.
Proof.
  split.
  - split; [exact demo_running_map|exact (cw_sched _ kernel0_wf)].
  - exact demo_running_page.
  - reflexivity.
  - change (fds_wf (proc_fds demo_sys)). exact demo_fds.
  - apply flags_check_ok. vm_compute. reflexivity.
  - split; vm_compute; reflexivity.
  - exact kernel0_term_wf.
  - vm_compute. intuition discriminate.
Qed.
Lemma demo_closed : dir_closed demo_user.
Proof. apply dir_check_ok. vm_compute. reflexivity. Qed.
Lemma demo_names : names_file (dentry_a (fs kernel0)) demo_user hello 1.
Proof.
  split.
  - exact hello_plain.
  - vm_compute. intuition discriminate.
  - split; [apply dir_closed_ok, demo_closed|]. intros H. specialize (H 0 ltac:(vm_compute; intuition discriminate)).
    vm_compute in H. discriminate.
  - split; [lia|]. split; [vm_compute; reflexivity|lia].
  - vm_compute. reflexivity.
Qed.
Lemma demo_user_size : file_size demo_user 0 = 4100.
Proof. vm_compute. reflexivity. Qed.
Lemma demo_user_file : file_wf demo_user 0.
Proof.
  assert (load32 demo_user (boot demo_user + 4) = 1) as H1 by (vm_compute; reflexivity).
  assert (load32 demo_user (boot demo_user + 8) = 2) as H2 by (vm_compute; reflexivity).
  split; rewrite ?demo_user_size, ?H1, ?H2; [done|lia|unfold MAX_FILE_SIZE, FS_BLOCK_SIZE; lia|].
  intros i Hi. assert (i / 4096 = 0 \/ i / 4096 = 1) as [->| ->] by (Z.div_mod_to_equations; lia); vm_compute; done.
Qed.
Lemma demo_arguments : arguments 1 demo_user hello.
Proof.
  split; [exact hello_plain|vm_compute; intuition discriminate|vm_compute; reflexivity|vm_compute; reflexivity].
Qed.
Lemma cat_prints_file_witness :
  exists K, cat (dentry_a (fs kernel0)) (λ _, 0) (λ _, 0) 0x8050000 demo_user = Ret 0 K /\
    view_of 0 K = put_all (file_bytes demo_user 0 0 4100) (view_of 0 demo_user).
Proof.
  assert (file_inode demo_user 1 = 0) as Hino by (vm_compute; reflexivity).
  destruct (cat_prints_file (dentry_a (fs kernel0)) (λ _, 0) (λ _, 0) 1 demo_user 0x8050000 hello 1
    demo_in_program demo_arguments) as (K & HK & _ & _ & Hv).
  - unfold user_base. lia.
  - unfold user_base. lia.
  - exact demo_closed.
  - exact demo_names.
  - vm_compute. reflexivity.
  - rewrite Hino. exact demo_user_file.
  - vm_compute. intuition discriminate.
  - exists K. split; [exact HK|]. cbv zeta in Hv. rewrite Hino, demo_user_size in Hv. exact Hv.
Defined.
(** Its literal [.] at 0x8048100. *)
Definition demo_lit (l : list Z) : Z := 0x8048100.
Definition demo_ls : kernel := storeb 0x8048100 46 demo_user.
Lemma demo_ls_left : left 1 (within 0x8048100 1) demo_user demo_ls.
Proof. apply store_left; [exact demo_in_program|unfold in_user, user_base; lia]. Qed.
Lemma demo_ls_literal : string_at demo_ls (demo_lit (text ".")) (text ".").
Proof.
  split; [|vm_compute; intuition discriminate]. split; [|vm_compute; reflexivity].
  intros j Hj. change (zlen (text ".")) with 1 in Hj. replace j with 0 by lia. vm_compute. split; [reflexivity|discriminate].
Qed.
Lemma ls_lists_directory_witness :
  exists K, ls (dentry_a (fs kernel0)) (λ _, 0) demo_lit 0x8050000 demo_ls = Ret 0 K /\
    view_of 0 K = put_all [46; 10; 104; 101; 108; 108; 111; 10] (view_of 0 demo_ls).
Proof.
  assert (entries demo_ls = 2) as He by (vm_compute; reflexivity).
  destruct (ls_lists_directory (dentry_a (fs kernel0)) (λ _, 0) demo_lit 1 demo_ls 0x8050000) as (K & HK & _ & _ & Hv).
  - apply demo_ls_left.
  - unfold user_base. lia.
  - unfold user_base. lia.
  - exact demo_ls_literal.
  - apply (same_image_closed demo_user); [apply demo_ls_left|exact demo_closed].
  - intros j Hj. change (zlen (text ".")) with 1 in Hj. replace j with 0 by lia. vm_compute. reflexivity.
  - intros j Hj. rewrite He in Hj. assert (j = 0 \/ j = 1) as [->| ->] by lia; vm_compute; discriminate.
  - vm_compute. reflexivity.
  - vm_compute. intuition discriminate.
  - exists K. split; [exact HK|]. cbv zeta in Hv. rewrite He in Hv.
    replace (listing demo_ls 0 (Z.to_nat 2)) with [46; 10; 104; 101; 108; 108; 111; 10] in Hv by (vm_compute; reflexivity).
    exact Hv.
Defined.
