(* ===== verification/Pingpong.v ===== *)
(** * pingpong: a program that lives on the clock

    A letter moves through a line of the screen, one column at every tick of the clock.
    [read_tick] is the read of the clock with the tick it waits for. *)
From S2P Require Import Prelude Machine Lib Paging Devices State Console Printf Terminal Filesystem SysCall Process Keyboard Scheduler Idt User Programs.

Section Ticks.
Context (d0 : dentry_t) (locals : kernel -> Z).

(** While [rtc_read] waits with interrupts on, the clock interrupts it; its loop then goes on. *)
Definition read_tick (fd buf n : Z) : prog kernel Z := λ k,
  match ece391_read d0 locals fd buf n k with
  | Wait K =>
      if interrupt_flag (devs K) then
        match (_ ← rtchandler; on_devs Rtc.rtc_read_end) K with
        | Ret r K => Ret r (leave_kernel k K)
        | o => o
        end
      else Wait K
  | o => o
  end.

(** ** ece391pingpong.c

    [read_] is the read of the clock, [buf], [garbage] and [ret_val_at] are the local variables
    whose addresses are passed on. *)
Section Program.
Context (read_ : Z -> Z -> Z -> prog kernel Z) (lit : list Z -> Z) (buf garbage ret_val_at : Z).
Definition BUFMAX : Z := 81.
Definition STARTLOOP : Z := 2.
Definition LOOPMAX : Z := 78.
Definition STARTCHAR : Z := 65.
Definition ENDCHAR : Z := 90.

Definition blank (n : nat) (i : Z) (k : kernel) : kernel := for_up n i (λ i, storeb (buf + i) 32) k.
Definition frame (rtc_fd curchar j : Z) : prog kernel unit :=
  _ ← modify (blank 76 STARTLOOP);
  _ ← modify (λ k : kernel, storeb (buf + j) curchar k);
  _ ← ece391_fdputs d0 locals 1 buf;
  _ ← read_ rtc_fd garbage 4;
  mret tt.
Definition move_out (rtc_fd curchar : Z) : prog kernel unit :=
  prog_while (λ j, if negb (j <? LOOPMAX) then mret (inr tt) else _ ← frame rtc_fd curchar j; mret (inl (j + 1))) STARTLOOP.
Definition bounce_back (rtc_fd curchar : Z) : prog kernel unit :=
  prog_while (λ j, if negb (STARTLOOP <=? j) then mret (inr tt) else _ ← frame rtc_fd curchar j; mret (inl (j - 1))) (LOOPMAX - 1).
Definition next_char (curchar : Z) : Z := if curchar =? ENDCHAR then STARTCHAR else u8 (curchar + 1).
Definition pingpong_round (rtc_fd curchar : Z) : prog kernel (Z + Z) :=
  _ ← move_out rtc_fd curchar;
  _ ← bounce_back rtc_fd curchar;
  mret (inl (next_char curchar)).
Definition pingpong : prog kernel Z :=
  _ ← modify (blank 81 0);
  _ ← modify (λ k : kernel, storeb (buf + (BUFMAX - 1)) 0 k);
  _ ← modify (λ k : kernel, storeb (buf + (BUFMAX - 2)) 10 k);
  _ ← modify (λ k : kernel, storeb (buf + (BUFMAX - 3)) 124 k);
  _ ← modify (λ k : kernel, storeb (buf + 1) 124 k);
  rtc_fd ← ece391_open d0 locals (lit (text "rtc"));
  _ ← modify (λ k : kernel, store32 ret_val_at 32 k);
  ret_val ← ece391_write d0 locals rtc_fd ret_val_at 4;
  _ ← modify (λ k : kernel, store32 ret_val_at ret_val k);
  prog_while (pingpong_round rtc_fd) STARTCHAR.
End Program.

(** ** The read of the clock ends *)
Section Tick.
Context (p : Z) (k : kernel) (fd buf n : Z) (Hp : in_program p k) (Hc : is_clock p k fd).
Context (Hb : in_page buf n) (Hn : 0 < n) (Hi : interrupt_flag (devs k) = true).

(** The tick comes: the read returns 0 and nothing of the program has changed. *)
Lemma tick_read :
  exists K, read_tick fd buf n k = Ret 0 K /\ kept p nothing k K /\ fds p K = fds p k /\ forall t, view_of t K = view_of t k.
Proof.
  destruct Hc as (Hfd & Hu & Hty). set (k0 := enter_kernel false k).
  destruct (fw_open _ (pg_fds _ _ Hp) fd ltac:(lia) Hu) as [_ Ht]. fold (fds p k) in Ht. rewrite Hty in Ht.
  pose proof (read_waits d0 locals p k fd buf n rtctable (k0 <| devs := devs k0 <| rtc_interrupt_occurred := 0 |> |>) Hp
    ltac:(lia) ltac:(lia) Hb Hn Hu Ht eq_refl) as Hr.
  unfold read_tick. rewrite Hr. set (K := k0 <| devs := _ |>). change (interrupt_flag (devs K)) with (interrupt_flag (devs k)). rewrite Hi.
  assert (exists d, (_ ← rtchandler; on_devs Rtc.rtc_read_end) K = Ret 0 (k0 <| devs := d |>)) as [d Hd] by (by eexists).
  rewrite Hd.
  exists (k <| devs := d <| interrupt_flag := interrupt_flag (devs k) |> |>). split; [|split; [by apply kept_devs|done]].
  unfold leave_kernel. change (esp (regs (k0 <| devs := d |>))) with (kernel_esp k). by rewrite Z.eqb_refl.
Qed.
End Tick.
(** ** What it shows

    The line around the letter, and the line with letter [c] in column [j]. *)
Definition wall (i : Z) : Z := if (i =? 1) || (i =? 78) then 124 else if i =? 79 then 10 else if i =? 80 then 0 else 32.
Definition frame_text (c j : Z) : list Z := tabulate 80 (λ i, if i =? j then c else wall i).
Section Play.
Context (p buf garbage fd : Z) (Hb : user_base <= buf /\ buf + 81 <= user_base + 0x400000) (Hg : in_page garbage 4).
Abbreviation play_frame := (frame read_tick buf garbage fd).

Record playing (k : kernel) : Prop := {
  pl_in : in_program p k;
  pl_clock : is_clock p k fd;
  pl_interrupts : interrupt_flag (devs k) = true;
  pl_walls : forall i, 0 <= i <= 80 -> ~ 2 <= i <= 77 -> loadb k (buf + i) = wall i
}.
(** From [k], [l] was shown. *)
Definition showing (l : list Z) (k K : kernel) : Prop :=
  kept p (within buf 81) k K /\ playing K /\
  (let t := current_term (sched k) in view_of t K = put_all l (view_of t k)).
Lemma showing_trans l1 l2 k K1 K2 : showing l1 k K1 -> showing l2 K1 K2 -> showing (l1 ++ l2) k K2.
Proof.
  intros (HL1 & _ & Hv1) (HL2 & Hp2 & Hv2). destruct (lf_turn _ _ _ _ HL1) as [Hc _]. split; [by apply kept_trans with K1|].
  split; [done|]. cbv zeta in *. rewrite Hc in Hv2. by rewrite Hv2, Hv1, put_all_app.
Qed.

Lemma blank_stores n i k : blank buf n i k = store_bytes (buf + i) (replicate n 32) k.
Proof.
  unfold blank. revert i k. induction n as [|n IH]; intros i k; [done|]. cbn [for_up replicate store_bytes].
  rewrite IH. by replace (buf + (i + 1)) with (buf + i + 1) by lia.
Qed.
(** The letter is drawn. *)
Lemma frame_drawn k c j :
  playing k -> 2 <= j <= 77 -> 0 < c < 256 ->
  let K := storeb (buf + j) c (blank buf 76 2 k) in
  left p (within buf 81) k K /\ fds p K = fds p k /\ cstr (at_ptr buf K) (frame_text c j) /\
  (forall t, view_of t K = view_of t k) /\ forall i, 0 <= i <= 80 -> ~ 2 <= i <= 77 -> loadb K (buf + i) = wall i.
Proof.
  intros [Hp Hc Hi Hw] Hj Hch K. subst K. rewrite blank_stores. set (l := replicate 76 32).
  assert (zlen l = 76) as Hl by reflexivity.
  destruct (store_bytes_left p k (buf + 2) l Hp) as (HL1 & Hf1 & Hm1 & Hv1); [lia|lia|].
  set (K1 := store_bytes (buf + 2) l k) in *. rewrite Hl in HL1.
  destruct (store_left p K1 (buf + j) c) as (HL2 & Hf2 & Hm2 & Hv2); [apply HL1|unfold in_user; lia|].
  set (K := storeb (buf + j) c K1) in *.
  assert (forall i, 0 <= i <= 80 -> loadb K (buf + i) = if i =? j then c else wall i) as Hm.
  { intros i Hir. destruct (Z.eqb_spec i j) as [->|Hne]; [rewrite Hm2; apply u8_id; lia|].
    rewrite (lf_memory _ _ _ _ HL2) by (unfold in_user, within; lia). destruct (decide (2 <= i <= 77)) as [Hin|Hout].
    - apply (f_equal (λ l, zget l (i - 2))) in Hm1. unfold load_bytes in Hm1. rewrite zget_tabulate in Hm1 by (unfold zlen in Hl; lia).
      replace (buf + 2 + (i - 2)) with (buf + i) in Hm1 by lia. rewrite Hm1.
      unfold l, wall. rewrite fmap_replicate, zget_replicate by lia.
      replace ((i =? 1) || (i =? 78)) with false by lia. replace (i =? 79) with false by lia. by replace (i =? 80) with false by lia.
    - rewrite (lf_memory _ _ _ _ HL1) by (unfold in_user, within; lia). by apply Hw. }
  split; [|split; [by rewrite Hf2|split; [|split; [intros t; by rewrite Hv2|]]]].
  - apply left_trans with K1; (eapply left_weaken; [|done]); unfold within; lia.
  - split; unfold at_ptr.
    + intros i Hir. change (zlen (frame_text c j)) with 80 in Hir. rewrite Hm by lia. unfold frame_text. rewrite zget_tabulate by lia.
      split; [done|]. unfold wall. repeat case_match; lia.
    + change (zlen (frame_text c j)) with 80. rewrite Hm by lia. replace (80 =? j) with false by lia. reflexivity.
  - intros i Hir Hn. rewrite Hm by lia. by replace (i =? j) with false by lia.
Qed.
Lemma frame_plays k c j :
  playing k -> 2 <= j <= 77 -> 0 < c < 256 -> exists K, play_frame c j k = Ret tt K /\ showing (frame_text c j) k K.
Proof.
  intros Hk Hj Hch. destruct (frame_drawn k c j Hk Hj Hch) as (HL1 & Hf1 & Hs & Hv1 & Hw1). destruct Hk as [Hp Hc Hi _].
  set (K1 := storeb (buf + j) c (blank buf 76 2 k)) in *.
  destruct (fdputs_prints d0 locals p K1 buf (frame_text c j)) as (K2 & H2 & HL2 & [Hpc _] & Hv2);
    [apply HL1|done|lia|change (zlen (frame_text c j)) with 80; lia|].
  assert (fds p K2 = fds p k) as Hf2 by (rewrite <- Hf1; unfold fds, get_pcb; by rewrite Hpc).
  assert (is_clock p K2 fd) as Hc2 by (unfold is_clock; by rewrite Hf2).
  destruct (tick_read p K2 fd garbage 4) as (K3 & H3 & HL3 & Hf3 & Hv3);
    [apply HL2|done|done|done|by rewrite (lf_interrupts _ _ _ _ HL2), (lf_interrupts _ _ _ _ HL1)|].
  destruct (lf_turn _ _ _ _ HL1) as [C1 _].
  assert (kept p nothing K1 K3) as HL13 by (apply kept_trans with K2; [exact HL2|exact HL3]).
  assert (kept p (within buf 81) k K3) as HL by (apply kept_trans with K1; [exact HL1|by apply (kept_weaken p nothing)]).
  exists K3. split; [|split; [done|split; [split|]]].
  - unfold frame. rewrite !bind_modify. fold K1. by rewrite (bind_Ret _ _ _ _ _ H2), (bind_Ret _ _ _ _ _ H3).
  - apply HL.
  - unfold is_clock. by rewrite Hf3, Hf2.
  - by rewrite (lf_interrupts _ _ _ _ HL).
  - intros i Hir Hn. rewrite (lf_memory _ _ _ _ HL13) by (unfold in_user; lia || intros []). by apply Hw1.
  - cbv zeta in Hv2 |- *. rewrite C1, Hv1 in Hv2. rewrite Hv3. exact Hv2.
Qed.
(** One way across the line: [pos] gives the columns. *)
Lemma sweep_plays body (pos : Z -> Z) k c :
  (forall i, 0 <= i < 76 -> 2 <= pos i <= 77) -> 0 < c < 256 ->
  (forall i s, 0 <= i < 76 -> body (pos i) s = (_ ← play_frame c (pos i); mret (inl (pos (i + 1)))) s) ->
  (forall s, body (pos 76) s = Ret (inr tt) s) -> playing k ->
  exists K, prog_while body (pos 0) k = Ret tt K /\ showing (tabulate 76 pos ≫= frame_text c) k K.
Proof.
  intros Hpos Hc Hbody Hend Hk.
  set (Inv := λ i a s, a = pos i /\ showing (tabulate (Z.to_nat i) pos ≫= frame_text c) k s).
  destruct (prog_while_for body Inv (λ (_ : unit) s, showing (tabulate 76 pos ≫= frame_text c) k s) 0 76 (pos 0) k)
    as ([] & K & HK & Hs); [| | |lia|lia|by exists K].
  - intros i a s Hi [-> Hs]. destruct (frame_plays s (c) (pos i)) as (K & HK & HsK); [apply Hs|by apply Hpos|done|].
    exists (pos (i + 1)), K. rewrite Hbody by lia. split; [by rewrite (bind_Ret _ _ _ _ _ HK)|]. split; [done|].
    replace (Z.to_nat (i + 1)) with (Z.to_nat i + 1)%nat by lia. rewrite tabulate_app, bind_app.
    apply showing_trans with s; [done|].
    change (tabulate 1 ?f) with [f 0]. cbv beta. replace (Z.of_nat (Z.to_nat i) + 0) with i by lia.
    change ([pos i] ≫= frame_text c) with (frame_text c (pos i) ++ []). by rewrite app_nil_r.
  - intros a s [-> Hs]. exists tt, s. split; [apply Hend|exact Hs].
  - split; [done|]. split; [apply kept_refl, Hk|by split].
Qed.

(** A letter goes out and comes back. *)
Definition columns : list Z := tabulate 76 (λ i, 2 + i) ++ tabulate 76 (λ i, 77 - i).
Definition letter_frames (c : Z) : list Z := columns ≫= frame_text c.
Lemma round_plays k c :
  playing k -> 0 < c < 256 ->
  exists K, pingpong_round read_tick buf garbage fd c k = Ret (inl (next_char c)) K /\ showing (letter_frames c) k K.
Proof.
  intros Hk Hc.
  destruct (sweep_plays (λ j, (if negb (j <? LOOPMAX) then mret (inr tt) else _ ← play_frame c j; mret (inl (j + 1))) : prog kernel (Z + unit)) (λ i, 2 + i) k c)
    as (K1 & H1 & Hs1); [lia|done| |done|done|].
  { intros i s Hi. unfold LOOPMAX. replace (2 + i <? 78) with true by lia. cbn [negb]. by replace (2 + (i + 1)) with (2 + i + 1) by lia. }
  destruct (sweep_plays (λ j, (if negb (STARTLOOP <=? j) then mret (inr tt) else _ ← play_frame c j; mret (inl (j - 1))) : prog kernel (Z + unit)) (λ i, 77 - i) K1 c)
    as (K2 & H2 & Hs2); [lia|done| |done|apply Hs1|].
  { intros i s Hi. unfold STARTLOOP. replace (2 <=? 77 - i) with true by lia. cbn [negb]. by replace (77 - (i + 1)) with (77 - i - 1) by lia. }
  exists K2. split.
  - unfold pingpong_round, move_out, bounce_back. rewrite (bind_Ret _ _ _ _ _ H1).
    change (LOOPMAX - 1) with (77 - 0). by rewrite (bind_Ret _ _ _ _ _ H2).
  - unfold letter_frames, columns. rewrite bind_app. by apply showing_trans with K1.
Qed.

(** [n] rounds of the endless loop of [main], from letter [c] on. *)
Fixpoint rounds (n : nat) (c : Z) : prog kernel (Z + Z) :=
  match n with
  | O => mret (inl c)
  | S n => r ← pingpong_round read_tick buf garbage fd c; match r with inl c => rounds n c | inr r => mret (inr r) end
  end.
Definition letter (i : Z) : Z := 65 + i mod 26.
Lemma next_letter i : next_char (letter i) = letter (i + 1).
Proof. unfold next_char, letter, ENDCHAR, STARTCHAR. case_match; [words|]. rewrite u8_id; words. Qed.
(** C20. pingpong, for every number [n] of rounds of its endless loop, from any letter of the
    alphabet on, when the clock ticks: each round shows 152 lines with a letter between two
    walls, in columns 2 to 77 and back, one line for every tick; the next round has the next
    letter, and A comes after Z.  The loop is never left and what it needs for going on is
    kept: the walls of its buffer, the open clock, interrupts on.  What else may
    change is what [kept] leaves open: its buffer, screen and descriptors, and the devices,
    which the ticks drive, but for the interrupt flag. *)
Theorem pingpong_plays n i k :
  playing k ->
  exists K, rounds n (letter i) k = Ret (inl (letter (i + Z.of_nat n))) K /\
    kept p (within buf 81) k K /\ playing K /\
    (let t := current_term (sched k) in
     view_of t K = put_all (tabulate n (λ j, letter (i + j)) ≫= letter_frames) (view_of t k)).
Proof.
  intros Hk. enough (exists K, rounds n (letter i) k = Ret (inl (letter (i + Z.of_nat n))) K /\
    showing (tabulate n (λ j, letter (i + j)) ≫= letter_frames) k K) as (K & HK & Hs) by (exists K; split; [exact HK|exact Hs]).
  revert i k Hk. induction n as [|n IH]; intros i k Hk.
  { exists k. rewrite Z.add_0_r. split; [done|]. split; [apply kept_refl, Hk|by split]. }
  destruct (round_plays k (letter i) Hk) as (K1 & H1 & Hs1); [unfold letter; words|].
  destruct (IH (i + 1) K1) as (K & HK & Hs); [apply Hs1|]. exists K. split.
  - cbn [rounds]. rewrite (bind_Ret _ _ _ _ _ H1), next_letter, HK. do 2 f_equal. f_equal. lia.
  - rewrite tabulate_S. cbn [mbind list_bind]. rewrite Z.add_0_r. apply showing_trans with K1; [done|].
    rewrite (tabulate_ext n (λ j, letter (i + (j + 1))) (λ j, letter (i + 1 + j))); [done|]. intros j _. f_equal. lia.
Qed.
End Play.
End Ticks.

(** The process of [demo_user] with the clock open as descriptor 3, its line drawn. *)
Definition demo_clock : kernel :=
  set_fd (pcb_addr 1) 3 (opened_fd 0 0) (demo_user <| devs ::= λ d, d <| interrupt_flag := true |> |>).
Definition demo_pong : kernel := store_bytes 0x8050000 (tabulate 81 wall) demo_clock.
Lemma demo_clock_fds : fds 1 demo_clock = zset 3 (opened_fd 0 0 (zget (fds 1 demo_user) 3)) (fds 1 demo_user).
Proof. unfold fds, demo_clock, set_fd. by rewrite get_set_pcb. Qed.
Lemma demo_clock_in_program : in_program 1 demo_clock.
Proof.
  destruct demo_in_program as [[H0 H1] H2 H3 H4 H5 H6 H7 H8]. fold (fds 1 demo_user) in H4, H5.
  destruct (opened_fd_open 0 0 (zget (fds 1 demo_user) 3)) as [(Hok1 & Hok2 & Hok3) _]; [exact (fw_flags _ H4 3 ltac:(lia))|lia|lia|].
  split; [split; [exact H0|exact H1]|exact H2|exact H3| | |exact H6|exact H7|exact H8].
  - fold (fds 1 demo_clock). rewrite demo_clock_fds. by apply fds_wf_set; [|lia|..].
  - apply flags_check_ok. vm_compute. reflexivity.
Qed.
Lemma demo_pong_playing : playing 1 0x8050000 3 demo_pong.
Proof.
  destruct (store_bytes_left 1 demo_clock 0x8050000 (tabulate 81 wall) demo_clock_in_program) as (HL & Hf & Hm & _);
    [unfold user_base; lia|rewrite zlen_tabulate; unfold user_base; lia|]. fold demo_pong in HL, Hf, Hm.
  split; [apply HL| |by rewrite (lf_interrupts _ _ _ _ HL)|].
  - unfold is_clock. rewrite Hf. vm_compute. intuition discriminate.
  - intros i Hi _. apply (f_equal (λ l, zget l i)) in Hm. unfold load_bytes in Hm. rewrite zget_tabulate in Hm by (rewrite length_tabulate; lia).
    rewrite Hm. change (u8 <$> tabulate 81 wall) with (tabulate 81 wall). by rewrite zget_tabulate by lia.
Qed.
Lemma pingpong_plays_witness :
  exists K, rounds (dentry_a (fs kernel0)) (λ _, 0) 0x8050000 0x8060000 3 25 (letter 0) demo_pong = Ret (inl 90) K /\
    view_of 0 K = put_all (tabulate 25 letter ≫= letter_frames) (view_of 0 demo_pong).
Proof.
  destruct (pingpong_plays (dentry_a (fs kernel0)) (λ _, 0) 1 0x8050000 0x8060000 3 ltac:(unfold user_base; lia)
    ltac:(unfold in_page, user_base; lia) 25 0 demo_pong demo_pong_playing) as (K & HK & _ & _ & Hv).
  exists K. split; [exact HK|exact Hv].
Defined.
