(* ===== verification/Isolation.v ===== *)
(** * What a program can do to the rest of the system

    A running program makes requests: system calls (but [execute] and [halt], which are in
    [Lifetime], and [vidmap], which maps another page into its space) and stores of its own.
    When the buffers and names it passes are in its page - the kernel does not check that -
    and it does not write the least integer to the clock - [rtc_write] would never end -, no
    request gets stuck.  None changes anything but the program's own memory, descriptors,
    screen with its cursor, and typed line, the position of the hardware cursor, the rate of
    the one clock that all programs share, and the variables that filesystem.c computes anew
    at every lookup: [left] says so, field by field.  [program_ok], what the argument rests
    on, is kept. *)
From S2P Require Import Prelude Machine Lib Paging Devices State Console Printf Terminal Filesystem SysCall Process Keyboard Scheduler Idt User Programs.

Inductive request :=
  | Read (fd buf n : Z)
  | Write (fd buf n : Z)
  | Open (name : Z)
  | Close (fd : Z)
  | Getargs (buf n : Z)
  | Set_handler (signum handler_address : Z)
  | Sigreturn
  | Unknown (number a b c : Z)
  | Store (a v : Z).

Section Requests.
Context (d0 : dentry_t) (locals : kernel -> Z) (p : Z).

Definition send (r : request) : prog kernel Z :=
  match r with
  | Read fd buf n => ece391_read d0 locals fd buf n
  | Write fd buf n => ece391_write d0 locals fd buf n
  | Open name => ece391_open d0 locals name
  | Close fd => ece391_close d0 locals fd
  | Getargs buf n => ece391_getargs d0 locals buf n
  | Set_handler signum handler_address => ece391_set_handler d0 locals signum handler_address
  | Sigreturn => ece391_sigreturn d0 locals
  | Unknown number a b c => DO_CALL d0 locals number a b c
  | Store a v => _ ← modify (storeb a v); mret 0
  end.

(** The bytes a request writes: a line from the keyboard can be longer than what was asked for. *)
Definition reach (fd n : Z) : Z := if fd =? 0 then Z.max n 128 else n.
Definition writes (r : request) : Z -> Prop :=
  match r with
  | Read fd buf n => within buf (reach fd n)
  | Getargs buf n => within buf n
  | Store a _ => within a 1
  | _ => nothing
  end.
Definition int32 (x : Z) : Prop := -2147483648 <= x < 2147483648.
(** The program passes buffers and names of its own page, and no frequency that would make
    [rtc_write] search for ever. *)
Definition well_placed (k : kernel) (r : request) : Prop :=
  match r with
  | Read fd buf n => int32 fd /\ 0 < n /\ in_page buf (reach fd n)
  | Write fd buf n => int32 fd /\ 0 <= n /\ in_page buf n /\
      (is_clock p k fd -> in_page buf 4 /\ s32 (load32 k buf) <> -2147483648)
  | Open name => exists l, cstr (at_ptr name k) l /\ in_page name (zlen l + 1)
  | Close fd => int32 fd
  | Getargs buf n => int32 n /\ in_page buf n
  | Set_handler _ _ | Sigreturn => True
  | Unknown number _ _ _ => ~ 1 <= s32 number <= 10
  | Store a _ => in_user a
  end.

Lemma back_entered k : back k (enter_kernel false k) = k.
Proof. destruct k as [m ph s t kb f pr pc ts rg dv]. by destruct dv. Qed.

(** ** The invariant *)

(** The image: the names of its entries end within them, the files it names are whole. *)
Record image_ok (k : kernel) : Prop := {
  io_closed : dir_closed k;
  io_names : forall i, 0 <= i <= 62 -> i < load32 k (boot k) -> entry_name k i <> [];
  io_first : exists j, 0 <= j <= 32 /\ entry_byte k 0 j = 0;
  io_files : forall i, 1 <= i <= 62 -> entry_byte k i 32 = 2 -> file_wf k (file_inode k i);
  io_dirs : forall i, 1 <= i <= 62 -> entry_byte k i 32 = 1 -> file_inode k i = 0
}.
(** A descriptor is free, or names the clock, a place in the directory or a place in a file. *)
Definition desc_ok (k : kernel) (f : file_desc) : Prop :=
  in_use f = true ->
  let ty := zget (fd_flags f) 1 in
  let inode := u32 (fd_inode f) in
  ty = 0 \/ (ty = 1 /\ inode = 0 /\ 0 <= file_pos f <= 63) \/
  (ty = 2 /\ file_wf k inode /\ 0 <= file_pos f <= file_size k inode).
Record program_ok (k : kernel) : Prop := {
  po_in : in_program p k;
  po_image : image_ok k;
  po_fds : forall fd, 2 <= fd <= 7 -> desc_ok k (zget (fds p k) fd);
  po_args : exists l, plain l /\ zlen l < 128 /\ arg_arr (get_pcb (pcb_addr p) k) = l ++ replicate (128 - length l) 0;
  po_size : 0 <= arg_size (get_pcb (pcb_addr p) k);
  po_d0 : zlen (State.fname d0) = 32
}.
Lemma image_ok_same k K : same_image k K -> image_ok k -> image_ok K.
Proof.
  intros HI [Hd Hn (j & Hj & H0) Hf Hdirs].
  assert (load32 K (boot K) = load32 k (boot k)) as Hcount.
  { pose proof (counts_range k). rewrite (si_boot _ _ HI). apply (same_image_word k K); [exact HI|lia|unfold image_size; lia]. }
  split; [by apply (same_image_closed k)| | | |].
  - intros i Hi Hc. rewrite Hcount in Hc. rewrite (same_image_name k K) by (done || lia). by apply Hn.
  - exists j. by rewrite (same_image_entry k K) by (done || lia).
  - intros i Hi Hty. rewrite (same_image_entry k K) in Hty by (done || lia).
    assert (file_inode K i = file_inode k i) as -> by (unfold file_inode; by rewrite (same_image_entry k K) by (done || lia)).
    by apply (same_image_file k K), Hf.
  - intros i Hi Hty. rewrite (same_image_entry k K) in Hty by (done || lia).
    unfold file_inode. rewrite (same_image_entry k K) by (done || lia). by apply Hdirs.
Qed.
Lemma desc_ok_same k K f : same_image k K -> desc_ok k f -> desc_ok K f.
Proof.
  intros HI Hf Hu. destruct (Hf Hu) as [H|[H|(Hty & Hw & Hpos)]]; [by left|by right; left|right; right].
  destruct (same_image_file _ _ _ HI Hw) as (HwK & HsK & _). by rewrite HsK.
Qed.
(** After a request that changed one descriptor at most. *)
Lemma program_ok_left W k K fd f :
  program_ok k -> left p W k K -> 2 <= fd <= 7 -> fds p K = zset fd f (fds p k) -> desc_ok k f -> program_ok K.
Proof.
  intros [Hp Hi Hf (l & Hl) Hs H0] HL Hfd Hfds Hfok. pose proof (lf_image _ _ _ _ HL) as HI.
  pose proof (fw_len _ (pg_fds _ _ Hp)) as Hlen. fold (fds p k) in Hlen.
  split; [apply HL|by apply (image_ok_same k)| | | |done].
  - intros j Hj. apply (desc_ok_same k); [done|]. rewrite Hfds. destruct (decide (j = fd)) as [->|Hne].
    + by rewrite zget_zset_eq by lia.
    + rewrite zget_zset_ne by lia. by apply Hf.
  - exists l. by rewrite (lf_block _ _ _ _ HL).
  - by rewrite (lf_block _ _ _ _ HL).
Qed.
Lemma program_ok_same W k K : program_ok k -> left p W k K -> fds p K = fds p k -> program_ok K.
Proof.
  intros Hk HL Hf. apply (program_ok_left W k K 2 (zget (fds p k) 2)); [done|done|lia| |apply (po_fds _ Hk); lia].
  rewrite Hf. symmetry. apply zset_id. pose proof (fw_len _ (pg_fds _ _ (po_in _ Hk))) as Hlen. fold (fds p k) in Hlen. lia.
Qed.

Lemma least_or_none (P : Z -> Prop) `{!forall i, Decision (P i)} (a : Z) (n : nat) :
  (exists i, a <= i < a + Z.of_nat n /\ P i /\ forall j, a <= j < i -> ~ P j) \/ forall i, a <= i < a + Z.of_nat n -> ~ P i.
Proof.
  induction n as [|n [(i & Hi & HP & Hf)|IH]]; [right; lia|left; exists i; split; [lia|done]|].
  destruct (decide (P (a + Z.of_nat n))) as [HP|HP].
  - left. exists (a + Z.of_nat n). split; [lia|done].
  - right. intros i Hi. destruct (decide (i = a + Z.of_nat n)) as [->|]; [done|]. apply IH. lia.
Qed.
Lemma at_ptr_plain k name l : cstr (at_ptr name k) l -> plain l.
Proof.
  intros [Hc _]. apply Forall_lookup. intros i x Hx. pose proof (lookup_lt_Some _ _ _ Hx).
  destruct (Hc (Z.of_nat i)) as [He Hne]; [unfold zlen; lia|]. pose proof (loadb_range k (name + Z.of_nat i)).
  unfold at_ptr in He. rewrite He in *. unfold zget in *. rewrite Nat2Z.id in *. rewrite (list_lookup_total_correct _ _ _ Hx) in *. lia.
Qed.
(** A name that is a prefix of the first entry is the directory's. *)
Lemma is_directory_dec k l : is_directory k l \/ ~ is_directory k l.
Proof.
  destruct (decide (Forall (λ j, entry_byte k 0 (Z.of_nat j) = zget l (Z.of_nat j)) (seq 0 (length l)))) as [Hf|Hf].
  - left. intros j Hj. rewrite Forall_forall in Hf. specialize (Hf (Z.to_nat j)). unfold zlen in Hj.
    rewrite Z2Nat.id in Hf by lia. apply Hf, elem_of_seq. lia.
  - right. intros Hd. apply Hf, Forall_forall. intros j Hj%elem_of_seq. apply Hd. unfold zlen. lia.
Qed.
Lemma directory_short k name l : image_ok k -> cstr (at_ptr name k) l -> is_directory k l -> zlen l <= 32.
Proof.
  intros Himg [Hc _] Hd. destruct (io_first _ Himg) as (j & Hj & H0). destruct (decide (zlen l <= 32)) as [|Hl]; [done|].
  destruct (Hc j ltac:(lia)) as [_ Hne]. rewrite (Hd j) in H0 by lia. done.
Qed.

(** ** Every request is served *)

(** A read of the keyboard waits when no line was entered, a read of the clock always. *)
Definition waits (k : kernel) (r : request) : Prop :=
  match r with
  | Read fd _ _ => (fd = 0 /\ entered (current_term (sched k)) (term k) = None) \/ is_clock p k fd
  | _ => False
  end.
Definition served (k : kernel) (r : request) : Prop :=
  (exists v K, send r k = Ret v K /\ left p (writes r) k K /\ program_ok K) \/
  (waits k r /\ exists K, send r k = Wait K).

Section Served.
Context (k : kernel) (Hk : program_ok k).
Let Hp : in_program p k := po_in k Hk.
Let k0 := enter_kernel false k.

Lemma served_unchanged r v : send r k = Ret v k -> served k r.
Proof. intros Hr. left. exists v, k. split; [done|]. split; [by apply left_refl|done]. Qed.
Lemma served_same r v K :
  send r k = Ret v K -> left p nothing k K -> fds p K = fds p k -> served k r.
Proof.
  intros Hr HL Hf. left. exists v, K. split; [done|].
  split; [by apply (left_weaken p nothing)|by apply (program_ok_same nothing k)].
Qed.
Lemma fds_length : zlen (fds p k) = 8.
Proof. apply (fw_len _ (pg_fds _ _ Hp)). Qed.
Lemma desc_open fd :
  2 <= fd <= 7 -> in_use (zget (fds p k) fd) = true ->
  is_clock p k fd \/ (exists pos, is_open (zget (fds p k) fd) 1 0 pos /\ 0 <= pos <= 63) \/
  exists inode pos, is_open (zget (fds p k) fd) 2 inode pos /\ file_wf k inode /\ 0 <= pos <= file_size k inode.
Proof.
  intros Hfd Hu. destruct (po_fds _ Hk fd Hfd Hu) as [H|[(Hty & Hi & Hpos)|(Hty & Hw & Hpos)]].
  - left. by split.
  - right. left. eexists. by split.
  - right. right. eexists _, _. by split.
Qed.
Lemma clock_is_open fd : is_clock p k fd -> exists inode pos, is_open (zget (fds p k) fd) 0 inode pos.
Proof. intros (_ & Hu & Hty). by eexists _, _. Qed.

(** [write] on an open descriptor reaches the operation of its kind. *)
Lemma write_open fd ty inode pos buf n r K :
  2 <= fd <= 7 -> is_open (zget (fds p k) fd) ty inode pos -> in_page buf n -> 0 <= n ->
  op_write (table_of ty) fd buf n k0 = Ret r K -> serviced k0 K ->
  ece391_write d0 locals fd buf n k = Ret r (back k K).
Proof.
  intros Hfd (Hu & Ht & _) [Hb Hbn] Hn Hr Hsv. unfold user_base in *. apply DO_CALL_runs; [|done].
  apply returned_Ret. rewrite !s32_id by lia. unfold write, FDEND.
  replace ((fd <=? 0) || (7 <? fd)) with false by lia.
  rewrite (proj2 (Z.eqb_neq buf 0)) by lia. cbv zeta.
  unfold get_fd. rewrite (entered_pcb p k false Hp).
  change (fd_array (get_pcb (pcb_addr p) (enter_kernel false k))) with (fds p k).
  destruct (fw_open _ (pg_fds _ _ Hp) fd ltac:(lia) Hu) as [_ Hop]. fold (fds p k) in Hop. rewrite Ht in Hop.
  unfold in_use in Hu. apply negb_true_iff in Hu. rewrite Hu, Hop. exact Hr.
Qed.
Lemma write_quiet fd ty inode pos buf n r :
  2 <= fd <= 7 -> is_open (zget (fds p k) fd) ty inode pos -> in_page buf n -> 0 <= n ->
  op_write (table_of ty) fd buf n k0 = Ret r k0 -> ece391_write d0 locals fd buf n k = Ret r k.
Proof.
  intros Hfd Ho Hpl Hn Hr. pose proof (write_open fd ty inode pos buf n r k0 Hfd Ho Hpl Hn Hr (serviced_refl k0)) as H.
  by rewrite back_entered in H.
Qed.
Lemma read_served fd buf n : well_placed k (Read fd buf n) -> served k (Read fd buf n).
Proof.
  intros (H32 & Hn & Hpl). unfold int32 in H32.
  destruct (decide (open_number p k fd /\ fd <> 1)) as [[[Hfd Hu] H1]|Hno].
  2: { apply (served_unchanged _ (-1)). apply (read_refused d0 locals p k fd buf n Hp). rewrite s32_id by lia.
       destruct (decide (fd = 1)); [by right|left]. intros Ho. by apply Hno. }
  unfold reach in Hpl. destruct (Z.eqb_spec fd 0) as [->|H0].
  - destruct Hpl as [Hb Hbn]. destruct (fw_stdin _ (pg_fds _ _ Hp)) as [Hu0 Ht0].
    destruct (entered (current_term (sched k)) (term k)) as [l|] eqn:Hen.
    + pose proof (entered_short p k l Hp Hen) as Hl.
      destruct (read_line d0 locals p k buf n (Z.max n 128) l Hp Hen) as (K & HK & HL & Hpc & _); [lia|lia|done|done|].
      left. exists (zlen l + 1), K. split; [done|]. split; [done|]. apply (program_ok_same _ k K Hk HL).
      unfold fds, get_pcb. by rewrite Hpc.
    + right. split; [by left|]. exists (terminal_read_begin buf n k0).
      apply (read_waits d0 locals p k 0 buf n stdin_table); [done|..]; [lia|lia|split; lia|done|exact Hu0|exact Ht0|]. by apply terminal_read_waits.
  - destruct (desc_open fd ltac:(lia) Hu) as [Hcl|[(pos & Ho & Hpos)|(inode & pos & Ho & Hw & Hpos)]].
    + right. split; [by right|]. eexists.
      destruct (fw_open _ (pg_fds _ _ Hp) fd ltac:(lia) Hu) as [_ Ht]. fold (fds p k) in Ht.
      destruct Hcl as (_ & _ & Hty). rewrite Hty in Ht.
      apply (read_waits d0 locals p k fd buf n rtctable); [done|..]; [lia|lia|done|done|done|exact Ht|reflexivity].
    + destruct Hpl as [Hb Hbn].
      destruct (read_directory d0 locals p k fd buf n pos Hp ltac:(lia) Ho Hpos (po_d0 _ Hk)) as (K & Hr & HL & _); try done; [|].
      { intros Hi Hc. apply (io_names _ (po_image _ Hk)); [lia|done]. }
      assert (left p (writes (Read fd buf n)) k K) as HLw by (unfold writes, reach; by rewrite (proj2 (Z.eqb_neq fd 0))).
      case_decide as Hc.
      * destruct Hr as (Hr & Hf & _). left. eexists _, K. split; [exact Hr|]. split; [done|].
        apply (program_ok_left _ k K fd (at_pos (pos + 1) (zget (fds p k) fd)) Hk HL ltac:(lia) Hf).
        destruct Ho as (_ & Hty & Hi & _). intros _. right. left. split; [exact Hty|]. split; [exact Hi|]. cbn. lia.
      * destruct Hr as [Hr Hf]. left. eexists _, K. split; [exact Hr|]. split; [done|]. by apply (program_ok_same _ k K Hk HL).
    + destruct Hpl as [Hb Hbn].
      destruct (read_file d0 locals p k fd inode pos buf n Hp ltac:(lia) Ho Hw Hpos Hb Hn Hbn) as (K & Hr & HL & Hf & _).
      assert (left p (writes (Read fd buf n)) k K) as HLw by (unfold writes, reach; by rewrite (proj2 (Z.eqb_neq fd 0))).
      left. eexists _, K. split; [exact Hr|]. split; [done|].
      apply (program_ok_left _ k K fd _ Hk HL ltac:(lia) Hf). destruct Ho as (_ & Hty & Hi & _). intros _. right. right.
      split; [exact Hty|]. change (u32 (fd_inode (at_pos ?x ?f))) with (u32 (fd_inode f)). rewrite Hi. split; [done|].
      cbn. unfold clipped. lia.
Qed.
Lemma write_served fd buf n : well_placed k (Write fd buf n) -> served k (Write fd buf n).
Proof.
  intros (H32 & Hn & Hpl & Hclock). unfold int32 in H32. pose proof Hpl as [Hb Hbn].
  destruct (decide (open_number p k fd /\ fd <> 0)) as [[[Hfd Hu] H0]|Hno].
  2: { apply (served_unchanged _ (-1)). apply (write_refused d0 locals p k fd buf n Hp). rewrite s32_id by lia.
       destruct (decide (fd = 0)); [by right|left]. intros Ho. by apply Hno. }
  destruct (decide (fd = 1)) as [->|H1].
  { destruct (write_prints d0 locals p k buf n Hp Hb Hn Hbn) as (K & HK & HL & [Hpc _] & _).
    apply (served_same _ 0 K); [done|done|]. unfold fds, get_pcb. by rewrite Hpc. }
  destruct (desc_open fd ltac:(lia) Hu) as [Hcl|[(pos & Ho & _)|(inode & pos & Ho & _)]].
  - destruct (clock_is_open fd Hcl) as (inode & pos & Ho). destruct (Hclock Hcl) as [[Hb4 Hbn4] Hmin].
    assert (-2147483648 < s32 (load32 k buf) < 2147483648) as Hs by (pose proof (s32_range (load32 k buf)); lia).
    destruct (rtc_write_ends _ (devs k0) Hs) as (r & d & Hr & Hd).
    pose proof (devs_stored p 2 id k k0 d Hd (stored_plain p user_base [] k Hp)) as Hst. cbn [store_bytes] in Hst. fold k0 in Hst.
    destruct (quiet_left p k _ Hp Hst) as (HL & Hf & _).
    apply (served_same _ r (back k (k0 <| devs := d |>))); [|done|done].
    apply (write_open fd 0 inode pos buf n r _ ltac:(lia) Ho Hpl Hn); [|exact (sd_serviced _ _ _ _ _ _ _ Hst)].
    unfold table_of, op_write. cbn [Z.eqb]. rewrite (proj2 (Z.eqb_neq buf 0)) by (unfold user_base in *; lia).
    change (load32 k0 buf) with (load32 k buf). unfold on_devs. by rewrite Hr.
  - apply (served_unchanged _ 0), (write_quiet fd 1 0 pos buf n); [lia|done..].
  - apply (served_unchanged _ (if n =? 0 then 0 else -1)), (write_quiet fd 2 inode pos buf n); [lia|done..].
Qed.
(** [open] of a name that the directory has, and of any name. *)
Lemma served_opened r K f :
  2 <= free_fd p k <= 7 -> send r k = Ret (free_fd p k) K -> left p nothing k K ->
  fds p K = zset (free_fd p k) f (fds p k) -> desc_ok k f -> served k r.
Proof.
  intros Hfree Hr HL Hf Hok. left. exists (free_fd p k), K. split; [done|].
  split; [by apply (left_weaken p nothing)|exact (program_ok_left _ k K _ f Hk HL Hfree Hf Hok)].
Qed.
Lemma free_fd_range : 2 <= free_fd p k <= 7 \/ free_fd p k = 8.
Proof. destruct (find_free_fd_least 6 FDSTART (fds p k)) as [Hr _]. fold (free_fd p k) in Hr. unfold FDSTART in Hr. lia. Qed.
Lemma opened_fd_ok ty inode :
  2 <= free_fd p k <= 7 -> 0 <= ty <= 2 -> 0 <= inode < 4294967296 ->
  (ty = 1 -> inode = 0) -> (ty = 2 -> file_wf k inode) ->
  fd_ok (opened_fd ty inode (zget (fds p k) (free_fd p k))) /\
  desc_ok k (opened_fd ty inode (zget (fds p k) (free_fd p k))).
Proof.
  intros Hfree Hty Hi H1 H2. pose proof (pg_fds _ _ Hp) as Hfw. fold (fds p k) in Hfw.
  destruct (opened_fd_open ty inode (zget (fds p k) (free_fd p k))) as [Hok (_ & Ht & Hin & Hpos)];
    [exact (fw_flags _ Hfw (free_fd p k) ltac:(lia))|done|done|].
  split; [done|]. intros _. rewrite Ht, Hin, Hpos.
  assert (ty = 0 \/ ty = 1 \/ ty = 2) as [-> |[-> | ->]] by lia; [by left|right; left|right; right].
  - split; [done|]. split; [by apply H1|lia].
  - specialize (H2 eq_refl). split; [done|]. split; [done|]. pose proof (load32_range k (boot k + 4096 + inode * 4096)). unfold file_size. lia.
Qed.
Section Opened.
Context (name : Z) (l : list Z) (D : dentry_t) (Hu : in_user name) (Hc : cstr (at_ptr name k) l).
Context (Hl : 0 < zlen l < 4294967296).
Context (Hr : read_dentry_by_name (In_memory name) d0 k0 = Ret (0, D) (read_counts k0)).

Lemma found_refused : free_fd p k = 8 \/ ~ 0 <= s32 (file_type D) <= 2 -> served k (Open name).
Proof.
  intros Hno. destruct (counts_left p k Hp) as (HL & Hf & _). fold k0 in HL, Hf.
  apply (served_same _ (-1) (back k (read_counts k0))); [|done|done]. by apply (open_found_refused d0 locals p k name l D).
Qed.
(** The clock and the directory; a regular file is looked up again. *)
Lemma found_served ty inode :
  s32 (file_type D) = ty -> ty = 0 \/ ty = 1 /\ inode = 0 -> s32 (inode_num D) = s32 inode -> 0 <= inode < 4294967296 ->
  2 <= free_fd p k <= 7 -> served k (Open name).
Proof.
  intros Hty Hkind Hino Hi Hfree. set (fd := free_fd p k) in *. set (g := opened_fd ty inode).
  set (K1 := set_fd (pcb_addr p) fd g (read_counts k0)).
  assert (exists r d, op_open (table_of ty) (In_memory name) K1 = Ret r (K1 <| devs := d |>) /\ driven (devs K1) d) as (r & d & Hop & Hd).
  { destruct Hkind as [->|[-> _]]; [|by exists 0, (devs K1); split; [|apply driven_refl]]. destruct (rtc_open_ends (devs K1)) as (d & Hd & Hdr).
    exists 0, d. split; [|done]. unfold op_open, table_of, on_devs. cbn [Z.eqb]. by rewrite Hd. }
  destruct (opened_fd_ok ty inode Hfree) as [Hfok Hdok]; [lia|done|lia|lia|]. fold fd g in Hfok, Hdok.
  assert (stored p fd g user_base [] k (K1 <| devs := d |>)) as Hst
    by apply (devs_stored p fd g k K1 d Hd), (stored_empty p k fd g (λ _, fs K1) eq_refl (pg_static _ _ Hp)).
  destruct (stored_left p fd g user_base [] k _ 0 Hp Hst Hfree Hfok ltac:(done) ltac:(done) ltac:(lia)) as (HL & Hf & _).
  apply (served_opened _ (back k (K1 <| devs := d |>)) (g (zget (fds p k) fd)) Hfree); [|by apply (left_weaken p (within user_base 0)); [unfold within; lia|]|exact Hf|done].
  apply (open_found d0 locals p k name l D Hp Hu Hc Hl Hr ty inode r); [done|lia|done|done|exact Hop|exact (sd_serviced _ _ _ _ _ _ _ Hst)].
Qed.
End Opened.
Lemma listed_served name l i : in_user name -> cstr (at_ptr name k) l -> names_file d0 k l i -> served k (Open name).
Proof.
  intros Hu Hc Hnf. pose proof Hnf as [Hpl Hl [Hdir Hd] (Hi & He & Hfirst) H0].
  pose proof (user_string p k k0 name l Hp eq_refl eq_refl Hu ltac:(lia) Hc) as Hs0.
  assert (boot k0 <> 0) as Hb0 by (change (boot k <> 0); destruct (pg_image _ _ Hp); lia).
  pose proof (read_dentry_by_name_file k0 _ d0 l Hb0 Hs0 Hdir H0 (proj2 Hl) i Hd Hi He Hfirst) as Hr0.
  match type of Hr0 with _ = Ret (0, ?d) _ => set (D := d) in Hr0 end.
  pose proof (entry_byte_range k i 32) as Hb. change (entry_byte k0 i) with (entry_byte k i) in D.
  assert (s32 (file_type D) = s8 (entry_byte k i 32)) as Hty
    by (unfold D; cbn [file_type]; rewrite s32_u32; apply s32_id; pose proof (s8_range (entry_byte k i 32)); lia).
  destruct (decide (free_fd p k = 8 \/ ~ 0 <= s32 (file_type D) <= 2)) as [Hno|Hyes].
  { apply (found_refused name l D); [done|done|lia|done|done]. }
  rewrite Hty in Hyes. destruct free_fd_range as [Hfree|]; [|lia].
  assert (entry_byte k i 32 = s8 (entry_byte k i 32)) as Hsame by (clear - Hb Hyes; revert Hyes; words).
  pose proof (file_inode_range k i) as Hir.
  assert (s8 (entry_byte k i 32) = 2 \/ 0 <= s8 (entry_byte k i 32) <= 1) as [H2|H1] by lia.
  - rewrite H2 in Hsame. destruct (open_regular d0 locals p k name l i Hp Hu Hc Hnf Hsame Hfree) as (K & Hr & HL & Hf & _).
    apply (served_opened (Open name) K _ Hfree Hr HL Hf). apply opened_fd_ok; [done|lia|done|lia|].
    intros _. by apply (io_files _ (po_image _ Hk)).
  - apply (found_served name l D Hu Hc ltac:(lia) Hr0 (s8 (entry_byte k i 32)) (file_inode k i)); [done| |done|done|done].
    destruct (decide (s8 (entry_byte k i 32) = 0)) as [|Hne]; [by left|right]. split; [lia|].
    apply (io_dirs _ (po_image _ Hk)); [done|lia].
Qed.
Lemma open_served name : well_placed k (Open name) -> served k (Open name).
Proof.
  intros (l & Hc & Hb & Hbn). pose proof (zlen_nonneg l) as Hl0. unfold user_base in *.
  pose proof (po_image _ Hk) as Himg. pose proof (dir_closed_ok k (io_closed _ Himg)) as Hdir.
  assert (in_user name) as Hu by (unfold in_user, user_base; lia).
  assert (l = [] \/ 0 < zlen l) as [->|Hl] by (destruct l; [by left|right; rewrite zlen_cons; pose proof (zlen_nonneg l); lia]).
  { apply (served_unchanged _ (-1)). by apply open_refused. }
  pose proof (user_string p k k0 name l Hp eq_refl eq_refl Hu ltac:(lia) Hc) as Hs0.
  assert (boot k0 <> 0) as Hb0 by (change (boot k <> 0); destruct (pg_image _ _ Hp); lia).
  destruct (is_directory_dec k l) as [Hd|Hd].
  { pose proof (directory_short k name l Himg Hc Hd) as Hl32.
    destruct (read_dentry_by_name_directory k0 _ d0 l Hb0 Hs0 Hl32 Hd) as (D & Hr0 & Hty & Hin).
    destruct free_fd_range as [Hfree|Hfull].
    - apply (found_served name l D Hu Hc ltac:(lia) Hr0 1 0); [by rewrite Hty|by right|by rewrite Hin|lia|done].
    - apply (found_refused name l D); [done|done|lia|done|by left]. }
  destruct (least_or_none (λ i, entry_name k i = l) 1 62) as [(i & Hi & He & Hfirst)|Hnone].
  - apply (listed_served name l i Hu Hc). split; [by apply (at_ptr_plain k name)| |done| |apply Hk].
    + pose proof (name_at_zlen 32 (entry_byte k i) 0) as Hlen. fold (entry_name k i) in Hlen. rewrite He in Hlen. lia.
    + split; [lia|]. split; [done|]. intros j Hj. apply Hfirst. lia.
  - destruct (open_missing d0 locals p k name l Hp Hu Hc ltac:(lia) Hdir Hd) as (K & Hr & HL & Hf & _); [intros i Hi; apply Hnone; lia|apply Hk|].
    by apply (served_same _ (-1) K).
Qed.

Lemma close_served fd : well_placed k (Close fd) -> served k (Close fd).
Proof.
  intros H32. cbn in H32. unfold int32 in H32. destruct (decide (open_number p k fd /\ 2 <= fd)) as [[[Hfd Hu] H2]|Hno].
  2: { apply (served_unchanged _ (-1)). apply (close_refused d0 locals p k fd Hp). rewrite s32_id by lia.
       destruct (decide (2 <= fd)); [left|right; lia]. intros Ho. by apply Hno. }
  destruct (close_call d0 locals p k fd Hp ltac:(lia) Hu) as (K & Hr & HL & Hf & _).
  left. exists 0, K. split; [done|]. split; [by apply (left_weaken p nothing)|].
  apply (program_ok_left _ k K fd _ Hk HL ltac:(lia) Hf). intros Hx.
  pose proof (pg_fds _ _ Hp) as Hfw. fold (fds p k) in Hfw.
  by rewrite closed_fd_free in Hx by (apply (fw_flags _ Hfw); lia).
Qed.
Lemma getargs_served buf n : well_placed k (Getargs buf n) -> served k (Getargs buf n).
Proof.
  intros [H32 [Hb Hbn]]. unfold int32 in H32. pose proof (po_size _ Hk) as Hs.
  destruct (decide (arg_size (get_pcb (pcb_addr p) k) < n)) as [Hn|Hn].
  - destruct (po_args _ Hk) as (l & Hl & Hl128 & Ha).
    destruct (getargs_call d0 locals p k buf n l Hp Hl Hl128 Ha Hn) as (K & Hr & HL & Hf & _); [lia|done|done|].
    left. exists 0, K. split; [done|]. split; [done|]. by apply (program_ok_same (within buf n) k).
  - apply (served_unchanged _ (-1)). apply DO_CALL_refused, returned_Ret. rewrite s32_id by lia.
    unfold pure_call, getargs. cbv zeta. rewrite (entered_pcb p k false Hp).
    change (get_pcb (pcb_addr p) (enter_kernel false k)) with (get_pcb (pcb_addr p) k).
    by replace ((buf =? 0) || (n <? 0) || (n - 1 <? arg_size (get_pcb (pcb_addr p) k))) with true by lia.
Qed.
Lemma store_served a v : well_placed k (Store a v) -> served k (Store a v).
Proof.
  intros Ha. destruct (store_left p k a v Hp Ha) as (HL & Hf & _).
  left. exists 0, (storeb a v k). split; [done|]. split; [done|]. by apply (program_ok_same (within a 1) k).
Qed.
Lemma serve r : well_placed k r -> served k r.
Proof.
  destruct r as [fd buf n|fd buf n|name|fd|buf n|signum handler_address| |number a b c|a v]; intros Hr.
  - by apply read_served.
  - by apply write_served.
  - by apply open_served.
  - by apply close_served.
  - by apply getargs_served.
  - apply (served_unchanged (Set_handler signum handler_address) (-1)).
    apply (DO_CALL_refused d0 locals k SYS_SET_HANDLER signum handler_address 0 (-1)), returned_Ret. reflexivity.
  - apply (served_unchanged Sigreturn (-1)).
    apply (DO_CALL_refused d0 locals k SYS_SIGRETURN 0 0 0 (-1)), returned_Ret. reflexivity.
  - exact (served_unchanged (Unknown number a b c) (-1) (number_refused d0 locals k number a b c Hr)).
  - by apply store_served.
Qed.
End Served.

(** C4. Progress and preservation for a running program.  In a state that satisfies
    [program_ok], a request whose buffers and names lie in the program's page - a system call
    with any descriptor, length and contents, a number that is no system call, a store - is
    never stuck: it returns, or it waits, and it waits only for a line at the keyboard or a
    tick of the clock.  When it returns, [program_ok] holds again: every descriptor is free
    or at a place inside its file, the file system image is whole; and apart from the bytes
    the request writes, the program's descriptors, the screen, cursor and line of its own
    terminal, the hardware cursor's position and the clock's rate, nothing changed: no other
    page, process, screen, line, saved register or mapping ([left]).  Well placed leaves out
    [vidmap], [execute] and [halt], and the least integer as a frequency of the clock, on
    which [rtc_write] never ends. *)
Theorem request_served k r : program_ok k -> well_placed k r -> served k r.
Proof. intros Hk Hr. by apply serve. Qed.

(** ** A program as a strategy

    The next request may depend on the results so far, the last one first, and on what the
    program can see; the whole state is more than that. *)
Section Play.
Context (next : list Z -> kernel -> request).

Fixpoint play (n : nat) (h : list Z) : prog kernel (list Z) :=
  match n with
  | O => mret h
  | S n => λ k, (v ← send (next h k); play n (v :: h)) k
  end.
Fixpoint placed (n : nat) (h : list Z) (k : kernel) : Prop :=
  match n with
  | O => True
  | S n => well_placed k (next h k) /\ forall v K, send (next h k) k = Ret v K -> placed n (v :: h) K
  end.
Lemma play_Ret n h k v K : send (next h k) k = Ret v K -> play (S n) h k = play n (v :: h) K.
Proof. intros Hr. cbn [play]. by rewrite (bind_Ret _ _ _ _ _ Hr). Qed.

(** C3. Isolation, for any program that makes the requests above - not [vidmap], [execute] or
    [halt]: however it chooses them, as long as each is well placed when it is made - its
    buffers and names in the program's page, and no write of the least integer to the clock,
    which would never end -, [n] of them never fail to end and never reach undefined
    behaviour.  Either all are answered, or one of them waits for the keyboard or the clock.
    The state then, or the state in which the waiting request is made, differs from the first
    one as [left] allows: in the program's page and descriptors, the screen, the cursor and
    the line of its terminal, the position of the hardware cursor, the rate of the clock,
    which is the same clock for all programs, and the scratch variables of filesystem.c.  The
    image, the mapping, the task state, the keyboard's state, the other processes' blocks and
    pages, all that the terminals save (registers, process, line) but that cursor, the other
    screens and lines, and the masks and registers of the devices but the rate, are the
    same. *)
Theorem program_contained n h k :
  program_ok k -> placed n h k ->
  (exists h' K, play n h k = Ret h' K /\ left p in_user k K /\ program_ok K) \/
  ((exists K, play n h k = Wait K) /\
   exists m h' k', (m < n)%nat /\ play m h k = Ret h' k' /\ left p in_user k k' /\ program_ok k' /\ waits k' (next h' k')).
Proof.
  revert h k. induction n as [|n IH]; intros h k Hk Hpl.
  { left. exists h, k. split; [done|]. split; [apply left_refl, Hk|done]. }
  destruct Hpl as [Hwp Hpl]. destruct (serve k Hk (next h k) Hwp) as [(v & K & Hr & HL & HK)|(Hw & K & Hr)].
  - assert (left p in_user k K) as HLu by (apply (left_weaken p (writes (next h k))); done).
    destruct (IH (v :: h) K HK (Hpl v K Hr)) as [(h' & K' & Hplay & HL' & HK')|[(K' & Hwait) (m & h' & k' & Hm & Hplay & HL' & Hok)]].
    + left. exists h', K'. rewrite (play_Ret n h k v K Hr). split; [done|]. split; [by apply (left_trans p _ _ K)|done].
    + right. split; [exists K'; by rewrite (play_Ret n h k v K Hr)|].
      exists (S m), h', k'. split; [lia|]. rewrite (play_Ret m h k v K Hr). split; [done|]. split; [by apply (left_trans p _ _ K)|done].
  - right. split; [exists K; cbn [play]; unfold mbind, prog_bind; by rewrite Hr|].
    exists 0%nat, h, k. split; [lia|]. split; [done|]. split; [apply left_refl, Hk|done].
Qed.
End Play.
End Requests.

(** ** The process of [demo_user] *)
Lemma demo_user_image : image_ok demo_user.
Proof.
  split.
  - exact demo_closed.
  - assert (load32 demo_user (boot demo_user) = 2) as -> by (vm_compute; reflexivity).
    intros i Hi Hc. assert (i = 0 \/ i = 1) as [->| ->] by lia; vm_compute; discriminate.
  - exists 1. split; [lia|vm_compute; reflexivity].
  - assert (forallb (λ i, negb (entry_byte demo_user (i + 2) 32 =? 2)) (tabulate 61 id) = true) as Hc by (vm_compute; reflexivity).
    intros i Hi Hty. destruct (decide (i = 1)) as [->|Hne].
    { assert (file_inode demo_user 1 = 0) as -> by (vm_compute; reflexivity). exact demo_user_file. }
    pose proof (check_below 61 _ Hc (i - 2) ltac:(lia)) as H. cbv beta in H. rewrite Z.sub_add, Hty in H. discriminate.
  - assert (forallb (λ i, negb (entry_byte demo_user (i + 1) 32 =? 1)) (tabulate 62 id) = true) as Hc by (vm_compute; reflexivity).
    intros i Hi Hty. pose proof (check_below 62 _ Hc (i - 1) ltac:(lia)) as H. cbv beta in H. rewrite Z.sub_add, Hty in H. discriminate.
Qed.
Lemma demo_user_ok : program_ok (dentry_a (fs kernel0)) 1 demo_user.
Proof.
  destruct demo_arguments as [Hl Hz Ha Hs].
  split; [exact demo_in_program|exact demo_user_image| |exists hello; split; [exact Hl|split; [vm_compute; reflexivity|exact Ha]]
         |vm_compute; discriminate|vm_compute; reflexivity].
  intros fd Hfd. destruct (decide (fd = 2)) as [->|Hne].
  - intros _. right. right. assert (u32 (fd_inode (zget (fds 1 demo_user) 2)) = 0) as -> by (vm_compute; reflexivity).
    rewrite demo_user_size. split; [vm_compute; reflexivity|]. split; [exact demo_user_file|vm_compute; intuition discriminate].
  - intros Hu. exfalso. revert Hu.
    assert (fd = 3 \/ fd = 4 \/ fd = 5 \/ fd = 6 \/ fd = 7) as [->|[->|[->|[->| ->]]]] by lia; vm_compute; discriminate.
Qed.
Lemma request_served_witness :
  served (dentry_a (fs kernel0)) (λ _, 0) 1 demo_user (Getargs 0x8050000 1024).
Proof.
  apply request_served; [exact demo_user_ok|]. split; [split; lia|]. unfold in_page, user_base. lia.
Defined.
(** It lists the directory by hand, tries a number that is no system call, and reads a line. *)
Definition demo_requests : list request :=
  [Store 0x8050000 46; Store 0x8050001 0; Open 0x8050000; Read 3 0x8060000 33; Write 1 0x8060000 33;
   Unknown 11 0 0 0; Close 3; Read 0 0x8060000 33].
Definition demo_next (h : list Z) (k : kernel) : request := nth (length h) demo_requests Sigreturn.
Lemma demo_name : cstr (at_ptr 0x8050000 (storeb 0x8050001 0 (storeb 0x8050000 46 demo_user))) [46].
Proof.
  split; [|vm_compute; reflexivity]. intros j Hj. change (zlen [46]) with 1 in Hj. replace j with 0 by lia.
  vm_compute. split; [reflexivity|discriminate].
Qed.
Lemma store_sent d locals a v k r K : send d locals (Store a v) k = Ret r K -> K = storeb a v k.
Proof. by intros [= _ <-]. Qed.
Lemma program_contained_witness :
  let d := dentry_a (fs kernel0) in
  (exists h' K, play d (λ _, 0) demo_next 8 [] demo_user = Ret h' K /\ left 1 in_user demo_user K /\ program_ok d 1 K) \/
  ((exists K, play d (λ _, 0) demo_next 8 [] demo_user = Wait K) /\
   exists m h' k', (m < 8)%nat /\ play d (λ _, 0) demo_next m [] demo_user = Ret h' k' /\
     left 1 in_user demo_user k' /\ program_ok d 1 k' /\ waits 1 k' (demo_next h' k')).
Proof.
  intros d. apply program_contained; [exact demo_user_ok|]. cbn [placed]. unfold demo_next. cbn [length nth demo_requests].
  split; [unfold well_placed, in_user, user_base; lia|]. intros v1 K1 ->%store_sent.
  split; [unfold well_placed, in_user, user_base; lia|]. intros v2 K2 ->%store_sent.
  split. { exists [46]. split; [|split; vm_compute; discriminate]. apply demo_name. }
  assert (forall K, well_placed 1 K (Write 1 0x8060000 33)) as Hw.
  { intros K. unfold well_placed, int32, in_page, user_base, is_clock. split; [lia|]. split; [lia|]. split; [lia|]. intros [H _]. lia. }
  assert (forall K fd, fd = 0 \/ fd = 3 -> well_placed 1 K (Read fd 0x8060000 33)) as Hr.
  { intros K fd Hfd. unfold well_placed, int32, in_page, user_base, reach. destruct Hfd as [-> | ->]; cbn [Z.eqb]; lia. }
  intros v3 K3 _. split; [apply Hr; lia|]. intros v4 K4 _. split; [apply Hw|]. intros v5 K5 _.
  split; [change (~ 1 <= 11 <= 10); lia|]. intros v6 K6 _. split; [unfold well_placed, int32; lia|].
  intros v7 K7 _. split; [apply Hr; lia|]. intros v8 K8 _. exact I.
Defined.
