(* ===== verification/Lifetime.v ===== *)
(** * The lifetime of a program

    [run_program]: a program calls [execute], the program that was named runs, and its
    [halt] brings the caller back.  The theorems put the system calls and the programs of
    [Programs] together. *)
From S2P Require Import Prelude Machine Lib Paging Devices State Console Printf Terminal Filesystem SysCall Process Keyboard Scheduler Idt User Programs.

Section Run.
Context (d0 : dentry_t) (locals : kernel -> Z).

(** The call of [execute] from the point of view of the caller, when [start] is what the
    program of the file does.  The processor is back with the caller when the stack is the
    one it went to the kernel with. *)
Definition run_process (start : prog kernel exec_result) (command : Z) : prog kernel Z := λ k,
  match trap false (systemcall d0 locals SYS_EXECUTE command 0 0) k with
  | Ret (Returned r) K => Ret r K
  | Ret In_user K =>
      match start K with
      | Ret (Returned r) K => if esp (regs K) =? kernel_esp k then Ret r (leave_kernel k K) else Wait K
      | Ret In_user K => Wait K
      | Wait K => Wait K
      | Spin => Spin
      | Ub => Ub
      end
  | Wait K => Wait K
  | Spin => Spin
  | Ub => Ub
  end.
Definition run_program (main : prog kernel Z) : Z -> prog kernel Z := run_process (_start d0 locals main).
(** Process [p], entered in [K], prints [out] and comes to [halt] with [r]. *)
Definition finishes (p : Z) (start : prog kernel exec_result) (r : Z) (out : list Z) (K : kernel) : Prop :=
  exists K1 W masked, start K = trap masked (halt d0 locals (u8 r)) K1 /\ left p W K K1 /\
    (let t := current_term (sched K) in view_of t K1 = put_all out (view_of t K)).
End Run.

(** ** A change of process *)

(** The page and the id of [p]; the low memory, with the screens, is as it was. *)
Record switched (p : Z) (k K : kernel) : Prop := {
  sc_mmu : mmu_of K = (paging_change_process p (mmu_of k)).2;
  sc_sched : sched K = sched (set_pid p k);
  sc_low : forall q, q < 0x400000 -> phys K !! q = phys k !! q
}.
Section Switched.
Context (p : Z) (k K : kernel) (Hw : console_wf k) (Hp : 1 <= p <= 6) (Hs : switched p k K).

Lemma switched_wf : console_wf K.
Proof.
  destruct Hw as [Hkm Hsw]. pose proof (sw_current _ Hsw) as Hc. destruct (sw_cursor _ Hsw _ Hc). split.
  - rewrite (sc_mmu _ _ _ Hs). by apply paging_change_process_kernel_map.
  - rewrite (sc_sched _ _ _ Hs). by apply sched_wf_put.
Qed.
Lemma switched_page : user_page p (mmu_of K).
Proof. rewrite (sc_mmu _ _ _ Hs). apply user_page_change; [apply Hw|done]. Qed.
Lemma switched_turn :
  current_term (sched K) = current_term (sched k) /\ visable_term (sched K) = visable_term (sched k).
Proof. by rewrite (sc_sched _ _ _ Hs). Qed.
Lemma switched_target : video_target (mmu_of K) = video_target (mmu_of k).
Proof. rewrite (sc_mmu _ _ _ Hs). apply video_target_change_process. Qed.
Lemma switched_view t : 0 <= t < 3 -> view_of t K = view_of t k.
Proof.
  intros Ht. destruct Hw as [Hkm Hsw]. pose proof (cw_map _ switched_wf) as HkmK.
  assert (forall off, 0 <= off < 4096 -> loadb K (VIDEO + off) = loadb k (VIDEO + off)) as Hl.
  { intros off Hoff. rewrite !loadb_phys, !resolve_video by done. rewrite switched_target. unfold phys_byte.
    rewrite (sc_low _ _ _ Hs); [done|]. pose proof (video_target_range _ Hkm). unfold T3_BUF_ADDR in *. lia. }
  assert (screen_x (get_terminal t K) = screen_x (get_terminal t k) /\ screen_y (get_terminal t K) = screen_y (get_terminal t k))
    as [Hx Hy].
  { unfold get_terminal. rewrite (sc_sched _ _ _ Hs). cbn [sched set_pid set_terminal put_terminal upd set_sched terminals set_terminals].
    destruct (decide (t = current_term (sched k))) as [->|Hne].
    - rewrite zget_zset_eq by (rewrite (sw_len _ Hsw); apply Hsw). done.
    - rewrite zget_zset_ne by (done || (pose proof (sw_current _ Hsw); lia)). done. }
  unfold view_of. rewrite Hx, Hy. f_equal. apply tabulate_ext. intros i Hi. unfold CELLS in Hi.
  rewrite <- !Z.add_assoc, !Hl by lia. done.
Qed.
Lemma switched_screens : coherent k -> coherent K /\ forall t i, 0 <= t < 3 -> 0 <= i < 4096 -> screen_byte K t i = screen_byte k t i.
Proof.
  intros Hc. destruct switched_turn as [Hcur Hvis]. split.
  - unfold coherent, frame_of in *. by rewrite switched_target, Hcur, Hvis.
  - intros t i Ht Hi. unfold screen_byte, frame_of, phys_byte. rewrite Hvis, (sc_low _ _ _ Hs); [done|].
    unfold VID_START_ADDR, T1_BUF_ADDR. case_match; lia.
Qed.
End Switched.

(** ** From the call to the entry of the program *)

(** Process [pp] calls [execute] with a command line that names a program of the image, and
    [p] is the least free slot. *)
Record launches (d0 : dentry_t) (locals : kernel -> Z) (pp p : Z) (k : kernel) (command : Z) (line name rest : list Z) (n i len : Z) :
    Prop := {
  la_caller : in_program pp k;
  la_names : names_program d0 (In_memory command) (enter_kernel false k) line name rest n i len;
  la_program : is_program locals (enter_kernel false k) i;
  la_slot : find_free_pid 6 1 (processes_running k) = Some p /\ 4 <= p;
  la_block : fds_shape (fd_array (get_pcb (pcb_addr p) k)) /\ flags_ok (fd_array (get_pcb (pcb_addr p) k)) /\
    zlen (arg_arr (get_pcb (pcb_addr p) k)) = 128;
  la_running : zget (processes_running k) (pp - 1) <> 0 /\ zlen (processes_running k) = 6
}.
(** The program is entered: its arguments are set, no file is open. *)
Record launched (pp p : Z) (line : list Z) (idx : Z) (k K : kernel) : Prop := {
  en_in : in_program p K;
  en_switch : switched p k K;
  en_block : get_pcb (pcb_addr p) K =
    child_block p (pcb_addr pp) line idx (kernel_esp k) (ebp (regs k)) (get_pcb (pcb_addr p) k);
  en_free : forall j, 2 <= j < 8 -> in_use (zget (fds p K) j) = false;
  en_others : forall a, a <> pcb_addr p -> get_pcb a K = get_pcb a k;
  en_image : same_image k K;
  en_frames : forall q, 0x800000 <= q -> ~ user_frame p <= q < user_frame p + 0x400000 -> phys K !! q = phys k !! q;
  en_running : processes_running K = zset (p - 1) 1 (processes_running k);
  en_rest : term K = term k /\ kbd K = kbd k
}.

Lemma child_block_flags p a line idx e b q :
  fds_shape (fd_array q) -> flags_ok (fd_array q) -> flags_ok (fd_array (child_block p a line idx e b q)).
Proof.
  intros Hsh Hf i Hi. destruct (child_block_fds p a line idx e b q Hsh) as [Hw Hfree].
  destruct (decide (2 <= i)) as [H2|H2].
  - left. specialize (Hfree i ltac:(lia)). unfold in_use in Hfree. lia.
  - set (q1 := if NUM_TERMINALS <? p
       then q <| parent := a |> <| parent_process_id := (END_KMEM - a) / PCB_SIZE - 1 |>
       else q <| parent := 0 |>).
    assert (fds_shape (fd_array q1)) as Hq1 by (unfold q1; by destruct (NUM_TERMINALS <? p)).
    set (r := set_up_stdout (set_up_stdin q1) <| process_id := p |>).
    assert (fds_shape (fd_array r)) as Hr by (apply set_up_shape, Hq1).
    destruct (free_fds_fds r i Hr ltac:(lia)) as [He _]. rewrite decide_False in He by lia.
    change (flag_ok (zget (fd_array (free_fds r)) i)). rewrite He.
    assert (forall l f, zlen l = 4 -> flag_ok (f <| fd_flags := zset 0 1 l |>)) as Hset
      by (intros l f Hl; right; change (zget (zset 0 1 l) 0 = 1); by rewrite zget_zset_eq by lia).
    destruct Hq1 as [Hl1 Hf1]. assert (i = 0 \/ i = 1) as [->| ->] by lia.
    + change (fd_array r) with (fd_array (set_up_stdout (set_up_stdin q1))). unfold set_up_stdout, set_up_stdin.
      cbn [fd_array upd set_fd_array]. rewrite zget_zset_ne, zget_zset_eq by (rewrite ?zlen_zset; lia).
      apply Hset. change (zlen (fd_flags (zget (fd_array q1) 0)) = 4). apply Hf1. lia.
    + change (fd_array r) with (fd_array (set_up_stdout (set_up_stdin q1))). unfold set_up_stdout, set_up_stdin.
      cbn [fd_array upd set_fd_array]. rewrite zget_zset_eq by (rewrite ?zlen_zset; lia).
      apply Hset. rewrite zget_zset_ne by lia. apply Hf1. lia.
Qed.

(** A process that [execute] started. *)
Section Started.
Context (p inode : Z) (line : list Z) (idx e L : Z) (k K : kernel).
Context (Hst : started p inode line idx e L 44 k K) (Hp : 1 <= p <= 6) (HL : 0x400000 <= L).

Lemma started_switched : switched p k K.
Proof.
  split; [exact (st_mmu _ _ _ _ _ _ _ _ _ Hst)|exact (st_pid _ _ _ _ _ _ _ _ _ Hst)|].
  intros q Hq. apply (st_phys _ _ _ _ _ _ _ _ _ Hst); [unfold user_frame; lia|lia].
Qed.
Lemma started_same_image :
  kernel_map (mmu_of k) -> 0x400000 <= boot k /\ boot k + image_size k <= 0x800000 ->
  L + 44 <= boot k \/ boot k + image_size k <= L -> same_image k K.
Proof.
  intros Hkm Himg Hsep. split; [exact (proj1 (st_statics _ _ _ _ _ _ _ _ _ Hst))|]. intros a Ha. rewrite !loadb_phys. unfold phys_byte.
  rewrite (resolve_kernel K), (resolve_kernel k) by (done || lia || apply (st_map _ _ _ _ _ _ _ _ _ Hst)).
  rewrite (st_phys _ _ _ _ _ _ _ _ _ Hst); [done|unfold user_frame; lia|lia].
Qed.
Lemma started_in_program :
  console_wf k -> 0x400000 <= boot k /\ boot k + image_size k <= 0x800000 ->
  L + 44 <= boot k \/ boot k + image_size k <= L -> fs_ok (fs k) -> term_wf (term k) ->
  fds_shape (fd_array (get_pcb (pcb_addr p) k)) -> flags_ok (fd_array (get_pcb (pcb_addr p) k)) ->
  fds_wf (fd_array (get_pcb (pcb_addr p) K)) -> in_program p K.
Proof.
  intros Hw Himg Hsep Hfs Htw Hsh Hfl Hfds. destruct (st_statics _ _ _ _ _ _ _ _ _ Hst) as (Hb & Hda & Hdb).
  pose proof (started_same_image (cw_map _ Hw) Himg Hsep) as Him.
  split; [apply (switched_wf p k); [done|exact started_switched]|exact (st_page _ _ _ _ _ _ _ _ _ Hst)| |exact Hfds| | | |].
  - by rewrite (st_tss _ _ _ _ _ _ _ _ _ Hst).
  - rewrite (st_block _ _ _ _ _ _ _ _ _ Hst). by apply child_block_flags.
  - unfold fs_ok. by rewrite Hda, Hdb.
  - by rewrite (proj1 (st_rest _ _ _ _ _ _ _ _ _ Hst)).
  - by rewrite (same_image_size _ _ Him), (si_boot _ _ Him).
Qed.
End Started.

Section Entry.
Context (d0 : dentry_t) (locals : kernel -> Z) (pp p : Z) (k : kernel) (command : Z) (line name rest : list Z) (n i len : Z).
Context (Hla : launches d0 locals pp p k command line name rest n i len).
Let k0 := enter_kernel false k.

Lemma slot_range : 4 <= p <= 6 /\ p <> pp /\ zget (processes_running k) (p - 1) = 0.
Proof.
  destruct (la_slot _ _ _ _ _ _ _ _ _ _ _ _ Hla) as [Hs H4].
  pose proof (find_free_pid_least 6 1 (processes_running k)) as Hl. rewrite Hs in Hl. destruct Hl as (Hr & Hz & _).
  split; [lia|]. split; [|done]. intros ->. by destruct (la_running _ _ _ _ _ _ _ _ _ _ _ _ Hla).
Qed.
Lemma program_enters :
  exists K, trap false (systemcall d0 locals SYS_EXECUTE command 0 0) k = Ret In_user K /\
    launched pp p line (zlen name + 1) k K.
Proof.
  destruct Hla as [Hc Hn Hip [Hs H4] (Hsh & Hfl & Harg) Hrun]. destruct slot_range as (Hp & Hne & Hz).
  destruct (execute_runs d0 locals (In_memory command) k0 line name rest n i len p Hn Hip Hs Hsh Harg)
    as (K & HK & Hst & HrunK & Hw & Hfree).
  pose proof (ip_stack _ _ _ Hip) as HL. pose proof (ip_sep _ _ _ Hip) as Hsep.
  pose proof (pg_image _ _ Hc) as Himg. pose proof (cw_map _ (pg_console _ _ Hc)) as Hkm.
  fold k0 in HL, Hsep. set (L := locals (read_counts k0)) in *.
  assert (console_wf k0) as Hw0 by (destruct (pg_console _ _ Hc); by split).
  pose proof (started_same_image _ _ _ _ _ _ _ _ Hst ltac:(lia) ltac:(lia) Hkm Himg Hsep) as Him.
  destruct (started_switched _ _ _ _ _ _ _ _ Hst ltac:(lia) ltac:(lia)) as [Hs1 Hs2 Hs3].
  exists K. split; [unfold trap; change (systemcall d0 locals SYS_EXECUTE command 0 0) with (execute d0 locals (In_memory command)); fold k0; by rewrite HK|].
  assert (get_pcb_address k0 = pcb_addr pp) as Hga by (by apply entered_pcb).
  pose proof (st_block _ _ _ _ _ _ _ _ _ Hst) as Hblk. rewrite Hga in Hblk.
  split; [|by split|exact Hblk|exact Hfree|exact (st_others _ _ _ _ _ _ _ _ _ Hst)|destruct Him; by split| |exact HrunK|exact (st_rest _ _ _ _ _ _ _ _ _ Hst)].
  - refine (started_in_program _ _ _ _ _ _ _ _ Hst _ _ Hw0 Himg Hsep _ _ Hsh Hfl Hw); [lia|lia|apply Hc..].
  - intros q Hq Hn'. apply (st_phys _ _ _ _ _ _ _ _ _ Hst); [done|lia].
Qed.
End Entry.

(** ** From the end of the program back to the caller *)

(** What the caller finds when [execute] returns: nothing of its own has changed but the
    status field. *)
Record returned_to (pp p r : Z) (k K : kernel) : Prop := {
  rt_in : in_program pp K;
  rt_regs : regs K = regs k;
  rt_memory : forall a, in_user a -> loadb K a = loadb k a;
  rt_image : same_image k K;
  rt_block : get_pcb (pcb_addr pp) K = get_pcb (pcb_addr pp) k <| status := u8 r |>;
  rt_others : forall a, a <> pcb_addr pp -> a <> pcb_addr p -> get_pcb a K = get_pcb a k;
  rt_running : processes_running K = processes_running k;
  rt_lines : forall t, 0 <= t < 3 -> t <> current_term (sched k) -> line_state t (term K) = line_state t (term k);
  rt_turn : current_term (sched K) = current_term (sched k) /\ visable_term (sched K) = visable_term (sched k);
  rt_screens : coherent k -> coherent K /\
    forall t i, 0 <= t < 3 -> t <> current_term (sched k) -> 0 <= i < 4096 -> screen_byte K t i = screen_byte k t i
}.
(** Program [main] of process [p], entered in [K], ends with [r] and prints [out]. *)
Definition ends (p : Z) (main : prog kernel Z) (r : Z) (out : list Z) (K : kernel) : Prop :=
  exists K1 W, main K = Ret r K1 /\ left p W K K1 /\
    (let t := current_term (sched K) in view_of t K1 = put_all out (view_of t K)).

Section Return.
Context (d0 : dentry_t) (locals : kernel -> Z) (pp p : Z) (line : list Z) (idx r : Z) (W : Z -> Prop) (k K K1 : kernel).
Context (Hpp : in_program pp k) (Hp : 4 <= p <= 6) (Hne : p <> pp) (Hz : zget (processes_running k) (p - 1) = 0).
Context (H6 : zlen (processes_running k) = 6).
Context (He : launched pp p line idx k K) (Hl : left p W K K1).

Lemma ended_block :
  get_pcb (pcb_addr p) K1 =
    (child_block p (pcb_addr pp) line idx (kernel_esp k) (ebp (regs k)) (get_pcb (pcb_addr p) k)) <| fd_array := fds p K1 |>.
Proof. rewrite (lf_block _ _ _ _ Hl), (en_block _ _ _ _ _ _ He). done. Qed.
Lemma parent_number : (END_KMEM - pcb_addr pp) / PCB_SIZE - 1 = pp.
Proof. destruct (in_program_pid pp k Hpp) as [->|[->|[->|[->|[->| ->]]]]]; reflexivity. Qed.
Lemma pcb_addr_ne : pcb_addr p <> pcb_addr pp.
Proof. unfold pcb_addr, PCB_SIZE. lia. Qed.


(** The state when [halt] is done with the program. *)
Record halted (K2 : kernel) : Prop := {
  ha_switch : switched pp K1 K2;
  ha_high : phys K2 = phys K1;
  ha_statics : statics_closed K1 K2;
  ha_tss : esp0 (tss K2) = stack_top pp;
  ha_esp : esp (regs K2) = kernel_esp k;
  ha_block : get_pcb (pcb_addr pp) K2 = get_pcb (pcb_addr pp) K1 <| status := u8 r |>;
  ha_others : forall b, b <> pcb_addr p -> b <> pcb_addr pp -> get_pcb b K2 = get_pcb b K1;
  ha_running : processes_running K2 = zset (p - 1) 0 (processes_running K1);
  ha_term : term K2 = term K1
}.
Lemma process_halts masked :
  exists K2, trap masked (halt d0 locals (u8 r)) K1 = Ret (Returned (status (get_pcb (pcb_addr p) k))) K2 /\ halted K2.
Proof.
  pose proof (lf_in _ _ _ _ Hl) as Hin1. pose proof ended_block as Hblk. pose proof parent_number as Hpn.
  pose proof pcb_addr_ne as Hpne. pose proof (in_program_pid pp k Hpp) as Hppr.
  set (k2 := enter_kernel masked K1). pose proof (entered_pcb p K1 masked Hin1) as Ha. fold k2 in Ha.
  change (get_pcb (pcb_addr p) K1) with (get_pcb (pcb_addr p) k2) in Hblk.
  assert ((NUM_TERMINALS <? p) = true) as Hnt by (unfold NUM_TERMINALS; lia).
  destruct (halt_runs d0 locals (u8 r) k2 p pp) as (K2 & HK2 & Hrun & _ & Hpar & Hoth & Hkm & Hpg & Hsd & Htss & Hrg & Hph & Hte & Hkb & Hdv & Hmm & Hst);
    [lia|lia|exact Ha|..|exact (pg_fds _ _ Hin1)|exact (pg_flags _ _ Hin1)|apply Hin1|].
  { by rewrite Hblk. }
  { rewrite Hblk. unfold child_block. rewrite Hnt. exact Hpn. }
  { rewrite Hblk. unfold child_block. by rewrite Hnt. }
  { lia. }
  assert (status (get_pcb (pcb_addr p) k2) = status (get_pcb (pcb_addr p) k)) as Hstat
    by (rewrite Hblk; unfold child_block; by rewrite Hnt).
  assert (parent_esp (get_pcb (pcb_addr p) k2) = kernel_esp k) as Hpesp by (by rewrite Hblk).
  rewrite Hstat in HK2. rewrite Hpesp in Hrg. rewrite u8_u8 in Hpar.
  assert (esp (regs K2) = kernel_esp k) as Hesp by (by rewrite Hrg).
  exists K2. split.
  - unfold trap. fold k2. rewrite HK2.
    unfold leave_kernel. rewrite Hesp. unfold kernel_esp at 1 2. rewrite (pg_stack _ _ Hpp), (pg_stack _ _ Hin1).
    rewrite (proj2 (Z.eqb_neq _ _)); [done|]. unfold stack_top, END_KMEM, KERNEL_MEM_SIZE. rewrite !u32_id by lia. lia.
  - split; [|exact Hph|exact Hst|by rewrite Htss|exact Hesp|exact Hpar|exact Hoth|exact Hrun|exact Hte].
    split; [exact Hmm|exact Hsd|intros q _; by rewrite Hph].
Qed.

Lemma caller_resumes K2 :
  halted K2 -> returned_to pp p r k (leave_kernel k K2) /\
    view_of (current_term (sched k)) (leave_kernel k K2) = view_of (current_term (sched k)) K1.
Proof.
  intros [Hsw Hph Hst Htss Hesp Hpar Hoth Hrun Hte]. unfold leave_kernel. rewrite Hesp, Z.eqb_refl.
  set (K' := _ <| devs ::= _ |>). pose proof (lf_in _ _ _ _ Hl) as Hin1. pose proof pcb_addr_ne as Hpne.
  pose proof (pg_console _ _ Hin1) as Hw1. pose proof (switched_wf pp K1 K2 Hw1 Hsw) as [Hkm2 Hs2].
  pose proof (in_program_pid pp k Hpp) as Hppr.
  assert (user_page pp (mmu_of K2)) as Hpg by (apply (switched_page pp K1); [done|lia|done]).
  assert (get_pcb (pcb_addr pp) K' = get_pcb (pcb_addr pp) k <| status := u8 r |>) as Hblk.
  { change (get_pcb (pcb_addr pp) K') with (get_pcb (pcb_addr pp) K2).
    by rewrite Hpar, (lf_others _ _ _ _ Hl), (en_others _ _ _ _ _ _ He) by done. }
  assert (same_image k K1) as Him1 by (apply same_image_trans with K; [apply He|apply Hl]).
  pose proof (pg_image _ _ Hin1) as Himg1.
  assert (same_image K1 K') as Him2.
  { split; [exact (proj1 Hst)|]. intros a Hb. rewrite !loadb_phys.
    rewrite (resolve_kernel K'), (resolve_kernel K1) by (done || lia || apply Hw1).
    unfold phys_byte. change (phys K') with (phys K2). by rewrite Hph. }
  pose proof (same_image_trans _ _ _ Him1 Him2) as Him.
  assert (in_program pp K') as Hin.
  { split; [split; [exact Hkm2|exact Hs2]|exact Hpg|exact Htss| | | | |].
    - rewrite Hblk. apply Hpp.
    - rewrite Hblk. apply Hpp.
    - destruct (pg_static _ _ Hin1) as [HA HB]. destruct Hst as (_ & Hdb & Hda). change (fs_ok (fs K2)).
      unfold fs_ok. rewrite Hdb. by destruct Hda as [->| ->].
    - change (term_wf (term K2)). rewrite Hte. apply Hin1.
    - rewrite (same_image_size _ _ Him), (si_boot _ _ Him). apply Hpp. }
  split; [split|].
  - exact Hin.
  - done.
  - intros a Ha. rewrite !loadb_phys, (user_resolve pp K'), (user_resolve pp k) by done.
    unfold phys_byte. change (phys K') with (phys K2). unfold in_user, user_base in Ha. unfold user_base.
    assert (~ user_frame p <= user_frame pp + (a - 0x8000000) < user_frame p + 0x400000 /\ 0x800000 <= user_frame pp + (a - 0x8000000))
      as [Hfr Hhi] by (unfold user_frame; lia).
    by rewrite Hph, (lf_frames _ _ _ _ Hl), (en_frames _ _ _ _ _ _ He) by (done || lia).
  - exact Him.
  - exact Hblk.
  - intros a Ha Ha'. change (get_pcb a K') with (get_pcb a K2).
    by rewrite Hoth, (lf_others _ _ _ _ Hl), (en_others _ _ _ _ _ _ He) by done.
  - change (processes_running K') with (processes_running K2).
    rewrite Hrun, (lf_running _ _ _ _ Hl), (en_running _ _ _ _ _ _ He), zset_zset. by rewrite <- Hz at 1; rewrite zset_id by lia.
  - intros t Ht Hnt. change (term K') with (term K2). destruct (switched_turn _ _ _ (en_switch _ _ _ _ _ _ He)) as [Ccur _].
    rewrite Hte, (lf_lines _ _ _ _ Hl) by (done || congruence). by rewrite (proj1 (en_rest _ _ _ _ _ _ He)).
  - destruct (switched_turn _ _ _ Hsw) as [A1 A2], (lf_turn _ _ _ _ Hl) as [B1 B2], (switched_turn _ _ _ (en_switch _ _ _ _ _ _ He)) as [C1 C2].
    change (sched K') with (sched K2). split; congruence.
  - intros Hc. destruct (switched_screens p k K (en_switch _ _ _ _ _ _ He) Hc) as [Hc0 Hs0].
    destruct (lf_screens _ _ _ _ Hl Hc0) as [Hc1 Hs1]. destruct (switched_screens pp K1 K2 Hsw Hc1) as [Hc2 Hs2'].
    split; [exact Hc2|]. intros t i Ht Hnt Hi. change (screen_byte K' t i) with (screen_byte K2 t i).
    destruct (switched_turn _ _ _ (en_switch _ _ _ _ _ _ He)) as [Ccur _].
    rewrite Hs2', Hs1, Hs0; (done || congruence).
  - change (view_of (current_term (sched k)) K') with (view_of (current_term (sched k)) K2).
    apply (switched_view pp K1 K2); [done|done|]. apply (pg_console _ _ Hpp).
Qed.
End Return.

Section Life.
Context (d0 : dentry_t) (locals : kernel -> Z) (lit : list Z -> Z).

Lemma process_runs start r out pp p k command line name rest n i len :
  launches d0 locals pp p k command line name rest n i len ->
  (forall K, launched pp p line (zlen name + 1) k K -> finishes d0 locals p start r out K) ->
  exists K, run_process d0 locals start command k = Ret (status (get_pcb (pcb_addr p) k)) K /\ returned_to pp p r k K /\
    (let t := current_term (sched k) in view_of t K = put_all out (view_of t k)).
Proof.
  intros Hla Hmain. destruct (program_enters _ _ _ _ _ _ _ _ _ _ _ _ Hla) as (K & HK & He).
  destruct (slot_range _ _ _ _ _ _ _ _ _ _ _ _ Hla) as (Hp & Hne & Hz).
  destruct (Hmain K He) as (K1 & W & masked & HK1 & Hl & Hv).
  pose proof (la_caller _ _ _ _ _ _ _ _ _ _ _ _ Hla) as Hpp. pose proof (pg_console _ _ Hpp) as Hw.
  destruct (la_running _ _ _ _ _ _ _ _ _ _ _ _ Hla) as [_ H6].
  destruct (process_halts d0 locals pp p line (zlen name + 1) r W k K K1 Hpp Hp Hne He Hl masked) as (K2 & HK2 & Hh).
  destruct (caller_resumes pp p line (zlen name + 1) r W k K K1 Hpp Hp Hne Hz H6 He Hl K2 Hh) as [Hrt Hv2].
  exists (leave_kernel k K2). split; [|split; [exact Hrt|]].
  - unfold run_process. rewrite HK, HK1, HK2. rewrite (ha_esp _ _ _ _ _ _ Hh). by rewrite Z.eqb_refl.
  - pose proof (en_switch _ _ _ _ _ _ He) as Hsw. destruct (switched_turn _ _ _ Hsw) as [Hcur _].
    cbv zeta in Hv |- *. rewrite Hcur in Hv. rewrite Hv2, Hv, (switched_view p k K Hw Hsw); [done|]. apply Hw.
Qed.
(** [main] returned to [_start]. *)
Lemma ends_finishes p main r out K : ends p main r out K -> finishes d0 locals p (_start d0 locals main) r out K.
Proof.
  intros (K1 & W & HK1 & HL & Hv). exists K1, W, false. split; [|done]. unfold _start. by rewrite (bind_Ret _ _ _ _ _ HK1).
Qed.

(** ** A command of the shell *)

(** [cat] as the command [cat name]. *)
Lemma cat_ends pp p k K buf name i :
  launched pp p (text "cat " ++ name) 4 k K -> plain name -> 0 < zlen name <= 32 ->
  user_base <= buf -> buf + 1024 <= user_base + 0x400000 ->
  dir_closed k -> names_file d0 k name i -> entry_byte k i 32 = 2 -> file_wf k (file_inode k i) ->
  ends p (cat d0 locals lit buf) 0 (file_bytes k (file_inode k i) 0 (file_size k (file_inode k i))) K.
Proof.
  intros [Hin _ Hblk Hfree _ Him _ _ _] Hpl Hl Hb Hbn Hd Hn Hty Hf.
  pose proof (nf_entry _ _ _ _ Hn) as (Hi & _). set (file := file_inode k i) in *.
  assert (file_inode K i = file) as Hino by (unfold file_inode; by rewrite (same_image_entry k K) by (done || lia)).
  destruct (same_image_file _ _ file Him Hf) as (HfK & Hsz & _).
  assert (free_fd p K = 2) as Hfd.
  { specialize (Hfree 2 ltac:(lia)). unfold in_use in Hfree. unfold free_fd, FDSTART. cbn [find_free_fd].
    by replace (zget (fd_flags (zget (fds p K) 2)) 0 =? 0) with true by lia. }
  destruct (cat_prints d0 locals lit p K buf name i Hin) as (K1 & HK1 & HL & _ & Hv); rewrite ?Hino; try done.
  - split; [done|done|by rewrite Hblk|]. rewrite Hblk. change (zlen (text "cat " ++ name) < 1024). rewrite zlen_app.
    change (zlen (text "cat ")) with 4. lia.
  - by apply (same_image_closed k).
  - by apply (names_file_left d0 k).
  - by rewrite (same_image_entry k K) by (done || lia).
  - rewrite Hfd. lia.
  - exists K1, (within buf 1024). split; [done|]. split; [done|]. cbv zeta in Hv |- *.
    rewrite Hino, Hsz, (same_image_bytes k K) in Hv; [done|done|done|lia|lia].
Qed.

(** [name] is an executable of the image, file [i]; [execute] has room for its arrays on
    every kernel stack. *)
Record executable (k : kernel) (name : list Z) (i : Z) : Prop := {
  ex_image : 0x400000 <= boot k /\ boot k + image_size k <= 0x800000;
  ex_dir : dir_closed k /\ ~ is_directory k name;
  ex_entry : 1 <= i <= 62 /\ entry_name k i = name /\ forall j, 1 <= j < i -> entry_name k j <> name;
  ex_file : file_wf k (file_inode k i) /\ METADATAEXECUTESIZE <= file_size k (file_inode k i) <= 0x3B8000;
  ex_magic : file_bytes k (file_inode k i) 0 4 = [0x7f; 0x45; 0x4C; 0x46];
  ex_room : forall K, 0x400000 <= locals K /\ locals K + 44 <= 0x800000 /\
    (locals K + 44 <= boot k \/ boot k + image_size k <= locals K);
  ex_d0 : zlen (State.fname d0) = 32
}.
Lemma executable_length k name i : executable k name i -> zlen name <= 32.
Proof. intros He. destruct (ex_entry _ _ _ He) as (_ & <- & _). apply (name_at_zlen 32). Qed.
Lemma same_image_inode k K i : same_image k K -> 0 <= i <= 62 -> file_inode K i = file_inode k i.
Proof. intros HI Hi. unfold file_inode. by rewrite (same_image_entry k K) by (done || lia). Qed.
Lemma executable_same k K name i : same_image k K -> executable k name i -> executable K name i.
Proof.
  intros HI Hex. pose proof (executable_length _ _ _ Hex) as Hl. destruct Hex as [Himg [Hd Hnd] (Hi & He & Hfirst) [Hf Hsz] Hmag Hroom Hd0].
  pose proof (same_image_inode k K i HI ltac:(lia)) as Hino.
  destruct (same_image_file _ _ (file_inode k i) HI Hf) as (HfK & HszK & _).
  split; rewrite ?Hino, ?(same_image_size _ _ HI), ?(si_boot _ _ HI), ?HszK; try done.
  - split; [by apply (same_image_closed k)|]. intros Hx. apply Hnd. by apply (same_image_directory k K).
  - split; [done|]. split; [by rewrite (same_image_name k K) by (done || lia)|].
    intros j Hj. rewrite (same_image_name k K) by (done || lia). by apply Hfirst.
  - rewrite <- Hmag. apply same_image_bytes; [done|done|lia|]. unfold METADATAEXECUTESIZE in Hsz. lia.
Qed.
Lemma executable_is_program k name i : kernel_map (mmu_of k) -> executable k name i -> is_program locals k i.
Proof.
  intros Hkm [Himg [Hd Hnd] (Hi & He & Hfirst) [Hf Hsz] Hmag Hroom Hd0]. split; [by split|exact Hmag|split; apply Hroom|apply Hroom].
Qed.
(** [execute] finds it, as a command of its own or with arguments. *)
Lemma executable_names k command line name rest i :
  executable k name i -> is_null command = false -> strlen (chars command k) = Some (zlen line) -> zlen line <= 126 ->
  typed (chars command k) line -> line = name ++ rest -> name <> [] /\ Forall (λ c, c <> 32) name -> rest = [] \/ hd 0 rest = 32 ->
  names_program d0 command k line name rest 0 i (zlen line).
Proof.
  intros [Himg [Hd Hnd] Hent _ _ _ Hd0] Hnull Hlen Hl Hty Heq Hname Hrest.
  split; [done|split; [done|lia]|done|by split|done|done|split; [by apply dir_closed_ok|done]|exact Hent].
Qed.

(** The line of the shell: a program of the image and its arguments, and a slot for it. *)
Record command_line (pp p : Z) (k : kernel) (line name rest : list Z) (i : Z) : Prop := {
  cl_line : line = name ++ rest;
  cl_name : name <> [] /\ Forall (λ c, c <> 32) name;
  cl_rest : rest = [] \/ hd 0 rest = 32;
  cl_plain : plain line /\ Forall (λ c, c <> 10) line;
  cl_short : zlen line <= 126;
  cl_program : executable k name i;
  cl_slot : find_free_pid 6 1 (processes_running k) = Some p /\ 4 <= p;
  cl_block : fds_shape (fd_array (get_pcb (pcb_addr p) k)) /\ flags_ok (fd_array (get_pcb (pcb_addr p) k)) /\
    zlen (arg_arr (get_pcb (pcb_addr p) k)) = 128;
  cl_running : zget (processes_running k) (pp - 1) <> 0 /\ zlen (processes_running k) = 6
}.
Lemma command_line_other pp p k line name rest i :
  in_program pp k -> command_line pp p k line name rest i -> pcb_addr p <> pcb_addr pp.
Proof.
  intros Hp Hc. destruct (cl_slot _ _ _ _ _ _ _ Hc) as [Hs H4].
  pose proof (find_free_pid_least 6 1 (processes_running k)) as Hl. rewrite Hs in Hl. destruct Hl as (Hr & Hz & _).
  intros Heq. assert (p = pp) as -> by (unfold pcb_addr, PCB_SIZE in Heq; lia).
  by destruct (cl_running _ _ _ _ _ _ _ Hc).
Qed.
(** In a later state of the shell with the line in its buffer, [execute] finds the program. *)
Lemma command_launches pp p W k K buf line name rest i :
  in_program pp k -> command_line pp p k line name rest i -> left pp W k K -> string_at K buf line ->
  launches d0 locals pp p K buf line name rest 0 i (zlen line).
Proof.
  intros Hp Hcl HL [Hs Ha]. pose proof (command_line_other _ _ _ _ _ _ _ Hp Hcl) as Hne.
  destruct Hcl as [Hline Hname Hrest [Hpl Hnl] Hshort Hex Hslot Hblk Hrun]. pose proof (zlen_nonneg line) as Hl0.
  pose proof (lf_others _ _ _ _ HL (pcb_addr p) Hne) as Hpcb.
  assert (executable (enter_kernel false K) name i) as HexK.
  { apply (executable_same k); [|done]. destruct (lf_image _ _ _ _ HL) as [Hb Hm]. by split. }
  split; [apply HL| | | | |by rewrite (lf_running _ _ _ _ HL)].
  - apply executable_names; [done|cbn; apply Z.eqb_neq; unfold user_base in Ha; lia|by apply (strlen_cstr _ _ Hs ltac:(lia))|done| |done..].
    split; [done|done| |right; exact (proj2 Hs)]. intros j Hj. by apply Hs.
  - apply (executable_is_program _ name); [apply HL|done].
  - by rewrite (lf_running _ _ _ _ HL).
  - by rewrite Hpcb.
Qed.

(** What the shell says about the value of [execute]. *)
Definition exit_message (rval : Z) : list Z :=
  if rval =? -1 then text "no such command" ++ [10]
  else if rval =? 256 then text "program terminated by exception" ++ [10]
  else if negb (rval =? 0) then text "program terminated abnormally" ++ [10]
  else [].
(** The shell in its prompt: its buffer of 1024 bytes apart from its literals, a line entered. *)
Record at_prompt (pp : Z) (k : kernel) (buf : Z) (line : list Z) : Prop := {
  ap_in : in_program pp k;
  ap_buf : user_base <= buf /\ buf + 1024 <= user_base + 0x400000;
  ap_literals : Forall (λ s, string_at k (lit s) s /\ (lit s + zlen s < buf \/ buf + 1024 <= lit s))
    [text "391OS> "; text "exit"; exit_message (-1); exit_message 256; exit_message 1];
  ap_line : entered (current_term (sched k)) (term k) = Some line;
  ap_exit : 0 < zlen line /\ zget line 0 <> 101
}.
Lemma at_prompt_literal pp k buf line s :
  at_prompt pp k buf line -> s ∈ [text "391OS> "; text "exit"; exit_message (-1); exit_message 256; exit_message 1] ->
  string_at k (lit s) s /\ (lit s + zlen s < buf \/ buf + 1024 <= lit s).
Proof. intros Hap Hs. by apply (proj1 (Forall_forall _ _) (ap_literals _ _ _ _ Hap)). Qed.

(** The prompt, the line and its end. *)
Lemma shell_reads ex pp k buf line :
  at_prompt pp k buf line -> plain line -> zlen line <= 126 ->
  exists K, shell_round d0 locals lit ex buf k =
      (rval ← ex buf; _ ← report_value d0 locals lit rval; mret (inl tt)) K /\
    left pp (within buf 1024) k K /\ string_at K buf line /\
    (let t := current_term (sched k) in view_of t K = put_all (text "391OS> ") (view_of t k)).
Proof.
  intros Hap Hpl Hl. pose proof (plain_bytes _ Hpl) as Hby. destruct (ap_buf _ _ _ _ Hap) as [Hb Hbn].
  destruct (ap_exit _ _ _ _ Hap) as [Hl0 Hexit].
  destruct (say_prints d0 locals lit pp k (text "391OS> ") (text "391OS> ") (ap_in _ _ _ _ Hap))
    as (K1 & H1 & HL1 & [_ Ht1] & Hv1); [apply (at_prompt_literal _ _ _ _ _ Hap); left|].
  destruct (lf_turn _ _ _ _ HL1) as [Hc1 _].
  destruct (read_line d0 locals pp K1 buf 1023 1023 line) as (K2 & H2 & HL2 & _ & Hload & _ & Hv2);
    [apply HL1|rewrite Hc1, Ht1; apply Hap|lia|lia|done|lia|]. specialize (Hload Hby).
  assert (forall j, 0 <= j <= zlen line -> loadb K2 (buf + j) = zget (line ++ [10]) j) as Hmem.
  { intros j Hj. rewrite <- Hload. unfold load_bytes. by rewrite zget_tabulate by lia. }
  destruct (store_left pp K2 (buf + zlen line) 0) as (HL3 & _ & Hb3 & Hv3); [apply HL2|unfold in_user; lia|].
  set (K3 := storeb (buf + zlen line) 0 K2) in *.
  assert (left pp (within buf 1024) k K3) as HL.
  { apply left_trans with K1; [by apply (left_weaken pp nothing)|]. apply left_trans with K2.
    - apply (left_weaken pp (within buf 1023)); [unfold within; lia|done].
    - apply (left_weaken pp (within (buf + zlen line) 1)); [unfold within; lia|done]. }
  assert (string_at K3 buf line) as Hs3.
  { split; [|lia]. unfold at_ptr. split; [|done]. intros j Hj. pose proof (plain_zget line j Hpl Hj).
    rewrite (lf_memory _ _ _ _ HL3) by (unfold in_user, within; lia). rewrite Hmem, zget_app_l by lia. split; [done|lia]. }
  destruct (at_prompt_literal _ _ _ _ (text "exit") Hap ltac:(right; left)) as [Hx Hxsep]. change (zlen (text "exit")) with 4 in Hxsep.
  assert (string_at K3 (lit (text "exit")) (text "exit")) as [[Hx3 _] _]
    by (apply (string_left pp k K3 (within buf 1024)); [done|done|]; change (zlen (text "exit")) with 4; unfold within; lia).
  assert (loadb K3 buf = zget line 0) as Hfirst.
  { destruct Hs3 as [[Hc _] _]. destruct (Hc 0 ltac:(lia)) as [Hc0 _]. unfold at_ptr in Hc0. by rewrite Z.add_0_r in Hc0. }
  assert (ece391_strcmp buf (lit (text "exit")) K3 = Ret (zget line 0 - 101) K3) as Hcmp.
  { destruct (Hx3 0 ltac:(vm_compute; intuition discriminate)) as [Hx0 _]. unfold at_ptr in Hx0. change (zget (text "exit") 0) with 101 in Hx0.
    unfold ece391_strcmp. erewrite while_runs; [done| |by instantiate (1 := 1%nat)]. apply runs_leave. rewrite Z.add_0_r, Hfirst, Hx0.
    by rewrite (proj2 (Z.eqb_neq _ _)). }
  exists K3. split; [|split; [done|split; [done|]]].
  - unfold shell_round. rewrite (bind_Ret _ _ _ _ _ H1), (bind_Ret _ _ _ _ _ H2).
    replace (zlen line + 1 =? -1) with false by lia. rewrite bind_get.
    assert (loadb K2 (buf + (zlen line + 1) - 1) = 10) as ->.
    { replace (buf + (zlen line + 1) - 1) with (buf + zlen line) by lia. rewrite Hmem, zget_app_r by lia. by rewrite Z.sub_diag. }
    replace (0 <? zlen line + 1) with true by lia. cbn [andb Z.eqb Pos.eqb]. cbv zeta.
    replace (zlen line + 1 - 1) with (zlen line) by lia. rewrite bind_modify. fold K3. rewrite (bind_Ret _ _ _ _ _ Hcmp).
    replace (zget line 0 - 101 =? 0) with false by lia. rewrite bind_get, Hfirst.
    pose proof (plain_zget line 0 Hpl ltac:(lia)). by replace (zget line 0 =? 0) with false by lia.
  - cbv zeta in Hv1 |- *. by rewrite Hv3, Hv2, Hv1.
Qed.
End Life.

(** What it says about the value that [execute] returned. *)
Lemma report_prints d0 locals lit pp k rval :
  in_program pp k -> Forall (λ s, string_at k (lit s) s) [exit_message (-1); exit_message 256; exit_message 1] ->
  exists K, report_value d0 locals lit rval k = Ret tt K /\ left pp nothing k K /\
    (let t := current_term (sched k) in view_of t K = put_all (exit_message rval) (view_of t k)).
Proof.
  intros Hp Hlit.
  assert (forall s, s ∈ [exit_message (-1); exit_message 256; exit_message 1] ->
    exists K, ece391_fdputs d0 locals 1 (lit s) k = Ret tt K /\ left pp nothing k K /\
      (let t := current_term (sched k) in view_of t K = put_all s (view_of t k))) as Hsay.
  { intros s Hs. destruct (say_prints d0 locals lit pp k s s Hp) as (K & HK & HL & _ & Hv);
      [by apply (proj1 (Forall_forall _ _) Hlit)|]. by exists K. }
  unfold report_value, exit_message.
  destruct (rval =? -1); [apply (Hsay (exit_message (-1))); left|].
  destruct (rval =? 256); [apply (Hsay (exit_message 256)); right; left|].
  destruct (rval =? 0); cbn [negb]; [|apply (Hsay (exit_message 1)); right; right; left].
  exists k. split; [done|]. split; [by apply left_refl|done].
Qed.

(** What a command leaves of the shell: its memory apart from the buffer, the slots, and
    the screens of the other terminals. *)
Record back_at_prompt (pp : Z) (buf : Z) (k K : kernel) : Prop := {
  bp_in : in_program pp K;
  bp_regs : regs K = regs k;
  bp_memory : forall a, in_user a -> ~ within buf 1024 a -> loadb K a = loadb k a;
  bp_image : same_image k K;
  bp_running : processes_running K = processes_running k;
  bp_turn : current_term (sched K) = current_term (sched k) /\ visable_term (sched K) = visable_term (sched k);
  bp_screens : coherent k -> coherent K /\
    forall t i, 0 <= t < 3 -> t <> current_term (sched k) -> 0 <= i < 4096 -> screen_byte K t i = screen_byte k t i
}.
Lemma back_after pp p r buf k K1 K2 K3 :
  left pp (within buf 1024) k K1 -> returned_to pp p r K1 K2 -> left pp nothing K2 K3 -> back_at_prompt pp buf k K3.
Proof.
  intros A B C. destruct (lf_turn _ _ _ _ A) as [A1 A2], (rt_turn _ _ _ _ _ B) as [B1 B2], (lf_turn _ _ _ _ C) as [C1 C2].
  split; [apply C| | | | |split; congruence|].
  - by rewrite (lf_regs _ _ _ _ C), (rt_regs _ _ _ _ _ B), (lf_regs _ _ _ _ A).
  - intros a Ha Hw. by rewrite (lf_memory _ _ _ _ C), (rt_memory _ _ _ _ _ B), (lf_memory _ _ _ _ A) by (done || intros []).
  - apply same_image_trans with K1; [apply A|]. apply same_image_trans with K2; [apply B|apply C].
  - by rewrite (lf_running _ _ _ _ C), (rt_running _ _ _ _ _ B), (lf_running _ _ _ _ A).
  - intros [Hc1 Hs1]%(lf_screens _ _ _ _ A). destruct (rt_screens _ _ _ _ _ B Hc1) as [Hc2 Hs2].
    destruct (lf_screens _ _ _ _ C Hc2) as [Hc3 Hs3]. split; [done|]. intros t i Ht Hne Hi.
    rewrite Hs3, Hs2, Hs1; (done || congruence).
Qed.

Lemma shell_round_runs d0 locals lit start r out pp p k buf line name rest i :
  at_prompt lit pp k buf line -> command_line d0 locals pp p k line name rest i ->
  (forall K0 K, left pp (within buf 1024) k K0 -> launched pp p line (zlen name + 1) K0 K -> finishes d0 locals p start r out K) ->
  exists K, shell_round d0 locals lit (run_process d0 locals start) buf k = Ret (inl tt) K /\ back_at_prompt pp buf k K /\
    (let t := current_term (sched k) in
     view_of t K = put_all (text "391OS> " ++ out ++ exit_message (status (get_pcb (pcb_addr p) k))) (view_of t k)).
Proof.
  intros Hap Hcl Hmain. pose proof (ap_in _ _ _ _ _ Hap) as Hpp. pose proof (cl_plain _ _ _ _ _ _ _ _ _ Hcl) as [Hpl _].
  destruct (shell_reads d0 locals lit (run_process d0 locals start) pp k buf line Hap Hpl) as (K1 & H1 & HL1 & Hs1 & Hv1);
    [by apply Hcl|].
  pose proof (command_launches d0 locals pp p _ k K1 buf line name rest i Hpp Hcl HL1 Hs1) as Hla.
  destruct (process_runs d0 locals start r out pp p K1 buf line name rest 0 i (zlen line) Hla (λ K, Hmain K1 K HL1)) as (K2 & H2 & HB & Hv2).
  assert (Forall (λ s, string_at K2 (lit s) s) [exit_message (-1); exit_message 256; exit_message 1]) as Hlit.
  { apply Forall_forall. intros s Hs.
    destruct (at_prompt_literal lit pp k buf line s Hap ltac:(do 2 right; exact Hs)) as [Hx Hsep].
    destruct (string_left pp k K1 (within buf 1024) (lit s) s HL1 Hx) as [[Hc H0] Hpl1]; [unfold within; lia|].
    pose proof (zlen_nonneg s). split; [split|done]; unfold at_ptr in *.
    - intros j Hj. rewrite (rt_memory _ _ _ _ _ HB) by (unfold in_user; lia). by apply Hc.
    - by rewrite (rt_memory _ _ _ _ _ HB) by (unfold in_user; lia). }
  destruct (report_prints d0 locals lit pp K2 (status (get_pcb (pcb_addr p) K1)) (rt_in _ _ _ _ _ HB) Hlit) as (K3 & H3 & HL3 & Hv3).
  pose proof (command_line_other d0 locals pp p k line name rest i Hpp Hcl) as Hne.
  rewrite (lf_others _ _ _ _ HL1 _ Hne) in H2, H3, Hv3.
  destruct (lf_turn _ _ _ _ HL1) as [T1 _], (rt_turn _ _ _ _ _ HB) as [T2 _]. cbv zeta in Hv1, Hv2, Hv3 |- *.
  exists K3. split; [|split; [by apply (back_after pp p r buf k K1 K2)|]].
  - by rewrite H1, (bind_Ret _ _ _ _ _ H2), (bind_Ret _ _ _ _ _ H3).
  - rewrite T2, T1 in Hv3. rewrite T1 in Hv2. by rewrite Hv3, Hv2, Hv1, <- !put_all_app.
Qed.

(** C18. A command [cat name] at the prompt, for every file of the image and every length of
    it: the shell prints its prompt, [execute] starts [cat] in the free slot with its own
    page and kernel stack, [cat] prints the file, and its [halt] brings the shell back to
    the prompt with its registers, its memory apart from the line buffer and the slots as
    they were, on a screen that shows the prompt and the bytes of the file - and the
    message for the value that [execute] returns, which is what the control block of the
    slot held as its status before, whatever [cat] returned.  The screens of the other
    terminals have not changed. *)
Theorem shell_runs_cat d0 locals lit lit' pp p k buf cbuf name i file :
  let line := text "cat " ++ name in
  at_prompt lit pp k buf line -> command_line d0 locals pp p k line (text "cat") ([32] ++ name) i ->
  names_file d0 k name file -> entry_byte k file 32 = 2 -> file_wf k (file_inode k file) ->
  user_base <= cbuf -> cbuf + 1024 <= user_base + 0x400000 ->
  let bytes := file_bytes k (file_inode k file) 0 (file_size k (file_inode k file)) in
  let message := exit_message (status (get_pcb (pcb_addr p) k)) in
  exists K, shell_round d0 locals lit (run_program d0 locals (cat d0 locals lit' cbuf)) buf k = Ret (inl tt) K /\
    back_at_prompt pp buf k K /\
    (let t := current_term (sched k) in view_of t K = put_all (text "391OS> " ++ bytes ++ message) (view_of t k)).
Proof.
  intros line Hap Hcl Hn Hty Hf Hc Hcn bytes message.
  apply (shell_round_runs d0 locals lit _ 0 bytes pp p k buf line (text "cat") ([32] ++ name) i Hap Hcl).
  intros K0 K HL He. apply ends_finishes. change (zlen (text "cat") + 1) with 4 in He. pose proof (lf_image _ _ _ _ HL) as HI.
  destruct (ex_dir _ _ _ _ _ (cl_program _ _ _ _ _ _ _ _ _ Hcl)) as [Hd _]. pose proof (nf_entry _ _ _ _ Hn) as (Hi & _).
  assert (file_inode K0 file = file_inode k file) as Hino by (unfold file_inode; by rewrite (same_image_entry k K0) by (done || lia)).
  destruct (same_image_file _ _ _ HI Hf) as (Hf0 & Hsz & _).
  pose proof (cat_ends d0 locals lit' pp p K0 K cbuf name file He) as Hends. rewrite Hino, Hsz in Hends.
  rewrite (same_image_bytes k K0) in Hends by (done || lia). apply Hends; try done.
  - exact (nf_plain _ _ _ _ Hn).
  - exact (nf_short _ _ _ _ Hn).
  - by apply (same_image_closed k).
  - by apply (names_file_left d0 k).
  - by rewrite (same_image_entry k K0) by (done || lia).
Qed.

(** The shell of process 1 with the line [cat hello] entered; [cat] and [hello] are in the
    image, and a program that ended with 3 ran in slot 4 before. *)
Definition session_lit (s : list Z) : Z :=
  0x8048100 + (if decide (s = text "391OS> ") then 0 else if decide (s = text "exit") then 16
    else if decide (s = exit_message (-1)) then 32 else if decide (s = exit_message 256) then 64 else 128).
Definition session_image : gmap Z Z :=
  let at_ a l m := store_bytes (0x410000 + a) l m in
  let literal s m := store_bytes (session_lit s - 0x8000000 + 0x800000) s m in
  at_ 0 (bytes32 3 ++ bytes32 2 ++ bytes32 2)
    (at_ 64 [46] (at_ 96 (bytes32 1)
      (at_ 128 (text "cat") (at_ 160 (bytes32 2 ++ bytes32 0)
        (at_ 192 hello (at_ 224 (bytes32 2 ++ bytes32 1)
          (at_ 4096 (bytes32 60 ++ bytes32 0)
            (at_ 8192 (bytes32 4 ++ bytes32 1)
              (at_ 12288 [0x7f; 0x45; 0x4C; 0x46] (at_ 12312 (bytes32 0x80482E8)
                (at_ 16384 (text "hi!" ++ [10])
  (literal (text "391OS> ") (literal (text "exit") (literal (exit_message (-1)) (literal (exit_message 256)
    (literal (exit_message 1) ∅)))))))))))))))).
Definition session_line : list Z := text "cat hello".
Definition session : kernel :=
  demo_user <| phys := session_image |> <| term ::= with_line 0 (session_line ++ replicate 119 0) 9 |>
            <| processes_running := [1; 1; 1; 0; 0; 0] |>
            <| pcbs ::= <[0x7F6000 := pcb0 <| status := 3 |>]> |>.
Lemma session_in_program : in_program 1 session.
Proof.
  destruct demo_in_program as [[H0 H1] H2 H3 H4 H5 H6 H7 H8]. split; [split; [exact H0|exact H1]|exact H2|exact H3| | |exact H6| |].
  - change (fds_wf (proc_fds demo_sys)). exact demo_fds.
  - apply flags_check_ok. vm_compute. reflexivity.
  - apply with_line_wf; [exact kernel0_term_wf|lia|reflexivity|lia].
  - vm_compute. intuition discriminate.
Qed.
Lemma session_prompt : at_prompt session_lit 1 session 0x8050000 session_line.
Proof.
  split; [exact session_in_program|unfold user_base; lia| |vm_compute; reflexivity|vm_compute; split; [reflexivity|discriminate]].
  repeat (apply Forall_cons; split; [split; [apply string_check_ok; vm_compute; reflexivity|left; vm_compute; reflexivity]|]).
  by constructor.
Qed.
Lemma session_closed : dir_closed session.
Proof. apply dir_check_ok. vm_compute. reflexivity. Qed.
(** Both files have one block. *)
Lemma session_file j : 0 <= j <= 1 -> file_size session j = 60 - 56 * j -> block_no session j 0 = j -> file_wf session j.
Proof.
  intros Hj Hs Hb. assert (load32 session (boot session + 4) = 2) as Hi by (vm_compute; reflexivity).
  assert (load32 session (boot session + 8) = 2) as Hd by (vm_compute; reflexivity).
  split; [discriminate|rewrite Hi; lia|rewrite Hs; unfold MAX_FILE_SIZE, FS_BLOCK_SIZE; lia|].
  intros i Hi'. rewrite Hs in Hi'. replace (i / 4096) with 0 by (Z.div_mod_to_equations; lia). rewrite Hb, Hd. lia.
Qed.
Lemma session_executable : executable (dentry_a (fs kernel0)) (λ _, 0x7F0000) session (text "cat") 1.
Proof.
  assert (file_inode session 1 = 0) as Hino by (vm_compute; reflexivity).
  assert (file_size session 0 = 60) as Hs by (vm_compute; reflexivity).
  assert (boot session + image_size session = 0x415000) as Himg by (vm_compute; reflexivity).
  split.
  - rewrite Himg. vm_compute. split; discriminate.
  - split; [exact session_closed|]. intros Hd. specialize (Hd 0 ltac:(vm_compute; intuition discriminate)). vm_compute in Hd. discriminate Hd.
  - split; [lia|]. split; [vm_compute; reflexivity|intros; lia].
  - rewrite Hino. split; [apply session_file; [lia|exact Hs|vm_compute; reflexivity]|rewrite Hs; vm_compute; intuition discriminate].
  - vm_compute. reflexivity.
  - intros _. split; [lia|]. split; [lia|]. right. rewrite Himg. lia.
  - vm_compute. reflexivity.
Qed.
Lemma session_command :
  command_line (dentry_a (fs kernel0)) (λ _, 0x7F0000) 1 4 session session_line (text "cat") ([32] ++ hello) 1.
Proof.
  split.
  - reflexivity.
  - split; [discriminate|]. repeat constructor; discriminate.
  - right. reflexivity.
  - split; repeat constructor; (reflexivity || discriminate).
  - discriminate.
  - exact session_executable.
  - split; [vm_compute; reflexivity|lia].
  - change (fd_array (get_pcb (pcb_addr 4) session)) with (fd_array pcb0). split; [|split; [apply flags_check_ok; vm_compute; reflexivity|vm_compute; reflexivity]].
    split; [reflexivity|]. intros i Hi.
    pose proof (check_below 8 (λ i, zlen (fd_flags (zget (fd_array pcb0) i)) =? 4) ltac:(vm_compute; reflexivity) i ltac:(lia)) as Hc.
    cbv beta in Hc. lia.
  - split; [vm_compute; discriminate|reflexivity].
Qed.
Lemma shell_runs_cat_witness :
  exists K, shell_round (dentry_a (fs kernel0)) (λ _, 0x7F0000) session_lit
      (run_program (dentry_a (fs kernel0)) (λ _, 0x7F0000) (cat (dentry_a (fs kernel0)) (λ _, 0x7F0000) session_lit 0x8060000))
      0x8050000 session = Ret (inl tt) K /\
    view_of 0 K = put_all (text "391OS> hi!" ++ [10] ++ text "program terminated abnormally" ++ [10]) (view_of 0 session).
Proof.
  assert (file_inode session 2 = 1) as Hino by (vm_compute; reflexivity).
  assert (file_size session 1 = 4) as Hs by (vm_compute; reflexivity).
  destruct (shell_runs_cat (dentry_a (fs kernel0)) (λ _, 0x7F0000) session_lit session_lit 1 4 session 0x8050000 0x8060000 hello 1 2)
    as (K & HK & _ & Hv).
  - exact session_prompt.
  - exact session_command.
  - split; [exact hello_plain|vm_compute; intuition discriminate|split; [apply dir_closed_ok, session_closed|]| |vm_compute; reflexivity].
    + intros H. specialize (H 0 ltac:(vm_compute; intuition discriminate)). vm_compute in H. discriminate H.
    + split; [lia|]. split; [vm_compute; reflexivity|].
      intros j Hj. assert (j = 1) as -> by lia. vm_compute. discriminate.
  - vm_compute. reflexivity.
  - rewrite Hino. apply session_file; [lia|exact Hs|vm_compute; reflexivity].
  - unfold user_base. lia.
  - unfold user_base. lia.
  - exists K. split; [exact HK|]. cbv zeta in Hv. rewrite Hino, Hs in Hv. rewrite app_assoc in Hv.
    replace (text "391OS> " ++ file_bytes session 1 0 4) with (text "391OS> hi!" ++ [10]) in Hv by (vm_compute; reflexivity).
    rewrite <- app_assoc in Hv. exact Hv.
Defined.
