(* ===== verification/Faults.v ===== *)
(** * Programs that fault: sigtest

    A store of a program to an address that is not mapped raises a page fault; [handle14]
    reports it and halts the process.  The signal handlers that a program installs are
    refused by the kernel and never run. *)
From S2P Require Import Prelude Machine Lib Paging Devices State Console Printf Terminal Filesystem SysCall Process Keyboard Scheduler Idt User Programs Lifetime.

Section Faults.
Context (d0 : dentry_t) (locals : kernel -> Z).

(** The gate of vector 14 is an interrupt gate. *)
Definition raise_fault (a : Z) : prog kernel exec_result := trap (negb (is_trap 14)) (page_fault d0 locals a).
Definition user_store (a v : Z) : prog kernel (unit + exec_result) := λ k,
  match walk (mmu_of k) a with
  | Some _ => Ret (inl tt) (storeb a v k)
  | None => (e ← raise_fault a; mret (inr e)) k
  end.
(** [_start] for a [main] that a fault may end. *)
Definition start_faulty (main : prog kernel (Z + exec_result)) : prog kernel exec_result :=
  r ← main;
  match r with
  | inl r => trap false (systemcall d0 locals SYS_HALT r 0 0)
  | inr e => mret e
  end.

(** ** What the handler says *)
Definition fault_message (a : Z) : list Z :=
  text "Page Fault exception" ++ [10] ++ text "The Exception occurred at:" ++ shown (Hex a).
Lemma fault_reports a k :
  console_wf k -> exists K, page_fault d0 locals a k = halt d0 locals 80 K /\ prints (fault_message a) k K.
Proof.
  intros Hk.
  destruct (printf_text (text "Page Fault exception" ++ [10]) k Hk) as (K1 & H1 & P1);
    [vm_compute; repeat constructor; discriminate|reflexivity|].
  set (ps := (Lit <$> text "The Exception occurred at:") ++ [Hex a]).
  destruct (printf_pieces K1 ps (pr_wf _ _ _ P1)) as (K2 & H2 & P2); [|vm_compute; reflexivity|].
  { assert (Forall (λ c, c <> 0 /\ c <> 37) (text "The Exception occurred at:")) as Hl
      by (vm_compute; repeat constructor; discriminate).
    apply Forall_app. split; [by apply Forall_fmap|by constructor]. }
  exists K2. split.
  - unfold page_fault. rewrite (bind_Ret _ _ _ _ _ H1).
    change (printf (Object (text "The Exception occurred at:%x")) [a]) with (printf (Object (formats ps)) (Printf.arguments ps)).
    by rewrite (bind_Ret _ _ _ _ _ H2).
  - pose proof (prints_trans _ _ k K1 K2 Hk P1 P2) as P.
    change (shows ps) with (text "The Exception occurred at:" ++ shown (Hex a) ++ []) in P.
    rewrite app_nil_r, <- app_assoc in P. exact P.
Qed.

(** What the kernel prints while the terminal of the program is the visible one is printed
    on the program's screen. *)
Lemma kernel_prints p k l masked K :
  in_program p k -> visable_term (sched k) = current_term (sched k) -> prints l (enter_kernel masked k) K ->
  left p nothing k (back k K) /\ enter_kernel masked (back k K) = K /\
  (let t := current_term (sched k) in view_of t (back k K) = put_all l (view_of t k)).
Proof.
  intros Hp Hvis Hpr. set (k0 := enter_kernel masked k) in *.
  assert (console_wf k0) as Hw0 by (destruct (pg_console _ _ Hp); by split).
  destruct (prints_frame _ _ _ Hpr) as (Hm & Hpc & Hrun & Hrg & Htss & Hfs & Hte & Hkb).
  pose proof (pr_rest _ _ _ Hpr) as Hr. pose proof (pr_devs _ _ _ Hpr) as Hd.
  assert (cursor_moved (current_term (sched k)) (sched k) (sched K)) as Hcm.
  { rewrite <- Hvis. exists (cursor_x (view_of (visable_sel k0) K)), (cursor_y (view_of (visable_sel k0) K)).
    exact (f_equal sched Hr). }
  destruct (cursor_moved_turn _ _ _ Hcm) as [HcK HvK].
  assert (serviced (enter_kernel false k) K) as Hsv.
  { unfold serviced. revert Hr. clear. generalize (cursor_x (view_of (visable_sel k0) K)) (cursor_y (view_of (visable_sel k0) K)) (phys K) (devs K).
    by intros x y ph d ->. }
  assert (forall a, get_pcb a K = get_pcb a k) as Hpcb by (intros a; unfold get_pcb; by rewrite Hpc).
  pose proof (video_target_range _ (cw_map _ Hw0)) as Hvt. unfold T3_BUF_ADDR in Hvt.
  split; [apply left_back; [done|exact Hsv|apply Hpr|exact Hcm|rewrite Hpcb; apply Hp|rewrite Hpcb; apply Hp|rewrite Hfs; apply Hp|
    |rewrite Hte; apply Hp|intros t _ _; by rewrite Hte|intros a _; apply Hpcb|unfold boot; by rewrite Hfs| | |]|split].
  - rewrite Hpcb. by destruct (get_pcb (pcb_addr p) k).
  - intros q Hq _. exact (pr_out _ _ _ Hpr q Hq).
  - apply (target_screens k K); [apply Hp|exact Hm|done|]. intros q Hq. exact (pr_out _ _ _ Hpr q Hq).
  - apply driven_trans with (devs k0); [|by apply cursor_driven]. destruct masked; [apply (driven_if (devs (enter_kernel false k)))|apply driven_refl].
  - destruct Hd as (log & Hd & _). apply (f_equal interrupt_flag) in Hd. destruct K as [m ph sc t kb f pr pc ts rg dv]. cbn in Hrg, Htss, Hd. subst ts rg.
    unfold enter_kernel, back, kernel_esp, k0. cbn. f_equal. destruct dv. cbn in *. by rewrite Hd.
  - cbv zeta. change (view_of (current_term (sched k)) (back k K)) with (view_of (current_term (sched k)) K).
    rewrite <- Hvis. exact (pr_view _ _ _ Hpr).
Qed.
Lemma raise_halts p k a :
  in_program p k -> visable_term (sched k) = current_term (sched k) ->
  exists K, raise_fault a k = trap (negb (is_trap 14)) (halt d0 locals 80) K /\ left p nothing k K /\
    (let t := current_term (sched k) in view_of t K = put_all (fault_message a) (view_of t k)).
Proof.
  intros Hp Hvis. set (m := negb (is_trap 14)). set (k0 := enter_kernel m k).
  assert (console_wf k0) as Hw0 by (destruct (pg_console _ _ Hp); by split).
  destruct (fault_reports a k0 Hw0) as (K & HK & Hpr).
  destruct (kernel_prints p k _ m K Hp Hvis Hpr) as (HL & Hent & Hv). exists (back k K). split; [|exact (conj HL Hv)].
  destruct (prints_frame _ _ _ Hpr) as (_ & _ & _ & _ & Htss & _).
  unfold raise_fault, trap. fold m k0. rewrite HK, Hent. destruct (halt d0 locals 80 K) as [[v|] K'|K'| |]; [|done..].
  unfold leave_kernel, kernel_esp. change (tss (back k K)) with (tss K). rewrite Htss. reflexivity.
Qed.

(** [main] of process [p], entered in [K], prints [out] and faults at [a]. *)
Definition faults (p : Z) (main : prog kernel (Z + exec_result)) (a : Z) (out : list Z) (K : kernel) : Prop :=
  exists K1 W, main K = (e ← raise_fault a; mret (inr e)) K1 /\ left p W K K1 /\
    (let t := current_term (sched K) in view_of t K1 = put_all out (view_of t K)).
Lemma faults_finishes p main a out K :
  visable_term (sched K) = current_term (sched K) -> faults p main a out K ->
  finishes d0 locals p (start_faulty main) 80 (out ++ fault_message a) K.
Proof.
  intros Hvis (K1 & W & Hm & HL & Hv). destruct (lf_turn _ _ _ _ HL) as [Hc Hvs].
  destruct (raise_halts p K1 a) as (K2 & H2 & HL2 & Hv2); [apply HL|congruence|].
  exists K2, W, (negb (is_trap 14)). split; [|split].
  - unfold start_faulty. unfold mbind, prog_bind in *. rewrite Hm. change (u8 80) with 80. rewrite H2.
    by destruct (trap _ _ K2) as [[]| | |].
  - apply left_trans with K1; [exact HL|]. apply (left_weaken p nothing); [intros ? _ []|exact HL2].
  - cbv zeta in Hv, Hv2 |- *. rewrite Hc in Hv2. by rewrite Hv2, Hv, put_all_app.
Qed.

(** ** The shell survives *)

(** C19. A command whose program faults - it prints [out] and then stores to an address [a]
    that is not mapped: the page fault handler says so on the screen, with the address in
    hexadecimal, and halts the process, and the shell of the visible terminal is back at its prompt with its
    registers, its memory apart from the line buffer, the slots and the screens of the
    other terminals as they were.  It does not learn of the fault: [execute] returns the
    status that an earlier program left in the slot, not 256. *)
Theorem shell_survives_fault lit main a out pp p k buf line name rest i :
  at_prompt lit pp k buf line -> command_line d0 locals pp p k line name rest i ->
  visable_term (sched k) = current_term (sched k) ->
  (forall K0 K, left pp (within buf 1024) k K0 -> launched pp p line (zlen name + 1) K0 K -> faults p main a out K) ->
  let message := exit_message (status (get_pcb (pcb_addr p) k)) in
  exists K, shell_round d0 locals lit (run_process d0 locals (start_faulty main)) buf k = Ret (inl tt) K /\
    back_at_prompt pp buf k K /\
    (let t := current_term (sched k) in
     view_of t K = put_all (text "391OS> " ++ (out ++ fault_message a) ++ message) (view_of t k)).
Proof.
  intros Hap Hcl Hvis Hf message.
  apply (shell_round_runs d0 locals lit _ 80 (out ++ fault_message a) pp p k buf line name rest i Hap Hcl).
  intros K0 K HL He. destruct (lf_turn _ _ _ _ HL) as [Hc Hv], (switched_turn _ _ _ (en_switch _ _ _ _ _ _ He)) as [Hc' Hv'].
  apply faults_finishes; [congruence|]. exact (Hf K0 K HL He).
Qed.

(** A program that stores through a pointer that is not mapped. *)
Definition stray (a v : Z) : prog kernel (Z + exec_result) :=
  r ← user_store a v;
  match r with inl _ => mret (inl 0) | inr e => mret (inr e) end.
Lemma stray_faults p a v K : in_program p K -> walk (mmu_of K) a = None -> faults p (stray a v) a [] K.
Proof.
  intros Hp Hw. exists K, nothing. split; [|by split; [apply left_refl|]].
  unfold stray, user_store, mbind, prog_bind. rewrite Hw. unfold mbind, prog_bind. by destruct (raise_fault a K).
Qed.
(** ** ece391sigtest.c

    [buf] is the local array of [main] and of the handlers, [charbuf] and [badbuf] are the
    addresses of the static variables, [segfault_address] and [alarm_address] the handlers. *)
Section Sigtest.
Context (lit : list Z -> Z) (charbuf badbuf segfault_address alarm_address : Z).
Abbreviation say s := (ece391_fdputs d0 locals 1 (lit s)).
Definition SEGFAULT : Z := 1.
Definition ALARM : Z := 3.

Definition say_signal (signum : Z) : prog kernel unit :=
  n ← get (λ k : kernel, load32 k signum);
  if n =? 0 then say (text "0" ++ [10]) else if n =? 1 then say (text "1" ++ [10])
  else if n =? 2 then say (text "2" ++ [10]) else if n =? 3 then say (text "3" ++ [10])
  else say (text "invalid" ++ [10]).
(** The argument is on the stack, at [signum]; seven words above it is the saved EAX. *)
Definition segfault_sighandler (buf signum : Z) : prog kernel unit :=
  _ ← say (text "Segfault signal handler called, signum: ");
  _ ← say_signal signum;
  _ ← say (text "Press enter to continue..." ++ [10]);
  _ ← ece391_read d0 locals 0 buf 1;
  _ ← modify (λ k : kernel, store32 badbuf charbuf k);
  _ ← modify (λ k : kernel, store32 (signum + 28) charbuf k);
  say (text "Signal handler returning" ++ [10]).
Definition alarm_sighandler (signum : Z) : prog kernel unit :=
  _ ← say (text "Alarm signal handler called, signum: ");
  say_signal signum.
Definition install_handlers (c : Z) : prog kernel unit :=
  if c =? 49 then
    _ ← say (text "Installing signal handlers" ++ [10]);
    _ ← ece391_set_handler d0 locals SEGFAULT segfault_address;
    _ ← ece391_set_handler d0 locals ALARM alarm_address;
    mret tt
  else mret tt.
Definition sigtest (buf : Z) : prog kernel (Z + exec_result) :=
  r ← ece391_getargs d0 locals buf 1024;
  if negb (r =? 0) then _ ← say (text "could not read argument" ++ [10]); mret (inl 3)
  else
    c ← get (λ k : kernel, loadb k buf);
    _ ← install_handlers c;
    _ ← say (text "Hi, what's your name? ");
    cnt ← ece391_read d0 locals 0 buf 1023;
    if cnt =? -1 then _ ← say (text "Can't read name from keyboard." ++ [10]); mret (inl 3)
    else
      a ← get (λ k : kernel, load32 k badbuf);
      s ← user_store a 1;
      match s with
      | inr e => mret (inr e)
      | inl _ =>
          _ ← modify (λ k : kernel, storeb (buf + cnt) 0 k);
          _ ← say (text "Hello, ");
          _ ← ece391_fdputs d0 locals 1 buf;
          c ← get (λ k : kernel, loadb k charbuf);
          _ ← (if c =? 1 then say (text "success" ++ [10]) else say (text "failure" ++ [10]));
          mret (inl 0)
      end.

(** The argument [1] makes it say that it installs handlers; the kernel refuses them. *)
Definition installing (args : list Z) : list Z :=
  if hd 0 args =? 49 then text "Installing signal handlers" ++ [10] else [].
Lemma install_refused p k c :
  in_program p k -> string_at k (lit (text "Installing signal handlers" ++ [10])) (text "Installing signal handlers" ++ [10]) ->
  exists K, install_handlers c k = Ret tt K /\ left p nothing k K /\ term K = term k /\
    (let t := current_term (sched k) in
     view_of t K = put_all (if c =? 49 then text "Installing signal handlers" ++ [10] else []) (view_of t k)).
Proof.
  intros Hp Hs. unfold install_handlers. destruct (c =? 49); [|exists k; split; [done|by split; [apply left_refl|]]].
  destruct (say_prints d0 locals lit p k _ _ Hp Hs) as (K & HK & HL & [_ Ht] & Hv). exists K. split; [|done].
  assert (forall n h, ece391_set_handler d0 locals n h K = Ret (-1) K) as Href.
  { intros n h. apply (DO_CALL_refused d0 locals K SYS_SET_HANDLER n h 0 (-1)), returned_Ret. reflexivity. }
  by rewrite (bind_Ret _ _ _ _ _ HK), (bind_Ret _ _ _ _ _ (Href _ _)), (bind_Ret _ _ _ _ _ (Href _ _)).
Qed.

(** sigtest, with or without the argument [1], when a name was entered: it asks for the name
    and stores through the NULL pointer [badbuf], which no handler has changed. *)
Theorem sigtest_faults p k buf args name :
  let line := text "Hi, what's your name? " in
  in_program p k -> plain args -> zlen args < 128 ->
  arg_arr (get_pcb (pcb_addr p) k) = args ++ replicate (128 - length args) 0 -> arg_size (get_pcb (pcb_addr p) k) < 1024 ->
  user_base <= buf -> buf + 1024 <= user_base + 0x400000 ->
  Forall (λ s, string_at k (lit s) s /\ (lit s + zlen s < buf \/ buf + 1024 <= lit s)) [text "Installing signal handlers" ++ [10]; line] ->
  in_user badbuf -> in_user (badbuf + 3) -> badbuf + 4 <= buf \/ buf + 1024 <= badbuf -> load32 k badbuf = 0 ->
  entered (current_term (sched k)) (term k) = Some name ->
  faults p (sigtest buf) 0 (installing args ++ line) k.
Proof.
  intros line Hp Hpl Hlen Harg Hsz Hb Hbn [[Hs1 Hsep1] [[Hs2 Hsep2] _]%Forall_cons]%Forall_cons Hbad Hbad3 Hsep Hnull Hen.
  destruct (getargs_call d0 locals p k buf 1024 args Hp Hpl Hlen Harg Hsz) as (K1 & H1 & HL1 & _ & Hload & Hv1 & Ht1); [lia|done|done|].
  assert (forall s, string_at k (lit s) s -> lit s + zlen s < buf \/ buf + 1024 <= lit s -> string_at K1 (lit s) s) as Hlit.
  { intros s Hs Hse. apply (string_left p k K1 (within buf 1024)); [done|done|]. intros j Hj. unfold within. lia. }
  assert (loadb K1 buf = hd 0 args) as Hfirst.
  { apply (f_equal (λ l, zget l 0)) in Hload. unfold load_bytes in Hload. rewrite zget_tabulate, Z.add_0_r in Hload by lia.
    rewrite Hload. by destruct args. }
  destruct (install_refused p K1 (hd 0 args)) as (K2 & H2 & HL2 & Ht2 & Hv2); [apply HL1|by apply Hlit|].
  destruct (say_prints d0 locals lit p K2 line line) as (K3 & H3 & HL3 & [_ Ht3] & Hv3);
    [apply HL2|apply (string_left p K1 K2 nothing); [done|by apply Hlit|by intros ? _ []]|].
  destruct (lf_turn _ _ _ _ HL1) as [C1 _], (lf_turn _ _ _ _ HL2) as [C2 _], (lf_turn _ _ _ _ HL3) as [C3 _].
  assert (entered (current_term (sched K3)) (term K3) = Some name) as HenK by (by rewrite C3, C2, C1, Ht3, Ht2, Ht1).
  assert (in_program p K3) as Hp3 by apply HL3. pose proof (entered_short p K3 name Hp3 HenK) as Hn. pose proof (zlen_nonneg name).
  destruct (read_line d0 locals p K3 buf 1023 1024 name Hp3 HenK) as (K4 & H4 & HL4 & _ & _ & _ & Hv4); [lia|lia|done|done|].
  assert (left p (within buf 1024) k K4) as HL.
  { apply left_trans with K1; [done|]. apply left_trans with K2; [by apply (left_weaken p nothing)|].
    apply left_trans with K3; [by apply (left_weaken p nothing)|done]. }
  assert (load32 K4 badbuf = 0) as Hnull4.
  { rewrite <- Hnull. unfold in_user in *. unfold load32.
    rewrite !(lf_memory _ _ _ _ HL) by (unfold in_user, within; lia). done. }
  assert (walk (mmu_of K4) 0 = None) as Hwalk by (apply walk_unmapped; [apply HL|left; unfold VID_START_ADDR; lia]).
  exists K4, (within buf 1024). split; [|split; [done|]].
  - unfold sigtest. rewrite (bind_Ret _ _ _ _ _ H1). cbn [Z.eqb negb]. rewrite bind_get, Hfirst.
    rewrite (bind_Ret _ _ _ _ _ H2), (bind_Ret _ _ _ _ _ H3), (bind_Ret _ _ _ _ _ H4).
    replace (zlen name + 1 =? -1) with false by lia. rewrite bind_get, Hnull4.
    unfold user_store, mbind, prog_bind. rewrite Hwalk. unfold mbind, prog_bind. by destruct (raise_fault 0 K4).
  - cbv zeta in Hv2, Hv3 |- *. rewrite C2, C1 in Hv3. rewrite C1 in Hv2. rewrite Hv4, Hv3, Hv2, Hv1, put_all_app. done.
Qed.
End Sigtest.
End Faults.

(** In [session], the file [cat] being a program that stores to NULL. *)
Lemma shell_survives_fault_witness :
  exists K, shell_round (dentry_a (fs kernel0)) (λ _, 0x7F0000) session_lit
      (run_process (dentry_a (fs kernel0)) (λ _, 0x7F0000)
         (start_faulty (dentry_a (fs kernel0)) (λ _, 0x7F0000) (stray (dentry_a (fs kernel0)) (λ _, 0x7F0000) 0 1)))
      0x8050000 session = Ret (inl tt) K /\
    view_of 0 K = put_all (text "391OS> Page Fault exception" ++ [10] ++
      text "The Exception occurred at:0program terminated abnormally" ++ [10]) (view_of 0 session).
Proof.
  destruct (shell_survives_fault (dentry_a (fs kernel0)) (λ _, 0x7F0000) session_lit
    (stray (dentry_a (fs kernel0)) (λ _, 0x7F0000) 0 1) 0 [] 1 4 session 0x8050000 session_line (text "cat") ([32] ++ hello) 1)
    as (K & HK & _ & Hv).
  - exact session_prompt.
  - exact session_command.
  - vm_compute. reflexivity.
  - intros K0 K _ He. apply stray_faults; [exact (en_in _ _ _ _ _ _ He)|].
    apply walk_unmapped; [apply (en_in _ _ _ _ _ _ He)|left; unfold VID_START_ADDR; lia].
  - exists K. split; [exact HK|]. cbv zeta in Hv.
    replace (text "391OS> " ++ ([] ++ fault_message 0) ++ exit_message (status (get_pcb (pcb_addr 4) session)))
      with (text "391OS> Page Fault exception" ++ [10] ++
        text "The Exception occurred at:0program terminated abnormally" ++ [10]) in Hv by (vm_compute; reflexivity).
    exact Hv.
Defined.
