(* ===== verification/Counter.v ===== *)
(** * counter: the loop that prints numerals

    [ece391_itoa] of the user library is the kernel's [itoa]; the loop of
    src/syscalls/ece391counter.c ends and prints every number up to its limit. *)
From S2P Require Import Prelude Machine Lib Paging Devices State Console Printf Terminal Filesystem SysCall Process Keyboard Scheduler Idt User Programs.

Lemma while_ext {A B} (f g : A -> A + B) a : (forall a, f a = g a) -> while f a = while g a.
Proof.
  intros Hfg. unfold while. rewrite !rounds_iterate. generalize (Pos.to_nat loop_bound). intros n.
  assert (iterate f n a = iterate g n a) as ->; [|done].
  revert a. induction n as [|n IH]; intros a; cbn [iterate]; [done|]. rewrite Hfg. by destruct (g a).
Qed.

(** ** The user library and the kernel's *)
Lemma ece391_strrev_is s k :
  ece391_strrev s k = match strrev s k with Some K => Ret s K | None => Spin end.
Proof.
  unfold ece391_strrev, strrev, ece391_strlen, strlen, at_ptr. unfold mbind at 1, prog_bind at 1, from_loop at 1.
  destruct (while _ 0) as [len|]; [|done]. unfold mret, prog_ret at 1. cbv iota beta.
  destruct (Z.leb_spec (s32 (len - 1)) 0) as [Hl|Hl]; [|done].
  erewrite while_runs; [reflexivity| |by instantiate (1 := 1%nat)]. apply runs_leave.
  by replace (0 <? s32 (len - 1)) with false by lia.
Qed.
Lemma ece391_itoa_is value buf radix k :
  2 <= radix <= 36 ->
  ece391_itoa value buf radix k = match itoa value buf radix k with Some K => Ret buf K | None => Spin end.
Proof.
  intros Hr. unfold ece391_itoa, itoa. destruct (value =? 0); [done|].
  rewrite (while_ext _ (itoa_body radix)).
  - change (while _ (value, buf, k)) with (while (itoa_body radix) (value, buf, k)) at 2.
    destruct (while (itoa_body radix) (value, buf, k)) as [[newbuf k']|]; [|done]. apply ece391_strrev_is.
  - intros [[v b] m]. unfold itoa_body. destruct (0 <? v); [|done].
    rewrite s32_id; [done|]. pose proof (Z.mod_pos_bound v radix). lia.
Qed.

(** ** What [itoa] keeps: any property that stores to the buffer keep *)
Section Keeps.
Context {M : Type} `{!AddrSpace M, !AddrSpaceLaws M} (P : M -> Prop).

Lemma store_bytes_keeps a l m :
  (forall i v m, 0 <= i < zlen l -> P m -> P (storeb (a + i) v m)) -> P m -> P (store_bytes a l m).
Proof.
  revert a m. induction l as [|c l IH]; intros a m Hs Hm; cbn [store_bytes]; [done|].
  rewrite zlen_cons in Hs. pose proof (zlen_nonneg l).
  apply IH; [|rewrite <- (Z.add_0_r a) at 1; apply Hs; [lia|done]].
  intros i v m' Hi. replace (a + 1 + i) with (a + (i + 1)) by lia. apply Hs. lia.
Qed.
Lemma strrev_keeps s l m m' :
  cstr (at_ptr s m) l -> zlen l < 2147483648 ->
  (forall i v m, 0 <= i < zlen l -> P m -> P (storeb (s + i) v m)) -> P m -> strrev s m = Some m' -> P m'.
Proof.
  intros Hc Hl Hs Hm Hw. pose proof (zlen_nonneg l). unfold strrev in Hw.
  rewrite (strlen_cstr _ l) in Hw by (done || lia). rewrite s32_id in Hw by lia.
  destruct (while_invariant _ (λ '(b, f, m), 0 <= b /\ f < zlen l /\ P m) _ _ Hw) as ([[b f] m1] & (Hb & Hf & Hp) & Hend).
  - split; [lia|]. split; [lia|done].
  - intros [[b f] m1] a' (Hb & Hf & Hp) Hbody. destruct (Z.ltb_spec b f); [|done].
    simplify_eq. split; [lia|]. split; [lia|]. apply Hs; [lia|]. apply Hs; [lia|done].
  - destruct (b <? f); [done|]. by simplify_eq.
Qed.
Lemma itoa_keeps radix v buf m m' :
  2 <= radix <= 36 -> 0 <= v < 4294967296 -> inj_range m buf 33 ->
  (forall i x m, 0 <= i < 33 -> P m -> P (storeb (buf + i) x m)) -> P m -> itoa v buf radix m = Some m' -> P m'.
Proof.
  intros Hr Hv Hinj Hs Hm. unfold itoa. destruct (v =? 0) eqn:H0.
  { intros [= <-]. apply Hs; [lia|]. rewrite <- (Z.add_0_r buf) at 1. apply Hs; [lia|done]. }
  pose proof (itoa_loop radix Hr 32 v buf m Hv) as Hloop. cbv zeta in Hloop.
  pose proof (digits_ascii radix Hr v) as Hasc. cbv zeta in Hasc.
  set (ds := zget lookup <$> le_digits 32 radix v) in *.
  assert (0 <= zlen ds <= 32) as Hlen.
  { split; [apply zlen_nonneg|]. unfold ds. rewrite zlen_fmap. unfold zlen. pose proof (length_le_digits radix 32 v). lia. }
  change (while _ (v, buf, m)) with (while (itoa_body radix) (v, buf, m)).
  rewrite (while_runs _ _ _ _ Hloop) by (unfold zlen in Hlen; lia).
  replace (storeb (buf + zlen ds) 0 (store_bytes buf ds m)) with (store_bytes buf (ds ++ [0]) m) by (by rewrite store_bytes_app).
  assert (zlen (ds ++ [0]) = zlen ds + 1) as Hl1 by (by rewrite zlen_app).
  apply (strrev_keeps buf ds).
  - apply cstr_store; [by apply (inj_range_le _ _ _ _ Hinj); lia|]. intros i Hi. specialize (Hasc i Hi). lia.
  - lia.
  - intros i x m1 Hi. apply Hs. lia.
  - apply store_bytes_keeps; [|done]. intros i x m1 Hi. apply Hs. lia.
Qed.
End Keeps.

Lemma zlen_numeral v : 0 <= zlen (numeral 10 v) <= 32.
Proof.
  unfold numeral. destruct (v =? 0); [vm_compute; intuition discriminate|].
  rewrite zlen_reverse, zlen_fmap. pose proof (length_le_digits 10 32 v). unfold zlen. lia.
Qed.

(** ** The loop *)
(** The numbers from [1] to [n], a line each. *)
Definition numbers (n : Z) : list Z := concat (tabulate (Z.to_nat n) (λ i, numeral 10 (i + 1) ++ [10])).
Lemma numbers_succ n : 0 <= n -> numbers (n + 1) = numbers n ++ numeral 10 (n + 1) ++ [10].
Proof.
  intros Hn. unfold numbers. replace (Z.to_nat (n + 1)) with (Z.to_nat n + 1)%nat by lia.
  rewrite tabulate_app, concat_app. cbn [tabulate seq fmap list_fmap concat].
  by rewrite app_nil_r, Z.add_0_r, Z2Nat.id by done.
Qed.

Section Runs.
Context (d0 : dentry_t) (locals : kernel -> Z) (lit : list Z -> Z) (p : Z).

Lemma itoa_call k buf v :
  in_program p k -> 0 <= v < 4294967296 -> user_base <= buf -> buf + 33 <= user_base + 0x400000 ->
  exists K, ece391_itoa v buf 10 k = Ret buf K /\ left p (within buf 33) k K /\
    string_at K buf (numeral 10 v) /\ pcbs K = pcbs k /\ forall t, view_of t K = view_of t k.
Proof.
  intros Hp Hv Hb Hbn.
  assert (inj_range k buf 33) as Hinj by (apply (user_inj_range k p); [apply Hp|apply Hp|done|done]).
  destruct (itoa_writes 10 ltac:(lia) v buf k Hv Hinj) as (K & HK & Hc & _).
  pose proof (zlen_numeral v). exists K. rewrite ece391_itoa_is, HK by lia. split; [done|].
  assert (left p (within buf 33) k K /\ pcbs K = pcbs k /\ forall t, view_of t K = view_of t k) as (HL & Hpc & Hvw).
  { apply (itoa_keeps (λ K, left p (within buf 33) k K /\ pcbs K = pcbs k /\ forall t, view_of t K = view_of t k) 10 v buf k K);
      [lia|done|done| |by split; [apply left_refl|]|done].
    intros i x m Hi (HL & Hpc & Hvw). destruct (store_left p m (buf + i) x) as (HL1 & _ & _ & Hv1); [apply HL|unfold in_user; lia|].
    split; [|split; [done|intros t; by rewrite Hv1]].
    apply left_trans with m; [done|]. apply (left_weaken p (within (buf + i) 1)); [unfold within; lia|done]. }
  split; [done|]. split; [split; [done|lia]|done].
Qed.

(** C24. The loop of [counter] ends for every limit: it prints the numbers from 1 to the limit
    in decimal, each on its line, none missing and none twice, and of the program's memory
    it writes the first 33 bytes of the buffer at most. *)
Theorem count_to_prints k buf max :
  in_program p k -> 0 <= max < 4294967296 -> user_base <= buf -> buf + 33 <= user_base + 0x400000 ->
  string_at k (lit [10]) [10] -> lit [10] + 1 < buf \/ buf + 33 <= lit [10] ->
  exists K, count_to d0 locals lit buf max k = Ret tt K /\ left p (within buf 33) k K /\
    (let t := current_term (sched k) in view_of t K = put_all (numbers max) (view_of t k)).
Proof.
  intros Hp Hmax Hb Hbn Hlit Hsep.
  assert (exists u K, count_to d0 locals lit buf max k = Ret u K /\ left p (within buf 33) k K /\
    view_of (current_term (sched k)) K = put_all (numbers max) (view_of (current_term (sched k)) k)) as (u & K & HK & HP);
    [|exists K; by destruct u].
  apply (prog_while_for _ (λ j a s, a = j /\ left p (within buf 33) k s /\
    view_of (current_term (sched k)) s = put_all (numbers j) (view_of (current_term (sched k)) k)) _ 0 max); [..|lia|lia].
  - intros j a s Hj (-> & HL & Hv). replace (j <? max) with true by lia. cbn [negb]. rewrite u32_id by lia.
    destruct (itoa_call s buf (j + 1)) as (K1 & H1 & HL1 & [Hc1 Ha1] & Hp1 & Hv1); [apply HL|lia|done|done|].
    pose proof (zlen_numeral (j + 1)) as Hln.
    destruct (fdputs_prints d0 locals p K1 buf (numeral 10 (j + 1))) as (K2 & H2 & HL2 & Hp2 & Hv2); [apply HL1|done|done|lia|].
    assert (left p (within buf 33) k K2) as HL02
      by (apply left_trans with s; [done|]; apply left_trans with K1; [done|]; by apply (left_weaken p nothing)).
    destruct (say_prints d0 locals lit p K2 [10] [10]) as (K & H3 & HL3 & Hp3 & Hv3); [apply HL02| |].
    { apply (string_left p k K2 (within buf 33)); [done|done|]. change (zlen [10]) with 1. unfold within. lia. }
    exists (j + 1), K. rewrite (bind_Ret _ _ _ _ _ H1), (bind_Ret _ _ _ _ _ H2), (bind_Ret _ _ _ _ _ H3).
    split; [done|]. split; [done|]. split; [apply left_trans with K2; [done|]; by apply (left_weaken p nothing)|].
    destruct (lf_turn _ _ _ _ HL) as [Hcs _], (lf_turn _ _ _ _ HL1) as [Hc1' _], (lf_turn _ _ _ _ HL02) as [Hc02 _].
    cbv zeta in Hv2, Hv3. rewrite Hc02 in Hv3. rewrite Hc1', Hcs, Hv1 in Hv2.
    by rewrite Hv3, Hv2, Hv, numbers_succ, !put_all_app by lia.
  - intros a s (-> & HL & Hv). exists tt, s. rewrite Z.ltb_irrefl. done.
  - split; [done|]. split; [by apply left_refl|done].
Qed.
End Runs.
Lemma count_to_prints_witness :
  exists K, count_to (dentry_a (fs kernel0)) (λ _, 0) demo_lit 0x8050000 12 (storeb 0x8048100 10 demo_user) = Ret tt K /\
    view_of 0 K = put_all (numbers 12) (view_of 0 (storeb 0x8048100 10 demo_user)).
Proof.
  destruct (count_to_prints (dentry_a (fs kernel0)) (λ _, 0) demo_lit 1 (storeb 0x8048100 10 demo_user) 0x8050000 12)
    as (K & HK & _ & Hv).
  - apply (store_left 1 demo_user); [exact demo_in_program|unfold in_user, user_base; lia].
  - lia.
  - unfold user_base. lia.
  - unfold user_base. lia.
  - split; [|vm_compute; intuition discriminate]. split; [|vm_compute; reflexivity].
    intros j Hj. change (zlen [10]) with 1 in Hj. replace j with 0 by lia. vm_compute. split; [reflexivity|discriminate].
  - left. unfold demo_lit. lia.
  - exists K. split; [exact HK|exact Hv].
Defined.
