(* ===== verification/Syserr.v ===== *)
(** * syserr: the system call tests of the repository

    src/syscalls/ece391syserr.c: eight tests that hand the kernel bad descriptors, names,
    pointers and numbers, with the loops and messages of the source.  The choice read from
    the keyboard is the argument of [run_tests]. *)
From S2P Require Import Prelude Machine Lib Paging Devices State Console Printf Terminal Filesystem SysCall Process Keyboard Scheduler Idt User Programs.

Definition NEG_FD : Z := -1073741823.
Definition BIG_FD : Z := 1073741823.
Definition BIG_NUM : Z := 1073741823.
Definition NEG_NUM : Z := -1073741823.

Section Tests.
Context (d0 : dentry_t) (locals : kernel -> Z) (lit : list Z -> Z).
Abbreviation say s := (ece391_fdputs d0 locals 1 (lit s)).
Abbreviation read_ := (ece391_read d0 locals).
Abbreviation write_ := (ece391_write d0 locals).
Abbreviation open_ := (ece391_open d0 locals).
Abbreviation close_ := (ece391_close d0 locals).
Abbreviation vidmap_ := (ece391_vidmap d0 locals).

(** [call_sys]: EBX, ECX and EDX hold what they held. *)
Definition call_sys (ebx ecx edx num : Z) : prog kernel Z := DO_CALL d0 locals num ebx ecx edx.

(** [if (-1 != r) { fail = 2; fdputs(msg); }] *)
Definition expect_refused (r : Z) (msg : list Z) (fail : Z) : prog kernel Z :=
  if negb (r =? -1) then _ ← say (msg ++ [10]); mret 2 else mret fail.
(** The last lines of a test. *)
Definition verdict (name : list Z) (fail : Z) : prog kernel Z :=
  if negb (fail =? 0) then _ ← say (name ++ text ": FAIL" ++ [10]); mret fail
  else _ ← say (name ++ text ": PASS" ++ [10]); mret fail.

Definition err_neg_fd (buf : Z) : prog kernel Z :=
  r ← read_ NEG_FD buf 31; fail ← expect_refused r (text "read fail") 0;
  r ← write_ NEG_FD buf 31; fail ← expect_refused r (text "write fail") fail;
  r ← close_ NEG_FD; fail ← expect_refused r (text "close fail") fail;
  verdict (text "err_neg_fd") fail.
Definition err_big_fd (buf : Z) : prog kernel Z :=
  r ← read_ BIG_FD buf 31; fail ← expect_refused r (text "read fail") 0;
  r ← write_ BIG_FD buf 31; fail ← expect_refused r (text "write fail") fail;
  r ← close_ BIG_FD; fail ← expect_refused r (text "close fail") fail;
  verdict (text "err_big_fd") fail.
Definition err_open_lots : prog kernel Z :=
  cnt ← prog_while (λ '(i, cnt),
    if negb (i <? 7) then mret (inr cnt)
    else r ← open_ (lit (text ".")); mret (inl (i + 1, if r =? -1 then cnt + 1 else cnt))) (0, 0);
  _ ← prog_while (λ i,
    if negb (i <? 8) then mret (inr tt) else _ ← close_ i; mret (inl (i + 1))) 2;
  if cnt =? 1 then _ ← say (text "err_open_lots: PASS" ++ [10]); mret 0
  else _ ← say (text "err_open_lots: FAIL" ++ [10]); mret 2.
Definition err_open : prog kernel Z :=
  r ← open_ (lit (text "helloo")); fail ← expect_refused r (text "'helloo' fail") 0;
  r ← open_ (lit (text "shel")); fail ← expect_refused r (text "'shel' fail") fail;
  r ← open_ (lit []); fail ← expect_refused r (text "empty string fail") fail;
  verdict (text "err_open") fail.
(** [for (i = first; i < 8; i++) if (-1 != call(i)) { ...; fail = 2; }] *)
Definition each_refused (first : Z) (call : Z -> prog kernel Z) (msg : list Z) (fail : Z) : prog kernel Z :=
  prog_while (λ '(i, fail),
    if negb (i <? 8) then mret (inr fail)
    else r ← call i; fail ← expect_refused r msg fail; mret (inl (i + 1, fail))) (first, fail).
Definition err_unopened (buf : Z) : prog kernel Z :=
  fail ← each_refused 0 (λ i, close_ i) (text "close unopened or invalid fd fail") 0;
  fail ← each_refused 2 (λ i, read_ i buf 31) (text "read from unopened fd fail") fail;
  fail ← each_refused 2 (λ i, write_ i buf 31) (text "write to unopened fd fail") fail;
  verdict (text "err_unopened") fail.
Definition err_vidmap : prog kernel Z :=
  r ← vidmap_ 0; fail ← expect_refused r (text "Null pointer fail") 0;
  r ← vidmap_ 0x400000; fail ← expect_refused r (text "Kernel pointer fail fail") fail;
  verdict (text "err_vidmap") fail.
Definition err_stdin_out (buf : Z) : prog kernel Z :=
  r ← write_ 0 buf 31; fail ← expect_refused r (text "write to stdin fail") 0;
  r ← read_ 1 buf 31; fail ← expect_refused r (text "read from stdout fail") fail;
  verdict (text "err_stdin_out") fail.
Definition err_syscall_num (ebx ecx edx : Z) : prog kernel Z :=
  r ← call_sys ebx ecx edx BIG_NUM; fail ← expect_refused r (text "syscall 0 fail") 0;
  r ← call_sys ebx ecx edx NEG_NUM; fail ← expect_refused r (text "big num syscall fail") fail;
  r ← call_sys ebx ecx edx 0; fail ← expect_refused r (text "neg num syscall fail") fail;
  verdict (text "err_syscall_num") fail.

(** The [switch] of [main]. *)
Definition run_tests (ebx ecx edx buf select : Z) : prog kernel Z :=
  match select with
  | 0 =>
      a ← err_neg_fd buf; b ← err_big_fd buf; c ← err_open_lots; d ← err_open;
      e ← err_unopened buf; f ← err_vidmap; g ← err_stdin_out buf; h ← err_syscall_num ebx ecx edx;
      let fail := a + b + c + d + e + f + g + h in
      if negb (fail =? 0) then _ ← say ([10] ++ text "Overall Tests: FAIL" ++ [10]); mret fail
      else _ ← say ([10] ++ text "Overall Tests: PASS" ++ [10]); mret fail
  | 1 => err_neg_fd buf
  | 2 => err_big_fd buf
  | 3 => err_open_lots
  | 4 => err_open
  | 5 => err_unopened buf
  | 6 => err_vidmap
  | 7 => err_stdin_out buf
  | 8 => err_syscall_num ebx ecx edx
  | _ => _ ← say (text "Invalid test number. Choose from tests 1-8 or 0"); mret 0
  end.
(** [ebx], [ecx] and [edx]: what the registers hold that [call_sys] does not set. *)
Definition syserr (ebx ecx edx buf : Z) : prog kernel Z :=
  _ ← say (text "Choose from tests 1-8. 0 to run all: ");
  cnt ← read_ 0 buf 127;
  if cnt =? -1 then _ ← say (text "Can't read test #" ++ [10]); mret 2
  else
    c ← get (λ k : kernel, loadb k buf);
    run_tests ebx ecx edx buf (c - 48).
End Tests.

(** ** The tests pass *)
Definition pass_line (name : list Z) : list Z := name ++ text ": PASS" ++ [10].
Definition overall_line : list Z := [10] ++ text "Overall Tests: PASS" ++ [10].
Definition literals : list (list Z) :=
  [pass_line (text "err_neg_fd"); pass_line (text "err_big_fd"); text "err_open_lots: PASS" ++ [10];
   pass_line (text "err_open"); pass_line (text "err_unopened"); pass_line (text "err_vidmap");
   pass_line (text "err_stdin_out"); pass_line (text "err_syscall_num"); overall_line;
   text "."; text "helloo"; text "shel"; []].
(** What the run of test [select] prints. *)
Definition report (select : Z) : list Z :=
  if select =? 0 then concat (take 9 literals) else zget literals (select - 1).

Section Runs.
Context (d0 : dentry_t) (locals : kernel -> Z) (lit : list Z -> Z) (p : Z).
Context (Hd0 : zlen (State.fname d0) = 32).

(** Descriptors 2 to 7 are open as [P] says. *)
Definition open_set (P : Z -> bool) (k : kernel) : Prop := forall i, 2 <= i <= 7 -> in_use (zget (fds p k) i) = P i.
(** The program in its own page with its literals, on an image with the directory [.] and no
    file [helloo] or [shel]. *)
Record loaded (k : kernel) : Prop := {
  ld_in : in_program p k;
  ld_literals : Forall (λ s, string_at k (lit s) s) literals;
  ld_closed : dir_closed k;
  ld_directory : is_directory k (text ".");
  ld_missing : Forall (λ s, ~ is_directory k s /\ forall i, 1 <= i <= 62 -> entry_name k i <> s) [text "helloo"; text "shel"]
}.
Definition ready (k : kernel) : Prop := loaded k /\ open_set (λ _, false) k.
Lemma loaded_left k K : left p nothing k K -> loaded k -> loaded K.
Proof.
  intros HL [Hin Hlit Hcl Hdir Hmis]. pose proof (lf_image _ _ _ _ HL) as HI. split.
  - apply HL.
  - eapply Forall_impl; [exact Hlit|]. intros s Hs. apply (string_left p k K nothing); [done|done|]. intros j _ [].
  - by apply (same_image_closed k).
  - by rewrite (same_image_directory k K).
  - eapply Forall_impl; [eapply Forall_and; split; [exact Hmis|]|].
    + instantiate (1 := λ s, zlen s <= 32). repeat constructor; vm_compute; intuition discriminate.
    + cbv beta. intros s [[Hnd Hnone] Hs]. split; [by rewrite (same_image_directory k K)|].
      intros i Hi. rewrite (same_image_name k K) by (done || lia). by apply Hnone.
Qed.
Lemma literal k s : loaded k -> s ∈ literals -> string_at k (lit s) s.
Proof. intros Hk Hs. by apply (proj1 (Forall_forall _ _) (ld_literals _ Hk)). Qed.

(** Test [t] returns 0, prints [out] and leaves everything else as it was. *)
Definition passes (t : prog kernel Z) (out : list Z) : Prop := forall k, ready k ->
  exists K, t k = Ret 0 K /\ ready K /\ left p nothing k K /\
    (let t := current_term (sched k) in view_of t K = put_all out (view_of t k)).

Lemma say_passes s (r : Z) : r = 0 -> s ∈ literals -> passes (_ ← ece391_fdputs d0 locals 1 (lit s); mret r) s.
Proof.
  intros -> Hs k [Hk Hf]. destruct (say_prints d0 locals lit p k s s) as (K & Hr & HL & [Hpcb _] & Hv);
    [apply Hk|by apply literal|]. exists K. rewrite (bind_Ret _ _ _ _ _ Hr). split; [done|]. split; [|done].
  split; [by apply (loaded_left k)|]. unfold open_set, fds, get_pcb. by rewrite Hpcb.
Qed.
Lemma verdict_passes name : pass_line name ∈ literals -> passes (verdict d0 locals lit name 0) (pass_line name).
Proof. intros Hs. by apply say_passes. Qed.
Lemma refused_to {B} (call : prog kernel Z) msg fail (f : Z -> prog kernel B) k K :
  call k = Ret (-1) K -> (r ← call; fail ← expect_refused d0 locals lit r msg fail; f fail) k = f fail K.
Proof. intros Hc. rewrite (bind_Ret _ _ _ _ _ Hc). unfold expect_refused. cbn [Z.eqb Pos.eqb negb]. by rewrite bind_mret. Qed.
Lemma refused_step {B} (call : prog kernel Z) msg fail (f : Z -> prog kernel B) k :
  call k = Ret (-1) k -> (r ← call; fail ← expect_refused d0 locals lit r msg fail; f fail) k = f fail k.
Proof. apply refused_to. Qed.
Lemma ready_unused k fd : ready k -> ~ 0 <= s32 fd <= 1 -> ~ open_number p k (s32 fd).
Proof. intros [_ Hf] Hfd [Hr Hu]. rewrite Hf in Hu by lia. done. Qed.

(** One line per refused call. *)
Ltac refuse :=
  match goal with
  | |- ece391_read _ _ _ _ _ _ = _ => eapply read_refused
  | |- ece391_write _ _ _ _ _ _ = _ => eapply write_refused
  | |- ece391_close _ _ _ _ = _ => eapply close_refused
  end; first [eassumption | by left | right; (done || lia)].
Ltac listed := apply (bool_decide_unpack _); vm_compute; exact I.

Lemma err_neg_fd_passes buf : passes (err_neg_fd d0 locals lit buf) (pass_line (text "err_neg_fd")).
Proof.
  intros k Hk. pose proof (ready_unused k NEG_FD Hk ltac:(change (s32 NEG_FD) with NEG_FD; unfold NEG_FD; lia)) as Hu.
  pose proof (ld_in _ (proj1 Hk)) as Hp.
  unfold err_neg_fd. rewrite !refused_step by refuse. apply verdict_passes; [listed|done].
Qed.
Lemma err_big_fd_passes buf : passes (err_big_fd d0 locals lit buf) (pass_line (text "err_big_fd")).
Proof.
  intros k Hk. pose proof (ready_unused k BIG_FD Hk ltac:(change (s32 BIG_FD) with BIG_FD; unfold BIG_FD; lia)) as Hu.
  pose proof (ld_in _ (proj1 Hk)) as Hp.
  unfold err_big_fd. rewrite !refused_step by refuse. apply verdict_passes; [listed|done].
Qed.
Lemma err_stdin_out_passes buf : passes (err_stdin_out d0 locals lit buf) (pass_line (text "err_stdin_out")).
Proof.
  intros k Hk. pose proof (ld_in _ (proj1 Hk)) as Hp.
  unfold err_stdin_out. rewrite !refused_step by refuse. apply verdict_passes; [listed|done].
Qed.
Lemma err_syscall_num_passes ebx ecx edx :
  passes (err_syscall_num d0 locals lit ebx ecx edx) (pass_line (text "err_syscall_num")).
Proof.
  intros k Hk. unfold err_syscall_num, call_sys.
  rewrite !refused_step by (apply number_refused; vm_compute; intuition discriminate).
  apply verdict_passes; [listed|done].
Qed.
Lemma err_vidmap_passes : passes (err_vidmap d0 locals lit) (pass_line (text "err_vidmap")).
Proof.
  intros k Hk. unfold err_vidmap.
  rewrite !refused_step; [apply verdict_passes; [listed|done]|apply vidmap_refused; [lia|right; done]|apply vidmap_refused; [lia|by left]].
Qed.

(** A loop of refused calls. *)
Lemma each_refused_step {B} first (call : Z -> prog kernel Z) msg (f : Z -> prog kernel B) k :
  0 <= first <= 8 -> (forall i, first <= i < 8 -> call i k = Ret (-1) k) ->
  (fail ← each_refused d0 locals lit first call msg 0; f fail) k = f 0 k.
Proof.
  intros Hf Hc. apply bind_Ret. unfold each_refused.
  destruct (prog_while_for
    (λ '(i, fail), if negb (i <? 8) then mret (inr fail)
       else r ← call i; fail ← expect_refused d0 locals lit r msg fail; mret (inl (i + 1, fail)))
    (λ j a s, a = (j, 0) /\ s = k) (λ b s, b = 0 /\ s = k) first 8 (first, 0) k) as (b & s' & Hr & -> & ->); try done; try lia.
  - intros j a s Hj [-> ->]. replace (j <? 8) with true by lia. cbn [negb].
    rewrite refused_step by (apply Hc; lia). by exists (j + 1, 0), k.
  - intros a s [-> ->]. by exists 0, k.
Qed.
Lemma err_unopened_passes buf : passes (err_unopened d0 locals lit buf) (pass_line (text "err_unopened")).
Proof.
  intros k Hk. pose proof (ld_in _ (proj1 Hk)) as Hp.
  assert (forall i, 2 <= i < 8 -> ~ open_number p k (s32 i)) as Hu
    by (intros i Hi; apply (ready_unused k i Hk); rewrite s32_id by lia; lia).
  unfold err_unopened. rewrite !each_refused_step; try lia; [apply verdict_passes; [listed|done]|..]; intros i Hi.
  - apply (write_refused d0 locals p); [done|]. left. by apply Hu.
  - apply (read_refused d0 locals p); [done|]. left. by apply Hu.
  - apply (close_refused d0 locals p); [done|]. destruct (Z.lt_ge_cases i 2); [right; rewrite s32_id; lia|]. left. apply Hu. lia.
Qed.

(** Names that are not there. *)
Lemma open_not_there k s :
  ready k -> s ∈ [text "helloo"; text "shel"] ->
  exists K, ece391_open d0 locals (lit s) k = Ret (-1) K /\ ready K /\ left p nothing k K /\ forall t, view_of t K = view_of t k.
Proof.
  intros [Hk Hf] Hs. destruct (proj1 (Forall_forall _ _) (ld_missing _ Hk) s Hs) as [Hnd Hnone].
  assert (s ∈ literals /\ 0 < zlen s <= 32) as [Hl Hlen].
  { apply elem_of_cons in Hs as [->|Hs%list_elem_of_singleton]; [|subst s]; (split; [listed|vm_compute; intuition discriminate]). }
  destruct (literal k s Hk Hl) as [Hc Ha].
  destruct (open_missing d0 locals p k (lit s) s) as (K & HK & HL & Hfds & Hv & _); try done; try lia.
  { apply Hk. } { unfold in_user. lia. } { apply dir_closed_ok, Hk. }
  exists K. split; [done|]. split; [|done]. split; [by apply (loaded_left k)|]. unfold open_set. by rewrite Hfds.
Qed.
Lemma err_open_passes : passes (err_open d0 locals lit) (pass_line (text "err_open")).
Proof.
  intros k Hk. unfold err_open.
  destruct (open_not_there k (text "helloo") Hk ltac:(left)) as (K1 & H1 & Hk1 & HL1 & Hv1).
  destruct (open_not_there K1 (text "shel") Hk1 ltac:(right; left)) as (K2 & H2 & Hk2 & HL2 & Hv2).
  rewrite (refused_to _ _ _ _ _ _ H1), (refused_to _ _ _ _ _ _ H2), refused_step
    by (apply open_refused; apply (literal K2 []); [apply Hk2|listed]).
  destruct (verdict_passes (text "err_open") ltac:(listed) K2 Hk2) as (K & HK & HkK & HLK & Hv).
  exists K. split; [done|]. split; [done|]. split; [by apply left_trans with K1, left_trans with K2|].
  destruct (lf_turn _ _ _ _ HL1) as [Hc1 _], (lf_turn _ _ _ _ HL2) as [Hc2 _].
  cbv zeta in Hv |- *. rewrite Hc2, Hc1 in Hv. by rewrite Hv, Hv2, Hv1.
Qed.

(** Seven times [open] of the directory: six descriptors, then none. *)
Lemma open_dot k m :
  loaded k -> open_set (λ i, i <? m) k -> 2 <= m <= 8 ->
  exists K, ece391_open d0 locals (lit (text ".")) k = Ret (if m =? 8 then -1 else m) K /\
    loaded K /\ open_set (λ i, i <? Z.min (m + 1) 8) K /\ left p nothing k K /\ forall t, view_of t K = view_of t k.
Proof.
  intros Hk Hf Hm. destruct (literal k (text ".") Hk ltac:(listed)) as [Hc Ha]. change (zlen (text ".")) with 1 in Ha.
  pose proof (pg_fds _ _ (ld_in _ Hk)) as Hfw. fold (fds p k) in Hfw. pose proof (fw_len _ Hfw) as Hlen.
  assert (free_fd p k = m) as Hfree.
  { destruct (find_free_fd_least 6 FDSTART (fds p k)) as (Hr & Hu & Hfr). fold (free_fd p k) in *. unfold FDSTART in *.
    destruct (Z.lt_trichotomy (free_fd p k) m) as [Hlt|[?|Hlt]]; [|done|].
    - specialize (Hfr ltac:(lia)). rewrite Hf in Hfr by lia. lia.
    - specialize (Hu m ltac:(lia)). rewrite Hf in Hu by lia. lia. }
  destruct (Z.eqb_spec m 8) as [->|Hne].
  - destruct (open_full d0 locals p k (lit (text ".")) (text ".")) as (K & HK & HL & Hfds & Hv); try done; try apply Hk.
    { unfold in_user. lia. } { apply dir_closed_ok, Hk. }
    exists K. split; [done|]. split; [by apply (loaded_left k)|]. split; [|done].
    unfold open_set. rewrite Hfds. exact Hf.
  - destruct (open_directory d0 locals p k (lit (text ".")) (text ".")) as (K & HK & HL & Hfds & Hv & _); try done; try apply Hk; try lia.
    { unfold in_user. lia. } { apply dir_closed_ok, Hk. }
    rewrite Hfree in HK, Hfds. exists K. split; [done|]. split; [by apply (loaded_left k)|]. split; [|done].
    intros i Hi. rewrite Hfds. destruct (decide (i = m)) as [->|].
    + rewrite zget_zset_eq by lia. replace (m <? Z.min (m + 1) 8) with true by lia.
      apply opened_fd_open; [apply (fw_flags _ Hfw); lia|lia..].
    + rewrite zget_zset_ne, Hf by lia. destruct (Z.ltb_spec i m); lia.
Qed.
Definition silent (k K : kernel) : Prop := loaded K /\ left p nothing k K /\ forall t, view_of t K = view_of t k.
Lemma silent_trans k K1 K2 : silent k K1 -> silent K1 K2 -> silent k K2.
Proof.
  intros (_ & HL & Hv) (Hk & HL' & Hv'). split; [done|]. split; [by apply left_trans with K1|]. intros t. by rewrite Hv', Hv.
Qed.
Lemma opens_run k :
  ready k -> exists cnt K, prog_while (λ '(i, cnt),
    if negb (i <? 7) then mret (inr cnt)
    else r ← ece391_open d0 locals (lit (text ".")); mret (inl (i + 1, if r =? -1 then cnt + 1 else cnt))) (0, 0) k = Ret cnt K /\
    cnt = 1 /\ silent k K /\ open_set (λ i, true) K.
Proof.
  intros [Hk Hf].
  destruct (prog_while_for (λ '(i, cnt),
    if negb (i <? 7) then mret (inr cnt)
    else r ← ece391_open d0 locals (lit (text ".")); mret (inl (i + 1, if r =? -1 then cnt + 1 else cnt)))
    (λ j a s, a = (j, Z.max 0 (j - 6)) /\ silent k s /\ open_set (λ i, i <? Z.min (2 + j) 8) s)
    (λ b s, b = 1 /\ silent k s /\ open_set (λ _, true) s) 0 7 (0, 0) k) as (b & K & HK & HP); try lia.
  - intros j a s Hj (-> & Hs & Hfd). replace (j <? 7) with true by lia. cbn [negb].
    destruct (open_dot s (Z.min (2 + j) 8) (proj1 Hs) Hfd ltac:(lia)) as (K & HK & Hld & Hfd' & HL & Hv).
    rewrite (bind_Ret _ _ _ _ _ HK). eexists _, K. split; [done|]. split; [|split].
    + destruct (Z.eqb_spec (Z.min (2 + j) 8) 8); [change (-1 =? -1) with true|replace (Z.min (2 + j) 8 =? -1) with false by lia];
        cbv iota; f_equal; lia.
    + by apply silent_trans with s.
    + intros i Hi. rewrite Hfd' by lia. destruct (Z.ltb_spec i (Z.min (2 + (j + 1)) 8)); lia.
  - intros a s (-> & Hs & Hfd). exists 1, s. split; [done|]. split; [done|]. split; [done|].
    intros i Hi. rewrite Hfd by lia. lia.
  - split; [done|]. split; [split; [done|]; split; [apply left_refl, Hk|done]|].
    intros i Hi. rewrite Hf by lia. lia.
  - by exists b, K.
Qed.
Lemma closes_run k :
  loaded k -> open_set (λ _, true) k -> exists u K, prog_while (λ i,
    if negb (i <? 8) then mret (inr tt) else _ ← ece391_close d0 locals i; mret (inl (i + 1))) 2 k = Ret u K /\
    silent k K /\ open_set (λ _, false) K.
Proof.
  intros Hk Hf.
  apply (prog_while_for (λ i,
    if negb (i <? 8) then mret (inr tt) else _ ← ece391_close d0 locals i; mret (inl (i + 1)))
    (λ j a s, a = j /\ silent k s /\ open_set (λ i, j <=? i) s)
    (λ b s, silent k s /\ open_set (λ _, false) s) 2 8 2 k); try lia.
  - intros j a s Hj (-> & Hs & Hfd). replace (j <? 8) with true by lia. cbn [negb].
    pose proof (ld_in _ (proj1 Hs)) as Hin. pose proof (pg_fds _ _ Hin) as Hfw. fold (fds p s) in Hfw.
    destruct (close_call d0 locals p s j Hin ltac:(lia)) as (K & HK & HL & Hfds & Hv); [rewrite Hfd by lia; lia|].
    rewrite (bind_Ret _ _ _ _ _ HK). eexists _, K. split; [done|]. split; [done|]. split.
    + apply silent_trans with s; [done|]. split; [by apply (loaded_left s); [|apply Hs]|done].
    + intros i Hi. rewrite Hfds. destruct (decide (i = j)) as [->|].
      * rewrite zget_zset_eq by (rewrite (fw_len _ Hfw); lia). rewrite closed_fd_free by (apply (fw_flags _ Hfw); lia). lia.
      * rewrite zget_zset_ne, Hfd by lia. lia.
  - intros a s (-> & Hs & Hfd). exists tt, s. split; [done|]. split; [done|]. intros i Hi. rewrite Hfd by lia. lia.
  - split; [done|]. split; [split; [done|]; split; [apply left_refl, Hk|done]|].
    intros i Hi. rewrite Hf by lia. lia.
Qed.
Lemma err_open_lots_passes : passes (err_open_lots d0 locals lit) (pass_line (text "err_open_lots")).
Proof.
  intros k Hk. destruct (opens_run k Hk) as (cnt & K1 & H1 & -> & Hs1 & Hf1).
  destruct (closes_run K1 (proj1 Hs1) Hf1) as (u & K2 & H2 & Hs2 & Hf2).
  unfold err_open_lots. rewrite (bind_Ret _ _ _ _ _ H1), (bind_Ret _ _ _ _ _ H2). cbn [Z.eqb Pos.eqb].
  destruct (say_passes (pass_line (text "err_open_lots")) 0 eq_refl ltac:(listed) K2 (conj (proj1 Hs2) Hf2)) as (K & HK & HkK & HLK & Hv).
  pose proof (silent_trans _ _ _ Hs1 Hs2) as (_ & HL & Hv0).
  exists K. split; [done|]. split; [done|]. split; [by apply left_trans with K2|].
  destruct (lf_turn _ _ _ _ HL) as [Hc _]. cbv zeta in Hv |- *. rewrite Hc in Hv. by rewrite Hv, Hv0.
Qed.

(** One test after the other. *)
Lemma passes_bind t o1 (f : Z -> prog kernel Z) o2 : passes t o1 -> passes (f 0) o2 -> passes (r ← t; f r) (o1 ++ o2).
Proof.
  intros Ht Hf k Hk. destruct (Ht k Hk) as (K1 & H1 & Hk1 & HL1 & Hv1). destruct (Hf K1 Hk1) as (K & HK & HkK & HL & Hv).
  exists K. rewrite (bind_Ret _ _ _ _ _ H1). split; [done|]. split; [done|]. split; [by apply left_trans with K1|].
  destruct (lf_turn _ _ _ _ HL1) as [Hc _]. cbv zeta in Hv, Hv1 |- *. rewrite Hc in Hv. by rewrite Hv, Hv1, put_all_app.
Qed.
Lemma run_tests_passes ebx ecx edx buf select :
  0 <= select <= 8 -> passes (run_tests d0 locals lit ebx ecx edx buf select) (report select).
Proof.
  intros Hs.
  assert (select = 0 \/ select = 1 \/ select = 2 \/ select = 3 \/ select = 4 \/ select = 5 \/ select = 6 \/ select = 7 \/ select = 8)
    as [->|[->|[->|[->|[->|[->|[->|[->| ->]]]]]]]] by lia.
  - replace (report 0) with (pass_line (text "err_neg_fd") ++ pass_line (text "err_big_fd") ++ pass_line (text "err_open_lots") ++
      pass_line (text "err_open") ++ pass_line (text "err_unopened") ++ pass_line (text "err_vidmap") ++
      pass_line (text "err_stdin_out") ++ pass_line (text "err_syscall_num") ++ overall_line) by (vm_compute; reflexivity).
    apply passes_bind; [apply err_neg_fd_passes|]. apply passes_bind; [apply err_big_fd_passes|].
    apply passes_bind; [apply err_open_lots_passes|]. apply passes_bind; [apply err_open_passes|].
    apply passes_bind; [apply err_unopened_passes|]. apply passes_bind; [apply err_vidmap_passes|].
    apply passes_bind; [apply err_stdin_out_passes|]. apply passes_bind; [apply err_syscall_num_passes|].
    apply (say_passes overall_line); [done|listed].
  - apply err_neg_fd_passes.
  - apply err_big_fd_passes.
  - apply err_open_lots_passes.
  - apply err_open_passes.
  - apply err_unopened_passes.
  - apply err_vidmap_passes.
  - apply err_stdin_out_passes.
  - apply err_syscall_num_passes.
Qed.

(** C22. The system call tests of the repository pass on this kernel, each of the eight and
    all together: bad descriptor numbers, a seventh open file, names that are almost right, no
    name, descriptors that are not open, NULL and kernel pointers for [vidmap], the wrong
    direction on a terminal descriptor, and numbers that are no system call are refused; the
    run prints the PASS lines and nothing else and returns 0, and afterwards the
    descriptors are free and the program's memory is what it was. *)
Theorem syserr_tests_pass ebx ecx edx buf select k :
  ready k -> 0 <= select <= 8 ->
  exists K, run_tests d0 locals lit ebx ecx edx buf select k = Ret 0 K /\ ready K /\ left p nothing k K /\
    (let t := current_term (sched k) in view_of t K = put_all (report select) (view_of t k)).
Proof. intros Hk Hs. by apply run_tests_passes. Qed.
End Runs.

(** The process of [demo_user] with nothing open and the literals in its page. *)
Definition literal_at (l : list Z) : Z :=
  match list_find (λ s, s = l) literals with Some (i, _) => 0x8048100 + 64 * Z.of_nat i | None => 0 end.
Definition demo_tests_phys : gmap Z Z := phys (foldr (λ s k, store_bytes (literal_at s) (s ++ [0]) k) demo_user literals).
Definition demo_tests : kernel :=
  demo_user <| phys := demo_tests_phys |>
            <| pcbs := {[ 0x7FC000 := set_up_stdout (set_up_stdin (pcb0 <| process_id := 1 |>)) ]} |>.
Lemma demo_tests_fds i : 0 <= i < 8 ->
  zlen (fd_flags (zget (fds 1 demo_tests) i)) = 4 /\ (2 <= i -> in_use (zget (fds 1 demo_tests) i) = false).
Proof.
  intros Hi. pose proof (check_below 8 (λ i, (zlen (fd_flags (zget (fds 1 demo_tests) i)) =? 4) &&
    ((i <? 2) || negb (in_use (zget (fds 1 demo_tests) i)))) ltac:(vm_compute; reflexivity) i Hi) as Hc. cbv beta in Hc.
  destruct (in_use (zget (fds 1 demo_tests) i)); split; (lia || done).
Qed.
Lemma demo_tests_fds_wf : fds_wf (fds 1 demo_tests).
Proof.
  split; [vm_compute; reflexivity| |split; vm_compute; reflexivity|split; vm_compute; reflexivity|].
  - intros i Hi. by apply demo_tests_fds.
  - intros i Hi Hu. destruct (demo_tests_fds i ltac:(lia)) as [_ Hf]. rewrite Hf in Hu by lia. done.
Qed.
Lemma demo_tests_in : in_program 1 demo_tests.
Proof.
  split.
  - split; [exact demo_running_map|exact (cw_sched _ kernel0_wf)].
  - exact demo_running_page.
  - reflexivity.
  - exact demo_tests_fds_wf.
  - apply flags_check_ok. vm_compute. reflexivity.
  - split; vm_compute; reflexivity.
  - exact kernel0_term_wf.
  - vm_compute. intuition discriminate.
Qed.
Lemma demo_tests_literals : Forall (λ s, string_at demo_tests (literal_at s) s) literals.
Proof.
  apply Forall_forall. intros s Hs. apply string_check_ok.
  assert (forallb (λ s, string_check demo_tests (literal_at s) s) literals = true) as Hall by (vm_compute; reflexivity).
  rewrite forallb_forall in Hall. apply Hall. by apply list_elem_of_In.
Qed.
Lemma demo_tests_closed : dir_closed demo_tests.
Proof. apply dir_check_ok. vm_compute. reflexivity. Qed.
Lemma demo_tests_dot : entry_byte demo_tests 0 0 = 46.
Proof. vm_compute. reflexivity. Qed.
Lemma demo_tests_not_there i : 0 <= i < 63 -> negb (bool_decide (entry_name demo_tests i ∈ [text "helloo"; text "shel"])) = true.
Proof.
  revert i. apply (check_below 63 (λ i, negb (bool_decide (entry_name demo_tests i ∈ [text "helloo"; text "shel"])))).
  vm_compute. reflexivity.
Qed.
Lemma demo_tests_missing s :
  s ∈ [text "helloo"; text "shel"] -> ~ is_directory demo_tests s /\ forall i, 1 <= i <= 62 -> entry_name demo_tests i <> s.
Proof.
  intros Hs. split.
  - intros H. assert (0 < zlen s /\ zget s 0 <> 46) as [Hl Hz].
    { apply elem_of_cons in Hs as [->|Hs%list_elem_of_singleton]; [|subst s]; (split; [vm_compute; reflexivity|vm_compute; discriminate]). }
    apply Hz. rewrite <- (H 0 ltac:(lia)). exact demo_tests_dot.
  - intros i Hi He. pose proof (demo_tests_not_there i ltac:(lia)) as Hc. rewrite negb_true_iff, bool_decide_eq_false in Hc.
    apply Hc. rewrite He. exact Hs.
Qed.
Lemma demo_tests_ready : ready literal_at 1 demo_tests.
Proof.
  split; [split|].
  - exact demo_tests_in.
  - exact demo_tests_literals.
  - exact demo_tests_closed.
  - intros j Hj. change (zlen (text ".")) with 1 in Hj. replace j with 0 by lia. exact demo_tests_dot.
  - apply Forall_forall. exact demo_tests_missing.
  - intros i Hi. apply demo_tests_fds; lia.
Qed.
Lemma syserr_tests_pass_witness :
  exists K, run_tests (dentry_a (fs kernel0)) (λ _, 0) literal_at 0 0 0 0x8050000 0 demo_tests = Ret 0 K /\
    view_of 0 K = put_all (report 0) (view_of 0 demo_tests).
Proof.
  destruct (syserr_tests_pass (dentry_a (fs kernel0)) (λ _, 0) literal_at 1 ltac:(vm_compute; reflexivity)
    0 0 0 0x8050000 0 demo_tests demo_tests_ready ltac:(lia)) as (K & HK & _ & _ & Hv).
  exists K. split; [exact HK|exact Hv].
Defined.
