(* ===== verification/Boot.v ===== *)
(** * Boot: student-distrib/kernel.c, with the descriptors of x86_desc.h

    [entry] reports what the boot loader passed (paging is off, so addresses are physical),
    fills the LDT and TSS descriptors, and then starts every component ([start_kernel]).
    It ends in a loop that waits for interrupts.  [machine] is the kernel with the
    descriptor tables and registers only [entry] touches; [ldt], [tss_at], [ldt_size] and
    [tss_size] are the linker's addresses and the sizes of x86_desc.S. *)
From S2P Require Import Prelude Machine Lib Paging Devices State Console Printf Terminal Filesystem SysCall Process Keyboard Scheduler Idt.

Definition MULTIBOOT_BOOTLOADER_MAGIC : Z := 0x2BADB002.
Definition KERNEL_TSS : Z := 0x30.
Definition KERNEL_LDT : Z := 0x38.
Definition TSS_SIZE : Z := 104.
Definition PIT_RATE : Z := 500.

(** ** x86_desc.h *)
Record seg_desc_t := SegDesc {
  seg_lim_15_00 : Z;
  base_15_00 : Z;
  base_23_16 : Z;
  seg_type : Z;
  seg_sys : Z;
  seg_dpl : Z;
  seg_present : Z;
  seg_lim_19_16 : Z;
  seg_avail : Z;
  seg_reserved : Z;
  seg_opsize : Z;
  seg_granularity : Z;
  base_31_24 : Z
}.
(** The same assignments for the LDT and the TSS. *)
Definition SET_LDT_PARAMS (addr lim : Z) (str : seg_desc_t) : seg_desc_t :=
  SegDesc (Z.land lim 0x0000FFFF) (Z.land addr 0x0000FFFF) (Z.shiftr (Z.land addr 0x00FF0000) 16)
    (seg_type str) (seg_sys str) (seg_dpl str) (seg_present str) (Z.shiftr (Z.land lim 0x000F0000) 16)
    (seg_avail str) (seg_reserved str) (seg_opsize str) (seg_granularity str) (Z.shiftr (Z.land addr 0xFF000000) 24).
Definition SET_TSS_PARAMS : Z -> Z -> seg_desc_t -> seg_desc_t := SET_LDT_PARAMS.

Record machine := Machine {
  kern : kernel;
  ldt_desc_ptr : seg_desc_t;
  tss_desc_ptr : seg_desc_t;
  tss_ldt_selector : Z;
  ldtr : Z;
  task_register : Z;
  idt : list idt_desc_t
}.
#[export] Instance set_kern : Setter kern :=
  λ f r, Machine (f (kern r)) (ldt_desc_ptr r) (tss_desc_ptr r) (tss_ldt_selector r) (ldtr r) (task_register r) (idt r).
#[export] Instance set_ldt_desc_ptr : Setter ldt_desc_ptr :=
  λ f r, Machine (kern r) (f (ldt_desc_ptr r)) (tss_desc_ptr r) (tss_ldt_selector r) (ldtr r) (task_register r) (idt r).
#[export] Instance set_tss_desc_ptr : Setter tss_desc_ptr :=
  λ f r, Machine (kern r) (ldt_desc_ptr r) (f (tss_desc_ptr r)) (tss_ldt_selector r) (ldtr r) (task_register r) (idt r).
#[export] Instance set_tss_ldt_selector : Setter tss_ldt_selector :=
  λ f r, Machine (kern r) (ldt_desc_ptr r) (tss_desc_ptr r) (f (tss_ldt_selector r)) (ldtr r) (task_register r) (idt r).
#[export] Instance set_ldtr : Setter ldtr :=
  λ f r, Machine (kern r) (ldt_desc_ptr r) (tss_desc_ptr r) (tss_ldt_selector r) (f (ldtr r)) (task_register r) (idt r).
#[export] Instance set_task_register : Setter task_register :=
  λ f r, Machine (kern r) (ldt_desc_ptr r) (tss_desc_ptr r) (tss_ldt_selector r) (ldtr r) (f (task_register r)) (idt r).
#[export] Instance set_idt : Setter idt :=
  λ f r, Machine (kern r) (ldt_desc_ptr r) (tss_desc_ptr r) (tss_ldt_selector r) (ldtr r) (task_register r) (f (idt r)).
Definition on_kernel {A} (p : prog kernel A) : prog machine A := λ m,
  match p (kern m) with
  | Ret a k => Ret a (m <| kern := k |>)
  | Wait k => Wait (m <| kern := k |>)
  | Spin => Spin
  | Ub => Ub
  end.

Definition print (format : list Z) (args : list Z) : prog kernel unit := _ ← printf (Object format) args; mret tt.

(** ** The report *)
Section Report.
Context (mbi : Z).
Definition field (off : Z) (k : kernel) : Z := load32 k (mbi + off).
Definition CHECK_FLAG (flags bit : Z) : bool := Z.testbit flags bit.
Definition when_flag (bit : Z) (p : prog kernel unit) : prog kernel unit :=
  flags ← get (field 0);
  if CHECK_FLAG flags bit then p else mret tt.

Definition report_modules : prog kernel unit :=
  mods_addr ← get (field 24);
  prog_while (λ '(mod_count, mod_),
    mods_count ← get (field 20);
    if negb (mod_count <? mods_count) then mret (inr tt)
    else
      start ← get (λ k, load32 k mod_);
      _ ← print (text "Module %d loaded at address: 0x%#x" ++ [10]) [mod_count; start];
      mod_end ← get (λ k, load32 k (mod_ + 4));
      _ ← print (text "Module %d ends at address: 0x%#x" ++ [10]) [mod_count; mod_end];
      _ ← print (text "First few bytes of module:" ++ [10]) [];
      _ ← foldr (λ i rest,
            start ← get (λ k, load32 k mod_);
            byte ← get (λ k, u32 (s8 (loadb k (start + i))));
            _ ← print (text "0x%x ") [byte];
            rest) (mret tt) [0; 1; 2; 3; 4; 5; 6; 7; 8; 9; 10; 11; 12; 13; 14; 15];
      _ ← print [10] [];
      mret (inl (mod_count + 1, mod_ + 16))) (0, mods_addr).
Definition report_mmap : prog kernel unit :=
  mmap_addr ← get (field 48);
  mmap_length ← get (field 44);
  _ ← print (text "mmap_addr = 0x%#x, mmap_length = 0x%x" ++ [10]) [mmap_addr; mmap_length];
  prog_while (λ mmap,
    mmap_addr ← get (field 48);
    mmap_length ← get (field 44);
    if negb (mmap <? u32 (mmap_addr + mmap_length)) then mret (inr tt)
    else
      args ← get (λ k, [load32 k mmap; load32 k (mmap + 8); load32 k (mmap + 4); load32 k (mmap + 20);
                        load32 k (mmap + 16); load32 k (mmap + 12)]);
      _ ← print (text "    size = 0x%x, base_addr = 0x%#x%#x" ++ [10] ++ text "    type = 0x%x,  length    = 0x%#x%#x" ++ [10]) args;
      size ← get (λ k, load32 k mmap);
      mret (inl (u32 (mmap + size + 4)))) mmap_addr.

(** [false]: [entry] returns. *)
Definition report : prog kernel bool :=
  flags ← get (field 0);
  _ ← print (text "flags = 0x%#x" ++ [10]) [flags];
  _ ← when_flag 0 (
        mem_lower ← get (field 4);
        mem_upper ← get (field 8);
        print (text "mem_lower = %uKB, mem_upper = %uKB" ++ [10]) [mem_lower; mem_upper]);
  _ ← when_flag 1 (
        boot_device ← get (field 12);
        print (text "boot_device = 0x%#x" ++ [10]) [boot_device]);
  _ ← when_flag 2 (
        cmdline ← get (field 16);
        print (text "cmdline = %s" ++ [10]) [cmdline]);
  _ ← when_flag 3 report_modules;
  flags ← get (field 0);
  if CHECK_FLAG flags 4 && CHECK_FLAG flags 5 then
    _ ← print (text "Both bits 4 and 5 are set." ++ [10]) [];
    mret false
  else
    _ ← when_flag 5 (
          elf_sec ← get (λ k, [field 28 k; field 32 k; field 36 k; field 40 k]);
          print (text "elf_sec: num = %u, size = 0x%#x, addr = 0x%#x, shndx = 0x%#x" ++ [10]) elf_sec);
    _ ← when_flag 6 report_mmap;
    mret true.
End Report.

(** ** The descriptors *)
Section Entry.
Context (ldt ldt_size tss_at tss_size : Z) (address : handler -> Z).
Context (d0 : dentry_t) (exe_at : Z).

Definition the_ldt_desc : seg_desc_t := SET_LDT_PARAMS ldt ldt_size (SegDesc 0 0 0 2 0 0 1 0 0 0 1 0 0).
Definition the_tss_desc : seg_desc_t :=
  SET_TSS_PARAMS tss_at tss_size (SegDesc (Z.land TSS_SIZE 0xFFFF) 0 0 9 0 0 1 (Z.land TSS_SIZE 0xF0000) 0 0 0 0 0).
Definition load_descriptors (m : machine) : machine :=
  let m := m <| ldt_desc_ptr := the_ldt_desc |> <| ldtr := KERNEL_LDT |> in
  let m := m <| tss_desc_ptr := the_tss_desc |> <| tss_ldt_selector := KERNEL_LDT |> in
  m <| kern ::= λ k, k <| tss := Tss KERNEL_DS 0x800000 |> |> <| task_register := KERNEL_TSS |>.

(** pit.c *)
Definition init_pit (rate : Z) : prog kernel unit :=
  _ ← dev_op (Pit.program rate);
  print (text "Printing in pit") [].

(** From [set_mod_start] on; the last line waits for interrupts. *)
Definition start_devices : prog kernel unit :=
  _ ← modify enable_cursor;
  _ ← dev_op I8259.i8259_init;
  _ ← modify init_keyboard;
  _ ← dev_op Rtc.init_rtc;
  _ ← init_global_scheduler d0 exe_at;
  _ ← init_pit PIT_RATE;
  _ ← print (text "Enabling Interrupts" ++ [10]) [];
  _ ← modify clear;
  _ ← modify (setposition 0 0);
  dev_op sti.
Definition idle : prog machine unit := λ m, Wait m.
Definition start_kernel (mod_start : Z) : prog machine unit :=
  _ ← on_kernel (modify (λ k, (set_mod_start mod_start k).2));
  _ ← on_kernel (mmu_op paging_initialize);
  _ ← modify (λ m, m <| idt ::= initialize_IDT address |>);
  _ ← on_kernel start_devices;
  idle.

Definition entry (magic addr : Z) : prog machine unit :=
  _ ← on_kernel (modify clear);
  if negb (magic =? MULTIBOOT_BOOTLOADER_MAGIC) then
    on_kernel (print (text "Invalid magic number: 0x%#x" ++ [10]) [magic])
  else
    go_on ← on_kernel (report addr);
    if negb (go_on : bool) then mret tt
    else
      _ ← modify load_descriptors;
      mod_start ← get (λ m, load32 (kern m) (field addr 24 (kern m)));
      _ ← on_kernel (print (text "%d") [mod_start]);
      mod_start ← get (λ m, load32 (kern m) (field addr 24 (kern m)));
      start_kernel mod_start.
End Entry.

(** ** The state the kernel waits in *)

(** The drivers' part: only the devices and the keyboard's tables change. *)
Definition devices_ready (k : kernel) : kernel :=
  init_keyboard (enable_cursor k <| devs ::= I8259.i8259_init |>) <| devs ::= Rtc.init_rtc |>.
Lemma kbd_devs k f : kbd (k <| devs ::= f |>) = kbd k.
Proof. reflexivity. Qed.
Lemma devices_ready_fs k : fs (devices_ready k) = fs k.
Proof.
  unfold devices_ready. change (fs (?k <| devs ::= ?f |>)) with (fs k). unfold init_keyboard.
  change (fs (?k <| kbd ::= ?f |> <| devs ::= ?g |>)) with (fs k). reflexivity.
Qed.
Lemma has_shell_same d0 exe_at k k' i :
  phys k' = phys k -> mmu_of k' = mmu_of k -> fs k' = fs k -> has_shell d0 exe_at k i -> has_shell d0 exe_at k' i.
Proof. intros Hp Hm Hf H. destruct k, k'. cbn in Hp, Hm, Hf. subst. destruct H as [H1 H2 H3 H4 [[] H5] [H6 H7 H8]].
  split; [exact H1|exact H2|exact H3|exact H4|split; [by split|exact H5]|by split]. Qed.

Lemma fresh_sched_wf ts : sched_wf (fresh_sched ts).
Proof.
  split; [done|cbn; lia|cbn; lia|]. intros t Ht.
  assert (t = 0 \/ t = 1 \/ t = 2) as [->|[->| ->]] by lia; vm_compute; intuition discriminate.
Qed.
Lemma fresh_get ts t : 0 <= t < 3 -> zget (terminals (fresh_sched ts)) t = fresh_terminal (t + 1) (zget ts t).
Proof. intros Ht. unfold fresh_sched. cbn [terminals]. by rewrite zget_tabulate by lia. Qed.
Lemma print_text l k :
  console_wf k -> Forall (λ c, c <> 0 /\ c <> 37) l -> zlen l < 4294967295 ->
  exists k', print l [] k = Ret tt k' /\ prints l k k'.
Proof.
  intros Hk Hl Hlen. destruct (printf_text l k Hk Hl Hlen) as (k' & Hp & Hpr).
  exists k'. split; [|done]. unfold print. by rewrite (bind_Ret _ _ _ _ _ Hp).
Qed.
Lemma same_but (k X : kernel) P D :
  X = k <| phys := P |> <| devs := D |> -> X = k <| phys := phys X |> <| devs := devs X |>.
Proof. by intros ->. Qed.
Lemma screen_cells_put t T k f : screen_cells (put_terminal t T k <| devs ::= f |>) = screen_cells k.
Proof. by apply screen_cells_same. Qed.
Lemma sti_last k f P D :
  k <| devs ::= f |> <| phys := P |> <| devs := D |> <| devs ::= sti |> = k <| phys := P |> <| devs := sti D |>.
Proof. reflexivity. Qed.
(** A fresh visible terminal is at home again once its cursor is put there. *)
Lemma fresh_home k ts x y k3 k4 T :
  sched k = fresh_sched ts -> T = get_terminal 0 k <| screen_x := x |> <| screen_y := y |> ->
  k3 = put_terminal 0 T (k <| phys := phys k3 |> <| devs := devs k3 |>) -> k4 = k3 <| phys := phys k4 |> ->
  put_terminal 0 (T <| screen_x := 0 |> <| screen_y := 0 |>) k4 = k <| phys := phys k4 |> <| devs := devs k3 |>.
Proof.
  intros Hs HT H3 H4. rewrite H4. generalize (phys k4). intros p. revert H3. generalize (phys k3) (devs k3).
  intros p3 d3 ->. clear H4. subst T. destruct k as [? ? s]. cbn in Hs. subst s. reflexivity.
Qed.
(** The messages, and the screen cleared again. *)
Definition announce : prog kernel unit :=
  _ ← init_pit PIT_RATE;
  _ ← print (text "Enabling Interrupts" ++ [10]) [];
  _ ← modify clear;
  _ ← modify (setposition 0 0);
  dev_op sti.
Lemma announce_runs k ts :
  kernel_map (mmu_of k) -> sched k = fresh_sched ts ->
  exists K, announce k = Ret tt K /\ K = k <| phys := phys K |> <| devs := devs K |> /\
    (screen_cells K = replicate CELLS (32, ATTRIB) /\ interrupt_flag (devs K) = true) /\
    forall q, 0x400000 <= q -> phys K !! q = phys k !! q.
Proof.
  intros Hm Hs. set (k1 := k <| devs ::= Pit.program PIT_RATE |>).
  assert (console_wf k1) as Hk1 by (split; [exact Hm|change (sched_wf (sched k)); rewrite Hs; apply fresh_sched_wf]).
  destruct (print_text (text "Printing in pit") k1 Hk1) as (k2 & Hp2 & H2);
    [vm_compute; repeat constructor; discriminate|reflexivity|].
  destruct (print_text (text "Enabling Interrupts" ++ [10]) k2 (pr_wf _ _ _ H2)) as (k3 & Hp3 & H3);
    [vm_compute; repeat constructor; discriminate|reflexivity|].
  pose proof (prints_trans _ _ _ _ _ Hk1 H2 H3) as [Hw3 _ _ Hr3 Ho3].
  destruct (clear_spec k3 (cw_map _ Hw3)) as [HT Hcells].
  assert (visable_sel k1 = 0) as Hv1 by (change (visable_term (sched k) = 0); by rewrite Hs).
  rewrite Hv1 in Hr3. set (T := get_terminal 0 k1 <| screen_x := _ |> <| screen_y := _ |>) in Hr3.
  pose proof (to_rest _ _ _ _ HT) as Hr4. set (k4 := clear k3) in *.
  assert (sched k4 = sched k <| terminals ::= zset 0 T |>) as Hs4 by (rewrite Hr4; cbn; by rewrite Hr3).
  assert (sched_wf (sched k4)) as Hw4 by (rewrite Hr4; apply Hw3).
  pose proof (setposition_put 0 0 k4 Hw4) as Hpos. cbv zeta in Hpos.
  assert (visable_term (sched k4) = 0) as Hv4 by (rewrite Hs4; cbn; by rewrite Hs). rewrite Hv4 in Hpos.
  assert (get_terminal 0 k4 = T) as HT4 by (unfold get_terminal; rewrite Hs4; cbn; by rewrite Hs).
  rewrite HT4 in Hpos.
  exists (setposition 0 0 k4 <| devs ::= sti |>).
  split; [|split; [|split; [split; [|done]|]]].
  - assert (init_pit PIT_RATE k = Ret tt k2) as Hpit by exact Hp2.
    unfold announce. rewrite (bind_Ret _ _ _ _ _ Hpit), (bind_Ret _ _ _ _ _ Hp3). done.
  - apply (same_but _ _ (phys k4) (sti (devs k3))). rewrite Hpos, (fresh_home k1 ts _ _ k3 k4 T Hs eq_refl Hr3 Hr4).
    apply sti_last.
  - rewrite Hpos, screen_cells_put. exact Hcells.
  - intros q Hq. rewrite Hpos. change (phys k4 !! q = phys k !! q). pose proof (video_target_range _ (cw_map _ Hw3)) as Hv3.
    pose proof (video_target_range _ Hm) as Hv. change (phys k !! q) with (phys k1 !! q). unfold T3_BUF_ADDR in *.
    rewrite (to_out _ _ _ _ HT) by lia. apply Ho3. change (mmu_of k1) with (mmu_of k). lia.
Qed.

Lemma three_cases (P : Z -> Prop) : P 0 -> P 1 -> P 2 -> forall t, 0 <= t < 3 -> P t.
Proof. intros H0 H1 H2 t Ht. assert (t = 0 \/ t = 1 \/ t = 2) as [->|[->| ->]] by lia; done. Qed.
(** The invariants once the scheduler is set up. *)
Lemma fresh_invariants k ts :
  kernel_map (mmu_of k) -> sched k = fresh_sched ts -> term_wf (term k) ->
  keys_wf (chararray (kbd k)) -> zlen (linebuffer (kbd k)) = 128 /\ bytes (linebuffer (kbd k)) ->
  sched_ok k /\ input_wf k.
Proof.
  intros Hm Hs Ht Hk Hb.
  assert (console_wf k) as Hc by (split; [done|rewrite Hs; apply fresh_sched_wf]).
  assert (bufs_ok k) as Hbu by (unfold bufs_ok; by rewrite Hs).
  assert (forall t, 0 <= t < 3 -> get_terminal t k = fresh_terminal (t + 1) (zget ts t)) as Hg
    by (intros t Ht3; unfold get_terminal; rewrite Hs; by apply fresh_get).
  split; split; try done.
  - by rewrite Hs.
  - intros t Ht3. rewrite Hg by done. cbn. lia.
  - intros t Ht3. rewrite Hg by done. split; [done|by apply Forall_replicate|cbn; lia].
Qed.

Lemma devices_ready_keys k :
  chararray (kbd k) = keymap ->
  keys_wf (chararray (kbd (devices_ready k))) /\ mods_of (devices_ready k) = no_modifiers.
Proof.
  set (k1 := enable_cursor k <| devs ::= I8259.i8259_init |>). intros Hk.
  assert (kbd k1 = kbd k) as Hk1 by (unfold k1, enable_cursor; reflexivity).
  destruct (init_keyboard_keys k1) as [H1 H2]; [by rewrite Hk1|].
  assert (kbd (devices_ready k) = kbd (init_keyboard k1)) as He by (unfold devices_ready; apply kbd_devs).
  split; [by rewrite He|]. rewrite <- H2. apply mods_same. by rewrite He.
Qed.
Lemma same_scheduler k K :
  K = k <| phys := phys K |> <| devs := devs K |> ->
  sched K = sched k /\ mmu_of K = mmu_of k /\ term K = term k /\ kbd K = kbd k /\ fs K = fs k /\
  processes_running K = processes_running k /\ pcbs K = pcbs k /\ regs K = regs k.
Proof. generalize (phys K) (devs K). intros P D ->. repeat split. Qed.
Lemma same_processes k K :
  K = k <| sched := sched K |> <| mmu_of := mmu_of K |> <| phys := phys K |> <| fs := fs K |> ->
  term K = term k /\ kbd K = kbd k /\ processes_running K = processes_running k /\ pcbs K = pcbs k /\ regs K = regs k.
Proof. generalize (sched K) (mmu_of K) (phys K) (fs K). intros S M P F ->. repeat split. Qed.
Lemma start_devices_unfold d0 exe_at k :
  start_devices d0 exe_at k = (_ ← init_global_scheduler d0 exe_at; announce) (devices_ready k).
Proof. unfold start_devices, announce, dev_op. rewrite !bind_modify. reflexivity. Qed.
Lemma start_devices_runs d0 exe_at k i :
  kernel_map (mmu_of k) -> sched_shape (sched k) -> has_shell d0 exe_at k i ->
  exists K, start_devices d0 exe_at k = Ret tt K /\
    sched K = fresh_sched (terminals (sched k)) /\ mmu_of K = (paging_change_process 1 (mmu_of k)).2 /\
    kbd K = kbd (devices_ready k) /\ same_statics k K /\
    processes_running K = processes_running k /\ pcbs K = pcbs k /\ term K = term k /\ regs K = regs k /\
    (screen_cells K = replicate CELLS (32, ATTRIB) /\ interrupt_flag (devs K) = true) /\
    forall q, 0x400000 <= q -> (forall j, 0 <= j < 4 -> resolve k (exe_at + j) <> q) -> phys K !! q = phys k !! q.
Proof.
  intros Hm Hsh Hhs. set (k1 := devices_ready k).
  assert (has_shell d0 exe_at k1 i) as Hhs1 by (by apply (has_shell_same d0 exe_at k)).
  destruct (init_global_scheduler_runs d0 exe_at k1 i Hsh Hhs1) as (k2 & Hr2 & Hs2 & Hm2 & He2 & Hb2 & Ho2).
  destruct (announce_runs k2 (terminals (sched k1))) as (K & HrK & HeK & Hc & HoK);
    [rewrite Hm2; by apply paging_change_process_kernel_map|exact Hs2|].
  exists K. split.
  { rewrite start_devices_unfold. fold k1. by rewrite (bind_Ret _ _ _ _ _ Hr2). }
  destruct (same_processes k1 k2 He2) as (H1 & H2 & H3 & H4 & H5).
  destruct (same_scheduler k2 K HeK) as (G1 & G2 & G3 & G4 & G5 & G6 & G7 & G8).
  assert (same_statics k K) as Hst.
  { destruct Hb2 as (B1 & B2 & B3). unfold k1 in B1, B2, B3. rewrite devices_ready_fs in B1, B2, B3. unfold same_statics.
    rewrite G5. exact (conj B1 (conj B2 B3)). }
  rewrite G1, G2, G3, G4, G6, G7, G8, H1, H2, H3, H4, H5, Hs2, Hm2. do 8 (split; [done|]).
  split; [done|]. intros q Hq Hout. rewrite HoK by done. by apply Ho2.
Qed.

Lemma set_up_first f g (h : machine -> machine) (p : prog machine unit) m :
  (_ ← on_kernel (modify f); _ ← on_kernel (modify g); _ ← modify h; p) m = p (h (m <| kern := g (f (kern m)) |>)).
Proof. reflexivity. Qed.
Lemma start_kernel_unfold address d0 exe_at mod_start m :
  start_kernel address d0 exe_at mod_start m = (_ ← on_kernel (start_devices d0 exe_at); idle)
    (m <| kern := (set_mod_start mod_start (kern m)).2 <| mmu_of ::= paging_initialize |> |> <| idt ::= initialize_IDT address |>).
Proof. unfold start_kernel, mmu_op. apply (set_up_first _ _ (λ m, m <| idt ::= initialize_IDT address |>)). Qed.
Lemma idle_waits k f K m :
  idle (m <| kern := k |> <| idt ::= f |> <| kern := K |>) = Wait (m <| kern := K |> <| idt ::= f |>).
Proof. reflexivity. Qed.
Lemma on_kernel_runs {A} (p : prog kernel A) m a k0 k :
  kern m = k0 -> p k0 = Ret a k -> on_kernel p m = Ret a (m <| kern := k |>).
Proof. unfold on_kernel. by intros -> ->. Qed.

(** [start_kernel] from a kernel as it was loaded; the memory above the screen is left
    alone but for the four bytes of [exe_bytes]. *)
Lemma start_kernel_runs address d0 exe_at mod_start m i :
  let k := kern m in
  let k1 := (set_mod_start mod_start k).2 <| mmu_of ::= paging_initialize |> in
  linked (mmu_of k) -> zlen (new_page_table (tables (mmu_of k))) = 1024 -> sched_shape (sched k) ->
  term_wf (term k) -> chararray (kbd k) = keymap -> zlen (linebuffer (kbd k)) = 128 /\ bytes (linebuffer (kbd k)) ->
  has_shell d0 exe_at k1 i ->
  exists K, start_kernel address d0 exe_at mod_start m = Wait (m <| kern := K |> <| idt ::= initialize_IDT address |>) /\
    sched_ok K /\ input_wf K /\ mods_of K = no_modifiers /\
    sched K = fresh_sched (terminals (sched k)) /\ user_page 1 (mmu_of K) /\ boot K = mod_start /\
    (screen_cells K = replicate CELLS (32, ATTRIB) /\ interrupt_flag (devs K) = true) /\
    processes_running K = processes_running k /\ pcbs K = pcbs k /\ term K = term k /\ same_statics k1 K /\
    forall q, 0x400000 <= q -> (forall j, 0 <= j < 4 -> resolve k1 (exe_at + j) <> q) -> phys K !! q = phys k !! q.
Proof.
  intros k k1 Hl Hn Hsh Ht Hk Hb Hhs.
  pose proof (paging_initialize_kernel_map _ Hl Hn : kernel_map (mmu_of k1)) as Hm1.
  destruct (start_devices_runs d0 exe_at k1 i Hm1 Hsh Hhs)
    as (K & HK & Hs & Hm & Hkb & Hst & Hpr & Hpc & Hte & _ & Hci & Hph).
  destruct (devices_ready_keys k1 Hk) as [Hkw Hmo].
  assert (kernel_map (mmu_of K)) as HmK by (rewrite Hm; by apply paging_change_process_kernel_map).
  destruct (fresh_invariants K (terminals (sched k1))) as [Hok Hin]; [done|done|by rewrite Hte|by rewrite Hkb|by rewrite Hkb|].
  exists K. split.
  { rewrite start_kernel_unfold. fold k. fold k1.
    pose proof (on_kernel_runs (start_devices d0 exe_at) (m <| kern := k1 |> <| idt ::= initialize_IDT address |>) tt k1 K eq_refl HK) as Hon.
    rewrite (bind_Ret _ _ _ _ _ Hon). apply idle_waits. }
  split; [done|]. split; [done|]. split; [rewrite <- Hmo; apply mods_same; by rewrite Hkb|].
  split; [done|]. split; [by rewrite Hm; apply user_page_change; [|lia]|]. split; [exact (proj1 Hst)|]. done.
Qed.

(** C37. From a kernel as it was loaded - three terminals, line buffers of 128 characters, the
    keyboard's initial tables, a file system image whose directory has [shell] - everything
    [entry] does after its report succeeds: it ends in the loop that waits for interrupts,
    with interrupts on, every gate of the IDT set, paging on, a blank screen, no key held,
    the three terminals set up with processes 1 to 3 and none of them started, program 1
    mapped, and the invariants that the timer and the keyboard routines need. *)
Theorem start_kernel_boots address d0 exe_at mod_start m i :
  let k := kern m in
  linked (mmu_of k) -> zlen (new_page_table (tables (mmu_of k))) = 1024 -> sched_shape (sched k) ->
  term_wf (term k) -> chararray (kbd k) = keymap -> zlen (linebuffer (kbd k)) = 128 /\ bytes (linebuffer (kbd k)) ->
  has_shell d0 exe_at ((set_mod_start mod_start k).2 <| mmu_of ::= paging_initialize |>) i ->
  exists K, start_kernel address d0 exe_at mod_start m = Wait (m <| kern := K |> <| idt ::= initialize_IDT address |>) /\
    sched_ok K /\ input_wf K /\ mods_of K = no_modifiers /\
    sched K = fresh_sched (terminals (sched k)) /\ user_page 1 (mmu_of K) /\ boot K = mod_start /\
    screen_cells K = replicate CELLS (32, ATTRIB) /\ interrupt_flag (devs K) = true /\
    processes_running K = processes_running k /\ pcbs K = pcbs k /\ term K = term k.
Proof.
  intros k Hl Hn Hsh Ht Hk Hb Hhs.
  destruct (start_kernel_runs address d0 exe_at mod_start m i Hl Hn Hsh Ht Hk Hb Hhs)
    as (K & HK & H1 & H2 & H3 & H4 & H5 & H6 & [H7 H8] & H9 & H10 & H11 & _).
  by exists K.
Qed.

(** A kernel as it is loaded, with the image of [shell_kernel]. *)
Definition loaded_kernel : kernel :=
  shell_kernel <| mmu_of := boot_mmu |> <| kbd := KbdVars keymap (replicate 128 0) |>
    <| sched := Scheduler (replicate 3 terminal0) [0; 0; 0] 0 0 [0; 0; 0] |>
    <| term := TermVars (replicate 3 (replicate 128 0)) [0; 0; 0] [0; 0; 0] |>.
Definition loaded_machine : machine :=
  let d := SegDesc 0 0 0 0 0 0 0 0 0 0 0 0 0 in Machine loaded_kernel d d 0 0 0 [].
Lemma loaded_shell :
  has_shell (dentry_a (fs loaded_kernel)) 0x430000 ((set_mod_start 0x410000 loaded_kernel).2 <| mmu_of ::= paging_initialize |>) 1.
Proof.
  set (k := _ <| mmu_of ::= paging_initialize |>).
  assert (kernel_map (mmu_of k)) as Hm by exact booted_kernel_map.
  assert (load32 k (boot k + 4) = 1) as Hi by (vm_compute; reflexivity).
  assert (load32 k (boot k + 8) = 1) as Hb by (vm_compute; reflexivity).
  assert (u32 (s8 (entry_byte k 1 36)) = 0) as Hn by (vm_compute; reflexivity).
  assert (file_size k 0 = 60) as Hs by (vm_compute; reflexivity).
  assert (image_size k = 12288) as Hz by (unfold image_size; rewrite Hi, Hb; lia).
  split; [discriminate|reflexivity| | | |].
  - split.
    + intros j Hj. pose proof (check_below 63 (λ i, match strlen (entry_byte k i) with Some _ => true | None => false end)
        ltac:(vm_compute; reflexivity) j ltac:(lia)) as Hc. cbv beta in Hc.
      destruct (strlen (entry_byte k j)) as [len|]; [by exists len|done].
    + intros Hd. specialize (Hd 0 ltac:(vm_compute; intuition discriminate)). vm_compute in Hd. discriminate Hd.
  - split; [lia|split; [vm_compute; reflexivity|lia]].
  - rewrite Hn, Hs. split; [|lia]. split; [discriminate|rewrite Hi; lia|rewrite Hs; discriminate|].
    intros j Hj. rewrite Hs in Hj. replace (j / 4096) with 0 by (Z.div_mod_to_equations; lia). rewrite Hb.
    replace (block_no k 0 0) with 0 by (vm_compute; reflexivity). lia.
  - split; [discriminate|apply kernel_inj_range; [done|lia..]|].
    apply kernel_sep_range; [done|lia|lia|change (boot k) with 0x410000; rewrite ?Hz; lia..].
Qed.
Lemma start_kernel_boots_witness :
  exists K, start_kernel (λ _, 0x401000) (dentry_a (fs loaded_kernel)) 0x430000 0x410000 loaded_machine
    = Wait (loaded_machine <| kern := K |> <| idt ::= initialize_IDT (λ _, 0x401000) |>) /\ interrupt_flag (devs K) = true.
Proof.
  destruct (start_kernel_boots (λ _, 0x401000) (dentry_a (fs loaded_kernel)) 0x430000 0x410000 loaded_machine 1)
    as (K & HK & _ & _ & _ & _ & _ & _ & _ & Hi & _).
  - apply boot_linked.
  - reflexivity.
  - split; [reflexivity..|]. apply three_cases; reflexivity.
  - split; [reflexivity..| |]; apply three_cases; first [reflexivity|vm_compute; intuition discriminate].
  - reflexivity.
  - split; [reflexivity|by apply Forall_replicate].
  - exact loaded_shell.
  - exists K. split; [exact HK|exact Hi].
Defined.
