(* ===== verification/Startup.v ===== *)
(** * From boot to the three shells, and what a shell that exits becomes

    A tick that finds a terminal without a process starts a shell for it.  [turn_starts]
    says what such a tick leaves, [turn] what may happen until the next one; from the end of
    [entry] three ticks start the three shells.  A base shell that halts is started again
    in its own slot. *)
From S2P Require Import Prelude Machine Lib Paging Devices State Console Printf Terminal Filesystem SysCall Process Keyboard Scheduler Idt User Programs Lifetime Boot.

Section Start.
Context (d0 : dentry_t) (locals : kernel -> Z).

(** A control block as a fresh process needs it. *)
Definition block_ready (q : pcb) : Prop :=
  fds_shape (fd_array q) /\ flags_ok (fd_array q) /\ zlen (arg_arr q) = 128.
(** Terminal [turn_after] the running one has not run; its shell is file [i] and will take slot [p]. *)
Record awaits (i p : Z) (k : kernel) : Prop := {
  aw_ok : sched_ok k;
  aw_off : zget (is_on (sched k)) (turn_after (current_term (sched k))) = 0;
  aw_shell : executable d0 locals k (text "shell") i;
  aw_slot : find_free_pid 6 1 (processes_running k) = Some p;
  aw_block : block_ready (get_pcb (pcb_addr p) k);
  aw_statics : fs_ok (fs k);
  aw_lines : term_wf (term k)
}.
(** The tick started it: the processor enters the program in process [p]. *)
Record turn_starts (i p : Z) (k K : kernel) : Prop := {
  ts_ok : sched_ok K;
  ts_coherent : coherent K;
  ts_current : current_term (sched K) = turn_after (current_term (sched k));
  ts_on : is_on (sched K) = zset (turn_after (current_term (sched k))) 1 (is_on (sched k));
  ts_pid : pid (get_terminal (turn_after (current_term (sched k))) K) = p;
  ts_saved : let c := current_term (sched k) in
    get_terminal c K = get_terminal c k <| term_esp := esp (regs k) |> <| term_ebp := ebp (regs k) |>;
  ts_others : forall t, 0 <= t < 3 -> t <> current_term (sched k) -> t <> turn_after (current_term (sched k)) ->
    get_terminal t K = get_terminal t k;
  ts_running : processes_running K = zset (p - 1) 1 (processes_running k);
  ts_in : in_program p K;
  ts_entry : eip (regs K) = le32 (file_bytes k (file_inode k i) 24 4) /\ user (regs K) = true /\ interrupt_flag (devs K) = true;
  ts_code : load_bytes K VIRTUALADDRESSFOREXECUTABLEDATA (Z.to_nat (file_size k (file_inode k i)))
            = file_bytes k (file_inode k i) 0 (file_size k (file_inode k i));
  ts_files : forall j, 2 <= j < 8 -> in_use (zget (fds p K) j) = false;
  ts_blocks : forall a, a <> pcb_addr p -> get_pcb a K = get_pcb a k;
  ts_image : same_image k K;
  ts_rest : term K = term k /\ kbd K = kbd k
}.
Lemma same_image_mapped k K :
  kernel_map (mmu_of k) -> kernel_map (mmu_of K) -> 0x400000 <= boot k /\ boot k + image_size k <= 0x800000 ->
  boot K = boot k -> (forall q, boot k <= q < boot k + image_size k -> phys K !! q = phys k !! q) -> same_image k K.
Proof.
  intros Hm HM Himg Hb Hp. split; [done|]. intros a Ha. rewrite !loadb_phys, !resolve_kernel by (done || lia).
  unfold phys_byte. by rewrite Hp.
Qed.
Lemma plain_shell : plain (text "shell") /\ Forall (λ c, c <> 10) (text "shell") /\ Forall (λ c, c <> 32) (text "shell").
Proof. split; [|split]; repeat constructor; discriminate. Qed.
(** [execute ("shell")] finds the shell of the image. *)
Lemma shell_names k i :
  executable d0 locals k (text "shell") i ->
  names_program d0 (Object (text "shell")) k (text "shell") (text "shell") [] 0 i 5.
Proof.
  intros Hex. destruct plain_shell as (Hp & Hl & Hs).
  pose proof (object_string (text "shell") k Hp eq_refl) as Ho. pose proof (sa_cstr _ _ _ Ho) as Hc.
  apply (executable_names d0 locals k (Object (text "shell")) (text "shell") (text "shell") [] i Hex); try done.
  - split; [done|done| |right; by apply Hc]. intros j Hj. by apply Hc.
  - by left.
Qed.

(** A program that [execute] started in [k1], with the image of [k]: its entry point and its code. *)
Lemma started_program i p name line idx L k k1 K :
  executable d0 locals k name i -> same_image k k1 ->
  started p (file_inode k1 i) line idx (le32 (file_bytes k1 (file_inode k1 i) 24 4)) L 44 k1 K ->
  (eip (regs K) = le32 (file_bytes k (file_inode k i) 24 4) /\ user (regs K) = true /\ interrupt_flag (devs K) = true) /\
  load_bytes K VIRTUALADDRESSFOREXECUTABLEDATA (Z.to_nat (file_size k (file_inode k i)))
    = file_bytes k (file_inode k i) 0 (file_size k (file_inode k i)).
Proof.
  intros Hex Him Hst. pose proof (ex_entry _ _ _ _ _ Hex) as (Hi & _).
  rewrite (same_image_inode k k1 i Him ltac:(lia)) in Hst.
  destruct (ex_file _ _ _ _ _ Hex) as [Hf Hsz]. unfold METADATAEXECUTESIZE in Hsz.
  destruct (same_image_file _ _ _ Him Hf) as (Hf1 & Hsz1 & _).
  pose proof (st_code _ _ _ _ _ _ _ _ _ Hst) as Hcode. rewrite Hsz1, (same_image_bytes k k1) in Hcode by (done || lia).
  rewrite (same_image_bytes k k1) in Hst by (done || lia).
  split; [|done]. rewrite (st_regs _ _ _ _ _ _ _ _ _ Hst). split; [done|]. split; [done|]. exact (st_if _ _ _ _ _ _ _ _ _ Hst).
Qed.
(** The state in which a tick executes the shell. *)
Definition first_turn (k : kernel) : kernel :=
  next_turn k <| sched ::= λ s, s <| is_on ::= zset (turn_after (current_term (sched k))) 1 |> |>.
Lemma first_turn_same k :
  sched_ok k -> 0x400000 <= boot k /\ boot k + image_size k <= 0x800000 ->
  console_wf (first_turn k) /\ same_image k (first_turn k) /\
  first_turn k = k <| sched := sched (first_turn k) |> <| mmu_of := mmu_of (first_turn k) |>.
Proof.
  intros Hok Himg. destruct (next_turn_spec k Hok) as ([[Hm Hs] _ _ _] & _ & _ & _ & Hr).
  assert (first_turn k = k <| sched := sched (first_turn k) |> <| mmu_of := mmu_of (first_turn k) |>) as He
    by (unfold first_turn at 1; rewrite Hr; done).
  split; [|split; [|exact He]].
  - split; [exact Hm|]. destruct Hs as [H1 H2 H3 H4]. by split.
  - apply same_image_mapped; [apply Hok|exact Hm|done|by rewrite He|intros q _; by rewrite He].
Qed.

Lemma tick_starts i p k :
  awaits i p k -> exists K, scheduler_next d0 locals k = Ret In_user K /\ turn_starts i p k K.
Proof.
  intros [Hok Hoff Hex Hslot (Hsh & Hfl & Harg) Hfs Htw]. set (n := turn_after (current_term (sched k))) in *.
  pose proof (ex_image _ _ _ _ _ Hex) as Himg.
  destruct (first_turn_same k Hok Himg) as (Hw1 & Him1 & He1). set (k1 := first_turn k) in *.
  pose proof (executable_same _ _ _ _ _ _ Him1 Hex) as Hex1.
  assert (forall a, get_pcb a k1 = get_pcb a k) as Hpcb1 by (intros a; by rewrite He1).
  assert (fs k1 = fs k /\ term k1 = term k /\ kbd k1 = kbd k) as (Hfs1 & Htw1 & Hkb1) by (by rewrite He1).
  pose proof (find_free_pid_least 6 1 (processes_running k)) as Hl. rewrite Hslot in Hl. destruct Hl as (Hp & _).
  destruct (first_turn_runs d0 locals k i p Hok Hoff) as (K & HK & Hst & Hrun & Hs & [Hfw Hfree] & Hcur & Hpid & _ & _ & Hvt);
    [by apply shell_names|by apply (executable_is_program d0 locals _ (text "shell")); [apply Hw1|]|done|done|done|].
  fold n in Hst, Hs, Hcur, Hpid, Hvt. change (next_turn k <| sched ::= λ s, s <| is_on ::= zset n 1 |> |>) with k1 in Hst, Hs, Hvt.
  change (u32 (s8 (entry_byte k1 i 36))) with (file_inode k1 i) in Hst.
  destruct (started_program i p _ _ _ _ k k1 K Hex Him1 Hst) as [Hentry Hcode].
  destruct (ex_room _ _ _ _ _ Hex1 (read_counts k1)) as (HL1 & HL2 & Hsep).
  pose proof (ex_image _ _ _ _ _ Hex1) as Himg1.
  destruct (next_turn_spec k Hok) as ([_ Hb1 Ho1 Hp1] & _ & Hs1 & _ & _). fold n in Hs1.
  pose proof (sw_current _ (cw_sched _ (so_console _ Hok))) as Hc. destruct (turn_after_ne _ Hc) as [Hn Hne]. fold n in Hn, Hne.
  pose proof (sw_len _ (cw_sched _ (so_console _ Hok))) as Hl3.
  set (c := current_term (sched k)) in *.
  assert (terminals (sched K) = zset n (get_terminal n k1 <| pid := p |>)
    (zset c (get_terminal c k <| term_esp := esp (regs k) |> <| term_ebp := ebp (regs k) |>) (terminals (sched k)))) as HtK.
  { rewrite Hs. cbn [terminals upd set_terminals]. f_equal. change (terminals (sched k1)) with (terminals (sched (next_turn k))). by rewrite Hs1. }
  assert (forall t, 0 <= t < 3 -> t <> c -> t <> n -> get_terminal t K = get_terminal t k) as Hoth.
  { intros t Ht Htc Htn. unfold get_terminal. by rewrite HtK, !zget_zset_ne by (rewrite ?zlen_zset; lia). }
  assert (get_terminal c K = get_terminal c k <| term_esp := esp (regs k) |> <| term_ebp := ebp (regs k) |>) as Hsav.
  { unfold get_terminal at 1. by rewrite HtK, zget_zset_ne, zget_zset_eq by (rewrite ?zlen_zset; lia). }
  pose proof (started_switched _ _ _ _ _ _ _ _ Hst ltac:(lia) HL1) as Hsw.
  pose proof (started_same_image _ _ _ _ _ _ _ _ Hst ltac:(lia) HL1 (cw_map _ Hw1) Himg1 Hsep) as HimK.
  assert (is_on (sched K) = zset n 1 (is_on (sched k))) as HonK.
  { rewrite Hs. change (zset n 1 (is_on (sched (next_turn k))) = zset n 1 (is_on (sched k))). by rewrite Hs1. }
  exists K. split; [done|]. split; fold c n.
  - split; [by apply (switched_wf p k1)| | |].
    + unfold bufs_ok. rewrite Hs. exact Hb1.
    + rewrite HonK, zlen_zset. apply Hok.
    + intros t Ht. destruct (decide (t = n)) as [->|Htn]; [rewrite Hpid; lia|].
      destruct (decide (t = c)) as [->|Htc]; [rewrite Hsav; by apply Hok|]. rewrite Hoth by done. by apply Hok.
  - unfold coherent. by rewrite Hcur, (switched_target p k1 K Hsw).
  - done.
  - done.
  - done.
  - exact Hsav.
  - exact Hoth.
  - done.
  - assert (get_pcb (pcb_addr p) k1 = get_pcb (pcb_addr p) k) as Hbk by apply Hpcb1.
    refine (started_in_program _ _ _ _ _ _ _ _ Hst _ HL1 Hw1 Himg1 Hsep _ _ _ _ Hfw); [lia|by rewrite Hfs1|by rewrite Htw1|by rewrite Hbk|by rewrite Hbk].
  - exact Hentry.
  - exact Hcode.
  - exact Hfree.
  - intros a Ha. by rewrite (st_others _ _ _ _ _ _ _ _ _ Hst), Hpcb1.
  - by apply same_image_trans with k1.
  - destruct (st_rest _ _ _ _ _ _ _ _ _ Hst) as [-> ->]. done.
Qed.

(** What may happen in the turn of process [p], until the next tick: its own block, memory and
    screen may change, not the slots, the image and the other terminals. *)
Record turn (p : Z) (k K : kernel) : Prop := {
  tn_runs : runs_on k K;
  tn_pid : pid (get_terminal (current_term (sched k)) K) = pid (get_terminal (current_term (sched k)) k);
  tn_running : processes_running K = processes_running k;
  tn_blocks : forall a, a <> pcb_addr p -> get_pcb a K = get_pcb a k;
  tn_image : same_image k K;
  tn_statics : fs_ok (fs K);
  tn_lines : term_wf (term K)
}.
(** After a first turn, the next one: terminal [n] starts its shell in slot [p']. *)
Lemma next_awaits i p p' k K T :
  awaits i p k -> turn_starts i p k K -> turn p K T -> let n := turn_after (turn_after (current_term (sched k))) in
  zget (is_on (sched k)) n = 0 -> find_free_pid 6 1 (zset (p - 1) 1 (processes_running k)) = Some p' ->
  block_ready (get_pcb (pcb_addr p') k) -> p' <> p -> awaits i p' T.
Proof.
  intros Haw Hts [Hro Hpid Hrun Hblk Him Hfs Htw] n Hoff Hslot Hready Hne.
  assert (pcb_addr p' <> pcb_addr p) as Hap by (unfold pcb_addr, PCB_SIZE; lia).
  pose proof (sw_current _ (cw_sched _ (so_console _ (aw_ok _ _ _ Haw)))) as Hc.
  destruct (turn_after_ne _ Hc) as [Hn1 _]. destruct (turn_after_ne _ Hn1) as [Hn2 Hne2].
  split; [apply Hro| | | | |done|done].
  - rewrite (ro_current _ _ Hro), (ro_on _ _ Hro), (ts_current _ _ _ _ Hts), (ts_on _ _ _ _ Hts).
    by rewrite zget_zset_ne by lia.
  - apply (executable_same _ _ k); [|apply Haw]. by apply same_image_trans with K; [apply Hts|].
  - by rewrite Hrun, (ts_running _ _ _ _ Hts).
  - by rewrite Hblk, (ts_blocks _ _ _ _ Hts).
Qed.
(** What the first turn of a terminal leaves at its end, for the next ones. *)
Lemma turn_carries i p k K T :
  sched_ok k -> turn_starts i p k K -> turn p K T ->
  let n := turn_after (current_term (sched k)) in
  current_term (sched T) = n /\ is_on (sched T) = zset n 1 (is_on (sched k)) /\
  processes_running T = zset (p - 1) 1 (processes_running k) /\
  (forall a, a <> pcb_addr p -> get_pcb a T = get_pcb a k) /\
  forall t, 0 <= t < 3 -> pid (get_terminal t T) = if decide (t = n) then p else pid (get_terminal t k).
Proof.
  intros Hok Hts [Hro Hpid Hrun Hblk _ _ _] n. pose proof (ts_current _ _ _ _ Hts) as Hcur. fold n in Hcur.
  split; [by rewrite (ro_current _ _ Hro)|]. split; [by rewrite (ro_on _ _ Hro), (ts_on _ _ _ _ Hts)|].
  split; [by rewrite Hrun, (ts_running _ _ _ _ Hts)|].
  split; [intros a Ha; by rewrite Hblk, (ts_blocks _ _ _ _ Hts)|].
  intros t Ht. case_decide as Hd.
  - subst t. rewrite Hcur in Hpid. rewrite Hpid. apply (ts_pid _ _ _ _ Hts).
  - destruct (ro_others _ _ Hro t Ht) as (-> & _); [by rewrite Hcur|].
    destruct (decide (t = current_term (sched k))) as [->|Hc]; [by rewrite (ts_saved _ _ _ _ Hts)|].
    by rewrite (ts_others _ _ _ _ Hts).
Qed.
End Start.

(** ** The first three ticks *)
Section Boots.
Context (d0 : dentry_t) (locals : kernel -> Z).

(** A kernel that has just booted: no terminal has run and no slot is taken. *)
Record booted (i : Z) (k : kernel) : Prop := {
  bd_ok : sched_ok k;
  bd_turn : current_term (sched k) = 2 /\ is_on (sched k) = [0; 0; 0];
  bd_slots : processes_running k = replicate 6 0;
  bd_shell : executable d0 locals k (text "shell") i;
  bd_blocks : forall p, 1 <= p <= 3 -> block_ready (get_pcb (pcb_addr p) k);
  bd_statics : fs_ok (fs k);
  bd_lines : term_wf (term k)
}.
(** The three turns, whatever the shells do in theirs. *)
Definition three_shells (i : Z) (k : kernel) : Prop :=
  exists K1, scheduler_next d0 locals k = Ret In_user K1 /\ turn_starts i 1 k K1 /\ forall T1, turn 1 K1 T1 ->
  exists K2, scheduler_next d0 locals T1 = Ret In_user K2 /\ turn_starts i 2 T1 K2 /\ forall T2, turn 2 K2 T2 ->
  exists K3, scheduler_next d0 locals T2 = Ret In_user K3 /\ turn_starts i 3 T2 K3 /\
    current_term (sched K3) = 2 /\ is_on (sched K3) = [1; 1; 1] /\ processes_running K3 = [1; 1; 1; 0; 0; 0] /\
    forall t, 0 <= t < 3 -> pid (get_terminal t K3) = t + 1.
Lemma booted_starts i k : booted i k -> three_shells i k.
Proof.
  intros [Hok [Hcur Hon] Hslots Hex Hblk Hfs Htw].
  assert (awaits d0 locals i 1 k) as Haw by (split; rewrite ?Hcur, ?Hon, ?Hslots; try done; apply Hblk; lia).
  destruct (tick_starts d0 locals i 1 k Haw) as (K1 & HK1 & H1). exists K1. split; [done|]. split; [done|]. intros T1 HT1.
  assert (awaits d0 locals i 2 T1) as Haw1
    by (apply (next_awaits d0 locals i 1 2 k K1); rewrite ?Hcur, ?Hon, ?Hslots; try done; apply Hblk; lia).
  destruct (tick_starts d0 locals i 2 T1 Haw1) as (K2 & HK2 & H2). exists K2. split; [done|]. split; [done|]. intros T2 HT2.
  destruct (turn_carries _ 1 k K1 T1 Hok H1 HT1) as (C1 & O1 & R1 & B1 & P1). rewrite Hcur in C1, O1, P1. rewrite Hon in O1. rewrite Hslots in R1.
  destruct (turn_carries _ 2 T1 K2 T2 (aw_ok _ _ _ _ _ Haw1) H2 HT2) as (C2 & O2 & R2 & _ & P2). rewrite C1 in C2, O2, P2. rewrite O1 in O2. rewrite R1 in R2.
  assert (awaits d0 locals i 3 T2) as Haw2.
  { apply (next_awaits d0 locals i 2 3 T1 K2); rewrite ?C1, ?O1, ?R1; try done. rewrite B1 by done. apply Hblk. lia. }
  destruct (tick_starts d0 locals i 3 T2 Haw2) as (K3 & HK3 & H3). exists K3. split; [done|]. split; [done|].
  assert (turn 3 K3 K3) as HT3.
  { pose proof (ts_in _ _ _ _ H3) as Hin. split; try done; [|apply Hin..]. split; try done. apply H3. }
  destruct (turn_carries _ 3 T2 K3 K3 (aw_ok _ _ _ _ _ Haw2) H3 HT3) as (C3 & O3 & R3 & _ & P3).
  rewrite C2 in C3, O3, P3. rewrite O2 in O3. rewrite R2 in R3. split; [done|]. split; [done|]. split; [done|].
  intros t Ht. rewrite P3 by done. change (turn_after (turn_after (turn_after 2))) with 2 in *.
  change (turn_after (turn_after 2)) with 1 in *. change (turn_after 2) with 0 in *.
  case_decide as D2; [lia|]. rewrite P2 by done. case_decide as D1; [lia|]. rewrite P1 by done. case_decide; lia.
Qed.

(** The kernel that [start_kernel] leaves has just booted. *)
Lemma start_kernel_booted address exe_at mod_start m i :
  let k := kern m in
  let k1 := (set_mod_start mod_start k).2 <| mmu_of ::= paging_initialize |> in
  linked (mmu_of k) -> zlen (new_page_table (tables (mmu_of k))) = 1024 -> sched_shape (sched k) ->
  term_wf (term k) -> chararray (kbd k) = keymap -> zlen (linebuffer (kbd k)) = 128 /\ bytes (linebuffer (kbd k)) ->
  executable d0 locals k1 (text "shell") i -> buffer_ok k1 exe_at 4 ->
  processes_running k = replicate 6 0 -> (forall p, 1 <= p <= 3 -> block_ready (get_pcb (pcb_addr p) k)) -> fs_ok (fs k) ->
  exists K, start_kernel address d0 exe_at mod_start m = Wait (m <| kern := K |> <| idt ::= initialize_IDT address |>) /\
    booted i K /\ input_wf K /\ interrupt_flag (devs K) = true.
Proof.
  intros k k1 Hl Hn Hsh Ht Hk Hb Hex Hbuf Hrun Hblk Hfs.
  pose proof (paging_initialize_kernel_map _ Hl Hn : kernel_map (mmu_of k1)) as Hm1.
  pose proof (ex_image _ _ _ _ _ Hex) as Himg. destruct (ex_dir _ _ _ _ _ Hex) as [Hd Hnd].
  destruct (ex_file _ _ _ _ _ Hex) as [Hf Hsz]. unfold METADATAEXECUTESIZE in Hsz.
  assert (has_shell d0 exe_at k1 i) as Hhs.
  { split; [lia|apply Hex|split; [by apply dir_closed_ok|done]|apply Hex| |done]. split; [exact Hf|]. fold (file_inode k1 i). lia. }
  destruct (start_kernel_runs address d0 exe_at mod_start m i Hl Hn Hsh Ht Hk Hb Hhs)
    as (K & HK & Hok & Hin & _ & Hs & _ & Hbo & [_ Hif] & Hpr & Hpc & Hte & (Hb1 & Hda & Hdb) & Hph).
  exists K. split; [done|]. split; [|done]. split; [done|by rewrite Hs|by rewrite Hpr| | | |by rewrite Hte].
  - apply (executable_same d0 locals k1); [|done]. apply same_image_mapped; [done|apply Hok|done|done|].
    intros q Hq. apply Hph; [lia|]. intros j Hj Heq. destruct Hbuf as [_ _ Hsep].
    apply (Hsep j (q - boot k1) Hj ltac:(lia)). transitivity q; [exact Heq|].
    rewrite resolve_kernel by (done || lia). lia.
  - intros p Hp. unfold get_pcb. rewrite Hpc. by apply Hblk.
  - unfold fs_ok. by rewrite Hda, Hdb.
Qed.

(** C15. From a kernel as it was loaded - a file system image with an executable [shell], no
    process running - [start_kernel], what [entry] does after its report, ends waiting for
    interrupts, and the first three ticks of the
    timer start three shells: the first tick enters the shell in user mode on terminal 0,
    in process 1, with interrupts on, its own page holding the file, no file open and the
    kernel's invariants holding; the second one does so on terminal 1 in process 2 and the
    third on terminal 2 in process 3, whatever the shells do in their turns but to start
    programs.  After the third tick all terminals run. *)
Theorem boot_starts_shells address exe_at mod_start m i :
  let k := kern m in
  let k1 := (set_mod_start mod_start k).2 <| mmu_of ::= paging_initialize |> in
  linked (mmu_of k) -> zlen (new_page_table (tables (mmu_of k))) = 1024 -> sched_shape (sched k) ->
  term_wf (term k) -> chararray (kbd k) = keymap -> zlen (linebuffer (kbd k)) = 128 /\ bytes (linebuffer (kbd k)) ->
  executable d0 locals k1 (text "shell") i -> buffer_ok k1 exe_at 4 ->
  processes_running k = replicate 6 0 -> (forall p, 1 <= p <= 3 -> block_ready (get_pcb (pcb_addr p) k)) -> fs_ok (fs k) ->
  exists K, start_kernel address d0 exe_at mod_start m = Wait (m <| kern := K |> <| idt ::= initialize_IDT address |>) /\
    interrupt_flag (devs K) = true /\ three_shells i K.
Proof.
  intros k k1 Hl Hn Hsh Ht Hk Hb Hex Hbuf Hrun Hblk Hfs.
  destruct (start_kernel_booted address exe_at mod_start m i Hl Hn Hsh Ht Hk Hb Hex Hbuf Hrun Hblk Hfs) as (K & HK & Hbd & _ & Hif).
  exists K. split; [done|]. split; [done|]. by apply booted_starts.
Qed.
End Boots.
Lemma loaded_executable :
  executable (dentry_a (fs loaded_kernel)) (λ _, 0x7F0000)
    ((set_mod_start 0x410000 loaded_kernel).2 <| mmu_of ::= paging_initialize |>) (text "shell") 1.
Proof.
  destruct loaded_shell as [_ H1 [_ H2] H3 [H4 _] _]. set (k := _ <| mmu_of ::= paging_initialize |>) in *.
  assert (load32 k (boot k + 4) = 1) as Hi by (vm_compute; reflexivity).
  assert (load32 k (boot k + 8) = 1) as Hb by (vm_compute; reflexivity).
  assert (file_inode k 1 = 0) as Hn by (vm_compute; reflexivity).
  assert (file_size k 0 = 60) as Hs by (vm_compute; reflexivity).
  assert (image_size k = 12288) as Hz by (unfold image_size; rewrite Hi, Hb; lia).
  assert (boot k = 0x410000) as Hbo by reflexivity.
  split.
  - rewrite Hz, Hbo. lia.
  - split; [|exact H2]. apply dir_check_ok. vm_compute. reflexivity.
  - exact H3.
  - rewrite Hn, Hs. split; [|unfold METADATAEXECUTESIZE; lia]. rewrite <- Hn. exact H4.
  - vm_compute. reflexivity.
  - intros _. rewrite Hz, Hbo. lia.
  - exact H1.
Qed.
Lemma pcb0_ready : block_ready pcb0.
Proof.
  split; [|split; [apply flags_check_ok; vm_compute; reflexivity|vm_compute; reflexivity]].
  split; [reflexivity|]. intros i Hi.
  pose proof (check_below 8 (λ i, zlen (fd_flags (zget (fd_array pcb0) i)) =? 4) ltac:(vm_compute; reflexivity) i ltac:(lia)) as Hc.
  cbv beta in Hc. lia.
Qed.
Lemma boot_starts_shells_witness :
  exists K K1, start_kernel (λ _, 0x401000) (dentry_a (fs loaded_kernel)) 0x430000 0x410000 loaded_machine
    = Wait (loaded_machine <| kern := K |> <| idt ::= initialize_IDT (λ _, 0x401000) |>) /\
    scheduler_next (dentry_a (fs loaded_kernel)) (λ _, 0x7F0000) K = Ret In_user K1 /\ in_program 1 K1.
Proof.
  destruct (boot_starts_shells (dentry_a (fs loaded_kernel)) (λ _, 0x7F0000) (λ _, 0x401000) 0x430000 0x410000 loaded_machine 1)
    as (K & HK & _ & K1 & HK1 & H1 & _).
  - apply boot_linked.
  - reflexivity.
  - split; [reflexivity..|]. apply three_cases; reflexivity.
  - split; [reflexivity..| |]; apply three_cases; first [reflexivity|vm_compute; intuition discriminate].
  - reflexivity.
  - split; [reflexivity|by apply Forall_replicate].
  - exact loaded_executable.
  - destruct loaded_shell as [_ _ _ _ _ H]. exact H.
  - reflexivity.
  - intros p Hp. change (get_pcb (pcb_addr p) (kern loaded_machine)) with pcb0. exact pcb0_ready.
  - split; vm_compute; reflexivity.
  - exists K, K1. split; [exact HK|]. split; [exact HK1|]. exact (ts_in _ _ _ _ H1).
Defined.

(** ** A base shell that halts *)
Lemma find_free_pid_first l p : forall n i,
  i <= p < i + Z.of_nat n -> zget l (p - 1) = 0 -> (forall q, i <= q < p -> zget l (q - 1) <> 0) -> find_free_pid n i l = Some p.
Proof.
  intros n. induction n as [|n IH]; intros i Hp Hz Hq; [lia|]. cbn [find_free_pid].
  destruct (decide (i = p)) as [->|Hne]; [by rewrite Hz|]. rewrite (proj2 (Z.eqb_neq _ 0)) by (apply Hq; lia).
  apply IH; [lia|done|]. intros q Hq'. apply Hq. lia.
Qed.
Section Restart.
Context (d0 : dentry_t) (locals : kernel -> Z).
Definition base_message : list Z := text "Cannot close base process -- ".

(** The base shell of process [p] runs: the slots before its own are taken. *)
Record base_shell (p i : Z) (k : kernel) : Prop := {
  bs_in : in_program p k;
  bs_pid : 1 <= p <= 3 /\ process_id (get_pcb (pcb_addr p) k) = p;
  bs_slots : (forall q, 1 <= q <= p -> zget (processes_running k) (q - 1) = 1) /\ zlen (processes_running k) = 6;
  bs_args : zlen (arg_arr (get_pcb (pcb_addr p) k)) = 128;
  bs_shell : executable d0 locals k (text "shell") i
}.
(** It starts again. *)
Record shell_again (p i : Z) (k K : kernel) : Prop := {
  sg_base : base_shell p i K;
  sg_entry : eip (regs K) = le32 (file_bytes k (file_inode k i) 24 4) /\ user (regs K) = true /\ interrupt_flag (devs K) = true;
  sg_code : load_bytes K VIRTUALADDRESSFOREXECUTABLEDATA (Z.to_nat (file_size k (file_inode k i)))
            = file_bytes k (file_inode k i) 0 (file_size k (file_inode k i));
  sg_files : forall j, 2 <= j < 8 -> in_use (zget (fds p K) j) = false;
  sg_blocks : forall a, a <> pcb_addr p -> get_pcb a K = get_pcb a k;
  sg_slots : processes_running K = processes_running k;
  sg_turn : current_term (sched K) = current_term (sched k) /\ pid (get_terminal (current_term (sched k)) K) = p;
  sg_screen : let v := visable_term (sched k) in view_of v K = put_all base_message (view_of v k)
}.
(** The message, and the slot given up: the state in which [halt] executes the shell. *)
Record gives_up (p : Z) (k k3 : kernel) : Prop := {
  gu_wf : console_wf k3;
  gu_image : same_image k k3;
  gu_blocks : forall a, get_pcb a k3 = get_pcb a k;
  gu_rest : fs k3 = fs k /\ term k3 = term k;
  gu_slots : processes_running k3 = zset (p - 1) 0 (processes_running k);
  gu_turn : current_term (sched k3) = current_term (sched k);
  gu_screen : let v := visable_term (sched k) in view_of v k3 = put_all base_message (view_of v k)
}.
Lemma base_shell_gives_up p k :
  in_program p k -> let k0 := enter_kernel false k in
  exists k1, printf (Object base_message) [] k0 = Ret (zlen base_message) k1 /\
    gives_up p k (k1 <| devs ::= cli |> <| processes_running ::= zset (p - 1) 0 |>).
Proof.
  intros Hin k0. pose proof (pg_console _ _ Hin) as [Hkm Hsw]. pose proof (pg_image _ _ Hin) as Himg.
  assert (console_wf k0) as Hw0 by (by split).
  destruct (printf_text base_message k0 Hw0) as (k1 & Hpr1 & H1); [vm_compute; repeat constructor; discriminate|reflexivity|].
  destruct (prints_frame _ _ _ H1) as (Hm1 & Hpc1 & Hrun1 & Hrg1 & Ht1 & Hfs1 & Hte1 & Hkb1).
  exists k1. split; [done|]. set (k3 := k1 <| devs ::= cli |> <| processes_running ::= zset (p - 1) 0 |>).
  assert (console_wf k3) as Hw3 by (destruct (pr_wf _ _ _ H1); by split).
  split; [done| |intros a; unfold get_pcb; change (pcbs k3) with (pcbs k1); by rewrite Hpc1|by split| | |exact (pr_view _ _ _ H1)].
  - apply same_image_mapped; [done|apply Hw3|done|change (boot_block_addr (fs k1) = boot k); by rewrite Hfs1|].
    intros q Hq. change (phys k3) with (phys k1). rewrite (pr_out _ _ _ H1); [done|].
    pose proof (video_target_range _ (cw_map _ Hw0)). unfold T3_BUF_ADDR in *. lia.
  - change (processes_running k3) with (zset (p - 1) 0 (processes_running k1)). by rewrite Hrun1.
  - change (sched k3) with (sched k1). pose proof (pr_rest _ _ _ H1) as Hr. by rewrite Hr.
Qed.
Lemma base_shell_halts p i r k :
  base_shell p i k ->
  exists K, trap false (systemcall d0 locals SYS_HALT r 0 0) k = Ret In_user K /\ shell_again p i k K.
Proof.
  intros [Hin [Hp Hpid] [Hslots H6] Harg Hex]. pose proof (entered_pcb p k false Hin) as Ha.
  destruct (base_shell_gives_up p k Hin) as (k1 & Hpr1 & Hgu). set (k0 := enter_kernel false k) in *.
  set (k3 := k1 <| devs ::= cli |> <| processes_running ::= zset (p - 1) 0 |>) in *.
  destruct Hgu as [Hw3 Him3 Hpcb3 [Hfs3 Hte3] Hrun3 Hcur3 Hscr].
  pose proof (executable_same _ _ _ _ _ _ Him3 Hex) as Hex3.
  assert (names_program d0 (Object (text "shell")) k3 (text "shell") (text "shell") [] 0 i 5) as Hnp by (by apply (shell_names d0 locals)).
  destruct (execute_runs d0 locals (Object (text "shell")) k3 _ _ _ _ i _ p Hnp) as (K & HK & Hst & HrunK & Hfw & Hfree).
  { by apply (executable_is_program d0 locals _ (text "shell")); [apply Hw3|]. }
  { rewrite Hrun3. apply find_free_pid_first; [lia|apply zget_zset_eq; lia|]. intros q Hq. rewrite zget_zset_ne by lia. rewrite Hslots by lia. done. }
  { rewrite Hpcb3. destruct (pg_fds _ _ Hin) as [Hl Hf _ _ _]. by split. }
  { by rewrite Hpcb3. }
  change (u32 (s8 (entry_byte k3 i 36))) with (file_inode k3 i) in Hst.
  destruct (started_program d0 locals i p _ _ _ _ k k3 K Hex Him3 Hst) as [Hentry Hcode].
  destruct (ex_room _ _ _ _ _ Hex3 (read_counts k3)) as (HL1 & HL2 & Hsep).
  pose proof (ex_image _ _ _ _ _ Hex3) as Himg3.
  pose proof (started_switched _ _ _ _ _ _ _ _ Hst ltac:(lia) HL1) as Hsw3.
  pose proof (started_same_image _ _ _ _ _ _ _ _ Hst ltac:(lia) HL1 (cw_map _ Hw3) Himg3 Hsep) as HimK.
  assert (get_pcb (pcb_addr p) k3 = get_pcb (pcb_addr p) k) as Hbk by apply Hpcb3.
  assert (processes_running K = processes_running k) as HrunKk.
  { rewrite HrunK, Hrun3, zset_zset.
    pose proof (zset_id (p - 1) (processes_running k) ltac:(lia)) as Hz. by rewrite (Hslots p) in Hz by lia. }
  destruct (switched_turn p k3 K Hsw3) as [HcK HvK]. rewrite Hcur3 in HcK.
  exists K. split; [|split].
  - unfold trap. fold k0. change (systemcall d0 locals SYS_HALT r 0 0) with (halt d0 locals (u8 r)).
    unfold halt. rewrite !bind_get, Ha. change (get_pcb (pcb_addr p) k0) with (get_pcb (pcb_addr p) k). rewrite Hpid.
    replace (p <? NUM_TERMINALS + 1) with true by (unfold NUM_TERMINALS; lia).
    change (text "Cannot close base process -- ") with base_message. rewrite (bind_Ret _ _ _ _ _ Hpr1).
    unfold dev_op. rewrite !bind_modify. fold k3. by rewrite (bind_Ret _ _ _ _ _ HK).
  - split; [|split; [lia|]| | |].
    + refine (started_in_program _ _ _ _ _ _ _ _ Hst _ HL1 Hw3 Himg3 Hsep _ _ _ _ Hfw); [lia| | | |].
      * rewrite Hfs3. apply Hin.
      * rewrite Hte3. apply Hin.
      * rewrite Hbk. destruct (pg_fds _ _ Hin) as [Hl Hf _ _ _]. by split.
      * rewrite Hbk. apply Hin.
    + by rewrite (st_block _ _ _ _ _ _ _ _ _ Hst).
    + rewrite HrunKk. exact (conj Hslots H6).
    + rewrite (st_block _ _ _ _ _ _ _ _ _ Hst). apply zlen_pad. vm_compute. discriminate.
    + by apply (executable_same d0 locals k3).
  - exact Hentry.
  - exact Hcode.
  - exact Hfree.
  - intros a Hne. by rewrite (st_others _ _ _ _ _ _ _ _ _ Hst), Hpcb3.
  - exact HrunKk.
  - split; [done|]. rewrite <- Hcur3. unfold get_terminal. rewrite (st_pid _ _ _ _ _ _ _ _ _ Hst).
    set (c := current_term (sched k3)) in *. set (T := get_terminal c k3 <| pid := p |>).
    change (pid (get_terminal c (put_terminal c T k3)) = p).
    rewrite get_put_terminal; [done|apply Hw3|apply (sw_current _ (cw_sched _ Hw3))].
  - cbv zeta. rewrite (switched_view p k3 K Hw3 Hsw3); [exact Hscr|]. destruct (pg_console _ _ Hin) as [_ Hsw]. apply Hsw.
Qed.
(** C16. A base shell never ends: when the shell of process 1, 2 or 3 halts (its user typed
    exit, or its read failed), [halt] says so on the screen, gives the slot up and executes
    the shell again, which takes the same slot - the least free one, as the slots before it
    are taken - on the same terminal: it is entered in user mode with its file loaded
    afresh and no file open.  The slots are the same as before, no other process's control
    block has changed, and the new shell may halt again in the same way. *)
Theorem base_shell_restarts p i r k :
  base_shell p i k ->
  exists K, trap false (systemcall d0 locals SYS_HALT r 0 0) k = Ret In_user K /\ shell_again p i k K.
Proof. apply base_shell_halts. Qed.
End Restart.

(** The first shell, at its end. *)
Definition ending_shell : kernel :=
  demo_user <| phys := exec_image (text "shell") |> <| processes_running := [1; 0; 0; 0; 0; 0] |>.
Lemma ending_shell_executable : executable (dentry_a (fs loaded_kernel)) (λ _, 0x7F0000) ending_shell (text "shell") 1.
Proof.
  apply (executable_same _ _ _ _ _ _) with (2 := loaded_executable).
  apply same_image_mapped; [exact booted_kernel_map|exact demo_running_map|apply (ex_image _ _ _ _ _ loaded_executable)|reflexivity|done].
Qed.
Lemma ending_shell_in : in_program 1 ending_shell.
Proof.
  destruct demo_in_program as [[H0 H1] H2 H3 H4 H5 H6 H7 _]. split; [by split|exact H2|exact H3|exact H4|exact H5|exact H6|exact H7|].
  apply (ex_image _ _ _ _ _ ending_shell_executable).
Qed.
Lemma base_shell_restarts_witness :
  exists K, trap false (systemcall (dentry_a (fs loaded_kernel)) (λ _, 0x7F0000) SYS_HALT 0 0 0) ending_shell = Ret In_user K /\
    processes_running K = [1; 0; 0; 0; 0; 0] /\ view_of 0 K = put_all base_message (view_of 0 ending_shell).
Proof.
  destruct (base_shell_restarts (dentry_a (fs loaded_kernel)) (λ _, 0x7F0000) 1 1 0 ending_shell) as (K & HK & Hsg).
  - split; [exact ending_shell_in|split; [lia|reflexivity]| |reflexivity|exact ending_shell_executable].
    split; [|reflexivity]. intros q Hq. replace q with 1 by lia. reflexivity.
  - exists K. split; [exact HK|]. split; [exact (sg_slots _ _ _ _ _ _ Hsg)|exact (sg_screen _ _ _ _ _ _ Hsg)].
Defined.
