(* ===== verification/Session.v ===== *)
(** * A session: the components together

    What a person types reaches the program that reads: the keyboard routine, the terminal's
    line, and the [read] call on descriptor 0. *)
From S2P Require Import Prelude Machine Lib Paging Devices State Console Terminal Filesystem SysCall Process Keyboard Scheduler.

(** ** Typing, in terms of the line editor *)
Definition codes_of_line (l : list Z) : list Z := concat (codes_of <$> l).
Definition press_all (temp0 : Z) (codes : list Z) (e : editor) : editor := foldl (λ e a, press temp0 a e) e codes.

Lemma press_all_app temp0 c1 c2 e : press_all temp0 (c1 ++ c2) e = press_all temp0 c2 (press_all temp0 c1 e).
Proof. apply foldl_app. Qed.
Lemma press_codes temp0 c e :
  32 <= c <= 126 -> ed_mods e = no_modifiers -> zlen (zget (ed_terms e) (ed_shown e)).2 <> 127 ->
  press_all temp0 (codes_of c) e = edit_term (λ '(v, l), (put c v, l ++ [c])) e.
Proof.
  intros Hc Hm Hl. assert (act (Type_char c) e = edit_term (λ '(v, l), (put c v, l ++ [c])) e) as Hact
    by (unfold act; by rewrite (proj2 (Z.eqb_neq _ _) Hl)).
  pose proof (codes_of_types temp0 c Hc) as Ht. destruct (codes_of c) as [|a [|b [|d [|]]]]; destruct Ht as [Ht|Ht]; try discriminate Ht.
  - assert (key_action temp0 no_modifiers a = Type_char c) as Hk by exact (f_equal (hd Nothing) Ht). cbn [press_all foldl]. unfold press. by rewrite Hm, Hk.
  - assert (key_action temp0 no_modifiers a = Modify left_shift) as H1 by exact (f_equal (hd Nothing) Ht).
    assert (key_action temp0 left_shift b = Type_char c) as H2 by exact (f_equal (λ l, hd Nothing (tl l)) Ht).
    assert (key_action temp0 left_shift d = Modify no_modifiers) as H3 by exact (f_equal (λ l, hd Nothing (tl (tl l))) Ht).
    cbn [press_all foldl]. unfold press at 3. rewrite Hm, H1.
    unfold press at 2. change (ed_mods (act (Modify left_shift) e)) with left_shift. rewrite H2.
    assert (act (Type_char c) (act (Modify left_shift) e) =
      Editor left_shift (ed_shown e) (ed_terms (act (Type_char c) e)) (ed_entered e)) as Hs.
    { unfold act. cbn [ed_terms ed_shown]. by case_match. }
    unfold press. rewrite Hs. cbn [ed_mods]. rewrite H3, Hact. rewrite <- Hm. done.
Qed.

Lemma edit_term_compose f g e :
  0 <= ed_shown e < zlen (ed_terms e) -> edit_term g (edit_term f e) = edit_term (λ x, g (f x)) e.
Proof.
  intros Hr. unfold edit_term. cbn [ed_mods ed_shown ed_terms ed_entered]. by rewrite zget_zset_eq, zset_zset by lia.
Qed.
Lemma edit_term_shown f e :
  0 <= ed_shown e < zlen (ed_terms e) ->
  zget (ed_terms (edit_term f e)) (ed_shown (edit_term f e)) = f (zget (ed_terms e) (ed_shown e)).
Proof. intros Hr. by apply zget_zset_eq. Qed.
Lemma edit_term_ext f g e :
  f (zget (ed_terms e) (ed_shown e)) = g (zget (ed_terms e) (ed_shown e)) -> edit_term f e = edit_term g e.
Proof. intros H. unfold edit_term. by rewrite H. Qed.
Lemma edit_term_id f e :
  0 <= ed_shown e < zlen (ed_terms e) ->
  f (zget (ed_terms e) (ed_shown e)) = zget (ed_terms e) (ed_shown e) -> edit_term f e = e.
Proof. intros Hr H. unfold edit_term. rewrite H, zset_id by lia. by destruct e. Qed.

Lemma press_line temp0 l e v l0 :
  Forall (λ c, 32 <= c <= 126) l -> ed_mods e = no_modifiers -> 0 <= ed_shown e < zlen (ed_terms e) ->
  zget (ed_terms e) (ed_shown e) = (v, l0) -> zlen l0 + zlen l <= 127 ->
  press_all temp0 (codes_of_line l) e = edit_term (λ _, (put_all l v, l0 ++ l)) e.
Proof.
  intros Hl. revert e v l0. induction Hl as [|c l Hc Hl IH]; intros e v l0 Hm Hr Hat Hlen.
  { rewrite app_nil_r. symmetry. apply (edit_term_id _ e); [done|]. by rewrite Hat. }
  rewrite zlen_cons in Hlen. pose proof (zlen_nonneg l).
  change (codes_of_line (c :: l)) with (codes_of c ++ codes_of_line l).
  rewrite press_all_app, press_codes by (done || (rewrite Hat; cbn; lia)).
  rewrite (IH _ (put c v) (l0 ++ [c])).
  - rewrite edit_term_compose by done. by rewrite <- app_assoc.
  - exact Hm.
  - unfold edit_term. cbn [ed_shown ed_terms]. by rewrite zlen_zset.
  - rewrite edit_term_shown by done. by rewrite Hat.
  - rewrite zlen_app. change (zlen [c]) with 1. lia.
Qed.

Lemma press_enter temp0 e : ed_mods e = no_modifiers -> press temp0 ENTER e = act Enter e.
Proof. unfold press. by intros ->. Qed.

(** ** A read on the keyboard *)
Lemma read_keyboard d0 k buf n :
  fds_wf (proc_fds k) -> buf <> 0 -> read d0 0 buf n k = terminal_read 0 buf n k.
Proof.
  intros Hf Hb. destruct (fw_stdin _ Hf) as [Hin Ht]. unfold read, get_fd. fold (proc_fds k).
  cbn [Z.ltb Z.compare orb]. change (FDEND <? 0) with false. cbv iota. rewrite (proj2 (Z.eqb_neq _ _) Hb).
  change (0 =? 1) with false. cbv iota. unfold in_use in Hin. apply negb_true_iff in Hin. by rewrite Hin, Ht.
Qed.

(** Clearing a user buffer leaves the editor alone. *)
Lemma read_begin_editor k b n p :
  input_wf k -> coherent k -> user_page p (mmu_of k) -> user_base <= b -> 0 <= n -> b + n <= user_base + 0x400000 ->
  let k' := terminal_read_begin b n k in
  input_wf k' /\ coherent k' /\ editor_of k' = editor_of k.
Proof.
  intros Hw Hc Hp Hb Hn Hbn k'. destruct (terminal_read_begin_same b n k) as (Hr & Ht & Hs & Hm). fold k' in Hr, Ht, Hs, Hm.
  assert (forall q, q < 0x800000 -> phys k' !! q = phys k !! q) as Hph.
  { intros q Hq. unfold k', terminal_read_begin. rewrite memset_bytes. apply phys_store_out.
    rewrite zlen_replicate. intros i Hi. unfold user_base in *. rewrite u32_id in Hi by lia.
    rewrite (resolve_user k p) by (done || apply Hw || (unfold user_base; lia)).
    destruct Hp as [Hp _]. unfold user_frame, user_base. lia. }
  split; [|split].
  - destruct Hw as [[H1 H2] H3 H4 H5 H6 H7]. rewrite Hr. by split; [split|..].
  - unfold coherent, frame_of in *. by rewrite Hm, Hs.
  - assert (kbd k' = kbd k) as Hk by (by rewrite Hr). unfold editor_of. rewrite (mods_same k k') by (by rewrite Hk).
    rewrite Hs, Ht. f_equal. apply tabulate_ext. intros t Ht'.
    assert (get_terminal t k' = get_terminal t k) as HT by (unfold get_terminal; by rewrite Hs).
    rewrite HT. f_equal. apply term_view_same; [done|]. intros i Hi. unfold screen_byte, frame_of, phys_byte.
    rewrite Hs, Hph; [done|]. unfold VID_START_ADDR, T1_BUF_ADDR. case_match; lia.
Qed.

Lemma codes_of_range c : Forall (λ a, 0 <= a < 0xFF) (codes_of c).
Proof.
  assert (forall P `{!forall a : nat, Decision (P a)} i a, list_find P (seq 2 12 ++ seq 15 43) = Some (i, a) -> 0 <= Z.of_nat a < 0xFF) as Hin.
  { intros P ? i a Hf. apply list_find_Some in Hf as (Hl & _ & _). apply list_elem_of_lookup_2 in Hl.
    apply elem_of_app in Hl as [Hl|Hl]; apply elem_of_seq in Hl; lia. }
  unfold codes_of. case_match eqn:H1.
  - destruct p as [i a]. apply Hin in H1. by apply Forall_singleton.
  - case_match eqn:H2; [|by constructor]. destruct p as [i a]. apply Hin in H2.
    unfold LEFTSHIFT, LEFTSHIFTRELEASED. apply Forall_cons; split; [lia|]. apply Forall_cons; split; [lia|].
    apply Forall_singleton; lia.
Qed.
Lemma codes_of_line_range l : Forall (λ a, 0 <= a < 0xFF) (codes_of_line l ++ [ENTER]).
Proof.
  apply Forall_app. split; [|unfold ENTER; apply Forall_singleton; lia].
  apply Forall_concat, Forall_fmap, Forall_true. intros c. apply codes_of_range.
Qed.

(** Typing a line and Enter on an idle terminal. *)
Lemma press_line_enter temp0 l k :
  input_wf k -> mods_of k = no_modifiers ->
  let t := visable_term (sched k) in
  typed_of (get_terminal t k) = [] -> Forall (λ c, 32 <= c <= 126) l -> zlen l <= 127 ->
  press_all temp0 (codes_of_line l ++ [ENTER]) (editor_of k) =
    Editor no_modifiers t (zset t (put_all (l ++ [10]) (term_view t k), []) (ed_terms (editor_of k)))
      (zset t (Some l) (ed_entered (editor_of k))).
Proof.
  intros Hw Hm t Hty Hl Hlen. pose proof (sw_visable _ (cw_sched _ (iw_console _ Hw))) as Ht. fold t in Ht.
  assert (zget (ed_terms (editor_of k)) t = (term_view t k, [])) as Hat by (rewrite zget_terms, Hty; done).
  assert (0 <= ed_shown (editor_of k) < zlen (ed_terms (editor_of k))) as Hr
    by (cbn [editor_of ed_shown ed_terms]; rewrite zlen_tabulate; fold t; lia).
  rewrite press_all_app, (press_line temp0 l (editor_of k) (term_view t k) []) by done.
  cbn [press_all foldl]. rewrite press_enter by done. unfold act.
  rewrite edit_term_compose, edit_term_shown by done. cbn [snd app]. rewrite put_all_app.
  unfold edit_term. cbn [ed_mods ed_shown ed_terms ed_entered editor_of]. by rewrite Hm.
Qed.

(** C12. What is typed is read: a process of the visible terminal that reads descriptor 0 waits,
    with its buffer cleared; when the keys of a line of at most 127 printable characters and
    Enter arrive, interrupt by interrupt, the line is echoed on that terminal's screen and
    the read ends: it returns the length with the newline - the comment on [terminal_read]
    says 0 always, see the findings -, the buffer holds exactly the line and a newline, and
    the terminal is ready for the next line. *)
Theorem waiting_read_completes d0 temp0 k p buf n l :
  let t := visable_term (sched k) in
  input_wf k -> coherent k -> current_term (sched k) = t -> mods_of k = no_modifiers ->
  typed_of (get_terminal t k) = [] -> entered t (term k) = None -> fds_wf (proc_fds k) ->
  user_page p (mmu_of k) -> user_base <= buf -> 0 <= n -> buf + n <= user_base + 0x400000 ->
  buf + zlen l + 1 <= user_base + 0x400000 ->
  Forall (λ c, 32 <= c <= 126) l -> zlen l <= 127 -> 0 <= temp0 < 256 ->
  exists k0 k1 k2, read d0 0 buf n k = Wait k0 /\
    keys_arrive temp0 (codes_of_line l ++ [ENTER]) k0 = Ret tt k1 /\
    term_view t k1 = put_all (l ++ [10]) (term_view t k) /\
    terminal_read_end buf k1 = Ret (zlen l + 1) k2 /\
    load_bytes k2 buf (Z.to_nat (zlen l + 1)) = l ++ [10] /\
    entered t (term k2) = None /\ typed_of (get_terminal t k2) = [].
Proof.
  intros t Hw Hc Hcur Hm Hty Hent Hf Hp Hb Hn Hbn Hbl Hl Hlen Htemp.
  pose proof (sw_visable _ (cw_sched _ (iw_console _ Hw))) as Ht. fold t in Ht.
  set (k0 := terminal_read_begin buf n k).
  destruct (read_begin_editor k buf n p Hw Hc Hp Hb Hn Hbn) as (Hw0 & Hc0 & He0). fold k0 in Hw0, Hc0, He0.
  destruct (terminal_read_begin_same buf n k) as (_ & _ & Hss & Hmm). fold k0 in Hss, Hmm.
  destruct (keys_arrive_edit temp0 (codes_of_line l ++ [ENTER]) k0 Hw0 Hc0 Htemp (codes_of_line_range l))
    as (k1 & Hrun & Hw1 & Hc1 & He1 & Hq1).
  fold (press_all temp0 (codes_of_line l ++ [ENTER]) (editor_of k0)) in He1.
  rewrite He0, (press_line_enter temp0 l k Hw Hm Hty Hl Hlen) in He1. fold t in He1.
  assert (visable_term (sched k1) = t) as Hv1 by exact (f_equal ed_shown He1).
  assert (current_term (sched k1) = t) as Hcur1 by (by rewrite (proj1 (qu_current _ _ Hq1)), Hss).
  pose proof (f_equal (λ e, zget (ed_terms e) t) He1) as Ht1. cbv beta in Ht1. cbn [ed_terms] in Ht1.
  rewrite zget_zset_eq in Ht1 by (cbn [editor_of ed_terms]; rewrite zlen_tabulate; lia). rewrite zget_terms in Ht1 by done.
  injection Ht1 as Hview Htyped.
  pose proof (f_equal (λ e, zget (ed_entered e) t) He1) as Hen1. cbv beta in Hen1. cbn [ed_entered editor_of] in Hen1.
  rewrite zget_zset_eq in Hen1 by (rewrite zlen_tabulate; lia). rewrite zget_tabulate in Hen1 by lia.
  destruct (terminal_read_end_ready k1 buf l) as (k2 & H1 & H2 & H3 & H4 & _).
  - apply (iw_term _ Hw1).
  - by rewrite Hcur1.
  - by rewrite Hcur1.
  - eapply Forall_impl; [exact Hl|]. cbv beta. lia.
  - apply (user_inj_range k1 p); [apply Hw1| |done|lia].
    destruct Hp as [Hp1 Hp2]. split; [done|]. by rewrite (qu_directory _ _ Hq1), Hmm.
  - exists k0, k1, k2. split; [|split; [done|split; [done|split; [done|split; [done|split]]]]].
    + rewrite read_keyboard by (done || (unfold user_base in Hb; lia)). apply terminal_read_waits. by rewrite Hcur.
    + by rewrite Hcur1 in H3.
    + unfold get_terminal. by rewrite H4.
Qed.

(** Process 1 of the first terminal, reading up to 128 characters; the person types [ls A!]. *)
Definition demo_session : kernel :=
  init_keyboard (demo_running <| kbd := KbdVars keymap (replicate 128 0) |> <| pcbs := pcbs demo_sys |>).
Lemma demo_session_wf : input_wf demo_session.
Proof.
  destruct demo_input_wf as [[H1 H2] H3 H4 H5 H6 H7].
  split; [split; [exact demo_running_map|exact H2]|exact H3|exact H4|exact H5|exact H6|exact H7].
Qed.
Lemma waiting_read_completes_witness :
  exists k0 k1 k2, read (dentry_a (fs demo_session)) 0 0x8000000 128 demo_session = Wait k0 /\
    keys_arrive 0 (codes_of_line (text "ls A!") ++ [ENTER]) k0 = Ret tt k1 /\
    terminal_read_end 0x8000000 k1 = Ret 6 k2 /\ load_bytes k2 0x8000000 6 = text "ls A!" ++ [10].
Proof.
  destruct (waiting_read_completes (dentry_a (fs demo_session)) 0 demo_session 1 0x8000000 128 (text "ls A!"))
    as (k0 & k1 & k2 & H1 & H2 & _ & H3 & H4 & _).
  - exact demo_session_wf.
  - vm_compute. reflexivity.
  - reflexivity.
  - vm_compute. reflexivity.
  - reflexivity.
  - reflexivity.
  - exact demo_fds.
  - exact demo_running_page.
  - unfold user_base; lia.
  - lia.
  - unfold user_base; lia.
  - vm_compute. intuition discriminate.
  - vm_compute. repeat constructor; discriminate.
  - vm_compute. discriminate.
  - lia.
  - exists k0, k1, k2. split; [exact H1|]. split; [exact H2|]. split; [exact H3|exact H4].
Defined.

(** ** Typing between two ticks *)

(** C17. Typing never disturbs the round robin: any sequence of scan codes (0xFF apart) - lines
    being edited and entered, Alt and a function key switching the visible terminal - leaves
    the terminal that runs, the processes and the saved registers of all terminals as they
    are, so that it may happen between two ticks; the scheduler's invariant holds after it,
    and the kernel still writes to the terminal that runs. *)
Theorem typing_keeps_turns temp0 codes k :
  sched_ok k -> input_wf k -> coherent k -> 0 <= temp0 < 256 -> Forall (λ a, 0 <= a < 0xFF) codes ->
  exists K, keys_arrive temp0 codes k = Ret tt K /\ runs_on k K /\ coherent K /\
    forall t, 0 <= t < 3 -> same_process (get_terminal t K) (get_terminal t k).
Proof.
  intros [_ _ Hon Hp] Hw Hc Ht Hcodes.
  destruct (keys_arrive_edit temp0 codes k Hw Hc Ht Hcodes) as (K & HK & Hw' & Hc' & _ & Hq).
  destruct (qu_current _ _ Hq) as [Hcur HonK]. exists K. split; [done|]. split; [|split; [done|apply Hq]].
  split; [split; [apply Hw'|apply Hw'|by rewrite HonK|]|done|done|intros t Ht' _; by apply Hq].
  intros t Ht'. destruct (qu_process _ _ Hq t Ht') as (-> & _). by apply Hp.
Qed.
Lemma typing_keeps_turns_witness :
  exists K, keys_arrive 0 [ALTPRESSED; 0x3C; ALTRELEASED; 0x1E]
    (init_keyboard (sched_kernel [1; 1; 1] <| kbd := KbdVars keymap (replicate 128 0) |> <| mmu_of ::= paging_set_write_to_buffer 2 |>))
    = Ret tt K.
Proof.
  set (k := init_keyboard _).
  assert (kernel_map (mmu_of k)) as Hm by (apply paging_set_write_to_buffer_kernel_map, booted_kernel_map).
  assert (sched_ok k) as Hok.
  { destruct (sched_kernel_ok [1; 1; 1] eq_refl) as [[H1 H2] H3 H4 H5]. by split; [split|..]. }
  destruct (typing_keeps_turns 0 [ALTPRESSED; 0x3C; ALTRELEASED; 0x1E] k Hok) as (K & HK & _).
  - destruct demo_input_wf as [_ _ H4 H5 _ H7]. split; [apply Hok|apply Hok|exact H4|exact H5| |exact H7].
    intros t Ht. assert (t = 0 \/ t = 1 \/ t = 2) as [->|[->| ->]] by lia;
      (split; [reflexivity|by apply Forall_replicate|vm_compute; intuition discriminate]).
  - vm_compute. reflexivity.
  - lia.
  - unfold ALTPRESSED, ALTRELEASED. repeat (apply Forall_cons; split; [lia|]). by constructor.
  - exists K. exact HK.
Defined.
